(* ===== verification/_CoqProject ===== *)
-Q . S2P
Prelude.v
Machine.v
Digits.v
StringC.v
Spinlock.v
Kalloc.v
Vm.v
VmWalk.v
VmMap.v
VmUser.v
VmKern.v
VmAlloc.v
VmCopy.v
Demo.v
LockProps.v
MemProps.v
Kernel.v
Sleep.v
Bio.v
Log.v
Inode.v
Console.v
Fs.v
Pipe.v
File.v
Proc.v
Exec.v
Sysfile.v
KernelWp.v
DemoK.v
Mmap.v
Trap.v
MmapWp.v
MmapProps.v
TrapProps.v
ProcProps.v
PipeProps.v
Bytes.v
BioWp.v
LogWp.v
LogProps.v
FsProps.v
User.v
UserProps.v
Tools.v
GrepProps.v
ToolsProps.v
Umalloc.v
UmallocProps.v
Sh.v
ShProps.v
ShPrint.v
Mkfs.v
MkfsProps.v
Hw.v
Apic.v
Ide.v
IdeProps.v
IdeSpec.v
Screen.v
ScreenProps.v
Kbd.v
KbdProps.v
Mp.v
MpProps.v
Boot.v
BootProps.v
ApicProps.v
