(* ===== verification/Prelude.v ===== *)
(** * xv6 with mmap: a verification development (root file)

    The program is xv6, a small Unix for x86 multiprocessors, with an [mmap]
    and [munmap] of its own (src/xv6-public).  The development translates the
    kernel, its drivers, the boot loader, the user library, the user programs
    and the image builder into executable definitions and proves what they do.

    ** The parts and how they interact

    The boot loader reads the kernel from the disk.  The kernel consists of
    the page allocator, page tables over it, processes with their lists of
    memory mappings (VMAs), traps and system calls on top of these, and a file
    system in layers: disk driver, buffer cache, log, inodes, directories,
    open files, pipes and the console.  Locks, [sleep] and [wakeup] connect
    processes and interrupt handlers.  User programs see system calls only.

    ** How code is modelled

    [M S A] below is a state monad over a state [S] whose results ([res]) are:
    a value and a new state ([Ok]), a kernel panic ([Panic]), behaviour that C
    leaves undefined or a null dereference ([Undef]), a loop that has used up
    its fuel ([NoFuel]), and a thread that gives up the CPU ([Sched], with
    what it does when it is resumed, in whatever state that is).  Words are
    [Z] with [u8], [u16], [u32] and [s32] where the C types truncate; memory
    is byte-addressed.  Devices, firmware, host and linker symbols are
    parameters: type classes with the laws that the theorems rely on, each
    with an instance at which the theorems are applied.

    ** Files and sources

    Shared: [Prelude] (monad, tactics, lemmas), [Machine] (param.h,
    memlayout.h, mmu.h, mmap.h and other constants), [Digits] (the digit loop
    of both [printint]s, and what numerals and formats mean), [Bytes], [Demo] and [DemoK] (concrete
    states).

    Memory: [StringC] (string.c), [Spinlock] (spinlock.c: one CPU, and the
    [xchg] protocol on many CPUs as a step relation), [Kalloc] (kalloc.c),
    [Vm] (vm.c); specifications in [VmWalk], [VmMap], [VmUser], [VmKern],
    [VmAlloc], [VmCopy]; theorems in [LockProps], [MemProps].

    Kernel: [Kernel] (the state: proc.h, file.h, fs.h, buf.h), [Sleep]
    (proc.c: [sched], [sleep], [wakeup]; sleeplock.c), [Bio] (bio.c, memide.c),
    [Log] (log.c), [Inode] and [Fs] (fs.c), [Console] (console.c, input),
    [Pipe] (pipe.c), [File] (file.c), [Proc] (proc.c), [Exec] (exec.c),
    [Sysfile] (syscall.c, sysfile.c), [Mmap] (sysfile.c: [mmap], [munmap]),
    [Trap] (trap.c, sysproc.c).  [KernelWp], [MmapWp], [BioWp] and [LogWp]
    have the equations and specifications for running them; theorems are in
    [MmapProps], [TrapProps], [ProcProps], [PipeProps], [LogProps], [FsProps].

    Devices: [Hw] (x86.h port and register access), [Apic] (lapic.c, ioapic.c,
    picirq.c), [Ide] (ide.c), [Screen] (console.c output, uart.c, the call
    stack of spinlock.c, [procdump] of proc.c), [Kbd] (kbd.c, kbd.h), [Mp]
    (mp.c, mp.h), [Boot] (bootmain.c, [seginit] of vm.c); theorems in
    [ApicProps], [IdeProps], [IdeSpec], [ScreenProps], [KbdProps], [MpProps],
    [BootProps].

    User space: [User] (ulib.c, printf.c over an interface of system calls),
    [Tools] (cat, echo, grep, init, kill, ln, ls, mkdir, rm, wc, zombie),
    [Umalloc] (umalloc.c), [Sh] (sh.c), [Mkfs] (mkfs.c, which runs on the
    host); theorems in [UserProps], [GrepProps], [ToolsProps], [UmallocProps],
    [ShProps], [ShPrint], [MkfsProps].

    ** What the theorems show

    - Mappings: the first anonymous [mmap], and the growth by a guard page that
      has a page of margin behind it, do exactly what they are meant to;
      [munmap] has no effect, a second [mmap] panics, a mapping also grows into
      a gap of a single page, and faults inside a plain mapping are not
      resolved, which are flaws of the code.
    - Page tables: every routine of vm.c has its exact effect on translations,
      data and the free list, failure included.
    - Processes: mutual exclusion for any interleaving; [sleep] leaves no
      moment, before the process is recorded as sleeping, at which a CPU that
      needs the condition's lock and [ptable.lock] could run; distinct pids as
      long as [nextpid] does not overflow; a scheduler round switches to every
      runnable process that no other CPU takes.
    - File system: the disk is kept as the sequence of its writes; a commit cut
      off after any of its writes is recovered to the old or the new blocks;
      [pipewrite] and [piperead] are the blocking operations of a bounded
      queue, through every switch; [argptr] accepts exactly the process's own
      memory.
    - Disk driver: runs of ide.c are runs of an abstract disk that serves
      requests in order, each as memide.c serves it; interrupts empty the
      queue.  The drive is one that reports no errors.  The file system's proofs, made over memide.c, rest on the same
      contract of [iderw].
    - Other devices: [cprintf] and [panic] on screen and serial line (one that
      is ready within the driver's polls), text typed on a US keyboard reaching
      the console, interrupt routing, the clock, the processor
      table, the loaded kernel image.
    - User space: [printf], the matcher of grep, grep, wc, cat, [malloc] and
      [free], the shell's parser as inverse of a printer, and the image that
      mkfs writes.

    ** Bounds and fuel

    Loops whose length the code bounds (tables, buffers, page ranges) recurse
    on that bound.  Loops that wait for an event take [waits] (class [Waits]
    of [Sleep]); theorems hold for every value above the number of rounds
    that the stated conditions leave.  Other fuel is an argument, and the
    theorems say how much is enough (the length of the input, four per
    character of a shell line, one per table entry) and that the result is
    then [Ok]; where the code does not return, the result is [NoFuel] for
    every fuel.  Search loops over arrays use the size of the array plus one,
    which they cannot exceed.

    ** Not modelled

    - Assembly (bootasm.S, entry.S, entryother.S, swtch.S, trapasm.S,
      initcode.S, usys.S, vectors.pl): [swtch] is the resumption of [Sched],
      a trap frame a record.
    - [main], [mpmain] and [startothers] of main.c: they call the components'
      initialisation routines, on the states of all components at once; the
      table [entrypgdir].
    - Other CPUs inside the kernel: a component runs on one CPU, and what the
      others do shows at the points where a thread is resumed; the protocol of
      the lock itself is proved for many CPUs.
    - The messages of [cprintf] inside the kernel's components, [microdelay]
      (empty), and the fields of the task state other than [esp0].
    - Test programs (usertests.c, forktest.c, stressfs.c, src/tests) and the
      scripts sign.pl and pr.pl. *)

From Stdlib Require Export ZArith Lia.
From stdpp Require Export base list gmap strings numbers.

#[global] Open Scope Z_scope.

(** ** Machine integers

    [uint] and [int] are [Z] kept at 32 bits: [u32] is the wrap-around of
    unsigned arithmetic, [s32] the two's complement reading of a word. *)

Definition u32 (z : Z) : Z := z mod 4294967296.

Definition s32 (z : Z) : Z :=
  let w := u32 z in if w <? 2147483648 then w else w - 4294967296.

Definition u8 (z : Z) : Z := z mod 256.

Definition u16 (z : Z) : Z := z mod 65536.

Definition s16 (z : Z) : Z :=
  let w := u16 z in if w <? 32768 then w else w - 65536.

(** C's [x & f] used as a condition. *)
Definition bit_set (x f : Z) : bool := negb (Z.land x f =? 0).

(** ** Results of kernel code

    A kernel thread runs until it returns ([Ok]), calls [panic], does
    something C leaves undefined or faults in kernel mode ([Undef]), exhausts
    the fuel of a loop of the model ([NoFuel]) or gives up the CPU by
    [sched()] ([Sched]).  In the last case the result holds the state at the
    switch and what the thread does from the state in which it is resumed. *)

Inductive res (S A : Type) : Type :=
| Ok (a : A) (s : S)
| Panic (msg : string)
| Undef (msg : string)
| NoFuel
| Sched (s : S) (k : S -> res S A).

Arguments Ok {S A} a s.
Arguments Panic {S A} msg.
Arguments Undef {S A} msg.
Arguments NoFuel {S A}.
Arguments Sched {S A} s k.

Fixpoint bindr {S A B} (r : res S A) (f : A -> S -> res S B) : res S B :=
  match r with
  | Ok a s => f a s
  | Panic msg => Panic msg
  | Undef msg => Undef msg
  | NoFuel => NoFuel
  | Sched s k => Sched s (fun s' => bindr (k s') f)
  end.

Definition M (S A : Type) : Type := S -> res S A.

Definition ret {S A} (a : A) : M S A := fun s => Ok a s.

Definition bind {S A B} (m : M S A) (f : A -> M S B) : M S B :=
  fun s => bindr (m s) f.

Definition panic {S A} (msg : string) : M S A := fun _ => Panic msg.

Definition undef {S A} (msg : string) : M S A := fun _ => Undef msg.

Definition get {S} : M S S := fun s => Ok s s.

Definition gets {S A} (f : S -> A) : M S A := fun s => Ok (f s) s.

Definition modify {S} (f : S -> S) : M S unit := fun s => Ok tt (f s).

(** The point at which a thread is switched out. *)
Definition swtch {S} : M S unit := fun s => Sched s (fun s' => Ok tt s').

Declare Scope mon_scope.
Delimit Scope mon_scope with mon.

Notation "x <- m ;; k" := (bind m (fun x => k))
  (at level 100, m at next level, right associativity) : mon_scope.
Notation "m ;; k" := (bind m (fun _ => k))
  (at level 100, right associativity) : mon_scope.
Notation "'when' b 'do' m" := (if b then m else ret tt)
  (at level 99, b at level 50, m at level 99) : mon_scope.

#[global] Open Scope mon_scope.

(** [for (x in l) body]: the body may stop the loop early with [Some]. *)
Fixpoint for_each {S A R} (l : list A) (body : A -> M S (option R)) : M S (option R) :=
  match l with
  | [] => ret None
  | x :: l' =>
      r <- body x ;;
      match r with
      | Some v => ret (Some v)
      | None => for_each l' body
      end
  end.

Fixpoint for_all {S A} (l : list A) (body : A -> M S unit) : M S unit :=
  match l with
  | [] => ret tt
  | x :: l' => body x ;; for_all l' body
  end.

(** [while]: the body returns [inl] to go round again, [inr] to leave. *)
Fixpoint loop {S A R} (fuel : nat) (body : A -> M S (A + R)) (x : A) : M S R :=
  match fuel with
  | O => fun _ => NoFuel
  | Datatypes.S n =>
      r <- body x ;;
      match r with
      | inl x' => loop n body x'
      | inr v => ret v
      end
  end.

(** ** Total correctness

    [wp m Q s]: from [s] the thread returns, without panic, undefined
    behaviour, lack of fuel or a switch, in a state and with a value in [Q]. *)

Definition wp {S A} (m : M S A) (Q : A -> S -> Prop) (s : S) : Prop :=
  exists a s', m s = Ok a s' /\ Q a s'.

Section Wp.
Context {S : Type}.

Lemma wp_ret {A} (a : A) (Q : A -> S -> Prop) s : Q a s -> wp (ret a) Q s.
Proof. intros H. exists a, s. done. Qed.

Lemma wp_bind {A B} (m : M S A) (f : A -> M S B) Q s :
  wp m (fun a s' => wp (f a) Q s') s -> wp (bind m f) Q s.
Proof.
  intros (a & s' & Hm & b & s'' & Hf & HQ). exists b, s''.
  unfold bind. rewrite Hm. simpl. done.
Qed.

Lemma wp_get (Q : S -> S -> Prop) s : Q s s -> wp get Q s.
Proof. intros H. exists s, s. done. Qed.

Lemma wp_gets {A} (f : S -> A) (Q : A -> S -> Prop) s : Q (f s) s -> wp (gets f) Q s.
Proof. intros H. exists (f s), s. done. Qed.

Lemma wp_modify (f : S -> S) (Q : unit -> S -> Prop) s : Q tt (f s) -> wp (modify f) Q s.
Proof. intros H. exists tt, (f s). done. Qed.

Lemma wp_mono {A} (m : M S A) (P Q : A -> S -> Prop) s :
  wp m P s -> (forall a s', P a s' -> Q a s') -> wp m Q s.
Proof. intros (a & s' & Hm & HP) HPQ. exists a, s'. auto. Qed.

Lemma wp_run {A} (m : M S A) (Q : A -> S -> Prop) a s s' :
  m s = Ok a s' -> Q a s' -> wp m Q s.
Proof. intros Hm HQ. exists a, s'. done. Qed.

Lemma wp_eq {A} (m m' : M S A) (Q : A -> S -> Prop) s s' : m s = m' s' -> wp m' Q s' -> wp m Q s.
Proof. unfold wp. by intros ->. Qed.

Lemma bind_ok {A B} (m : M S A) (f : A -> M S B) s a s' :
  m s = Ok a s' -> bind m f s = f a s'.
Proof. intros Hm. unfold bind. by rewrite Hm. Qed.

Lemma bind_ok_inv {A B} (m : M S A) (f : A -> M S B) s b s'' :
  bind m f s = Ok b s'' -> exists a s', m s = Ok a s' /\ f a s' = Ok b s''.
Proof.
  unfold bind. destruct (m s) as [a s'| | | |]; simpl; try discriminate.
  intros H. exists a, s'. done.
Qed.
End Wp.

(** Steps through the head of a monadic goal. *)
Ltac wp_step :=
  match goal with
  | |- wp (bind _ _) _ _ => apply wp_bind
  | |- wp (ret _) _ _ => apply wp_ret
  | |- wp get _ _ => apply wp_get
  | |- wp (gets _) _ _ => apply wp_gets
  | |- wp (modify _) _ _ => apply wp_modify
  end.

Ltac wp_steps := repeat (wp_step; simpl).

(** [lia] after division and modulo have been turned into equations. *)
Ltac zlia := first [ lia | Z.to_euclidean_division_equations; lia ].

(** Case analysis on the integer comparisons of the goal. *)
Ltac zcases :=
  repeat match goal with
  | |- context [?x <=? ?y] => destruct (Z.leb_spec x y)
  | |- context [?x <? ?y] => destruct (Z.ltb_spec x y)
  | |- context [?x =? ?y] => destruct (Z.eqb_spec x y)
  end; cbn [andb orb negb]; try lia.

Create HintDb xv6.
