(* ===== verification/Machine.v ===== *)
(** * The machine: param.h, memlayout.h, mmu.h and mmap.h

    Constants and address macros of the headers, byte-addressed memory with
    little-endian words, and the linker's symbols [data] and [end] as a class.
    Memory is indexed by kernel virtual address: the kernel reaches physical
    address [pa] at [P2V pa], the direct map that [setupkvm] installs. *)

From Stdlib Require Import ZifyClasses ZifyInst.
From S2P Require Import Prelude.

(** ** Constants *)

Definition NPROC : Z := 64.
Definition KSTACKSIZE : Z := 4096.
Definition NCPU : Z := 8.
Definition NOFILE : Z := 16.
Definition NFILE : Z := 100.
Definition NINODE : Z := 50.
Definition NDEV : Z := 10.
Definition ROOTDEV : Z := 1.
Definition MAXARG : Z := 32.
Definition MAXOPBLOCKS : Z := 10.
Definition LOGSIZE : Z := MAXOPBLOCKS * 3.
Definition NBUF : Z := MAXOPBLOCKS * 3.
Definition FSSIZE : Z := 1000.

(** ** fcntl.h, stat.h, fs.h *)

Definition O_RDONLY : Z := 0x000.
Definition O_WRONLY : Z := 0x001.
Definition O_RDWR : Z := 0x002.
Definition O_CREATE : Z := 0x200.

Definition T_DIR : Z := 1.
Definition T_FILE : Z := 2.
Definition T_DEV : Z := 3.

Definition ROOTINO : Z := 1.
Definition BSIZE : Z := 512.
Definition NDIRECT : Z := 12.
Definition NINDIRECT : Z := BSIZE / 4.
Definition MAXFILE : Z := NDIRECT + NINDIRECT.
(** [sizeof(struct dinode)] is 64 bytes. *)
Definition IPB : Z := BSIZE / 64.
Definition BPB : Z := BSIZE * 8.
Definition DIRSIZ : Z := 14.

Definition EXTMEM : Z := 0x100000.
Definition PHYSTOP : Z := 0xE000000.
Definition DEVSPACE : Z := 0xFE000000.
Definition KERNBASE : Z := 0x80000000.
Definition KERNLINK : Z := KERNBASE + EXTMEM.

Definition NPDENTRIES : Z := 1024.
Definition NPTENTRIES : Z := 1024.
Definition PGSIZE : Z := 4096.
Definition PTXSHIFT : Z := 12.
Definition PDXSHIFT : Z := 22.

Definition PTE_P : Z := 0x001.
Definition PTE_W : Z := 0x002.
Definition PTE_U : Z := 0x004.
Definition PTE_PS : Z := 0x080.

Definition FL_IF : Z := 0x200.
Definition DPL_USER : Z := 3.
Definition SEG_KCODE : Z := 1.
Definition SEG_KDATA : Z := 2.
Definition SEG_UCODE : Z := 3.
Definition SEG_UDATA : Z := 4.
Definition SEG_TSS : Z := 5.

Definition MAP_PRIVATE : Z := 0x0001.
Definition MAP_SHARED : Z := 0x0002.
Definition MAP_ANONYMOUS : Z := 0x0004.
Definition MAP_ANON : Z := MAP_ANONYMOUS.
Definition MAP_FIXED : Z := 0x0008.
Definition MAP_GROWSUP : Z := 0x0010.
Definition PROT_READ : Z := 0x1.
Definition PROT_WRITE : Z := 0x2.
Definition MAX_ADDR : Z := 0x80000000.
Definition MIN_ADDR : Z := 0x60000000.

(** [lia] reads these constants as numerals. *)
#[global] Instance Cst_PGSIZE : CstOp PGSIZE := @mkcst Z Z PGSIZE _ 4096 eq_refl.
Add Zify CstOp Cst_PGSIZE.
#[global] Instance Cst_KERNBASE : CstOp KERNBASE := @mkcst Z Z KERNBASE _ 0x80000000 eq_refl.
Add Zify CstOp Cst_KERNBASE.
#[global] Instance Cst_KERNLINK : CstOp KERNLINK := @mkcst Z Z KERNLINK _ 0x80100000 eq_refl.
Add Zify CstOp Cst_KERNLINK.
#[global] Instance Cst_PHYSTOP : CstOp PHYSTOP := @mkcst Z Z PHYSTOP _ 0xE000000 eq_refl.
Add Zify CstOp Cst_PHYSTOP.
#[global] Instance Cst_EXTMEM : CstOp EXTMEM := @mkcst Z Z EXTMEM _ 0x100000 eq_refl.
Add Zify CstOp Cst_EXTMEM.
#[global] Instance Cst_DEVSPACE : CstOp DEVSPACE := @mkcst Z Z DEVSPACE _ 0xFE000000 eq_refl.
Add Zify CstOp Cst_DEVSPACE.
#[global] Instance Cst_MAX_ADDR : CstOp MAX_ADDR := @mkcst Z Z MAX_ADDR _ 0x80000000 eq_refl.
Add Zify CstOp Cst_MAX_ADDR.
#[global] Instance Cst_MIN_ADDR : CstOp MIN_ADDR := @mkcst Z Z MIN_ADDR _ 0x60000000 eq_refl.
Add Zify CstOp Cst_MIN_ADDR.
#[global] Instance Cst_NPDENTRIES : CstOp NPDENTRIES := @mkcst Z Z NPDENTRIES _ 1024 eq_refl.
Add Zify CstOp Cst_NPDENTRIES.

(** ** Address macros *)

Definition V2P (a : Z) : Z := u32 (a - KERNBASE).
Definition P2V (a : Z) : Z := u32 (a + KERNBASE).

Definition PDX (va : Z) : Z := Z.land (Z.shiftr va PDXSHIFT) 0x3FF.
Definition PTX (va : Z) : Z := Z.land (Z.shiftr va PTXSHIFT) 0x3FF.
Definition PGADDR (d t o : Z) : Z :=
  u32 (Z.lor (Z.lor (Z.shiftl d PDXSHIFT) (Z.shiftl t PTXSHIFT)) o).
Definition PGROUNDUP (sz : Z) : Z := Z.land (u32 (sz + PGSIZE - 1)) (Z.lnot (PGSIZE - 1)).
Definition PGROUNDDOWN (a : Z) : Z := Z.land a (Z.lnot (PGSIZE - 1)).
Definition PTE_ADDR (pte : Z) : Z := Z.land pte (Z.lnot 0xFFF).
Definition PTE_FLAGS (pte : Z) : Z := Z.land pte 0xFFF.

(** ** Segment and gate descriptors *)

Record segdesc := Segdesc {
  lim_15_0 : Z; base_15_0 : Z; base_23_16 : Z; sd_type : Z; sd_s : Z; sd_dpl : Z;
  sd_p : Z; lim_19_16 : Z; avl : Z; sd_rsv1 : Z; db : Z; sd_g : Z; base_31_24 : Z }.

Definition SEG (type base lim dpl : Z) : segdesc :=
  {| lim_15_0 := Z.land (Z.shiftr lim 12) 0xffff; base_15_0 := Z.land base 0xffff;
     base_23_16 := Z.land (Z.shiftr base 16) 0xff; sd_type := type; sd_s := 1;
     sd_dpl := dpl; sd_p := 1; lim_19_16 := Z.shiftr lim 28; avl := 0; sd_rsv1 := 0;
     db := 1; sd_g := 1; base_31_24 := Z.shiftr base 24 |}.

Definition SEG16 (type base lim dpl : Z) : segdesc :=
  {| lim_15_0 := Z.land lim 0xffff; base_15_0 := Z.land base 0xffff;
     base_23_16 := Z.land (Z.shiftr base 16) 0xff; sd_type := type; sd_s := 1;
     sd_dpl := dpl; sd_p := 1; lim_19_16 := Z.land (Z.shiftr lim 16) 0xf; avl := 0;
     sd_rsv1 := 0; db := 1; sd_g := 0; base_31_24 := Z.shiftr base 24 |}.

Definition STS_IG32 : Z := 0xE.
Definition STS_TG32 : Z := 0xF.

Record gatedesc := Gatedesc {
  off_15_0 : Z; gd_cs : Z; gd_args : Z; gd_rsv1 : Z; gd_type : Z; gd_s : Z;
  gd_dpl : Z; gd_p : Z; off_31_16 : Z }.

Definition SETGATE (istrap : bool) (sel off d : Z) : gatedesc :=
  {| off_15_0 := Z.land off 0xffff; gd_cs := sel; gd_args := 0; gd_rsv1 := 0;
     gd_type := if istrap then STS_TG32 else STS_IG32; gd_s := 0; gd_dpl := d;
     gd_p := 1; off_31_16 := Z.shiftr off 16 |}.

(** ** Memory *)

Definition load8 (m : gmap Z Z) (a : Z) : Z := u8 (default 0 (m !! a)).

Definition store8 (m : gmap Z Z) (a v : Z) : gmap Z Z := <[a := u8 v]> m.

Definition load32 (m : gmap Z Z) (a : Z) : Z :=
  load8 m a + 256 * load8 m (a + 1) + 65536 * load8 m (a + 2) + 16777216 * load8 m (a + 3).

Definition store32 (m : gmap Z Z) (a v : Z) : gmap Z Z :=
  store8 (store8 (store8 (store8 m a v) (a + 1) (v / 256)) (a + 2) (v / 65536))
    (a + 3) (v / 16777216).

(** ** What the linker provides (kernel.ld): [data] is page aligned and after
    the text, [end] is after it and inside the 4 MB mapped at entry. *)

Class KernelImage := {
  kdata : Z;
  kend : Z;
  kdata_aligned : kdata mod PGSIZE = 0;
  kdata_lo : KERNLINK < kdata;
  kdata_end : kdata <= kend;
  kend_hi : kend <= KERNBASE + 0x400000 }.

(** A page the allocator may hold: [kfree]'s test. *)
Definition page_ok `{KernelImage} (v : Z) : Prop :=
  v mod PGSIZE = 0 /\ kend <= v /\ v < KERNBASE + PHYSTOP.

(** Two memories agree on the [n] bytes from [lo]. *)
Definition same_on (m m' : gmap Z Z) (lo n : Z) : Prop :=
  forall a, lo <= a < lo + n -> load8 m' a = load8 m a.

(** ** Lemmas on words *)

Lemma u32_small z : 0 <= z < 4294967296 -> u32 z = z.
Proof. intros. unfold u32. apply Z.mod_small. lia. Qed.

Lemma u32_range z : 0 <= u32 z < 4294967296.
Proof. unfold u32. zlia. Qed.

Lemma u8_range z : 0 <= u8 z < 256.
Proof. unfold u8. zlia. Qed.

Lemma u8_small z : 0 <= z < 256 -> u8 z = z.
Proof. intros. unfold u8. apply Z.mod_small. lia. Qed.

Lemma s32_small z : -2147483648 <= z < 2147483648 -> s32 z = z.
Proof. intros. unfold s32, u32. zcases; zlia. Qed.

Lemma s32_range z : -2147483648 <= s32 z < 2147483648.
Proof. unfold s32, u32. zcases; zlia. Qed.

Lemma PGROUNDDOWN_eq a : PGROUNDDOWN a = a - a mod PGSIZE.
Proof.
  unfold PGROUNDDOWN. rewrite <- Z.ldiff_land.
  change (PGSIZE - 1) with (Z.ones 12). rewrite Z.ldiff_ones_r by lia.
  rewrite Z.shiftr_div_pow2, Z.shiftl_mul_pow2 by lia.
  change (2 ^ 12) with PGSIZE. zlia.
Qed.

Lemma PGROUNDUP_eq a :
  0 <= a -> a + PGSIZE - 1 < 4294967296 ->
  PGROUNDUP a = (a + PGSIZE - 1) / PGSIZE * PGSIZE.
Proof.
  intros. pose proof (PGROUNDDOWN_eq (a + PGSIZE - 1)) as E.
  unfold PGROUNDUP, PGROUNDDOWN in *. rewrite u32_small, E by lia. zlia.
Qed.

Lemma PTE_ADDR_eq pte : PTE_ADDR pte = pte - pte mod PGSIZE.
Proof. apply PGROUNDDOWN_eq. Qed.

Lemma PTE_FLAGS_eq pte : PTE_FLAGS pte = pte mod PGSIZE.
Proof. unfold PTE_FLAGS. change 0xFFF with (Z.ones 12). apply Z.land_ones. lia. Qed.

Lemma PDX_eq va : 0 <= va < 4294967296 -> PDX va = va / 4194304.
Proof.
  intros. unfold PDX, PDXSHIFT. rewrite Z.shiftr_div_pow2 by lia.
  change 0x3FF with (Z.ones 10). rewrite Z.land_ones by lia.
  change (2 ^ 22) with 4194304. change (2 ^ 10) with 1024. apply Z.mod_small. zlia.
Qed.

Lemma PTX_eq va : PTX va = (va / PGSIZE) mod 1024.
Proof.
  unfold PTX, PTXSHIFT. rewrite Z.shiftr_div_pow2 by lia.
  change 0x3FF with (Z.ones 10). rewrite Z.land_ones by lia. done.
Qed.

Lemma PDX_range va : 0 <= PDX va < 1024.
Proof.
  unfold PDX. change 0x3FF with (Z.ones 10). rewrite Z.land_ones by lia.
  apply Z.mod_pos_bound. lia.
Qed.

Lemma PTX_range va : 0 <= PTX va < 1024.
Proof. rewrite PTX_eq. apply Z.mod_pos_bound. lia. Qed.

(** An address is determined by its two indices and its offset. *)
Lemma PDX_PTX_inj va va' :
  0 <= va < 4294967296 -> 0 <= va' < 4294967296 ->
  PDX va = PDX va' -> PTX va = PTX va' -> va / PGSIZE = va' / PGSIZE.
Proof. intros ? ?. rewrite !PDX_eq, !PTX_eq by done. zlia. Qed.

Lemma P2V_V2P v : KERNBASE <= v < 4294967296 -> P2V (V2P v) = v.
Proof.
  intros. unfold V2P, P2V. rewrite (u32_small (v - KERNBASE)) by lia.
  rewrite u32_small by lia. lia.
Qed.

Lemma V2P_eq v : KERNBASE <= v < 4294967296 -> V2P v = v - KERNBASE.
Proof. intros. unfold V2P. apply u32_small. lia. Qed.

Lemma P2V_eq a : 0 <= a < KERNBASE -> P2V a = a + KERNBASE.
Proof. intros. unfold P2V. apply u32_small. lia. Qed.

(** ** Lemmas on page table entries *)

Lemma land_aligned_low pa f :
  pa mod PGSIZE = 0 -> 0 <= f < PGSIZE -> Z.land pa f = 0.
Proof.
  intros Hpa Hf. apply Z.bits_inj'. intros i Hi. rewrite Z.land_spec, Z.bits_0.
  destruct (Z.lt_ge_cases i 12) as [Hlt|Hge].
  - replace pa with (pa / PGSIZE * 2 ^ 12) by (change (2 ^ 12) with PGSIZE; zlia).
    rewrite Z.mul_pow2_bits_low by lia. done.
  - rewrite (Z.bits_above_log2 f i); [by rewrite andb_false_r|lia|].
    destruct (Z.eq_dec f 0) as [->|]; [simpl; lia|].
    apply Z.log2_lt_pow2; [lia|]. apply Z.lt_le_trans with (2 ^ 12).
    + change (2 ^ 12) with 4096. lia.
    + apply Z.pow_le_mono_r; lia.
Qed.

Lemma lor_flags pa f :
  pa mod PGSIZE = 0 -> 0 <= f < PGSIZE -> Z.lor pa f = pa + f.
Proof.
  intros Hpa Hf. symmetry. apply Z.add_nocarry_lor. by apply land_aligned_low.
Qed.

Lemma lor_range n a b :
  0 <= n -> 0 <= a < 2 ^ n -> 0 <= b < 2 ^ n -> 0 <= Z.lor a b < 2 ^ n.
Proof.
  intros Hn Ha Hb. split; [apply Z.lor_nonneg; lia|].
  destruct (Z.eq_dec (Z.lor a b) 0) as [->|Hne]; [lia|].
  assert (0 <= Z.lor a b) by (apply Z.lor_nonneg; lia).
  apply Z.log2_lt_pow2; [lia|]. rewrite Z.log2_lor by lia.
  assert (0 < n).
  { destruct (Z.eq_dec n 0) as [->|]; [|lia]. simpl in *.
    assert (a = 0) as -> by lia. assert (b = 0) as -> by lia. done. }
  apply Z.max_lub_lt.
  - destruct (Z.eq_dec a 0) as [->|]; [simpl; lia|]. apply Z.log2_lt_pow2; lia.
  - destruct (Z.eq_dec b 0) as [->|]; [simpl; lia|]. apply Z.log2_lt_pow2; lia.
Qed.

(** An aligned number and one below. *)
Lemma lor_low n a b : 0 <= b < 2 ^ n -> 0 <= n -> Z.lor (a * 2 ^ n) b = a * 2 ^ n + b.
Proof.
  intros Hb Hn. symmetry. apply Z.add_nocarry_lor. apply Z.bits_inj'. intros i Hi. rewrite Z.land_spec, Z.bits_0.
  destruct (Z.lt_ge_cases i n) as [Hlt|Hge]; [by rewrite Z.mul_pow2_bits_low|].
  destruct (Z.eq_dec b 0) as [->|]; [by rewrite Z.bits_0, andb_false_r|]. rewrite (Z.bits_above_log2 b i); [apply andb_false_r|lia|].
  apply Z.log2_lt_pow2; [lia|]. apply Z.lt_le_trans with (2 ^ n); [lia|]. apply Z.pow_le_mono_r; lia.
Qed.

(** The entry [pa | perm | PTE_P] written by [mappages]. *)
Lemma pte_make pa perm :
  pa mod PGSIZE = 0 -> 0 <= perm < PGSIZE ->
  Z.lor (Z.lor pa perm) PTE_P = pa + Z.lor perm PTE_P.
Proof.
  intros. rewrite <- Z.lor_assoc. apply lor_flags; [done|].
  apply (lor_range 12); unfold PTE_P; lia.
Qed.

Lemma PTE_ADDR_make pa f :
  pa mod PGSIZE = 0 -> 0 <= f < PGSIZE -> PTE_ADDR (pa + f) = pa.
Proof. intros. rewrite PTE_ADDR_eq. zlia. Qed.

Lemma PTE_FLAGS_make pa f :
  pa mod PGSIZE = 0 -> 0 <= f < PGSIZE -> PTE_FLAGS (pa + f) = f.
Proof. intros. rewrite PTE_FLAGS_eq. zlia. Qed.

Lemma bit_set_P x : bit_set x PTE_P = Z.odd x.
Proof.
  unfold bit_set, PTE_P. change 1 with (Z.ones 1). rewrite Z.land_ones by lia.
  change (2 ^ 1) with 2. rewrite Zmod_odd. by destruct (Z.odd x).
Qed.

Lemma present_make pa perm :
  pa mod PGSIZE = 0 -> bit_set (pa + Z.lor perm PTE_P) PTE_P = true.
Proof.
  intros. rewrite bit_set_P, Z.odd_add.
  assert (Z.odd pa = false) as ->.
  { replace pa with (2 * (pa / PGSIZE * 2048)) by zlia. apply Z.odd_even. }
  unfold PTE_P. rewrite <- Z.bit0_odd, Z.lor_spec.
  rewrite (Z.bit0_odd 1). by rewrite orb_true_r.
Qed.

Lemma bit_set_0 f : bit_set 0 f = false.
Proof. unfold bit_set. by rewrite Z.land_0_l. Qed.

(** ** Lemmas on memory *)

Lemma load8_range m a : 0 <= load8 m a < 256.
Proof. apply u8_range. Qed.

Lemma load32_range m a : 0 <= load32 m a < 4294967296.
Proof.
  unfold load32. pose proof (load8_range m a). pose proof (load8_range m (a + 1)).
  pose proof (load8_range m (a + 2)). pose proof (load8_range m (a + 3)). lia.
Qed.

Lemma load8_empty a : load8 ∅ a = 0.
Proof. unfold load8. by rewrite lookup_empty. Qed.

Lemma load8_store8 m a v : load8 (store8 m a v) a = u8 v.
Proof.
  unfold load8, store8. rewrite lookup_insert_eq. simpl.
  apply u8_small, u8_range.
Qed.

Lemma load8_store8_ne m a b v : a <> b -> load8 (store8 m a v) b = load8 m b.
Proof. intros. unfold load8, store8. by rewrite lookup_insert_ne. Qed.

Lemma load8_store32_ne m a b v :
  b < a \/ a + 4 <= b -> load8 (store32 m a v) b = load8 m b.
Proof. intros. unfold store32. rewrite !load8_store8_ne by lia. done. Qed.

Lemma load32_store32_u m a v : load32 (store32 m a v) a = u32 v.
Proof.
  unfold load32, store32.
  rewrite load8_store8, (load8_store8_ne _ (a + 3) (a + 2)),
    (load8_store8_ne _ (a + 3) (a + 1)), (load8_store8_ne _ (a + 3) a) by lia.
  rewrite load8_store8, (load8_store8_ne _ (a + 2) (a + 1)),
    (load8_store8_ne _ (a + 2) a) by lia.
  rewrite load8_store8, (load8_store8_ne _ (a + 1) a) by lia.
  rewrite load8_store8. unfold u8, u32. zlia.
Qed.

Lemma load32_store32 m a v :
  0 <= v < 4294967296 -> load32 (store32 m a v) a = v.
Proof. intros Hv. rewrite load32_store32_u. by apply u32_small. Qed.

Lemma load32_ext m m' a :
  (forall i, a <= i < a + 4 -> load8 m' i = load8 m i) -> load32 m' a = load32 m a.
Proof. intros E. unfold load32. rewrite !E by lia. done. Qed.

Lemma load32_store32_ne m a b v :
  b + 4 <= a \/ a + 4 <= b -> load32 (store32 m a v) b = load32 m b.
Proof. intros. apply load32_ext. intros. apply load8_store32_ne. lia. Qed.

Lemma same_on_refl m lo n : same_on m m lo n.
Proof. done. Qed.

Lemma same_on_trans m1 m2 m3 lo n :
  same_on m1 m2 lo n -> same_on m2 m3 lo n -> same_on m1 m3 lo n.
Proof. intros H1 H2 a Ha. rewrite H2, H1; done. Qed.

Lemma same_on_load32 m m' lo n a :
  same_on m m' lo n -> lo <= a -> a + 4 <= lo + n -> load32 m' a = load32 m a.
Proof. intros H ? ?. apply load32_ext. intros. apply H. lia. Qed.

Lemma same_on_store32 m lo n a v :
  a + 4 <= lo \/ lo + n <= a -> same_on m (store32 m a v) lo n.
Proof. intros ? b Hb. apply load8_store32_ne. lia. Qed.

Section Pages.
Context `{KernelImage}.

Lemma page_ok_range v :
  page_ok v -> KERNLINK < v /\ v + PGSIZE <= KERNBASE + PHYSTOP /\ v mod PGSIZE = 0.
Proof.
  unfold page_ok. pose proof kdata_lo. pose proof kdata_end. intros (? & ? & ?).
  split; [lia|]. split; [|done]. zlia.
Qed.

Lemma page_ok_P2V_V2P v : page_ok v -> P2V (V2P v) = v.
Proof. intros Hv%page_ok_range. apply P2V_V2P. lia. Qed.

Lemma page_ok_V2P_aligned v : page_ok v -> V2P v mod PGSIZE = 0.
Proof. intros Hv%page_ok_range. rewrite V2P_eq by lia. zlia. Qed.

Lemma page_ok_V2P_range v :
  page_ok v -> EXTMEM < V2P v /\ V2P v + PGSIZE <= PHYSTOP.
Proof. intros Hv%page_ok_range. rewrite V2P_eq by lia. lia. Qed.

(** Distinct pages do not overlap. *)
Lemma pages_disjoint v w :
  page_ok v -> page_ok w -> v <> w -> v + PGSIZE <= w \/ w + PGSIZE <= v.
Proof. intros (? & _) (? & _) ?. zlia. Qed.

#[export] Instance page_ok_dec v : Decision (page_ok v).
Proof. unfold page_ok. apply _. Defined.
End Pages.

#[export] Hint Resolve same_on_refl : xv6.
