(* ===== verification/Digits.v ===== *)
(** * Numbers in text

    The digit loop shared by the two [printint]s of the system (console.c in
    the kernel, printf.c in user space), and the value of what it prints. *)

From S2P Require Import Prelude Machine.

(** Characters are their codes. *)
Definition chars (s : string) : list Z :=
  (fun c => Z.of_N (Ascii.N_of_ascii c)) <$> String.list_ascii_of_string s.

Definition ch_0 : Z := 48.
Definition ch_9 : Z := 57.
Definition ch_minus : Z := 45.

(** The [do] loop: digits of [x], least significant first, into an array
    with [room] places left; [None] when it would be overrun. *)
Fixpoint digit_loop (digits : list Z) (base x : Z) (room : nat) : option (list Z) :=
  match room with
  | O => None
  | S r =>
      let d := digits !!! Z.to_nat (x mod base) in
      if x / base =? 0 then Some [d] else cons d <$> digit_loop digits base (x / base) r
  end.

(** The whole of [buf[16]] in the order in which it is printed. *)
Definition int_chars (digits : list Z) (xx base : Z) (sgn : bool) : option (list Z) :=
  let neg := sgn && (xx <? 0) in
  let x := u32 (if neg then - xx else xx) in
  match digit_loop digits base x 16 with
  | None => None
  | Some ds =>
      if neg then (if (length ds <? 16)%nat then Some (reverse (ds ++ [ch_minus])) else None)
      else Some (reverse ds)
  end.

(** The words after [fmt] on the stack: numbers, strings, the null pointer. *)
Inductive arg := A_num (z : Z) | A_str (s : list Z) | A_null.

Definition arg_word (a : arg) : option Z :=
  match a with A_num z => Some z | A_null => Some 0 | A_str _ => None end.

(** The characters of a [%s]. *)
Fixpoint str_part (s : list Z) : list Z :=
  match s with
  | [] => []
  | c :: s' => if c =? 0 then [] else c :: str_part s'
  end.

Definition arg_str (a : arg) : option (list Z) :=
  match a with
  | A_str s => Some (str_part s)
  | A_null => Some (chars "(null)")
  | A_num z => if z =? 0 then Some (chars "(null)") else None
  end.

Definition pct : Z := 37.

(** ** What a format means *)

(** The character of a digit; [ten] is that of the digit ten, an upper or a
    lower case letter. *)
Definition digit_char (ten d : Z) : Z := if d <? 10 then ch_0 + d else ten + (d - 10).

(** The value of a sequence of digits, the most significant first. *)
Definition digits_value (base : Z) (ds : list Z) : Z := foldl (fun n d => n * base + d) 0 ds.

(** [cs] is the numeral of [n]: digits of that value, without a leading zero
    unless it is the only digit. *)
Definition numeral (ten base n : Z) (cs : list Z) : Prop :=
  exists ds, cs = digit_char ten <$> ds /\ ds <> [] /\ Forall (fun d => 0 <= d < base) ds /\
    (list.head ds = Some 0 -> ds = [0]) /\ digits_value base ds = n.

(** The decimal numeral of [z] with its sign. *)
Definition signed_numeral (ten z : Z) (cs : list Z) : Prop :=
  if z <? 0 then exists cs', cs = ch_minus :: cs' /\ numeral ten 10 (- z) cs'
  else numeral ten 10 z cs.

(** The text of a string argument: up to the zero byte if there is one. *)
Inductive arg_text : arg -> list Z -> Prop :=
| T_nul s rest : 0 ∉ s -> arg_text (A_str (s ++ 0 :: rest)) s
| T_all s : 0 ∉ s -> arg_text (A_str s) s
| T_null : arg_text A_null (chars "(null)")
| T_zero : arg_text (A_num 0) (chars "(null)").

(** [formats ten has_c fmt ap out]: the format [fmt] with the arguments [ap]
    prints [out].  Both [printf] and [cprintf] are to do this; only the
    former knows [%c]; [%x] prints upper case digits in the one and lower case
    digits in the other. *)
Inductive formats (ten : Z) (has_c : bool) : list Z -> list arg -> list Z -> Prop :=
| F_end ap : formats ten has_c [] ap []
| F_last ap : formats ten has_c [pct] ap []
| F_char c fmt ap out :
    0 < c < 256 -> c <> pct -> formats ten has_c fmt ap out ->
    formats ten has_c (c :: fmt) ap (c :: out)
| F_d a z cs fmt ap out :
    arg_word a = Some z -> signed_numeral ten (s32 z) cs ->
    formats ten has_c fmt ap out ->
    formats ten has_c (pct :: 100 :: fmt) (a :: ap) (cs ++ out)
| F_x c a z cs fmt ap out :
    c = 120 \/ c = 112 ->
    arg_word a = Some z -> numeral ten 16 (u32 z) cs ->
    formats ten has_c fmt ap out ->
    formats ten has_c (pct :: c :: fmt) (a :: ap) (cs ++ out)
| F_s a s fmt ap out :
    arg_text a s -> formats ten has_c fmt ap out ->
    formats ten has_c (pct :: 115 :: fmt) (a :: ap) (s ++ out)
| F_c a z fmt ap out :
    has_c = true -> arg_word a = Some z -> formats ten has_c fmt ap out ->
    formats ten has_c (pct :: 99 :: fmt) (a :: ap) (u8 z :: out)
| F_pct fmt ap out :
    formats ten has_c fmt ap out -> formats ten has_c (pct :: pct :: fmt) ap (pct :: out)
| F_other c fmt ap out :
    0 < c < 256 -> c ∉ [100; 120; 112; 115; pct] -> (has_c = true -> c <> 99) ->
    formats ten has_c fmt ap out ->
    formats ten has_c (pct :: c :: fmt) ap (pct :: c :: out).

(** ** What the digits stand for *)

(** The value of decimal digits, most significant first. *)
Definition dec_value (l : list Z) : Z := foldl (fun n c => n * 10 + (c - ch_0)) 0 l.

Lemma dec_value_snoc l c : dec_value (l ++ [c]) = dec_value l * 10 + (c - ch_0).
Proof. unfold dec_value. by rewrite foldl_app. Qed.

(** Enough room: [x] below [base ^ room] (at least one place). *)
Lemma digit_loop_enough digits base x room :
  2 <= base -> 0 <= x < base ^ Z.of_nat room -> (0 < room)%nat ->
  exists ds, digit_loop digits base x room = Some ds /\ (0 < length ds <= room)%nat /\
    (x <> 0 -> base ^ (Z.of_nat (length ds) - 1) <= x).
Proof.
  intros Hb. revert x. induction room as [|r IH]; intros x Hx Hr; [lia|]. cbn [digit_loop].
  destruct (Z.eqb_spec (x / base) 0) as [E|E].
  - eexists. split; [done|]. simpl. split; [lia|]. intros ?. change (base ^ 0 <= x). rewrite Z.pow_0_r. lia.
  - rewrite Nat2Z.inj_succ, Z.pow_succ_r in Hx by lia.
    assert (0 < x / base) by (pose proof (Z.div_pos x base); lia).
    assert (x / base < base ^ Z.of_nat r) by (apply Z.div_lt_upper_bound; lia).
    destruct r as [|r]; [rewrite Z.pow_0_r in *; lia|].
    destruct (IH (x / base)) as (ds & -> & Hl & Hlo); [lia|lia|].
    eexists. split; [done|]. simpl. split; [lia|]. intros _.
    specialize (Hlo ltac:(lia)).
    replace (Z.of_nat (S (length ds)) - 1) with (Z.succ (Z.of_nat (length ds) - 1)) by lia.
    rewrite Z.pow_succ_r by lia. apply Z.le_trans with (base * (x / base)); [nia|].
    apply Z.mul_div_le; lia.
Qed.

Section Decimal.
Context (digits : list Z) (Hdig : forall d, 0 <= d < 10 -> digits !!! Z.to_nat d = ch_0 + d).

(** The digits printed in base ten are decimal digits with value [x]. *)
Lemma digit_loop_value x room ds :
  0 <= x -> digit_loop digits 10 x room = Some ds ->
  dec_value (reverse ds) = x /\ Forall (fun c => ch_0 <= c <= ch_9) ds.
Proof.
  revert x ds. induction room as [|r IH]; intros x ds Hx E; [done|]. cbn [digit_loop] in E.
  assert (Hm : 0 <= x mod 10 < 10) by (apply Z.mod_pos_bound; lia).
  rewrite Hdig in E by done. unfold ch_0, ch_9 in *.
  destruct (Z.eqb_spec (x / 10) 0) as [Z0|Z0].
  - injection E as <-. split; [unfold dec_value, ch_0; simpl; zlia|]. repeat constructor; lia.
  - destruct (digit_loop digits 10 (x / 10) r) as [ds'|] eqn:E'; [|done]. injection E as <-.
    apply IH in E' as [Hv Hf]; [|apply Z.div_pos; lia]. split; [|constructor; [lia|done]].
    rewrite reverse_cons, dec_value_snoc, Hv. unfold ch_0. zlia.
Qed.
End Decimal.

(** ** The digit loop makes numerals *)

Lemma digits_value_snoc base ds d : digits_value base (ds ++ [d]) = digits_value base ds * base + d.
Proof. unfold digits_value. by rewrite foldl_app. Qed.

Lemma digits_value_ge base n ds :
  2 <= base -> 0 <= n -> Forall (fun d => 0 <= d < base) ds -> n <= foldl (fun n d => n * base + d) n ds.
Proof.
  intros Hb Hn Hds. revert n Hn. induction Hds as [|d ds Hd _ IH]; intros n Hn; simpl; [lia|].
  etransitivity; [|apply IH; nia]. nia.
Qed.

(** Without a leading zero the value is positive. *)
Lemma digits_value_pos base ds :
  2 <= base -> Forall (fun d => 0 <= d < base) ds -> ds <> [] -> list.head ds <> Some 0 -> 0 < digits_value base ds.
Proof.
  intros Hb Hds Hne Hh. destruct Hds as [|d ds Hd Hds]; [done|]. unfold digits_value. cbn [foldl].
  rewrite Z.mul_0_l, Z.add_0_l. assert (d <> 0) by (intros ->; done). pose proof (digits_value_ge base d ds Hb ltac:(lia) Hds). lia.
Qed.

Lemma digits_unique base : 2 <= base -> forall ds ds',
  Forall (fun d => 0 <= d < base) ds -> Forall (fun d => 0 <= d < base) ds' -> ds <> [] -> ds' <> [] ->
  (list.head ds = Some 0 -> ds = [0]) -> (list.head ds' = Some 0 -> ds' = [0]) ->
  digits_value base ds = digits_value base ds' -> ds = ds'.
Proof.
  intros Hb ds. induction ds as [|d ds IH] using rev_ind; intros ds' Hf Hf' Hne Hne' Hh Hh' E; [done|].
  destruct ds' as [|d' ds' _] using rev_ind; [done|].
  apply Forall_app in Hf as [Hf Hd%Forall_cons_1]. apply Forall_app in Hf' as [Hf' Hd'%Forall_cons_1].
  destruct Hd as [Hd _], Hd' as [Hd' _]. rewrite !digits_value_snoc in E.
  destruct (Z.div_mod_unique base (digits_value base ds) (digits_value base ds') d d') as [E' <-]; [lia|lia|lia|].
  f_equal.
  assert (Hhead : forall l, (list.head (l ++ [d]) = Some 0 -> l ++ [d] = [0]) -> l <> [] -> list.head l <> Some 0).
  { intros [|x l] Hx _; [done|]. simpl in *. intros [= ->]. specialize (Hx eq_refl). by destruct l. }
  destruct ds as [|x ds], ds' as [|y ds'].
  - done.
  - pose proof (digits_value_pos base (y :: ds') Hb Hf' ltac:(done) (Hhead _ Hh' ltac:(done))).
    unfold digits_value in E' at 1. simpl in E'. lia.
  - pose proof (digits_value_pos base (x :: ds) Hb Hf ltac:(done) (Hhead _ Hh ltac:(done))).
    unfold digits_value in E' at 2. simpl in E'. lia.
  - apply IH; try done; intros Hx; [by destruct (Hhead _ Hh ltac:(done) Hx)|by destruct (Hhead _ Hh' ltac:(done) Hx)].
Qed.

Lemma numeral_unique ten base n cs cs' :
  2 <= base -> numeral ten base n cs -> numeral ten base n cs' -> cs = cs'.
Proof.
  intros Hb (ds & -> & H1 & H2 & H3 & H4) (ds' & -> & H1' & H2' & H3' & H4'). f_equal.
  apply (digits_unique base); try done. congruence.
Qed.

(** A table of digits. *)
Definition digit_table (ten : Z) (tab : list Z) : Prop :=
  forall d, 0 <= d < 16 -> tab !!! Z.to_nat d = digit_char ten d.

Lemma digit_loop_numeral ten tab base x room l :
  digit_table ten tab -> 2 <= base <= 16 -> 0 <= x -> digit_loop tab base x room = Some l ->
  numeral ten base x (reverse l).
Proof.
  intros Ht Hb. revert x l. induction room as [|r IH]; intros x l Hx E; [done|]. cbn [digit_loop] in E.
  assert (Hm : 0 <= x mod base < base) by (apply Z.mod_pos_bound; lia).
  pose proof (Z.div_mod x base ltac:(lia)) as Hdm. rewrite Ht in E by lia.
  destruct (Z.eqb_spec (x / base) 0) as [Z0|Z0].
  - injection E as <-. exists [x mod base]. split_and!; try done; [by apply Forall_singleton| |].
    + simpl. by intros [= ->].
    + unfold digits_value. simpl. nia.
  - destruct (digit_loop tab base (x / base) r) as [l'|] eqn:E'; [|done]. injection E as <-.
    apply IH in E' as (ds & El & Hne & Hf & Hh & Hv); [|apply Z.div_pos; lia].
    exists (ds ++ [x mod base]). split_and!.
    + rewrite reverse_cons, El, fmap_app, Ht by lia. done.
    + by destruct ds.
    + apply Forall_app. split; [done|by apply Forall_singleton].
    + intros Hz. destruct ds as [|d ds]; [done|]. simpl in Hz. rewrite Hh in Hv by done.
      unfold digits_value in Hv. simpl in Hv. lia.
    + rewrite digits_value_snoc, Hv. nia.
Qed.

(** Every [int] fits in the array, in both bases and with its sign. *)
Lemma int_chars_total (tab : list Z) z base sgn :
  base = 10 \/ base = 16 -> -2147483648 <= z < 4294967296 ->
  exists cs, int_chars tab z base sgn = Some cs.
Proof.
  intros Hb Hz. unfold int_chars.
  set (x := u32 (if sgn && (z <? 0) then - z else z)).
  pose proof (u32_range (if sgn && (z <? 0) then - z else z)) as Hx. fold x in Hx.
  destruct (digit_loop_enough tab base x 10) as (ds & E & Hl & _); [lia| |lia|].
  { split; [lia|]. destruct Hb as [-> | ->]; change (Z.of_nat 10) with 10; lia. }
  assert (Hmore : forall r y es, digit_loop tab base y r = Some es ->
    forall r', (r <= r')%nat -> digit_loop tab base y r' = Some es).
  { induction r as [|r IH]; intros y es Ey r' Hr; [done|]. destruct r' as [|r']; [lia|].
    cbn [digit_loop] in Ey |- *. destruct (_ =? 0); [done|].
    destruct (digit_loop tab base _ r) eqn:E'; [|done]. by rewrite (IH _ _ E' r') by lia. }
  rewrite (Hmore _ _ _ E 16%nat) by lia. destruct (sgn && (z <? 0)); [|by eexists].
  destruct (Nat.ltb_spec (length ds) 16); [by eexists|lia].
Qed.

(** What [printint] prints: the signed decimal numeral, and the hexadecimal
    numeral of the word. *)
Lemma int_chars_signed ten tab z cs :
  digit_table ten tab -> int_chars tab (s32 z) 10 true = Some cs -> signed_numeral ten (s32 z) cs.
Proof.
  intros Ht E. unfold int_chars in E. pose proof (s32_range z). cbn [andb] in E. unfold signed_numeral.
  destruct (Z.ltb_spec (s32 z) 0).
  - rewrite u32_small in E by lia. destruct (digit_loop tab 10 _ 16) as [l|] eqn:El; [|done].
    destruct (_ <? _)%nat; [|done]. injection E as <-. exists (reverse l). split; [by rewrite reverse_app|].
    eapply digit_loop_numeral; (done || lia).
  - rewrite u32_small in E by lia. destruct (digit_loop tab 10 _ 16) as [l|] eqn:El; [|done].
    injection E as <-. eapply digit_loop_numeral; (done || lia).
Qed.

Lemma u32_s32 z : u32 (s32 z) = u32 z.
Proof. unfold s32, u32. cbv zeta. destruct (Z.ltb_spec (z mod 4294967296) 2147483648); zlia. Qed.

Lemma int_chars_hex ten tab z cs :
  digit_table ten tab -> int_chars tab (s32 z) 16 false = Some cs -> numeral ten 16 (u32 z) cs.
Proof.
  intros Ht E. unfold int_chars in E. cbn [andb] in E. rewrite u32_s32 in E. pose proof (u32_range z).
  destruct (digit_loop tab 16 _ 16) as [l|] eqn:El; [|done]. injection E as <-.
  eapply digit_loop_numeral; (done || lia).
Qed.

Lemma printed_signed ten tab z cs :
  digit_table ten tab -> signed_numeral ten (s32 z) cs -> int_chars tab (s32 z) 10 true = Some cs.
Proof.
  intros Ht Hn. destruct (int_chars_total tab (s32 z) 10 true) as [cs' E]; [auto|pose proof (s32_range z); lia|].
  rewrite E. f_equal. pose proof (int_chars_signed ten tab z cs' Ht E) as Hn'. unfold signed_numeral in *.
  destruct (s32 z <? 0); [|by eapply numeral_unique; [|exact Hn'|exact Hn]].
  destruct Hn as (c1 & -> & Hn), Hn' as (c2 & -> & Hn'). f_equal. by eapply numeral_unique; [|exact Hn'|exact Hn].
Qed.

Lemma printed_hex ten tab z cs :
  digit_table ten tab -> numeral ten 16 (u32 z) cs -> int_chars tab (s32 z) 16 false = Some cs.
Proof.
  intros Ht Hn. destruct (int_chars_total tab (s32 z) 16 false) as [cs' E]; [auto|pose proof (s32_range z); lia|].
  rewrite E. f_equal. pose proof (int_chars_hex ten tab z cs' Ht E) as Hn'.
  by eapply numeral_unique; [|exact Hn'|exact Hn].
Qed.

Lemma str_part_all s : 0 ∉ s -> str_part s = s.
Proof.
  induction s as [|c s IH]; [done|]. intros [Hc Hs]%not_elem_of_cons. simpl.
  destruct (Z.eqb_spec c 0); [done|]. by rewrite IH.
Qed.

Lemma str_part_nul s rest : 0 ∉ s -> str_part (s ++ 0 :: rest) = s.
Proof.
  induction s as [|c s IH]; [done|]. intros [Hc Hs]%not_elem_of_cons. simpl.
  destruct (Z.eqb_spec c 0); [done|]. by rewrite IH.
Qed.

(** The code takes the text of its argument. *)
Lemma arg_text_str a s : arg_text a s -> arg_str a = Some s.
Proof. destruct 1; simpl; rewrite ?str_part_nul, ?str_part_all by done; done. Qed.

Lemma str_part_text s : arg_text (A_str s) (str_part s).
Proof.
  assert (Hn : forall l, 0 ∉ str_part l).
  { induction l as [|c l IH]; simpl; [apply not_elem_of_nil|]. destruct (Z.eqb_spec c 0); [apply not_elem_of_nil|].
    by apply not_elem_of_cons. }
  assert (Hs : s = str_part s \/ exists rest, s = str_part s ++ 0 :: rest).
  { induction s as [|c s IH]; [by left|]. simpl. destruct (Z.eqb_spec c 0) as [->|]; [right; by exists s|].
    destruct IH as [E|[rest E]]; [left; by rewrite <- E|right; exists rest; simpl; by rewrite <- E]. }
  destruct Hs as [E|[rest E]]; rewrite E at 1; [apply T_all|apply T_nul]; apply Hn.
Qed.
