(* ===== verification/StringC.v ===== *)
(** * string.c

    The C library of the kernel.  Functions that write memory map memories to
    memories; functions that only read take the bytes of a string as a
    function of the index, so that they apply to kernel memory, to user
    memory and to the arrays of on-disk structures.  [strncpy] and
    [safestrcpy] return the bytes they store from [s] on. *)

From S2P Require Import Prelude Machine.

(** ** x86.h: [rep stosb] and [rep stosl] *)

Fixpoint stosb (m : gmap Z Z) (addr data : Z) (cnt : nat) : gmap Z Z :=
  match cnt with
  | O => m
  | S n => stosb (store8 m addr data) (addr + 1) data n
  end.

Fixpoint stosl (m : gmap Z Z) (addr data : Z) (cnt : nat) : gmap Z Z :=
  match cnt with
  | O => m
  | S n => stosl (store32 m addr data) (addr + 4) data n
  end.

Definition memset (m : gmap Z Z) (dst c n : Z) : gmap Z Z :=
  if (dst mod 4 =? 0) && (n mod 4 =? 0) then
    let c := Z.land c 0xFF in
    stosl m dst (Z.lor (Z.lor (Z.lor (Z.shiftl c 24) (Z.shiftl c 16)) (Z.shiftl c 8)) c)
      (Z.to_nat (n / 4))
  else stosb m dst c (Z.to_nat n).

Fixpoint memcmp (s1 s2 : Z -> Z) (i : Z) (n : nat) : Z :=
  match n with
  | O => 0
  | S n' => if s1 i =? s2 i then memcmp s1 s2 (i + 1) n' else s1 i - s2 i
  end.

Fixpoint copy_back (m : gmap Z Z) (d s : Z) (n : nat) : gmap Z Z :=
  match n with
  | O => m
  | S n' => copy_back (store8 m (d - 1) (load8 m (s - 1))) (d - 1) (s - 1) n'
  end.

Fixpoint copy_fwd (m : gmap Z Z) (d s : Z) (n : nat) : gmap Z Z :=
  match n with
  | O => m
  | S n' => copy_fwd (store8 m d (load8 m s)) (d + 1) (s + 1) n'
  end.

Definition memmove (m : gmap Z Z) (dst src n : Z) : gmap Z Z :=
  if (src <? dst) && (dst <? src + n) then copy_back m (dst + n) (src + n) (Z.to_nat n)
  else copy_fwd m dst src (Z.to_nat n).

Definition memcpy := memmove.

Fixpoint strncmp_at (p q : Z -> Z) (i : Z) (n : nat) : Z :=
  match n with
  | O => 0
  | S n' =>
      if negb (p i =? 0) && (p i =? q i) then strncmp_at p q (i + 1) n'
      else u8 (p i) - u8 (q i)
  end.

Definition strncmp (p q : Z -> Z) (n : Z) : Z := strncmp_at p q 0 (Z.to_nat n).

Fixpoint strncpy_at (t : Z -> Z) (i : Z) (n : nat) : list Z :=
  match n with
  | O => []
  | S n' => if t i =? 0 then 0 :: replicate n' 0 else t i :: strncpy_at t (i + 1) n'
  end.

Definition strncpy (t : Z -> Z) (n : Z) : list Z := strncpy_at t 0 (Z.to_nat n).

(** [n] counts down before each test: at most [n - 1] bytes are copied. *)
Fixpoint safestrcpy_at (t : Z -> Z) (i : Z) (n : nat) : list Z :=
  match n with
  | O => [0]
  | S n' => if t i =? 0 then [0; 0] else t i :: safestrcpy_at t (i + 1) n'
  end.

Definition safestrcpy (t : Z -> Z) (n : Z) : list Z :=
  if n <=? 0 then [] else safestrcpy_at t 0 (Z.to_nat (n - 1)).

Fixpoint strlen_at (s : Z -> Z) (n : Z) (fuel : nat) : option Z :=
  match fuel with
  | O => None
  | S f => if s n =? 0 then Some n else strlen_at s (n + 1) f
  end.

Definition strlen (s : Z -> Z) (fuel : nat) : option Z := strlen_at s 0 fuel.

(** ** memset *)

Lemma stosb_load8 m addr data cnt a :
  load8 (stosb m addr data cnt) a =
  if (addr <=? a) && (a <? addr + Z.of_nat cnt) then u8 data else load8 m a.
Proof.
  revert m addr. induction cnt as [|n IH]; intros m addr; cbn [stosb].
  - zcases; done.
  - rewrite IH. destruct (Z.eq_dec a addr) as [->|Hne].
    + rewrite load8_store8. zcases; done.
    + rewrite load8_store8_ne by done. zcases; done.
Qed.

(** A word with four equal bytes. *)
Lemma load8_store32_splat m a c i :
  0 <= c < 256 -> a <= i < a + 4 -> load8 (store32 m a (c * 16843009)) i = c.
Proof.
  intros Hc Hi. unfold store32.
  assert (i = a \/ i = a + 1 \/ i = a + 2 \/ i = a + 3) as [->|[->|[->| ->]]] by lia;
    repeat (first [ rewrite load8_store8 | rewrite load8_store8_ne by lia ]);
    unfold u8; zlia.
Qed.

Lemma stosl_load8 m addr c cnt a :
  0 <= c < 256 ->
  load8 (stosl m addr (c * 16843009) cnt) a =
  if (addr <=? a) && (a <? addr + 4 * Z.of_nat cnt) then c else load8 m a.
Proof.
  intros Hc. revert m addr. induction cnt as [|n IH]; intros m addr; cbn [stosl].
  - zcases; done.
  - rewrite IH. destruct (decide (addr <= a < addr + 4)) as [Hin|Hout].
    + rewrite load8_store32_splat by done. zcases; done.
    + rewrite load8_store32_ne by lia. zcases; done.
Qed.

Lemma splat_word c :
  0 <= c < 256 ->
  Z.lor (Z.lor (Z.lor (Z.shiftl c 24) (Z.shiftl c 16)) (Z.shiftl c 8)) c = c * 16843009.
Proof.
  intros Hc.
  assert (Hall : forallb (fun n =>
    let c := Z.of_nat n in
    Z.lor (Z.lor (Z.lor (Z.shiftl c 24) (Z.shiftl c 16)) (Z.shiftl c 8)) c =? c * 16843009)
    (seq 0 256) = true) by (vm_compute; reflexivity).
  rewrite forallb_forall in Hall. specialize (Hall (Z.to_nat c)).
  rewrite Z2Nat.id in Hall by lia. apply Z.eqb_eq, Hall. apply in_seq. lia.
Qed.

(** Both code paths of [memset] fill exactly the [n] bytes at [dst]. *)
Lemma memset_load8 m dst c n a :
  0 <= n ->
  load8 (memset m dst c n) a =
  if (dst <=? a) && (a <? dst + n) then u8 c else load8 m a.
Proof.
  intros Hn. unfold memset.
  destruct ((dst mod 4 =? 0) && (n mod 4 =? 0)) eqn:E.
  - apply andb_true_iff in E as [_ E%Z.eqb_eq]. cbn zeta.
    assert (Z.land c 0xFF = u8 c) as ->.
    { change 0xFF with (Z.ones 8). rewrite Z.land_ones by lia. done. }
    rewrite splat_word by apply u8_range. rewrite stosl_load8 by apply u8_range.
    rewrite Z2Nat.id by zlia. replace (4 * (n / 4)) with n by zlia. done.
  - rewrite stosb_load8, Z2Nat.id by lia. done.
Qed.

(** ** memmove *)

Lemma copy_fwd_load8 m d s n a :
  d <= s \/ s + Z.of_nat n <= d ->
  load8 (copy_fwd m d s n) a =
  if (d <=? a) && (a <? d + Z.of_nat n) then load8 m (s + (a - d)) else load8 m a.
Proof.
  revert m d s. induction n as [|n IH]; intros m d s Hd; cbn [copy_fwd].
  - zcases; done.
  - rewrite IH by lia. destruct (Z.eq_dec a d) as [->|Hne].
    + rewrite load8_store8, u8_small by apply load8_range. replace (s + (d - d)) with s by lia.
      zcases; done.
    + rewrite (load8_store8_ne _ d a) by lia. zcases; try done.
      rewrite load8_store8_ne by lia. f_equal. lia.
Qed.

Lemma copy_back_load8 m d s n a :
  s <= d ->
  load8 (copy_back m d s n) a =
  if (d - Z.of_nat n <=? a) && (a <? d) then load8 m (s + (a - d)) else load8 m a.
Proof.
  revert m d s. induction n as [|n IH]; intros m d s Hd; cbn [copy_back].
  - zcases; done.
  - rewrite IH by lia. destruct (Z.eq_dec a (d - 1)) as [->|Hne].
    + rewrite load8_store8, u8_small by apply load8_range.
      replace (s + (d - 1 - d)) with (s - 1) by lia. zcases; done.
    + rewrite (load8_store8_ne _ (d - 1) a) by lia. zcases; try done.
      rewrite load8_store8_ne by lia. f_equal. lia.
Qed.

(** Whatever the overlap, [memmove] leaves at [dst] the bytes that were at
    [src] and changes nothing else. *)
Lemma memmove_load8 m dst src n a :
  0 <= n ->
  load8 (memmove m dst src n) a =
  if (dst <=? a) && (a <? dst + n) then load8 m (src + (a - dst)) else load8 m a.
Proof.
  intros Hn. unfold memmove.
  destruct ((src <? dst) && (dst <? src + n)) eqn:E.
  - rewrite copy_back_load8 by lia. rewrite Z2Nat.id by lia.
    replace (dst + n - n) with dst by lia.
    destruct ((dst <=? a) && (a <? dst + n)); [f_equal; lia|done].
  - rewrite copy_fwd_load8 by lia. rewrite Z2Nat.id by lia. done.
Qed.
