(* ===== verification/Spinlock.v ===== *)
(** * spinlock.c

    Two views of the same code.  [Section Thread]: what one CPU sees, the
    interrupt nesting of [pushcli]/[popcli] and the locks it holds, generic
    in any state that contains a [cpu]; the components run on it.
    [Module Smp]: the instructions of [acquire] and [release] interleaved
    over any number of CPUs on one lock. *)

From S2P Require Import Prelude Machine.

(** The spinlocks of the kernel; a sleep-lock contains one. *)
Inductive lockid :=
| L_kmem | L_ptable | L_bcache | L_icache | L_ftable | L_log | L_tick | L_ide | L_cons
| L_pipe (p : Z)
| L_buf (i : nat)
| L_inode (i : nat).

#[export] Instance lockid_eq_dec : EqDecision lockid.
Proof. solve_decision. Defined.

(** The parts of [struct cpu] (proc.h) and of the CPU's registers that the
    kernel uses: the interrupt flag, the nesting depth, the saved flag, the
    locks with [locked] set and [cpu] equal to this CPU, [%cr3] and
    [ts.esp0]. *)
Record cpu := Cpu {
  c_if : bool;
  ncli : Z;
  intena : bool;
  held : list lockid;
  c_cr3 : Z;
  c_esp0 : Z }.

Definition set_held (f : list lockid -> list lockid) (c : cpu) : cpu :=
  {| c_if := c_if c; ncli := ncli c; intena := intena c; held := f (held c);
     c_cr3 := c_cr3 c; c_esp0 := c_esp0 c |}.

Definition set_vm_regs (cr3 esp0 : Z) (c : cpu) : cpu :=
  {| c_if := c_if c; ncli := ncli c; intena := intena c; held := held c;
     c_cr3 := cr3; c_esp0 := esp0 |}.

(** A state with a current CPU. *)
Class HasCpu (S : Type) := {
  get_cpu : S -> cpu;
  set_cpu : cpu -> S -> S;
  get_set_cpu : forall c s, get_cpu (set_cpu c s) = c;
  set_set_cpu : forall c c' s, set_cpu c (set_cpu c' s) = set_cpu c s;
  set_get_cpu : forall s, set_cpu (get_cpu s) s = s }.

#[export] Instance cpu_HasCpu : HasCpu cpu.
Proof.
  refine {| get_cpu := fun c => c; set_cpu := fun c _ => c |}; done.
Defined.

(** ** One CPU *)

Definition push_cpu (c : cpu) : cpu :=
  {| c_if := false; ncli := ncli c + 1;
     intena := if ncli c =? 0 then c_if c else intena c;
     held := held c; c_cr3 := c_cr3 c; c_esp0 := c_esp0 c |}.

Definition pop_cpu (c : cpu) : cpu :=
  {| c_if := if (ncli c - 1 =? 0) && intena c then true else c_if c;
     ncli := ncli c - 1; intena := intena c;
     held := held c; c_cr3 := c_cr3 c; c_esp0 := c_esp0 c |}.

Section Thread.
Context {S : Type} `{HasCpu S}.

Definition pushcli : M S unit := modify (fun s => set_cpu (push_cpu (get_cpu s)) s).

Definition popcli : M S unit :=
  c <- gets get_cpu ;;
  if c_if c then panic "popcli - interruptible"
  else if ncli c - 1 <? 0 then panic "popcli"
  else modify (set_cpu (pop_cpu c)).

Definition holding (l : lockid) : M S bool :=
  pushcli ;;
  c <- gets get_cpu ;;
  popcli ;;
  ret (bool_decide (l ∈ held c)).

Definition initlock (l : lockid) : M S unit :=
  modify (fun s => set_cpu (set_held (filter (fun x => x <> l)) (get_cpu s)) s).

(** The [xchg] loop ends when the lock is free: from then on it is this CPU's. *)
Definition acquire (l : lockid) : M S unit :=
  pushcli ;;
  h <- holding l ;;
  if h then panic "acquire"
  else modify (fun s => set_cpu (set_held (cons l) (get_cpu s)) s).

Definition release (l : lockid) : M S unit :=
  h <- holding l ;;
  if negb h then panic "release"
  else
    modify (fun s => set_cpu (set_held (filter (fun x => x <> l)) (get_cpu s)) s) ;;
    popcli.
End Thread.

(** Interrupts are off while any [pushcli] is open. *)
Definition cpu_wf (c : cpu) : Prop :=
  0 <= ncli c /\ (0 < ncli c -> c_if c = false) /\ (Z.of_nat (length (held c)) <= ncli c).

Definition acquired (l : lockid) (c : cpu) : cpu := set_held (cons l) (push_cpu c).

Definition released (l : lockid) (c : cpu) : cpu :=
  pop_cpu (set_held (filter (fun x => x <> l)) c).

(** [intena] is only meaningful while interrupts are pushed off: after a
    matched pair it is refreshed when the depth is back to zero. *)
Definition refresh (c : cpu) : cpu :=
  {| c_if := c_if c; ncli := ncli c;
     intena := if ncli c =? 0 then c_if c else intena c;
     held := held c; c_cr3 := c_cr3 c; c_esp0 := c_esp0 c |}.

(** Equality of CPUs up to an [intena] that no code reads. *)
Definition cpu_sim (c c' : cpu) : Prop := refresh c = refresh c'.

#[export] Instance cpu_sim_equiv : Equivalence cpu_sim.
Proof.
  split; unfold cpu_sim; repeat intro; congruence.
Qed.

Lemma cpu_eq c c' :
  c_if c = c_if c' -> ncli c = ncli c' -> intena c = intena c' -> held c = held c' ->
  c_cr3 c = c_cr3 c' -> c_esp0 c = c_esp0 c' -> c = c'.
Proof. destruct c, c'; simpl; intros; subst; done. Qed.

Lemma refresh_refresh c : refresh (refresh c) = refresh c.
Proof. unfold refresh; simpl. by destruct (ncli c =? 0). Qed.

Lemma cpu_sim_refresh c : cpu_sim c (refresh c).
Proof. unfold cpu_sim. by rewrite refresh_refresh. Qed.

Lemma cpu_sim_fields c c' :
  cpu_sim c c' -> c_if c = c_if c' /\ ncli c = ncli c' /\ held c = held c' /\
                  c_cr3 c = c_cr3 c' /\ c_esp0 c = c_esp0 c'.
Proof. unfold cpu_sim, refresh. intros [= ]. done. Qed.

Lemma cpu_wf_sim c c' : cpu_sim c c' -> cpu_wf c -> cpu_wf c'.
Proof.
  intros (E1 & E2 & E3 & _)%cpu_sim_fields. unfold cpu_wf.
  by rewrite <- E1, <- E2, <- E3.
Qed.

#[export] Instance cpu_wf_proper : Proper (cpu_sim ==> iff) cpu_wf.
Proof.
  intros c c' E. split; apply cpu_wf_sim; [done|by symmetry].
Qed.

Lemma acquired_wf l c : cpu_wf c -> cpu_wf (acquired l c).
Proof. unfold cpu_wf, acquired; simpl. intros (? & ? & ?). repeat split; [lia|lia]. Qed.

Lemma pop_push c : cpu_wf c -> pop_cpu (push_cpu c) = refresh c.
Proof.
  intros (Hn & Hi & _). apply cpu_eq; simpl; try done; [|lia].
  destruct (Z.eqb_spec (ncli c + 1 - 1) 0), (Z.eqb_spec (ncli c) 0); try lia; simpl.
  - by destruct (c_if c).
  - rewrite Hi; [done|lia].
Qed.

Lemma filter_ne_notin (l : lockid) (ls : list lockid) : l ∉ ls -> filter (fun x => x <> l) ls = ls.
Proof.
  induction ls as [|x ls IH]; intros Hl; [done|].
  rewrite filter_cons_True by set_solver. f_equal. apply IH. set_solver.
Qed.

(** [release] undoes [acquire]. *)
Lemma released_acquired l c :
  cpu_wf c -> l ∉ held c -> released l (acquired l c) = refresh c.
Proof.
  intros Hwf Hl. rewrite <- pop_push by done. unfold released, acquired. f_equal.
  apply cpu_eq; try done. simpl. rewrite filter_cons_False by (by intros []).
  by apply filter_ne_notin.
Qed.

Section ThreadLemmas.
Context {S : Type} `{HasCpu S}.

Lemma popcli_run (s : S) :
  c_if (get_cpu s) = false -> 0 < ncli (get_cpu s) ->
  popcli s = Ok tt (set_cpu (pop_cpu (get_cpu s)) s).
Proof.
  intros Hi Hn. unfold popcli. erewrite bind_ok by (unfold gets; reflexivity).
  rewrite Hi. destruct (Z.ltb_spec (ncli (get_cpu s) - 1) 0); [lia|done].
Qed.

Lemma holding_run l (s : S) :
  cpu_wf (get_cpu s) ->
  holding l s = Ok (bool_decide (l ∈ held (get_cpu s))) (set_cpu (refresh (get_cpu s)) s).
Proof.
  intros Hwf. unfold holding. erewrite bind_ok by (unfold pushcli, modify; reflexivity).
  erewrite bind_ok by (unfold gets; reflexivity).
  erewrite bind_ok by (apply popcli_run; rewrite get_set_cpu; simpl; [done|];
                       destruct Hwf; lia).
  by rewrite get_set_cpu, set_set_cpu, pop_push.
Qed.

Lemma acquire_run l (s : S) :
  cpu_wf (get_cpu s) -> l ∉ held (get_cpu s) ->
  acquire l s = Ok tt (set_cpu (acquired l (get_cpu s)) s).
Proof.
  intros Hwf Hl. unfold acquire.
  erewrite bind_ok by (unfold pushcli, modify; reflexivity).
  erewrite bind_ok.
  2: { apply holding_run. rewrite get_set_cpu. destruct Hwf as (? & ? & ?).
       repeat split; simpl; lia. }
  rewrite get_set_cpu. rewrite bool_decide_eq_false_2 by done.
  unfold modify. rewrite get_set_cpu, !set_set_cpu. do 2 f_equal.
  unfold acquired. f_equal. unfold refresh. simpl.
  destruct (Z.eqb_spec (ncli (get_cpu s) + 1) 0); [|done].
  destruct Hwf; lia.
Qed.

(** Acquiring a lock the CPU already holds is the panic of the code. *)
Lemma acquire_held_panics l (s : S) :
  cpu_wf (get_cpu s) -> l ∈ held (get_cpu s) -> acquire l s = Panic "acquire".
Proof.
  intros Hwf Hl. unfold acquire.
  erewrite bind_ok by (unfold pushcli, modify; reflexivity).
  erewrite bind_ok.
  2: { apply holding_run. rewrite get_set_cpu. destruct Hwf as (? & ? & ?).
       repeat split; simpl; lia. }
  rewrite get_set_cpu. by rewrite bool_decide_eq_true_2 by done.
Qed.

Lemma release_run l (s : S) :
  cpu_wf (get_cpu s) -> l ∈ held (get_cpu s) ->
  release l s = Ok tt (set_cpu (released l (get_cpu s)) s).
Proof.
  intros Hwf Hl. unfold release.
  assert (Hpos : 0 < ncli (get_cpu s)).
  { destruct Hwf as (_ & _ & Hlen). destruct (held (get_cpu s)); [set_solver|].
    simpl in Hlen. lia. }
  assert (refresh (get_cpu s) = get_cpu s) as E.
  { apply cpu_eq; try done. simpl. destruct (Z.eqb_spec (ncli (get_cpu s)) 0); [lia|done]. }
  erewrite bind_ok by (by apply holding_run).
  rewrite E, set_get_cpu, bool_decide_eq_true_2 by done. cbn [negb].
  erewrite bind_ok by (unfold modify; reflexivity).
  rewrite popcli_run; rewrite get_set_cpu; [|simpl; apply Hwf; lia|done].
  by rewrite set_set_cpu.
Qed.

(** Releasing a lock the CPU does not hold is the panic of the code. *)
Lemma release_unheld_panics l (s : S) :
  cpu_wf (get_cpu s) -> l ∉ held (get_cpu s) -> release l s = Panic "release".
Proof.
  intros Hwf Hl. unfold release. erewrite bind_ok by (by apply holding_run).
  by rewrite bool_decide_eq_false_2 by done.
Qed.

(** A critical section that restores the CPU. *)
Lemma wp_locked {A} l (m : M S A) (Q : A -> S -> Prop) s :
  cpu_wf (get_cpu s) -> l ∉ held (get_cpu s) ->
  wp m (fun a s' => get_cpu s' = acquired l (get_cpu s) /\
                    Q a (set_cpu (refresh (get_cpu s)) s'))
    (set_cpu (acquired l (get_cpu s)) s) ->
  wp (acquire l ;; a <- m ;; release l ;; ret a) Q s.
Proof.
  intros Hwf Hl Hm. apply wp_bind. eapply wp_run; [by apply acquire_run|].
  apply wp_bind. eapply wp_mono; [exact Hm|]. intros a s' [Hc HQ].
  apply wp_bind. eapply wp_run.
  - apply release_run; rewrite Hc; [by apply acquired_wf|]. simpl. set_solver.
  - apply wp_ret. by rewrite Hc, released_acquired.
Qed.
End ThreadLemmas.

(** ** Many CPUs

    One lock, any number of CPUs.  A CPU is outside ([Idle]), past [pushcli]
    ([Pushed]), in the [xchg] loop ([Spin]), past a successful [xchg] ([Got]),
    in the critical section with [lk->cpu] recorded ([Crit]), between the two
    stores of [release] ([Rel]), before its [popcli] ([Pop]) or has panicked
    ([Dead]). *)
Module Smp.

Inductive pc := Idle | Pushed | Spin | Got | Crit | Rel | Pop | Dead.

Record spinlock := Lock { locked : Z; lk_cpu : option nat }.

Record smp := Machine { lk : spinlock; pcs : list pc; regs : list cpu }.

Definition holds (i : nat) (l : spinlock) : bool :=
  negb (locked l =? 0) && bool_decide (lk_cpu l = Some i).

Inductive step : smp -> smp -> Prop :=
| step_acquire i l ps rs c :
    ps !! i = Some Idle -> rs !! i = Some c ->
    step (Machine l ps rs) (Machine l (<[i := Pushed]> ps) (<[i := push_cpu c]> rs))
| step_holding i l ps rs :
    ps !! i = Some Pushed ->
    step (Machine l ps rs) (Machine l (<[i := if holds i l then Dead else Spin]> ps) rs)
| step_xchg i l ps rs :
    ps !! i = Some Spin ->
    step (Machine l ps rs)
      (Machine (Lock 1 (lk_cpu l)) (<[i := if locked l =? 0 then Got else Spin]> ps) rs)
| step_setcpu i l ps rs :
    ps !! i = Some Got ->
    step (Machine l ps rs) (Machine (Lock (locked l) (Some i)) (<[i := Crit]> ps) rs)
| step_release i l ps rs :
    ps !! i = Some Crit -> holds i l = true ->
    step (Machine l ps rs) (Machine (Lock (locked l) None) (<[i := Rel]> ps) rs)
| step_release_bad i l ps rs :
    ps !! i = Some Crit -> holds i l = false ->
    step (Machine l ps rs) (Machine l (<[i := Dead]> ps) rs)
| step_unlock i l ps rs :
    ps !! i = Some Rel ->
    step (Machine l ps rs) (Machine (Lock 0 (lk_cpu l)) (<[i := Pop]> ps) rs)
| step_popcli i l ps rs c :
    ps !! i = Some Pop -> rs !! i = Some c -> c_if c = false -> 0 <= ncli c - 1 ->
    step (Machine l ps rs) (Machine l (<[i := Idle]> ps) (<[i := pop_cpu c]> rs))
| step_popcli_bad i l ps rs c :
    ps !! i = Some Pop -> rs !! i = Some c -> c_if c = true \/ ncli c - 1 < 0 ->
    step (Machine l ps rs) (Machine l (<[i := Dead]> ps) rs).

Definition init (n : nat) (r : cpu) : smp :=
  Machine (Lock 0 None) (replicate n Idle) (replicate n r).

Definition reachable (n : nat) (r : cpu) (st : smp) : Prop := rtc step (init n r) st.

Definition inside (p : pc) : bool :=
  match p with Got | Crit | Rel => true | _ => false end.

(** Interrupts are off while pushed off. *)
Definition int_wf (c : cpu) : Prop := 0 <= ncli c /\ (0 < ncli c -> c_if c = false).

Definition regs_ok (ps : list pc) (rs : list cpu) : Prop :=
  forall i p c, ps !! i = Some p -> rs !! i = Some c ->
    int_wf c /\ (p <> Idle -> 0 < ncli c).

(** The owner is a ghost: the CPU inside, if any. *)
Definition pcs_ok (l : spinlock) (ps : list pc) (owner : option nat) : Prop :=
  locked l = (match owner with Some _ => 1 | None => 0 end) /\
  (forall i p, ps !! i = Some p -> (inside p = true <-> owner = Some i) /\ p <> Dead) /\
  (forall i, lk_cpu l = Some i <-> ps !! i = Some Crit).

Definition inv (st : smp) : Prop :=
  regs_ok (pcs st) (regs st) /\ exists owner, pcs_ok (lk st) (pcs st) owner.

Lemma inv_init n r : int_wf r -> inv (init n r).
Proof.
  intros Hr. split.
  - intros i p c [-> _]%lookup_replicate [-> _]%lookup_replicate. done.
  - exists None. split; [done|]. split; [intros i p [-> _]%lookup_replicate; done|].
    intros i. split; [done|]. intros [? _]%lookup_replicate. done.
Qed.

Lemma lookup_upd {A} (l : list A) i j x y :
  <[i := x]> l !! j = Some y -> (i = j /\ y = x) \/ (i <> j /\ l !! j = Some y).
Proof. intros [(? & ? & ?)|(? & ?)]%list_lookup_insert_Some; auto. Qed.

Lemma push_int_wf c : int_wf c -> int_wf (push_cpu c) /\ 0 < ncli (push_cpu c).
Proof. unfold int_wf; simpl. intros (? & ?). repeat split; lia. Qed.

Lemma pop_int_wf c : int_wf c -> 0 < ncli c -> int_wf (pop_cpu c).
Proof.
  unfold int_wf; simpl. intros (? & Hi) ?. split; [lia|]. intros.
  rewrite Hi by lia. destruct (Z.eqb_spec (ncli c - 1) 0); [lia|done].
Qed.

(** A step that moves one program counter inside the lock code keeps the
    registers' part. *)
Lemma regs_upd ps rs i p q :
  regs_ok ps rs -> ps !! i = Some q -> q <> Idle -> regs_ok (<[i := p]> ps) rs.
Proof.
  intros H Hq Hne j r c [[<- ->]|[_ Hj]]%lookup_upd Hc; [|by eapply H].
  destruct (H i q c Hq Hc). auto.
Qed.

Lemma regs_upd2 ps rs i p c' :
  regs_ok ps rs -> int_wf c' -> (p <> Idle -> 0 < ncli c') ->
  regs_ok (<[i := p]> ps) (<[i := c']> rs).
Proof.
  intros H Hwf Hp j r c [[<- ->]|[Hne Hj]]%lookup_upd Hc.
  - apply lookup_upd in Hc as [[_ ->]|[? ?]]; done.
  - apply lookup_upd in Hc as [[? _]|[_ ?]]; [done|]. by eapply H.
Qed.

(** The program counters' part, for a step of CPU [i] to [p]. *)
Lemma pcs_upd l ps owner l' owner' i p q :
  pcs_ok l ps owner -> ps !! i = Some q ->
  locked l' = (match owner' with Some _ => 1 | None => 0 end) ->
  (inside p = true <-> owner' = Some i) -> p <> Dead ->
  (forall j, j <> i -> owner' = Some j <-> owner = Some j) ->
  (lk_cpu l' = Some i <-> p = Crit) ->
  (forall j, j <> i -> lk_cpu l' = Some j <-> lk_cpu l = Some j) ->
  pcs_ok l' (<[i := p]> ps) owner'.
Proof.
  intros (_ & H & HC) Hq Hl Hin Hd Hother Hc Hcother.
  assert (i < length ps)%nat by (by eapply lookup_lt_Some).
  split; [done|]. split.
  - intros j r [[<- ->]|[Hne Hj]]%lookup_upd; [done|]. rewrite Hother by done. by apply H.
  - intros j. destruct (decide (j = i)) as [->|Hne].
    + rewrite list_lookup_insert_eq by done. naive_solver.
    + rewrite list_lookup_insert_ne by done. rewrite Hcother by done. apply HC.
Qed.

Ltac pcs := simpl in *; first [done|congruence|intros; split; intros; intuition congruence].

Lemma inv_step st st' : inv st -> step st st' -> inv st'.
Proof.
  intros [HR [o HP]] Hst.
  pose proof HP as (Hl & Hin & Hcr).
  destruct Hst as [i l ps rs c Hi Hc|i l ps rs Hi|i l ps rs Hi|i l ps rs Hi|i l ps rs Hi Hh
                  |i l ps rs Hi Hh|i l ps rs Hi|i l ps rs c Hi Hc _ _|i l ps rs c Hi Hc Hbad]; simpl in *;
    destruct (Hin i _ Hi) as [Hino _]; pose proof (Hcr i) as Hcri; rewrite Hi in Hcri;
    simpl in Hino.
  - assert (int_wf c) as Hwf by (by eapply HR).
    split; [apply regs_upd2; [done|by apply push_int_wf|intros; by apply push_int_wf]|].
    exists o. eapply pcs_upd; eauto; pcs.
  - assert (holds i l = false) as ->.
    { unfold holds. destruct (bool_decide_reflect (lk_cpu l = Some i)) as [E|];
        [|by rewrite andb_false_r]. naive_solver. }
    split; [by eapply regs_upd|]. exists o. eapply pcs_upd; eauto; pcs.
  - split; [by eapply regs_upd|]. destruct (Z.eqb_spec (locked l) 0) as [E|E].
    + destruct o; [lia|]. exists (Some i). eapply pcs_upd; eauto; pcs.
    + destruct o as [j|]; [|lia]. exists (Some j). eapply pcs_upd; eauto; pcs.
  - assert (o = Some i) as -> by naive_solver.
    assert (Hno : forall j, lk_cpu l <> Some j).
    { intros j Hj. pose proof Hj as Hj'. apply Hcr in Hj'.
      destruct (Hin j _ Hj') as [[Hj'' _] _]. naive_solver. }
    split; [by eapply regs_upd|]. exists (Some i). eapply pcs_upd; eauto; pcs.
  - assert (o = Some i) as -> by naive_solver.
    split; [by eapply regs_upd|]. exists (Some i). eapply pcs_upd; eauto; pcs.
  - assert (o = Some i) as -> by naive_solver. exfalso.
    assert (lk_cpu l = Some i) as E by naive_solver.
    unfold holds in Hh. rewrite E, Hl in Hh. by rewrite bool_decide_eq_true_2 in Hh.
  - assert (o = Some i) as -> by naive_solver.
    split; [by eapply regs_upd|]. exists None. eapply pcs_upd; eauto; pcs.
  - destruct (HR i _ c Hi Hc) as [Hwf Hn].
    split; [apply regs_upd2; [done|apply pop_int_wf; auto|done]|].
    exists o. eapply pcs_upd; eauto; pcs.
  - destruct (HR i _ c Hi Hc) as [[_ Hif] Hn]. specialize (Hn ltac:(done)).
    destruct Hbad as [Hbad|]; [|lia]. by rewrite Hif in Hbad.
Qed.

Lemma inv_reachable n r st : int_wf r -> reachable n r st -> inv st.
Proof.
  intros Hr Hst. unfold reachable in Hst. apply (inv_init n) in Hr. revert Hr.
  induction Hst as [|a b c Hab _ IH]; intros Ha; [done|]. apply IH. by eapply inv_step.
Qed.
End Smp.
