(* ===== verification/Kalloc.v ===== *)
(** * kalloc.c: the physical page allocator

    The state of the memory system: the current CPU, memory, and
    [kmem.use_lock], [kmem.freelist].  The free list is the one in memory:
    the first word of a free page is the address of the next.  [alloc_inv]
    ties it to an abstract stack of pages, and the specifications say that
    [kalloc] pops it and [kfree] pushes on it. *)

From S2P Require Import Prelude Machine StringC Spinlock.

Record mm := Mm {
  mm_cpu : cpu;
  mem : gmap Z Z;
  use_lock : bool;
  freelist : Z }.

Definition set_mem (m : gmap Z Z) (s : mm) : mm :=
  {| mm_cpu := mm_cpu s; mem := m; use_lock := use_lock s; freelist := freelist s |}.
Definition set_freelist (r : Z) (s : mm) : mm :=
  {| mm_cpu := mm_cpu s; mem := mem s; use_lock := use_lock s; freelist := r |}.
Definition set_use_lock (b : bool) (s : mm) : mm :=
  {| mm_cpu := mm_cpu s; mem := mem s; use_lock := b; freelist := freelist s |}.

#[export] Instance mm_HasCpu : HasCpu mm.
Proof.
  refine {| get_cpu := mm_cpu;
            set_cpu := fun c s => {| mm_cpu := c; mem := mem s; use_lock := use_lock s;
                                     freelist := freelist s |} |}.
  - done.
  - done.
  - by intros [].
Defined.

(** Kernel-mode accesses through kernel pointers; below [KERNBASE] there is
    no kernel object, a null pointer in particular. *)
Definition kload32 (a : Z) : M mm Z :=
  if a <? KERNBASE then undef "load below KERNBASE" else gets (fun s => load32 (mem s) a).

Definition kstore32 (a v : Z) : M mm unit :=
  if a <? KERNBASE then undef "store below KERNBASE"
  else modify (fun s => set_mem (store32 (mem s) a v) s).

Definition kmemset (dst c n : Z) : M mm unit :=
  if dst <? KERNBASE then undef "memset below KERNBASE"
  else modify (fun s => set_mem (memset (mem s) dst c n) s).

Definition kmemmove (dst src n : Z) : M mm unit :=
  if (dst <? KERNBASE) || (src <? KERNBASE) then undef "memmove below KERNBASE"
  else modify (fun s => set_mem (memmove (mem s) dst src n) s).

Section Kalloc.
Context `{KernelImage}.

Definition kfree (v : Z) : M mm unit :=
  if negb (v mod PGSIZE =? 0) || (v <? kend) || (PHYSTOP <=? V2P v) then panic "kfree"
  else
    kmemset v 1 PGSIZE ;;
    ul <- gets use_lock ;;
    (when ul do acquire L_kmem) ;;
    next <- gets freelist ;;
    kstore32 v next ;;
    modify (set_freelist v) ;;
    when ul do release L_kmem.

Definition kalloc : M mm Z :=
  ul <- gets use_lock ;;
  (when ul do acquire L_kmem) ;;
  r <- gets freelist ;;
  (when negb (r =? 0) do
    (next <- kload32 r ;; modify (set_freelist next))) ;;
  (when ul do release L_kmem) ;;
  ret r.

Fixpoint freerange_loop (p vend : Z) (n : nat) : M mm unit :=
  match n with
  | O => ret tt
  | S n' =>
      if p + PGSIZE <=? vend then kfree p ;; freerange_loop (p + PGSIZE) vend n'
      else ret tt
  end.

(** The loop runs at most [(vend - p) / PGSIZE] times. *)
Definition freerange (vstart vend : Z) : M mm unit :=
  let p := PGROUNDUP vstart in
  freerange_loop p vend (Z.to_nat ((vend - p) / PGSIZE) + 1).

Definition kinit1 (vstart vend : Z) : M mm unit :=
  initlock L_kmem ;;
  modify (set_use_lock false) ;;
  freerange vstart vend.

Definition kinit2 (vstart vend : Z) : M mm unit :=
  freerange vstart vend ;;
  modify (set_use_lock true).

(** ** The abstraction: a stack of distinct pages *)

Fixpoint is_free (m : gmap Z Z) (head : Z) (free : list Z) : Prop :=
  match free with
  | [] => head = 0
  | p :: rest => head = p /\ page_ok p /\ is_free m (load32 m p) rest
  end.

Record alloc_inv (s : mm) (free : list Z) : Prop := AllocInv {
  ai_wf : cpu_wf (mm_cpu s);
  ai_lock : L_kmem ∉ held (mm_cpu s);
  ai_list : is_free (mem s) (freelist s) free;
  ai_nodup : NoDup free }.

(** What no memory operation changes. *)
Definition mm_frame (s s' : mm) : Prop :=
  cpu_sim (mm_cpu s) (mm_cpu s') /\ use_lock s' = use_lock s.

#[export] Instance mm_frame_preorder : PreOrder mm_frame.
Proof.
  split.
  - by intros s.
  - intros s1 s2 s3 [H1 H2] [H3 H4]. split; [by etrans|congruence].
Qed.

Lemma is_free_page_ok m head free p : is_free m head free -> p ∈ free -> page_ok p.
Proof.
  revert head. induction free as [|q rest IH]; intros head Hf Hp; [set_solver|].
  destruct Hf as (_ & Hq & Hf). apply list_elem_of_In in Hp as [->|Hp]; [done|].
  eapply IH; [done|by apply list_elem_of_In].
Qed.

(** The list only depends on the first words of its pages. *)
Lemma is_free_ext m m' head free :
  (forall p, p ∈ free -> load32 m' p = load32 m p) ->
  is_free m head free -> is_free m' head free.
Proof.
  revert head. induction free as [|q rest IH]; intros head E Hf; [done|].
  destruct Hf as (? & ? & Hf). split; [done|]. split; [done|].
  rewrite E by set_solver. apply IH; [|done]. intros. apply E. set_solver.
Qed.

Lemma is_free_nonzero m head free : is_free m head free -> head = 0 <-> free = [].
Proof.
  destruct free as [|p rest]; simpl; [done|]. intros (-> & Hp%page_ok_range & _).
  split; [lia|done].
Qed.

Lemma alloc_inv_page_ok s free p : alloc_inv s free -> p ∈ free -> page_ok p.
Proof. intros Hi. by eapply is_free_page_ok, ai_list. Qed.

(** Stores outside the free pages keep the invariant. *)
Lemma alloc_inv_set_mem s free m' :
  alloc_inv s free -> (forall p, p ∈ free -> same_on (mem s) m' p PGSIZE) ->
  alloc_inv (set_mem m' s) free.
Proof.
  intros [Hw Hl Hf Hn] E. split; try done. simpl. eapply is_free_ext; [|done].
  intros p Hp. eapply same_on_load32; [by apply E|lia|lia].
Qed.

(** Entering and leaving [kmem.lock], when it is used. *)
Definition locked_cpu (ul : bool) (c : cpu) : cpu := if ul then acquired L_kmem c else c.

Lemma wp_kmem_acquire (Q : unit -> mm -> Prop) s (ul : bool) :
  cpu_wf (mm_cpu s) -> L_kmem ∉ held (mm_cpu s) ->
  Q tt (set_cpu (locked_cpu ul (mm_cpu s)) s) -> wp (when ul do acquire L_kmem) Q s.
Proof.
  intros Hwf Hl HQ. destruct ul; simpl in *.
  - eapply wp_run; [by apply acquire_run|done].
  - apply wp_ret. by destruct s.
Qed.

Lemma wp_kmem_release (Q : unit -> mm -> Prop) s (ul : bool) c :
  mm_cpu s = locked_cpu ul c -> cpu_wf c -> L_kmem ∉ held c ->
  (forall c', cpu_sim c c' -> Q tt (set_cpu c' s)) -> wp (when ul do release L_kmem) Q s.
Proof.
  intros Hc Hwf Hl HQ. destruct ul; simpl in *.
  - eapply wp_run.
    + apply release_run; simpl; rewrite Hc; [by apply acquired_wf|simpl; set_solver].
    + simpl. rewrite Hc, released_acquired by done. apply HQ, cpu_sim_refresh.
  - apply wp_ret. specialize (HQ c ltac:(done)). rewrite <- Hc in HQ. by destruct s.
Qed.

Lemma wp_kload32 (Q : Z -> mm -> Prop) s a :
  KERNBASE <= a -> Q (load32 (mem s) a) s -> wp (kload32 a) Q s.
Proof.
  intros Ha HQ. unfold kload32. destruct (Z.ltb_spec a KERNBASE); [lia|]. by apply wp_gets.
Qed.

Lemma wp_kstore32 (Q : unit -> mm -> Prop) s a v :
  KERNBASE <= a -> Q tt (set_mem (store32 (mem s) a v) s) -> wp (kstore32 a v) Q s.
Proof.
  intros Ha HQ. unfold kstore32. destruct (Z.ltb_spec a KERNBASE); [lia|]. by apply wp_modify.
Qed.

Lemma wp_kmemset (Q : unit -> mm -> Prop) s a c n :
  KERNBASE <= a -> Q tt (set_mem (memset (mem s) a c n) s) -> wp (kmemset a c n) Q s.
Proof.
  intros Ha HQ. unfold kmemset. destruct (Z.ltb_spec a KERNBASE); [lia|]. by apply wp_modify.
Qed.

Lemma wp_kmemmove (Q : unit -> mm -> Prop) s d a n :
  KERNBASE <= d -> KERNBASE <= a ->
  Q tt (set_mem (memmove (mem s) d a n) s) -> wp (kmemmove d a n) Q s.
Proof.
  intros Hd Ha HQ. unfold kmemmove. destruct (Z.ltb_spec d KERNBASE); [lia|].
  destruct (Z.ltb_spec a KERNBASE); [lia|]. by apply wp_modify.
Qed.

(** ** kalloc pops the stack *)
Lemma kalloc_wp (Q : Z -> mm -> Prop) s free :
  alloc_inv s free ->
  (forall s', mm_frame s s' -> mem s' = mem s ->
     match free with
     | [] => alloc_inv s' [] -> Q 0 s'
     | p :: rest => page_ok p -> p ∉ rest -> alloc_inv s' rest -> Q p s'
     end) ->
  wp kalloc Q s.
Proof.
  intros [Hwf Hl Hf Hnd] HQ. unfold kalloc. wp_step. wp_step. wp_step.
  apply wp_kmem_acquire; [done..|]. wp_step. wp_step. simpl. wp_step.
  destruct free as [|p rest]; simpl in Hf.
  - rewrite Hf. simpl. wp_step. wp_step.
    eapply wp_kmem_release; [done..|]. intros c' Hc'. wp_step. apply HQ; [done|done|].
    split; simpl; try done; [by rewrite <- Hc'|].
    by apply cpu_sim_fields in Hc' as (_ & _ & <- & _).
  - destruct Hf as (-> & Hp & Hf). pose proof (page_ok_range p Hp).
    destruct (Z.eqb_spec p 0); [lia|]. simpl. wp_step. apply wp_kload32; [lia|]. wp_step. simpl.
    wp_step. eapply wp_kmem_release; [done..|]. intros c' Hc'. wp_step.
    pose proof (NoDup_cons_1_1 _ _ Hnd). apply NoDup_cons_1_2 in Hnd.
    apply HQ; try done. split; simpl; try done; [by rewrite <- Hc'|].
    by apply cpu_sim_fields in Hc' as (_ & _ & <- & _).
Qed.

(** ** kfree pushes on the stack and fills the page with junk *)
Lemma kfree_wp (Q : unit -> mm -> Prop) s free v :
  alloc_inv s free -> page_ok v -> v ∉ free ->
  (forall s', mm_frame s s' -> alloc_inv s' (v :: free) ->
     (forall a, a < v \/ v + PGSIZE <= a -> load8 (mem s') a = load8 (mem s) a) -> Q tt s') ->
  wp (kfree v) Q s.
Proof.
  intros Hinv Hv Hvf HQ. pose proof (page_ok_range v Hv) as (Hv1 & Hv2 & Hv3).
  unfold kfree. rewrite V2P_eq by lia.
  destruct (Z.eqb_spec (v mod PGSIZE) 0); [|done].
  destruct (Z.ltb_spec v kend); [unfold page_ok in Hv; lia|].
  destruct (Z.leb_spec PHYSTOP (v - KERNBASE)); [lia|]. simpl.
  wp_step. apply wp_kmemset; [lia|]. wp_step. wp_step. wp_step.
  destruct Hinv as [Hwf Hl Hf Hnd]. apply wp_kmem_acquire; [done..|].
  wp_step. wp_step. simpl. wp_step. apply wp_kstore32; [lia|]. wp_step. wp_step. simpl.
  eapply wp_kmem_release; [done..|]. intros c' Hc'. simpl.
  set (m' := store32 (memset (mem s) v 1 PGSIZE) v (freelist s)).
  assert (Hout : forall a, a < v \/ v + PGSIZE <= a -> load8 m' a = load8 (mem s) a).
  { intros a Ha. unfold m'. rewrite load8_store32_ne by lia. rewrite memset_load8 by lia.
    zcases; done. }
  apply HQ; [done| |done]. split; simpl; try done; [by rewrite <- Hc'| | |].
  - by apply cpu_sim_fields in Hc' as (_ & _ & <- & _).
  - split; [done|]. split; [done|]. unfold m'.
    assert (Hfl : 0 <= freelist s < 4294967296).
    { destruct free as [|p rest]; simpl in Hf; [lia|]. destruct Hf as (-> & Hp%page_ok_range & _).
      lia. }
    rewrite load32_store32 by done. eapply is_free_ext; [|exact Hf].
    intros p Hp. apply load32_ext. intros i Hi. apply Hout.
    assert (page_ok p) as Hpk by (by eapply is_free_page_ok).
    destruct (pages_disjoint v p Hv Hpk); [set_solver|lia..].
  - by apply NoDup_cons_2.
Qed.

(** The panic of [kfree]: exactly the addresses that are not pages. *)
Lemma kfree_panics s v :
  KERNBASE <= v < 4294967296 -> ~ page_ok v -> kfree v s = Panic "kfree".
Proof.
  intros Hv Hp. unfold kfree. rewrite V2P_eq by lia.
  assert (negb (v mod PGSIZE =? 0) || (v <? kend) || (PHYSTOP <=? v - KERNBASE) = true) as ->;
    [|done]. unfold page_ok in Hp. zcases; try done.
Qed.
(** ** freerange and the two phases of initialisation *)

(** The pages [p], [p + PGSIZE], ... in the order [freerange] leaves them on
    the list: the last one freed comes first. *)
Fixpoint range_pages (p : Z) (n : nat) : list Z :=
  match n with
  | O => []
  | S n' => range_pages (p + PGSIZE) n' ++ [p]
  end.

Lemma elem_of_range_pages p n x :
  x ∈ range_pages p n -> exists i, 0 <= i < Z.of_nat n /\ x = p + i * PGSIZE.
Proof.
  revert p. induction n as [|n IH]; intros p Hx; simpl in Hx; [set_solver|].
  apply elem_of_app in Hx as [Hx|Hx%list_elem_of_singleton].
  - destruct (IH _ Hx) as (i & Hi & ->). exists (i + 1). lia.
  - exists 0. lia.
Qed.

Lemma range_pages_elem p n i :
  0 <= i < Z.of_nat n -> p + i * PGSIZE ∈ range_pages p n.
Proof.
  revert p i. induction n as [|n IH]; intros p i Hi; simpl; [lia|].
  apply elem_of_app. destruct (Z.eq_dec i 0) as [->|].
  - right. apply list_elem_of_singleton. lia.
  - left. replace (p + i * PGSIZE) with (p + PGSIZE + (i - 1) * PGSIZE) by lia.
    apply IH. lia.
Qed.

Lemma freerange_loop_wp (Q : unit -> mm -> Prop) s free p vend n fuel :
  alloc_inv s free -> p mod PGSIZE = 0 -> kend <= p -> vend <= KERNBASE + PHYSTOP ->
  n = Z.to_nat ((vend - p) / PGSIZE) -> (n < fuel)%nat ->
  (forall x, x ∈ range_pages p n -> x ∉ free) ->
  (forall s', mm_frame s s' -> alloc_inv s' (range_pages p n ++ free) -> Q tt s') ->
  wp (freerange_loop p vend fuel) Q s.
Proof.
  revert s free p fuel. induction n as [|n IH]; intros s free p fuel Hi Hal Hlo Hhi Hn Hf Hd HQ;
    destruct fuel as [|fuel]; try lia; simpl; destruct (Z.leb_spec (p + PGSIZE) vend).
  - exfalso. zlia.
  - apply wp_ret. by apply HQ.
  - assert (page_ok p) as Hp by (unfold page_ok; lia).
    wp_step. eapply kfree_wp; [done|done| |].
    { apply Hd. simpl. set_solver. }
    intros s1 Hfr Hi1 _. eapply (IH s1 (p :: free)); [done|zlia|lia|done|zlia|lia| |].
    + intros x Hx. apply not_elem_of_cons. split.
      * apply elem_of_range_pages in Hx as (i & ? & ->). lia.
      * apply Hd. simpl. set_solver.
    + intros s' Hfr' Hi'. apply HQ; [by etrans|]. simpl. by rewrite <- app_assoc.
  - exfalso. zlia.
Qed.

Lemma freerange_wp (Q : unit -> mm -> Prop) s free vstart vend n :
  alloc_inv s free -> kend <= vstart -> vstart <= KERNBASE + PHYSTOP ->
  vend <= KERNBASE + PHYSTOP ->
  n = Z.to_nat ((vend - PGROUNDUP vstart) / PGSIZE) ->
  (forall x, x ∈ range_pages (PGROUNDUP vstart) n -> x ∉ free) ->
  (forall s', mm_frame s s' ->
     alloc_inv s' (range_pages (PGROUNDUP vstart) n ++ free) -> Q tt s') ->
  wp (freerange vstart vend) Q s.
Proof.
  intros Hi Hlo Hlo' Hhi Hn Hd HQ. unfold freerange.
  pose proof kdata_lo. pose proof kdata_end.
  assert (E := PGROUNDUP_eq vstart ltac:(lia) ltac:(lia)).
  eapply (freerange_loop_wp _ _ _ _ _ n); [done| | |done|done|lia|done|done];
    rewrite E; zlia.
Qed.
End Kalloc.
