(* ===== verification/Vm.v ===== *)
(** * vm.c: page tables and user address spaces

    Two-level x86 page tables in memory, and the routines of vm.c that build,
    grow, shrink, copy and free address spaces.  This file has the
    definitions; [VmWalk], [VmMap] and [VmUser] prove their specifications.
    The console messages of [cprintf] are not part of the state. *)

From S2P Require Import Prelude Machine StringC Spinlock Kalloc.

(** Bytes stored from [a] on. *)
Fixpoint store_bytes (m : gmap Z Z) (a : Z) (bs : list Z) : gmap Z Z :=
  match bs with
  | [] => m
  | b :: bs' => store_bytes (store8 m a b) (a + 1) bs'
  end.

(** The [n] bytes from [a] on. *)
Fixpoint load_bytes (m : gmap Z Z) (a : Z) (n : nat) : list Z :=
  match n with
  | O => []
  | S n' => load8 m a :: load_bytes m (a + 1) n'
  end.

(** [memmove] from a buffer that is not in modelled memory. *)
Definition kwrite (dst : Z) (bs : list Z) : M mm unit :=
  if dst <? KERNBASE then undef "memmove below KERNBASE"
  else modify (fun s => set_mem (store_bytes (mem s) dst bs) s).

(** The kernel's mappings, present in every page table. *)
Record kmap_entry := Kmap { virt : Z; phys_start : Z; phys_end : Z; perm : Z }.

Section Vm.
Context `{KernelImage}.

Definition walkpgdir (pgdir va : Z) (alloc : bool) : M mm Z :=
  let pde := pgdir + 4 * PDX va in
  e <- kload32 pde ;;
  if bit_set e PTE_P then ret (P2V (PTE_ADDR e) + 4 * PTX va)
  else if negb alloc then ret 0
  else
    pgtab <- kalloc ;;
    if pgtab =? 0 then ret 0
    else
      kmemset pgtab 0 PGSIZE ;;
      kstore32 pde (Z.lor (Z.lor (Z.lor (V2P pgtab) PTE_P) PTE_W) PTE_U) ;;
      ret (pgtab + 4 * PTX va).

Fixpoint mappages_loop (fuel : nat) (pgdir a last pa perm : Z) : M mm Z :=
  match fuel with
  | O => fun _ => NoFuel
  | S fuel' =>
      pte <- walkpgdir pgdir a true ;;
      if pte =? 0 then ret (-1)
      else
        e <- kload32 pte ;;
        if bit_set e PTE_P then panic "remap"
        else
          kstore32 pte (Z.lor (Z.lor pa perm) PTE_P) ;;
          if a =? last then ret 0
          else mappages_loop fuel' pgdir (u32 (a + PGSIZE)) last (u32 (pa + PGSIZE)) perm
  end.

(** The loop visits the pages from [a] to [last], modulo 2^32. *)
Definition mappages (pgdir va size pa perm : Z) : M mm Z :=
  let a := PGROUNDDOWN va in
  let last := PGROUNDDOWN (u32 (va + size - 1)) in
  mappages_loop (Z.to_nat (u32 (last - a) / PGSIZE) + 1) pgdir a last pa perm.

Definition kmap : list kmap_entry :=
  [ {| virt := KERNBASE; phys_start := 0; phys_end := EXTMEM; perm := PTE_W |};
    {| virt := KERNLINK; phys_start := V2P KERNLINK; phys_end := V2P kdata; perm := 0 |};
    {| virt := kdata; phys_start := V2P kdata; phys_end := PHYSTOP; perm := PTE_W |};
    {| virt := DEVSPACE; phys_start := DEVSPACE; phys_end := 0; perm := PTE_W |} ].

Fixpoint deallocuvm_loop (fuel : nat) (pgdir a oldsz : Z) : M mm unit :=
  match fuel with
  | O => fun _ => NoFuel
  | S fuel' =>
      if a <? oldsz then
        pte <- walkpgdir pgdir a false ;;
        if pte =? 0 then
          deallocuvm_loop fuel' pgdir
            (u32 (u32 (PGADDR (PDX a + 1) 0 0 - PGSIZE) + PGSIZE)) oldsz
        else
          e <- kload32 pte ;;
          (when bit_set e PTE_P do
            (let pa := PTE_ADDR e in
             if pa =? 0 then panic "kfree"
             else kfree (P2V pa) ;; kstore32 pte 0)) ;;
          deallocuvm_loop fuel' pgdir (u32 (a + PGSIZE)) oldsz
      else ret tt
  end.

(** Each iteration advances [a] by at least a page. *)
Definition deallocuvm (pgdir oldsz newsz : Z) : M mm Z :=
  if oldsz <=? newsz then ret oldsz
  else
    let a := PGROUNDUP newsz in
    deallocuvm_loop (Z.to_nat ((oldsz - a) / PGSIZE) + 2) pgdir a oldsz ;;
    ret newsz.

Fixpoint freevm_tables (pgdir : Z) (ixs : list Z) : M mm unit :=
  match ixs with
  | [] => ret tt
  | i :: ixs' =>
      e <- kload32 (pgdir + 4 * i) ;;
      (when bit_set e PTE_P do kfree (P2V (PTE_ADDR e))) ;;
      freevm_tables pgdir ixs'
  end.

Definition freevm (pgdir : Z) : M mm unit :=
  if pgdir =? 0 then panic "freevm: no pgdir"
  else
    deallocuvm pgdir KERNBASE 0 ;;
    freevm_tables pgdir (seqZ 0 NPDENTRIES) ;;
    kfree pgdir.

Fixpoint setupkvm_maps (pgdir : Z) (ks : list kmap_entry) : M mm Z :=
  match ks with
  | [] => ret pgdir
  | k :: ks' =>
      r <- mappages pgdir (virt k) (u32 (phys_end k - phys_start k)) (phys_start k) (perm k) ;;
      if r <? 0 then freevm pgdir ;; ret 0
      else setupkvm_maps pgdir ks'
  end.

Definition setupkvm : M mm Z :=
  pgdir <- kalloc ;;
  if pgdir =? 0 then ret 0
  else
    kmemset pgdir 0 PGSIZE ;;
    if DEVSPACE <? P2V PHYSTOP then panic "PHYSTOP too high"
    else setupkvm_maps pgdir kmap.

Definition inituvm (pgdir : Z) (init : list Z) (sz : Z) : M mm unit :=
  if PGSIZE <=? sz then panic "inituvm: more than a page"
  else
    m <- kalloc ;;
    kmemset m 0 PGSIZE ;;
    mappages pgdir 0 PGSIZE (V2P m) (Z.lor PTE_W PTE_U) ;;
    kwrite m (take (Z.to_nat sz) init).

Fixpoint allocuvm_loop (fuel : nat) (pgdir oldsz a newsz : Z) : M mm Z :=
  match fuel with
  | O => fun _ => NoFuel
  | S fuel' =>
      if a <? newsz then
        m <- kalloc ;;
        if m =? 0 then deallocuvm pgdir newsz oldsz ;; ret 0
        else
          kmemset m 0 PGSIZE ;;
          r <- mappages pgdir a PGSIZE (V2P m) (Z.lor PTE_W PTE_U) ;;
          if r <? 0 then deallocuvm pgdir newsz oldsz ;; kfree m ;; ret 0
          else allocuvm_loop fuel' pgdir oldsz (u32 (a + PGSIZE)) newsz
      else ret newsz
  end.

Definition allocuvm (pgdir oldsz newsz : Z) : M mm Z :=
  if KERNBASE <=? newsz then ret 0
  else if newsz <? oldsz then ret oldsz
  else
    let a := PGROUNDUP oldsz in
    allocuvm_loop (Z.to_nat ((newsz - a) / PGSIZE) + 2) pgdir oldsz a newsz.

Definition clearpteu (pgdir uva : Z) : M mm unit :=
  pte <- walkpgdir pgdir uva false ;;
  if pte =? 0 then panic "clearpteu"
  else e <- kload32 pte ;; kstore32 pte (Z.land e (Z.lnot PTE_U)).

Fixpoint copyuvm_loop (fuel : nat) (d pgdir i sz : Z) : M mm Z :=
  match fuel with
  | O => fun _ => NoFuel
  | S fuel' =>
      if i <? sz then
        pte <- walkpgdir pgdir i false ;;
        if pte =? 0 then panic "copyuvm: pte should exist"
        else
          e <- kload32 pte ;;
          if negb (bit_set e PTE_P) then panic "copyuvm: page not present"
          else
            let pa := PTE_ADDR e in
            let flags := PTE_FLAGS e in
            m <- kalloc ;;
            if m =? 0 then freevm d ;; ret 0
            else
              kmemmove m (P2V pa) PGSIZE ;;
              r <- mappages d i PGSIZE (V2P m) flags ;;
              if r <? 0 then kfree m ;; freevm d ;; ret 0
              else copyuvm_loop fuel' d pgdir (u32 (i + PGSIZE)) sz
      else ret d
  end.

Definition copyuvm (pgdir sz : Z) : M mm Z :=
  d <- setupkvm ;;
  if d =? 0 then ret 0
  else copyuvm_loop (Z.to_nat (sz / PGSIZE) + 2) d pgdir 0 sz.

Definition uva2ka (pgdir uva : Z) : M mm Z :=
  pte <- walkpgdir pgdir uva false ;;
  e <- kload32 pte ;;
  if negb (bit_set e PTE_P) then ret 0
  else if negb (bit_set e PTE_U) then ret 0
  else ret (P2V (PTE_ADDR e)).

Fixpoint copyout_loop (fuel : nat) (pgdir va : Z) (buf : list Z) (len : Z) : M mm Z :=
  match fuel with
  | O => fun _ => NoFuel
  | S fuel' =>
      if 0 <? len then
        let va0 := PGROUNDDOWN va in
        pa0 <- uva2ka pgdir va0 ;;
        if pa0 =? 0 then ret (-1)
        else
          let n0 := PGSIZE - (va - va0) in
          let n := if len <? n0 then len else n0 in
          kwrite (pa0 + (va - va0)) (take (Z.to_nat n) buf) ;;
          copyout_loop fuel' pgdir (u32 (va0 + PGSIZE)) (drop (Z.to_nat n) buf) (len - n)
      else ret 0
  end.

(** The first chunk ends at a page boundary, the others are pages. *)
Definition copyout (pgdir va : Z) (p : list Z) (len : Z) : M mm Z :=
  copyout_loop (Z.to_nat (len / PGSIZE) + 3) pgdir va p len.
End Vm.
