(* ===== verification/VmWalk.v ===== *)
(** * Page table walks

    The pure view of a page table in memory ([pde_at], [pte_at]), its
    well-formedness ([pt_inv]: the directory and its tables are distinct
    allocated pages), and the specification of [walkpgdir]: an allocating
    walk adds at most one empty table, changes no translation, and touches
    no page outside the page table. *)

From S2P Require Import Prelude Machine StringC Spinlock Kalloc Vm.

Definition pde_at (m : gmap Z Z) (pgdir i : Z) : Z := load32 m (pgdir + 4 * i).

Definition table_of (e : Z) : Z := P2V (PTE_ADDR e).

(** The entry that translates [va]; 0, not present, when there is no table. *)
Definition pte_at (m : gmap Z Z) (pgdir va : Z) : Z :=
  let e := pde_at m pgdir (PDX va) in
  if bit_set e PTE_P then load32 m (table_of e + 4 * PTX va) else 0.

(** [v] is the directory or one of its tables. *)
Definition is_pt (m : gmap Z Z) (pgdir v : Z) : Prop :=
  v = pgdir \/
  exists i, 0 <= i < 1024 /\ bit_set (pde_at m pgdir i) PTE_P = true /\
            v = table_of (pde_at m pgdir i).

Section Walk.
Context `{KernelImage}.

Record pt_inv (m : gmap Z Z) (pgdir : Z) (free : list Z) : Prop := PtInv {
  pt_dir : page_ok pgdir;
  pt_dir_used : pgdir ∉ free;
  pt_table : forall i, 0 <= i < 1024 -> bit_set (pde_at m pgdir i) PTE_P = true ->
    page_ok (table_of (pde_at m pgdir i)) /\ table_of (pde_at m pgdir i) <> pgdir /\
    table_of (pde_at m pgdir i) ∉ free;
  pt_inj : forall i j, 0 <= i < 1024 -> 0 <= j < 1024 ->
    bit_set (pde_at m pgdir i) PTE_P = true -> bit_set (pde_at m pgdir j) PTE_P = true ->
    table_of (pde_at m pgdir i) = table_of (pde_at m pgdir j) -> i = j }.

(** How page table code may change the memory system: pages move from the
    free list to the table, and no other page is written. *)
Record pt_step (pgdir : Z) (s : mm) (free : list Z) (s' : mm) (free' : list Z) : Prop := {
  ps_frame : mm_frame s s';
  ps_alloc : alloc_inv s' free';
  ps_pt : pt_inv (mem s') pgdir free';
  ps_used : exists used, free = used ++ free' /\
    forall v, is_pt (mem s') pgdir v <-> is_pt (mem s) pgdir v \/ v ∈ used;
  ps_data : forall v, page_ok v -> ~ is_pt (mem s') pgdir v ->
    same_on (mem s) (mem s') v PGSIZE }.

Lemma pt_step_refl pgdir s free :
  alloc_inv s free -> pt_inv (mem s) pgdir free -> pt_step pgdir s free s free.
Proof.
  intros Ha Hp. split; [done|done|done| |done]. exists []. split; [done|]. set_solver.
Qed.

Lemma pt_step_trans pgdir s1 f1 s2 f2 s3 f3 :
  pt_step pgdir s1 f1 s2 f2 -> pt_step pgdir s2 f2 s3 f3 -> pt_step pgdir s1 f1 s3 f3.
Proof.
  intros [Hf1 Ha1 Hp1 (u1 & -> & Hu1) Hd1] [Hf2 Ha2 Hp2 (u2 & -> & Hu2) Hd2].
  split; [by etrans|done|done| |].
  - exists (u1 ++ u2). split; [by rewrite app_assoc|]. intros v. rewrite Hu2, Hu1. set_solver.
  - intros v Hv Hn. eapply same_on_trans; [apply Hd1; [done|]|by apply Hd2].
    intros Hv1. apply Hn, Hu2. by left.
Qed.

Lemma is_pt_page_ok m pgdir free v :
  pt_inv m pgdir free -> is_pt m pgdir v -> page_ok v /\ v ∉ free.
Proof.
  intros Hp [->|(i & Hi & Hb & ->)].
  - split; [apply Hp|apply Hp].
  - destruct (pt_table _ _ _ Hp i Hi Hb) as (? & ? & ?). done.
Qed.

(** The invariant only looks at the directory page. *)
Lemma pde_at_same m m' pgdir i :
  same_on m m' pgdir PGSIZE -> 0 <= i < 1024 -> pde_at m' pgdir i = pde_at m pgdir i.
Proof. intros E ?. unfold pde_at. eapply same_on_load32; [done|lia|lia]. Qed.

Lemma pt_inv_same m m' pgdir free :
  same_on m m' pgdir PGSIZE -> pt_inv m pgdir free -> pt_inv m' pgdir free.
Proof.
  intros E [H1 H2 H3 H4]. split; [done|done| |].
  - intros i Hi. rewrite (pde_at_same m m') by done. by apply H3.
  - intros i j Hi Hj. rewrite !(pde_at_same m m') by done. by apply H4.
Qed.

Lemma is_pt_same m m' pgdir v :
  same_on m m' pgdir PGSIZE -> is_pt m' pgdir v <-> is_pt m pgdir v.
Proof.
  intros E. unfold is_pt. split; intros [?|(i & Hi & Hb & Hv)]; auto; right; exists i;
    rewrite (pde_at_same m m') in * by done; done.
Qed.

Lemma pt_inv_sub m pgdir free free' :
  (forall v, v ∈ free' -> v ∈ free) -> pt_inv m pgdir free -> pt_inv m pgdir free'.
Proof.
  intros Hsub [H1 H2 H3 H4]. split; [done|set_solver| |done].
  intros i Hi Hb. destruct (H3 i Hi Hb) as (? & ? & ?). split_and!; set_solver.
Qed.

(** The table pages determine the translations. *)
Lemma pte_at_same m m' pgdir va :
  (forall v, is_pt m pgdir v -> same_on m m' v PGSIZE) -> pte_at m' pgdir va = pte_at m pgdir va.
Proof.
  intros E. unfold pte_at. pose proof (PDX_range va). pose proof (PTX_range va).
  rewrite (pde_at_same m m') by (auto; apply E; by left).
  destruct (bit_set (pde_at m pgdir (PDX va)) PTE_P) eqn:Hb; [|done].
  eapply same_on_load32; [apply E; right; exists (PDX va); done|lia|lia].
Qed.

(** The slot of [va] lies in its table. *)
Lemma slot_range m pgdir free va :
  pt_inv m pgdir free -> bit_set (pde_at m pgdir (PDX va)) PTE_P = true ->
  let t := table_of (pde_at m pgdir (PDX va)) in
  page_ok t /\ t <> pgdir /\ t <= t + 4 * PTX va /\ t + 4 * PTX va + 4 <= t + PGSIZE.
Proof.
  intros Hp Hb t. destruct (pt_table _ _ _ Hp (PDX va) (PDX_range va) Hb) as (? & ? & _).
  pose proof (PTX_range va). split_and!; try done; lia.
Qed.

(** A new table: the directory entry [walkpgdir] stores. *)
Lemma new_pde p :
  page_ok p ->
  let e := Z.lor (Z.lor (Z.lor (V2P p) PTE_P) PTE_W) PTE_U in
  0 <= e < 4294967296 /\ bit_set e PTE_P = true /\ table_of e = p.
Proof.
  intros Hp. pose proof (page_ok_V2P_aligned p Hp) as Hal.
  pose proof (page_ok_V2P_range p Hp). cbn zeta.
  rewrite <- !Z.lor_assoc. change (Z.lor PTE_P (Z.lor PTE_W PTE_U)) with 7.
  rewrite lor_flags by (done || lia). split; [lia|]. split.
  - change 7 with (Z.lor 6 PTE_P). by apply present_make.
  - unfold table_of. rewrite PTE_ADDR_make by (done || lia). by apply page_ok_P2V_V2P.
Qed.

(** Memory after a table [p] has been zeroed and linked at index [d]. *)
Definition link_table (m : gmap Z Z) (pgdir d p : Z) : gmap Z Z :=
  store32 (memset m p 0 PGSIZE) (pgdir + 4 * d)
    (Z.lor (Z.lor (Z.lor (V2P p) PTE_P) PTE_W) PTE_U).

Section Link.
Context (m : gmap Z Z) (pgdir d p : Z) (rest : list Z).
Context (Hpt : pt_inv m pgdir (p :: rest)) (Hd : 0 <= d < 1024) (Hp : page_ok p).
Context (Hnew : bit_set (pde_at m pgdir d) PTE_P = false) (Hnd : p ∉ rest).
Let m' := link_table m pgdir d p.

Lemma link_out a :
  (a < p \/ p + PGSIZE <= a) -> (a < pgdir + 4 * d \/ pgdir + 4 * d + 4 <= a) ->
  load8 m' a = load8 m a.
Proof.
  intros. unfold m', link_table. rewrite load8_store32_ne by lia.
  rewrite memset_load8 by lia. zcases; done.
Qed.

Lemma link_dir_ne : p <> pgdir.
Proof. pose proof (pt_dir_used _ _ _ Hpt). set_solver. Qed.

Lemma link_pde i :
  0 <= i < 1024 ->
  pde_at m' pgdir i =
  if i =? d then Z.lor (Z.lor (Z.lor (V2P p) PTE_P) PTE_W) PTE_U else pde_at m pgdir i.
Proof.
  intros Hi. unfold pde_at. destruct (Z.eqb_spec i d) as [->|Hne].
  - unfold m', link_table. apply load32_store32. by apply new_pde.
  - apply load32_ext. intros a Ha. apply link_out; [|lia].
    destruct (pages_disjoint p pgdir Hp (pt_dir _ _ _ Hpt) link_dir_ne); lia.
Qed.

Lemma link_pt_inv : pt_inv m' pgdir rest.
Proof.
  destruct (new_pde p Hp) as (_ & Hb & Ht).
  assert (Hold : forall i, 0 <= i < 1024 -> bit_set (pde_at m pgdir i) PTE_P = true ->
    table_of (pde_at m pgdir i) <> p).
  { intros i Hi Hbi E. destruct (pt_table _ _ _ Hpt i Hi Hbi) as (_ & _ & Hn).
    rewrite E in Hn. set_solver. }
  split.
  - apply Hpt.
  - pose proof (pt_dir_used _ _ _ Hpt). set_solver.
  - intros i Hi. rewrite link_pde by done. destruct (Z.eqb_spec i d) as [->|Hne].
    + intros _. rewrite Ht. split_and!; [done|apply link_dir_ne|done].
    + intros Hbi. destruct (pt_table _ _ _ Hpt i Hi Hbi) as (? & ? & ?). set_solver.
  - intros i j Hi Hj. rewrite !link_pde by done.
    destruct (Z.eqb_spec i d) as [->|Hne], (Z.eqb_spec j d) as [->|Hne']; try done.
    + intros _ Hbj. rewrite Ht. intros E. by destruct (Hold j).
    + intros Hbi _. rewrite Ht. intros E. by destruct (Hold i).
    + by apply Hpt.
Qed.

Lemma link_is_pt v : is_pt m' pgdir v <-> is_pt m pgdir v \/ v = p.
Proof.
  destruct (new_pde p Hp) as (_ & Hb & Ht). split.
  - intros [->|(i & Hi & Hbi & ->)]; [left; by left|]. rewrite link_pde in * by done.
    destruct (Z.eqb_spec i d) as [->|Hne]; [by right|]. left. right. by exists i.
  - intros [[->|(i & Hi & Hbi & ->)]| ->]; [by left| |].
    + right. exists i. rewrite link_pde by done. destruct (Z.eqb_spec i d) as [->|]; [|done].
      by rewrite Hnew in Hbi.
    + right. exists d. rewrite link_pde, Z.eqb_refl by done. done.
Qed.

Lemma link_data v :
  page_ok v -> ~ is_pt m' pgdir v -> same_on m m' v PGSIZE.
Proof.
  intros Hv Hn a Ha. rewrite link_is_pt in Hn. apply link_out.
  - destruct (pages_disjoint p v Hp Hv); [|lia..]. intros ->. apply Hn. by right.
  - destruct (pages_disjoint pgdir v (pt_dir _ _ _ Hpt) Hv); [|lia..].
    intros ->. apply Hn. left. by left.
Qed.

(** The new table is empty: no translation changes. *)
Lemma link_pte va :
  0 <= va < 4294967296 -> pte_at m' pgdir va = pte_at m pgdir va.
Proof.
  intros Hva. unfold pte_at. pose proof (PDX_range va). pose proof (PTX_range va).
  rewrite link_pde by done. destruct (new_pde p Hp) as (_ & Hb & Ht).
  destruct (Z.eqb_spec (PDX va) d) as [->|Hne].
  - rewrite Hb, Hnew, Ht.
    assert (Hz : forall a, p <= a < p + PGSIZE -> load8 m' a = 0).
    { intros a Ha. unfold m', link_table.
      rewrite load8_store32_ne
        by (destruct (pages_disjoint p pgdir Hp (pt_dir _ _ _ Hpt) link_dir_ne); lia).
      rewrite memset_load8 by lia. zcases. done. }
    unfold load32. rewrite !Hz by lia. done.
  - destruct (bit_set (pde_at m pgdir (PDX va)) PTE_P) eqn:Hbv; [|done].
    destruct (pt_table _ _ _ Hpt (PDX va)) as (Htp & Hnd' & Hnf); [done|done|].
    apply load32_ext. intros a Ha. apply link_out.
    + destruct (pages_disjoint p (table_of (pde_at m pgdir (PDX va)))); [done|done| |lia..].
      set_solver.
    + destruct (pages_disjoint pgdir (table_of (pde_at m pgdir (PDX va))));
        [apply Hpt|done|done|lia..].
Qed.
End Link.

(** ** walkpgdir *)

(** Without allocation: the slot when there is a table, 0 otherwise. *)
Lemma walkpgdir_find_wp (Q : Z -> mm -> Prop) s pgdir va free :
  pt_inv (mem s) pgdir free ->
  (bit_set (pde_at (mem s) pgdir (PDX va)) PTE_P = true ->
     Q (table_of (pde_at (mem s) pgdir (PDX va)) + 4 * PTX va) s) ->
  (bit_set (pde_at (mem s) pgdir (PDX va)) PTE_P = false -> Q 0 s) ->
  wp (walkpgdir pgdir va false) Q s.
Proof.
  intros Hpt Hyes Hno. unfold walkpgdir.
  pose proof (page_ok_range _ (pt_dir _ _ _ Hpt)). pose proof (PDX_range va).
  wp_step. apply wp_kload32; [lia|].
  change (load32 (mem s) (pgdir + 4 * PDX va)) with (pde_at (mem s) pgdir (PDX va)).
  destruct (bit_set (pde_at (mem s) pgdir (PDX va)) PTE_P) eqn:Hb; apply wp_ret; auto.
Qed.

(** With allocation: the slot of [va] in a page table with the same
    translations, or 0 when there is no free page for a missing table. *)
Lemma walkpgdir_alloc_wp (Q : Z -> mm -> Prop) s pgdir va free :
  alloc_inv s free -> pt_inv (mem s) pgdir free -> 0 <= va < 4294967296 ->
  (forall s' free', pt_step pgdir s free s' free' ->
     bit_set (pde_at (mem s') pgdir (PDX va)) PTE_P = true ->
     (forall va', 0 <= va' < 4294967296 -> pte_at (mem s') pgdir va' = pte_at (mem s) pgdir va') ->
     (length free <= length free' +
        if bit_set (pde_at (mem s) pgdir (PDX va)) PTE_P then 0 else 1)%nat ->
     Q (table_of (pde_at (mem s') pgdir (PDX va)) + 4 * PTX va) s') ->
  (forall s', free = [] -> bit_set (pde_at (mem s) pgdir (PDX va)) PTE_P = false ->
     mem s' = mem s -> pt_step pgdir s free s' free -> Q 0 s') ->
  wp (walkpgdir pgdir va true) Q s.
Proof.
  intros Hai Hpt Hva Hyes Hno. unfold walkpgdir.
  pose proof (page_ok_range _ (pt_dir _ _ _ Hpt)). pose proof (PDX_range va) as Hd.
  wp_step. apply wp_kload32; [lia|].
  change (load32 (mem s) (pgdir + 4 * PDX va)) with (pde_at (mem s) pgdir (PDX va)).
  destruct (bit_set (pde_at (mem s) pgdir (PDX va)) PTE_P) eqn:Hb; simpl.
  { apply wp_ret. apply (Hyes s free); [by apply pt_step_refl|done|done|lia]. }
  wp_step. eapply kalloc_wp; [done|]. intros s1 Hfr Hm.
  destruct free as [|p rest].
  { intros Hai1. simpl. apply wp_ret. apply Hno; [done|done|done|].
    split; [done|done|by rewrite Hm| |]; rewrite Hm; [|done].
    exists []. split; [done|]. set_solver. }
  intros Hp Hnd Hai1. pose proof (page_ok_range _ Hp).
  destruct (Z.eqb_spec p 0); [lia|].
  wp_step. apply wp_kmemset; [lia|]. wp_step. apply wp_kstore32; [lia|]. wp_step.
  cbn [mem set_mem]. rewrite Hm.
  change (store32 _ _ _) with (link_table (mem s) pgdir (PDX va) p).
  assert (Hpde : pde_at (link_table (mem s) pgdir (PDX va) p) pgdir (PDX va) =
                 Z.lor (Z.lor (Z.lor (V2P p) PTE_P) PTE_W) PTE_U).
  { rewrite (link_pde (mem s) pgdir (PDX va) p rest) by done. by rewrite Z.eqb_refl. }
  destruct (new_pde p Hp) as (_ & Hbn & Htn).
  set (s2 := set_mem (link_table (mem s) pgdir (PDX va) p) _).
  replace (p + 4 * PTX va) with (table_of (pde_at (mem s2) pgdir (PDX va)) + 4 * PTX va)
    by (simpl; by rewrite Hpde, Htn).
  apply (Hyes s2 rest); simpl.
  - split; simpl.
    + done.
    + change s2 with (set_mem (link_table (mem s) pgdir (PDX va) p) s1).
      apply (alloc_inv_set_mem s1); [done|]. intros q Hq. rewrite Hm.
      apply (link_data (mem s) pgdir (PDX va) p rest); try done; [by eapply alloc_inv_page_ok|].
      intros Hipt. pose proof (link_pt_inv (mem s) pgdir (PDX va) p rest Hpt Hd Hp Hb Hnd) as Hpt'.
      eapply is_pt_page_ok in Hipt as [_ ?]; [|exact Hpt']. done.
    + by apply link_pt_inv.
    + exists [p]. split; [done|]. intros v.
      rewrite (link_is_pt (mem s) pgdir (PDX va) p rest) by done. set_solver.
    + intros v Hv Hn. by eapply link_data.
  - by rewrite Hpde.
  - intros va' Hva'. by eapply link_pte.
  - lia.
Qed.

(** ** Writing an entry *)

(** Same page: same indices. *)
Definition same_page (va va' : Z) : bool := va / PGSIZE =? va' / PGSIZE.

Section Slot.
Context (m : gmap Z Z) (pgdir va v : Z) (free : list Z).
Context (Hpt : pt_inv m pgdir free) (Hva : 0 <= va < 4294967296).
Context (Hb : bit_set (pde_at m pgdir (PDX va)) PTE_P = true).
Let t := table_of (pde_at m pgdir (PDX va)).
Let m' := store32 m (t + 4 * PTX va) v.

Lemma slot_dir : same_on m m' pgdir PGSIZE.
Proof.
  destruct (slot_range m pgdir free va Hpt Hb) as (Ht & Hne & ? & ?).
  apply same_on_store32.
  destruct (pages_disjoint t pgdir Ht (pt_dir _ _ _ Hpt) Hne); unfold t in *; lia.
Qed.

Lemma slot_pt_inv : pt_inv m' pgdir free.
Proof. eapply pt_inv_same; [apply slot_dir|done]. Qed.

Lemma slot_data w : page_ok w -> w <> t -> same_on m m' w PGSIZE.
Proof.
  intros Hw Hne. destruct (slot_range m pgdir free va Hpt Hb) as (Ht & _ & ? & ?).
  apply same_on_store32. destruct (pages_disjoint t w Ht Hw); unfold t in *; [done|lia|lia].
Qed.

Lemma slot_pte va' :
  0 <= va' < 4294967296 ->
  pte_at m' pgdir va' = if same_page va va' then u32 v else pte_at m pgdir va'.
Proof.
  intros Hva'. unfold pte_at.
  pose proof (PDX_range va'). pose proof (PTX_range va'). pose proof (PTX_range va).
  rewrite (pde_at_same m m') by (apply slot_dir || done).
  unfold same_page. destruct (Z.eqb_spec (va / PGSIZE) (va' / PGSIZE)) as [E|E].
  - assert (PDX va' = PDX va) as -> by (rewrite !PDX_eq by done; zlia).
    assert (PTX va' = PTX va) as -> by (rewrite !PTX_eq; by rewrite E).
    rewrite Hb. apply load32_store32_u.
  - destruct (bit_set (pde_at m pgdir (PDX va')) PTE_P) eqn:Hb'; [|done].
    apply load32_store32_ne.
    destruct (Z.eq_dec (PDX va) (PDX va')) as [Ed|Ed].
    + unfold t. rewrite <- Ed. assert (PTX va <> PTX va'); [|lia].
      intros Et. apply E. by apply PDX_PTX_inj.
    + destruct (slot_range m pgdir free va Hpt Hb) as (Ht & _ & ? & ?).
      destruct (slot_range m pgdir free va' Hpt Hb') as (Ht' & _ & ? & ?).
      destruct (pages_disjoint t (table_of (pde_at m pgdir (PDX va'))) Ht Ht');
        unfold t in *; [|lia|lia].
      intros Et. apply Ed. eapply pt_inj; [exact Hpt|apply PDX_range|done|done|done|done].
Qed.
End Slot.

(** Writing the slot of [va] is a step that changes one translation. *)
Lemma slot_step s free pgdir va v :
  alloc_inv s free -> pt_inv (mem s) pgdir free -> 0 <= va < 4294967296 ->
  bit_set (pde_at (mem s) pgdir (PDX va)) PTE_P = true ->
  let s' := set_mem (store32 (mem s)
              (table_of (pde_at (mem s) pgdir (PDX va)) + 4 * PTX va) v) s in
  pt_step pgdir s free s' free /\ forall va', 0 <= va' < 4294967296 ->
    pte_at (mem s') pgdir va' = if same_page va va' then u32 v else pte_at (mem s) pgdir va'.
Proof.
  intros Hai Hpt Hva Hb s'. split; [|intros; by eapply slot_pte].
  pose proof (slot_dir (mem s) pgdir va v free Hpt Hb) as Hdir.
  assert (Htpt : is_pt (mem s) pgdir (table_of (pde_at (mem s) pgdir (PDX va)))).
  { right. exists (PDX va). pose proof (PDX_range va). done. }
  split; [done| |by eapply slot_pt_inv| |].
  - apply alloc_inv_set_mem; [done|]. intros p Hp.
    eapply slot_data; [done|done|by eapply alloc_inv_page_ok|].
    intros ->. by eapply is_pt_page_ok in Htpt as [_ ?].
  - exists []. split; [done|]. intros w. rewrite (is_pt_same (mem s)) by done. set_solver.
  - intros w Hw Hn. eapply slot_data; [done|done|done|]. intros ->. apply Hn.
    by rewrite (is_pt_same (mem s)).
Qed.
End Walk.
