(* ===== verification/VmMap.v ===== *)
(** * mappages and setupkvm

    [mappages] installs exactly the requested translations, uses at most one
    new table per directory entry of the range, and fails only when the free
    list is exhausted.  [setupkvm] builds the kernel's direct map. *)

From S2P Require Import Prelude Machine StringC Spinlock Kalloc Vm VmWalk.

Section Map.
Context `{KernelImage}.

(** [m'] is [m] with the [n] pages from [a] mapped to the frames from [pa]. *)
Definition map_range (m m' : gmap Z Z) (pgdir a n pa perm : Z) : Prop :=
  forall va, 0 <= va < 4294967296 ->
    pte_at m' pgdir va =
    if (a <=? va) && (va <? a + n * PGSIZE)
    then pa + (va - va mod PGSIZE - a) + Z.lor perm PTE_P
    else pte_at m pgdir va.

(** The tables missing between [a] and [last], at most. *)
Definition need (m : gmap Z Z) (pgdir a last : Z) : Z :=
  (if bit_set (pde_at m pgdir (PDX a)) PTE_P then 0 else 1) + (PDX last - PDX a).

Lemma present_perm perm : 0 <= perm < PGSIZE -> 0 <= Z.lor perm PTE_P < PGSIZE.
Proof. intros. apply (lor_range 12); unfold PTE_P; lia. Qed.

Lemma need_next m pgdir a last :
  0 <= a -> a + PGSIZE <= last -> last < 4294967296 ->
  bit_set (pde_at m pgdir (PDX a)) PTE_P = true ->
  need m pgdir (a + PGSIZE) last <= PDX last - PDX a.
Proof.
  intros Ha Hlast Hl Hb. unfold need.
  assert (PDX (a + PGSIZE) = PDX a \/ PDX (a + PGSIZE) = PDX a + 1) as [E|E].
  { rewrite !PDX_eq by lia. zlia. }
  - rewrite E, Hb. lia.
  - rewrite E. destruct (bit_set (pde_at m pgdir (PDX a + 1)) PTE_P); lia.
Qed.

Lemma PDX_mono a b : 0 <= a -> a <= b -> b < 4294967296 -> PDX a <= PDX b.
Proof. intros. rewrite !PDX_eq by lia. apply Z.div_le_mono; lia. Qed.

(** One page, then the rest. *)
Lemma map_range_cons m m1 m2 pgdir a n pa perm :
  0 <= n -> 0 <= a -> a mod PGSIZE = 0 ->
  map_range m m1 pgdir a 1 pa perm ->
  map_range m1 m2 pgdir (a + PGSIZE) n (pa + PGSIZE) perm ->
  map_range m m2 pgdir a (n + 1) pa perm.
Proof.
  intros Hn Ha Hal H1 H2 va Hva. rewrite H2, H1 by done. zcases; try lia.
Qed.

(** The body of the loop for one page that is not mapped. *)
Lemma map_one_wp (Q : Z -> mm -> Prop) (k : M mm Z) s free pgdir a pa perm :
  alloc_inv s free -> pt_inv (mem s) pgdir free ->
  a mod PGSIZE = 0 -> 0 <= a -> a + PGSIZE <= 4294967296 ->
  pa mod PGSIZE = 0 -> 0 <= pa -> pa + PGSIZE <= 4294967296 ->
  0 <= perm < PGSIZE -> bit_set (pte_at (mem s) pgdir a) PTE_P = false ->
  (forall s' free', pt_step pgdir s free s' free' ->
     map_range (mem s) (mem s') pgdir a 1 pa perm ->
     Z.of_nat (length free) <= Z.of_nat (length free') + need (mem s) pgdir a a ->
     bit_set (pde_at (mem s') pgdir (PDX a)) PTE_P = true -> wp k Q s') ->
  (forall s', pt_step pgdir s free s' [] -> map_range (mem s) (mem s') pgdir a 0 pa perm ->
     free = [] -> need (mem s) pgdir a a = 1 -> Q (-1) s') ->
  wp (pte <- walkpgdir pgdir a true ;;
      if pte =? 0 then ret (-1)
      else
        e <- kload32 pte ;;
        if bit_set e PTE_P then panic "remap"
        else kstore32 pte (Z.lor (Z.lor pa perm) PTE_P) ;; k) Q s.
Proof.
  intros Hai Hpt Hal Ha Hend Hpal Hpa Hpend Hperm Hun Hok Hbad.
  assert (Hrange : 0 <= a < 4294967296) by lia.
  wp_step. eapply walkpgdir_alloc_wp; [done|done|done| |].
  - intros s1 free1 Hs1 Hb1 Hpte1 Hlen1.
    destruct (slot_range _ _ _ a (ps_pt _ _ _ _ _ Hs1) Hb1) as (Ht & _ & ? & ?).
    pose proof (page_ok_range _ Ht). set (t := table_of _) in *.
    destruct (Z.eqb_spec (t + 4 * PTX a) 0); [lia|]. wp_step. apply wp_kload32; [lia|].
    assert (load32 (mem s1) (t + 4 * PTX a) = pte_at (mem s) pgdir a) as ->.
    { rewrite <- Hpte1 by done. unfold pte_at. by rewrite Hb1. }
    rewrite Hun. wp_step. apply wp_kstore32; [lia|].
    destruct (slot_step s1 free1 pgdir a (Z.lor (Z.lor pa perm) PTE_P)) as [Hs2 Hpte2];
      [apply Hs1|apply Hs1|done|done|].
    pose proof (present_perm perm Hperm).
    eapply Hok; [eapply pt_step_trans; [exact Hs1|exact Hs2]| | |].
    + intros va Hva. rewrite Hpte2, Hpte1 by done. unfold same_page.
      rewrite pte_make, u32_small by (done || lia).
      destruct (Z.eqb_spec (a / PGSIZE) (va / PGSIZE)) as [E|E]; zcases; zlia.
    + unfold need. destruct (bit_set (pde_at (mem s) pgdir (PDX a)) PTE_P); lia.
    + rewrite (pde_at_same (mem s1)); [done| |apply PDX_range].
      eapply slot_dir; [apply Hs1|done].
  - intros s1 -> Hb Hm Hs1. simpl. apply wp_ret. apply Hbad; [done| |done|].
    + intros va Hva. rewrite Hm. zcases; done.
    + unfold need. rewrite Hb. lia.
Qed.

Lemma mappages_loop_wp (Q : Z -> mm -> Prop) n fuel s free pgdir a last pa perm :
  alloc_inv s free -> pt_inv (mem s) pgdir free ->
  a mod PGSIZE = 0 -> 0 <= a -> a + (Z.of_nat n + 1) * PGSIZE <= 4294967296 ->
  last = a + Z.of_nat n * PGSIZE ->
  pa mod PGSIZE = 0 -> 0 <= pa -> pa + (Z.of_nat n + 1) * PGSIZE <= 4294967296 ->
  0 <= perm < PGSIZE ->
  (forall va, a <= va < a + (Z.of_nat n + 1) * PGSIZE ->
     bit_set (pte_at (mem s) pgdir va) PTE_P = false) ->
  (n < fuel)%nat ->
  (forall s' free', pt_step pgdir s free s' free' ->
     map_range (mem s) (mem s') pgdir a (Z.of_nat n + 1) pa perm ->
     Z.of_nat (length free) <= Z.of_nat (length free') + need (mem s) pgdir a last -> Q 0 s') ->
  (forall s' k, 0 <= k <= Z.of_nat n -> pt_step pgdir s free s' [] ->
     map_range (mem s) (mem s') pgdir a k pa perm ->
     Z.of_nat (length free) < need (mem s) pgdir a last -> Q (-1) s') ->
  wp (mappages_loop fuel pgdir a last pa perm) Q s.
Proof.
  revert fuel s free a pa. induction n as [|n IH];
    intros fuel s free a pa Hai Hpt Hal Ha Hend Hlast Hpal Hpa Hpend Hperm Hun Hfuel Hok Hbad;
    destruct fuel as [|fuel]; try lia; cbn [mappages_loop];
    (eapply map_one_wp; [done|done|done|done|lia|done|done|lia|done|apply Hun; lia| |]).
  - intros s1 free1 Hs1 Hr1 Hn1 Hb1. replace last with a by lia. rewrite Z.eqb_refl.
    apply wp_ret. eapply Hok; [exact Hs1|exact Hr1|]. by replace last with a by lia.
  - intros s1 Hs1 Hr1 Hf Hn. apply (Hbad s1 0); [lia|done|done|].
    replace last with a by lia. rewrite Hn, Hf. simpl. lia.
  - intros s1 free1 Hs1 Hr1 Hn1 Hb1. destruct (Z.eqb_spec a last); [lia|].
    rewrite !u32_small by lia.
    pose proof (need_next (mem s1) pgdir a last ltac:(lia) ltac:(lia) ltac:(lia) Hb1) as Hnn.
    assert (Hneed : need (mem s) pgdir a last = need (mem s) pgdir a a + (PDX last - PDX a))
      by (unfold need; lia).
    eapply (IH fuel s1 free1); [apply Hs1|apply Hs1|zlia|lia|lia|lia|zlia|lia|lia|done| |lia| |].
    + intros va Hva. rewrite Hr1 by lia. zcases; apply Hun; lia.
    + intros s2 free2 Hs2 Hr2 Hn2. eapply Hok; [by eapply pt_step_trans| |lia].
      replace (Z.of_nat (S n) + 1) with ((Z.of_nat n + 1) + 1) by lia.
      eapply map_range_cons; [lia|done|done|done|done].
    + intros s2 k Hk Hs2 Hr2 Hn2. apply (Hbad s2 (k + 1)); [lia|by eapply pt_step_trans| |lia].
      eapply map_range_cons; [lia|done|done|done|done].
  - intros s1 Hs1 Hr1 Hf Hn. apply (Hbad s1 0); [lia|done|done|].
    unfold need in *. rewrite Hf. simpl.
    pose proof (PDX_mono a last ltac:(lia) ltac:(lia) ltac:(lia)). lia.
Qed.

(** ** mappages on [n] whole pages *)
Lemma mappages_wp (Q : Z -> mm -> Prop) s free pgdir va n pa perm :
  alloc_inv s free -> pt_inv (mem s) pgdir free ->
  va mod PGSIZE = 0 -> 0 <= va -> 0 < n -> va + n * PGSIZE <= 4294967296 ->
  pa mod PGSIZE = 0 -> 0 <= pa -> pa + n * PGSIZE <= 4294967296 ->
  0 <= perm < PGSIZE ->
  (forall va', va <= va' < va + n * PGSIZE ->
     bit_set (pte_at (mem s) pgdir va') PTE_P = false) ->
  (forall s' free', pt_step pgdir s free s' free' ->
     map_range (mem s) (mem s') pgdir va n pa perm ->
     Z.of_nat (length free) <=
       Z.of_nat (length free') + need (mem s) pgdir va (va + (n - 1) * PGSIZE) -> Q 0 s') ->
  (forall s' k, 0 <= k < n -> pt_step pgdir s free s' [] ->
     map_range (mem s) (mem s') pgdir va k pa perm ->
     Z.of_nat (length free) < need (mem s) pgdir va (va + (n - 1) * PGSIZE) -> Q (-1) s') ->
  wp (mappages pgdir va (n * PGSIZE) pa perm) Q s.
Proof.
  intros Hai Hpt Hal Hva Hn Hend Hpal Hpa Hpend Hperm Hun Hok Hbad. unfold mappages.
  rewrite !PGROUNDDOWN_eq, Hal, Z.sub_0_r, (u32_small (va + n * PGSIZE - 1)) by lia.
  replace (va + n * PGSIZE - 1 - (va + n * PGSIZE - 1) mod PGSIZE)
    with (va + (n - 1) * PGSIZE) by zlia.
  rewrite u32_small by lia.
  eapply (mappages_loop_wp Q (Z.to_nat (n - 1))); [done|done|done|done|lia|lia|done|done|lia|done
    | | | |].
  - intros va' Hva'. apply Hun. lia.
  - replace ((va + (n - 1) * PGSIZE - va) / PGSIZE) with (n - 1) by zlia. lia.
  - intros s' free' Hs' Hr'. replace (Z.of_nat (Z.to_nat (n - 1)) + 1) with n in Hr' by lia.
    by apply Hok.
  - intros s' k Hk. apply Hbad. lia.
Qed.
End Map.
