(* ===== verification/VmUser.v ===== *)
(** * User address spaces: deallocuvm and freevm

    [as_inv] is the invariant of an address space: its user pages are
    distinct allocated pages, none of them a page of the page table.
    [deallocuvm] returns exactly the user pages of its range to the free list
    and clears their entries; [freevm] returns every page of the address
    space, the page table included. *)

From S2P Require Import Prelude Machine StringC Spinlock Kalloc Vm VmWalk VmMap.

(** The start of the page of [va]. *)
Definition pg (va : Z) : Z := va - va mod PGSIZE.

(** The page a present entry maps. *)
Definition page_of (m : gmap Z Z) (pgdir va : Z) : Z := P2V (PTE_ADDR (pte_at m pgdir va)).

Definition mapped (m : gmap Z Z) (pgdir va : Z) : bool := bit_set (pte_at m pgdir va) PTE_P.

Section User.
Context `{KernelImage}.

Record as_inv (m : gmap Z Z) (pgdir : Z) (free : list Z) : Prop := AsInv {
  as_pt : pt_inv m pgdir free;
  as_page : forall va, 0 <= va < KERNBASE -> mapped m pgdir va = true ->
    page_ok (page_of m pgdir va) /\ page_of m pgdir va ∉ free /\
    ~ is_pt m pgdir (page_of m pgdir va);
  as_inj : forall va va', 0 <= va < KERNBASE -> 0 <= va' < KERNBASE ->
    mapped m pgdir va = true -> mapped m pgdir va' = true ->
    page_of m pgdir va = page_of m pgdir va' -> pg va = pg va' }.

(** [m'] is [m] without the present entries of the pages in [[lo, hi)]. *)
Definition unmap_range (m m' : gmap Z Z) (pgdir lo hi : Z) : Prop :=
  forall va, 0 <= va < 4294967296 ->
    pte_at m' pgdir va =
    if (lo <=? pg va) && (pg va <? hi) && mapped m pgdir va then 0 else pte_at m pgdir va.

(** The effect of releasing the user pages of a range. *)
Record dealloc_step (pgdir lo hi : Z) (s : mm) (free : list Z) (s' : mm) (free' : list Z)
  : Prop := {
  ds_frame : mm_frame s s';
  ds_alloc : alloc_inv s' free';
  ds_as : as_inv (mem s') pgdir free';
  ds_unmap : unmap_range (mem s) (mem s') pgdir lo hi;
  ds_dir : same_on (mem s) (mem s') pgdir PGSIZE;
  ds_freed : exists freed, free' = freed ++ free /\
    (forall v, v ∈ freed <-> exists va, 0 <= va < KERNBASE /\ lo <= pg va < hi /\
       mapped (mem s) pgdir va = true /\ v = page_of (mem s) pgdir va) /\
    (forall v, page_ok v -> v ∉ freed -> ~ is_pt (mem s) pgdir v ->
       same_on (mem s) (mem s') v PGSIZE) }.

Lemma pg_range va : pg va <= va < pg va + PGSIZE /\ pg va mod PGSIZE = 0.
Proof. unfold pg. zlia. Qed.

Lemma same_page_pg va va' : same_page va va' = true <-> pg va = pg va'.
Proof. unfold same_page, pg. rewrite Z.eqb_eq. split; zlia. Qed.

(** Entries of one page coincide. *)
Lemma pte_at_pg m pgdir va :
  0 <= va < 4294967296 -> pte_at m pgdir (pg va) = pte_at m pgdir va.
Proof.
  intros Hva. unfold pte_at. assert (0 <= pg va < 4294967296) by (unfold pg; zlia).
  assert (PDX (pg va) = PDX va) as -> by (rewrite !PDX_eq by done; unfold pg; zlia).
  assert (PTX (pg va) = PTX va) as ->; [|done].
  rewrite !PTX_eq. f_equal. unfold pg. zlia.
Qed.

Lemma mapped_pg m pgdir va :
  0 <= va < 4294967296 -> mapped m pgdir (pg va) = mapped m pgdir va.
Proof. intros. unfold mapped. by rewrite pte_at_pg. Qed.

Lemma page_of_pg m pgdir va :
  0 <= va < 4294967296 -> page_of m pgdir (pg va) = page_of m pgdir va.
Proof. intros. unfold page_of. by rewrite pte_at_pg. Qed.

(** No table, no entry. *)
Lemma no_table_pte m pgdir va :
  bit_set (pde_at m pgdir (PDX va)) PTE_P = false -> pte_at m pgdir va = 0.
Proof. intros Hb. unfold pte_at. by rewrite Hb. Qed.

Lemma mapped_table m pgdir va :
  mapped m pgdir va = true -> bit_set (pde_at m pgdir (PDX va)) PTE_P = true.
Proof.
  unfold mapped. destruct (bit_set (pde_at m pgdir (PDX va)) PTE_P) eqn:E; [done|].
  by rewrite no_table_pte.
Qed.

(** Nothing to release. *)
Lemma dealloc_step_nil pgdir lo hi s free :
  alloc_inv s free -> as_inv (mem s) pgdir free ->
  (forall va, 0 <= va < KERNBASE -> lo <= pg va < hi -> mapped (mem s) pgdir va = false) ->
  hi <= KERNBASE -> 0 <= lo ->
  dealloc_step pgdir lo hi s free s free.
Proof.
  intros Hai Has Hno Hhi Hlo.
  split; [done|done|done| |done|].
  - intros va Hva. pose proof (pg_range va). zcases; try done.
    rewrite Hno; [done| |lia]. unfold pg in *. zlia.
  - exists []. split; [done|]. split; [|done]. intros v. split; [set_solver|].
    intros (va & Hva & Hr & Hm & _). by rewrite Hno in Hm.
Qed.

(** Two ranges in a row. *)
Lemma dealloc_step_trans pgdir lo mid hi s1 f1 s2 f2 s3 f3 :
  0 <= lo -> lo <= mid -> (mid <= hi \/ hi <= mid) ->
  dealloc_step pgdir lo (Z.min mid hi) s1 f1 s2 f2 -> dealloc_step pgdir mid hi s2 f2 s3 f3 ->
  dealloc_step pgdir lo hi s1 f1 s3 f3.
Proof.
  intros Hlo Hm1 Hm2 [Hf1 Ha1 Has1 Hu1 Hd1 (l1 & -> & Hl1 & Hs1)]
    [Hf2 Ha2 Has2 Hu2 Hd2 (l2 & -> & Hl2 & Hs2)].
  assert (Hmap : forall va, 0 <= va < KERNBASE -> mid <= pg va < hi ->
    pte_at (mem s2) pgdir va = pte_at (mem s1) pgdir va).
  { intros va Hva Hr. rewrite Hu1 by lia. zcases; done. }
  split; [by etrans|done|done| |by eapply same_on_trans|].
  - intros va Hva. rewrite Hu2 by done. unfold mapped. rewrite !Hu1 by done.
    unfold mapped. zcases; try done;
      destruct (bit_set (pte_at (mem s1) pgdir va) PTE_P); done.
  - exists (l2 ++ l1). split; [by rewrite app_assoc|]. split.
    + intros v. rewrite elem_of_app, Hl1, Hl2. split.
      * intros [(va & Hva & Hr & Hm & ->)|(va & Hva & Hr & Hm & ->)].
        -- exists va. unfold mapped, page_of in *. rewrite Hmap in * by done.
           split_and!; done || lia.
        -- exists va. split_and!; done || lia.
      * intros (va & Hva & Hr & Hm & ->). destruct (Z.le_gt_cases mid (pg va)).
        -- left. exists va. unfold mapped, page_of in *. rewrite Hmap in * by lia.
           split_and!; done || lia.
        -- right. exists va. split_and!; done || lia.
    + intros v Hv Hn Hpt. rewrite elem_of_app in Hn. eapply same_on_trans.
      * apply Hs1; [done|tauto|done].
      * apply Hs2; [done|tauto|]. by rewrite (is_pt_same (mem s1)).
Qed.

(** Freeing a page that is not part of the page table. *)
Lemma free_pt_inv m m' pgdir free v :
  pt_inv m pgdir free -> ~ is_pt m pgdir v -> same_on m m' pgdir PGSIZE ->
  pt_inv m' pgdir (v :: free).
Proof.
  intros Hpt Hn E. apply (pt_inv_same m); [done|]. destruct Hpt as [H1 H2 H3 H4].
  split; [done| | |done].
  - apply not_elem_of_cons. split; [|done]. intros ->. apply Hn. by left.
  - intros i Hi Hb. destruct (H3 i Hi Hb) as (? & ? & ?). split_and!; [done|done|].
    apply not_elem_of_cons. split; [|done]. intros <-. apply Hn. right. by exists i.
Qed.

Lemma dealloc_one_wp (Q : unit -> mm -> Prop) s free pgdir a :
  alloc_inv s free -> as_inv (mem s) pgdir free ->
  a mod PGSIZE = 0 -> 0 <= a < KERNBASE -> mapped (mem s) pgdir a = true ->
  (forall s' free', dealloc_step pgdir a (a + PGSIZE) s free s' free' -> Q tt s') ->
  wp (kfree (page_of (mem s) pgdir a) ;;
      kstore32 (table_of (pde_at (mem s) pgdir (PDX a)) + 4 * PTX a) 0) Q s.
Proof.
  intros Hai Has Hal Ha Hm HQ. pose proof (as_pt _ _ _ Has) as Hpt.
  pose proof (mapped_table _ _ _ Hm) as Hb.
  destruct (as_page _ _ _ Has a Ha Hm) as (Hv & Hvf & Hvp).
  set (v := page_of (mem s) pgdir a) in *.
  destruct (slot_range _ _ _ a Hpt Hb) as (Ht & _ & ? & ?).
  pose proof (page_ok_range _ Ht).
  wp_step. eapply kfree_wp; [done|done|done|]. intros s1 Hf1 Hai1 Hout1.
  assert (Hsame1 : forall w, page_ok w -> w <> v -> same_on (mem s) (mem s1) w PGSIZE).
  { intros w Hw Hne b Hb'. apply Hout1. destruct (pages_disjoint v w Hv Hw); [done|lia|lia]. }
  assert (Hdir1 : same_on (mem s) (mem s1) pgdir PGSIZE).
  { apply Hsame1; [apply Hpt|]. intros E. apply Hvp. left. done. }
  pose proof (free_pt_inv _ _ _ _ _ Hpt Hvp Hdir1) as Hpt1.
  assert (Hpde1 : pde_at (mem s1) pgdir (PDX a) = pde_at (mem s) pgdir (PDX a))
    by (apply pde_at_same; [done|apply PDX_range]).
  assert (Hpte1 : forall va, pte_at (mem s1) pgdir va = pte_at (mem s) pgdir va).
  { intros va. apply pte_at_same. intros w Hw. apply Hsame1.
    - by eapply is_pt_page_ok in Hw as [? _].
    - intros ->. done. }
  apply wp_kstore32; [lia|].
  destruct (slot_step s1 (v :: free) pgdir a 0 Hai1 Hpt1) as [Hs2 Hpte2];
    [lia|by rewrite Hpde1|].
  rewrite Hpde1 in Hs2, Hpte2. set (s2 := set_mem _ s1) in *.
  pose proof (slot_dir (mem s1) pgdir a 0 _ Hpt1 ltac:(by rewrite Hpde1)) as Hdir2.
  rewrite Hpde1 in Hdir2.
  assert (Hpte : forall va, 0 <= va < 4294967296 ->
    pte_at (mem s2) pgdir va = if same_page a va then 0 else pte_at (mem s) pgdir va).
  { intros va Hva. rewrite Hpte2, Hpte1 by done. done. }
  assert (Hdir : same_on (mem s) (mem s2) pgdir PGSIZE) by (by eapply same_on_trans).
  assert (Hpga : pg a = a) by (unfold pg; lia).
  assert (Hother : forall va, 0 <= va < KERNBASE -> mapped (mem s2) pgdir va = true ->
    same_page a va = false /\ mapped (mem s) pgdir va = true /\
    page_of (mem s2) pgdir va = page_of (mem s) pgdir va).
  { intros va Hva. unfold mapped, page_of. rewrite Hpte by lia.
    destruct (same_page a va); [by rewrite bit_set_0|done]. }
  eapply (HQ _ (v :: free)). split.
  - destruct Hs2 as [Hs2 _ _ _ _]. by etrans.
  - apply Hs2.
  - split.
    + apply Hs2.
    + intros va Hva Hmv. destruct (Hother va Hva Hmv) as (Hsp & Hmv' & ->).
      destruct (as_page _ _ _ Has va Hva Hmv') as (? & ? & ?). split_and!; [done| |].
      * apply not_elem_of_cons. split; [|done]. intros E.
        apply (as_inj _ _ _ Has) in E; [|done|done|done|done].
        symmetry in E. apply same_page_pg in E. by rewrite E in Hsp.
      * by rewrite (is_pt_same (mem s)).
    + intros va va' Hva Hva' Hmv Hmv' E.
      destruct (Hother va Hva Hmv) as (_ & Hm1 & E1).
      destruct (Hother va' Hva' Hmv') as (_ & Hm2 & E2).
      rewrite E1, E2 in E. by eapply as_inj in E.
  - intros va Hva. rewrite Hpte by done.
    destruct (same_page a va) eqn:Hsp.
    + apply same_page_pg in Hsp. rewrite <- Hsp, Hpga.
      unfold mapped. rewrite <- (pte_at_pg (mem s) pgdir va) by done. rewrite <- Hsp, Hpga.
      fold (mapped (mem s) pgdir a). rewrite Hm. zcases.
    + assert (pg va <> a).
      { intros E. rewrite <- Hpga in E. symmetry in E. apply same_page_pg in E.
        by rewrite E in Hsp. }
      pose proof (pg_range va). zcases; try done; exfalso; zlia.
  - done.
  - exists [v]. split; [done|]. split.
    + intros w. rewrite list_elem_of_singleton. split.
      * intros ->. exists a. split_and!; done || lia.
      * intros (va & Hva & Hr & Hmv & ->). unfold v.
        assert (pg va = a) as E by (pose proof (pg_range va); zlia).
        rewrite <- E. symmetry. apply page_of_pg. lia.
    + intros w Hw Hn Hnp. rewrite list_elem_of_singleton in Hn.
      eapply same_on_trans; [by apply Hsame1|].
      destruct Hs2 as [_ _ _ _ Hd]. apply Hd; [done|]. rewrite (is_pt_same (mem s1)) by done.
      by rewrite (is_pt_same (mem s)).
Qed.

(** Only the pages that start in the range matter. *)
Lemma dealloc_step_range pgdir lo hi hi' s free s' free' :
  (forall x, x mod PGSIZE = 0 -> lo <= x -> x < hi <-> x < hi') ->
  dealloc_step pgdir lo hi s free s' free' -> dealloc_step pgdir lo hi' s free s' free'.
Proof.
  intros E [Hf Ha Has Hu Hd (l & -> & Hl & Hs)].
  split; [done|done|done| |done|].
  - intros va Hva. rewrite Hu by done. pose proof (E (pg va) (proj2 (pg_range va))).
    zcases; done.
  - exists l. split; [done|]. split; [|done]. intros v. rewrite Hl.
    split; intros (va & Hva & Hr & Hm & ->); exists va;
      pose proof (E (pg va) (proj2 (pg_range va))); split_and!; done || lia.
Qed.

Lemma next_dir a :
  0 <= a < KERNBASE ->
  u32 (u32 (PGADDR (PDX a + 1) 0 0 - PGSIZE) + PGSIZE) = (PDX a + 1) * 4194304.
Proof.
  intros Ha. assert (0 <= PDX a < 512) by (rewrite PDX_eq by lia; zlia).
  unfold PGADDR, PDXSHIFT, PTXSHIFT. rewrite Z.shiftl_0_l, !Z.lor_0_r.
  rewrite Z.shiftl_mul_pow2 by lia. change (2 ^ 22) with 4194304.
  rewrite (u32_small ((PDX a + 1) * 4194304)) by lia. rewrite (u32_small (_ - _)) by lia.
  rewrite u32_small by lia. lia.
Qed.

(** ** deallocuvm *)
Lemma deallocuvm_loop_wp (Q : unit -> mm -> Prop) fuel s free pgdir a oldsz :
  alloc_inv s free -> as_inv (mem s) pgdir free ->
  a mod PGSIZE = 0 -> 0 <= a -> a <= KERNBASE -> 0 <= oldsz <= KERNBASE ->
  oldsz - a <= (Z.of_nat fuel - 1) * PGSIZE -> (0 < fuel)%nat ->
  (forall s' free', dealloc_step pgdir a oldsz s free s' free' -> Q tt s') ->
  wp (deallocuvm_loop fuel pgdir a oldsz) Q s.
Proof.
  revert s free a. induction fuel as [|fuel IH];
    intros s free a Hai Has Hal Ha Hak Hold Hfuel Hpos HQ; [lia|].
  cbn [deallocuvm_loop]. destruct (Z.ltb_spec a oldsz).
  2: { apply wp_ret. apply (HQ s free). apply dealloc_step_nil; try done; try lia. }
  (* whatever the step released, the rest of the loop goes on from [mid] *)
  assert (Hgo : forall mid s1 free1, a + PGSIZE <= mid -> mid <= KERNBASE ->
    mid mod PGSIZE = 0 -> dealloc_step pgdir a (Z.min mid oldsz) s free s1 free1 ->
    wp (deallocuvm_loop fuel pgdir mid oldsz) Q s1).
  { intros mid s1 free1 Hm1 Hm2 Hm3 Hs1.
    eapply IH; [apply Hs1|apply Hs1|done|lia|done|done|lia|lia|].
    intros s2 free2 Hs2. eapply HQ. eapply dealloc_step_trans; [lia| |lia|done|done]. lia. }
  wp_step. eapply walkpgdir_find_wp; [apply Has| |].
  - intros Hb. destruct (slot_range _ _ _ a (as_pt _ _ _ Has) Hb) as (Ht & _ & ? & ?).
    pose proof (page_ok_range _ Ht). set (t := table_of _) in *.
    destruct (Z.eqb_spec (t + 4 * PTX a) 0); [lia|]. wp_step. apply wp_kload32; [lia|].
    assert (load32 (mem s) (t + 4 * PTX a) = pte_at (mem s) pgdir a) as ->
      by (unfold pte_at; by rewrite Hb).
    rewrite (u32_small (a + PGSIZE)) by lia. wp_step.
    destruct (bit_set (pte_at (mem s) pgdir a) PTE_P) eqn:Hm.
    + destruct (as_page _ _ _ Has a ltac:(lia) Hm) as (Hv & _ & _).
      destruct (Z.eqb_spec (PTE_ADDR (pte_at (mem s) pgdir a)) 0) as [E|_].
      { unfold page_of in Hv. rewrite E in Hv. apply page_ok_range in Hv.
        change (P2V 0) with KERNBASE in Hv. lia. }
      eapply dealloc_one_wp; [done|done|done|lia|done|]. intros s1 free1 Hs1.
      apply (Hgo _ _ free1); [lia|zlia|zlia|]. eapply dealloc_step_range; [|exact Hs1].
      intros x Hx Hlo. zlia.
    + apply wp_ret. apply (Hgo _ _ free); [lia|zlia|zlia|].
      apply dealloc_step_nil; try done; [|lia]. intros va Hva Hr.
      assert (pg va = a) as E by (pose proof (pg_range va); zlia).
      rewrite <- mapped_pg by lia. by rewrite E.
  - intros Hb. simpl. rewrite next_dir by lia.
    assert (HPDX : PDX a = a / 4194304) by (apply PDX_eq; lia).
    apply (Hgo _ _ free); [zlia|zlia|zlia|].
    apply dealloc_step_nil; try done; [|lia]. intros va Hva Hr.
    unfold mapped. rewrite no_table_pte; [done|].
    assert (PDX va = PDX a) as ->; [|done].
    rewrite PDX_eq by lia. pose proof (pg_range va). zlia.
Qed.

Lemma deallocuvm_wp (Q : Z -> mm -> Prop) s free pgdir oldsz newsz :
  alloc_inv s free -> as_inv (mem s) pgdir free ->
  0 <= newsz -> 0 <= oldsz <= KERNBASE ->
  (oldsz <= newsz -> Q oldsz s) ->
  (forall s' free', newsz < oldsz ->
     dealloc_step pgdir (PGROUNDUP newsz) oldsz s free s' free' -> Q newsz s') ->
  wp (deallocuvm pgdir oldsz newsz) Q s.
Proof.
  intros Hai Has Hnew Hold Hno Hyes. unfold deallocuvm.
  destruct (Z.leb_spec oldsz newsz); [apply wp_ret; auto|].
  assert (E := PGROUNDUP_eq newsz ltac:(lia) ltac:(lia)).
  wp_step. eapply deallocuvm_loop_wp; [done|done|rewrite E; zlia|rewrite E; zlia|
    rewrite E; zlia|done|zlia|lia|].
  intros s' free' Hs. wp_step. by eapply Hyes.
Qed.

(** ** freevm *)

(** [v] is a page of the address space: of its page table or of its memory. *)
Definition as_page_of (m : gmap Z Z) (pgdir v : Z) : Prop :=
  is_pt m pgdir v \/
  exists va, 0 <= va < KERNBASE /\ mapped m pgdir va = true /\ v = page_of m pgdir va.

(** Pages [freed] went back to the free list and no other page changed. *)
Record release_step (s : mm) (free : list Z) (s' : mm) (freed : list Z) : Prop := {
  rs_frame : mm_frame s s';
  rs_alloc : alloc_inv s' (freed ++ free);
  rs_data : forall v, page_ok v -> v ∉ freed -> same_on (mem s) (mem s') v PGSIZE }.

Lemma release_trans s1 free s2 f1 s3 f2 :
  release_step s1 free s2 f1 -> release_step s2 (f1 ++ free) s3 f2 ->
  release_step s1 free s3 (f2 ++ f1).
Proof.
  intros [H1 H2 H3] [H4 H5 H6]. split; [by etrans|by rewrite <- app_assoc|].
  intros v Hv Hn. rewrite elem_of_app in Hn.
  eapply same_on_trans; [apply H3|apply H6]; tauto.
Qed.

Lemma release_one_wp (Q : unit -> mm -> Prop) s free v :
  alloc_inv s free -> page_ok v -> v ∉ free ->
  (forall s', release_step s free s' [v] -> Q tt s') -> wp (kfree v) Q s.
Proof.
  intros Hai Hv Hn HQ. eapply kfree_wp; [done|done|done|]. intros s' Hf Hai' Hout.
  apply HQ. split; [done|done|]. intros w Hw Hne a Ha. apply Hout.
  rewrite list_elem_of_singleton in Hne.
  destruct (pages_disjoint v w Hv Hw); [done|lia|lia].
Qed.

Definition tables_ok (m : gmap Z Z) (pgdir : Z) (ixs free : list Z) : Prop :=
  NoDup ixs /\
  (forall i, i ∈ ixs -> 0 <= i < 1024) /\
  (forall i, i ∈ ixs -> bit_set (pde_at m pgdir i) PTE_P = true ->
     page_ok (table_of (pde_at m pgdir i)) /\ table_of (pde_at m pgdir i) ∉ free /\
     table_of (pde_at m pgdir i) <> pgdir) /\
  (forall i j, i ∈ ixs -> j ∈ ixs -> bit_set (pde_at m pgdir i) PTE_P = true ->
     bit_set (pde_at m pgdir j) PTE_P = true ->
     table_of (pde_at m pgdir i) = table_of (pde_at m pgdir j) -> i = j).

Lemma freevm_tables_wp (Q : unit -> mm -> Prop) s free pgdir ixs :
  alloc_inv s free -> page_ok pgdir -> pgdir ∉ free -> tables_ok (mem s) pgdir ixs free ->
  (forall s' freed, release_step s free s' freed -> pgdir ∉ freed ->
     (forall v, v ∈ freed <-> exists i, i ∈ ixs /\
        bit_set (pde_at (mem s) pgdir i) PTE_P = true /\ v = table_of (pde_at (mem s) pgdir i)) ->
     Q tt s') ->
  wp (freevm_tables pgdir ixs) Q s.
Proof.
  revert s free Q. induction ixs as [|i ixs IH]; intros s free Q Hai Hd Hdf Hok HQ; simpl.
  { apply wp_ret. apply (HQ s []); [by split|set_solver|]. intros v. set_solver. }
  destruct Hok as (Hnd & Hr & Ht & Hinj). pose proof (page_ok_range _ Hd).
  assert (0 <= i < 1024) as Hi by (apply Hr; set_solver).
  wp_step. apply wp_kload32; [lia|].
  change (load32 (mem s) (pgdir + 4 * i)) with (pde_at (mem s) pgdir i). wp_step.
  destruct (bit_set (pde_at (mem s) pgdir i) PTE_P) eqn:Hb.
  - destruct (Ht i ltac:(set_solver) Hb) as (Htp & Htf & Htd).
    change (P2V (PTE_ADDR (pde_at (mem s) pgdir i))) with (table_of (pde_at (mem s) pgdir i)).
    set (t := table_of (pde_at (mem s) pgdir i)) in *.
    eapply release_one_wp; [done|done|done|]. intros s1 Hs1.
    assert (Hsame : same_on (mem s) (mem s1) pgdir PGSIZE) by (apply Hs1; set_solver).
    assert (Hpde : forall j, j ∈ ixs -> pde_at (mem s1) pgdir j = pde_at (mem s) pgdir j).
    { intros j Hj. apply pde_at_same; [done|]. apply Hr. set_solver. }
    eapply (IH s1 (t :: free)); [apply Hs1|done|set_solver| |].
    + split_and!.
      * by apply NoDup_cons_1_2 in Hnd.
      * intros j Hj. apply Hr. set_solver.
      * intros j Hj. rewrite Hpde by done. intros Hbj.
        destruct (Ht j ltac:(set_solver) Hbj) as (? & ? & ?). split_and!; [done| |done].
        apply not_elem_of_cons. split; [|done]. intros E.
        assert (j = i) as -> by (apply Hinj; set_solver). by apply NoDup_cons_1_1 in Hnd.
      * intros j k Hj Hk. rewrite !Hpde by done. apply Hinj; set_solver.
    + intros s2 freed Hs2 Hnf Hfr. eapply (HQ s2 (freed ++ [t])).
      * by eapply release_trans.
      * set_solver.
      * intros v. rewrite elem_of_app, Hfr, list_elem_of_singleton. split.
        -- intros [(j & Hj & Hbj & ->)| ->].
           ++ rewrite Hpde in * by done. exists j. split_and!; [set_solver|done|done].
           ++ exists i. split_and!; [set_solver|done|done].
        -- intros (j & Hj & Hbj & ->). apply list_elem_of_In in Hj as [<-|Hj]; [by right|].
           apply list_elem_of_In in Hj. left. exists j. by rewrite Hpde.
  - apply wp_ret. eapply IH; [done|done|done| |].
    + split_and!; [by apply NoDup_cons_1_2 in Hnd|..].
      * intros j Hj. apply Hr. set_solver.
      * intros j Hj. apply Ht. set_solver.
      * intros j k Hj Hk. apply Hinj; set_solver.
    + intros s2 freed Hs2 Hnf Hfr. eapply HQ; [done|done|]. intros v. rewrite Hfr. split.
      * intros (j & Hj & ?). exists j. split; [set_solver|done].
      * intros (j & Hj & Hbj & ->). apply list_elem_of_In in Hj as [<-|Hj]; [by rewrite Hb in Hbj|].
        apply list_elem_of_In in Hj. by exists j.
Qed.

Lemma freevm_wp (Q : unit -> mm -> Prop) s free pgdir :
  alloc_inv s free -> as_inv (mem s) pgdir free ->
  (forall s' freed, release_step s free s' freed ->
     (forall v, v ∈ freed <-> as_page_of (mem s) pgdir v) -> Q tt s') ->
  wp (freevm pgdir) Q s.
Proof.
  intros Hai Has HQ. pose proof (as_pt _ _ _ Has) as Hpt.
  pose proof (page_ok_range _ (pt_dir _ _ _ Hpt)). unfold freevm.
  destruct (Z.eqb_spec pgdir 0); [lia|].
  wp_step. eapply deallocuvm_wp; [done|done|lia|lia|lia|].
  intros s1 free1 _ [Hf1 Hai1 Has1 Hu1 Hd1 (fr1 & -> & Hfr1 & Hdat1)].
  pose proof (as_pt _ _ _ Has1) as Hpt1.
  wp_step. eapply freevm_tables_wp; [exact Hai1|apply Hpt1|apply Hpt1| |].
  { split_and!.
    - apply NoDup_seqZ.
    - intros i Hi%elem_of_seqZ. unfold NPDENTRIES in Hi. lia.
    - intros i Hi%elem_of_seqZ Hb. unfold NPDENTRIES in Hi.
      destruct (pt_table _ _ _ Hpt1 i ltac:(lia) Hb) as (? & ? & ?). done.
    - intros i j Hi%elem_of_seqZ Hj%elem_of_seqZ. unfold NPDENTRIES in Hi, Hj.
      apply Hpt1; lia. }
  intros s2 fr2 Hs2 Hnf Hfr2.
  eapply release_one_wp; [apply Hs2|apply Hpt1| |].
  { rewrite elem_of_app. intros [?|?]; [done|]. by apply (pt_dir_used _ _ _ Hpt1). }
  assert (Hipt : forall v, is_pt (mem s) pgdir v <-> v = pgdir \/ v ∈ fr2).
  { intros v. rewrite Hfr2. rewrite <- (is_pt_same (mem s) (mem s1)) by done. unfold is_pt.
    setoid_rewrite elem_of_seqZ. unfold NPDENTRIES. split; (intros [?|(i & ? & ?)]; [by left|]);
      right; exists i; (split; [lia|done]). }
  intros s3 [Hf3 Hai3 Hdat3]. destruct Hs2 as [Hf2 _ Hdat2].
  eapply (HQ s3 ([pgdir] ++ fr2 ++ fr1)).
  - split; [by do 2 (etrans; [eassumption|])|by rewrite <- !app_assoc|].
    intros v Hv Hn. rewrite !not_elem_of_app, list_elem_of_singleton in Hn.
    destruct Hn as (Hn1 & Hn2 & Hn3).
    eapply same_on_trans; [apply Hdat1; [done|done|rewrite Hipt; tauto]|].
    eapply same_on_trans; [by apply Hdat2|]. apply Hdat3; [done|].
    by rewrite list_elem_of_singleton.
  - intros v. rewrite !elem_of_app, list_elem_of_singleton, Hfr1.
    unfold as_page_of. rewrite Hipt. change (PGROUNDUP 0) with 0. split.
    + intros [?|[?|(va & Hva & _ & Hm & ->)]]; [tauto|tauto|]. right. by exists va.
    + intros [[?|?]|(va & Hva & Hm & ->)]; [tauto|tauto|]. right. right. exists va.
      pose proof (pg_range va). split_and!; try done; unfold pg in *; zlia.
Qed.

(** ** Mapping a page twice *)

Lemma walkpgdir_mapped s pgdir free va alloc :
  pt_inv (mem s) pgdir free -> mapped (mem s) pgdir va = true ->
  let slot := table_of (pde_at (mem s) pgdir (PDX va)) + 4 * PTX va in
  walkpgdir pgdir va alloc s = Ok slot s /\
  kload32 slot s = Ok (pte_at (mem s) pgdir va) s /\ slot <> 0.
Proof.
  intros Hpt Hm slot. pose proof (mapped_table _ _ _ Hm) as Htab.
  destruct (slot_range _ _ _ va Hpt Htab) as (Ht & _ & ? & ?).
  pose proof (page_ok_range _ Ht). pose proof (page_ok_range _ (pt_dir _ _ _ Hpt)).
  pose proof (PDX_range va). split_and!.
  - unfold walkpgdir, kload32. destruct (Z.ltb_spec (pgdir + 4 * PDX va) KERNBASE); [lia|].
    erewrite bind_ok by (unfold gets; reflexivity).
    fold (pde_at (mem s) pgdir (PDX va)). by rewrite Htab.
  - unfold kload32. destruct (Z.ltb_spec slot KERNBASE); [unfold slot in *; lia|].
    unfold gets, pte_at. by rewrite Htab.
  - unfold slot. lia.
Qed.

Lemma mappages_mapped s pgdir free va size pa perm :
  pt_inv (mem s) pgdir free -> va mod PGSIZE = 0 -> mapped (mem s) pgdir va = true ->
  mappages pgdir va size pa perm s = Panic "remap".
Proof.
  intros Hpt Hal Hm. unfold mappages. rewrite (PGROUNDDOWN_eq va), Hal, Z.sub_0_r.
  rewrite Nat.add_1_r. cbn [mappages_loop].
  destruct (walkpgdir_mapped s pgdir free va true Hpt Hm) as (Hw & Hl & Hne).
  erewrite bind_ok by exact Hw. destruct (Z.eqb_spec
    (table_of (pde_at (mem s) pgdir (PDX va)) + 4 * PTX va) 0); [done|].
  erewrite bind_ok by exact Hl. unfold mapped in Hm. by rewrite Hm.
Qed.
End User.
