(* ===== verification/VmKern.v ===== *)
(** * setupkvm: the kernel half of every page table

    [setupkvm] either returns a page table whose kernel half is exactly the
    table [kmap] and whose user half is empty, or gives back every page it
    took; 67 free pages are enough for it to succeed. *)

From S2P Require Import Prelude Machine StringC Spinlock Kalloc Vm VmWalk VmMap VmUser.

(** Size of an entry in bytes, as [setupkvm] computes it. *)
Definition kmap_size (k : kmap_entry) : Z := u32 (phys_end k - phys_start k).

Definition in_kmap (k : kmap_entry) (va : Z) : bool :=
  (virt k <=? va) && (va <? virt k + kmap_size k).

(** The entry [kmap] prescribes for [va]. *)
Fixpoint kmap_pte (ks : list kmap_entry) (va : Z) : option Z :=
  match ks with
  | [] => None
  | k :: ks' =>
      if in_kmap k va then Some (phys_start k + (pg va - virt k) + Z.lor (perm k) PTE_P)
      else kmap_pte ks' va
  end.

Record kmap_ok (k : kmap_entry) : Prop := {
  ko_virt : KERNBASE <= virt k /\ virt k mod PGSIZE = 0;
  ko_size : 0 < kmap_size k /\ kmap_size k mod PGSIZE = 0;
  ko_end : virt k + kmap_size k <= 4294967296;
  ko_phys : 0 <= phys_start k /\ phys_start k mod PGSIZE = 0;
  ko_phys_end : phys_start k + kmap_size k <= 4294967296;
  ko_perm : 0 <= perm k < PGSIZE }.

Definition kmap_disj (k k' : kmap_entry) : Prop :=
  virt k + kmap_size k <= virt k' \/ virt k' + kmap_size k' <= virt k.

Fixpoint kmaps_ok (ks : list kmap_entry) : Prop :=
  match ks with
  | [] => True
  | k :: ks' => kmap_ok k /\ (forall k', k' ∈ ks' -> kmap_disj k k') /\ kmaps_ok ks'
  end.

(** Directory entries an entry of [kmap] touches. *)
Definition kmap_tables (k : kmap_entry) : Z :=
  PDX (virt k + kmap_size k - PGSIZE) - PDX (virt k) + 1.

Fixpoint kmaps_tables (ks : list kmap_entry) : Z :=
  match ks with [] => 0 | k :: ks' => kmap_tables k + kmaps_tables ks' end.

Section Kern.
Context `{KernelImage}.

Lemma need_le m pgdir k :
  need m pgdir (virt k) (virt k + kmap_size k - PGSIZE) <= kmap_tables k.
Proof. unfold need, kmap_tables. destruct (bit_set _ _); lia. Qed.

Lemma kmap_tables_pos k : kmap_ok k -> 1 <= kmap_tables k.
Proof.
  intros [[? ?] [? ?] ? ? ? ?]. unfold kmap_tables.
  pose proof (PDX_mono (virt k) (virt k + kmap_size k - PGSIZE)). zlia.
Qed.

Lemma kmaps_ok_in ks k : kmaps_ok ks -> k ∈ ks -> kmap_ok k.
Proof.
  induction ks as [|k0 ks IH]; intros Hks Hk; [set_solver|].
  destruct Hks as (? & _ & ?). apply list_elem_of_In in Hk as [<-|Hk]; [done|].
  apply IH; [done|]. by apply list_elem_of_In.
Qed.

Lemma kmaps_tables_nonneg ks : kmaps_ok ks -> 0 <= kmaps_tables ks.
Proof.
  induction ks as [|k ks IH]; simpl; [lia|]. intros (Hk & _ & Hks).
  pose proof (kmap_tables_pos k Hk). specialize (IH Hks). lia.
Qed.

Lemma in_kmap_range k va : kmap_ok k -> in_kmap k va = true -> KERNBASE <= va < 4294967296.
Proof. intros [[? ?] ? ? ? ? ?]. unfold in_kmap. intros. lia. Qed.

Lemma kmap_pte_disj ks k va :
  (forall k', k' ∈ ks -> kmap_disj k k') -> in_kmap k va = true -> kmap_pte ks va = None.
Proof.
  intros Hd Hin. induction ks as [|k' ks IH]; simpl; [done|].
  rewrite IH by (intros; apply Hd; set_solver).
  destruct (in_kmap k' va) eqn:E; [|done]. exfalso.
  specialize (Hd k' ltac:(set_solver)). unfold kmap_disj, in_kmap in *. lia.
Qed.

(** An address space with no user page. *)
Lemma empty_as_inv m pgdir free :
  pt_inv m pgdir free -> (forall va, 0 <= va < KERNBASE -> pte_at m pgdir va = 0) ->
  as_inv m pgdir free.
Proof.
  intros Hpt Hz. split; [done| |]; unfold mapped.
  - intros va Hva. rewrite Hz by done. by rewrite bit_set_0.
  - intros va va' Hva _. rewrite Hz by done. by rewrite bit_set_0.
Qed.

(** Everything taken from the free list is back on it. *)
Record undone (s : mm) (free : list Z) (s' : mm) : Prop := {
  un_frame : mm_frame s s';
  un_alloc : exists free', alloc_inv s' free' /\ free' ≡ₚ free;
  un_data : forall v, page_ok v -> v ∉ free -> same_on (mem s) (mem s') v PGSIZE }.

(** Building up a page table from [pgdir], then freeing it, is undone. *)
Lemma freevm_undone (Q : unit -> mm -> Prop) s free s1 pgdir free1 :
  alloc_inv s free -> page_ok pgdir -> pgdir ∈ free ->
  mm_frame s s1 -> alloc_inv s1 free1 -> as_inv (mem s1) pgdir free1 ->
  (forall v, v ∈ free <-> v ∈ free1 \/ as_page_of (mem s1) pgdir v) ->
  (forall v, page_ok v -> v ∉ free -> same_on (mem s) (mem s1) v PGSIZE) ->
  (forall s', undone s free s' -> Q tt s') ->
  wp (freevm pgdir) Q s1.
Proof.
  intros Hai Hp Hpf Hf Hai1 Has1 Hel Hdat HQ.
  eapply freevm_wp; [done|done|]. intros s2 freed [Hf2 Hai2 Hdat2] Hfr. apply HQ.
  split; [by etrans| |].
  - exists (freed ++ free1). split; [done|]. apply NoDup_Permutation.
    + apply Hai2.
    + apply Hai.
    + intros v. rewrite elem_of_app, Hfr, Hel. tauto.
  - intros v Hv Hn. eapply same_on_trans; [by apply Hdat|]. apply Hdat2; [done|].
    rewrite Hfr. rewrite Hel in Hn. tauto.
Qed.

(** The loop of [setupkvm], from a table with no user page. *)
Lemma setupkvm_maps_wp (Q : Z -> mm -> Prop) s free pgdir ks :
  alloc_inv s free -> pt_inv (mem s) pgdir free -> kmaps_ok ks ->
  (forall va, 0 <= va < KERNBASE -> pte_at (mem s) pgdir va = 0) ->
  (forall k va, k ∈ ks -> in_kmap k va = true -> mapped (mem s) pgdir va = false) ->
  (forall s' free', pt_step pgdir s free s' free' ->
     (forall va, 0 <= va < 4294967296 ->
        pte_at (mem s') pgdir va = default (pte_at (mem s) pgdir va) (kmap_pte ks va)) ->
     Z.of_nat (length free) <= Z.of_nat (length free') + kmaps_tables ks -> Q pgdir s') ->
  (forall s1, pt_step pgdir s free s1 [] ->
     (forall va, 0 <= va < KERNBASE -> pte_at (mem s1) pgdir va = 0) ->
     Z.of_nat (length free) < kmaps_tables ks -> wp (freevm pgdir ;; ret 0) Q s1) ->
  wp (setupkvm_maps pgdir ks) Q s.
Proof.
  revert s free Q. induction ks as [|k ks IH]; intros s free Q Hai Hpt Hks Hz Hun Hok Hbad; simpl.
  { apply wp_ret. apply (Hok s free); [by apply pt_step_refl|done|simpl; lia]. }
  destruct Hks as (Hk & Hdisj & Hks). pose proof (kmap_tables_pos k Hk) as Htp.
  pose proof (need_le (mem s) pgdir k) as Hneed.
  destruct Hk as [[? ?] [? ?] ? [? ?] ? Hperm].
  assert (Hsz : kmap_size k = kmap_size k / PGSIZE * PGSIZE) by zlia.
  set (n := kmap_size k / PGSIZE) in *.
  assert (Hlow : forall j m1 va, map_range (mem s) m1 pgdir (virt k) j (phys_start k) (perm k) ->
    0 <= va < KERNBASE -> pte_at m1 pgdir va = 0).
  { intros j m1 va Hr Hva. rewrite Hr by lia. zcases; by apply Hz. }
  wp_step. change (u32 (phys_end k - phys_start k)) with (kmap_size k). rewrite Hsz.
  eapply mappages_wp; [done|done|done|lia|lia|lia|done|done|lia|done| | |].
  - intros va Hva. apply (Hun k); [set_solver|]. unfold in_kmap. zcases.
  - intros s1 free1 Hs1 Hr1 Hn1. simpl.
    replace (virt k + (n - 1) * PGSIZE) with (virt k + kmap_size k - PGSIZE) in Hn1 by lia.
    eapply (IH s1 free1); [apply Hs1|apply Hs1|done| | | |].
    + intros va Hva. by eapply Hlow.
    + intros k' va Hk' Hin. unfold mapped.
      assert (in_kmap k va = false) as Hnin.
      { specialize (Hdisj k' Hk'). unfold in_kmap, kmap_disj in *. zcases. }
      pose proof (in_kmap_range k' va (kmaps_ok_in _ _ Hks Hk') Hin).
      rewrite Hr1, <- Hsz by lia. unfold in_kmap in Hnin. rewrite Hnin.
      apply (Hun k'); [set_solver|done].
    + intros s2 free2 Hs2 Hp2 Hn2. eapply Hok; [by eapply pt_step_trans| |simpl; lia].
      intros va Hva. rewrite Hp2 by done. simpl. rewrite Hr1, <- Hsz by done.
      change ((virt k <=? va) && (va <? virt k + kmap_size k)) with (in_kmap k va).
      destruct (in_kmap k va) eqn:Hin; [|done].
      rewrite (kmap_pte_disj ks k va) by done. unfold pg. simpl. lia.
    + intros s2 Hs2 Hz2 Hn2. eapply Hbad; [by eapply pt_step_trans|done|simpl; lia].
  - intros s1 j Hj Hs1 Hr1 Hn1. simpl. eapply Hbad; [done| |].
    + intros va Hva. by eapply Hlow.
    + simpl. pose proof (kmaps_tables_nonneg ks Hks).
      replace (virt k + (n - 1) * PGSIZE) with (virt k + kmap_size k - PGSIZE) in Hn1 by lia. lia.
Qed.

(** A zeroed directory. *)
Lemma zero_dir m p rest :
  page_ok p -> p ∉ rest ->
  pt_inv (memset m p 0 PGSIZE) p rest /\
  (forall va, pte_at (memset m p 0 PGSIZE) p va = 0) /\
  (forall v, is_pt (memset m p 0 PGSIZE) p v <-> v = p).
Proof.
  intros Hp Hn.
  assert (Hz : forall i, 0 <= i < 1024 -> pde_at (memset m p 0 PGSIZE) p i = 0).
  { intros i Hi. unfold pde_at, load32. rewrite !memset_load8 by lia. zcases. done. }
  split_and!.
  - split; [done|done| |]; intros i; [intros Hi|intros j Hi Hj]; rewrite !Hz by done;
      by rewrite bit_set_0.
  - intros va. apply no_table_pte. rewrite Hz by apply PDX_range. by rewrite bit_set_0.
  - intros v. split; [|by left]. intros [?|(i & Hi & Hb & _)]; [done|].
    rewrite Hz in Hb by done. by rewrite bit_set_0 in Hb.
Qed.

(** The table [kmap] of vm.c is a set of disjoint kernel ranges. *)
Lemma kmap_wf : kmaps_ok kmap.
Proof.
  pose proof kdata_lo. pose proof kdata_end. pose proof kend_hi. pose proof kdata_aligned.
  assert (Hd : V2P kdata = kdata - KERNBASE) by (apply V2P_eq; lia).
  assert (Hl : V2P KERNLINK = EXTMEM) by done.
  assert (Hs2 : u32 (V2P kdata - EXTMEM) = kdata - KERNLINK)
    by (rewrite Hd, u32_small by lia; lia).
  assert (Hs3 : u32 (PHYSTOP - V2P kdata) = KERNBASE + PHYSTOP - kdata)
    by (rewrite Hd, u32_small by lia; lia).
  assert (Hs4 : u32 (0 - DEVSPACE) = 0x2000000) by done.
  assert (Hs1 : u32 (EXTMEM - 0) = EXTMEM) by done.
  unfold kmap; simpl; split_and!; try done;
    try (intros k' Hk'; unfold kmap_disj, kmap_size;
         repeat (apply list_elem_of_In in Hk' as [<-|Hk'%list_elem_of_In]; simpl;
                 [rewrite ?Hl, ?Hs1, ?Hs2, ?Hs3, ?Hs4; lia|]); set_solver).
  all: split; unfold kmap_size; simpl; rewrite ?Hl, ?Hs1, ?Hs2, ?Hs3, ?Hs4, ?Hd;
    unfold PTE_W; zlia.
Qed.

Lemma kmap_tables_bound : kmaps_tables kmap <= 66.
Proof.
  pose proof kdata_lo. pose proof kdata_end. pose proof kend_hi. pose proof kdata_aligned.
  assert (Hd : V2P kdata = kdata - KERNBASE) by (apply V2P_eq; lia).
  unfold kmap, kmaps_tables, kmap_tables, kmap_size; cbn [virt phys_start phys_end].
  change (V2P KERNLINK) with EXTMEM.
  rewrite Hd, !u32_small by lia. change (u32 (0 - DEVSPACE)) with 0x2000000.
  rewrite !PDX_eq by lia. zlia.
Qed.

(** ** setupkvm *)
Lemma setupkvm_wp (Q : Z -> mm -> Prop) s free :
  alloc_inv s free ->
  (forall pgdir rest s' free', free = pgdir :: rest -> mm_frame s s' ->
     alloc_inv s' free' -> pt_inv (mem s') pgdir free' ->
     (forall va, 0 <= va < 4294967296 ->
        pte_at (mem s') pgdir va = default 0 (kmap_pte kmap va)) ->
     (forall v, v ∈ free <-> v ∈ free' \/ is_pt (mem s') pgdir v) ->
     (forall v, page_ok v -> v ∉ free -> same_on (mem s) (mem s') v PGSIZE) ->
     Z.of_nat (length free) <= Z.of_nat (length free') + 67 ->
     Q pgdir s') ->
  (forall s', Z.of_nat (length free) < 67 -> undone s free s' -> Q 0 s') ->
  wp setupkvm Q s.
Proof.
  intros Hai Hok Hbad. unfold setupkvm. wp_step. eapply kalloc_wp; [done|].
  intros s1 Hf1 Hm1. destruct free as [|p rest].
  { intros Hai1. simpl. apply wp_ret. apply Hbad; [simpl; lia|]. split; [done| |].
    - exists []. done.
    - intros v _ _. by rewrite Hm1. }
  intros Hp Hn Hai1. pose proof (page_ok_range p Hp). destruct (Z.eqb_spec p 0); [lia|].
  wp_step. apply wp_kmemset; [lia|]. change (DEVSPACE <? P2V PHYSTOP) with false. cbn iota.
  rewrite Hm1. destruct (zero_dir (mem s) p rest Hp Hn) as (Hpt2 & Hz2 & Hipt2).
  set (s2 := set_mem _ s1).
  assert (Hdat2 : forall v, page_ok v -> v <> p -> same_on (mem s) (mem s2) v PGSIZE).
  { intros v Hv Hne a Ha. simpl. rewrite memset_load8 by lia.
    destruct (pages_disjoint p v Hp Hv); [done|zcases; done|zcases; done]. }
  assert (Hai2 : alloc_inv s2 rest).
  { apply (alloc_inv_set_mem s1); [done|]. intros q Hq. rewrite Hm1.
    apply Hdat2; [by eapply alloc_inv_page_ok|]. intros ->. done. }
  pose proof kmap_tables_bound as Hkb.
  assert (Hel : forall s3 free3, pt_step p s2 rest s3 free3 ->
    forall v, v ∈ p :: rest <-> v ∈ free3 \/ is_pt (mem s3) p v).
  { intros s3 free3 [_ _ _ (used & -> & Hu) _] v. rewrite Hu. change (mem s2) with (memset (mem s) p 0 PGSIZE). rewrite Hipt2.
    rewrite elem_of_cons, elem_of_app. tauto. }
  assert (Hdat3 : forall s3 free3, pt_step p s2 rest s3 free3 ->
    forall v, page_ok v -> v ∉ p :: rest -> same_on (mem s) (mem s3) v PGSIZE).
  { intros s3 free3 Hs3 v Hv Hnv. pose proof (Hel _ _ Hs3 v).
    eapply same_on_trans; [apply Hdat2; set_solver|]. apply Hs3; tauto. }
  eapply (setupkvm_maps_wp _ s2 rest); [done|done|apply kmap_wf|done| | |].
  - intros k va _ _. unfold mapped. simpl. rewrite Hz2. apply bit_set_0.
  - intros s3 free3 Hs3 Hp3 Hn3. eapply (Hok p rest s3 free3); [done| |apply Hs3|apply Hs3| | | |].
    + destruct Hs3 as [Hs3 _ _ _ _]. by etrans.
    + intros va Hva. rewrite Hp3 by done. simpl. by rewrite Hz2.
    + by apply Hel.
    + by eapply Hdat3.
    + simpl. lia.
  - intros s3 Hs3 Hz3 Hn3. wp_step.
    pose proof Hs3 as [Hf3 Hai3 Hpt3 _ _].
    assert (Has3 : as_inv (mem s3) p []) by (by apply empty_as_inv).
    eapply (freevm_undone _ s (p :: rest) s3 p []); try done.
    + set_solver.
    + by etrans.
    + intros v. rewrite (Hel _ _ Hs3). unfold as_page_of. split; [set_solver|].
      intros [?|[?|(va & Hva & Hm & _)]]; [set_solver|by right|].
      unfold mapped in Hm. rewrite Hz3 in Hm by done. by rewrite bit_set_0 in Hm.
    + by eapply Hdat3.
    + intros s4 Hs4. wp_step. apply Hbad; [simpl; lia|done].
Qed.
End Kern.
