(* ===== verification/VmAlloc.v ===== *)
(** * Growing an address space

    [allocuvm] adds zeroed writable user pages for exactly the requested
    range, or undoes what it did. *)

From S2P Require Import Prelude Machine StringC Spinlock Kalloc Vm VmWalk VmMap VmUser VmKern.

Section Alloc.
Context `{KernelImage}.

(** The pages of [[lo, hi)] have been added to the address space: the entry
    of [va] has the permissions [fl (pg va)] and its page the data
    [dat (pg va)]. *)
Record grow (fl : Z -> Z) (dat : Z -> Z -> Z) (pgdir lo hi : Z)
    (s : mm) (free : list Z) (s' : mm) (free' : list Z) : Prop := {
  gr_frame : mm_frame s s';
  gr_alloc : alloc_inv s' free';
  gr_as : as_inv (mem s') pgdir free';
  gr_old : forall va, 0 <= va < 4294967296 -> ~ (lo <= pg va < hi) ->
    pte_at (mem s') pgdir va = pte_at (mem s) pgdir va;
  gr_new : forall va, 0 <= va < 4294967296 -> lo <= pg va < hi ->
    pte_at (mem s') pgdir va =
      V2P (page_of (mem s') pgdir va) + Z.lor (fl (pg va)) PTE_P /\
    page_ok (page_of (mem s') pgdir va) /\
    forall i, 0 <= i < PGSIZE ->
      load8 (mem s') (page_of (mem s') pgdir va + i) = dat (pg va) i;
  gr_pt : forall v, is_pt (mem s) pgdir v -> is_pt (mem s') pgdir v;
  gr_pages : forall v, v ∈ free \/ is_pt (mem s) pgdir v <->
    v ∈ free' \/ is_pt (mem s') pgdir v \/
    exists va, 0 <= va < KERNBASE /\ lo <= pg va < hi /\ v = page_of (mem s') pgdir va;
  gr_data : forall v, page_ok v -> v ∉ free -> ~ is_pt (mem s) pgdir v ->
    same_on (mem s) (mem s') v PGSIZE }.

Lemma grow_refl fl dat pgdir lo s free :
  alloc_inv s free -> as_inv (mem s) pgdir free -> grow fl dat pgdir lo lo s free s free.
Proof.
  intros Hai Has. split; try done.
  - intros va _ ?. lia.
  - intros v. split; [tauto|]. intros [?|[?|(va & _ & ? & _)]]; [tauto|tauto|lia].
Qed.

(** A range that ends within a page covers that page. *)
Lemma grow_hi fl dat pgdir lo hi hi' s free s' free' :
  (forall p, p mod PGSIZE = 0 -> lo <= p -> p < hi <-> p < hi') ->
  grow fl dat pgdir lo hi s free s' free' -> grow fl dat pgdir lo hi' s free s' free'.
Proof.
  intros E [? ? ? Ho Hn ? Hp ?].
  assert (E' : forall va, lo <= pg va < hi <-> lo <= pg va < hi').
  { intros va. pose proof (E (pg va) (proj2 (pg_range va))). tauto. }
  split; try done.
  - intros va Hva Hr. apply Ho; [done|]. by rewrite E'.
  - intros va Hva Hr. apply Hn; [done|]. by rewrite E'.
  - intros v. rewrite Hp. by setoid_rewrite E'.
Qed.

(** A page table step that changes no translation keeps the invariant; the
    pages [own] are neither free nor in the address space. *)
Lemma as_inv_step own pgdir s free s' free' :
  as_inv (mem s) pgdir (own ++ free) -> (forall v, v ∈ own -> v ∉ free) ->
  pt_step pgdir s free s' free' ->
  (forall va, 0 <= va < 4294967296 -> pte_at (mem s') pgdir va = pte_at (mem s) pgdir va) ->
  as_inv (mem s') pgdir (own ++ free').
Proof.
  intros [Hpt Hpg Hinj] Hd [_ _ Hpt' (used & -> & Hu) _] E. unfold mapped, page_of in *.
  assert (Hown : forall v, is_pt (mem s') pgdir v -> v ∉ own ++ free').
  { intros v Hv. destruct (is_pt_page_ok _ _ _ _ Hpt' Hv) as [_ ?]. apply Hu in Hv as [Hv|Hv].
    - apply (is_pt_page_ok _ _ _ _ Hpt) in Hv as [_ ?]. set_solver.
    - intros [?|?]%elem_of_app; [|done]. by eapply Hd, elem_of_app; [|left]. }
  split; [split| |].
  - apply Hpt.
  - apply Hown. by left.
  - intros i Hi Hb. destruct (pt_table _ _ _ Hpt' i Hi Hb) as (? & ? & ?).
    split_and!; [done|done|]. apply Hown. right. by exists i.
  - apply Hpt'.
  - intros va Hva. unfold mapped, page_of. rewrite E by lia. intros Hm.
    destruct (Hpg va Hva Hm) as (? & Hnf & Hnpt). rewrite Hu. set_solver.
  - intros va va' Hva Hva'. unfold mapped, page_of. rewrite !E by lia. by apply Hinj.
Qed.

(** Writes to pages outside the address space do not change it. *)
Lemma as_inv_same m m' pgdir free free' :
  as_inv m pgdir free -> (forall v, v ∈ free' -> v ∈ free) ->
  (forall v, page_ok v -> v ∉ free -> same_on m m' v PGSIZE) ->
  as_inv m' pgdir free' /\
  (forall v, is_pt m' pgdir v <-> is_pt m pgdir v) /\
  (forall va, pte_at m' pgdir va = pte_at m pgdir va).
Proof.
  intros [Hpt Hpg Hinj] Hsub E.
  assert (Hsame : forall v, is_pt m pgdir v -> same_on m m' v PGSIZE).
  { intros v Hv. by apply E; eapply is_pt_page_ok. }
  assert (Hdir : same_on m m' pgdir PGSIZE) by (apply Hsame; by left).
  assert (Epte : forall va, pte_at m' pgdir va = pte_at m pgdir va)
    by (intros; by apply pte_at_same).
  assert (Ept : forall v, is_pt m' pgdir v <-> is_pt m pgdir v)
    by (intros; by apply is_pt_same).
  split_and!; [|done|done]. unfold mapped, page_of in *. split; unfold mapped, page_of.
  - eapply pt_inv_sub; [done|]. by eapply pt_inv_same.
  - intros va Hva. rewrite Epte. intros Hm. destruct (Hpg va Hva Hm) as (? & ? & ?).
    rewrite Ept. set_solver.
  - intros va va' Hva Hva'. rewrite !Epte. by apply Hinj.
Qed.

(** A page taken from the free list and filled, before it is mapped. *)
Record filled (s : mm) (p : Z) (rest : list Z) (s1 : mm) (f : Z -> Z) : Prop := {
  fi_frame : mm_frame s s1;
  fi_alloc : alloc_inv s1 rest;
  fi_same : forall v, page_ok v -> v <> p -> same_on (mem s) (mem s1) v PGSIZE;
  fi_data : forall i, 0 <= i < PGSIZE -> load8 (mem s1) (p + i) = f i }.

Lemma filled_as s p rest s1 f pgdir :
  filled s p rest s1 f -> as_inv (mem s) pgdir (p :: rest) ->
  as_inv (mem s1) pgdir (p :: rest) /\
  (forall v, is_pt (mem s1) pgdir v <-> is_pt (mem s) pgdir v) /\
  (forall va, pte_at (mem s1) pgdir va = pte_at (mem s) pgdir va).
Proof.
  intros Hf Has. eapply as_inv_same; [done|done|]. intros v Hv Hn. apply Hf; set_solver.
Qed.

(** One more page. *)
Section Snoc.
Context (fl : Z -> Z) (dat : Z -> Z -> Z) (pgdir lo a p : Z) (rest free0 free2 : list Z)
  (s0 s s1 s2 : mm).
Context (Hlo : 0 <= lo <= a) (Hal : a mod PGSIZE = 0) (Hend : a + PGSIZE <= KERNBASE).
Context (Hp : page_ok p) (Hpn : p ∉ rest) (Hfl : 0 <= fl a < PGSIZE).
Context (Hgr : grow fl dat pgdir lo a s0 free0 s (p :: rest)).
Context (Hfi : filled s p rest s1 (dat a)).
Context (Hst : pt_step pgdir s1 rest s2 free2).
Context (Hmr : map_range (mem s1) (mem s2) pgdir a 1 (V2P p) (fl a)).

Lemma snoc_pte va :
  0 <= va < 4294967296 ->
  pte_at (mem s2) pgdir va =
  if pg va =? a then V2P p + Z.lor (fl a) PTE_P else pte_at (mem s) pgdir va.
Proof.
  intros Hva. rewrite Hmr by done.
  destruct (filled_as _ _ _ _ _ _ Hfi (gr_as _ _ _ _ _ _ _ _ _ Hgr)) as (_ & _ & ->).
  pose proof (pg_range va). destruct (Z.eqb_spec (pg va) a) as [E|E].
  - zcases. unfold pg in E. lia.
  - zcases; [|done..]. exfalso. unfold pg in *. zlia.
Qed.

Lemma snoc_page_of va :
  0 <= va < 4294967296 ->
  page_of (mem s2) pgdir va = if pg va =? a then p else page_of (mem s) pgdir va.
Proof.
  intros Hva. unfold page_of. rewrite snoc_pte by done. destruct (pg va =? a); [|done].
  rewrite PTE_ADDR_make; [by apply page_ok_P2V_V2P|by apply page_ok_V2P_aligned|].
  by apply present_perm.
Qed.

Lemma snoc_mapped va :
  0 <= va < 4294967296 ->
  mapped (mem s2) pgdir va = if pg va =? a then true else mapped (mem s) pgdir va.
Proof.
  intros Hva. unfold mapped. rewrite snoc_pte by done. destruct (pg va =? a); [|done].
  by apply present_make, page_ok_V2P_aligned.
Qed.

Lemma snoc_is_pt : exists used : list Z, (forall v : Z, v ∈ rest <-> v ∈ used \/ v ∈ free2) /\
  forall v, is_pt (mem s2) pgdir v <-> is_pt (mem s) pgdir v \/ v ∈ used.
Proof.
  destruct Hst as [_ _ _ (used & Hr & Hu) _]. exists used. split; [intros v; rewrite Hr; apply elem_of_app|]. intros v.
  rewrite Hu. destruct (filled_as _ _ _ _ _ _ Hfi (gr_as _ _ _ _ _ _ _ _ _ Hgr)) as (_ & -> & _).
  done.
Qed.

Lemma snoc_fresh : ~ is_pt (mem s) pgdir p.
Proof.
  intros Hpt. eapply is_pt_page_ok in Hpt as [_ Hn]; [|apply Hgr]. set_solver.
Qed.

Lemma snoc_as : as_inv (mem s2) pgdir free2.
Proof.
  destruct snoc_is_pt as (used & Hr & Hu). pose proof snoc_fresh.
  destruct (gr_as _ _ _ _ _ _ _ _ _ Hgr) as [_ Hpg Hinj].
  split; [apply Hst| |].
  - intros va Hva. rewrite snoc_mapped, snoc_page_of, Hu by lia.
    destruct (Z.eqb_spec (pg va) a); [set_solver|]. intros Hm.
    destruct (Hpg va Hva Hm) as (? & ? & ?). set_solver.
  - intros va va' Hva Hva'. rewrite !snoc_mapped, !snoc_page_of by lia.
    destruct (Z.eqb_spec (pg va) a) as [->|], (Z.eqb_spec (pg va') a) as [->|]; try done.
    + intros _ Hm E. destruct (Hpg va' Hva' Hm) as (_ & ? & _). set_solver.
    + intros Hm _ E. destruct (Hpg va Hva Hm) as (_ & ? & _). set_solver.
    + by apply Hinj.
Qed.

(** Pages outside the page table that are not [p] keep their data. *)
Lemma snoc_same v :
  page_ok v -> v <> p -> v ∉ rest -> ~ is_pt (mem s) pgdir v ->
  same_on (mem s) (mem s2) v PGSIZE.
Proof.
  intros Hv Hne Hr Hn. destruct snoc_is_pt as (used & Hr' & Hu).
  eapply same_on_trans; [by apply Hfi|]. apply Hst; [done|]. rewrite Hu. set_solver.
Qed.

Lemma snoc_new va :
  0 <= va < 4294967296 -> lo <= pg va < a + PGSIZE ->
  pte_at (mem s2) pgdir va = V2P (page_of (mem s2) pgdir va) + Z.lor (fl (pg va)) PTE_P /\
  page_ok (page_of (mem s2) pgdir va) /\
  forall i, 0 <= i < PGSIZE ->
    load8 (mem s2) (page_of (mem s2) pgdir va + i) = dat (pg va) i.
Proof.
  intros Hva Hr. rewrite snoc_page_of, snoc_pte by done. pose proof (pg_range va).
  destruct (Z.eqb_spec (pg va) a) as [->|Hne].
  - split_and!; [done|done|]. intros i Hi. destruct snoc_is_pt as (used & Hr' & Hu).
    rewrite <- (fi_data _ _ _ _ _ Hfi i Hi). apply (ps_data _ _ _ _ _ Hst p); [done| |lia].
    rewrite Hu.
    pose proof snoc_fresh. set_solver.
  - assert (lo <= pg va < a) as Hr' by zlia.
    destruct (gr_new _ _ _ _ _ _ _ _ _ Hgr va Hva Hr') as (Hpte & Hok & Hd).
    split_and!; [done|done|]. intros i Hi. rewrite <- Hd by done.
    assert (Hv : 0 <= va < KERNBASE) by zlia.
    destruct (as_page _ _ _ (gr_as _ _ _ _ _ _ _ _ _ Hgr) va Hv) as (_ & Hf & Hn).
    + unfold mapped. rewrite Hpte. apply present_make. by apply page_ok_V2P_aligned.
    + apply (snoc_same (page_of (mem s) pgdir va)); [done|set_solver|set_solver|done|lia].
Qed.

Lemma grow_snoc : grow fl dat pgdir lo (a + PGSIZE) s0 free0 s2 free2.
Proof.
  destruct snoc_is_pt as (used & Hr & Hu). pose proof snoc_fresh as Hfresh.
  destruct Hgr as [Hf _ _ Ho _ Hpt Hpgs Hdat].
  split; [|apply Hst|apply snoc_as| |apply snoc_new| | |].
  - etrans; [exact Hf|]. etrans; [apply Hfi|apply Hst].
  - intros va Hva Hn. rewrite snoc_pte by done. zcases. apply Ho; [done|].
    pose proof (pg_range va). zlia.
  - intros v Hv. apply Hu. left. by apply Hpt.
  - intros v. rewrite Hpgs, Hu. split.
    + intros [Hv|[?|(va & Hva & Hva' & ->)]]; [| |].
      * apply list_elem_of_In in Hv as [<-|Hv%list_elem_of_In].
        -- right. right. exists a. rewrite snoc_page_of by lia.
           assert (pg a = a) as -> by (unfold pg; lia). rewrite Z.eqb_refl. split_and!; lia.
        -- set_solver.
      * tauto.
      * right. right. exists va. rewrite snoc_page_of by lia. split_and!; try lia.
        zcases; done.
    + intros [?|[[?|?]|(va & Hva & Hva' & ->)]]; [set_solver|set_solver|set_solver|].
      rewrite snoc_page_of by lia. destruct (Z.eqb_spec (pg va) a); [set_solver|].
      right. right. exists va. pose proof (pg_range va). split_and!; try done; zlia.
  - intros v Hv Hn Hn'. destruct (Hpgs v) as [_ Hback].
    eapply same_on_trans; [by apply Hdat|]. apply snoc_same; [done|set_solver|set_solver|tauto].
Qed.
End Snoc.

(** ** Undoing a growth *)

(** The translations are those of [s]; the pages [own] are the caller's. *)
Record as_back (pgdir : Z) (s : mm) (free : list Z) (s' : mm) (own free' : list Z) : Prop := {
  ab_frame : mm_frame s s';
  ab_alloc : alloc_inv s' free';
  ab_as : as_inv (mem s') pgdir (own ++ free');
  ab_pte : forall va, 0 <= va < 4294967296 ->
    pte_at (mem s') pgdir va = pte_at (mem s) pgdir va;
  ab_pages : forall v, v ∈ free \/ is_pt (mem s) pgdir v <->
    v ∈ own ++ free' \/ is_pt (mem s') pgdir v;
  ab_data : forall v, page_ok v -> v ∉ free -> ~ is_pt (mem s) pgdir v ->
    same_on (mem s) (mem s') v PGSIZE }.

(** [deallocuvm] does not touch pages the caller owns. *)
Lemma dealloc_own pgdir lo hi s own free s' free' :
  hi <= KERNBASE -> as_inv (mem s) pgdir (own ++ free) ->
  dealloc_step pgdir lo hi s free s' free' -> as_inv (mem s') pgdir (own ++ free').
Proof.
  intros Hhi [Hpt Hpg Hinj] [_ _ [Hpt' Hpg' Hinj'] Hu Hdir (freed & -> & _ & _)].
  split; [split| |done].
  - apply Hpt.
  - pose proof (pt_dir_used _ _ _ Hpt). pose proof (pt_dir_used _ _ _ Hpt'). set_solver.
  - intros i Hi Hb. destruct (pt_table _ _ _ Hpt' i Hi Hb) as (? & ? & ?).
    rewrite (pde_at_same (mem s)) in * by done.
    destruct (pt_table _ _ _ Hpt i Hi Hb) as (? & ? & ?). set_solver.
  - apply Hpt'.
  - intros va Hva Hm. destruct (Hpg' va Hva Hm) as (? & ? & ?). split_and!; [done| |done].
    unfold page_of, mapped in *. rewrite Hu in * by lia. destruct (_ && _) eqn:E.
    + by rewrite bit_set_0 in Hm.
    + destruct (Hpg va Hva Hm) as (? & ? & ?). set_solver.
Qed.

Lemma dealloc_own_used pgdir lo hi s own free s' free' v :
  as_inv (mem s) pgdir (own ++ free) -> dealloc_step pgdir lo hi s free s' free' ->
  v ∈ own -> v ∉ free -> v ∉ free'.
Proof.
  intros Has [_ _ _ _ _ (freed & -> & Hfr & _)] Hv Hn [Hv'|?]%elem_of_app; [|done].
  apply Hfr in Hv' as (va & Hva & _ & Hm & ->).
  destruct (as_page _ _ _ Has va Hva Hm) as (_ & ? & _). set_solver.
Qed.

Lemma grow_undo fl dat pgdir lo a hi s0 free0 s free s2 own free2 s3 free3 :
  0 <= lo -> hi <= KERNBASE ->
  (forall va, 0 <= va < 4294967296 -> lo <= pg va < hi -> pte_at (mem s0) pgdir va = 0) ->
  (forall va, 0 <= va < 4294967296 -> lo <= pg va < a -> pg va < hi) ->
  grow fl dat pgdir lo a s0 free0 s free ->
  as_back pgdir s free s2 own free2 ->
  dealloc_step pgdir lo hi s2 free2 s3 free3 ->
  as_back pgdir s0 free0 s3 own free3.
Proof.
  intros Hlo Hhi Hz Hahi [Hf _ _ Ho Hnew Hpt Hpgs Hdat] [Hf2 _ Has2 Hpte2 Hpgs2 Hdat2] Hds.
  pose proof (dealloc_own _ _ _ _ _ _ _ _ Hhi Has2 Hds) as Has3.
  destruct Hds as [Hf3 Hai3 _ Hu Hdir (freed & -> & Hfr & Hdat3)].
  assert (Hmap : forall va, 0 <= va < 4294967296 -> lo <= pg va < hi ->
    mapped (mem s2) pgdir va = true <-> pg va < a).
  { intros va Hva Hr. unfold mapped. rewrite Hpte2 by done.
    destruct (Z.lt_ge_cases (pg va) a).
    - destruct (Hnew va Hva ltac:(lia)) as (-> & ? & _).
      rewrite present_make by (by apply page_ok_V2P_aligned). tauto.
    - rewrite Ho, Hz by (done || lia). rewrite bit_set_0. split; [done|lia]. }
  assert (Hfreed : forall v, v ∈ freed <-> exists va, 0 <= va < KERNBASE /\ lo <= pg va < a /\
    v = page_of (mem s) pgdir va).
  { intros v. rewrite Hfr. unfold page_of. split.
    - intros (va & Hva & Hr & Hm & ->). rewrite Hpte2 by lia. apply Hmap in Hm; [|lia|done].
      exists va. split_and!; done || lia.
    - intros (va & Hva & Hr & ->). pose proof (Hahi va ltac:(lia) Hr).
      exists va. rewrite Hpte2, Hmap by lia. split_and!; done || lia. }
  split; [by etrans; [|etrans]|done|done| | |].
  - intros va Hva. rewrite Hu by done.
    destruct (Z.leb_spec lo (pg va)), (Z.ltb_spec (pg va) hi); simpl;
      try (rewrite Hpte2 by done; apply Ho; [done|]; intros [? ?]; specialize (Hahi va Hva); lia).
    destruct (mapped (mem s2) pgdir va) eqn:Hm; [by rewrite Hz by (done || lia)|].
    rewrite Hpte2 by done. apply Ho; [done|]. rewrite <- not_true_iff_false, Hmap in Hm; lia.
  - intros v. rewrite Hpgs, (is_pt_same (mem s2) (mem s3)) by done. specialize (Hpgs2 v).
    rewrite <- Hfreed. rewrite !elem_of_app in *. clear - Hpgs2. tauto.
  - intros v Hv Hn Hn'. specialize (Hpgs v). specialize (Hpgs2 v). rewrite <- Hfreed in Hpgs.
    eapply same_on_trans; [by apply Hdat|].
    eapply same_on_trans; [apply (Hdat2 v)|apply (Hdat3 v)]; try tauto;
      intros Hv2; rewrite elem_of_app in Hpgs2; tauto.
Qed.

(** The caller gives its page back. *)
Lemma as_back_release pgdir s free s' p free' s'' :
  as_back pgdir s free s' [p] free' -> ~ is_pt (mem s) pgdir p -> p ∈ free ->
  release_step s' free' s'' [p] -> as_back pgdir s free s'' [] (p :: free').
Proof.
  intros [Hf Hai Has Hpte Hpgs Hdat] Hn Hp [Hf2 Hai2 Hdat2].
  destruct (as_inv_same (mem s') (mem s'') pgdir (p :: free') (p :: free')) as (Has' & Hpt' & Hpte');
    [done|done| |].
  { intros v Hv Hnv. apply Hdat2; [done|]. set_solver. }
  split; [by etrans|done|done| | |].
  - intros va Hva. by rewrite Hpte', Hpte.
  - intros v. by rewrite Hpgs, Hpt'.
  - intros v Hv Hnv Hnv'. eapply same_on_trans; [by apply Hdat|]. apply Hdat2; [done|].
    rewrite list_elem_of_singleton. by intros ->.
Qed.

(** A page table step without a new translation, the page [p] in hand. *)
Lemma as_back_step pgdir s p rest s1 f s2 free2 :
  as_inv (mem s) pgdir (p :: rest) -> p ∉ rest -> filled s p rest s1 f ->
  pt_step pgdir s1 rest s2 free2 ->
  (forall va, 0 <= va < 4294967296 -> pte_at (mem s2) pgdir va = pte_at (mem s1) pgdir va) ->
  as_back pgdir s (p :: rest) s2 [p] free2.
Proof.
  intros Has Hp Hfi Hst Hpte. destruct (filled_as _ _ _ _ _ _ Hfi Has) as (Has1 & Hpt1 & Hpte1).
  assert (Has2 : as_inv (mem s2) pgdir ([p] ++ free2)).
  { eapply as_inv_step; [exact Has1| |done|done]. intros v ->%list_elem_of_singleton. done. }
  destruct Hst as [Hf2 Hai2 _ (used & -> & Hu) Hdat2].
  split; [by etrans; [apply Hfi|]|done|done| | |].
  - intros va Hva. by rewrite Hpte, Hpte1.
  - intros v. rewrite Hu, Hpt1. set_solver.
  - intros v Hv Hn Hn'. eapply same_on_trans; [apply Hfi; set_solver|].
    apply Hdat2; [done|]. rewrite Hu, Hpt1. set_solver.
Qed.

(** ** allocuvm *)

Definition zero_data (_ i : Z) : Z := 0.
Definition user_rw (_ : Z) : Z := Z.lor PTE_W PTE_U.

Lemma kalloc_zero s p rest s1 :
  mm_frame s s1 -> mem s1 = mem s -> page_ok p -> p ∉ rest -> alloc_inv s1 rest ->
  filled s p rest (set_mem (memset (mem s1) p 0 PGSIZE) s1) (fun _ => 0).
Proof.
  intros Hf Hm Hp Hn Hai.
  assert (Hsame : forall v, page_ok v -> v <> p ->
    same_on (mem s) (memset (mem s1) p 0 PGSIZE) v PGSIZE).
  { intros v Hv Hne a Ha. rewrite memset_load8, Hm by lia.
    destruct (pages_disjoint p v Hp Hv); [done|zcases; done..]. }
  split; [done| |done|].
  - apply alloc_inv_set_mem; [done|]. intros v Hv. rewrite Hm at 1.
    apply Hsame; [by eapply alloc_inv_page_ok|]. by intros ->.
  - intros i Hi. simpl. rewrite memset_load8 by lia. zcases. done.
Qed.

(** Mapping a filled page: one more page, or the page table is as before and
    the caller still has its page. *)
Lemma map_page_wp (Q : Z -> mm -> Prop) fl dat pgdir lo a p rest s0 free0 s s1 :
  0 <= lo <= a -> a mod PGSIZE = 0 -> a + PGSIZE <= KERNBASE ->
  page_ok p -> p ∉ rest -> 0 <= fl a < PGSIZE ->
  grow fl dat pgdir lo a s0 free0 s (p :: rest) -> filled s p rest s1 (dat a) ->
  mapped (mem s0) pgdir a = false ->
  (forall s2 free2, grow fl dat pgdir lo (a + PGSIZE) s0 free0 s2 free2 ->
     Z.of_nat (length rest) <= Z.of_nat (length free2) + 1 ->
     (forall va, 0 <= va < 4294967296 ->
        page_of (mem s2) pgdir va = if pg va =? a then p else page_of (mem s) pgdir va) ->
     Q 0 s2) ->
  (forall s2, as_back pgdir s (p :: rest) s2 [p] [] -> rest = [] -> Q (-1) s2) ->
  wp (mappages pgdir a PGSIZE (V2P p) (fl a)) Q s1.
Proof.
  intros Hlo Hal Hend Hp Hn Hfl Hgr Hfi Hun Hok Hbad.
  pose proof (gr_as _ _ _ _ _ _ _ _ _ Hgr) as Has.
  destruct (filled_as _ _ _ _ _ _ Hfi Has) as (Has1 & Hpt1 & Hpte1).
  pose proof (page_ok_V2P_range p Hp).
  replace PGSIZE with (1 * PGSIZE) at 1 by lia.
  eapply (mappages_wp _ s1 rest); try done || lia.
  - apply Hfi.
  - eapply pt_inv_sub; [|apply Has1]. set_solver.
  - by apply page_ok_V2P_aligned.
  - intros va Hva. rewrite Hpte1, (gr_old _ _ _ _ _ _ _ _ _ Hgr) by (unfold pg; zlia).
    rewrite <- (pte_at_pg _ _ va) by lia. replace (pg va) with a by (unfold pg; zlia). done.
  - intros s2 free2 Hs2 Hr2 Hlen. apply (Hok s2 free2).
    + eapply (grow_snoc fl dat pgdir lo a p rest free0 free2 s0 s s1 s2); done || lia.
    + unfold need in Hlen. replace (a + (1 - 1) * PGSIZE) with a in Hlen by lia.
      destruct (bit_set _ _); lia.
    + intros va Hva. by apply (snoc_page_of fl dat pgdir lo a p rest free0 s0 s s1 s2).
  - intros s2 k Hk Hs2 Hr2 Hlen. apply Hbad.
    + eapply as_back_step; [done|done|exact Hfi|done|]. intros va Hva. rewrite Hr2 by done.
      zcases; done.
    + unfold need in Hlen. replace (a + (1 - 1) * PGSIZE) with a in Hlen by lia.
      destruct rest as [|q rest']; [done|]. simpl in Hlen. destruct (bit_set _ _); lia.
Qed.

(** The page in hand was free at the start. *)
Lemma grow_hand fl dat pgdir lo a s0 free0 s p rest :
  grow fl dat pgdir lo a s0 free0 s (p :: rest) -> ~ is_pt (mem s0) pgdir p /\ p ∈ free0.
Proof.
  intros Hgr.
  assert (Hno : ~ is_pt (mem s0) pgdir p).
  { intros Hpt%(gr_pt _ _ _ _ _ _ _ _ _ Hgr).
    eapply is_pt_page_ok in Hpt as [_ Hpt]; [|apply Hgr]. set_solver. }
  split; [done|]. destruct (gr_pages _ _ _ _ _ _ _ _ _ Hgr p) as [_ [?|?]]; [set_solver|done|done].
Qed.

Lemma allocuvm_loop_wp (Q : Z -> mm -> Prop) fuel s0 free0 s free pgdir oldsz a newsz lo :
  lo = PGROUNDUP oldsz -> 0 <= oldsz <= lo -> lo mod PGSIZE = 0 ->
  newsz < KERNBASE -> a mod PGSIZE = 0 -> lo <= a -> a < newsz + PGSIZE \/ a = lo ->
  (Z.to_nat ((newsz - a + PGSIZE - 1) / PGSIZE) < fuel)%nat ->
  (forall va, 0 <= va < 4294967296 -> lo <= pg va < newsz -> pte_at (mem s0) pgdir va = 0) ->
  grow user_rw zero_data pgdir lo a s0 free0 s free ->
  Z.of_nat (length free0) <= Z.of_nat (length free) + 2 * ((a - lo) / PGSIZE) ->
  (forall s' free', grow user_rw zero_data pgdir lo newsz s0 free0 s' free' -> Q newsz s') ->
  (forall s' free', as_back pgdir s0 free0 s' [] free' ->
     Z.of_nat (length free0) < 2 * ((newsz - lo + PGSIZE - 1) / PGSIZE) -> Q 0 s') ->
  wp (allocuvm_loop fuel pgdir oldsz a newsz) Q s.
Proof.
  revert s free a. induction fuel as [|fuel IH];
    intros s free a Elo Ho Hual Hnew Hal Ha Ha2 Hfuel Hz Hgr Hlen Hok Hbad; [lia|].
  cbn [allocuvm_loop]. destruct (Z.ltb_spec a newsz).
  2:{ apply wp_ret. eapply Hok, grow_hi; [|exact Hgr]. intros p Hp Hlo. zlia. }
  assert (Hin : forall va, 0 <= va < 4294967296 -> lo <= pg va < a -> pg va < newsz)
    by (intros; lia).
  wp_step. eapply kalloc_wp; [apply Hgr|]. intros s1 Hf1 Hm1. destruct free as [|p rest].
  { intros Hai1. change (0 =? 0) with true. cbn iota. wp_step.
    assert (Hb : as_back pgdir s [] s1 [] []).
    { split; [done|done| | | |]; rewrite ?Hm1; try done. apply Hgr. }
    eapply deallocuvm_wp; [done|apply Hb|lia|lia|lia|]. rewrite <- Elo. intros s2 free2 _ Hds.
    wp_step. eapply Hbad; [|simpl in Hlen; zlia].
    eapply grow_undo; [..|exact Hgr|exact Hb|exact Hds]; lia || done. }
  intros Hp Hn Hai1. pose proof (page_ok_range p Hp). destruct (Z.eqb_spec p 0); [lia|].
  wp_step. apply wp_kmemset; [lia|].
  pose proof (kalloc_zero s p rest s1 Hf1 Hm1 Hp Hn Hai1) as Hfi.
  wp_step. change (Z.lor PTE_W PTE_U) with (user_rw a). cbn [length] in Hlen.
  eapply (map_page_wp _ user_rw zero_data pgdir lo a p rest s0 free0 s); try done || zlia.
  - unfold mapped. rewrite Hz by (unfold pg; zlia). apply bit_set_0.
  - intros s3 free3 Hg3 Hl3 _. change (0 <? 0) with false. cbn iota.
    rewrite u32_small by lia. eapply (IH s3 free3); try done; zlia.
  - intros s3 Hb ->. change (-1 <? 0) with true. cbn iota.
    assert (Has3 : as_inv (mem s3) pgdir []).
    { eapply (as_inv_same (mem s3)); [apply (ab_as _ _ _ _ _ _ Hb)| |done]. set_solver. }
    wp_step. eapply deallocuvm_wp; [apply Hb|done|lia|lia|lia|]. rewrite <- Elo.
    intros s4 free4 _ Hds.
    assert (Hb4 : as_back pgdir s0 free0 s4 [p] free4).
    { eapply grow_undo; [..|exact Hgr|exact Hb|exact Hds]; lia || done. }
    assert (Hp4 : p ∉ free4).
    { eapply dealloc_own_used; [apply Hb|exact Hds| |]; set_solver. }
    wp_step. eapply release_one_wp; [apply Hds|done|done|]. intros s5 Hs5. wp_step.
    destruct (grow_hand _ _ _ _ _ _ _ _ _ _ Hgr) as [? ?].
    eapply Hbad; [by eapply as_back_release|simpl in Hlen; zlia].
Qed.

Lemma allocuvm_wp (Q : Z -> mm -> Prop) s free pgdir oldsz newsz :
  alloc_inv s free -> as_inv (mem s) pgdir free -> 0 <= oldsz < KERNBASE ->
  (forall va, 0 <= va < 4294967296 -> PGROUNDUP oldsz <= pg va < newsz ->
     pte_at (mem s) pgdir va = 0) ->
  (KERNBASE <= newsz -> Q 0 s) ->
  (newsz < oldsz -> Q oldsz s) ->
  (forall s' free', oldsz <= newsz < KERNBASE ->
     grow user_rw zero_data pgdir (PGROUNDUP oldsz) newsz s free s' free' -> Q newsz s') ->
  (forall s' free', oldsz <= newsz < KERNBASE -> as_back pgdir s free s' [] free' ->
     Z.of_nat (length free) < 2 * ((newsz - PGROUNDUP oldsz + PGSIZE - 1) / PGSIZE) -> Q 0 s') ->
  wp (allocuvm pgdir oldsz newsz) Q s.
Proof.
  intros Hai Has Ho Hz Hbig Hsm Hok Hbad. unfold allocuvm.
  destruct (Z.leb_spec KERNBASE newsz); [apply wp_ret; auto|].
  destruct (Z.ltb_spec newsz oldsz); [apply wp_ret; auto|].
  assert (E := PGROUNDUP_eq oldsz ltac:(lia) ltac:(lia)).
  assert (oldsz <= PGROUNDUP oldsz /\ PGROUNDUP oldsz mod PGSIZE = 0) as [? ?]
    by (rewrite E; zlia).
  eapply (allocuvm_loop_wp _ _ s free s free _ _ _ _ (PGROUNDUP oldsz));
    [done|lia|done|done|done|lia|by right|zlia|done|by apply grow_refl| |by eauto|by eauto].
  rewrite Z.sub_diag. change (0 / PGSIZE) with 0. lia.
Qed.
End Alloc.
