(* ===== verification/VmCopy.v ===== *)
(** * Copying address spaces

    [copyuvm] builds an address space with the parent's permissions and data
    in fresh pages, or returns every page it took; [copyout] writes a buffer
    at user addresses, through the page table. *)

From S2P Require Import Prelude Machine StringC Spinlock Kalloc Vm VmWalk VmMap VmUser VmKern VmAlloc.

Section Alloc.
Context `{KernelImage}.

(** ** copyuvm *)

Lemma flags_present e : bit_set e PTE_P = true -> Z.lor (PTE_FLAGS e) PTE_P = PTE_FLAGS e.
Proof.
  rewrite bit_set_P. intros Ho. apply Z.bits_inj'. intros n Hn.
  unfold PTE_FLAGS, PTE_P. rewrite Z.lor_spec, Z.land_spec.
  destruct (Z.eq_dec n 0) as [->|].
  - rewrite !Z.bit0_odd, Ho. done.
  - assert (Z.testbit 1 n = false) as ->; [|by rewrite orb_false_r].
    change 1 with (2 ^ 0). rewrite Z.pow2_bits_false by lia. done.
Qed.

Lemma PTE_FLAGS_range e : 0 <= PTE_FLAGS e < PGSIZE.
Proof. rewrite PTE_FLAGS_eq. zlia. Qed.

(** The parent's permissions and data. *)
Definition flags_of (m : gmap Z Z) (pgdir va : Z) : Z := PTE_FLAGS (pte_at m pgdir va).
Definition data_of (m : gmap Z Z) (pgdir va i : Z) : Z := load8 m (page_of m pgdir va + i).

(** [d] is a copy of the user memory of [pgdir] below [sz], in pages that
    were free. *)
Record copied (pgdir sz : Z) (s : mm) (free : list Z) (d : Z) (s' : mm) (free' : list Z)
    : Prop := {
  co_frame : mm_frame s s';
  co_alloc : alloc_inv s' free';
  co_child : as_inv (mem s') d free';
  co_parent : as_inv (mem s') pgdir free';
  co_kernel : forall va, KERNBASE <= va < 4294967296 ->
    pte_at (mem s') d va = default 0 (kmap_pte kmap va);
  co_above : forall va, 0 <= va < KERNBASE -> sz <= pg va -> pte_at (mem s') d va = 0;
  co_user : forall va, 0 <= va < KERNBASE -> pg va < sz ->
    mapped (mem s') d va = true /\
    PTE_FLAGS (pte_at (mem s') d va) = PTE_FLAGS (pte_at (mem s) pgdir va) /\
    page_of (mem s') d va ∈ free /\
    forall i, 0 <= i < PGSIZE ->
      load8 (mem s') (page_of (mem s') d va + i) = load8 (mem s) (page_of (mem s) pgdir va + i);
  co_pages : forall v, v ∈ free <-> v ∈ free' \/ as_page_of (mem s') d v;
  co_data : forall v, page_ok v -> v ∉ free -> same_on (mem s) (mem s') v PGSIZE }.

Lemma kmap_pte_low ks va : kmaps_ok ks -> va < KERNBASE -> kmap_pte ks va = None.
Proof.
  intros Hwf Hva. induction ks as [|k ks IH]; [done|].
  destruct Hwf as (Hk & _ & Hks). simpl. rewrite IH by done.
  destruct (in_kmap k va) eqn:E; [|done]. apply in_kmap_range in E; [lia|done].
Qed.

Lemma kmap_pte_user va : va < KERNBASE -> kmap_pte kmap va = None.
Proof. apply kmap_pte_low, kmap_wf. Qed.

Section Copy.
Context (pgdir sz : Z) (s0 : mm) (free0 : list Z) (s1 : mm) (free1 : list Z) (d : Z).
Context (Hai0 : alloc_inv s0 free0) (Has0 : as_inv (mem s0) pgdir free0).
Context (Hsz : 0 <= sz <= KERNBASE).
Context (Hmap0 : forall va, 0 <= va < sz -> mapped (mem s0) pgdir va = true).
(** What [setupkvm] leaves. *)
Context (Hf1 : mm_frame s0 s1) (Hd : page_ok d) (Hd0 : d ∈ free0).
Context (Hpte1 : forall va, 0 <= va < 4294967296 ->
  pte_at (mem s1) d va = default 0 (kmap_pte kmap va)).
Context (Hpg1 : forall v, v ∈ free0 <-> v ∈ free1 \/ is_pt (mem s1) d v).
Context (Hdat1 : forall v, page_ok v -> v ∉ free0 -> same_on (mem s0) (mem s1) v PGSIZE).

Let copying i s free :=
  grow (flags_of (mem s0) pgdir) (data_of (mem s0) pgdir) d 0 i s1 free1 s free.

Lemma copying_same i s free v :
  copying i s free -> page_ok v -> v ∉ free0 -> same_on (mem s0) (mem s) v PGSIZE.
Proof.
  intros Hg Hv Hn. rewrite Hpg1 in Hn. eapply same_on_trans; [apply Hdat1; [done|]|].
  - by rewrite Hpg1.
  - apply Hg; tauto.
Qed.

(** The parent is as it was. *)
Lemma copying_parent i s free :
  copying i s free ->
  as_inv (mem s) pgdir free /\
  (forall va, pte_at (mem s) pgdir va = pte_at (mem s0) pgdir va) /\
  (forall va, 0 <= va < KERNBASE -> mapped (mem s0) pgdir va = true ->
     same_on (mem s0) (mem s) (page_of (mem s0) pgdir va) PGSIZE).
Proof.
  intros Hg. destruct (as_inv_same (mem s0) (mem s) pgdir free0 free) as (? & _ & ?); [done| | |].
  - intros v Hv. apply Hpg1. apply (gr_pages _ _ _ _ _ _ _ _ _ Hg). by left.
  - intros v Hv Hn. by eapply copying_same.
  - split_and!; [done|done|]. intros va Hva Hm.
    destruct (as_page _ _ _ Has0 va Hva Hm) as (? & ? & _). by eapply copying_same.
Qed.

Lemma copying_mapped i s free va :
  copying i s free -> 0 <= va < KERNBASE -> mapped (mem s) d va = true <-> pg va < i.
Proof.
  intros Hg Hva. unfold mapped. pose proof (pg_range va).
  destruct (Z.lt_ge_cases (pg va) i).
  - destruct (gr_new _ _ _ _ _ _ _ _ _ Hg va ltac:(lia) ltac:(unfold pg in *; zlia)) as (-> & ? & _).
    rewrite present_make by (by apply page_ok_V2P_aligned). done.
  - rewrite (gr_old _ _ _ _ _ _ _ _ _ Hg), Hpte1, kmap_pte_user by lia. simpl.
    rewrite bit_set_0. split; [done|lia].
Qed.

(** Every page taken is in the child. *)
Lemma copying_pages i s free v :
  copying i s free -> v ∈ free0 <-> v ∈ free \/ as_page_of (mem s) d v.
Proof.
  intros Hg. rewrite Hpg1, (gr_pages _ _ _ _ _ _ _ _ _ Hg v). unfold as_page_of.
  assert (forall va, 0 <= va < KERNBASE /\ 0 <= pg va < i /\ v = page_of (mem s) d va <->
    0 <= va < KERNBASE /\ mapped (mem s) d va = true /\ v = page_of (mem s) d va) as E.
  { intros va. split; intros (Hva & Hr & Hv); 
      pose proof (copying_mapped i s free va Hg Hva); (split_and!; [done| |done] || split_and!);
      unfold pg in *; tauto || zlia. }
  by setoid_rewrite E.
Qed.

Lemma copying_fail (Q : unit -> mm -> Prop) i s free s2 free2 :
  copying i s free -> as_back d s free s2 [] free2 ->
  (forall s', undone s0 free0 s' -> Q tt s') -> wp (freevm d) Q s2.
Proof.
  intros Hg [Hf2 Hai2 Has2 Hpte2 Hpgs2 Hdat2] HQ.
  eapply (freevm_undone _ s0 free0); [done|done|done| |done|done| | |done].
  - etrans; [exact Hf1|]. etrans; [apply Hg|done].
  - intros v. rewrite (copying_pages i s free v Hg). unfold as_page_of.
    specialize (Hpgs2 v). rewrite app_nil_l in Hpgs2.
    assert (forall va, 0 <= va < KERNBASE /\ mapped (mem s2) d va = true /\
        v = page_of (mem s2) d va <->
      0 <= va < KERNBASE /\ mapped (mem s) d va = true /\ v = page_of (mem s) d va) as E.
    { intros va. unfold mapped, page_of. split; intros (Hva & ?);
        [rewrite Hpte2 in * by lia|rewrite Hpte2 by lia]; done. }
    setoid_rewrite E. clear - Hpgs2. tauto.
  - intros v Hv Hn. pose proof (copying_pages i s free v Hg) as Hcp. unfold as_page_of in Hcp.
    eapply same_on_trans; [by eapply copying_same|]. apply Hdat2; tauto.
Qed.

Lemma copying_done s free :
  copying sz s free -> copied pgdir sz s0 free0 d s free.
Proof.
  intros Hg. destruct (copying_parent _ _ _ Hg) as (Hp & _ & _).
  split; [by etrans; [|apply Hg]|apply Hg|apply Hg|done| | | | |].
  - intros va Hva. rewrite (gr_old _ _ _ _ _ _ _ _ _ Hg), Hpte1; [done|lia|lia|].
    pose proof (pg_range va). zlia.
  - intros va Hva Hr. rewrite (gr_old _ _ _ _ _ _ _ _ _ Hg), Hpte1, kmap_pte_user by lia. done.
  - intros va Hva Hr. pose proof (pg_range va).
    assert (Hm : mapped (mem s0) pgdir (pg va) = true) by (apply Hmap0; unfold pg in *; zlia).
    rewrite mapped_pg in Hm by lia. unfold mapped in Hm.
    destruct (gr_new _ _ _ _ _ _ _ _ _ Hg va ltac:(lia) ltac:(unfold pg in *; zlia))
      as (Hpte & Hok & Hdat).
    assert (Hmd : mapped (mem s) d va = true) by (by apply (copying_mapped sz s free)).
    assert (Hfl : flags_of (mem s0) pgdir (pg va) = PTE_FLAGS (pte_at (mem s0) pgdir va))
      by (unfold flags_of; by rewrite pte_at_pg by lia).
    split_and!; [done| | |].
    + rewrite Hpte, Hfl, flags_present by done.
      apply PTE_FLAGS_make; [by apply page_ok_V2P_aligned|apply PTE_FLAGS_range].
    + apply (copying_pages sz s free); [done|]. right. right. by exists va.
    + intros i Hi. rewrite Hdat by done. unfold data_of. by rewrite page_of_pg by lia.
  - intros v. by apply (copying_pages sz).
  - intros v Hv Hn. by eapply copying_same.
Qed.

Lemma copy_fill s p rest s2 src :
  mm_frame s s2 -> mem s2 = mem s -> page_ok p -> p ∉ rest -> alloc_inv s2 rest ->
  page_ok src -> src <> p ->
  filled s p rest (set_mem (memmove (mem s2) p src PGSIZE) s2) (fun i => load8 (mem s) (src + i)).
Proof.
  intros Hf Hm Hp Hn Hai Hsrc Hne. rewrite Hm.
  assert (Hsame : forall v, page_ok v -> v <> p ->
    same_on (mem s) (memmove (mem s) p src PGSIZE) v PGSIZE).
  { intros v Hv Hne' a Ha. rewrite memmove_load8 by lia.
    destruct (pages_disjoint p v Hp Hv); [done|zcases; done..]. }
  split; [done| |done|].
  - apply alloc_inv_set_mem; [done|]. intros v Hv. rewrite Hm.
    apply Hsame; [by eapply alloc_inv_page_ok|]. by intros ->.
  - intros i Hi. simpl. rewrite memmove_load8 by lia. zcases. f_equal. lia.
Qed.

(** The walk over the parent finds the entry of [i]. *)
Lemma parent_pte_wp (Q : Z -> mm -> Prop) i s free (k : Z -> M mm Z) (m : M mm Z) :
  copying i s free -> 0 <= i < sz ->
  (forall e, e = pte_at (mem s) pgdir i -> bit_set e PTE_P = true ->
     P2V (PTE_ADDR e) = page_of (mem s0) pgdir i -> PTE_FLAGS e = flags_of (mem s0) pgdir i ->
     wp (k e) Q s) ->
  wp (pte <- walkpgdir pgdir i false ;;
      if pte =? 0 then m else e <- kload32 pte ;; k e) Q s.
Proof.
  intros Hg Hi Hk. destruct (copying_parent _ _ _ Hg) as (Hasp & Hptep & _).
  assert (Hmi : mapped (mem s) pgdir i = true) by (unfold mapped; rewrite Hptep; by apply Hmap0).
  pose proof (mapped_table _ _ _ Hmi) as Htab.
  destruct (slot_range _ _ _ i (as_pt _ _ _ Hasp) Htab) as (Ht & _ & ? & ?).
  pose proof (page_ok_range _ Ht).
  wp_step. eapply walkpgdir_find_wp; [apply Hasp| |congruence]. intros _.
  set (t := table_of _) in *. destruct (Z.eqb_spec (t + 4 * PTX i) 0); [lia|].
  wp_step. apply wp_kload32; [lia|].
  assert (load32 (mem s) (t + 4 * PTX i) = pte_at (mem s) pgdir i) as ->
    by (unfold pte_at; by rewrite Htab).
  apply Hk; [done|done|..]; unfold page_of, flags_of; by rewrite Hptep.
Qed.

(** The page of [i] copied to the free page [p]. *)
Lemma copying_fill i s p rest s2 :
  copying i s (p :: rest) -> 0 <= i < sz -> mm_frame s s2 -> mem s2 = mem s -> page_ok p ->
  p ∉ rest -> alloc_inv s2 rest ->
  KERNBASE <= page_of (mem s0) pgdir i /\
  filled s p rest (set_mem (memmove (mem s2) p (page_of (mem s0) pgdir i) PGSIZE) s2)
    (data_of (mem s0) pgdir i).
Proof.
  intros Hg Hi Hf2 Hm2 Hp Hn Hai2.
  destruct (copying_parent _ _ _ Hg) as (Hasp & Hptep & Hsamep).
  assert (Hm0 : mapped (mem s0) pgdir i = true) by (apply Hmap0; lia).
  assert (Hmi : mapped (mem s) pgdir i = true) by (unfold mapped; by rewrite Hptep).
  assert (HiK : 0 <= i < KERNBASE) by lia.
  assert (Epg : page_of (mem s) pgdir i = page_of (mem s0) pgdir i)
    by (unfold page_of; by rewrite Hptep).
  destruct (as_page _ _ _ Hasp i HiK Hmi) as (Hpi & Hpif & _). rewrite Epg in Hpi, Hpif.
  pose proof (page_ok_range _ Hpi). split; [lia|].
  destruct (copy_fill s p rest s2 (page_of (mem s0) pgdir i)) as [? ? ? Hdat]; try done.
  { intros E. rewrite E in Hpif. set_solver. }
  split; [done|done|done|]. intros j Hj. rewrite Hdat by done. unfold data_of.
  apply (Hsamep i HiK Hm0). lia.
Qed.

Lemma copyuvm_loop_wp (Q : Z -> mm -> Prop) fuel i s free :
  i mod PGSIZE = 0 -> 0 <= i -> (i < sz + PGSIZE) ->
  (Z.to_nat ((sz - i + PGSIZE - 1) / PGSIZE) < fuel)%nat ->
  copying i s free ->
  Z.of_nat (length free1) <= Z.of_nat (length free) + 2 * (i / PGSIZE) ->
  (forall s' free', copied pgdir sz s0 free0 d s' free' -> Q d s') ->
  (forall s', undone s0 free0 s' ->
     Z.of_nat (length free1) < 2 * ((sz + PGSIZE - 1) / PGSIZE) -> Q 0 s') ->
  wp (copyuvm_loop fuel d pgdir i sz) Q s.
Proof.
  revert i s free. induction fuel as [|fuel IH];
    intros i s free Hal Hi Hisz Hfuel Hg Hlen Hok Hbad; [lia|].
  cbn [copyuvm_loop]. destruct (Z.ltb_spec i sz).
  2:{ apply wp_ret. eapply Hok, copying_done, grow_hi; [|exact Hg]. intros q Hq Hlo. zlia. }
  eapply parent_pte_wp; [done|lia|]. intros e _ He Epg Efl. rewrite He. cbn [negb].
  wp_step. eapply kalloc_wp; [apply Hg|]. intros s2 Hf2 Hm2. destruct free as [|p rest].
  { intros Hai2. change (0 =? 0) with true. cbn iota. wp_step.
    eapply (copying_fail _ i s []); [done| |].
    - split; [done|done| | | |]; rewrite ?Hm2; try done. apply Hg.
    - intros s' Hs'. wp_step. apply Hbad; [done|simpl in Hlen; zlia]. }
  intros Hp Hn Hai2. pose proof (page_ok_range p Hp). destruct (Z.eqb_spec p 0); [lia|].
  destruct (copying_fill i s p rest s2) as [HK Hfi]; try done.
  wp_step. rewrite Epg, Efl. apply wp_kmemmove; [lia|lia|].
  wp_step. cbn [length] in Hlen.
  eapply (map_page_wp _ _ _ d 0 i p rest s1 free1 s _); [lia|done|zlia|done|done| |exact Hg
    |exact Hfi| | |].
  - apply PTE_FLAGS_range.
  - unfold mapped. rewrite Hpte1, kmap_pte_user by lia. apply bit_set_0.
  - intros s4 free4 Hg4 Hl4 _. change (0 <? 0) with false. cbn iota.
    rewrite u32_small by lia. eapply (IH _ s4 free4); try done; zlia.
  - intros s4 Hb ->. change (-1 <? 0) with true. cbn iota.
    wp_step. eapply release_one_wp; [apply Hb|done|set_solver|]. intros s5 Hs5. wp_step.
    eapply copying_fail; [exact Hg|eapply as_back_release; [exact Hb| |set_solver|exact Hs5]|].
    + intros Hpt. eapply is_pt_page_ok in Hpt as [_ ?]; [|apply Hg]. set_solver.
    + intros s' Hs'. wp_step. apply Hbad; [done|simpl in Hlen; zlia].
Qed.
End Copy.

(** Two pages for each page copied and 67 for the kernel half are enough. *)
Lemma copyuvm_wp (Q : Z -> mm -> Prop) s free pgdir sz :
  alloc_inv s free -> as_inv (mem s) pgdir free -> 0 <= sz <= KERNBASE ->
  (forall va, 0 <= va < sz -> mapped (mem s) pgdir va = true) ->
  (forall d s' free', copied pgdir sz s free d s' free' -> Q d s') ->
  (forall s', undone s free s' ->
     Z.of_nat (length free) < 67 + 2 * ((sz + PGSIZE - 1) / PGSIZE) -> Q 0 s') ->
  wp (copyuvm pgdir sz) Q s.
Proof.
  intros Hai Has Hsz Hmap Hok Hbad. unfold copyuvm. wp_step. eapply setupkvm_wp; [done| |].
  - intros d rest s1 free1 Hfr Hf1 Hai1 Hpt1 Hpte1 Hpg1 Hdat1 Hlen.
    assert (Hd : page_ok d) by apply Hpt1. pose proof (page_ok_range d Hd).
    destruct (Z.eqb_spec d 0); [lia|].
    eapply (copyuvm_loop_wp pgdir sz s free s1 free1 d); try done || lia.
    + set_solver.
    + zlia.
    + apply grow_refl; [done|]. apply empty_as_inv; [done|]. intros va Hva.
      rewrite Hpte1, kmap_pte_user by lia. done.
    + change (0 / PGSIZE) with 0. lia.
    + by eauto.
    + intros s' Hu Hl. apply Hbad; [done|lia].
  - intros s' Hl Hu. change (0 =? 0) with true. cbn iota. wp_step. apply Hbad; [done|zlia].
Qed.

(** ** copyout *)

(** The kernel address of the byte at the user address [va]. *)
Definition phys (m : gmap Z Z) (pgdir va : Z) : Z := page_of m pgdir va + va mod PGSIZE.

Lemma phys_pte m m' pgdir va :
  pte_at m' pgdir va = pte_at m pgdir va -> phys m' pgdir va = phys m pgdir va.
Proof. intros E. unfold phys, page_of. by rewrite E. Qed.

(** The byte a user process reads at [va]. *)
Definition uload (m : gmap Z Z) (pgdir va : Z) : Z := load8 m (phys m pgdir va).

Lemma store_bytes_load8 bs : forall m a x,
  load8 (store_bytes m a bs) x =
  if (a <=? x) && (x <? a + Z.of_nat (length bs)) then u8 (bs !!! Z.to_nat (x - a)) else load8 m x.
Proof.
  induction bs as [|b bs IH]; intros m a x; simpl; [zcases; done|]. rewrite IH.
  destruct (Z.eq_dec x a) as [->|].
  - zcases. rewrite load8_store8. by replace (Z.to_nat (a - a)) with O by lia.
  - rewrite load8_store8_ne by lia. zcases; try done.
    replace (Z.to_nat (x - a)) with (S (Z.to_nat (x - (a + 1)))) by lia. done.
Qed.

(** The user addresses of [[va, va + n)] are mapped for the user. *)
Definition user_range (m : gmap Z Z) (pgdir va n : Z) : Prop :=
  forall x, va <= x < va + n ->
    mapped m pgdir x = true /\ bit_set (pte_at m pgdir x) PTE_U = true.

(** The bytes [bs] have been written at [va], and nothing else. *)
Record uwrite (pgdir va : Z) (bs : list Z) (free : list Z) (s s' : mm) : Prop := {
  uw_mem : s' = set_mem (mem s') s;
  uw_pte : forall x, pte_at (mem s') pgdir x = pte_at (mem s) pgdir x;
  uw_alloc : alloc_inv s' free;
  uw_as : as_inv (mem s') pgdir free;
  uw_data : forall x, 0 <= x < KERNBASE -> mapped (mem s) pgdir x = true ->
    uload (mem s') pgdir x =
    if (va <=? x) && (x <? va + Z.of_nat (length bs)) then u8 (bs !!! Z.to_nat (x - va))
    else uload (mem s) pgdir x;
  uw_other : forall v, page_ok v ->
    (forall x, va <= x < va + Z.of_nat (length bs) -> page_of (mem s) pgdir x <> v) ->
    same_on (mem s) (mem s') v PGSIZE }.

Lemma uwrite_nil pgdir va free s :
  alloc_inv s free -> as_inv (mem s) pgdir free -> uwrite pgdir va [] free s s.
Proof.
  intros. split; try done; [by destruct s|]. intros x Hx Hm. simpl. zcases; done.
Qed.

Lemma uwrite_app pgdir va bs1 bs2 free s1 s2 s3 :
  uwrite pgdir va bs1 free s1 s2 ->
  uwrite pgdir (va + Z.of_nat (length bs1)) bs2 free s2 s3 ->
  uwrite pgdir va (bs1 ++ bs2) free s1 s3.
Proof.
  intros [Hs1 Hp1 _ _ Hd1 Ho1] [Hs2 Hp2 Ha2 Has2 Hd2 Ho2].
  split; [|intros; by rewrite Hp2|done|done| |].
  - rewrite Hs2, Hs1. done.
  - intros x Hx Hm. rewrite Hd2, Hd1 by (done || unfold mapped; by rewrite Hp1).
    rewrite length_app. zcases; try done.
    + rewrite lookup_total_app_r by lia. do 2 f_equal. lia.
    + rewrite lookup_total_app_l by lia. done.
  - intros v Hv Hne. rewrite length_app in Hne. eapply same_on_trans; [apply Ho1|apply Ho2];
      try done; intros x Hx; [|unfold page_of; rewrite Hp1]; apply Hne; lia.
Qed.

(** Physical addresses of user bytes are distinct. *)
Lemma phys_near m pgdir free va x n :
  as_inv m pgdir free -> 0 <= va < KERNBASE -> 0 <= x < KERNBASE ->
  mapped m pgdir va = true -> mapped m pgdir x = true ->
  va mod PGSIZE + n <= PGSIZE ->
  phys m pgdir va <= phys m pgdir x < phys m pgdir va + n <-> va <= x < va + n.
Proof.
  intros Has Hva Hx Hmv Hmx Hn. unfold phys.
  destruct (as_page _ _ _ Has va Hva Hmv) as (Hpv & _ & _).
  destruct (as_page _ _ _ Has x Hx Hmx) as (Hpx & _ & _).
  split; intros Hr.
  - destruct (Z.eq_dec (page_of m pgdir va) (page_of m pgdir x)) as [E|E].
    + apply (as_inj _ _ _ Has) in E; try done. unfold pg in E.
      assert (page_of m pgdir va = page_of m pgdir x) as Ep
        by (rewrite <- (page_of_pg _ _ va), <- (page_of_pg _ _ x) by lia; unfold pg; by rewrite E).
      lia.
    + exfalso. destruct (pages_disjoint _ _ Hpv Hpx E); zlia.
  - assert (pg va = pg x) as E by (unfold pg; zlia).
    assert (page_of m pgdir va = page_of m pgdir x) as ->
      by (rewrite <- (page_of_pg _ _ va), <- (page_of_pg _ _ x), E by lia; done).
    unfold pg in E. lia.
Qed.

(** A chunk within a page. *)
Lemma uwrite_chunk pgdir va bs free s :
  alloc_inv s free -> as_inv (mem s) pgdir free ->
  0 <= va < KERNBASE -> mapped (mem s) pgdir va = true ->
  va mod PGSIZE + Z.of_nat (length bs) <= PGSIZE -> bs <> [] ->
  uwrite pgdir va bs free s (set_mem (store_bytes (mem s) (phys (mem s) pgdir va) bs) s).
Proof.
  intros Hai Has Hva Hm Hn Hne.
  assert (0 < Z.of_nat (length bs)) by (destruct bs; [done|simpl; lia]).
  destruct (as_page _ _ _ Has va Hva Hm) as (Hpv & Hnf & Hnpt).
  assert (Hoth : forall v, page_ok v -> v <> page_of (mem s) pgdir va ->
    same_on (mem s) (store_bytes (mem s) (phys (mem s) pgdir va) bs) v PGSIZE).
  { intros v Hv Hne' a Ha. rewrite store_bytes_load8. unfold phys.
    destruct (pages_disjoint _ _ Hv Hpv Hne'); zcases; try done; zlia. }
  assert (Hpts : forall v, is_pt (mem s) pgdir v ->
    same_on (mem s) (store_bytes (mem s) (phys (mem s) pgdir va) bs) v PGSIZE).
  { intros v Hv. apply Hoth; [by eapply is_pt_page_ok; [apply Has|]|]. by intros ->. }
  assert (Hpte : forall x, pte_at (store_bytes (mem s) (phys (mem s) pgdir va) bs) pgdir x =
    pte_at (mem s) pgdir x) by (intros; by apply pte_at_same).
  assert (Hdir : same_on (mem s) (store_bytes (mem s) (phys (mem s) pgdir va) bs) pgdir PGSIZE)
    by (apply Hpts; by left).
  split; [done|done| | | |]; simpl.
  - apply alloc_inv_set_mem; [done|]. intros v Hv. apply Hoth; [by eapply alloc_inv_page_ok|].
    by intros ->.
  - destruct Has as [Hpt Hpg Hinj]. split; unfold mapped, page_of in *.
    + by eapply pt_inv_same.
    + intros x Hx. rewrite Hpte, (is_pt_same (mem s)) by done. by apply Hpg.
    + intros x x' Hx Hx'. rewrite !Hpte. by apply Hinj.
  - intros x Hx Hmx. unfold uload. rewrite (phys_pte (mem s) (store_bytes _ _ _)), store_bytes_load8 by done.
    pose proof (phys_near (mem s) pgdir free va x (Z.of_nat (length bs)) Has Hva Hx Hm Hmx Hn) as Hnear.
    zcases; try done.
    assert (page_of (mem s) pgdir va = page_of (mem s) pgdir x) as E.
    { rewrite <- (page_of_pg _ _ va), <- (page_of_pg _ _ x) by lia. f_equal. unfold pg. zlia. }
    do 2 f_equal. unfold phys. rewrite E. zlia.
  - intros v Hv Hr. apply Hoth; [done|]. intros ->. by apply (Hr va ltac:(lia)).
Qed.

Lemma uva2ka_wp (Q : Z -> mm -> Prop) s free pgdir va :
  as_inv (mem s) pgdir free -> 0 <= va < KERNBASE -> mapped (mem s) pgdir va = true ->
  (bit_set (pte_at (mem s) pgdir va) PTE_U = true -> Q (page_of (mem s) pgdir va) s) ->
  (bit_set (pte_at (mem s) pgdir va) PTE_U = false -> Q 0 s) ->
  wp (uva2ka pgdir va) Q s.
Proof.
  intros Has Hva Hm Hy Hn. pose proof (mapped_table _ _ _ Hm) as Htab.
  destruct (slot_range _ _ _ va (as_pt _ _ _ Has) Htab) as (Ht & _ & ? & ?).
  pose proof (page_ok_range _ Ht). unfold uva2ka.
  wp_step. eapply walkpgdir_find_wp; [apply Has| |congruence]. intros _.
  wp_step. apply wp_kload32; [lia|].
  assert (load32 (mem s) (table_of (pde_at (mem s) pgdir (PDX va)) + 4 * PTX va) =
    pte_at (mem s) pgdir va) as -> by (unfold pte_at; by rewrite Htab).
  fold (mapped (mem s) pgdir va). rewrite Hm. cbn [negb].
  destruct (bit_set (pte_at (mem s) pgdir va) PTE_U); apply wp_ret; auto.
Qed.

Lemma copyout_loop_wp (Q : Z -> mm -> Prop) fuel s free pgdir va buf len :
  alloc_inv s free -> as_inv (mem s) pgdir free -> len = Z.of_nat (length buf) ->
  0 <= va -> va + len <= KERNBASE -> user_range (mem s) pgdir va len ->
  (len = 0 \/ (Z.to_nat ((len + va mod PGSIZE - 1) / PGSIZE) + 1 < fuel)%nat) -> (0 < fuel)%nat ->
  (forall s', uwrite pgdir va buf free s s' -> Q 0 s') ->
  wp (copyout_loop fuel pgdir va buf len) Q s.
Proof.
  revert s va buf len. induction fuel as [|fuel IH];
    intros s va buf len Hai Has Hlen Hva Hend Hur Hfuel Hf0 HQ; [lia|].
  cbn [copyout_loop]. destruct (Z.ltb_spec 0 len).
  2:{ apply wp_ret, HQ. destruct buf; [by apply uwrite_nil|simpl in *; lia]. }
  rewrite PGROUNDDOWN_eq. fold (pg va). pose proof (pg_range va).
  assert (Hpg : 0 <= pg va < KERNBASE) by (unfold pg in *; zlia).
  destruct (Hur va ltac:(lia)) as [Hm Hu].
  wp_step. eapply uva2ka_wp; [exact Has|done| | |]; rewrite ?mapped_pg, ?pte_at_pg by lia;
    [done| |congruence]. intros _. rewrite page_of_pg by lia.
  destruct (as_page _ _ _ Has va ltac:(lia) Hm) as (Hpv & _ & _).
  pose proof (page_ok_range _ Hpv). destruct (Z.eqb_spec (page_of (mem s) pgdir va) 0) as [|_]; [lia|].
  set (n0 := PGSIZE - (va - pg va)). set (n := if len <? n0 then len else n0).
  assert (Hn : 0 < n <= len /\ va mod PGSIZE + n <= PGSIZE /\
    (n = len \/ va + n = pg va + PGSIZE)).
  { unfold n, n0, pg. zcases; zlia. }
  clearbody n. clear n0. destruct Hn as (Hn1 & Hn2 & Hn3).
  assert (Htl : Z.of_nat (length (take (Z.to_nat n) buf)) = n) by (rewrite length_take; lia).
  replace (page_of (mem s) pgdir va + (va - pg va)) with (phys (mem s) pgdir va)
    by (unfold phys, pg; lia).
  pose proof (uwrite_chunk pgdir va (take (Z.to_nat n) buf) free s Hai Has ltac:(lia) Hm
    ltac:(lia) ltac:(intros E; rewrite E in Htl; simpl in Htl; lia)) as Hw.
  wp_step. unfold kwrite.
  assert (KERNBASE <= phys (mem s) pgdir va) by (unfold phys; zlia).
  destruct (Z.ltb_spec (phys (mem s) pgdir va) KERNBASE); [lia|]. wp_step.
  assert (Hdone : forall s', uwrite pgdir (va + n) (drop (Z.to_nat n) buf) free
    (set_mem (store_bytes (mem s) (phys (mem s) pgdir va) (take (Z.to_nat n) buf)) s) s' ->
    uwrite pgdir va buf free s s').
  { intros s' Hs'. rewrite <- (take_drop (Z.to_nat n) buf).
    eapply uwrite_app; [exact Hw|]. by rewrite Htl. }
  destruct Hn3 as [->|Hn3].
  - rewrite drop_ge, Z.sub_diag in * by lia.
    destruct fuel as [|fuel]; [lia|]. cbn [copyout_loop]. apply wp_ret. apply HQ, Hdone.
    apply uwrite_nil; apply Hw.
  - rewrite <- Hn3, u32_small by lia.
    eapply IH; [apply Hw|apply Hw|rewrite length_drop; lia|lia|lia| |zlia|zlia|].
    + intros x Hx. unfold mapped. rewrite (uw_pte _ _ _ _ _ _ Hw). apply Hur. lia.
    + intros s' Hs'. by apply HQ, Hdone.
Qed.

Lemma copyout_wp (Q : Z -> mm -> Prop) s free pgdir va buf :
  alloc_inv s free -> as_inv (mem s) pgdir free ->
  0 <= va -> va + Z.of_nat (length buf) <= KERNBASE ->
  user_range (mem s) pgdir va (Z.of_nat (length buf)) ->
  (forall s', uwrite pgdir va buf free s s' -> Q 0 s') ->
  wp (copyout pgdir va buf (Z.of_nat (length buf))) Q s.
Proof.
  intros Hai Has Hva Hend Hur HQ. unfold copyout.
  eapply copyout_loop_wp; try done; [|lia]. right.
  assert (0 <= va mod PGSIZE < PGSIZE) by zlia. zlia.
Qed.
End Alloc.
