(* ===== verification/Demo.v ===== *)
(** * A concrete machine

    A kernel image, a free list laid out in memory and an empty address
    space: the inputs at which the theorems' hypotheses are shown to hold. *)

From S2P Require Import Prelude Machine StringC Spinlock Kalloc Vm VmWalk VmMap VmUser VmKern.
From S2P Require Import VmAlloc VmCopy.

#[export] Instance demo_image : KernelImage.
Proof.
  refine {| kdata := 0x80108000; kend := 0x801154a8 |}; done.
Defined.

Definition demo_cpu : cpu :=
  {| c_if := true; ncli := 0; intena := false; held := []; c_cr3 := 0; c_esp0 := 0 |}.

(** The pages [ps] linked as a free list. *)
Fixpoint chain (ps : list Z) (m : gmap Z Z) : gmap Z Z :=
  match ps with
  | [] => m
  | p :: rest => store32 (chain rest m) p (hd 0 rest)
  end.

Definition demo_mm (ps : list Z) : mm :=
  {| mm_cpu := demo_cpu; mem := chain ps ∅; use_lock := true; freelist := hd 0 ps |}.

Lemma demo_cpu_wf : cpu_wf demo_cpu.
Proof. unfold cpu_wf. simpl. lia. Qed.

Lemma hd_word ps : (forall p, p ∈ ps -> page_ok p) -> 0 <= hd 0 ps < 4294967296.
Proof.
  intros Hps. destruct ps as [|p ps]; simpl; [lia|].
  pose proof (page_ok_range p (Hps p ltac:(set_solver))). lia.
Qed.

Lemma chain_load8 ps m a :
  (forall p, p ∈ ps -> a < p \/ p + 4 <= a) -> load8 (chain ps m) a = load8 m a.
Proof.
  induction ps as [|p ps IH]; intros Ha; simpl; [done|].
  rewrite load8_store32_ne by (apply Ha; set_solver). apply IH. set_solver.
Qed.

Lemma chain_is_free ps m :
  NoDup ps -> (forall p, p ∈ ps -> page_ok p) -> is_free (chain ps m) (hd 0 ps) ps.
Proof.
  induction ps as [|p ps IH]; intros Hnd Hok; simpl; [done|].
  pose proof (NoDup_cons_1_1 _ _ Hnd). apply NoDup_cons_1_2 in Hnd.
  assert (Hp : page_ok p) by (apply Hok; set_solver).
  assert (Hps : forall q, q ∈ ps -> page_ok q) by (intros; apply Hok; set_solver).
  split; [done|]. split; [done|]. rewrite load32_store32 by (by apply hd_word).
  eapply is_free_ext; [|by apply IH]. intros q Hq. apply load32_store32_ne.
  destruct (pages_disjoint p q Hp (Hps q Hq)); [by intros ->|lia|lia].
Qed.

Lemma demo_alloc ps :
  NoDup ps -> (forall p, p ∈ ps -> page_ok p) -> alloc_inv (demo_mm ps) ps.
Proof.
  intros Hnd Hok. split; [apply demo_cpu_wf|simpl; set_solver| |done]. by apply chain_is_free.
Qed.

(** A directory of zeros. *)
Lemma empty_dir_inv m pgdir free :
  page_ok pgdir -> pgdir ∉ free ->
  (forall a, pgdir <= a < pgdir + PGSIZE -> load8 m a = 0) ->
  as_inv m pgdir free /\ (forall va, pte_at m pgdir va = 0).
Proof.
  intros Hp Hn Hz.
  assert (Hpde : forall i, 0 <= i < 1024 -> pde_at m pgdir i = 0).
  { intros i Hi. unfold pde_at, load32. by rewrite !Hz by lia. }
  assert (Hpte : forall va, pte_at m pgdir va = 0).
  { intros va. apply no_table_pte. rewrite Hpde by apply PDX_range. by rewrite bit_set_0. }
  split; [|done]. apply empty_as_inv; [|done].
  split; [done|done| |]; intros i; [intros Hi|intros j Hi Hj]; rewrite !Hpde by done;
    by rewrite bit_set_0.
Qed.

Lemma demo_dir ps pgdir :
  (forall p, p ∈ ps -> page_ok p) -> page_ok pgdir -> pgdir ∉ ps ->
  as_inv (mem (demo_mm ps)) pgdir ps /\ (forall va, pte_at (mem (demo_mm ps)) pgdir va = 0).
Proof.
  intros Hok Hp Hn. apply empty_dir_inv; [done|done|]. intros a Ha. simpl.
  rewrite chain_load8; [apply load8_empty|]. intros q Hq.
  destruct (pages_disjoint pgdir q Hp (Hok q Hq)); [by intros ->|lia|lia].
Qed.

(** [n] consecutive pages from [0x80200000] on. *)
Fixpoint pages_from (p : Z) (n : nat) : list Z :=
  match n with O => [] | S n' => p :: pages_from (p + PGSIZE) n' end.

Lemma elem_of_pages_from n p q :
  q ∈ pages_from p n -> p <= q < p + Z.of_nat n * PGSIZE /\ (q - p) mod PGSIZE = 0.
Proof.
  revert p. induction n as [|n IH]; intros p Hq; simpl in Hq; [set_solver|].
  apply list_elem_of_In in Hq as [<-|Hq%list_elem_of_In].
  - rewrite Z.sub_diag. split; [lia|done].
  - apply IH in Hq. zlia.
Qed.

Lemma NoDup_pages_from n p : NoDup (pages_from p n).
Proof.
  revert p. induction n as [|n IH]; intros p; simpl; [constructor|].
  apply NoDup_cons_2; [|apply IH]. intros Hp%elem_of_pages_from. lia.
Qed.

Definition demo_base : Z := 0x80200000.

Lemma demo_pages_ok n p :
  (n <= 1000)%nat -> p ∈ pages_from demo_base n -> page_ok p.
Proof.
  intros Hn Hp%elem_of_pages_from. unfold demo_base in *.
  unfold page_ok. cbn [kend demo_image]. zlia.
Qed.

Lemma demo_pages_alloc n :
  (n <= 1000)%nat -> alloc_inv (demo_mm (pages_from demo_base n)) (pages_from demo_base n).
Proof.
  intros. apply demo_alloc; [apply NoDup_pages_from|]. intros p. by apply demo_pages_ok.
Qed.

(** The directory of the demonstrations is the page before them. *)
Definition demo_pgdir : Z := 0x801ff000.

Lemma demo_pgdir_ok : page_ok demo_pgdir.
Proof. unfold page_ok. by vm_compute. Qed.

Lemma demo_pages_dir n :
  (n <= 1000)%nat ->
  as_inv (mem (demo_mm (pages_from demo_base n))) demo_pgdir (pages_from demo_base n) /\
  (forall va, pte_at (mem (demo_mm (pages_from demo_base n))) demo_pgdir va = 0).
Proof.
  intros. apply demo_dir; [intros p; by apply demo_pages_ok|apply demo_pgdir_ok|].
  intros Hp%elem_of_pages_from. unfold demo_base, demo_pgdir in Hp. lia.
Qed.

(** ** An address space with one page *)

Definition demo_tab : Z := 0x801fe000.
Definition demo_page : Z := 0x801fd000.

(** The user page at [va0], with permissions [fl], over an empty directory. *)
Definition one_page (pgd tab pge : Z) (m : gmap Z Z) (va0 fl : Z) : gmap Z Z :=
  store32 (link_table m pgd (PDX va0) tab) (tab + 4 * PTX va0)
    (V2P pge + fl).

Section OnePage.
Context (pgd tab pge : Z) (s0 : mm) (free : list Z) (va0 fl : Z).
Context (Hpgd : page_ok pgd) (Htab : page_ok tab) (Hpge : page_ok pge).
Context (Hdt : pgd <> tab) (Hpt' : pge <> tab) (Hpd : pge <> pgd).
Context (Hdf : pgd ∉ free) (Htf : tab ∉ free) (Hpf : pge ∉ free).
Context (Hai0 : alloc_inv s0 free).
Context (Hzero : forall a, pgd <= a < pgd + PGSIZE -> load8 (mem s0) a = 0).
Context (Hva0 : 0 <= va0 < KERNBASE) (Hal : va0 mod PGSIZE = 0).
Context (Hfl : 0 <= fl < PGSIZE) (Hodd : Z.odd fl = true).

Lemma one_page_pde i : 0 <= i < 1024 -> pde_at (mem s0) pgd i = 0.
Proof. intros Hi. unfold pde_at, load32. by rewrite !Hzero by lia. Qed.

Lemma one_page_base :
  pt_inv (mem s0) pgd (tab :: free) /\
  bit_set (pde_at (mem s0) pgd (PDX va0)) PTE_P = false /\ tab ∉ free.
Proof.
  destruct (empty_dir_inv (mem s0) pgd (tab :: free)) as [[Hpt _ _] _].
  - apply Hpgd.
  - by apply not_elem_of_cons.
  - done.
  - split; [done|]. split; [|done].
    rewrite one_page_pde by apply PDX_range. apply bit_set_0.
Qed.

Lemma one_page_spec :
  let s := set_mem (one_page pgd tab pge (mem s0) va0 fl) s0 in
  alloc_inv s free /\ as_inv (mem s) pgd free /\
  (forall va, 0 <= va < 4294967296 -> pte_at (mem s) pgd va =
     if pg va =? va0 then V2P pge + fl else 0).
Proof.
  destruct one_page_base as (Hpt & Hb & Hnd).
  pose proof (PDX_range va0) as Hd. pose proof Htab as Ht.
  set (m1 := link_table (mem s0) pgd (PDX va0) tab).
  pose proof (link_pt_inv (mem s0) pgd (PDX va0) tab free Hpt Hd Ht Hb Hnd) as Hpt1.
  assert (Hz1 : forall va, 0 <= va < 4294967296 -> pte_at m1 pgd va = 0).
  { intros va Hva. unfold m1. rewrite (link_pte (mem s0) pgd (PDX va0) tab free) by assumption.
    apply no_table_pte. rewrite one_page_pde by apply PDX_range. apply bit_set_0. }
  assert (Hpde : pde_at m1 pgd (PDX va0) =
    Z.lor (Z.lor (Z.lor (V2P tab) PTE_P) PTE_W) PTE_U).
  { unfold m1. rewrite (link_pde (mem s0) pgd (PDX va0) tab free) by assumption.
    by rewrite Z.eqb_refl. }
  destruct (new_pde tab Ht) as (_ & Hbt & Htt). rewrite <- Hpde in Hbt, Htt.
  assert (Hai1 : alloc_inv (set_mem m1 s0) free).
  { apply alloc_inv_set_mem; [assumption|]. intros q Hq.
    apply (link_data (mem s0) pgd (PDX va0) tab free); try assumption;
      [by eapply alloc_inv_page_ok|].
    intros Hipt. by eapply (is_pt_page_ok _ _ _ _ Hpt1) in Hipt as [_ ?]. }
  destruct (slot_step (set_mem m1 s0) free pgd va0 (V2P pge + fl) Hai1 Hpt1
    ltac:(lia) Hbt) as [Hst Hpte].
  cbn [mem set_mem] in Hst, Hpte. rewrite Htt in Hst, Hpte.
  change (store32 m1 (tab + 4 * PTX va0) (V2P pge + fl))
    with (one_page pgd tab pge (mem s0) va0 fl) in Hst, Hpte.
  change (set_mem (one_page pgd tab pge (mem s0) va0 fl) (set_mem m1 s0))
    with (set_mem (one_page pgd tab pge (mem s0) va0 fl) s0) in Hst.
  assert (Hpte' : forall va, 0 <= va < 4294967296 ->
    pte_at (one_page pgd tab pge (mem s0) va0 fl) pgd va =
     if pg va =? va0 then V2P pge + fl else 0).
  { intros va Hva. rewrite Hpte, Hz1 by assumption.
    assert (pg va0 = va0) as Epg by (unfold pg; lia).
    pose proof (same_page_pg va0 va) as Hsp. rewrite Epg in Hsp.
    destruct (Z.eqb_spec (pg va) va0) as [E|E].
    2:{ destruct (same_page va0 va); [|reflexivity]. destruct E. symmetry. by apply Hsp. }
    rewrite (proj2 Hsp (eq_sym E)). apply u32_small.
    pose proof (page_ok_V2P_range pge Hpge). lia. }
  cbn zeta. cbn [mem set_mem]. split; [apply Hst|]. split; [|exact Hpte'].
  assert (Hpo : PTE_ADDR (V2P pge + fl) = V2P pge) by (by apply PTE_ADDR_make; [apply page_ok_V2P_aligned|]).
  assert (Hpg : forall va, 0 <= va < KERNBASE ->
    mapped (one_page pgd tab pge (mem s0) va0 fl) pgd va = true ->
    pg va = va0 /\ page_of (one_page pgd tab pge (mem s0) va0 fl) pgd va = pge).
  { intros va Hva. unfold mapped, page_of. rewrite Hpte' by lia.
    destruct (Z.eqb_spec (pg va) va0); [|rewrite bit_set_0; discriminate]. intros _. rewrite Hpo.
    split; [assumption|]. by apply page_ok_P2V_V2P. }
  split; [apply Hst| |].
  - intros va Hva Hm. destruct (Hpg va Hva Hm) as [_ ->].
    split_and!; [done|done|].
    intros Hipt. destruct (ps_used _ _ _ _ _ Hst) as (used & Hused & Hu).
    destruct (proj1 (Hu pge) Hipt) as [Hipt'|Hv]; clear Hipt; [rename Hipt' into Hipt|].
    + cbn [mem set_mem] in Hipt. unfold m1 in Hipt.
      rewrite (link_is_pt (mem s0) pgd (PDX va0) tab free) in Hipt by assumption.
      destruct Hipt as [[E|(i & Hi & Hbi & _)]|E]; [done| |done].
      by rewrite one_page_pde, bit_set_0 in Hbi.
    + apply Hpf. rewrite Hused. apply elem_of_app. by left.
  - intros va va' Hva Hva' Hm Hm' _. destruct (Hpg va Hva Hm) as [-> _].
    by destruct (Hpg va' Hva' Hm') as [-> _].
Qed.

Lemma one_page_mapped va :
  0 <= va < 4294967296 ->
  mapped (one_page pgd tab pge (mem s0) va0 fl) pgd va = (pg va =? va0).
Proof.
  intros Hva. unfold mapped. destruct one_page_spec as (_ & _ & Hpte).
  cbn [mem set_mem] in Hpte. rewrite Hpte by assumption.
  destruct (pg va =? va0); [|apply bit_set_0]. rewrite bit_set_P, Z.odd_add, Hodd.
  assert (Z.odd (V2P pge) = false) as ->; [|done]. pose proof (page_ok_V2P_aligned pge Hpge).
  replace (V2P pge) with (2 * (V2P pge / PGSIZE * 2048)) by zlia. apply Z.odd_even.
Qed.
End OnePage.

(** [n] free pages and a user page at [va0]. *)
Definition demo_as (n : nat) (va0 fl : Z) : mm :=
  set_mem (one_page demo_pgdir demo_tab demo_page (mem (demo_mm (pages_from demo_base n))) va0 fl)
    (demo_mm (pages_from demo_base n)).

Lemma demo_tab_ok : page_ok demo_tab.
Proof. unfold page_ok. by vm_compute. Qed.

Lemma demo_page_ok : page_ok demo_page.
Proof. unfold page_ok. by vm_compute. Qed.

Section DemoAs.
Context (n : nat) (va0 fl : Z).
Context (Hn : (n <= 1000)%nat) (Hva0 : 0 <= va0 < KERNBASE) (Hal : va0 mod PGSIZE = 0).
Context (Hfl : 0 <= fl < PGSIZE) (Hodd : Z.odd fl = true).

Lemma demo_low v : v < demo_base -> v ∉ pages_from demo_base n.
Proof. intros Hlt Hv%elem_of_pages_from. lia. Qed.

Lemma demo_zero a :
  demo_pgdir <= a < demo_pgdir + PGSIZE -> load8 (mem (demo_mm (pages_from demo_base n))) a = 0.
Proof.
  intros Ha. cbn [mem demo_mm]. rewrite chain_load8; [apply load8_empty|].
  intros q Hq%elem_of_pages_from. unfold demo_pgdir, demo_base in *. lia.
Qed.

Lemma demo_as_spec :
  alloc_inv (demo_as n va0 fl) (pages_from demo_base n) /\
  as_inv (mem (demo_as n va0 fl)) demo_pgdir (pages_from demo_base n) /\
  (forall va, 0 <= va < 4294967296 -> pte_at (mem (demo_as n va0 fl)) demo_pgdir va =
     if pg va =? va0 then V2P demo_page + fl else 0).
Proof.
  apply one_page_spec; try assumption; try discriminate; try (by apply demo_low);
    [apply demo_pgdir_ok|apply demo_tab_ok|apply demo_page_ok|by apply demo_pages_alloc
    |apply demo_zero].
Qed.

Lemma demo_as_mapped va :
  0 <= va < 4294967296 -> mapped (mem (demo_as n va0 fl)) demo_pgdir va = (pg va =? va0).
Proof.
  intros Hva. apply (one_page_mapped _ _ _ _ (pages_from demo_base n)); try assumption;
    try discriminate; try (by apply demo_low);
    [apply demo_pgdir_ok|apply demo_tab_ok|apply demo_page_ok|by apply demo_pages_alloc
    |apply demo_zero].
Qed.
End DemoAs.
