(* ===== verification/LockProps.v ===== *)
(** * Properties of spinlocks

    What [acquire] and [release] promise to one CPU, and mutual exclusion of
    the [xchg] protocol on any number of CPUs. *)

From S2P Require Import Prelude Machine Spinlock Kalloc Demo.

(** C6. On any number of CPUs and for every interleaving of the steps of
    [acquire] and [release], at most one CPU is between the successful [xchg]
    and the clearing of [locked]; that CPU runs with interrupts off, and no
    CPU panics in [acquire], [release] or their [popcli]. *)
Theorem spinlock_mutual_exclusion (n : nat) (r : cpu) (st : Smp.smp) :
  Smp.int_wf r -> Smp.reachable n r st ->
  (forall i j p q, Smp.pcs st !! i = Some p -> Smp.pcs st !! j = Some q ->
     Smp.inside p = true -> Smp.inside q = true -> i = j) /\
  (forall i p c, Smp.pcs st !! i = Some p -> Smp.regs st !! i = Some c ->
     p <> Smp.Dead /\ (Smp.inside p = true -> c_if c = false)).
Proof.
  intros Hr Hst. destruct (Smp.inv_reachable _ _ _ Hr Hst) as [HR (o & _ & Hp & _)]. split.
  - intros i j p q Hi Hj Hip Hjq. destruct (Hp i p Hi) as [[Ho _] _].
    destruct (Hp j q Hj) as [[Ho' _] _]. specialize (Ho Hip). specialize (Ho' Hjq). congruence.
  - intros i p c Hi Hc. split; [by apply (Hp i p Hi)|]. intros Hin.
    destruct (HR i p c Hi Hc) as [[_ Hif] Hn]. apply Hif, Hn. by destruct p.
Qed.

(** Two CPUs: the first inside, the second spinning. *)
Definition two_cpus : Smp.smp :=
  Smp.Machine (Smp.Lock 1 (Some 0%nat)) [Smp.Crit; Smp.Spin]
    [push_cpu demo_cpu; push_cpu demo_cpu].

Lemma two_cpus_reachable : Smp.reachable 2 demo_cpu two_cpus.
Proof.
  unfold Smp.reachable, Smp.init.
  eapply rtc_l; [apply (Smp.step_acquire 0); reflexivity|].
  eapply rtc_l; [apply (Smp.step_holding 0); reflexivity|].
  eapply rtc_l; [apply (Smp.step_xchg 0); reflexivity|].
  eapply rtc_l; [apply (Smp.step_setcpu 0); reflexivity|].
  eapply rtc_l; [apply (Smp.step_acquire 1); reflexivity|].
  eapply rtc_l; [apply (Smp.step_holding 1); reflexivity|].
  eapply rtc_l; [apply (Smp.step_xchg 1); reflexivity|]. apply rtc_refl.
Qed.

Lemma spinlock_mutual_exclusion_witness :
  Smp.pcs two_cpus !! 0%nat = Some Smp.Crit /\
  (forall j q, Smp.pcs two_cpus !! j = Some q -> Smp.inside q = true -> 0%nat = j).
Proof.
  assert (Hr : Smp.int_wf demo_cpu) by (unfold Smp.int_wf; simpl; lia).
  split; [reflexivity|]. intros j q Hj Hq.
  exact (proj1 (spinlock_mutual_exclusion 2 demo_cpu two_cpus Hr two_cpus_reachable)
    0%nat j Smp.Crit q eq_refl Hj eq_refl Hq).
Defined.

(** A critical section around code that leaves the CPU as it found it
    restores the interrupt flag, the nesting depth and the set of held locks,
    whatever the depth at which it starts; inside it the lock is held and
    interrupts are off. *)
Theorem acquire_release_restores (S : Type) `{HasCpu S} (l : lockid) (s : S) :
  cpu_wf (get_cpu s) -> l ∉ held (get_cpu s) ->
  exists s1, acquire l s = Ok tt s1 /\
    l ∈ held (get_cpu s1) /\ c_if (get_cpu s1) = false /\
    release l s1 = Ok tt (set_cpu (refresh (get_cpu s)) s) /\
    cpu_sim (get_cpu s) (refresh (get_cpu s)).
Proof.
  intros Hwf Hl. exists (set_cpu (acquired l (get_cpu s)) s). split; [by apply acquire_run|].
  rewrite get_set_cpu. split; [simpl; set_solver|]. split; [done|].
  split; [|apply cpu_sim_refresh].
  rewrite release_run; rewrite get_set_cpu; [|by apply acquired_wf|simpl; set_solver].
  by rewrite set_set_cpu, released_acquired.
Qed.

Lemma acquire_release_restores_witness :
  exists s1, acquire L_kmem demo_cpu = Ok tt s1 /\ L_kmem ∈ held s1 /\ c_if s1 = false /\
    release L_kmem s1 = Ok tt (refresh demo_cpu) /\ cpu_sim demo_cpu (refresh demo_cpu).
Proof.
  exact (acquire_release_restores cpu L_kmem demo_cpu demo_cpu_wf (not_elem_of_nil _)).
Defined.

(** The two misuses of a lock are detected: acquiring a lock this CPU
    holds and releasing one it does not hold both panic. *)
Theorem lock_misuse_panics (S : Type) `{HasCpu S} (l : lockid) (s : S) :
  cpu_wf (get_cpu s) ->
  (l ∈ held (get_cpu s) -> acquire l s = Panic "acquire") /\
  (l ∉ held (get_cpu s) -> release l s = Panic "release").
Proof. intros Hwf. split; [by apply acquire_held_panics|by apply release_unheld_panics]. Qed.

Lemma lock_misuse_panics_witness :
  acquire L_kmem (acquired L_kmem demo_cpu) = Panic "acquire" /\
  release L_log (acquired L_kmem demo_cpu) = Panic "release".
Proof.
  pose proof (acquired_wf L_kmem demo_cpu demo_cpu_wf) as Hwf. split.
  - apply (proj1 (@lock_misuse_panics cpu cpu_HasCpu L_kmem (acquired L_kmem demo_cpu) Hwf)).
    apply list_elem_of_here.
  - apply (proj2 (@lock_misuse_panics cpu cpu_HasCpu L_log (acquired L_kmem demo_cpu) Hwf)).
    apply not_elem_of_cons. split; [discriminate|apply not_elem_of_nil].
Defined.
