(* ===== verification/MemProps.v ===== *)
(** * Properties of the memory system

    What the allocator, the page table routines and the string routines do,
    stated on states and assembled from the specifications of the other
    files. *)

From S2P Require Import Prelude Machine StringC Spinlock Kalloc Vm VmWalk VmMap VmUser VmKern.
From S2P Require Import VmAlloc VmCopy Demo.

(** ** string.c *)

(** [memmove] copies correctly for every overlap of the two ranges: after
    the call the [n] bytes at [dst] are those that were at [src] and no other
    byte has changed. *)
Theorem memmove_correct (m : gmap Z Z) (dst src n a : Z) :
  0 <= n ->
  load8 (memmove m dst src n) a =
  if (dst <=? a) && (a <? dst + n) then load8 m (src + (a - dst)) else load8 m a.
Proof. apply memmove_load8. Qed.

Lemma memmove_correct_witness :
  load8 (memmove (store8 (store8 ∅ 16 7) 17 9) 17 16 2) 18 = 9.
Proof.
  assert (H := memmove_correct (store8 (store8 ∅ 16 7) 17 9) 17 16 2 18 ltac:(lia)).
  exact H.
Defined.

(** ** kalloc.c *)

(** [kinit1] leaves on the free list exactly the whole pages of its range,
    each once, whatever the alignment of its two ends. *)
Theorem kinit1_frees_range `{KernelImage} (s : mm) (vstart vend : Z) :
  cpu_wf (mm_cpu s) -> freelist s = 0 ->
  kend <= vstart -> vstart <= KERNBASE + PHYSTOP -> vend <= KERNBASE + PHYSTOP ->
  exists s' free, kinit1 vstart vend s = Ok tt s' /\ alloc_inv s' free /\
    (forall v, v ∈ free <-> v mod PGSIZE = 0 /\ vstart <= v /\ v + PGSIZE <= vend).
Proof.
  intros Hwf Hfl Hlo Hlo' Hhi. pose proof kdata_lo. pose proof kdata_end.
  set (s1 := set_use_lock false (set_cpu (set_held (filter (.≠ L_kmem)) (mm_cpu s)) s)).
  assert (Hai : alloc_inv s1 []).
  { split; [|simpl; by rewrite list_elem_of_filter; tauto|by simpl; rewrite Hfl|constructor].
    destruct Hwf as (? & ? & ?). unfold cpu_wf. simpl. split_and!; [done|done|].
    pose proof (length_filter (.≠ L_kmem) (held (mm_cpu s))). lia. }
  assert (E := PGROUNDUP_eq vstart ltac:(lia) ltac:(lia)).
  assert (wp (kinit1 vstart vend) (fun _ s' => exists free, alloc_inv s' free /\
    forall v, v ∈ free <-> v mod PGSIZE = 0 /\ vstart <= v /\ v + PGSIZE <= vend) s) as
    ([] & s' & Hr & free & Hf).
  { unfold kinit1, initlock. do 2 (wp_step; wp_step). eapply (freerange_wp _ s1 []); try done.
    - set_solver.
    - intros s' _ Hai'. rewrite app_nil_r in Hai'. eexists. split; [done|]. intros v. rewrite E.
      split.
      + intros (i & Hi & ->)%elem_of_range_pages. zlia.
      + intros (Hv1 & Hv2 & Hv3).
        set (p := (vstart + PGSIZE - 1) / PGSIZE * PGSIZE).
        replace v with (p + ((v - p) / PGSIZE) * PGSIZE) by (unfold p; zlia).
        apply range_pages_elem. unfold p. zlia. }
  exists s', free. tauto.
Qed.

Lemma kinit1_frees_range_witness :
  exists s' free,
    kinit1 0x80115800 0x80118800 (demo_mm []) = Ok tt s' /\ alloc_inv s' free /\
    (forall v, v ∈ free <-> v mod PGSIZE = 0 /\ 0x80115800 <= v /\ v + PGSIZE <= 0x80118800).
Proof.
  apply (kinit1_frees_range (demo_mm []) 0x80115800 0x80118800);
    [apply demo_cpu_wf|reflexivity|by vm_compute|by vm_compute|by vm_compute].
Defined.

(** [kalloc] returns the page on top of the free list and removes it, or
    returns 0 exactly when the list is empty; memory, the lock state and the
    interrupt state are as before. *)
Theorem kalloc_pops `{KernelImage} (s : mm) (free : list Z) :
  alloc_inv s free ->
  exists s', kalloc s = Ok (hd 0 free) s' /\ alloc_inv s' (List.tl free) /\
    mem s' = mem s /\ mm_frame s s' /\ (hd 0 free = 0 <-> free = []).
Proof.
  intros Hai.
  assert (wp kalloc (fun r s' => r = hd 0 free /\ alloc_inv s' (List.tl free) /\
    mem s' = mem s /\ mm_frame s s') s) as (r & s' & Hr & -> & Ha & Hm & Hf).
  { eapply kalloc_wp; [done|]. intros s' Hf Hm. destruct free as [|p rest]; simpl; auto. }
  exists s'. split_and!; try done. apply (is_free_nonzero (mem s)).
  destruct free as [|p rest]; [done|]. destruct Hai as [_ _ Hl _]. simpl in *.
  destruct Hl as (_ & ? & ?). done.
Qed.

Lemma kalloc_pops_witness :
  exists s', kalloc (demo_mm [demo_base]) = Ok demo_base s' /\ alloc_inv s' [] /\
    mem s' = mem (demo_mm [demo_base]) /\ mm_frame (demo_mm [demo_base]) s' /\
    (demo_base = 0 <-> [demo_base] = []).
Proof.
  apply (kalloc_pops (demo_mm [demo_base]) [demo_base]). apply (demo_pages_alloc 1). lia.
Defined.

(** Freeing a page and allocating again gives that page back: the free
    list is restored and no byte outside the page has changed. *)
Theorem kfree_kalloc_roundtrip `{KernelImage} (s : mm) (free : list Z) (v : Z) :
  alloc_inv s free -> page_ok v -> v ∉ free ->
  exists s', (kfree v ;; kalloc) s = Ok v s' /\ alloc_inv s' free /\ mm_frame s s' /\
    forall a, a < v \/ v + PGSIZE <= a -> load8 (mem s') a = load8 (mem s) a.
Proof.
  intros Hai Hv Hn.
  assert (wp (kfree v ;; kalloc) (fun r s' => r = v /\ alloc_inv s' free /\ mm_frame s s' /\
    forall a, a < v \/ v + PGSIZE <= a -> load8 (mem s') a = load8 (mem s) a) s)
    as (r & s' & Hr & -> & H3); [|by exists s'].
  wp_step. eapply kfree_wp; [done|done|done|]. intros s1 Hf1 Hai1 Hout.
  eapply kalloc_wp; [done|]. intros s2 Hf2 Hm2 _ _ Hai2. split; [done|]. split; [done|].
  split; [by etrans|]. by rewrite Hm2.
Qed.

Lemma kfree_kalloc_roundtrip_witness :
  exists s', (kfree demo_pgdir ;; kalloc) (demo_mm [demo_base]) = Ok demo_pgdir s' /\
    alloc_inv s' [demo_base] /\ mm_frame (demo_mm [demo_base]) s' /\
    forall a, a < demo_pgdir \/ demo_pgdir + PGSIZE <= a ->
      load8 (mem s') a = load8 (mem (demo_mm [demo_base])) a.
Proof.
  apply (kfree_kalloc_roundtrip (demo_mm [demo_base]) [demo_base] demo_pgdir).
  - apply (demo_pages_alloc 1). lia.
  - apply demo_pgdir_ok.
  - apply not_elem_of_cons. split; [by vm_compute|apply not_elem_of_nil].
Defined.

(** [kfree] panics on every kernel address that is not a page of the
    allocator's range: unaligned, inside the kernel image, or beyond
    [PHYSTOP]. *)
Theorem kfree_rejects `{KernelImage} (s : mm) (v : Z) :
  KERNBASE <= v < 4294967296 -> ~ page_ok v -> kfree v s = Panic "kfree".
Proof. apply kfree_panics. Qed.

Lemma kfree_rejects_witness : kfree (demo_base + 8) (demo_mm []) = Panic "kfree".
Proof.
  apply (kfree_rejects (demo_mm []) (demo_base + 8)); [by vm_compute|].
  intros [Hal _]. by vm_compute in Hal.
Defined.

(** ** vm.c: page tables *)

(** C16. [mappages] on [n] unmapped pages either installs exactly the requested
    translations, changing no other translation and no page outside the page
    table, or returns -1, and then the free list was too short for the page
    tables that were missing; it never runs out of its loop bound. *)
Theorem mappages_exact `{KernelImage} (s : mm) (free : list Z) (pgdir va n pa perm : Z) :
  alloc_inv s free -> pt_inv (mem s) pgdir free ->
  va mod PGSIZE = 0 -> 0 <= va -> 0 < n -> va + n * PGSIZE <= 4294967296 ->
  pa mod PGSIZE = 0 -> 0 <= pa -> pa + n * PGSIZE <= 4294967296 -> 0 <= perm < PGSIZE ->
  (forall va', va <= va' < va + n * PGSIZE -> mapped (mem s) pgdir va' = false) ->
  exists r s' free', mappages pgdir va (n * PGSIZE) pa perm s = Ok r s' /\
    pt_step pgdir s free s' free' /\
    (r = 0 /\ map_range (mem s) (mem s') pgdir va n pa perm \/
     r = -1 /\ free' = [] /\
       Z.of_nat (length free) < need (mem s) pgdir va (va + (n - 1) * PGSIZE)).
Proof.
  intros Hai Hpt ? ? ? ? ? ? ? ? Hun.
  assert (wp (mappages pgdir va (n * PGSIZE) pa perm) (fun r s' => exists free',
    pt_step pgdir s free s' free' /\
    (r = 0 /\ map_range (mem s) (mem s') pgdir va n pa perm \/
     r = -1 /\ free' = [] /\
       Z.of_nat (length free) < need (mem s) pgdir va (va + (n - 1) * PGSIZE))) s)
    as (r & s' & Hr & free' & H'); [|by exists r, s', free'].
  eapply mappages_wp; try done.
  - intros s' free' Hs Hm _. exists free'. auto.
  - intros s' k Hk Hs _ Hn. exists []. auto.
Qed.

Lemma mappages_exact_witness :
  exists r s' free',
    mappages demo_pgdir 0x60000000 (2 * PGSIZE) 0x300000 6 (demo_mm (pages_from demo_base 3))
      = Ok r s' /\
    pt_step demo_pgdir (demo_mm (pages_from demo_base 3)) (pages_from demo_base 3) s' free' /\
    (r = 0 /\ map_range (mem (demo_mm (pages_from demo_base 3))) (mem s') demo_pgdir 0x60000000
       2 0x300000 6 \/
     r = -1 /\ free' = [] /\
       Z.of_nat (length (pages_from demo_base 3)) <
       need (mem (demo_mm (pages_from demo_base 3))) demo_pgdir 0x60000000
         (0x60000000 + (2 - 1) * PGSIZE)).
Proof.
  destruct (demo_pages_dir 3 ltac:(lia)) as [[Hpt _ _] Hz].
  apply (mappages_exact (demo_mm (pages_from demo_base 3)) (pages_from demo_base 3) demo_pgdir
    0x60000000 2 0x300000 6); [apply demo_pages_alloc; lia|exact Hpt|reflexivity
    |lia|lia|lia|reflexivity|lia|lia|lia|].
  intros va' _. unfold mapped. rewrite Hz. apply bit_set_0.
Defined.

(** [mappages] never replaces a translation: when the first page of the
    range is mapped it panics with [remap]. *)
Theorem mappages_never_remaps `{KernelImage} (s : mm) (free : list Z)
    (pgdir va size pa perm : Z) :
  pt_inv (mem s) pgdir free -> va mod PGSIZE = 0 -> mapped (mem s) pgdir va = true ->
  mappages pgdir va size pa perm s = Panic "remap".
Proof. apply mappages_mapped. Qed.

Lemma mappages_never_remaps_witness :
  mappages demo_pgdir 0x60000000 PGSIZE 0x300000 6 (demo_as 3 0x60000000 7) = Panic "remap".
Proof.
  destruct (demo_as_spec 3 0x60000000 7 ltac:(lia) ltac:(lia) eq_refl ltac:(lia)) as (_ & [Hpt _ _] & _).
  apply (mappages_never_remaps (demo_as 3 0x60000000 7) (pages_from demo_base 3) demo_pgdir);
    [exact Hpt|reflexivity|].
  rewrite (demo_as_mapped 3 0x60000000 7) by (lia || reflexivity). reflexivity.
Defined.

(** C14. [setupkvm] returns a page directory whose kernel half is exactly the
    table [kmap] and whose user half is empty, built from pages of the free
    list only; it fails only with fewer than 67 free pages, and then every
    page it took is back on the free list. *)
Theorem setupkvm_exact `{KernelImage} (s : mm) (free : list Z) :
  alloc_inv s free ->
  exists d s', setupkvm s = Ok d s' /\ mm_frame s s' /\
    (forall v, page_ok v -> v ∉ free -> same_on (mem s) (mem s') v PGSIZE) /\
    ((exists free', d = hd 0 free /\ d <> 0 /\ alloc_inv s' free' /\ pt_inv (mem s') d free' /\
       (forall va, 0 <= va < 4294967296 ->
          pte_at (mem s') d va = default 0 (kmap_pte kmap va)) /\
       (forall v, v ∈ free <-> v ∈ free' \/ is_pt (mem s') d v)) \/
     (exists free', d = 0 /\ Z.of_nat (length free) < 67 /\ alloc_inv s' free' /\
       free' ≡ₚ free)).
Proof.
  intros Hai. eapply setupkvm_wp; [done|..].
  - intros d rest s' free' -> Hf Hai' Hpt Hpte Hpg Hdat _. split; [done|]. split; [done|]. left.
    pose proof (page_ok_range d (pt_dir _ _ _ Hpt)). exists free'. split_and!; done || lia.
  - intros s' Hlen [Hf (free' & Ha & Hp) Hd]. split; [done|]. split; [done|]. right.
    exists free'. done.
Qed.

Lemma setupkvm_exact_witness :
  exists d s', setupkvm (demo_mm (pages_from demo_base 80)) = Ok d s' /\
    forall va, 0 <= va < 4294967296 -> pte_at (mem s') d va = default 0 (kmap_pte kmap va).
Proof.
  destruct (setupkvm_exact (demo_mm (pages_from demo_base 80)) (pages_from demo_base 80))
    as (d & s' & E & _ & _ & [(f & _ & _ & _ & _ & H & _)|(f & _ & Hl & _)]).
  - apply demo_pages_alloc. lia.
  - exists d, s'. split; [exact E|exact H].
  - exfalso. vm_compute in Hl. discriminate.
Defined.

(** ** vm.c: user memory *)

(** C17. [deallocuvm] shrinks an address space from [oldsz] to [newsz]: the
    user pages that start between them go back to the free list, their
    entries are cleared, and no other translation or page changes. *)
Theorem deallocuvm_exact `{KernelImage} (s : mm) (free : list Z) (pgdir oldsz newsz : Z) :
  alloc_inv s free -> as_inv (mem s) pgdir free -> 0 <= newsz -> newsz < oldsz <= KERNBASE ->
  exists s' free', deallocuvm pgdir oldsz newsz s = Ok newsz s' /\
    dealloc_step pgdir (PGROUNDUP newsz) oldsz s free s' free'.
Proof.
  intros Hai Has ? ?.
  assert (wp (deallocuvm pgdir oldsz newsz) (fun r s' => r = newsz /\ exists free',
    dealloc_step pgdir (PGROUNDUP newsz) oldsz s free s' free') s)
    as (r & s' & Hr & -> & free' & H'); [|by exists s', free'].
  eapply deallocuvm_wp; try done; [lia|lia|]. intros s' free' _ Hd. split; [done|by exists free'].
Qed.

Lemma deallocuvm_exact_witness :
  exists s' free', deallocuvm demo_pgdir 0x3000 0x1000 (demo_as 3 0x2000 7) = Ok 0x1000 s' /\
    dealloc_step demo_pgdir (PGROUNDUP 0x1000) 0x3000 (demo_as 3 0x2000 7)
      (pages_from demo_base 3) s' free'.
Proof.
  destruct (demo_as_spec 3 0x2000 7 ltac:(lia) ltac:(lia) eq_refl ltac:(lia)) as (Hai & Has & _).
  apply (deallocuvm_exact (demo_as 3 0x2000 7) (pages_from demo_base 3) demo_pgdir 0x3000 0x1000);
    [exact Hai|exact Has|lia|lia].
Defined.

(** C26. [freevm] gives back every page of an address space, its user pages,
    its page tables and the directory, each exactly once, and writes no other
    page. *)
Theorem freevm_releases_all `{KernelImage} (s : mm) (free : list Z) (pgdir : Z) :
  alloc_inv s free -> as_inv (mem s) pgdir free ->
  exists s' freed, freevm pgdir s = Ok tt s' /\ release_step s free s' freed /\
    forall v, v ∈ freed <-> as_page_of (mem s) pgdir v.
Proof.
  intros Hai Has.
  assert (wp (freevm pgdir) (fun _ s' => exists freed, release_step s free s' freed /\
    forall v, v ∈ freed <-> as_page_of (mem s) pgdir v) s)
    as ([] & s' & Hr & freed & H'); [|by exists s', freed].
  eapply freevm_wp; try done. intros s' freed Hs Hv. by exists freed.
Qed.

Lemma freevm_releases_all_witness :
  exists s' freed, freevm demo_pgdir (demo_as 3 0x2000 7) = Ok tt s' /\
    release_step (demo_as 3 0x2000 7) (pages_from demo_base 3) s' freed /\
    forall v, v ∈ freed <-> as_page_of (mem (demo_as 3 0x2000 7)) demo_pgdir v.
Proof.
  destruct (demo_as_spec 3 0x2000 7 ltac:(lia) ltac:(lia) eq_refl ltac:(lia)) as (Hai & Has & _).
  apply (freevm_releases_all (demo_as 3 0x2000 7) (pages_from demo_base 3) demo_pgdir);
    [exact Hai|exact Has].
Defined.

(** C15. [allocuvm] grows an address space by zeroed pages, user readable and
    writable, for exactly the pages between the old and the new size; it
    fails only when the free list has fewer than two pages per page added,
    and then the translations are those before the call and no page is
    lost. *)
Theorem allocuvm_exact `{KernelImage} (s : mm) (free : list Z) (pgdir oldsz newsz : Z) :
  alloc_inv s free -> as_inv (mem s) pgdir free -> 0 <= oldsz <= newsz -> newsz < KERNBASE ->
  (forall va, 0 <= va < 4294967296 -> PGROUNDUP oldsz <= pg va < newsz ->
     pte_at (mem s) pgdir va = 0) ->
  exists r s' free', allocuvm pgdir oldsz newsz s = Ok r s' /\
    (r = newsz /\ grow user_rw zero_data pgdir (PGROUNDUP oldsz) newsz s free s' free' \/
     r = 0 /\ as_back pgdir s free s' [] free' /\
       Z.of_nat (length free) < 2 * ((newsz - PGROUNDUP oldsz + PGSIZE - 1) / PGSIZE)).
Proof.
  intros Hai Has ? ? Hz.
  assert (wp (allocuvm pgdir oldsz newsz) (fun r s' => exists free',
    (r = newsz /\ grow user_rw zero_data pgdir (PGROUNDUP oldsz) newsz s free s' free' \/
     r = 0 /\ as_back pgdir s free s' [] free' /\
       Z.of_nat (length free) < 2 * ((newsz - PGROUNDUP oldsz + PGSIZE - 1) / PGSIZE))) s)
    as (r & s' & Hr & free' & H'); [|by exists r, s', free'].
  eapply allocuvm_wp; try done; try lia; intros; eauto.
Qed.

Lemma allocuvm_exact_witness :
  exists s' free', allocuvm demo_pgdir 0x3000 0x4800 (demo_as 5 0x2000 7) = Ok 0x4800 s' /\
    grow user_rw zero_data demo_pgdir (PGROUNDUP 0x3000) 0x4800 (demo_as 5 0x2000 7)
      (pages_from demo_base 5) s' free'.
Proof.
  destruct (demo_as_spec 5 0x2000 7 ltac:(lia) ltac:(lia) eq_refl ltac:(lia)) as (Hai & Has & Hpte).
  destruct (allocuvm_exact (demo_as 5 0x2000 7) (pages_from demo_base 5) demo_pgdir 0x3000 0x4800)
    as (r & s' & free' & E & [[-> Hg]|(-> & _ & Hl)]).
  - exact Hai.
  - exact Has.
  - lia.
  - lia.
  - change (PGROUNDUP 0x3000) with 0x3000. intros va Hva Hpg. rewrite Hpte by assumption.
    destruct (Z.eqb_spec (pg va) 0x2000); [lia|reflexivity].
  - exists s', free'. split; [exact E|exact Hg].
  - exfalso. vm_compute in Hl. discriminate.
Defined.

(** Growing an address space and shrinking it again restores every
    translation, loses no page and changes no page that was not free. *)
Theorem allocuvm_deallocuvm_roundtrip `{KernelImage} (s : mm) (free : list Z)
    (pgdir oldsz newsz : Z) :
  alloc_inv s free -> as_inv (mem s) pgdir free -> 0 <= oldsz < newsz -> newsz < KERNBASE ->
  2 * ((newsz - PGROUNDUP oldsz + PGSIZE - 1) / PGSIZE) <= Z.of_nat (length free) ->
  (forall va, 0 <= va < 4294967296 -> PGROUNDUP oldsz <= pg va < newsz ->
     pte_at (mem s) pgdir va = 0) ->
  exists s' free',
    (r <- allocuvm pgdir oldsz newsz ;; deallocuvm pgdir r oldsz) s = Ok oldsz s' /\
    as_back pgdir s free s' [] free'.
Proof.
  intros Hai Has ? ? Hlen Hz.
  assert (wp (r <- allocuvm pgdir oldsz newsz ;; deallocuvm pgdir r oldsz)
    (fun r s' => r = oldsz /\ exists free', as_back pgdir s free s' [] free') s)
    as (r & s' & Hr & -> & free' & H'); [|by exists s', free'].
  assert (E := PGROUNDUP_eq oldsz ltac:(lia) ltac:(lia)).
  wp_step. eapply allocuvm_wp; try done; try lia. intros s1 f1 _ Hg.
  eapply deallocuvm_wp; [apply Hg|apply Hg|lia|lia|lia|]. intros s2 f2 _ Hd.
  split; [done|]. exists f2.
  assert (Hb : as_back pgdir s1 f1 s1 [] f1).
  { split; try done; [apply Hg|apply Hg]. }
  eapply (grow_undo _ _ _ (PGROUNDUP oldsz)); [..|exact Hg|exact Hb|exact Hd];
    [rewrite E; zlia|lia|done|intros; lia].
Qed.

Lemma allocuvm_deallocuvm_roundtrip_witness :
  exists s' free',
    (r <- allocuvm demo_pgdir 0x3000 0x4800 ;; deallocuvm demo_pgdir r 0x3000)
      (demo_as 5 0x2000 7) = Ok 0x3000 s' /\
    as_back demo_pgdir (demo_as 5 0x2000 7) (pages_from demo_base 5) s' [] free'.
Proof.
  destruct (demo_as_spec 5 0x2000 7 ltac:(lia) ltac:(lia) eq_refl ltac:(lia))
    as (Hai & Has & Hpte).
  apply (allocuvm_deallocuvm_roundtrip (demo_as 5 0x2000 7) (pages_from demo_base 5) demo_pgdir
    0x3000 0x4800); [exact Hai|exact Has|lia|lia| |].
  - vm_compute. discriminate.
  - change (PGROUNDUP 0x3000) with 0x3000. intros va Hva Hpg. rewrite Hpte by assumption.
    destruct (Z.eqb_spec (pg va) 0x2000); [lia|reflexivity].
Defined.

(** C7. [copyuvm] gives the child the parent's user memory below [sz]: the
    same permissions and bytes, in pages that were free and are distinct from
    the parent's, over the kernel half of [kmap]; the parent is unchanged.
    It fails only with fewer than 67 free pages and two per page copied, and
    then every page it took is back on the free list. *)
Theorem copyuvm_exact `{KernelImage} (s : mm) (free : list Z) (pgdir sz : Z) :
  alloc_inv s free -> as_inv (mem s) pgdir free -> 0 <= sz <= KERNBASE ->
  (forall va, 0 <= va < sz -> mapped (mem s) pgdir va = true) ->
  exists d s', copyuvm pgdir sz s = Ok d s' /\
    ((exists free', d <> 0 /\ copied pgdir sz s free d s' free') \/
     (d = 0 /\ undone s free s' /\
        Z.of_nat (length free) < 67 + 2 * ((sz + PGSIZE - 1) / PGSIZE))).
Proof.
  intros Hai Has ? Hm. eapply copyuvm_wp; [done..| |].
  - intros d s' free' Hc. left. exists free'. split; [|done].
    pose proof (page_ok_range d (pt_dir _ _ _ (as_pt _ _ _ (co_child _ _ _ _ _ _ _ Hc)))). lia.
  - intros s' Hu Hl. by right.
Qed.

Lemma copyuvm_exact_witness :
  exists d s' free', copyuvm demo_pgdir PGSIZE (demo_as 80 0 7) = Ok d s' /\
    copied demo_pgdir PGSIZE (demo_as 80 0 7) (pages_from demo_base 80) d s' free'.
Proof.
  destruct (demo_as_spec 80 0 7 ltac:(lia) ltac:(lia) eq_refl ltac:(lia)) as (Hai & Has & _).
  destruct (copyuvm_exact (demo_as 80 0 7) (pages_from demo_base 80) demo_pgdir PGSIZE)
    as (d & s' & E & [(free' & _ & Hc)|(_ & _ & Hl)]).
  - exact Hai.
  - exact Has.
  - lia.
  - intros va Hva. rewrite (demo_as_mapped 80 0 7) by (lia || reflexivity).
    apply Z.eqb_eq. unfold pg. zlia.
  - exists d, s', free'. split; [exact E|exact Hc].
  - exfalso. vm_compute in Hl. discriminate.
Defined.

(** C34. [copyout] writes its buffer at the user addresses from [va] on,
    across page boundaries, and no other byte of the address space or of any
    other page. *)
Theorem copyout_writes `{KernelImage} (s : mm) (free : list Z) (pgdir va : Z) (buf : list Z) :
  alloc_inv s free -> as_inv (mem s) pgdir free ->
  0 <= va -> va + Z.of_nat (length buf) <= KERNBASE ->
  user_range (mem s) pgdir va (Z.of_nat (length buf)) ->
  exists s', copyout pgdir va buf (Z.of_nat (length buf)) s = Ok 0 s' /\
    uwrite pgdir va buf free s s'.
Proof.
  intros Hai Has ? ? Hr.
  assert (wp (copyout pgdir va buf (Z.of_nat (length buf)))
    (fun r s' => r = 0 /\ uwrite pgdir va buf free s s') s) as (r & s' & Hr' & -> & Hu);
    [|by exists s'].
  by eapply copyout_wp.
Qed.

Lemma copyout_writes_witness :
  exists s', copyout demo_pgdir 0x2ffd [5; 6; 7] 3 (demo_as 3 0x2000 7) = Ok 0 s' /\
    uwrite demo_pgdir 0x2ffd [5; 6; 7] (pages_from demo_base 3) (demo_as 3 0x2000 7) s'.
Proof.
  destruct (demo_as_spec 3 0x2000 7 ltac:(lia) ltac:(lia) eq_refl ltac:(lia))
    as (Hai & Has & Hpte).
  apply (copyout_writes (demo_as 3 0x2000 7) (pages_from demo_base 3) demo_pgdir 0x2ffd [5; 6; 7]);
    [exact Hai|exact Has|lia|cbn; lia|].
  intros x Hx. cbn [length] in Hx.
  assert (Hp : pg x =? 0x2000 = true) by (apply Z.eqb_eq; unfold pg; zlia).
  rewrite (demo_as_mapped 3 0x2000 7), Hpte, Hp by (lia || reflexivity).
  split; reflexivity.
Defined.

(** [copyout] (through [uva2ka]) dereferences a null entry when the
    directory has no table for the address: [uva2ka] does not test the result
    of [walkpgdir]. *)
Theorem copyout_null_entry `{KernelImage} (s : mm) (free : list Z) (pgdir va : Z)
    (buf : list Z) (len : Z) :
  pt_inv (mem s) pgdir free -> va mod PGSIZE = 0 -> 0 < len ->
  bit_set (pde_at (mem s) pgdir (PDX va)) PTE_P = false ->
  copyout pgdir va buf len s = Undef "load below KERNBASE".
Proof.
  intros Hpt Hal Hl Hno. unfold copyout. rewrite Nat.add_comm. cbn [Nat.add copyout_loop].
  destruct (Z.ltb_spec 0 len); [|lia]. cbn zeta.
  rewrite PGROUNDDOWN_eq, Hal, Z.sub_0_r. unfold uva2ka.
  assert (Hw : walkpgdir pgdir va false s = Ok 0 s).
  { eapply (walkpgdir_find_wp (fun r s' => r = 0 /\ s' = s)) in Hpt as (r & s' & Hr & -> & ->);
      [exact Hr|congruence|done]. }
  unfold bind at 1. unfold bind at 1. rewrite Hw. done.
Qed.

Lemma copyout_null_entry_witness :
  copyout demo_pgdir 0x60000000 [1] 1 (demo_mm (pages_from demo_base 3)) =
  Undef "load below KERNBASE".
Proof.
  destruct (demo_pages_dir 3 ltac:(lia)) as [[Hpt _ _] Hz].
  apply (copyout_null_entry _ (pages_from demo_base 3)); [exact Hpt|reflexivity|lia|].
  vm_compute. reflexivity.
Defined.
