(* ===== verification/Kernel.v ===== *)
(** * The kernel's state

    The data structures of proc.h, file.h, fs.h, buf.h, sleeplock.h and of
    the global variables of the kernel, and the kernel's way of touching user
    memory.  Objects the C code keeps in pages of [kalloc] (VMAs, pipes) are
    in maps keyed by the address of their page.  Pointers into the static
    tables are indices, null pointers [None] (or a constructor of their own). *)

From S2P Require Import Prelude Machine StringC Spinlock Kalloc Vm VmWalk VmUser VmCopy.

(** ** proc.h *)

Inductive procstate := UNUSED | EMBRYO | SLEEPING | RUNNABLE | RUNNING | ZOMBIE.

#[export] Instance procstate_eq_dec : EqDecision procstate.
Proof. solve_decision. Defined.

(** What a process can sleep on: the addresses used as channels. *)
Inductive chan :=
| Ch_proc (i : nat) | Ch_ticks | Ch_log | Ch_input
| Ch_buf (i : nat) | Ch_inode (i : nat)
| Ch_nread (p : Z) | Ch_nwrite (p : Z).

#[export] Instance chan_eq_dec : EqDecision chan.
Proof. solve_decision. Defined.

(** Pointers to VMAs: the two embedded in [struct proc], or a page. *)
Inductive vptr := VNull | VHead (i : nat) | VTail (i : nat) | VHeap (a : Z).

#[export] Instance vptr_eq_dec : EqDecision vptr.
Proof. solve_decision. Defined.

(** Pointers to [struct file]; [FWild] is a word read out of bounds. *)
Inductive fptr := FNull | FAt (i : nat) | FWild.

#[export] Instance fptr_eq_dec : EqDecision fptr.
Proof. solve_decision. Defined.

(** [struct vm_area]; the words are unsigned except [len], [prot],
    [vflags], [vfd] and [space_after]. *)
Record vm_area := VmArea {
  valid : Z;
  start : Z;
  vend : Z;
  pa : Z;
  guardstart : Z;
  len : Z;
  prot : Z;
  vflags : Z;
  vfd : Z;
  space_after : Z;
  vf : fptr;
  next : vptr }.

Definition upd_valid (g : Z -> Z) (x : vm_area) : vm_area :=
  {| valid := g (valid x); start := start x; vend := vend x; pa := pa x;
     guardstart := guardstart x; len := len x; prot := prot x; vflags := vflags x;
     vfd := vfd x; space_after := space_after x; vf := vf x; next := next x |}.
Definition upd_start (g : Z -> Z) (x : vm_area) : vm_area :=
  {| valid := valid x; start := g (start x); vend := vend x; pa := pa x;
     guardstart := guardstart x; len := len x; prot := prot x; vflags := vflags x;
     vfd := vfd x; space_after := space_after x; vf := vf x; next := next x |}.
Definition upd_vend (g : Z -> Z) (x : vm_area) : vm_area :=
  {| valid := valid x; start := start x; vend := g (vend x); pa := pa x;
     guardstart := guardstart x; len := len x; prot := prot x; vflags := vflags x;
     vfd := vfd x; space_after := space_after x; vf := vf x; next := next x |}.
Definition upd_pa (g : Z -> Z) (x : vm_area) : vm_area :=
  {| valid := valid x; start := start x; vend := vend x; pa := g (pa x);
     guardstart := guardstart x; len := len x; prot := prot x; vflags := vflags x;
     vfd := vfd x; space_after := space_after x; vf := vf x; next := next x |}.
Definition upd_guardstart (g : Z -> Z) (x : vm_area) : vm_area :=
  {| valid := valid x; start := start x; vend := vend x; pa := pa x;
     guardstart := g (guardstart x); len := len x; prot := prot x; vflags := vflags x;
     vfd := vfd x; space_after := space_after x; vf := vf x; next := next x |}.
Definition upd_len (g : Z -> Z) (x : vm_area) : vm_area :=
  {| valid := valid x; start := start x; vend := vend x; pa := pa x;
     guardstart := guardstart x; len := g (len x); prot := prot x; vflags := vflags x;
     vfd := vfd x; space_after := space_after x; vf := vf x; next := next x |}.
Definition upd_prot (g : Z -> Z) (x : vm_area) : vm_area :=
  {| valid := valid x; start := start x; vend := vend x; pa := pa x;
     guardstart := guardstart x; len := len x; prot := g (prot x); vflags := vflags x;
     vfd := vfd x; space_after := space_after x; vf := vf x; next := next x |}.
Definition upd_vflags (g : Z -> Z) (x : vm_area) : vm_area :=
  {| valid := valid x; start := start x; vend := vend x; pa := pa x;
     guardstart := guardstart x; len := len x; prot := prot x; vflags := g (vflags x);
     vfd := vfd x; space_after := space_after x; vf := vf x; next := next x |}.
Definition upd_vfd (g : Z -> Z) (x : vm_area) : vm_area :=
  {| valid := valid x; start := start x; vend := vend x; pa := pa x;
     guardstart := guardstart x; len := len x; prot := prot x; vflags := vflags x;
     vfd := g (vfd x); space_after := space_after x; vf := vf x; next := next x |}.
Definition upd_space_after (g : Z -> Z) (x : vm_area) : vm_area :=
  {| valid := valid x; start := start x; vend := vend x; pa := pa x;
     guardstart := guardstart x; len := len x; prot := prot x; vflags := vflags x;
     vfd := vfd x; space_after := g (space_after x); vf := vf x; next := next x |}.
Definition upd_vf (g : fptr -> fptr) (x : vm_area) : vm_area :=
  {| valid := valid x; start := start x; vend := vend x; pa := pa x;
     guardstart := guardstart x; len := len x; prot := prot x; vflags := vflags x;
     vfd := vfd x; space_after := space_after x; vf := g (vf x); next := next x |}.
Definition upd_next (g : vptr -> vptr) (x : vm_area) : vm_area :=
  {| valid := valid x; start := start x; vend := vend x; pa := pa x;
     guardstart := guardstart x; len := len x; prot := prot x; vflags := vflags x;
     vfd := vfd x; space_after := space_after x; vf := vf x; next := g (next x) |}.

(** Zeroed static storage. *)
Definition vm_area0 : vm_area := VmArea 0 0 0 0 0 0 0 0 0 0 FNull VNull.

(** [struct trapframe] of x86.h, without the padding. *)
Record trapframe := Trapframe {
  edi : Z;
  esi : Z;
  ebp : Z;
  oesp : Z;
  ebx : Z;
  edx : Z;
  ecx : Z;
  eax : Z;
  gs : Z;
  tfs : Z;
  es : Z;
  ds : Z;
  trapno : Z;
  err : Z;
  eip : Z;
  cs : Z;
  eflags : Z;
  esp : Z;
  ss : Z }.

Definition upd_edi (g : Z -> Z) (x : trapframe) : trapframe :=
  {| edi := g (edi x); esi := esi x; ebp := ebp x; oesp := oesp x; ebx := ebx x;
     edx := edx x; ecx := ecx x; eax := eax x; gs := gs x; tfs := tfs x; es := es x;
     ds := ds x; trapno := trapno x; err := err x; eip := eip x; cs := cs x;
     eflags := eflags x; esp := esp x; ss := ss x |}.
Definition upd_esi (g : Z -> Z) (x : trapframe) : trapframe :=
  {| edi := edi x; esi := g (esi x); ebp := ebp x; oesp := oesp x; ebx := ebx x;
     edx := edx x; ecx := ecx x; eax := eax x; gs := gs x; tfs := tfs x; es := es x;
     ds := ds x; trapno := trapno x; err := err x; eip := eip x; cs := cs x;
     eflags := eflags x; esp := esp x; ss := ss x |}.
Definition upd_ebp (g : Z -> Z) (x : trapframe) : trapframe :=
  {| edi := edi x; esi := esi x; ebp := g (ebp x); oesp := oesp x; ebx := ebx x;
     edx := edx x; ecx := ecx x; eax := eax x; gs := gs x; tfs := tfs x; es := es x;
     ds := ds x; trapno := trapno x; err := err x; eip := eip x; cs := cs x;
     eflags := eflags x; esp := esp x; ss := ss x |}.
Definition upd_oesp (g : Z -> Z) (x : trapframe) : trapframe :=
  {| edi := edi x; esi := esi x; ebp := ebp x; oesp := g (oesp x); ebx := ebx x;
     edx := edx x; ecx := ecx x; eax := eax x; gs := gs x; tfs := tfs x; es := es x;
     ds := ds x; trapno := trapno x; err := err x; eip := eip x; cs := cs x;
     eflags := eflags x; esp := esp x; ss := ss x |}.
Definition upd_ebx (g : Z -> Z) (x : trapframe) : trapframe :=
  {| edi := edi x; esi := esi x; ebp := ebp x; oesp := oesp x; ebx := g (ebx x);
     edx := edx x; ecx := ecx x; eax := eax x; gs := gs x; tfs := tfs x; es := es x;
     ds := ds x; trapno := trapno x; err := err x; eip := eip x; cs := cs x;
     eflags := eflags x; esp := esp x; ss := ss x |}.
Definition upd_edx (g : Z -> Z) (x : trapframe) : trapframe :=
  {| edi := edi x; esi := esi x; ebp := ebp x; oesp := oesp x; ebx := ebx x;
     edx := g (edx x); ecx := ecx x; eax := eax x; gs := gs x; tfs := tfs x; es := es x;
     ds := ds x; trapno := trapno x; err := err x; eip := eip x; cs := cs x;
     eflags := eflags x; esp := esp x; ss := ss x |}.
Definition upd_ecx (g : Z -> Z) (x : trapframe) : trapframe :=
  {| edi := edi x; esi := esi x; ebp := ebp x; oesp := oesp x; ebx := ebx x;
     edx := edx x; ecx := g (ecx x); eax := eax x; gs := gs x; tfs := tfs x; es := es x;
     ds := ds x; trapno := trapno x; err := err x; eip := eip x; cs := cs x;
     eflags := eflags x; esp := esp x; ss := ss x |}.
Definition upd_eax (g : Z -> Z) (x : trapframe) : trapframe :=
  {| edi := edi x; esi := esi x; ebp := ebp x; oesp := oesp x; ebx := ebx x;
     edx := edx x; ecx := ecx x; eax := g (eax x); gs := gs x; tfs := tfs x; es := es x;
     ds := ds x; trapno := trapno x; err := err x; eip := eip x; cs := cs x;
     eflags := eflags x; esp := esp x; ss := ss x |}.
Definition upd_gs (g : Z -> Z) (x : trapframe) : trapframe :=
  {| edi := edi x; esi := esi x; ebp := ebp x; oesp := oesp x; ebx := ebx x;
     edx := edx x; ecx := ecx x; eax := eax x; gs := g (gs x); tfs := tfs x; es := es x;
     ds := ds x; trapno := trapno x; err := err x; eip := eip x; cs := cs x;
     eflags := eflags x; esp := esp x; ss := ss x |}.
Definition upd_tfs (g : Z -> Z) (x : trapframe) : trapframe :=
  {| edi := edi x; esi := esi x; ebp := ebp x; oesp := oesp x; ebx := ebx x;
     edx := edx x; ecx := ecx x; eax := eax x; gs := gs x; tfs := g (tfs x); es := es x;
     ds := ds x; trapno := trapno x; err := err x; eip := eip x; cs := cs x;
     eflags := eflags x; esp := esp x; ss := ss x |}.
Definition upd_es (g : Z -> Z) (x : trapframe) : trapframe :=
  {| edi := edi x; esi := esi x; ebp := ebp x; oesp := oesp x; ebx := ebx x;
     edx := edx x; ecx := ecx x; eax := eax x; gs := gs x; tfs := tfs x; es := g (es x);
     ds := ds x; trapno := trapno x; err := err x; eip := eip x; cs := cs x;
     eflags := eflags x; esp := esp x; ss := ss x |}.
Definition upd_ds (g : Z -> Z) (x : trapframe) : trapframe :=
  {| edi := edi x; esi := esi x; ebp := ebp x; oesp := oesp x; ebx := ebx x;
     edx := edx x; ecx := ecx x; eax := eax x; gs := gs x; tfs := tfs x; es := es x;
     ds := g (ds x); trapno := trapno x; err := err x; eip := eip x; cs := cs x;
     eflags := eflags x; esp := esp x; ss := ss x |}.
Definition upd_trapno (g : Z -> Z) (x : trapframe) : trapframe :=
  {| edi := edi x; esi := esi x; ebp := ebp x; oesp := oesp x; ebx := ebx x;
     edx := edx x; ecx := ecx x; eax := eax x; gs := gs x; tfs := tfs x; es := es x;
     ds := ds x; trapno := g (trapno x); err := err x; eip := eip x; cs := cs x;
     eflags := eflags x; esp := esp x; ss := ss x |}.
Definition upd_err (g : Z -> Z) (x : trapframe) : trapframe :=
  {| edi := edi x; esi := esi x; ebp := ebp x; oesp := oesp x; ebx := ebx x;
     edx := edx x; ecx := ecx x; eax := eax x; gs := gs x; tfs := tfs x; es := es x;
     ds := ds x; trapno := trapno x; err := g (err x); eip := eip x; cs := cs x;
     eflags := eflags x; esp := esp x; ss := ss x |}.
Definition upd_eip (g : Z -> Z) (x : trapframe) : trapframe :=
  {| edi := edi x; esi := esi x; ebp := ebp x; oesp := oesp x; ebx := ebx x;
     edx := edx x; ecx := ecx x; eax := eax x; gs := gs x; tfs := tfs x; es := es x;
     ds := ds x; trapno := trapno x; err := err x; eip := g (eip x); cs := cs x;
     eflags := eflags x; esp := esp x; ss := ss x |}.
Definition upd_cs (g : Z -> Z) (x : trapframe) : trapframe :=
  {| edi := edi x; esi := esi x; ebp := ebp x; oesp := oesp x; ebx := ebx x;
     edx := edx x; ecx := ecx x; eax := eax x; gs := gs x; tfs := tfs x; es := es x;
     ds := ds x; trapno := trapno x; err := err x; eip := eip x; cs := g (cs x);
     eflags := eflags x; esp := esp x; ss := ss x |}.
Definition upd_eflags (g : Z -> Z) (x : trapframe) : trapframe :=
  {| edi := edi x; esi := esi x; ebp := ebp x; oesp := oesp x; ebx := ebx x;
     edx := edx x; ecx := ecx x; eax := eax x; gs := gs x; tfs := tfs x; es := es x;
     ds := ds x; trapno := trapno x; err := err x; eip := eip x; cs := cs x;
     eflags := g (eflags x); esp := esp x; ss := ss x |}.
Definition upd_esp (g : Z -> Z) (x : trapframe) : trapframe :=
  {| edi := edi x; esi := esi x; ebp := ebp x; oesp := oesp x; ebx := ebx x;
     edx := edx x; ecx := ecx x; eax := eax x; gs := gs x; tfs := tfs x; es := es x;
     ds := ds x; trapno := trapno x; err := err x; eip := eip x; cs := cs x;
     eflags := eflags x; esp := g (esp x); ss := ss x |}.
Definition upd_ss (g : Z -> Z) (x : trapframe) : trapframe :=
  {| edi := edi x; esi := esi x; ebp := ebp x; oesp := oesp x; ebx := ebx x;
     edx := edx x; ecx := ecx x; eax := eax x; gs := gs x; tfs := tfs x; es := es x;
     ds := ds x; trapno := trapno x; err := err x; eip := eip x; cs := cs x;
     eflags := eflags x; esp := esp x; ss := g (ss x) |}.

Definition trapframe0 : trapframe := Trapframe 0 0 0 0 0 0 0 0 0 0 0 0 0 0 0 0 0 0 0.

(** Where a switched-out process resumes: [forkret] for a new one. *)
Inductive kcontext := KNone | KForkret | KSched.

(** [struct proc]. *)
Record proc := Proc {
  sz : Z;
  pgdir : Z;
  kstack : Z;
  state : procstate;
  pid : Z;
  parent : option nat;
  tf : trapframe;
  context : kcontext;
  pchan : option chan;
  killed : Z;
  ofile : list (option nat);
  cwd : option nat;
  pname : list Z;
  head : vm_area;
  tail : vm_area }.

Definition upd_sz (g : Z -> Z) (x : proc) : proc :=
  {| sz := g (sz x); pgdir := pgdir x; kstack := kstack x; state := state x;
     pid := pid x; parent := parent x; tf := tf x; context := context x;
     pchan := pchan x; killed := killed x; ofile := ofile x; cwd := cwd x;
     pname := pname x; head := head x; tail := tail x |}.
Definition upd_pgdir (g : Z -> Z) (x : proc) : proc :=
  {| sz := sz x; pgdir := g (pgdir x); kstack := kstack x; state := state x;
     pid := pid x; parent := parent x; tf := tf x; context := context x;
     pchan := pchan x; killed := killed x; ofile := ofile x; cwd := cwd x;
     pname := pname x; head := head x; tail := tail x |}.
Definition upd_kstack (g : Z -> Z) (x : proc) : proc :=
  {| sz := sz x; pgdir := pgdir x; kstack := g (kstack x); state := state x;
     pid := pid x; parent := parent x; tf := tf x; context := context x;
     pchan := pchan x; killed := killed x; ofile := ofile x; cwd := cwd x;
     pname := pname x; head := head x; tail := tail x |}.
Definition upd_state (g : procstate -> procstate) (x : proc) : proc :=
  {| sz := sz x; pgdir := pgdir x; kstack := kstack x; state := g (state x);
     pid := pid x; parent := parent x; tf := tf x; context := context x;
     pchan := pchan x; killed := killed x; ofile := ofile x; cwd := cwd x;
     pname := pname x; head := head x; tail := tail x |}.
Definition upd_pid (g : Z -> Z) (x : proc) : proc :=
  {| sz := sz x; pgdir := pgdir x; kstack := kstack x; state := state x;
     pid := g (pid x); parent := parent x; tf := tf x; context := context x;
     pchan := pchan x; killed := killed x; ofile := ofile x; cwd := cwd x;
     pname := pname x; head := head x; tail := tail x |}.
Definition upd_parent (g : (option nat) -> (option nat)) (x : proc) : proc :=
  {| sz := sz x; pgdir := pgdir x; kstack := kstack x; state := state x; pid := pid x;
     parent := g (parent x); tf := tf x; context := context x; pchan := pchan x;
     killed := killed x; ofile := ofile x; cwd := cwd x; pname := pname x;
     head := head x; tail := tail x |}.
Definition upd_tf (g : trapframe -> trapframe) (x : proc) : proc :=
  {| sz := sz x; pgdir := pgdir x; kstack := kstack x; state := state x; pid := pid x;
     parent := parent x; tf := g (tf x); context := context x; pchan := pchan x;
     killed := killed x; ofile := ofile x; cwd := cwd x; pname := pname x;
     head := head x; tail := tail x |}.
Definition upd_context (g : kcontext -> kcontext) (x : proc) : proc :=
  {| sz := sz x; pgdir := pgdir x; kstack := kstack x; state := state x; pid := pid x;
     parent := parent x; tf := tf x; context := g (context x); pchan := pchan x;
     killed := killed x; ofile := ofile x; cwd := cwd x; pname := pname x;
     head := head x; tail := tail x |}.
Definition upd_pchan (g : (option chan) -> (option chan)) (x : proc) : proc :=
  {| sz := sz x; pgdir := pgdir x; kstack := kstack x; state := state x; pid := pid x;
     parent := parent x; tf := tf x; context := context x; pchan := g (pchan x);
     killed := killed x; ofile := ofile x; cwd := cwd x; pname := pname x;
     head := head x; tail := tail x |}.
Definition upd_killed (g : Z -> Z) (x : proc) : proc :=
  {| sz := sz x; pgdir := pgdir x; kstack := kstack x; state := state x; pid := pid x;
     parent := parent x; tf := tf x; context := context x; pchan := pchan x;
     killed := g (killed x); ofile := ofile x; cwd := cwd x; pname := pname x;
     head := head x; tail := tail x |}.
Definition upd_ofile (g : (list (option nat)) -> (list (option nat))) (x : proc) : proc :=
  {| sz := sz x; pgdir := pgdir x; kstack := kstack x; state := state x; pid := pid x;
     parent := parent x; tf := tf x; context := context x; pchan := pchan x;
     killed := killed x; ofile := g (ofile x); cwd := cwd x; pname := pname x;
     head := head x; tail := tail x |}.
Definition upd_cwd (g : (option nat) -> (option nat)) (x : proc) : proc :=
  {| sz := sz x; pgdir := pgdir x; kstack := kstack x; state := state x; pid := pid x;
     parent := parent x; tf := tf x; context := context x; pchan := pchan x;
     killed := killed x; ofile := ofile x; cwd := g (cwd x); pname := pname x;
     head := head x; tail := tail x |}.
Definition upd_pname (g : (list Z) -> (list Z)) (x : proc) : proc :=
  {| sz := sz x; pgdir := pgdir x; kstack := kstack x; state := state x; pid := pid x;
     parent := parent x; tf := tf x; context := context x; pchan := pchan x;
     killed := killed x; ofile := ofile x; cwd := cwd x; pname := g (pname x);
     head := head x; tail := tail x |}.
Definition upd_head (g : vm_area -> vm_area) (x : proc) : proc :=
  {| sz := sz x; pgdir := pgdir x; kstack := kstack x; state := state x; pid := pid x;
     parent := parent x; tf := tf x; context := context x; pchan := pchan x;
     killed := killed x; ofile := ofile x; cwd := cwd x; pname := pname x;
     head := g (head x); tail := tail x |}.
Definition upd_tail (g : vm_area -> vm_area) (x : proc) : proc :=
  {| sz := sz x; pgdir := pgdir x; kstack := kstack x; state := state x; pid := pid x;
     parent := parent x; tf := tf x; context := context x; pchan := pchan x;
     killed := killed x; ofile := ofile x; cwd := cwd x; pname := pname x;
     head := head x; tail := g (tail x) |}.

Definition proc0 : proc :=
  Proc 0 0 0 UNUSED 0 None trapframe0 KNone None 0 (replicate 16 None) None (replicate 16 0)
    vm_area0 vm_area0.

#[export] Instance proc_inhabited : Inhabited proc := populate proc0.

(** The globals of proc.c and trap.c, [kpgdir], this CPU's [proc], and the VMAs
    allocated by [create_vma]. *)
Record prst := Prst {
  procs : list proc;
  initproc : option nat;
  nextpid : Z;
  curproc : option nat;
  ticks : Z;
  first : bool;
  kpgdir : Z;
  vmas : gmap Z vm_area }.

Definition upd_procs (g : (list proc) -> (list proc)) (x : prst) : prst :=
  {| procs := g (procs x); initproc := initproc x; nextpid := nextpid x;
     curproc := curproc x; ticks := ticks x; first := first x; kpgdir := kpgdir x;
     vmas := vmas x |}.
Definition upd_initproc (g : (option nat) -> (option nat)) (x : prst) : prst :=
  {| procs := procs x; initproc := g (initproc x); nextpid := nextpid x;
     curproc := curproc x; ticks := ticks x; first := first x; kpgdir := kpgdir x;
     vmas := vmas x |}.
Definition upd_nextpid (g : Z -> Z) (x : prst) : prst :=
  {| procs := procs x; initproc := initproc x; nextpid := g (nextpid x);
     curproc := curproc x; ticks := ticks x; first := first x; kpgdir := kpgdir x;
     vmas := vmas x |}.
Definition upd_curproc (g : (option nat) -> (option nat)) (x : prst) : prst :=
  {| procs := procs x; initproc := initproc x; nextpid := nextpid x;
     curproc := g (curproc x); ticks := ticks x; first := first x; kpgdir := kpgdir x;
     vmas := vmas x |}.
Definition upd_ticks (g : Z -> Z) (x : prst) : prst :=
  {| procs := procs x; initproc := initproc x; nextpid := nextpid x;
     curproc := curproc x; ticks := g (ticks x); first := first x; kpgdir := kpgdir x;
     vmas := vmas x |}.
Definition upd_first (g : bool -> bool) (x : prst) : prst :=
  {| procs := procs x; initproc := initproc x; nextpid := nextpid x;
     curproc := curproc x; ticks := ticks x; first := g (first x); kpgdir := kpgdir x;
     vmas := vmas x |}.
Definition upd_kpgdir (g : Z -> Z) (x : prst) : prst :=
  {| procs := procs x; initproc := initproc x; nextpid := nextpid x;
     curproc := curproc x; ticks := ticks x; first := first x; kpgdir := g (kpgdir x);
     vmas := vmas x |}.
Definition upd_vmas (g : (gmap Z vm_area) -> (gmap Z vm_area)) (x : prst) : prst :=
  {| procs := procs x; initproc := initproc x; nextpid := nextpid x;
     curproc := curproc x; ticks := ticks x; first := first x; kpgdir := kpgdir x;
     vmas := g (vmas x) |}.

(** ** File system structures *)

(** [struct sleeplock]; its spinlock is a [lockid]. *)
Record sleeplock := Sleeplock {
  locked : bool;
  sl_pid : Z }.

Definition upd_locked (g : bool -> bool) (x : sleeplock) : sleeplock :=
  {| locked := g (locked x); sl_pid := sl_pid x |}.
Definition upd_sl_pid (g : Z -> Z) (x : sleeplock) : sleeplock :=
  {| locked := locked x; sl_pid := g (sl_pid x) |}.

Definition sleeplock0 : sleeplock := Sleeplock false 0.

(** [struct buf]; the LRU list is kept apart as a list of indices. *)
Record buf := Buf {
  bflags : Z;
  bdev : Z;
  blockno : Z;
  block_lock : sleeplock;
  refcnt : Z;
  bdata : list Z }.

Definition upd_bflags (g : Z -> Z) (x : buf) : buf :=
  {| bflags := g (bflags x); bdev := bdev x; blockno := blockno x;
     block_lock := block_lock x; refcnt := refcnt x; bdata := bdata x |}.
Definition upd_bdev (g : Z -> Z) (x : buf) : buf :=
  {| bflags := bflags x; bdev := g (bdev x); blockno := blockno x;
     block_lock := block_lock x; refcnt := refcnt x; bdata := bdata x |}.
Definition upd_blockno (g : Z -> Z) (x : buf) : buf :=
  {| bflags := bflags x; bdev := bdev x; blockno := g (blockno x);
     block_lock := block_lock x; refcnt := refcnt x; bdata := bdata x |}.
Definition upd_block_lock (g : sleeplock -> sleeplock) (x : buf) : buf :=
  {| bflags := bflags x; bdev := bdev x; blockno := blockno x;
     block_lock := g (block_lock x); refcnt := refcnt x; bdata := bdata x |}.
Definition upd_refcnt (g : Z -> Z) (x : buf) : buf :=
  {| bflags := bflags x; bdev := bdev x; blockno := blockno x;
     block_lock := block_lock x; refcnt := g (refcnt x); bdata := bdata x |}.
Definition upd_bdata (g : (list Z) -> (list Z)) (x : buf) : buf :=
  {| bflags := bflags x; bdev := bdev x; blockno := blockno x;
     block_lock := block_lock x; refcnt := refcnt x; bdata := g (bdata x) |}.

Definition B_VALID : Z := 0x2.
Definition B_DIRTY : Z := 0x4.

Definition buf0 : buf := Buf 0 0 0 sleeplock0 0 (replicate 512 0).

#[export] Instance buf_inhabited : Inhabited buf := populate buf0.

(** [struct superblock]. *)
Record superblock := Superblock {
  sb_size : Z;
  nblocks : Z;
  ninodes : Z;
  nlog : Z;
  logstart : Z;
  inodestart : Z;
  bmapstart : Z }.

Definition upd_sb_size (g : Z -> Z) (x : superblock) : superblock :=
  {| sb_size := g (sb_size x); nblocks := nblocks x; ninodes := ninodes x;
     nlog := nlog x; logstart := logstart x; inodestart := inodestart x;
     bmapstart := bmapstart x |}.
Definition upd_nblocks (g : Z -> Z) (x : superblock) : superblock :=
  {| sb_size := sb_size x; nblocks := g (nblocks x); ninodes := ninodes x;
     nlog := nlog x; logstart := logstart x; inodestart := inodestart x;
     bmapstart := bmapstart x |}.
Definition upd_ninodes (g : Z -> Z) (x : superblock) : superblock :=
  {| sb_size := sb_size x; nblocks := nblocks x; ninodes := g (ninodes x);
     nlog := nlog x; logstart := logstart x; inodestart := inodestart x;
     bmapstart := bmapstart x |}.
Definition upd_nlog (g : Z -> Z) (x : superblock) : superblock :=
  {| sb_size := sb_size x; nblocks := nblocks x; ninodes := ninodes x;
     nlog := g (nlog x); logstart := logstart x; inodestart := inodestart x;
     bmapstart := bmapstart x |}.
Definition upd_logstart (g : Z -> Z) (x : superblock) : superblock :=
  {| sb_size := sb_size x; nblocks := nblocks x; ninodes := ninodes x; nlog := nlog x;
     logstart := g (logstart x); inodestart := inodestart x; bmapstart := bmapstart x |}.
Definition upd_inodestart (g : Z -> Z) (x : superblock) : superblock :=
  {| sb_size := sb_size x; nblocks := nblocks x; ninodes := ninodes x; nlog := nlog x;
     logstart := logstart x; inodestart := g (inodestart x); bmapstart := bmapstart x |}.
Definition upd_bmapstart (g : Z -> Z) (x : superblock) : superblock :=
  {| sb_size := sb_size x; nblocks := nblocks x; ninodes := ninodes x; nlog := nlog x;
     logstart := logstart x; inodestart := inodestart x; bmapstart := g (bmapstart x) |}.

(** [struct inode]. *)
Record inode := Inode {
  idev : Z;
  inum : Z;
  iref : Z;
  ilk : sleeplock;
  ivalid : bool;
  itype : Z;
  imajor : Z;
  iminor : Z;
  nlink : Z;
  isize : Z;
  addrs : list Z }.

Definition upd_idev (g : Z -> Z) (x : inode) : inode :=
  {| idev := g (idev x); inum := inum x; iref := iref x; ilk := ilk x;
     ivalid := ivalid x; itype := itype x; imajor := imajor x; iminor := iminor x;
     nlink := nlink x; isize := isize x; addrs := addrs x |}.
Definition upd_inum (g : Z -> Z) (x : inode) : inode :=
  {| idev := idev x; inum := g (inum x); iref := iref x; ilk := ilk x;
     ivalid := ivalid x; itype := itype x; imajor := imajor x; iminor := iminor x;
     nlink := nlink x; isize := isize x; addrs := addrs x |}.
Definition upd_iref (g : Z -> Z) (x : inode) : inode :=
  {| idev := idev x; inum := inum x; iref := g (iref x); ilk := ilk x;
     ivalid := ivalid x; itype := itype x; imajor := imajor x; iminor := iminor x;
     nlink := nlink x; isize := isize x; addrs := addrs x |}.
Definition upd_ilk (g : sleeplock -> sleeplock) (x : inode) : inode :=
  {| idev := idev x; inum := inum x; iref := iref x; ilk := g (ilk x);
     ivalid := ivalid x; itype := itype x; imajor := imajor x; iminor := iminor x;
     nlink := nlink x; isize := isize x; addrs := addrs x |}.
Definition upd_ivalid (g : bool -> bool) (x : inode) : inode :=
  {| idev := idev x; inum := inum x; iref := iref x; ilk := ilk x;
     ivalid := g (ivalid x); itype := itype x; imajor := imajor x; iminor := iminor x;
     nlink := nlink x; isize := isize x; addrs := addrs x |}.
Definition upd_itype (g : Z -> Z) (x : inode) : inode :=
  {| idev := idev x; inum := inum x; iref := iref x; ilk := ilk x; ivalid := ivalid x;
     itype := g (itype x); imajor := imajor x; iminor := iminor x; nlink := nlink x;
     isize := isize x; addrs := addrs x |}.
Definition upd_imajor (g : Z -> Z) (x : inode) : inode :=
  {| idev := idev x; inum := inum x; iref := iref x; ilk := ilk x; ivalid := ivalid x;
     itype := itype x; imajor := g (imajor x); iminor := iminor x; nlink := nlink x;
     isize := isize x; addrs := addrs x |}.
Definition upd_iminor (g : Z -> Z) (x : inode) : inode :=
  {| idev := idev x; inum := inum x; iref := iref x; ilk := ilk x; ivalid := ivalid x;
     itype := itype x; imajor := imajor x; iminor := g (iminor x); nlink := nlink x;
     isize := isize x; addrs := addrs x |}.
Definition upd_nlink (g : Z -> Z) (x : inode) : inode :=
  {| idev := idev x; inum := inum x; iref := iref x; ilk := ilk x; ivalid := ivalid x;
     itype := itype x; imajor := imajor x; iminor := iminor x; nlink := g (nlink x);
     isize := isize x; addrs := addrs x |}.
Definition upd_isize (g : Z -> Z) (x : inode) : inode :=
  {| idev := idev x; inum := inum x; iref := iref x; ilk := ilk x; ivalid := ivalid x;
     itype := itype x; imajor := imajor x; iminor := iminor x; nlink := nlink x;
     isize := g (isize x); addrs := addrs x |}.
Definition upd_addrs (g : (list Z) -> (list Z)) (x : inode) : inode :=
  {| idev := idev x; inum := inum x; iref := iref x; ilk := ilk x; ivalid := ivalid x;
     itype := itype x; imajor := imajor x; iminor := iminor x; nlink := nlink x;
     isize := isize x; addrs := g (addrs x) |}.

Definition inode0 : inode := Inode 0 0 0 sleeplock0 false 0 0 0 0 0 (replicate 13 0).

#[export] Instance inode_inhabited : Inhabited inode := populate inode0.

(** [struct log], its header inline. *)
Record logst := Logst {
  lstart : Z;
  lsize : Z;
  outstanding : Z;
  committing : bool;
  ldev : Z;
  lh_n : Z;
  lh_block : list Z }.

Definition upd_lstart (g : Z -> Z) (x : logst) : logst :=
  {| lstart := g (lstart x); lsize := lsize x; outstanding := outstanding x;
     committing := committing x; ldev := ldev x; lh_n := lh_n x; lh_block := lh_block x |}.
Definition upd_lsize (g : Z -> Z) (x : logst) : logst :=
  {| lstart := lstart x; lsize := g (lsize x); outstanding := outstanding x;
     committing := committing x; ldev := ldev x; lh_n := lh_n x; lh_block := lh_block x |}.
Definition upd_outstanding (g : Z -> Z) (x : logst) : logst :=
  {| lstart := lstart x; lsize := lsize x; outstanding := g (outstanding x);
     committing := committing x; ldev := ldev x; lh_n := lh_n x; lh_block := lh_block x |}.
Definition upd_committing (g : bool -> bool) (x : logst) : logst :=
  {| lstart := lstart x; lsize := lsize x; outstanding := outstanding x;
     committing := g (committing x); ldev := ldev x; lh_n := lh_n x;
     lh_block := lh_block x |}.
Definition upd_ldev (g : Z -> Z) (x : logst) : logst :=
  {| lstart := lstart x; lsize := lsize x; outstanding := outstanding x;
     committing := committing x; ldev := g (ldev x); lh_n := lh_n x;
     lh_block := lh_block x |}.
Definition upd_lh_n (g : Z -> Z) (x : logst) : logst :=
  {| lstart := lstart x; lsize := lsize x; outstanding := outstanding x;
     committing := committing x; ldev := ldev x; lh_n := g (lh_n x);
     lh_block := lh_block x |}.
Definition upd_lh_block (g : (list Z) -> (list Z)) (x : logst) : logst :=
  {| lstart := lstart x; lsize := lsize x; outstanding := outstanding x;
     committing := committing x; ldev := ldev x; lh_n := lh_n x;
     lh_block := g (lh_block x) |}.

Inductive ftype := FD_NONE | FD_PIPE | FD_INODE.

#[export] Instance ftype_eq_dec : EqDecision ftype.
Proof. solve_decision. Defined.

(** [struct file]. *)
Record file := File {
  type : ftype;
  ref : Z;
  readable : bool;
  writable : bool;
  fpipe : Z;
  ip : nat;
  off : Z }.

Definition upd_type (g : ftype -> ftype) (x : file) : file :=
  {| type := g (type x); ref := ref x; readable := readable x; writable := writable x;
     fpipe := fpipe x; ip := ip x; off := off x |}.
Definition upd_ref (g : Z -> Z) (x : file) : file :=
  {| type := type x; ref := g (ref x); readable := readable x; writable := writable x;
     fpipe := fpipe x; ip := ip x; off := off x |}.
Definition upd_readable (g : bool -> bool) (x : file) : file :=
  {| type := type x; ref := ref x; readable := g (readable x); writable := writable x;
     fpipe := fpipe x; ip := ip x; off := off x |}.
Definition upd_writable (g : bool -> bool) (x : file) : file :=
  {| type := type x; ref := ref x; readable := readable x; writable := g (writable x);
     fpipe := fpipe x; ip := ip x; off := off x |}.
Definition upd_fpipe (g : Z -> Z) (x : file) : file :=
  {| type := type x; ref := ref x; readable := readable x; writable := writable x;
     fpipe := g (fpipe x); ip := ip x; off := off x |}.
Definition upd_ip (g : nat -> nat) (x : file) : file :=
  {| type := type x; ref := ref x; readable := readable x; writable := writable x;
     fpipe := fpipe x; ip := g (ip x); off := off x |}.
Definition upd_off (g : Z -> Z) (x : file) : file :=
  {| type := type x; ref := ref x; readable := readable x; writable := writable x;
     fpipe := fpipe x; ip := ip x; off := g (off x) |}.

Definition file0 : file := File FD_NONE 0 false false 0 0 0.

#[export] Instance file_inhabited : Inhabited file := populate file0.

(** [struct pipe]. *)
Record pipe := Pipe {
  pdata : list Z;
  nread : Z;
  nwrite : Z;
  readopen : bool;
  writeopen : bool }.

Definition upd_pdata (g : (list Z) -> (list Z)) (x : pipe) : pipe :=
  {| pdata := g (pdata x); nread := nread x; nwrite := nwrite x; readopen := readopen x;
     writeopen := writeopen x |}.
Definition upd_nread (g : Z -> Z) (x : pipe) : pipe :=
  {| pdata := pdata x; nread := g (nread x); nwrite := nwrite x; readopen := readopen x;
     writeopen := writeopen x |}.
Definition upd_nwrite (g : Z -> Z) (x : pipe) : pipe :=
  {| pdata := pdata x; nread := nread x; nwrite := g (nwrite x); readopen := readopen x;
     writeopen := writeopen x |}.
Definition upd_readopen (g : bool -> bool) (x : pipe) : pipe :=
  {| pdata := pdata x; nread := nread x; nwrite := nwrite x; readopen := g (readopen x);
     writeopen := writeopen x |}.
Definition upd_writeopen (g : bool -> bool) (x : pipe) : pipe :=
  {| pdata := pdata x; nread := nread x; nwrite := nwrite x; readopen := readopen x;
     writeopen := g (writeopen x) |}.

(** The globals of bio.c, memide.c, fs.c, log.c and file.c, and the pipes.
    The disk is the list of the writes made to it, the last one first: a block
    holds what the last write to it stored. *)
Record fsst := Fsst {
  bufs : list buf;
  lru : list nat;
  disk : list (Z * list Z);
  disksize : Z;
  sb : superblock;
  log : logst;
  inodes : list inode;
  files : list file;
  pipes : gmap Z pipe }.

Definition upd_bufs (g : (list buf) -> (list buf)) (x : fsst) : fsst :=
  {| bufs := g (bufs x); lru := lru x; disk := disk x; disksize := disksize x;
     sb := sb x; log := log x; inodes := inodes x; files := files x; pipes := pipes x |}.
Definition upd_lru (g : (list nat) -> (list nat)) (x : fsst) : fsst :=
  {| bufs := bufs x; lru := g (lru x); disk := disk x; disksize := disksize x;
     sb := sb x; log := log x; inodes := inodes x; files := files x; pipes := pipes x |}.
Definition upd_disk (g : list (Z * list Z) -> list (Z * list Z)) (x : fsst) : fsst :=
  {| bufs := bufs x; lru := lru x; disk := g (disk x); disksize := disksize x;
     sb := sb x; log := log x; inodes := inodes x; files := files x; pipes := pipes x |}.
Definition upd_disksize (g : Z -> Z) (x : fsst) : fsst :=
  {| bufs := bufs x; lru := lru x; disk := disk x; disksize := g (disksize x);
     sb := sb x; log := log x; inodes := inodes x; files := files x; pipes := pipes x |}.
Definition upd_sb (g : superblock -> superblock) (x : fsst) : fsst :=
  {| bufs := bufs x; lru := lru x; disk := disk x; disksize := disksize x;
     sb := g (sb x); log := log x; inodes := inodes x; files := files x;
     pipes := pipes x |}.
Definition upd_log (g : logst -> logst) (x : fsst) : fsst :=
  {| bufs := bufs x; lru := lru x; disk := disk x; disksize := disksize x; sb := sb x;
     log := g (log x); inodes := inodes x; files := files x; pipes := pipes x |}.
Definition upd_inodes (g : (list inode) -> (list inode)) (x : fsst) : fsst :=
  {| bufs := bufs x; lru := lru x; disk := disk x; disksize := disksize x; sb := sb x;
     log := log x; inodes := g (inodes x); files := files x; pipes := pipes x |}.
Definition upd_files (g : (list file) -> (list file)) (x : fsst) : fsst :=
  {| bufs := bufs x; lru := lru x; disk := disk x; disksize := disksize x; sb := sb x;
     log := log x; inodes := inodes x; files := g (files x); pipes := pipes x |}.
Definition upd_pipes (g : (gmap Z pipe) -> (gmap Z pipe)) (x : fsst) : fsst :=
  {| bufs := bufs x; lru := lru x; disk := disk x; disksize := disksize x; sb := sb x;
     log := log x; inodes := inodes x; files := files x; pipes := g (pipes x) |}.

(** The globals of console.c and what has been printed by [consolewrite];
    [cons_dev]: the console is in [devsw]. *)
Record const := Const {
  cons_dev : bool;
  input_buf : list Z;
  input_r : Z;
  input_w : Z;
  input_e : Z;
  output : list Z }.

Definition upd_cons_dev (g : bool -> bool) (x : const) : const :=
  {| cons_dev := g (cons_dev x); input_buf := input_buf x; input_r := input_r x;
     input_w := input_w x; input_e := input_e x; output := output x |}.
Definition upd_input_buf (g : (list Z) -> (list Z)) (x : const) : const :=
  {| cons_dev := cons_dev x; input_buf := g (input_buf x); input_r := input_r x;
     input_w := input_w x; input_e := input_e x; output := output x |}.
Definition upd_input_r (g : Z -> Z) (x : const) : const :=
  {| cons_dev := cons_dev x; input_buf := input_buf x; input_r := g (input_r x);
     input_w := input_w x; input_e := input_e x; output := output x |}.
Definition upd_input_w (g : Z -> Z) (x : const) : const :=
  {| cons_dev := cons_dev x; input_buf := input_buf x; input_r := input_r x;
     input_w := g (input_w x); input_e := input_e x; output := output x |}.
Definition upd_input_e (g : Z -> Z) (x : const) : const :=
  {| cons_dev := cons_dev x; input_buf := input_buf x; input_r := input_r x;
     input_w := input_w x; input_e := g (input_e x); output := output x |}.
Definition upd_output (g : (list Z) -> (list Z)) (x : const) : const :=
  {| cons_dev := cons_dev x; input_buf := input_buf x; input_r := input_r x;
     input_w := input_w x; input_e := input_e x; output := g (output x) |}.

(** The kernel's state. *)
Record kst := Kst {
  k_mm : mm;
  k_pt : prst;
  k_fs : fsst;
  k_con : const }.

Definition upd_k_mm (g : mm -> mm) (x : kst) : kst :=
  {| k_mm := g (k_mm x); k_pt := k_pt x; k_fs := k_fs x; k_con := k_con x |}.
Definition upd_k_pt (g : prst -> prst) (x : kst) : kst :=
  {| k_mm := k_mm x; k_pt := g (k_pt x); k_fs := k_fs x; k_con := k_con x |}.
Definition upd_k_fs (g : fsst -> fsst) (x : kst) : kst :=
  {| k_mm := k_mm x; k_pt := k_pt x; k_fs := g (k_fs x); k_con := k_con x |}.
Definition upd_k_con (g : const -> const) (x : kst) : kst :=
  {| k_mm := k_mm x; k_pt := k_pt x; k_fs := k_fs x; k_con := g (k_con x) |}.

#[export] Instance kst_HasCpu : HasCpu kst.
Proof.
  refine {| get_cpu := fun s => mm_cpu (k_mm s);
            set_cpu := fun c s => upd_k_mm (set_cpu c) s |}.
  - done.
  - done.
  - by intros [[] ? ? ?].
Defined.

(** Code of the memory system run by the kernel. *)
Fixpoint lift_res {A} (r : res mm A) (s : kst) : res kst A :=
  match r with
  | Ok a m => Ok a (upd_k_mm (fun _ => m) s)
  | Panic msg => Panic msg
  | Undef msg => Undef msg
  | NoFuel => NoFuel
  | Sched m k => Sched (upd_k_mm (fun _ => m) s) (fun s' => lift_res (k (k_mm s')) s')
  end.

Definition lift_mm {A} (m : M mm A) : M kst A := fun s => lift_res (m (k_mm s)) s.

(** Access to the tables. *)
Definition pr_at (i : nat) (s : kst) : proc := procs (k_pt s) !!! i.
Definition upd_pr (i : nat) (f : proc -> proc) (s : kst) : kst :=
  upd_k_pt (upd_procs (alter f i)) s.
Definition buf_at (i : nat) (s : kst) : buf := bufs (k_fs s) !!! i.
Definition upd_buf (i : nat) (f : buf -> buf) (s : kst) : kst :=
  upd_k_fs (upd_bufs (alter f i)) s.
Definition ino_at (i : nat) (s : kst) : inode := inodes (k_fs s) !!! i.
Definition upd_ino (i : nat) (f : inode -> inode) (s : kst) : kst :=
  upd_k_fs (upd_inodes (alter f i)) s.
Definition file_at (i : nat) (s : kst) : file := files (k_fs s) !!! i.
Definition upd_file (i : nat) (f : file -> file) (s : kst) : kst :=
  upd_k_fs (upd_files (alter f i)) s.
Definition log_of (s : kst) : logst := log (k_fs s).
Definition upd_log_of (f : logst -> logst) (s : kst) : kst := upd_k_fs (upd_log f) s.

(** ** User memory

    The kernel runs on the current process's page table: an address below
    [KERNBASE] goes through it, a write needs [PTE_W] (entry.S sets CR0_WP).
    A fault in kernel mode is outside the model. *)

Definition translate (m : gmap Z Z) (dir va : Z) (wr : bool) : option Z :=
  let e := pte_at m dir va in
  if bit_set e PTE_P && (negb wr || bit_set e PTE_W)
  then Some (P2V (PTE_ADDR e) + va mod PGSIZE) else None.

Definition vload8 (va : Z) : M kst Z :=
  s <- get ;;
  let m := mem (k_mm s) in
  if KERNBASE <=? va then ret (load8 m va)
  else match translate m (P2V (c_cr3 (get_cpu s))) va false with
       | Some a => ret (load8 m a)
       | None => undef "page fault in the kernel"
       end.

Definition vstore8 (va b : Z) : M kst unit :=
  s <- get ;;
  let m := mem (k_mm s) in
  if KERNBASE <=? va then modify (upd_k_mm (set_mem (store8 m va b)))
  else match translate m (P2V (c_cr3 (get_cpu s))) va true with
       | Some a => modify (upd_k_mm (set_mem (store8 m a b)))
       | None => undef "page fault in the kernel"
       end.

Fixpoint vread (va : Z) (n : nat) : M kst (list Z) :=
  match n with
  | O => ret []
  | S n' => b <- vload8 va ;; bs <- vread (u32 (va + 1)) n' ;; ret (b :: bs)
  end.

Fixpoint vwrite (va : Z) (bs : list Z) : M kst unit :=
  match bs with
  | [] => ret tt
  | b :: bs' => vstore8 va b ;; vwrite (u32 (va + 1)) bs'
  end.

(** Where data goes to and comes from: offsets into the caller's buffer. *)
Definition sink := Z -> list Z -> M kst unit.
Definition source := Z -> nat -> M kst (list Z).

Definition to_user (va : Z) : sink := fun o bs => vwrite (u32 (va + o)) bs.
Definition from_user (va : Z) : source := fun o n => vread (u32 (va + o)) n.

(** A buffer of the caller: what is read is returned, what is written given. *)
Definition to_local : sink := fun _ _ => ret tt.
Definition from_local (bs : list Z) : source :=
  fun o n => ret (take n (drop (Z.to_nat o) bs)).

(** Words of a byte buffer, little endian. *)
Definition byte_at (bs : list Z) (i : Z) : Z := u8 (bs !!! Z.to_nat i).
Definition word_at (bs : list Z) (i : Z) : Z :=
  byte_at bs i + 256 * byte_at bs (i + 1) + 65536 * byte_at bs (i + 2) +
  16777216 * byte_at bs (i + 3).
Definition half_at (bs : list Z) (i : Z) : Z := byte_at bs i + 256 * byte_at bs (i + 1).

Definition word_bytes (v : Z) : list Z :=
  [u8 v; u8 (v / 256); u8 (v / 65536); u8 (v / 16777216)].
Definition half_bytes (v : Z) : list Z := [u8 v; u8 (v / 256)].

(** [bs] copied over a buffer at an offset. *)
Definition splice (buf : list Z) (o : Z) (bs : list Z) : list Z :=
  take (Z.to_nat o) buf ++ bs ++ drop (Z.to_nat o + length bs) buf.
