(* ===== verification/Sleep.v ===== *)
(** * proc.c: the current process, sched, sleep and wakeup; sleeplock.c

    [sched] ends in the resumption [Sched]: what the thread does after the
    scheduler has switched back to it.  A loop that waits may be woken any
    number of times; [Waits] bounds it, and the specifications hold for every
    bound. *)

From S2P Require Import Prelude Machine StringC Spinlock Kalloc Vm Kernel.

(** How many times a waiting loop may go round. *)
Class Waits := waits : nat.

(** The check of [mycpu]; the search by APIC id finds the current CPU. *)
Definition mycpu : M kst cpu :=
  c <- gets get_cpu ;;
  if c_if c then panic "mycpu called with interrupts enabled" else ret c.

Definition myproc : M kst (option nat) :=
  pushcli ;;
  mycpu ;;
  p <- gets (fun s => curproc (k_pt s)) ;;
  popcli ;;
  ret p.

(** [myproc()->...]: a null pointer has no fields. *)
Definition me : M kst nat :=
  p <- myproc ;;
  match p with Some i => ret i | None => undef "myproc() is null" end.

Definition set_intena (b : bool) (c : cpu) : cpu :=
  {| c_if := c_if c; ncli := ncli c; intena := b; held := held c;
     c_cr3 := c_cr3 c; c_esp0 := c_esp0 c |}.

Definition sched : M kst unit :=
  p <- me ;;
  h <- holding L_ptable ;;
  if negb h then panic "sched ptable.lock"
  else
    c <- mycpu ;;
    if negb (ncli c =? 1) then panic "sched locks"
    else
      st <- gets (fun s => state (pr_at p s)) ;;
      if bool_decide (st = RUNNING) then panic "sched running"
      else if c_if c then panic "sched interruptible"
      else
        modify (upd_pr p (upd_context (fun _ => KSched))) ;;
        swtch ;;
        mycpu ;;
        modify (fun s => set_cpu (set_intena (intena c) (get_cpu s)) s).

Definition yield : M kst unit :=
  acquire L_ptable ;;
  p <- me ;;
  modify (upd_pr p (upd_state (fun _ => RUNNABLE))) ;;
  sched ;;
  release L_ptable.

(** [sleep], for given lock operations. *)
Definition sleep_with (acq rel : lockid -> M kst unit) (ch : chan) (lk : lockid) : M kst unit :=
  op <- myproc ;;
  match op with
  | None => panic "sleep"
  | Some p =>
      (when negb (bool_decide (lk = L_ptable)) do
        (acq L_ptable ;; rel lk)) ;;
      modify (upd_pr p (upd_pchan (fun _ => Some ch))) ;;
      modify (upd_pr p (upd_state (fun _ => SLEEPING))) ;;
      sched ;;
      modify (upd_pr p (upd_pchan (fun _ => None))) ;;
      when negb (bool_decide (lk = L_ptable)) do
        (rel L_ptable ;; acq lk)
  end.

Definition sleep : chan -> lockid -> M kst unit := sleep_with acquire release.

Definition wake (ch : option chan) (p : proc) : proc :=
  if bool_decide (state p = SLEEPING) && bool_decide (pchan p = ch)
  then upd_state (fun _ => RUNNABLE) p else p.

(** The loop over the table; [None] is the null channel. *)
Definition wakeup1 (ch : option chan) : M kst unit :=
  modify (upd_k_pt (upd_procs (fmap (wake ch)))).

Definition wakeup (ch : chan) : M kst unit :=
  acquire L_ptable ;;
  wakeup1 (Some ch) ;;
  release L_ptable.

Fixpoint kill_at (i : nat) (n : nat) (k_pid : Z) : M kst (option Z) :=
  match n with
  | O => ret None
  | S n' =>
      p <- gets (pr_at i) ;;
      if pid p =? k_pid then
        modify (upd_pr i (upd_killed (fun _ => 1))) ;;
        (when bool_decide (state p = SLEEPING) do
          modify (upd_pr i (upd_state (fun _ => RUNNABLE)))) ;;
        release L_ptable ;;
        ret (Some 0)
      else kill_at (S i) n' k_pid
  end.

Definition kill (k_pid : Z) : M kst Z :=
  acquire L_ptable ;;
  r <- kill_at 0 (Z.to_nat NPROC) k_pid ;;
  match r with
  | Some v => ret v
  | None => release L_ptable ;; ret (-1)
  end.

(** ** sleeplock.c

    A sleep-lock is given by its spinlock, its channel and its fields in the
    state. *)
Record slock := Slock {
  sl_lk : lockid;
  sl_chan : chan;
  sl_get : kst -> sleeplock;
  sl_set : sleeplock -> kst -> kst }.

Definition buf_lock (i : nat) : slock :=
  {| sl_lk := L_buf i; sl_chan := Ch_buf i;
     sl_get := fun s => block_lock (buf_at i s);
     sl_set := fun l => upd_buf i (upd_block_lock (fun _ => l)) |}.

Definition inode_lock (i : nat) : slock :=
  {| sl_lk := L_inode i; sl_chan := Ch_inode i;
     sl_get := fun s => ilk (ino_at i s);
     sl_set := fun l => upd_ino i (upd_ilk (fun _ => l)) |}.

Definition initsleeplock (lk : slock) : M kst unit :=
  initlock (sl_lk lk) ;;
  modify (sl_set lk sleeplock0).

Section Sleeplock.
Context `{Waits}.

Definition acquiresleep (lk : slock) : M kst unit :=
  acquire (sl_lk lk) ;;
  loop waits (fun _ =>
    b <- gets (fun s => locked (sl_get lk s)) ;;
    if b then sleep (sl_chan lk) (sl_lk lk) ;; ret (inl tt) else ret (inr tt)) tt ;;
  modify (fun s => sl_set lk (upd_locked (fun _ => true) (sl_get lk s)) s) ;;
  p <- me ;;
  my <- gets (fun s => pid (pr_at p s)) ;;
  modify (fun s => sl_set lk (upd_sl_pid (fun _ => my) (sl_get lk s)) s) ;;
  release (sl_lk lk).

Definition releasesleep (lk : slock) : M kst unit :=
  acquire (sl_lk lk) ;;
  modify (fun s => sl_set lk (upd_locked (fun _ => false) (sl_get lk s)) s) ;;
  modify (fun s => sl_set lk (upd_sl_pid (fun _ => 0) (sl_get lk s)) s) ;;
  wakeup (sl_chan lk) ;;
  release (sl_lk lk).

(** [&&] calls [myproc()] only when the lock is taken. *)
Definition holdingsleep (lk : slock) : M kst bool :=
  acquire (sl_lk lk) ;;
  l <- gets (sl_get lk) ;;
  r <- (if locked l then
          p <- me ;;
          my <- gets (fun s => pid (pr_at p s)) ;;
          ret (sl_pid l =? my)
        else ret false) ;;
  release (sl_lk lk) ;;
  ret r.
End Sleeplock.
