(* ===== verification/Bio.v ===== *)
(** * bio.c and memide.c: the buffer cache over the disk

    Buffers are indices into [bufs]; the list through [prev]/[next] is
    [lru], most recently used first.  The disk is the one of memide.c, kept
    as the writes made to it; a block never written is zero. *)

From S2P Require Import Prelude Machine StringC Spinlock Kalloc Vm Kernel Sleep.

(** Block [b] of a disk: the last write to it. *)
Fixpoint disk_at (d : list (Z * list Z)) (b : Z) : list Z :=
  match d with
  | [] => replicate (Z.to_nat BSIZE) 0
  | (b', x) :: d' => if b =? b' then x else disk_at d' b
  end.

Definition disk_block (s : kst) (b : Z) : list Z := disk_at (disk (k_fs s)) b.

(** The first buffer of a list that satisfies a test. *)
Fixpoint find_buf (f : buf -> bool) (l : list nat) (s : kst) : option nat :=
  match l with
  | [] => None
  | i :: l' => if f (buf_at i s) then Some i else find_buf f l' s
  end.

(** Move [i] to the front of the list. *)
Definition lru_front (i : nat) (l : list nat) : list nat := i :: filter (fun j => j <> i) l.

Section Bio.
Context `{Waits}.

Definition ideinit (img_size : Z) : M kst unit :=
  modify (upd_k_fs (upd_disksize (fun _ => img_size / BSIZE))).

Definition ideintr : M kst unit := ret tt.

Definition iderw (b : nat) : M kst unit :=
  h <- holdingsleep (buf_lock b) ;;
  if negb h then panic "iderw: buf not locked"
  else
    bf <- gets (buf_at b) ;;
    if Z.land (bflags bf) (Z.lor B_VALID B_DIRTY) =? B_VALID then panic "iderw: nothing to do"
    else if negb (bdev bf =? 1) then panic "iderw: request not for disk 1"
    else
      n <- gets (fun s => disksize (k_fs s)) ;;
      if n <=? blockno bf then panic "iderw: block out of range"
      else
        (if bit_set (bflags bf) B_DIRTY then
           modify (upd_buf b (upd_bflags (fun fl => Z.land fl (Z.lnot B_DIRTY)))) ;;
           modify (upd_k_fs (upd_disk (cons (blockno bf, bdata bf))))
         else
           modify (fun s => upd_buf b (upd_bdata (fun _ => disk_block s (blockno bf))) s)) ;;
        modify (upd_buf b (upd_bflags (fun fl => Z.lor fl B_VALID))).

Definition binit_one (b : nat) : M kst unit :=
  initsleeplock (buf_lock b) ;;
  modify (upd_k_fs (upd_lru (cons b))).

Definition binit : M kst unit :=
  initlock L_bcache ;;
  modify (upd_k_fs (upd_lru (fun _ => []))) ;;
  for_all (seq 0 (Z.to_nat NBUF)) binit_one.

Definition bget (dev bno : Z) : M kst nat :=
  acquire L_bcache ;;
  s <- get ;;
  match find_buf (fun b => (bdev b =? dev) && (blockno b =? bno)) (lru (k_fs s)) s with
  | Some i =>
      modify (upd_buf i (upd_refcnt (fun n => n + 1))) ;;
      release L_bcache ;;
      acquiresleep (buf_lock i) ;;
      ret i
  | None =>
      match find_buf (fun b => (refcnt b =? 0) && negb (bit_set (bflags b) B_DIRTY))
              (reverse (lru (k_fs s))) s with
      | Some i =>
          modify (upd_buf i (fun b =>
            upd_bdev (fun _ => dev) (upd_blockno (fun _ => bno)
              (upd_bflags (fun _ => 0) (upd_refcnt (fun _ => 1) b))))) ;;
          release L_bcache ;;
          acquiresleep (buf_lock i) ;;
          ret i
      | None => panic "bget: no buffers"
      end
  end.

Definition bread (dev bno : Z) : M kst nat :=
  b <- bget dev bno ;;
  bf <- gets (buf_at b) ;;
  (when negb (bit_set (bflags bf) B_VALID) do iderw b) ;;
  ret b.

Definition bwrite (b : nat) : M kst unit :=
  h <- holdingsleep (buf_lock b) ;;
  if negb h then panic "bwrite"
  else
    modify (upd_buf b (upd_bflags (fun fl => Z.lor fl B_DIRTY))) ;;
    iderw b.

Definition brelse (b : nat) : M kst unit :=
  h <- holdingsleep (buf_lock b) ;;
  if negb h then panic "brelse"
  else
    releasesleep (buf_lock b) ;;
    acquire L_bcache ;;
    modify (upd_buf b (upd_refcnt (fun n => u32 (n - 1)))) ;;
    n <- gets (fun s => refcnt (buf_at b s)) ;;
    (when n =? 0 do modify (upd_k_fs (upd_lru (lru_front b)))) ;;
    release L_bcache.

(** Data of a locked buffer. *)
Definition bget_data (b : nat) : M kst (list Z) := gets (fun s => bdata (buf_at b s)).
Definition bset_data (b : nat) (f : list Z -> list Z) : M kst unit :=
  modify (upd_buf b (upd_bdata f)).
End Bio.
