(* ===== verification/Log.v ===== *)
(** * log.c: transactions

    The in-memory header is [lh_n], [lh_block]; the on-disk header is a block
    whose first word is the count and the following words the block
    numbers. *)

From S2P Require Import Prelude Machine StringC Spinlock Kalloc Vm Kernel Sleep Bio.

(** The superblock, as [memmove] reads it from block 1. *)
Definition sb_decode (d : list Z) : superblock :=
  {| sb_size := word_at d 0; nblocks := word_at d 4; ninodes := word_at d 8;
     nlog := word_at d 12; logstart := word_at d 16; inodestart := word_at d 20;
     bmapstart := word_at d 24 |}.

(** The words [lh->n], [lh->block[i]] of a header block; block numbers are
    only used as unsigned. *)
Definition hd_n (d : list Z) : Z := s32 (word_at d 0).
Definition hd_block (d : list Z) (i : Z) : Z := word_at d (4 + 4 * i).

(** The stores of [write_head]: [n], then [block[0 .. n)]. *)
Definition hd_store (n : Z) (blocks : list Z) (d : list Z) : list Z :=
  foldl (fun d i => splice d (4 + 4 * i) (word_bytes (blocks !!! Z.to_nat i)))
    (splice d 0 (word_bytes n)) (seqZ 0 n).

Section Log.
Context `{Waits}.

Definition readsb (dev : Z) : M kst superblock :=
  bp <- bread dev 1 ;;
  d <- bget_data bp ;;
  brelse bp ;;
  ret (sb_decode d).

Definition install_one (tail : Z) : M kst unit :=
  l <- gets log_of ;;
  lbuf <- bread (ldev l) (lstart l + tail + 1) ;;
  dbuf <- bread (ldev l) (lh_block l !!! Z.to_nat tail) ;;
  d <- bget_data lbuf ;;
  bset_data dbuf (fun _ => d) ;;
  bwrite dbuf ;;
  brelse lbuf ;;
  brelse dbuf.

Definition install_trans : M kst unit :=
  n <- gets (fun s => lh_n (log_of s)) ;;
  for_all (seqZ 0 n) install_one.

Definition read_head : M kst unit :=
  l <- gets log_of ;;
  b <- bread (ldev l) (lstart l) ;;
  d <- bget_data b ;;
  modify (upd_log_of (upd_lh_n (fun _ => hd_n d))) ;;
  (if LOGSIZE <? hd_n d then undef "read_head: block[] out of bounds"
   else modify (upd_log_of (upd_lh_block (fun bl =>
     ((fun i => hd_block d i) <$> seqZ 0 (hd_n d)) ++ drop (Z.to_nat (hd_n d)) bl)))) ;;
  brelse b.

Definition write_head : M kst unit :=
  l <- gets log_of ;;
  b <- bread (ldev l) (lstart l) ;;
  l' <- gets log_of ;;
  bset_data b (hd_store (lh_n l') (lh_block l')) ;;
  bwrite b ;;
  brelse b.

Definition recover_from_log : M kst unit :=
  read_head ;;
  install_trans ;;
  modify (upd_log_of (upd_lh_n (fun _ => 0))) ;;
  write_head.

(** [sizeof(struct logheader)] is 4 + 4 * LOGSIZE bytes. *)
Definition initlog (dev : Z) : M kst unit :=
  if BSIZE <=? 4 + 4 * LOGSIZE then panic "initlog: too big logheader"
  else
    initlock L_log ;;
    sb <- readsb dev ;;
    modify (upd_log_of (upd_lstart (fun _ => logstart sb))) ;;
    modify (upd_log_of (upd_lsize (fun _ => nlog sb))) ;;
    modify (upd_log_of (upd_ldev (fun _ => dev))) ;;
    recover_from_log.

Definition begin_op : M kst unit :=
  acquire L_log ;;
  loop waits (fun _ =>
    l <- gets log_of ;;
    if committing l then sleep Ch_log L_log ;; ret (inl tt)
    else if LOGSIZE <? lh_n l + (outstanding l + 1) * MAXOPBLOCKS then
      sleep Ch_log L_log ;; ret (inl tt)
    else
      modify (upd_log_of (upd_outstanding (fun n => n + 1))) ;;
      release L_log ;;
      ret (inr tt)) tt.

Definition write_log_one (tail : Z) : M kst unit :=
  l <- gets log_of ;;
  to <- bread (ldev l) (lstart l + tail + 1) ;;
  from <- bread (ldev l) (lh_block l !!! Z.to_nat tail) ;;
  d <- bget_data from ;;
  bset_data to (fun _ => d) ;;
  bwrite to ;;
  brelse from ;;
  brelse to.

Definition write_log : M kst unit :=
  n <- gets (fun s => lh_n (log_of s)) ;;
  for_all (seqZ 0 n) write_log_one.

Definition commit : M kst unit :=
  n <- gets (fun s => lh_n (log_of s)) ;;
  when 0 <? n do
    (write_log ;;
     write_head ;;
     install_trans ;;
     modify (upd_log_of (upd_lh_n (fun _ => 0))) ;;
     write_head).

Definition end_op : M kst unit :=
  acquire L_log ;;
  modify (upd_log_of (upd_outstanding (fun n => n - 1))) ;;
  l <- gets log_of ;;
  if committing l then panic "log.committing"
  else
    (if outstanding l =? 0 then modify (upd_log_of (upd_committing (fun _ => true)))
     else wakeup Ch_log) ;;
    release L_log ;;
    when outstanding l =? 0 do
      (commit ;;
       acquire L_log ;;
       modify (upd_log_of (upd_committing (fun _ => false))) ;;
       wakeup Ch_log ;;
       release L_log).

(** The index the search loop stops at. *)
Fixpoint log_find (bs : list Z) (b : Z) (i n : nat) : nat :=
  match n with
  | O => i
  | S n' => if bs !!! i =? b then i else log_find bs b (S i) n'
  end.

Definition log_write (b : nat) : M kst unit :=
  l <- gets log_of ;;
  if (LOGSIZE <=? lh_n l) || (lsize l - 1 <=? lh_n l) then panic "too big a transaction"
  else if outstanding l <? 1 then panic "log_write outside of trans"
  else
    acquire L_log ;;
    l' <- gets log_of ;;
    bno <- gets (fun s => blockno (buf_at b s)) ;;
    let i := log_find (lh_block l') bno 0 (Z.to_nat (lh_n l')) in
    modify (upd_log_of (upd_lh_block (<[i := bno]>))) ;;
    (when Z.of_nat i =? lh_n l' do modify (upd_log_of (upd_lh_n (fun n => n + 1)))) ;;
    modify (upd_buf b (upd_bflags (fun fl => Z.lor fl B_DIRTY))) ;;
    release L_log.
End Log.
