(* ===== verification/Inode.v ===== *)
(** * fs.c: blocks and inodes

    Block allocation in the bitmap, the inode cache, the mapping of file
    blocks to disk blocks, truncation. *)

From S2P Require Import Prelude Machine StringC Spinlock Kalloc Vm Kernel Sleep Bio Log.

Definition IBLOCK (i : Z) (sb : superblock) : Z := u32 (i / IPB + inodestart sb).
Definition BBLOCK (b : Z) (sb : superblock) : Z := u32 (b / BPB + bmapstart sb).

(** [struct dinode] at an offset of a block. *)
Record dinode := Dinode {
  d_type : Z; d_major : Z; d_minor : Z; d_nlink : Z; d_size : Z; d_addrs : list Z }.

Definition dinode_decode (d : list Z) (o : Z) : dinode :=
  {| d_type := s16 (half_at d o); d_major := s16 (half_at d (o + 2));
     d_minor := s16 (half_at d (o + 4)); d_nlink := s16 (half_at d (o + 6));
     d_size := word_at d (o + 8);
     d_addrs := (fun i => word_at d (o + 12 + 4 * i)) <$> seqZ 0 (NDIRECT + 1) |}.

Definition dinode_encode (x : dinode) : list Z :=
  half_bytes (d_type x) ++ half_bytes (d_major x) ++ half_bytes (d_minor x) ++
  half_bytes (d_nlink x) ++ word_bytes (d_size x) ++ concat (word_bytes <$> d_addrs x).

Definition to_dinode (x : inode) : dinode :=
  {| d_type := itype x; d_major := imajor x; d_minor := iminor x; d_nlink := nlink x;
     d_size := isize x; d_addrs := addrs x |}.

Definition of_dinode (x : dinode) (i : inode) : inode :=
  {| idev := idev i; inum := inum i; iref := iref i; ilk := ilk i; ivalid := ivalid i;
     itype := d_type x; imajor := d_major x; iminor := d_minor x; nlink := d_nlink x;
     isize := d_size x; addrs := d_addrs x |}.

(** The bit of block [bi] in a bitmap block. *)
Definition bit_mask (bi : Z) : Z := Z.shiftl 1 (bi mod 8).
Definition bit_used (d : list Z) (bi : Z) : bool :=
  negb (Z.land (byte_at d (bi / 8)) (bit_mask bi) =? 0).
Definition bit_mark (d : list Z) (bi : Z) : list Z :=
  <[Z.to_nat (bi / 8) := Z.lor (byte_at d (bi / 8)) (bit_mask bi)]> d.
Definition bit_clear (d : list Z) (bi : Z) : list Z :=
  <[Z.to_nat (bi / 8) := Z.land (byte_at d (bi / 8)) (Z.lnot (bit_mask bi))]> d.

(** The inner loop of [balloc]: the first free bit from [bi] on. *)
Fixpoint bscan (d : list Z) (b size bi : Z) (n : nat) : option Z :=
  match n with
  | O => None
  | S n' =>
      if b + bi <? size then
        if negb (bit_used d bi) then Some bi else bscan d b size (bi + 1) n'
      else None
  end.

Section Inode.
Context `{Waits}.

Definition get_sb : M kst superblock := gets (fun s => sb (k_fs s)).

Definition bzero (dev bno : Z) : M kst unit :=
  bp <- bread dev bno ;;
  bset_data bp (fun _ => replicate (Z.to_nat BSIZE) 0) ;;
  log_write bp ;;
  brelse bp.

Definition balloc_chunk (dev b : Z) : M kst (option Z) :=
  sb <- get_sb ;;
  bp <- bread dev (BBLOCK b sb) ;;
  d <- bget_data bp ;;
  match bscan d b (sb_size sb) 0 (Z.to_nat BPB) with
  | Some bi =>
      bset_data bp (fun d => bit_mark d bi) ;;
      log_write bp ;;
      brelse bp ;;
      bzero dev (b + bi) ;;
      ret (Some (b + bi))
  | None => brelse bp ;; ret None
  end.

(** The values of [b] in the outer loop. *)
Definition balloc_starts (size : Z) : list Z :=
  (fun k => k * BPB) <$> seqZ 0 ((size + BPB - 1) / BPB).

Definition balloc (dev : Z) : M kst Z :=
  sb <- get_sb ;;
  r <- for_each (balloc_starts (sb_size sb)) (balloc_chunk dev) ;;
  match r with
  | Some b => ret b
  | None => panic "balloc: out of blocks"
  end.

Definition bfree (dev b : Z) : M kst unit :=
  sb <- get_sb ;;
  bp <- bread dev (BBLOCK b sb) ;;
  let bi := b mod BPB in
  d <- bget_data bp ;;
  if negb (bit_used d bi) then panic "freeing free block"
  else
    bset_data bp (fun d => bit_clear d bi) ;;
    log_write bp ;;
    brelse bp.

Definition iinit (dev : Z) : M kst unit :=
  initlock L_icache ;;
  for_all (seq 0 (Z.to_nat NINODE)) (fun i => initsleeplock (inode_lock i)) ;;
  sb' <- readsb dev ;;
  modify (upd_k_fs (upd_sb (fun _ => sb'))).

(** The search of [iget]: a hit, or the first empty slot. *)
Fixpoint iget_scan (l : list inode) (dev n : Z) (i : nat) (empty : option nat) : nat + option nat :=
  match l with
  | [] => inr empty
  | x :: l' =>
      if (0 <? iref x) && (idev x =? dev) && (inum x =? n) then inl i
      else iget_scan l' dev n (S i)
             (match empty with
              | None => if iref x =? 0 then Some i else None
              | Some e => Some e
              end)
  end.

Definition iget (dev n : Z) : M kst nat :=
  acquire L_icache ;;
  l <- gets (fun s => inodes (k_fs s)) ;;
  match iget_scan l dev n 0 None with
  | inl i =>
      modify (upd_ino i (upd_iref (fun r => r + 1))) ;;
      release L_icache ;;
      ret i
  | inr None => panic "iget: no inodes"
  | inr (Some i) =>
      modify (upd_ino i (fun x =>
        upd_idev (fun _ => dev) (upd_inum (fun _ => n)
          (upd_iref (fun _ => 1) (upd_ivalid (fun _ => false) x))))) ;;
      release L_icache ;;
      ret i
  end.

Definition idup (i : nat) : M kst nat :=
  acquire L_icache ;;
  modify (upd_ino i (upd_iref (fun r => r + 1))) ;;
  release L_icache ;;
  ret i.

Definition ialloc_one (dev ty n : Z) : M kst (option nat) :=
  sb <- get_sb ;;
  bp <- bread dev (IBLOCK n sb) ;;
  d <- bget_data bp ;;
  let o := 64 * (n mod IPB) in
  if d_type (dinode_decode d o) =? 0 then
    bset_data bp (fun d =>
      splice (splice d o (replicate 64 0)) o (half_bytes ty)) ;;
    log_write bp ;;
    brelse bp ;;
    i <- iget dev n ;;
    ret (Some i)
  else brelse bp ;; ret None.

Definition ialloc (dev ty : Z) : M kst nat :=
  sb <- get_sb ;;
  r <- for_each (seqZ 1 (ninodes sb - 1)) (ialloc_one dev ty) ;;
  match r with
  | Some i => ret i
  | None => panic "ialloc: no inodes"
  end.

Definition iupdate (i : nat) : M kst unit :=
  x <- gets (ino_at i) ;;
  sb <- get_sb ;;
  bp <- bread (idev x) (IBLOCK (inum x) sb) ;;
  x' <- gets (ino_at i) ;;
  bset_data bp (fun d => splice d (64 * (inum x mod IPB)) (dinode_encode (to_dinode x'))) ;;
  log_write bp ;;
  brelse bp.

Definition ilock (i : nat) : M kst unit :=
  x <- gets (ino_at i) ;;
  if iref x <? 1 then panic "ilock"
  else
    acquiresleep (inode_lock i) ;;
    x <- gets (ino_at i) ;;
    when negb (ivalid x) do
      (sb <- get_sb ;;
       bp <- bread (idev x) (IBLOCK (inum x) sb) ;;
       d <- bget_data bp ;;
       let dip := dinode_decode d (64 * (inum x mod IPB)) in
       modify (upd_ino i (of_dinode dip)) ;;
       brelse bp ;;
       modify (upd_ino i (upd_ivalid (fun _ => true))) ;;
       when d_type dip =? 0 do panic "ilock: no type").

Definition iunlock (i : nat) : M kst unit :=
  h <- holdingsleep (inode_lock i) ;;
  x <- gets (ino_at i) ;;
  if negb h || (iref x <? 1) then panic "iunlock"
  else releasesleep (inode_lock i).

Definition itrunc_direct (i : nat) (k : Z) : M kst unit :=
  x <- gets (ino_at i) ;;
  let a := addrs x !!! Z.to_nat k in
  when negb (a =? 0) do
    (bfree (idev x) a ;;
     modify (upd_ino i (upd_addrs (<[Z.to_nat k := 0]>)))).

Definition itrunc_indirect (i : nat) (bp : nat) (j : Z) : M kst unit :=
  d <- bget_data bp ;;
  x <- gets (ino_at i) ;;
  when negb (word_at d (4 * j) =? 0) do bfree (idev x) (word_at d (4 * j)).

Definition itrunc (i : nat) : M kst unit :=
  for_all (seqZ 0 NDIRECT) (itrunc_direct i) ;;
  x <- gets (ino_at i) ;;
  let a := addrs x !!! Z.to_nat NDIRECT in
  (when negb (a =? 0) do
    (bp <- bread (idev x) a ;;
     for_all (seqZ 0 NINDIRECT) (itrunc_indirect i bp) ;;
     brelse bp ;;
     bfree (idev x) a ;;
     modify (upd_ino i (upd_addrs (<[Z.to_nat NDIRECT := 0]>))))) ;;
  modify (upd_ino i (upd_isize (fun _ => 0))) ;;
  iupdate i.

Definition iput (i : nat) : M kst unit :=
  acquiresleep (inode_lock i) ;;
  x <- gets (ino_at i) ;;
  (when ivalid x && (nlink x =? 0) do
    (acquire L_icache ;;
     r <- gets (fun s => iref (ino_at i s)) ;;
     release L_icache ;;
     when r =? 1 do
       (itrunc i ;;
        modify (upd_ino i (upd_itype (fun _ => 0))) ;;
        iupdate i ;;
        modify (upd_ino i (upd_ivalid (fun _ => false)))))) ;;
  releasesleep (inode_lock i) ;;
  acquire L_icache ;;
  modify (upd_ino i (upd_iref (fun r => r - 1))) ;;
  release L_icache.

Definition iunlockput (i : nat) : M kst unit :=
  iunlock i ;;
  iput i.

Definition bmap (i : nat) (bn : Z) : M kst Z :=
  x <- gets (ino_at i) ;;
  if bn <? NDIRECT then
    let a := addrs x !!! Z.to_nat bn in
    if a =? 0 then
      a' <- balloc (idev x) ;;
      modify (upd_ino i (upd_addrs (<[Z.to_nat bn := a']>))) ;;
      ret a'
    else ret a
  else
    let bn := bn - NDIRECT in
    if bn <? NINDIRECT then
      let a := addrs x !!! Z.to_nat NDIRECT in
      a <- (if a =? 0 then
              a' <- balloc (idev x) ;;
              modify (upd_ino i (upd_addrs (<[Z.to_nat NDIRECT := a']>))) ;;
              ret a'
            else ret a) ;;
      bp <- bread (idev x) a ;;
      d <- bget_data bp ;;
      let e := word_at d (4 * bn) in
      e <- (if e =? 0 then
              e' <- balloc (idev x) ;;
              bset_data bp (fun d => splice d (4 * bn) (word_bytes e')) ;;
              log_write bp ;;
              ret e'
            else ret e) ;;
      brelse bp ;;
      ret e
    else panic "bmap: out of range".

(** The stores into [struct stat] at the user address [st]. *)
Definition stati (i : nat) (st : Z) : M kst unit :=
  x <- gets (ino_at i) ;;
  vwrite (u32 (st + 4)) (word_bytes (idev x)) ;;
  vwrite (u32 (st + 8)) (word_bytes (inum x)) ;;
  vwrite st (half_bytes (itype x)) ;;
  vwrite (u32 (st + 12)) (half_bytes (nlink x)) ;;
  vwrite (u32 (st + 16)) (word_bytes (isize x)).
End Inode.
