(* ===== verification/Console.v ===== *)
(** * console.c: the console device

    The line editor and the input queue between the interrupt handler and
    [consoleread].  Output to the screen and the serial port is the list
    [output]; the messages of [cprintf] are not part of it. *)

From S2P Require Import Prelude Machine StringC Spinlock Kalloc Vm Kernel Sleep Bio Log Inode.

Definition INPUT_BUF : Z := 128.
Definition BACKSPACE : Z := 0x100.
Definition ctrl (c : Z) : Z := c - 64.
Definition ch_nl : Z := 10.
Definition ch_cr : Z := 13.
Definition ch_del : Z := 127.

Definition con (s : kst) : const := k_con s.

Definition consputc (c : Z) : M kst unit := modify (upd_k_con (upd_output (fun l => l ++ [c]))).

Definition in_at (k : Z) (c : const) : Z := input_buf c !!! Z.to_nat (k mod INPUT_BUF).

(** The loop of ^U, until the line is empty: at most [INPUT_BUF] times. *)
Fixpoint kill_line (n : nat) : M kst unit :=
  match n with
  | O => fun _ => NoFuel
  | S n' =>
      c <- gets con ;;
      if negb (input_e c =? input_w c) && negb (in_at (u32 (input_e c - 1)) c =? ch_nl) then
        modify (upd_k_con (upd_input_e (fun e => u32 (e - 1)))) ;;
        consputc BACKSPACE ;;
        kill_line n'
      else ret tt
  end.

(** One character of [getc]; the result says whether to dump the processes. *)
Definition consoleintr_char (c : Z) : M kst bool :=
  if c =? ctrl 80 then ret true
  else if c =? ctrl 85 then kill_line (Z.to_nat INPUT_BUF + 1) ;; ret false
  else if (c =? ctrl 72) || (c =? ch_del) then
    k <- gets con ;;
    (when negb (input_e k =? input_w k) do
      (modify (upd_k_con (upd_input_e (fun e => u32 (e - 1)))) ;; consputc BACKSPACE)) ;;
    ret false
  else
    k <- gets con ;;
    (when negb (c =? 0) && (u32 (input_e k - input_r k) <? INPUT_BUF) do
      (let c := if c =? ch_cr then ch_nl else c in
       modify (upd_k_con (upd_input_buf (<[Z.to_nat (input_e k mod INPUT_BUF) := u8 c]>))) ;;
       modify (upd_k_con (upd_input_e (fun e => u32 (e + 1)))) ;;
       consputc c ;;
       k' <- gets con ;;
       when (c =? ch_nl) || (c =? ctrl 68) ||
            (input_e k' =? u32 (input_r k' + INPUT_BUF)) do
         (modify (upd_k_con (upd_input_w (fun _ => input_e k'))) ;;
          wakeup Ch_input))) ;;
    ret false.

(** [getc] returns the characters of the list, then a negative number. *)
Definition consoleintr (cs : list Z) : M kst unit :=
  acquire L_cons ;;
  for_all cs (fun c => consoleintr_char c ;; ret tt) ;;
  release L_cons.

(** The results of [getc] up to the first negative one, which [consoleintr]
    takes one by one. *)
Fixpoint getc_all {S} (getc : M S Z) (fuel : nat) : M S (list Z) :=
  match fuel with
  | O => fun _ => NoFuel
  | Datatypes.S f =>
      c <- getc ;;
      if 0 <=? c then cs <- getc_all getc f ;; ret (c :: cs) else ret []
  end.

Section Console.
Context `{Waits}.

(** Wait for a finished line; [false] when the process has been killed. *)
Definition cons_wait : M kst bool :=
  loop waits (fun _ =>
    c <- gets con ;;
    if input_r c =? input_w c then
      p <- me ;;
      k <- gets (fun s => killed (pr_at p s)) ;;
      if negb (k =? 0) then ret (inr false)
      else sleep Ch_input L_cons ;; ret (inl tt)
    else ret (inr true)) tt.

(** [n] bytes are still wanted, [o] have been stored. *)
Fixpoint consoleread_loop (dst : sink) (o : Z) (n : nat) : M kst (option Z) :=
  match n with
  | O => ret (Some 0)
  | S n' =>
      ok <- cons_wait ;;
      if negb ok then ret None
      else
        k <- gets con ;;
        let c := in_at (input_r k) k in
        modify (upd_k_con (upd_input_r (fun r => u32 (r + 1)))) ;;
        if c =? ctrl 68 then
          (when 0 <? o do modify (upd_k_con (upd_input_r (fun r => u32 (r - 1))))) ;;
          ret (Some (Z.of_nat n))
        else
          dst o [c] ;;
          if c =? ch_nl then ret (Some (Z.of_nat n'))
          else consoleread_loop dst (o + 1) n'
  end.

Definition consoleread (i : nat) (dst : sink) (n : Z) : M kst Z :=
  iunlock i ;;
  acquire L_cons ;;
  r <- consoleread_loop dst 0 (Z.to_nat n) ;;
  release L_cons ;;
  ilock i ;;
  match r with
  | None => ret (-1)
  | Some rest => ret (if n <=? 0 then 0 else n - rest)
  end.

Definition consolewrite (i : nat) (src : source) (n : Z) : M kst Z :=
  iunlock i ;;
  acquire L_cons ;;
  for_all (seqZ 0 n) (fun k =>
    bs <- src k 1%nat ;;
    consputc (bs !!! O)) ;;
  release L_cons ;;
  ilock i ;;
  ret n.

Definition consoleinit : M kst unit :=
  initlock L_cons ;;
  modify (upd_k_con (upd_cons_dev (fun _ => true))).
End Console.
