(* ===== verification/Fs.v ===== *)
(** * fs.c: file contents, directories, path names *)

From S2P Require Import Prelude Machine StringC Spinlock Kalloc Vm Kernel Sleep Bio Log Inode Console.

Definition CONSOLE : Z := 1.

(** [sizeof(struct dirent)]. *)
Definition DESIZE : Z := 16.

Definition de_inum (de : list Z) : Z := half_at de 0.
Definition de_name (de : list Z) : Z -> Z := fun i => byte_at de (2 + i).

(** A string given by its bytes: nul from its end on. *)
Definition cstr (l : list Z) : Z -> Z := fun i => l !!! Z.to_nat i.

Definition ch_slash : Z := 47.

Fixpoint skip_slashes (path : list Z) : list Z :=
  match path with
  | c :: path' => if c =? ch_slash then skip_slashes path' else path
  | [] => []
  end.

Fixpoint split_elem (path : list Z) : list Z * list Z :=
  match path with
  | c :: path' =>
      if c =? ch_slash then ([], path)
      else let (e, r) := split_elem path' in (c :: e, r)
  | [] => ([], [])
  end.

(** The name is cut to [DIRSIZ] bytes. *)
Definition skipelem (path : list Z) : option (list Z * list Z) :=
  match skip_slashes path with
  | [] => None
  | p => let (e, r) := split_elem p in Some (take (Z.to_nat DIRSIZ) e, skip_slashes r)
  end.

Definition namecmp (s t : Z -> Z) : Z := strncmp s t DIRSIZ.

Section Fs.
Context `{Waits}.

(** The copying loop of [readi]; each round reads at least a byte. *)
Fixpoint readi_loop (fuel : nat) (i : nat) (dst : sink) (o tot n : Z) (acc : list Z)
    : M kst (list Z) :=
  match fuel with
  | O => fun _ => NoFuel
  | S fuel' =>
      if tot <? n then
        x <- gets (ino_at i) ;;
        a <- bmap i (o / BSIZE) ;;
        bp <- bread (idev x) a ;;
        let m := Z.min (n - tot) (BSIZE - o mod BSIZE) in
        d <- bget_data bp ;;
        let bs := take (Z.to_nat m) (drop (Z.to_nat (o mod BSIZE)) d) in
        dst tot bs ;;
        brelse bp ;;
        readi_loop fuel' i dst (o + m) (tot + m) n (acc ++ bs)
      else ret acc
  end.

Definition dev_major_ok (x : inode) (c : const) : bool :=
  negb ((imajor x <? 0) || (NDEV <=? imajor x) || negb (cons_dev c && (imajor x =? CONSOLE))).

(** Returns the C result and the bytes stored. *)
Definition readi (i : nat) (dst : sink) (o n : Z) : M kst (Z * list Z) :=
  x <- gets (ino_at i) ;;
  if itype x =? T_DEV then
    c <- gets con ;;
    if negb (dev_major_ok x c) then ret (-1, [])
    else r <- consoleread i dst n ;; ret (r, [])
  else if (isize x <? o) || (u32 (o + n) <? o) then ret (-1, [])
  else
    let n := if isize x <? u32 (o + n) then isize x - o else n in
    bs <- readi_loop (Z.to_nat n + 1) i dst o 0 n [] ;;
    ret (n, bs).

Fixpoint writei_loop (fuel : nat) (i : nat) (src : source) (o tot n : Z) : M kst Z :=
  match fuel with
  | O => fun _ => NoFuel
  | S fuel' =>
      if tot <? n then
        x <- gets (ino_at i) ;;
        a <- bmap i (o / BSIZE) ;;
        bp <- bread (idev x) a ;;
        let m := Z.min (n - tot) (BSIZE - o mod BSIZE) in
        bs <- src tot (Z.to_nat m) ;;
        bset_data bp (fun d => splice d (o mod BSIZE) bs) ;;
        log_write bp ;;
        brelse bp ;;
        writei_loop fuel' i src (o + m) (tot + m) n
      else ret o
  end.

Definition writei (i : nat) (src : source) (o n : Z) : M kst Z :=
  x <- gets (ino_at i) ;;
  if itype x =? T_DEV then
    c <- gets con ;;
    if negb (dev_major_ok x c) then ret (-1)
    else consolewrite i src n
  else if (isize x <? o) || (u32 (o + n) <? o) then ret (-1)
  else if MAXFILE * BSIZE <? u32 (o + n) then ret (-1)
  else
    o' <- writei_loop (Z.to_nat n + 1) i src o 0 n ;;
    x' <- gets (ino_at i) ;;
    (when (0 <? n) && (isize x' <? o') do
      (modify (upd_ino i (upd_isize (fun _ => o'))) ;;
       iupdate i)) ;;
    ret n.

(** ** Directories *)

(** The entries at the offsets [0], [16], ... below the size. *)
Definition de_offs (size : Z) : list Z :=
  (fun k => k * DESIZE) <$> seqZ 0 ((size + DESIZE - 1) / DESIZE).

Definition dirlookup_at (dp : nat) (name : list Z) (o : Z) : M kst (option (nat * Z)) :=
  r <- readi dp to_local o DESIZE ;;
  if negb (fst r =? DESIZE) then panic "dirlookup read"
  else
    let de := snd r in
    if de_inum de =? 0 then ret None
    else if namecmp (cstr name) (de_name de) =? 0 then
      x <- gets (ino_at dp) ;;
      i <- iget (idev x) (de_inum de) ;;
      ret (Some (i, o))
    else ret None.

(** The inode and the offset of its entry. *)
Definition dirlookup (dp : nat) (name : list Z) : M kst (option (nat * Z)) :=
  x <- gets (ino_at dp) ;;
  if negb (itype x =? T_DIR) then panic "dirlookup not DIR"
  else for_each (de_offs (isize x)) (dirlookup_at dp name).

Definition dirlink_free (dp : nat) (o : Z) : M kst (option Z) :=
  r <- readi dp to_local o DESIZE ;;
  if negb (fst r =? DESIZE) then panic "dirlink read"
  else if de_inum (snd r) =? 0 then ret (Some o)
  else ret None.

Definition dirlink (dp : nat) (name : list Z) (n : Z) : M kst Z :=
  r <- dirlookup dp name ;;
  match r with
  | Some (i, _) => iput i ;; ret (-1)
  | None =>
      x <- gets (ino_at dp) ;;
      f <- for_each (de_offs (isize x)) (dirlink_free dp) ;;
      let o := default (Z.of_nat (length (de_offs (isize x))) * DESIZE) f in
      let de := half_bytes n ++ strncpy (cstr name) DIRSIZ in
      w <- writei dp (from_local de) o DESIZE ;;
      if negb (w =? DESIZE) then panic "dirlink" else ret 0
  end.

(** ** Paths *)

(** Every step consumes a byte of the path. *)
Fixpoint namex_loop (fuel : nat) (i : nat) (path : list Z) (nameiparent : bool) (name : list Z)
    : M kst (option nat * list Z) :=
  match fuel with
  | O => fun _ => NoFuel
  | S fuel' =>
      match skipelem path with
      | None =>
          if nameiparent then iput i ;; ret (None, name) else ret (Some i, name)
      | Some (name, path) =>
          ilock i ;;
          x <- gets (ino_at i) ;;
          if negb (itype x =? T_DIR) then iunlockput i ;; ret (None, name)
          else if nameiparent && bool_decide (path = []) then iunlock i ;; ret (Some i, name)
          else
            r <- dirlookup i name ;;
            match r with
            | None => iunlockput i ;; ret (None, name)
            | Some (next, _) =>
                iunlockput i ;;
                namex_loop fuel' next path nameiparent name
            end
      end
  end.

Definition namex (path : list Z) (nameiparent : bool) : M kst (option nat * list Z) :=
  i <- (if cstr path 0 =? ch_slash then iget ROOTDEV ROOTINO
        else
          p <- me ;;
          c <- gets (fun s => cwd (pr_at p s)) ;;
          match c with
          | Some c => idup c
          | None => undef "idup of a null inode"
          end) ;;
  namex_loop (length path + 1) i path nameiparent [].

Definition namei (path : list Z) : M kst (option nat) :=
  r <- namex path false ;;
  ret (fst r).

Definition nameiparent (path : list Z) : M kst (option nat * list Z) := namex path true.
End Fs.
