(* ===== verification/Pipe.v ===== *)
(** * pipe.c

    A pipe is the object in the page [p]; [nread] and [nwrite] are 32-bit
    counters that wrap around, the data a ring of [PIPESIZE] bytes. *)

From S2P Require Import Prelude Machine StringC Spinlock Kalloc Vm Kernel Sleep.

Definition PIPESIZE : Z := 512.

Definition get_pipe (p : Z) : M kst pipe :=
  s <- get ;;
  match pipes (k_fs s) !! p with
  | Some x => ret x
  | None => undef "not a pipe"
  end.

Definition upd_pipe (p : Z) (f : pipe -> pipe) : M kst unit :=
  modify (upd_k_fs (upd_pipes (alter f p))).

(** What [pipealloc] stores in a fresh page; the data are what was there. *)
Definition new_pipe (data : list Z) : pipe := Pipe data 0 0 true true.

Section Pipe.
Context `{KernelImage} `{Waits}.

Definition pipeclose (p : Z) (writable : bool) : M kst unit :=
  acquire (L_pipe p) ;;
  (if writable then
     upd_pipe p (upd_writeopen (fun _ => false)) ;;
     wakeup (Ch_nread p)
   else
     upd_pipe p (upd_readopen (fun _ => false)) ;;
     wakeup (Ch_nwrite p)) ;;
  x <- get_pipe p ;;
  if negb (readopen x) && negb (writeopen x) then
    release (L_pipe p) ;;
    modify (upd_k_fs (upd_pipes (delete p))) ;;
    lift_mm (kfree p)
  else release (L_pipe p).

(** Wait for room; [false]: the reader is gone or the process was killed. *)
Definition room_body (p : Z) (_ : unit) : M kst (unit + bool) :=
  x <- get_pipe p ;;
  if nwrite x =? u32 (nread x + PIPESIZE) then
    k <- (if readopen x then
            i <- me ;;
            gets (fun s => negb (killed (pr_at i s) =? 0))
          else ret true) ;;
    if k then ret (inr false)
    else
      wakeup (Ch_nread p) ;;
      sleep (Ch_nwrite p) (L_pipe p) ;;
      ret (inl tt)
  else ret (inr true).

Definition pipe_room (p : Z) : M kst bool := loop waits (room_body p) tt.

Definition pipe_put (b : Z) (x : pipe) : pipe :=
  upd_nwrite (fun w => u32 (w + 1))
    (upd_pdata (<[Z.to_nat (nwrite x mod PIPESIZE) := b]>) x).

Fixpoint pipewrite_loop (p : Z) (src : source) (i : Z) (n : nat) : M kst bool :=
  match n with
  | O => ret true
  | S n' =>
      ok <- pipe_room p ;;
      if negb ok then ret false
      else
        bs <- src i 1%nat ;;
        upd_pipe p (pipe_put (bs !!! O)) ;;
        pipewrite_loop p src (i + 1) n'
  end.

Definition pipewrite (p : Z) (src : source) (n : Z) : M kst Z :=
  acquire (L_pipe p) ;;
  ok <- pipewrite_loop p src 0 (Z.to_nat n) ;;
  if negb ok then release (L_pipe p) ;; ret (-1)
  else
    wakeup (Ch_nread p) ;;
    release (L_pipe p) ;;
    ret n.

(** Wait for data or the end of the writers; [false]: killed. *)
Definition data_body (p : Z) (_ : unit) : M kst (unit + bool) :=
  x <- get_pipe p ;;
  if (nread x =? nwrite x) && writeopen x then
    i <- me ;;
    k <- gets (fun s => killed (pr_at i s)) ;;
    if negb (k =? 0) then ret (inr false)
    else sleep (Ch_nread p) (L_pipe p) ;; ret (inl tt)
  else ret (inr true).

Definition pipe_data (p : Z) : M kst bool := loop waits (data_body p) tt.

Definition pipe_get (x : pipe) : Z := pdata x !!! Z.to_nat (nread x mod PIPESIZE).

Fixpoint piperead_loop (p : Z) (dst : sink) (i : Z) (n : nat) : M kst Z :=
  match n with
  | O => ret i
  | S n' =>
      x <- get_pipe p ;;
      if nread x =? nwrite x then ret i
      else
        upd_pipe p (upd_nread (fun r => u32 (r + 1))) ;;
        dst i [pipe_get x] ;;
        piperead_loop p dst (i + 1) n'
  end.

Definition piperead (p : Z) (dst : sink) (n : Z) : M kst Z :=
  acquire (L_pipe p) ;;
  ok <- pipe_data p ;;
  if negb ok then release (L_pipe p) ;; ret (-1)
  else
    i <- piperead_loop p dst 0 (Z.to_nat n) ;;
    wakeup (Ch_nwrite p) ;;
    release (L_pipe p) ;;
    ret i.
End Pipe.
