(* ===== verification/File.v ===== *)
(** * file.c: open files, and pipealloc of pipe.c *)

From S2P Require Import Prelude Machine StringC Spinlock Kalloc Vm Kernel Sleep Bio Log Inode.
From S2P Require Import Console Fs Pipe.

(** The first file with [ref == 0]. *)
Fixpoint free_file (l : list file) (i : nat) : option nat :=
  match l with
  | [] => None
  | f :: l' => if ref f =? 0 then Some i else free_file l' (S i)
  end.

Section File.
Context `{KernelImage} `{Waits}.

Definition fileinit : M kst unit := initlock L_ftable.

Definition filealloc : M kst (option nat) :=
  acquire L_ftable ;;
  l <- gets (fun s => files (k_fs s)) ;;
  match free_file l 0 with
  | Some i =>
      modify (upd_file i (upd_ref (fun _ => 1))) ;;
      release L_ftable ;;
      ret (Some i)
  | None => release L_ftable ;; ret None
  end.

Definition filedup (i : nat) : M kst nat :=
  acquire L_ftable ;;
  f <- gets (file_at i) ;;
  if ref f <? 1 then panic "filedup"
  else
    modify (upd_file i (upd_ref (fun r => r + 1))) ;;
    release L_ftable ;;
    ret i.

Definition fileclose (i : nat) : M kst unit :=
  acquire L_ftable ;;
  f <- gets (file_at i) ;;
  if ref f <? 1 then panic "fileclose"
  else
    modify (upd_file i (upd_ref (fun r => r - 1))) ;;
    if 0 <? ref f - 1 then release L_ftable
    else
      ff <- gets (file_at i) ;;
      modify (upd_file i (upd_ref (fun _ => 0))) ;;
      modify (upd_file i (upd_type (fun _ => FD_NONE))) ;;
      release L_ftable ;;
      match type ff with
      | FD_PIPE => pipeclose (fpipe ff) (writable ff)
      | FD_INODE => begin_op ;; iput (ip ff) ;; end_op
      | FD_NONE => ret tt
      end.

Definition filestat (i : nat) (st : Z) : M kst Z :=
  f <- gets (file_at i) ;;
  match type f with
  | FD_INODE =>
      ilock (ip f) ;;
      stati (ip f) st ;;
      iunlock (ip f) ;;
      ret 0
  | _ => ret (-1)
  end.

Definition fileread (i : nat) (dst : sink) (n : Z) : M kst Z :=
  f <- gets (file_at i) ;;
  if negb (readable f) then ret (-1)
  else
    match type f with
    | FD_PIPE => piperead (fpipe f) dst n
    | FD_INODE =>
        ilock (ip f) ;;
        o <- gets (fun s => off (file_at i s)) ;;
        r <- readi (ip f) dst o n ;;
        (when 0 <? fst r do modify (upd_file i (upd_off (fun o => u32 (o + fst r))))) ;;
        iunlock (ip f) ;;
        ret (fst r)
    | FD_NONE => panic "fileread"
    end.

(** [max] of [filewrite]: 1536 bytes. *)
Definition max_write : Z := ((MAXOPBLOCKS - 1 - 1 - 2) / 2) * 512.

(** The chunks from [k] on; the result is [i] when the loop ends. *)
Fixpoint filewrite_loop (fuel : nat) (i : nat) (src : source) (k n : Z) : M kst Z :=
  match fuel with
  | O => fun _ => NoFuel
  | S fuel' =>
      if k <? n then
        let n1 := Z.min (n - k) max_write in
        f <- gets (file_at i) ;;
        begin_op ;;
        ilock (ip f) ;;
        o <- gets (fun s => off (file_at i s)) ;;
        r <- writei (ip f) (fun o' m => src (k + o') m) o n1 ;;
        (when 0 <? r do modify (upd_file i (upd_off (fun o => u32 (o + r))))) ;;
        iunlock (ip f) ;;
        end_op ;;
        if r <? 0 then ret k
        else if negb (r =? n1) then panic "short filewrite"
        else filewrite_loop fuel' i src (k + r) n
      else ret k
  end.

Definition filewrite (i : nat) (src : source) (n : Z) : M kst Z :=
  f <- gets (file_at i) ;;
  if negb (writable f) then ret (-1)
  else
    match type f with
    | FD_PIPE => pipewrite (fpipe f) src n
    | FD_INODE =>
        k <- filewrite_loop (Z.to_nat (n / max_write) + 2) i src 0 n ;;
        ret (if k =? n then n else -1)
    | FD_NONE => panic "filewrite"
    end.

(** ** pipealloc *)

Definition pipe_files (f0 f1 : nat) (p : Z) : M kst unit :=
  modify (upd_file f0 (upd_type (fun _ => FD_PIPE))) ;;
  modify (upd_file f0 (upd_readable (fun _ => true))) ;;
  modify (upd_file f0 (upd_writable (fun _ => false))) ;;
  modify (upd_file f0 (upd_fpipe (fun _ => p))) ;;
  modify (upd_file f1 (upd_type (fun _ => FD_PIPE))) ;;
  modify (upd_file f1 (upd_readable (fun _ => false))) ;;
  modify (upd_file f1 (upd_writable (fun _ => true))) ;;
  modify (upd_file f1 (upd_fpipe (fun _ => p))).

Definition close_opt (f : option nat) : M kst unit :=
  match f with Some i => fileclose i | None => ret tt end.

(** The two files, or [None] for a result of -1.  When [kalloc] fails there
    is no page to free. *)
Definition pipealloc : M kst (option (nat * nat)) :=
  f0 <- filealloc ;;
  f1 <- (match f0 with Some _ => filealloc | None => ret None end) ;;
  match f0, f1 with
  | Some i0, Some i1 =>
      p <- lift_mm kalloc ;;
      if p =? 0 then close_opt f0 ;; close_opt f1 ;; ret None
      else
        s <- get ;;
        modify (upd_k_fs (upd_pipes
          (<[p := new_pipe (load_bytes (mem (k_mm s)) (p + 52) (Z.to_nat PIPESIZE))]>))) ;;
        initlock (L_pipe p) ;;
        pipe_files i0 i1 p ;;
        ret (Some (i0, i1))
  | _, _ => close_opt f0 ;; close_opt f1 ;; ret None
  end.
End File.
