(* ===== verification/Proc.v ===== *)
(** * proc.c: processes

    Process creation, termination and reaping, the scheduler's round, the
    VMA list of a process, and the routines of vm.c that switch address
    spaces. *)

From S2P Require Import Prelude Machine StringC Spinlock Kalloc Vm Kernel Sleep Bio Log Inode.
From S2P Require Import Console Fs Pipe File.

(** ** VMAs through pointers *)

Definition get_vma (v : vptr) : M kst vm_area :=
  s <- get ;;
  match v with
  | VNull => undef "null vm_area"
  | VHead i => ret (head (pr_at i s))
  | VTail i => ret (tail (pr_at i s))
  | VHeap a =>
      match vmas (k_pt s) !! a with
      | Some x => ret x
      | None => undef "not a vm_area"
      end
  end.

Definition set_vma (v : vptr) (f : vm_area -> vm_area) : M kst unit :=
  match v with
  | VNull => undef "null vm_area"
  | VHead i => modify (upd_pr i (upd_head f))
  | VTail i => modify (upd_pr i (upd_tail f))
  | VHeap a => modify (upd_k_pt (upd_vmas (alter f a)))
  end.

(** A list of distinct VMAs is no longer than this. *)
Definition vma_fuel (s : kst) : nat := size (vmas (k_pt s)) + 2 * Z.to_nat NPROC + 1.

Definition copy_vma (dst src : vptr) : M kst unit :=
  x <- get_vma src ;;
  set_vma dst (fun d =>
    {| valid := 1; start := start x; vend := vend x; pa := pa d; guardstart := guardstart d;
       len := len x; prot := prot x; vflags := vflags x; vfd := vfd x;
       space_after := space_after d; vf := vf x; next := next d |}).

(** The string of a literal, nul beyond its end. *)
Definition lit (s : string) : Z -> Z :=
  cstr ((fun c => Z.of_N (Ascii.N_of_ascii c)) <$> String.list_ascii_of_string s).

(** A [safestrcpy] into a name of 16 bytes. *)
Definition set_name (t : Z -> Z) (old : list Z) : list Z := splice old 0 (safestrcpy t 16).

Section Proc.
Context `{KernelImage} `{Waits}.

Definition switchkvm : M kst unit :=
  d <- gets (fun s => kpgdir (k_pt s)) ;;
  modify (fun s => set_cpu (set_vm_regs (V2P d) (c_esp0 (get_cpu s)) (get_cpu s)) s).

Definition kvmalloc : M kst unit :=
  d <- lift_mm setupkvm ;;
  modify (upd_k_pt (upd_kpgdir (fun _ => d))) ;;
  switchkvm.

(** The task state and [%cr3]; the segment descriptor is not kept. *)
Definition switchuvm (p : option nat) : M kst unit :=
  match p with
  | None => panic "switchuvm: no process"
  | Some i =>
      x <- gets (pr_at i) ;;
      if kstack x =? 0 then panic "switchuvm: no kstack"
      else if pgdir x =? 0 then panic "switchuvm: no pgdir"
      else
        pushcli ;;
        mycpu ;;
        modify (fun s => set_cpu (set_vm_regs (V2P (pgdir x)) (u32 (kstack x + KSTACKSIZE))
                                    (get_cpu s)) s) ;;
        popcli
  end.

Definition pinit : M kst unit := initlock L_ptable.

(** The first unused slot. *)
Fixpoint free_proc (l : list proc) (i : nat) : option nat :=
  match l with
  | [] => None
  | p :: l' => if bool_decide (state p = UNUSED) then Some i else free_proc l' (S i)
  end.

(** [nextpid] is an [int]: past the largest one, [nextpid++] is undefined. *)
Definition INT_MAX : Z := 2147483647.

Definition allocproc : M kst (option nat) :=
  acquire L_ptable ;;
  l <- gets (fun s => procs (k_pt s)) ;;
  match free_proc l 0 with
  | None => release L_ptable ;; ret None
  | Some i =>
      modify (upd_pr i (upd_state (fun _ => EMBRYO))) ;;
      n <- gets (fun s => nextpid (k_pt s)) ;;
      modify (upd_pr i (upd_pid (fun _ => n))) ;;
      (when n =? INT_MAX do undef "nextpid overflows") ;;
      modify (upd_k_pt (upd_nextpid (fun n => n + 1))) ;;
      release L_ptable ;;
      k <- lift_mm kalloc ;;
      modify (upd_pr i (upd_kstack (fun _ => k))) ;;
      if k =? 0 then
        modify (upd_pr i (upd_state (fun _ => UNUSED))) ;;
        ret None
      else
        modify (upd_pr i (upd_context (fun _ => KForkret))) ;;
        ret (Some i)
  end.

(** The trap frame [userinit] builds. *)
Definition init_tf : trapframe :=
  let cs := Z.lor (Z.shiftl SEG_UCODE 3) DPL_USER in
  let ds := Z.lor (Z.shiftl SEG_UDATA 3) DPL_USER in
  Trapframe 0 0 0 0 0 0 0 0 0 0 ds ds 0 0 0 cs FL_IF PGSIZE ds.

Definition userinit (initcode : list Z) : M kst unit :=
  op <- allocproc ;;
  modify (upd_k_pt (upd_initproc (fun _ => op))) ;;
  match op with
  | None => undef "userinit: allocproc returned null"
  | Some p =>
      d <- lift_mm setupkvm ;;
      modify (upd_pr p (upd_pgdir (fun _ => d))) ;;
      if d =? 0 then panic "userinit: out of memory?"
      else
        lift_mm (inituvm d initcode (Z.of_nat (length initcode))) ;;
        modify (upd_pr p (upd_sz (fun _ => PGSIZE))) ;;
        modify (upd_pr p (upd_tf (fun _ => init_tf))) ;;
        modify (upd_pr p (upd_pname (set_name (lit "initcode")))) ;;
        i <- namei [ch_slash] ;;
        modify (upd_pr p (upd_cwd (fun _ => i))) ;;
        acquire L_ptable ;;
        modify (upd_pr p (upd_state (fun _ => RUNNABLE))) ;;
        release L_ptable
  end.

Definition growproc (n : Z) : M kst Z :=
  p <- me ;;
  x <- gets (pr_at p) ;;
  r <- (if 0 <? n then lift_mm (allocuvm (pgdir x) (sz x) (u32 (sz x + n)))
        else if n <? 0 then lift_mm (deallocuvm (pgdir x) (sz x) (u32 (sz x + n)))
        else ret (sz x)) ;;
  if negb (n =? 0) && (r =? 0) then ret (-1)
  else
    modify (upd_pr p (upd_sz (fun _ => r))) ;;
    switchuvm (Some p) ;;
    ret 0.

(** ** The copies of vm.c's page table routines *)

Definition proc_walkpgdir (pgdir va : Z) (alloc : bool) : M mm Z :=
  let pde := pgdir + 4 * PDX va in
  e <- kload32 pde ;;
  if bit_set e PTE_P then ret (P2V (PTE_ADDR e) + 4 * PTX va)
  else if negb alloc then ret 0
  else
    pgtab <- kalloc ;;
    if pgtab =? 0 then ret 0
    else
      kmemset pgtab 0 PGSIZE ;;
      kstore32 pde (Z.lor (Z.lor (Z.lor (V2P pgtab) PTE_P) PTE_W) PTE_U) ;;
      ret (pgtab + 4 * PTX va).

Fixpoint proc_mappages_loop (fuel : nat) (pgdir a last pa_phys perm : Z) : M mm Z :=
  match fuel with
  | O => fun _ => NoFuel
  | S fuel' =>
      pte <- proc_walkpgdir pgdir a true ;;
      if pte =? 0 then ret (-1)
      else
        e <- kload32 pte ;;
        if bit_set e PTE_P then panic "remap"
        else
          kstore32 pte (Z.lor (Z.lor pa_phys perm) PTE_P) ;;
          if a =? last then ret 0
          else proc_mappages_loop fuel' pgdir (u32 (a + PGSIZE)) last (u32 (pa_phys + PGSIZE)) perm
  end.

(** Here [pa] is a kernel address, not a frame. *)
Definition proc_mappages (pgdir va size pa perm : Z) : M mm Z :=
  let a := PGROUNDDOWN va in
  let last := PGROUNDDOWN (u32 (va + size - 1)) in
  let pa_phys := V2P pa in
  proc_mappages_loop (Z.to_nat (u32 (last - a) / PGSIZE) + 1) pgdir a last pa_phys perm.

Lemma proc_mappages_eq pgdir va size pa perm :
  proc_mappages pgdir va size pa perm = mappages pgdir va size (V2P pa) perm.
Proof. reflexivity. Qed.

(** ** fork *)

(** The rounds of [for (int i = start; i < end; i += PGSIZE)]. *)
Definition page_rounds (start vend : Z) : nat := Z.to_nat ((vend - start) / PGSIZE) + 2.

Fixpoint fork_shared (fuel : nat) (np : nat) (v : vptr) (i : Z) : M kst unit :=
  match fuel with
  | O => fun _ => NoFuel
  | S fuel' =>
      x <- get_vma v ;;
      if i <? vend x then
        d <- gets (fun s => pgdir (pr_at np s)) ;;
        r <- lift_mm (proc_mappages d i PGSIZE (pa x) (Z.lor (prot x) PTE_U)) ;;
        (when negb (r =? 0) do
          (lift_mm (kfree (pa x)) ;;
           modify (upd_pr np (upd_killed (fun _ => 1))))) ;;
        fork_shared fuel' np v (u32 (i + PGSIZE))
      else ret tt
  end.

Fixpoint fork_private (fuel : nat) (cp np : nat) (v : vptr) (i : Z) : M kst unit :=
  match fuel with
  | O => fun _ => NoFuel
  | S fuel' =>
      x <- get_vma v ;;
      if i <? vend x then
        m <- lift_mm kalloc ;;
        if m =? 0 then panic "kalloc"
        else
          cd <- gets (fun s => pgdir (pr_at cp s)) ;;
          pte <- lift_mm (proc_walkpgdir cd i false) ;;
          e <- lift_mm (kload32 pte) ;;
          lift_mm (kmemmove m (P2V (PTE_ADDR e)) PGSIZE) ;;
          d <- gets (fun s => pgdir (pr_at np s)) ;;
          r <- lift_mm (proc_mappages d i PGSIZE m (Z.lor (prot x) PTE_U)) ;;
          (when negb (r =? 0) do
            (lift_mm (kfree m) ;;
             modify (upd_pr np (upd_killed (fun _ => 1))))) ;;
          fork_private fuel' cp np v (u32 (i + PGSIZE))
      else ret tt
  end.

Fixpoint fork_vmas (fuel : nat) (cp np : nat) (v : vptr) : M kst unit :=
  match fuel with
  | O => fun _ => NoFuel
  | S fuel' =>
      x <- get_vma v ;;
      if start x =? MAX_ADDR then ret tt
      else
        (if bit_set (vflags x) MAP_SHARED then
           fork_shared (page_rounds (start x) (vend x)) np v (start x)
         else if bit_set (vflags x) MAP_PRIVATE then
           fork_private (page_rounds (start x) (vend x)) cp np v (start x)
         else ret tt) ;;
        x' <- get_vma v ;;
        fork_vmas fuel' cp np (next x')
  end.

Definition fork_file (cp np : nat) (k : nat) : M kst unit :=
  o <- gets (fun s => ofile (pr_at cp s) !!! k) ;;
  match o with
  | None => ret tt
  | Some f =>
      f' <- filedup f ;;
      modify (upd_pr np (upd_ofile (<[k := Some f']>)))
  end.

Definition fork : M kst Z :=
  cp <- me ;;
  onp <- allocproc ;;
  match onp with
  | None => ret (-1)
  | Some np =>
      c <- gets (pr_at cp) ;;
      d <- lift_mm (copyuvm (pgdir c) (sz c)) ;;
      modify (upd_pr np (upd_pgdir (fun _ => d))) ;;
      if d =? 0 then
        k <- gets (fun s => kstack (pr_at np s)) ;;
        lift_mm (kfree k) ;;
        modify (upd_pr np (upd_kstack (fun _ => 0))) ;;
        modify (upd_pr np (upd_state (fun _ => UNUSED))) ;;
        ret (-1)
      else
        modify (upd_pr np (upd_sz (fun _ => sz c))) ;;
        modify (upd_pr np (upd_parent (fun _ => Some cp))) ;;
        modify (upd_pr np (upd_tf (fun _ => upd_eax (fun _ => 0) (tf c)))) ;;
        for_all (seq 0 (Z.to_nat NOFILE)) (fork_file cp np) ;;
        (match cwd c with
         | Some i => i' <- idup i ;; modify (upd_pr np (upd_cwd (fun _ => Some i')))
         | None => undef "idup of a null inode"
         end) ;;
        modify (upd_pr np (upd_pname (set_name (cstr (pname c))))) ;;
        fuel <- gets vma_fuel ;;
        fork_vmas fuel cp np (VHead cp) ;;
        pd <- gets (fun s => pid (pr_at np s)) ;;
        acquire L_ptable ;;
        modify (upd_pr np (upd_state (fun _ => RUNNABLE))) ;;
        release L_ptable ;;
        ret pd
  end.

(** ** exit and wait *)

Definition exit_file (p : nat) (fd : nat) : M kst unit :=
  o <- gets (fun s => ofile (pr_at p s) !!! fd) ;;
  match o with
  | None => ret tt
  | Some f => fileclose f ;; modify (upd_pr p (upd_ofile (<[fd := None]>)))
  end.

Definition reparent (p i : nat) : M kst unit :=
  x <- gets (pr_at i) ;;
  when bool_decide (parent x = Some p) do
    (ip <- gets (fun s => initproc (k_pt s)) ;;
     modify (upd_pr i (upd_parent (fun _ => ip))) ;;
     when bool_decide (state x = ZOMBIE) do wakeup1 (Ch_proc <$> ip)).

Definition exit : M kst unit :=
  p <- me ;;
  ip <- gets (fun s => initproc (k_pt s)) ;;
  if bool_decide (Some p = ip) then panic "init exiting"
  else
    for_all (seq 0 (Z.to_nat NOFILE)) (exit_file p) ;;
    begin_op ;;
    c <- gets (fun s => cwd (pr_at p s)) ;;
    (match c with Some i => iput i | None => undef "iput of a null inode" end) ;;
    end_op ;;
    modify (upd_pr p (upd_cwd (fun _ => None))) ;;
    acquire L_ptable ;;
    par <- gets (fun s => parent (pr_at p s)) ;;
    wakeup1 (Ch_proc <$> par) ;;
    for_all (seq 0 (Z.to_nat NPROC)) (reparent p) ;;
    q <- me ;;
    x <- gets (pr_at q) ;;
    lift_mm (deallocuvm (pgdir x) (sz x) 0) ;;
    modify (upd_pr p (upd_state (fun _ => ZOMBIE))) ;;
    sched ;;
    panic "zombie exit".

Definition wait_reap (p i : nat) : M kst (option Z) :=
  x <- gets (pr_at i) ;;
  if bool_decide (parent x = Some p) && bool_decide (state x = ZOMBIE) then
    lift_mm (kfree (kstack x)) ;;
    modify (upd_pr i (upd_kstack (fun _ => 0))) ;;
    lift_mm (freevm (pgdir x)) ;;
    modify (upd_pr i (fun y =>
      upd_pid (fun _ => 0) (upd_parent (fun _ => None)
        (upd_pname (<[O := 0]>) (upd_killed (fun _ => 0)
          (upd_state (fun _ => UNUSED) y)))))) ;;
    release L_ptable ;;
    ret (Some (pid x))
  else ret None.

Definition have_kids (p : nat) (s : kst) : bool :=
  existsb (fun x => bool_decide (parent x = Some p)) (procs (k_pt s)).

Definition wait : M kst Z :=
  p <- me ;;
  acquire L_ptable ;;
  loop waits (fun _ =>
    kids <- gets (have_kids p) ;;
    r <- for_each (seq 0 (Z.to_nat NPROC)) (wait_reap p) ;;
    match r with
    | Some pd => ret (inr pd)
    | None =>
        k <- gets (fun s => killed (pr_at p s)) ;;
        if negb kids || negb (k =? 0) then
          release L_ptable ;; ret (inr (-1))
        else sleep (Ch_proc p) L_ptable ;; ret (inl tt)
    end) tt.

(** ** The scheduler *)

Definition sti : M kst unit :=
  modify (fun s => set_cpu
    (let c := get_cpu s in
     {| c_if := true; ncli := ncli c; intena := intena c; held := held c;
        c_cr3 := c_cr3 c; c_esp0 := c_esp0 c |}) s).

Definition sched_one (i : nat) : M kst unit :=
  x <- gets (pr_at i) ;;
  when bool_decide (state x = RUNNABLE) do
    (modify (upd_k_pt (upd_curproc (fun _ => Some i))) ;;
     switchuvm (Some i) ;;
     modify (upd_pr i (upd_state (fun _ => RUNNING))) ;;
     swtch ;;
     switchkvm ;;
     modify (upd_k_pt (upd_curproc (fun _ => None)))).

(** One round of the endless loop. *)
Definition scheduler_round : M kst unit :=
  sti ;;
  acquire L_ptable ;;
  for_all (seq 0 (Z.to_nat NPROC)) sched_one ;;
  release L_ptable.

Definition scheduler (rounds : nat) : M kst unit :=
  mycpu ;;
  modify (upd_k_pt (upd_curproc (fun _ => None))) ;;
  for_all (replicate rounds tt) (fun _ => scheduler_round).

Definition forkret : M kst unit :=
  release L_ptable ;;
  f <- gets (fun s => first (k_pt s)) ;;
  when f do
    (modify (upd_k_pt (upd_first (fun _ => false))) ;;
     iinit ROOTDEV ;;
     initlog ROOTDEV).
End Proc.
