(* ===== verification/Exec.v ===== *)
(** * exec.c, and loaduvm of vm.c *)

From S2P Require Import Prelude Machine StringC Spinlock Kalloc Vm Kernel Sleep Bio Log Inode.
From S2P Require Import Console Fs Pipe File Proc.

Definition ELF_MAGIC : Z := 0x464C457F.
Definition ELF_PROG_LOAD : Z := 1.

(** Fields of [struct elfhdr] (52 bytes) and [struct proghdr] (32 bytes). *)
Definition ELFSIZE : Z := 52.
Definition PHSIZE : Z := 32.
Definition elf_magic (h : list Z) : Z := word_at h 0.
Definition elf_entry (h : list Z) : Z := word_at h 24.
Definition elf_phoff (h : list Z) : Z := word_at h 28.
Definition elf_phnum (h : list Z) : Z := half_at h 44.
Definition ph_type (h : list Z) : Z := word_at h 0.
Definition ph_off (h : list Z) : Z := word_at h 4.
Definition ph_vaddr (h : list Z) : Z := word_at h 8.
Definition ph_filesz (h : list Z) : Z := word_at h 16.
Definition ph_memsz (h : list Z) : Z := word_at h 20.

(** What exec.c stores in the VMA list: only the named fields change. *)
Definition exec_head (p : nat) (h : vm_area) : vm_area :=
  {| valid := 0; start := 0x60000000; vend := 0x5FFFFFFF; pa := pa h;
     guardstart := guardstart h; len := 0; prot := prot h; vflags := vflags h; vfd := vfd h;
     space_after := 0x20000000; vf := vf h; next := VTail p |}.

Definition exec_tail (t : vm_area) : vm_area :=
  {| valid := 0; start := 0x80000000; vend := 0x80000000; pa := pa t;
     guardstart := guardstart t; len := 0; prot := prot t; vflags := vflags t; vfd := vfd t;
     space_after := space_after t; vf := vf t; next := VNull |}.

(** [last]: what follows the last slash of the path. *)
Fixpoint last_elem (path best : list Z) : list Z :=
  match path with
  | [] => best
  | c :: path' => last_elem path' (if c =? ch_slash then path' else best)
  end.

Section Exec.
Context `{KernelImage} `{Waits}.

Fixpoint loaduvm_loop (fuel : nat) (pgdir addr : Z) (i : nat) (offset sz k : Z) : M kst Z :=
  match fuel with
  | O => fun _ => NoFuel
  | S fuel' =>
      if k <? sz then
        pte <- lift_mm (walkpgdir pgdir (u32 (addr + k)) false) ;;
        if pte =? 0 then panic "loaduvm: address should exist"
        else
          e <- lift_mm (kload32 pte) ;;
          let n := if sz - k <? PGSIZE then sz - k else PGSIZE in
          r <- readi i (to_user (P2V (PTE_ADDR e))) (u32 (offset + k)) n ;;
          if negb (fst r =? n) then ret (-1)
          else loaduvm_loop fuel' pgdir addr i offset sz (k + PGSIZE)
      else ret 0
  end.

Definition loaduvm (pgdir addr : Z) (i : nat) (offset sz : Z) : M kst Z :=
  if negb (addr mod PGSIZE =? 0) then panic "loaduvm: addr must be page aligned"
  else loaduvm_loop (Z.to_nat (sz / PGSIZE) + 2) pgdir addr i offset sz 0.

(** The program headers from the [k]-th on; [None] is [goto bad]. *)
Fixpoint exec_load (n : nat) (i : nat) (pgdir o sz : Z) : M kst (option Z) :=
  match n with
  | O => ret (Some sz)
  | S n' =>
      r <- readi i to_local o PHSIZE ;;
      let ph := snd r in
      if negb (fst r =? PHSIZE) then ret None
      else if negb (ph_type ph =? ELF_PROG_LOAD) then
        exec_load n' i pgdir (u32 (o + PHSIZE)) sz
      else if ph_memsz ph <? ph_filesz ph then ret None
      else if u32 (ph_vaddr ph + ph_memsz ph) <? ph_vaddr ph then ret None
      else
        sz <- lift_mm (allocuvm pgdir sz (u32 (ph_vaddr ph + ph_memsz ph))) ;;
        if sz =? 0 then ret None
        else if negb (ph_vaddr ph mod PGSIZE =? 0) then ret None
        else
          l <- loaduvm pgdir (ph_vaddr ph) i (ph_off ph) (ph_filesz ph) ;;
          if l <? 0 then ret None
          else exec_load n' i pgdir (u32 (o + PHSIZE)) sz
  end.

(** Push the argument strings; the result is [sp] and the pointers, in
    order, or [None] for [goto bad]. *)
Fixpoint push_args (pgdir : Z) (argv : list (list Z)) (argc sp : Z) : M kst (option (Z * list Z)) :=
  match argv with
  | [] => ret (Some (sp, []))
  | a :: argv' =>
      if MAXARG <=? argc then ret None
      else
        let n := Z.of_nat (length a) + 1 in
        let sp := Z.land (u32 (sp - n)) (Z.lnot 3) in
        r <- lift_mm (copyout pgdir sp (a ++ [0]) n) ;;
        if r <? 0 then ret None
        else
          t <- push_args pgdir argv' (argc + 1) sp ;;
          match t with
          | None => ret None
          | Some (sp', ptrs) => ret (Some (sp', sp :: ptrs))
          end
  end.

(** The stack image [ustack]. *)
Definition ustack (sp argc : Z) (ptrs : list Z) : list Z :=
  concat (word_bytes <$> [0xffffffff; argc; u32 (sp - (argc + 1) * 4)] ++ ptrs ++ [0]).

(** The label [bad]: [i] is the inode while it is locked. *)
Definition exec_bad (pgdir : Z) (i : option nat) : M kst Z :=
  (when negb (pgdir =? 0) do lift_mm (freevm pgdir)) ;;
  (match i with Some i => iunlockput i ;; end_op | None => ret tt end) ;;
  ret (-1).

(** The point of no return. *)
Definition exec_commit (p : nat) (path : list Z) (pgdir' sz' entry sp : Z) : M kst Z :=
  modify (upd_pr p (upd_pname (set_name (cstr (last_elem path path))))) ;;
  modify (upd_pr p (upd_head (exec_head p))) ;;
  modify (upd_pr p (upd_tail exec_tail)) ;;
  oldpgdir <- gets (fun s => pgdir (pr_at p s)) ;;
  modify (upd_pr p (upd_pgdir (fun _ => pgdir'))) ;;
  modify (upd_pr p (upd_sz (fun _ => sz'))) ;;
  modify (upd_pr p (upd_tf (upd_eip (fun _ => entry)))) ;;
  modify (upd_pr p (upd_tf (upd_esp (fun _ => sp)))) ;;
  switchuvm (Some p) ;;
  lift_mm (freevm oldpgdir) ;;
  ret 0.

Definition exec_stack (p : nat) (path : list Z) (argv : list (list Z)) (pgdir sz entry : Z)
    : M kst Z :=
  let sz := PGROUNDUP sz in
  sz <- lift_mm (allocuvm pgdir sz (u32 (sz + 2 * PGSIZE))) ;;
  if sz =? 0 then exec_bad pgdir None
  else
    lift_mm (clearpteu pgdir (u32 (sz - 2 * PGSIZE))) ;;
    r <- push_args pgdir argv 0 sz ;;
    match r with
    | None => exec_bad pgdir None
    | Some (sp, ptrs) =>
        let argc := Z.of_nat (length argv) in
        let us := ustack sp argc ptrs in
        let sp := u32 (sp - (3 + argc + 1) * 4) in
        c <- lift_mm (copyout pgdir sp us ((3 + argc + 1) * 4)) ;;
        if c <? 0 then exec_bad pgdir None
        else exec_commit p path pgdir sz entry sp
    end.

Definition exec (path : list Z) (argv : list (list Z)) : M kst Z :=
  p <- me ;;
  begin_op ;;
  oi <- namei path ;;
  match oi with
  | None => end_op ;; ret (-1)
  | Some i =>
      ilock i ;;
      r <- readi i to_local 0 ELFSIZE ;;
      let elf := snd r in
      if negb (fst r =? ELFSIZE) then exec_bad 0 (Some i)
      else if negb (elf_magic elf =? ELF_MAGIC) then exec_bad 0 (Some i)
      else
        d <- lift_mm setupkvm ;;
        if d =? 0 then exec_bad d (Some i)
        else
          l <- exec_load (Z.to_nat (elf_phnum elf)) i d (elf_phoff elf) 0 ;;
          match l with
          | None => exec_bad d (Some i)
          | Some sz =>
              iunlockput i ;;
              end_op ;;
              exec_stack p path argv d sz (elf_entry elf)
          end
  end.
End Exec.
