(* ===== verification/Sysfile.v ===== *)
(** * syscall.c: system call arguments; sysfile.c: file system calls *)

From S2P Require Import Prelude Machine StringC Spinlock Kalloc Vm Kernel Sleep Bio Log Inode.
From S2P Require Import Console Fs Pipe File Proc Exec.


(** ** Arguments: [None] is a result of -1 *)

Definition fetchint (addr : Z) : M kst (option Z) :=
  p <- me ;;
  n <- gets (fun s => sz (pr_at p s)) ;;
  if (n <=? addr) || (n <? u32 (addr + 4)) then ret None
  else bs <- vread addr 4 ;; ret (Some (s32 (word_at bs 0))).

(** The bytes before the nul, searched below [ep]. *)
Fixpoint fetchstr_loop (n : nat) (a : Z) : M kst (option (list Z)) :=
  match n with
  | O => ret None
  | S n' =>
      b <- vload8 a ;;
      if b =? 0 then ret (Some [])
      else
        r <- fetchstr_loop n' (a + 1) ;;
        ret (cons b <$> r)
  end.

Definition fetchstr (addr : Z) : M kst (option (list Z)) :=
  p <- me ;;
  n <- gets (fun s => sz (pr_at p s)) ;;
  if n <=? addr then ret None
  else fetchstr_loop (Z.to_nat (n - addr)) addr.

Definition argint (n : Z) : M kst (option Z) :=
  p <- me ;;
  sp <- gets (fun s => esp (tf (pr_at p s))) ;;
  fetchint (u32 (sp + 4 + 4 * n)).

Definition argptr (n size : Z) : M kst (option Z) :=
  p <- me ;;
  r <- argint n ;;
  match r with
  | None => ret None
  | Some i =>
      psz <- gets (fun s => sz (pr_at p s)) ;;
      if (size <? 0) || (psz <=? u32 i) || (psz <? u32 (u32 i + size)) then ret None
      else ret (Some (u32 i))
  end.

Definition argstr (n : Z) : M kst (option (list Z)) :=
  r <- argint n ;;
  match r with
  | None => ret None
  | Some a => fetchstr (u32 a)
  end.

(** [a <- e] or return [d] from the call. *)
Definition orelse {A B} (m : M kst (option A)) (d : M kst B) (k : A -> M kst B) : M kst B :=
  r <- m ;;
  match r with Some a => k a | None => d end.

Notation "x <-? m 'else' d ;; k" := (orelse m d (fun x => k))
  (at level 100, m at next level, d at next level, right associativity) : mon_scope.

Definition argfd (n : Z) : M kst (option (Z * nat)) :=
  fd <-? argint n else ret None ;;
  if (fd <? 0) || (NOFILE <=? fd) then ret None
  else
    p <- me ;;
    f <- gets (fun s => ofile (pr_at p s) !!! Z.to_nat fd) ;;
    match f with
    | None => ret None
    | Some f => ret (Some (fd, f))
    end.

Fixpoint free_fd (l : list (option nat)) (i : nat) : option nat :=
  match l with
  | [] => None
  | None :: _ => Some i
  | Some _ :: l' => free_fd l' (S i)
  end.

(** [None] is a result of -1. *)
Definition fdalloc (f : nat) : M kst (option nat) :=
  p <- me ;;
  l <- gets (fun s => ofile (pr_at p s)) ;;
  match free_fd l 0 with
  | Some fd =>
      modify (upd_pr p (upd_ofile (<[fd := Some f]>))) ;;
      ret (Some fd)
  | None => ret None
  end.

Section Sysfile.
Context `{KernelImage} `{Waits}.

Definition sys_dup : M kst Z :=
  f <-? argfd 0 else ret (-1) ;;
  fd <-? fdalloc (snd f) else ret (-1) ;;
  filedup (snd f) ;;
  ret (Z.of_nat fd).

Definition sys_read : M kst Z :=
  f <-? argfd 0 else ret (-1) ;;
  n <-? argint 2 else ret (-1) ;;
  p <-? argptr 1 n else ret (-1) ;;
  fileread (snd f) (to_user p) n.

Definition sys_write : M kst Z :=
  f <-? argfd 0 else ret (-1) ;;
  n <-? argint 2 else ret (-1) ;;
  p <-? argptr 1 n else ret (-1) ;;
  filewrite (snd f) (from_user p) n.

Definition sys_close : M kst Z :=
  f <-? argfd 0 else ret (-1) ;;
  p <- me ;;
  modify (upd_pr p (upd_ofile (<[Z.to_nat (fst f) := None]>))) ;;
  fileclose (snd f) ;;
  ret 0.

(** [sizeof(struct stat)] is 20 bytes. *)
Definition sys_fstat : M kst Z :=
  f <-? argfd 0 else ret (-1) ;;
  st <-? argptr 1 20 else ret (-1) ;;
  filestat (snd f) st.

Definition sys_link_bad (i : nat) : M kst Z :=
  ilock i ;;
  modify (upd_ino i (upd_nlink (fun n => s16 (n - 1)))) ;;
  iupdate i ;;
  iunlockput i ;;
  end_op ;;
  ret (-1).

Definition sys_link : M kst Z :=
  old <-? argstr 0 else ret (-1) ;;
  new <-? argstr 1 else ret (-1) ;;
  begin_op ;;
  i <-? namei old else (end_op ;; ret (-1)) ;;
  ilock i ;;
  x <- gets (ino_at i) ;;
  if itype x =? T_DIR then iunlockput i ;; end_op ;; ret (-1)
  else
    modify (upd_ino i (upd_nlink (fun n => s16 (n + 1)))) ;;
    iupdate i ;;
    iunlock i ;;
    r <- nameiparent new ;;
    match fst r with
    | None => sys_link_bad i
    | Some dp =>
        ilock dp ;;
        d <- gets (ino_at dp) ;;
        x <- gets (ino_at i) ;;
        l <- (if negb (idev d =? idev x) then ret (-1) else dirlink dp (snd r) (inum x)) ;;
        if l <? 0 then iunlockput dp ;; sys_link_bad i
        else
          iunlockput dp ;;
          iput i ;;
          end_op ;;
          ret 0
    end.

Definition isdirempty_at (dp : nat) (o : Z) : M kst (option unit) :=
  r <- readi dp to_local o DESIZE ;;
  if negb (fst r =? DESIZE) then panic "isdirempty: readi"
  else if negb (de_inum (snd r) =? 0) then ret (Some tt)
  else ret None.

Definition isdirempty (dp : nat) : M kst bool :=
  x <- gets (ino_at dp) ;;
  r <- for_each (drop 2 (de_offs (isize x))) (isdirempty_at dp) ;;
  ret (match r with Some _ => false | None => true end).

Definition sys_unlink_bad (dp : nat) : M kst Z :=
  iunlockput dp ;;
  end_op ;;
  ret (-1).

Definition sys_unlink : M kst Z :=
  path <-? argstr 0 else ret (-1) ;;
  begin_op ;;
  r <- nameiparent path ;;
  match fst r with
  | None => end_op ;; ret (-1)
  | Some dp =>
      let name := snd r in
      ilock dp ;;
      if (namecmp (cstr name) (lit ".") =? 0) || (namecmp (cstr name) (lit "..") =? 0)
      then sys_unlink_bad dp
      else
        e <-? dirlookup dp name else sys_unlink_bad dp ;;
        let (i, o) := e in
        ilock i ;;
        x <- gets (ino_at i) ;;
        if nlink x <? 1 then panic "unlink: nlink < 1"
        else
          em <- (if itype x =? T_DIR then isdirempty i else ret true) ;;
          if negb em then iunlockput i ;; sys_unlink_bad dp
          else
            w <- writei dp (from_local (replicate (Z.to_nat DESIZE) 0)) o DESIZE ;;
            if negb (w =? DESIZE) then panic "unlink: writei"
            else
              x <- gets (ino_at i) ;;
              (when itype x =? T_DIR do
                (modify (upd_ino dp (upd_nlink (fun n => s16 (n - 1)))) ;;
                 iupdate dp)) ;;
              iunlockput dp ;;
              modify (upd_ino i (upd_nlink (fun n => s16 (n - 1)))) ;;
              iupdate i ;;
              iunlockput i ;;
              end_op ;;
              ret 0
  end.

Definition create_dots (dp i : nat) : M kst unit :=
  modify (upd_ino dp (upd_nlink (fun n => s16 (n + 1)))) ;;
  iupdate dp ;;
  x <- gets (ino_at i) ;;
  r1 <- dirlink i [46] (inum x) ;;
  if r1 <? 0 then panic "create dots"
  else
    d <- gets (ino_at dp) ;;
    r2 <- dirlink i [46; 46] (inum d) ;;
    if r2 <? 0 then panic "create dots" else ret tt.

Definition create (path : list Z) (ty major minor : Z) : M kst (option nat) :=
  r <- nameiparent path ;;
  match fst r with
  | None => ret None
  | Some dp =>
      let name := snd r in
      ilock dp ;;
      e <- dirlookup dp name ;;
      match e with
      | Some (i, _) =>
          iunlockput dp ;;
          ilock i ;;
          x <- gets (ino_at i) ;;
          if (ty =? T_FILE) && (itype x =? T_FILE) then ret (Some i)
          else iunlockput i ;; ret None
      | None =>
          d <- gets (ino_at dp) ;;
          i <- ialloc (idev d) ty ;;
          ilock i ;;
          modify (upd_ino i (upd_imajor (fun _ => s16 major))) ;;
          modify (upd_ino i (upd_iminor (fun _ => s16 minor))) ;;
          modify (upd_ino i (upd_nlink (fun _ => 1))) ;;
          iupdate i ;;
          (when ty =? T_DIR do create_dots dp i) ;;
          x <- gets (ino_at i) ;;
          l <- dirlink dp name (inum x) ;;
          if l <? 0 then panic "create: dirlink"
          else iunlockput dp ;; ret (Some i)
      end
  end.

(** The locked inode, or [None] when the call has ended with -1. *)
Definition open_inode (path : list Z) (omode : Z) : M kst (option nat) :=
  if bit_set omode O_CREATE then
    i <-? create path T_FILE 0 0 else (end_op ;; ret None) ;;
    ret (Some i)
  else
    i <-? namei path else (end_op ;; ret None) ;;
    ilock i ;;
    x <- gets (ino_at i) ;;
    if (itype x =? T_DIR) && negb (omode =? O_RDONLY) then
      iunlockput i ;; end_op ;; ret None
    else ret (Some i).

Definition sys_open : M kst Z :=
  path <-? argstr 0 else ret (-1) ;;
  omode <-? argint 1 else ret (-1) ;;
  begin_op ;;
  i <-? open_inode path omode else ret (-1) ;;
  let fail := iunlockput i ;; end_op ;; ret (-1) in
  f <-? filealloc else fail ;;
  fd <-? fdalloc f else (fileclose f ;; fail) ;;
  iunlock i ;;
  end_op ;;
  modify (upd_file f (upd_type (fun _ => FD_INODE))) ;;
  modify (upd_file f (upd_ip (fun _ => i))) ;;
  modify (upd_file f (upd_off (fun _ => 0))) ;;
  modify (upd_file f (upd_readable (fun _ => negb (bit_set omode O_WRONLY)))) ;;
  modify (upd_file f (upd_writable (fun _ => bit_set omode O_WRONLY || bit_set omode O_RDWR))) ;;
  ret (Z.of_nat fd).

Definition sys_mkdir : M kst Z :=
  begin_op ;;
  path <-? argstr 0 else (end_op ;; ret (-1)) ;;
  i <-? create path T_DIR 0 0 else (end_op ;; ret (-1)) ;;
  iunlockput i ;;
  end_op ;;
  ret 0.

Definition sys_mknod : M kst Z :=
  begin_op ;;
  path <-? argstr 0 else (end_op ;; ret (-1)) ;;
  major <-? argint 1 else (end_op ;; ret (-1)) ;;
  minor <-? argint 2 else (end_op ;; ret (-1)) ;;
  i <-? create path T_DEV major minor else (end_op ;; ret (-1)) ;;
  iunlockput i ;;
  end_op ;;
  ret 0.

Definition sys_chdir : M kst Z :=
  p <- me ;;
  begin_op ;;
  path <-? argstr 0 else (end_op ;; ret (-1)) ;;
  i <-? namei path else (end_op ;; ret (-1)) ;;
  ilock i ;;
  x <- gets (ino_at i) ;;
  if negb (itype x =? T_DIR) then iunlockput i ;; end_op ;; ret (-1)
  else
    iunlock i ;;
    c <- gets (fun s => cwd (pr_at p s)) ;;
    (match c with Some c => iput c | None => undef "iput of a null inode" end) ;;
    end_op ;;
    modify (upd_pr p (upd_cwd (fun _ => Some i))) ;;
    ret 0.

(** The argument strings from [uargv[i]] on; [n] entries of [argv] are left. *)
Fixpoint fetch_argv (n : nat) (uargv i : Z) : M kst (option (list (list Z))) :=
  match n with
  | O => ret None
  | S n' =>
      u <-? fetchint (u32 (uargv + 4 * i)) else ret None ;;
      if u =? 0 then ret (Some [])
      else
        a <-? fetchstr (u32 u) else ret None ;;
        r <-? fetch_argv n' uargv (i + 1) else ret None ;;
        ret (Some (a :: r))
  end.

Definition sys_exec : M kst Z :=
  path <-? argstr 0 else ret (-1) ;;
  uargv <-? argint 1 else ret (-1) ;;
  argv <-? fetch_argv (Z.to_nat MAXARG) (u32 uargv) 0 else ret (-1) ;;
  exec path argv.

Definition sys_pipe : M kst Z :=
  fd <-? argptr 0 8 else ret (-1) ;;
  r <-? pipealloc else ret (-1) ;;
  let (rf, wf) := r in
  let fail := fileclose rf ;; fileclose wf ;; ret (-1) in
  fd0 <-? fdalloc rf else fail ;;
  fd1 <-? fdalloc wf else
    (p <- me ;;
     modify (upd_pr p (upd_ofile (<[fd0 := None]>))) ;;
     fail) ;;
  vwrite fd (word_bytes (Z.of_nat fd0)) ;;
  vwrite (u32 (fd + 4)) (word_bytes (Z.of_nat fd1)) ;;
  ret 0.
End Sysfile.
