(* ===== verification/KernelWp.v ===== *)
(** * Running kernel code

    Equations for the steps that every kernel path shares: code of the memory
    system under [lift_mm], [myproc], system call arguments in user memory,
    and the context in which a process runs in the kernel. *)

From S2P Require Import Prelude Machine StringC Spinlock Kalloc Vm VmWalk VmUser VmCopy.
From S2P Require Import Kernel Sleep Bio Log Inode Console Fs Pipe File Proc Exec Sysfile.

(** ** Signed words *)

(** ** Code of the memory system *)

Lemma lift_ok {A} (m : M mm A) s a m' :
  m (k_mm s) = Ok a m' -> lift_mm m s = Ok a (upd_k_mm (fun _ => m') s).
Proof. unfold lift_mm. by intros ->. Qed.

Lemma lift_panic {A} (m : M mm A) s msg : m (k_mm s) = Panic msg -> lift_mm m s = Panic msg.
Proof. unfold lift_mm. by intros ->. Qed.

Lemma lift_undef {A} (m : M mm A) s msg : m (k_mm s) = Undef msg -> lift_mm m s = Undef msg.
Proof. unfold lift_mm. by intros ->. Qed.

Lemma wp_lift {A} (m : M mm A) (Q : A -> kst -> Prop) s :
  wp m (fun a m' => Q a (upd_k_mm (fun _ => m') s)) (k_mm s) -> wp (lift_mm m) Q s.
Proof. intros (a & m' & Hm & HQ). eapply wp_run; [by apply lift_ok|done]. Qed.

(** ** The current process *)

(** A call of [myproc] refreshes [intena]; nothing else changes. *)
Definition touch (s : kst) : kst := set_cpu (refresh (get_cpu s)) s.

Lemma touch_touch s : touch (touch s) = touch s.
Proof.
  unfold touch. rewrite set_set_cpu, get_set_cpu. by rewrite refresh_refresh.
Qed.

Lemma touch_wf s : cpu_wf (get_cpu s) -> cpu_wf (get_cpu (touch s)).
Proof. unfold touch. rewrite get_set_cpu. apply cpu_wf_sim, cpu_sim_refresh. Qed.

Lemma touch_frame s : mm_frame (k_mm s) (k_mm (touch s)).
Proof. split; [apply cpu_sim_refresh|done]. Qed.

Lemma touch_alloc `{KernelImage} s free : alloc_inv (k_mm s) free -> alloc_inv (k_mm (touch s)) free.
Proof. intros [Hwf Hl Hf Hn]. split; [by apply touch_wf|done..]. Qed.

Lemma myproc_run s :
  cpu_wf (get_cpu s) -> myproc s = Ok (curproc (k_pt s)) (touch s).
Proof.
  intros Hwf. unfold myproc, pushcli. erewrite bind_ok by (unfold modify; reflexivity).
  erewrite bind_ok.
  2:{ unfold mycpu. erewrite bind_ok by (unfold gets; reflexivity). by rewrite get_set_cpu. }
  erewrite bind_ok by (unfold gets; reflexivity).
  erewrite bind_ok by (apply popcli_run; rewrite get_set_cpu;
                       [done|destruct Hwf; cbn [push_cpu ncli]; lia]).
  by rewrite get_set_cpu, set_set_cpu, pop_push.
Qed.

Lemma me_run s p :
  cpu_wf (get_cpu s) -> curproc (k_pt s) = Some p -> me s = Ok p (touch s).
Proof.
  intros Hwf Hp. unfold me. erewrite bind_ok by (by apply myproc_run). by rewrite Hp.
Qed.

(** A process running in the kernel on its own page table. *)
Record user_ctx `{KernelImage} (s : kst) (p : nat) (free : list Z) : Prop := {
  uc_cur : curproc (k_pt s) = Some p;
  uc_lt : (p < length (procs (k_pt s)))%nat;
  uc_alloc : alloc_inv (k_mm s) free;
  uc_as : as_inv (mem (k_mm s)) (pgdir (pr_at p s)) free;
  uc_cr3 : c_cr3 (get_cpu s) = V2P (pgdir (pr_at p s)) }.

Section Ctx.
Context `{KernelImage} (s : kst) (p : nat) (free : list Z) (Hc : user_ctx s p free).

Lemma ctx_wf : cpu_wf (get_cpu s).
Proof. exact (ai_wf _ _ (uc_alloc _ _ _ Hc)). Qed.

Lemma ctx_me : me s = Ok p (touch s).
Proof. apply me_run; [apply ctx_wf|by destruct Hc]. Qed.

Lemma ctx_touch : user_ctx (touch s) p free.
Proof.
  destruct Hc as [? ? [Hwf Hl Hf Hn] ? ?]. split; done.
Qed.

Lemma ctx_dir : P2V (c_cr3 (get_cpu s)) = pgdir (pr_at p s).
Proof.
  rewrite (uc_cr3 _ _ _ Hc). apply page_ok_P2V_V2P.
  exact (pt_dir _ _ _ (as_pt _ _ _ (uc_as _ _ _ Hc))).
Qed.

(** ** Reading user memory *)

Lemma vload8_run va :
  0 <= va < KERNBASE -> mapped (mem (k_mm s)) (pgdir (pr_at p s)) va = true ->
  vload8 va s = Ok (uload (mem (k_mm s)) (pgdir (pr_at p s)) va) s.
Proof.
  intros Hva Hm. unfold vload8. erewrite bind_ok by (unfold get; reflexivity). cbn zeta.
  destruct (Z.leb_spec KERNBASE va); [lia|]. unfold translate. rewrite ctx_dir.
  unfold mapped in Hm. by rewrite Hm.
Qed.

Lemma vread_run n : forall va,
  0 <= va -> va + Z.of_nat n <= KERNBASE ->
  (forall x, va <= x < va + Z.of_nat n -> mapped (mem (k_mm s)) (pgdir (pr_at p s)) x = true) ->
  vread va n s =
  Ok ((fun i => uload (mem (k_mm s)) (pgdir (pr_at p s)) (va + Z.of_nat i)) <$> seq 0 n) s.
Proof.
  induction n as [|n IH]; intros va Hva Hend Hm; [done|]. cbn [vread].
  erewrite bind_ok by (apply vload8_run; [lia|apply Hm; lia]). rewrite u32_small by lia.
  erewrite bind_ok by (apply IH; [lia|lia|intros; apply Hm; lia]). unfold ret. f_equal.
  cbn [seq fmap list_fmap]. f_equal; [f_equal; lia|]. rewrite <- (fmap_S_seq 0 n).
  rewrite <- list_fmap_compose. apply list_fmap_ext. intros i x _. simpl. f_equal. lia.
Qed.
End Ctx.

(** A word of user memory. *)
Definition uword (m : gmap Z Z) (dir a : Z) : Z :=
  uload m dir a + 256 * uload m dir (a + 1) + 65536 * uload m dir (a + 2) +
  16777216 * uload m dir (a + 3).

(** System call argument [n]. *)
Definition arg (s : kst) (p : nat) (n : Z) : Z :=
  s32 (uword (mem (k_mm s)) (pgdir (pr_at p s)) (esp (tf (pr_at p s)) + 4 + 4 * n)).

(** The stack holds [k] arguments. *)
Definition args_ok (s : kst) (p : nat) (k : Z) : Prop :=
  let x := pr_at p s in
  0 <= esp (tf x) /\ esp (tf x) + 4 + 4 * k <= sz x /\ sz x <= KERNBASE /\
  forall va, esp (tf x) + 4 <= va < esp (tf x) + 4 + 4 * k ->
    mapped (mem (k_mm s)) (pgdir x) va = true.

Lemma word_at_4 a b c d :
  u8 a = a -> u8 b = b -> u8 c = c -> u8 d = d ->
  word_at [a; b; c; d] 0 = a + 256 * b + 65536 * c + 16777216 * d.
Proof.
  intros Ha Hb Hc Hd. unfold word_at, byte_at. change (Z.to_nat 0) with 0%nat.
  change (Z.to_nat (0 + 1)) with 1%nat. change (Z.to_nat (0 + 2)) with 2%nat.
  change (Z.to_nat (0 + 3)) with 3%nat. cbn [lookup_total list_lookup_total].
  by rewrite Ha, Hb, Hc, Hd.
Qed.

Section Args.
Context `{KernelImage} (s : kst) (p : nat) (free : list Z) (k : Z).
Context (Hc : user_ctx s p free) (Ha : args_ok s p k).

Lemma u8_uload m dir a : u8 (uload m dir a) = uload m dir a.
Proof. apply u8_small, load8_range. Qed.

Lemma argint_run n : 0 <= n < k -> argint n s = Ok (Some (arg s p n)) (touch s).
Proof.
  intros Hn. destruct Ha as (? & ? & ? & Hm). unfold argint.
  erewrite bind_ok by (by apply (ctx_me s p free)).
  erewrite bind_ok by (unfold gets; reflexivity).
  change (pr_at p (touch s)) with (pr_at p s).
  set (a := esp (tf (pr_at p s)) + 4 + 4 * n). rewrite u32_small by lia.
  pose proof (ctx_touch s p free Hc) as Hc'. unfold fetchint.
  erewrite bind_ok by (by apply (ctx_me (touch s) p free)). rewrite touch_touch.
  erewrite bind_ok by (unfold gets; reflexivity).
  change (pr_at p (touch s)) with (pr_at p s).
  destruct (Z.leb_spec (sz (pr_at p s)) a); [lia|]. rewrite u32_small by lia.
  destruct (Z.ltb_spec (sz (pr_at p s)) (a + 4)); [lia|]. cbn [orb].
  erewrite bind_ok by (apply (vread_run (touch s) p free Hc' 4);
    [lia|lia|intros; change (pr_at p (touch s)) with (pr_at p s); apply Hm; lia]).
  change (mem (k_mm (touch s))) with (mem (k_mm s)).
  change (pr_at p (touch s)) with (pr_at p s).
  change (seq 0 4) with [0; 1; 2; 3]%nat. cbn [fmap list_fmap].
  rewrite word_at_4 by apply u8_uload. unfold ret, arg, uword. by rewrite Z.add_0_r.
Qed.

Lemma arg_touch n : arg (touch s) p n = arg s p n.
Proof. done. Qed.

Lemma args_touch : args_ok (touch s) p k.
Proof. done. Qed.
End Args.

(** [x <-? argint n else ...] with the argument present. *)
Lemma orelse_some {A B} (m : M kst (option A)) (d : M kst B) (k : A -> M kst B) s a s' :
  m s = Ok (Some a) s' -> orelse m d k s = k a s'.
Proof. intros Hm. unfold orelse. by erewrite bind_ok by exact Hm. Qed.

Lemma orelse_none {A B} (m : M kst (option A)) (d : M kst B) (k : A -> M kst B) s s' :
  m s = Ok None s' -> orelse m d k s = d s'.
Proof. intros Hm. unfold orelse. by erewrite bind_ok by exact Hm. Qed.
