(* ===== verification/DemoK.v ===== *)
(** * A concrete kernel state

    One process running in the kernel, with one user page that holds its
    stack and the arguments of its system call, and [n] free pages. *)

From S2P Require Import Prelude Machine StringC Spinlock Kalloc Vm VmWalk VmUser VmCopy Demo.
From S2P Require Import Kernel Sleep Bio Log Inode Console Fs Pipe File Proc Exec Sysfile KernelWp.

#[export] Instance demo_waits : Waits := 1%nat.

Definition demo_esp : Z := 0x100.

(** The user page at 0 with the words [args] above the return address. *)
Definition demo_user (n : nat) (args : list Z) : mm :=
  set_cpu (set_vm_regs (V2P demo_pgdir) 0 demo_cpu)
    (set_mem (store_bytes (mem (demo_as n 0 7)) (demo_page + 0x104)
                (concat (word_bytes <$> args))) (demo_as n 0 7)).

(** A process of one page whose memory is the page table [demo_pgdir]. *)
Definition demo_proc : proc :=
  upd_sz (fun _ => PGSIZE) (upd_pgdir (fun _ => demo_pgdir) (upd_kstack (fun _ => 0x801fc000)
    (upd_state (fun _ => RUNNING) (upd_pid (fun _ => 3)
      (upd_tf (upd_esp (fun _ => demo_esp))
        (upd_head (exec_head 0) (upd_tail exec_tail proc0))))))).

Definition demo_fs : fsst :=
  {| bufs := replicate 30 buf0; lru := seq 0 30; disk := []; disksize := 1000;
     sb := Superblock 1000 941 200 30 2 32 58; log := Logst 2 30 0 false 1 0 (replicate 30 0);
     inodes := replicate 50 inode0; files := replicate 100 file0; pipes := ∅ |}.

Definition demo_k (n : nat) (args : list Z) (x : proc) : kst :=
  {| k_mm := demo_user n args;
     k_pt := {| procs := x :: replicate 63 proc0; initproc := Some 1%nat; nextpid := 4;
                curproc := Some 0%nat; ticks := 0; first := false; kpgdir := 0; vmas := ∅ |};
     k_fs := demo_fs;
     k_con := {| cons_dev := true; input_buf := replicate 128 0; input_r := 0; input_w := 0;
                 input_e := 0; output := [] |} |}.

Section DemoUser.
Context (n : nat) (args : list Z) (Hn : (n <= 1000)%nat).
Context (Hlen : 0 < Z.of_nat (length (concat (word_bytes <$> args))) <= 24).

Lemma demo_user_write :
  uwrite demo_pgdir 0x104 (concat (word_bytes <$> args)) (pages_from demo_base n)
    (demo_as n 0 7)
    (set_mem (store_bytes (mem (demo_as n 0 7)) (demo_page + 0x104)
                (concat (word_bytes <$> args))) (demo_as n 0 7)).
Proof.
  destruct (demo_as_spec n 0 7 Hn ltac:(lia) eq_refl ltac:(lia)) as (Hai & Has & Hpte).
  assert (Hm : mapped (mem (demo_as n 0 7)) demo_pgdir 0x104 = true).
  { rewrite (demo_as_mapped n 0 7); lia || reflexivity || assumption. }
  assert (Hph : demo_page + 0x104 = phys (mem (demo_as n 0 7)) demo_pgdir 0x104).
  { unfold phys, page_of. rewrite Hpte by lia. reflexivity. }
  rewrite Hph. apply uwrite_chunk; try assumption; try lia.
  - change (0x104 mod PGSIZE) with 0x104. lia.
  - intros E. rewrite E in Hlen. simpl in Hlen. lia.
Qed.

Lemma demo_user_ctx x :
  pgdir x = demo_pgdir -> user_ctx (demo_k n args x) 0 (pages_from demo_base n).
Proof.
  intros Hx. pose proof demo_user_write as Hw. split.
  - reflexivity.
  - simpl. lia.
  - destruct (uw_alloc _ _ _ _ _ _ Hw) as [_ Hl Hf Hd]. split; try assumption.
    apply demo_cpu_wf.
  - unfold pr_at. simpl. rewrite Hx. exact (uw_as _ _ _ _ _ _ Hw).
  - unfold pr_at. simpl. by rewrite Hx.
Qed.

Lemma demo_user_pte va :
  0 <= va < 4294967296 ->
  pte_at (mem (demo_user n args)) demo_pgdir va = if pg va =? 0 then V2P demo_page + 7 else 0.
Proof.
  intros Hva. destruct (demo_as_spec n 0 7 Hn ltac:(lia) eq_refl ltac:(lia)) as (_ & _ & Hpte).
  rewrite <- Hpte by assumption. exact (uw_pte _ _ _ _ _ _ demo_user_write va).
Qed.

Lemma demo_user_mapped va :
  0 <= va < 4294967296 -> mapped (mem (demo_user n args)) demo_pgdir va = (pg va =? 0).
Proof.
  intros Hva. unfold mapped. rewrite demo_user_pte by assumption.
  destruct (pg va =? 0); reflexivity.
Qed.

Lemma demo_args_ok x k :
  pgdir x = demo_pgdir -> sz x = PGSIZE -> esp (tf x) = demo_esp -> 0 <= k <= 6 ->
  args_ok (demo_k n args x) 0 k.
Proof.
  intros Hd Hs He Hk. unfold args_ok, pr_at. simpl. rewrite Hd, Hs, He. unfold demo_esp.
  split_and!; [lia|lia|lia|]. intros va Hva.
  rewrite demo_user_mapped by lia. apply Z.eqb_eq. unfold pg. zlia.
Qed.
End DemoUser.
