(* ===== verification/Mmap.v ===== *)
(** * sysfile.c: mmap and munmap

    A process's mappings are a list of VMAs from [p->head] to the one that
    starts at [MAX_ADDR].  The code copies VMAs by value in two places
    ([p->head = *new_vma] and the local [curr] of [sys_munmap]); the model
    keeps these copies apart from the objects they are copies of. *)

From S2P Require Import Prelude Machine StringC Spinlock Kalloc Vm Kernel Sleep Bio Log Inode.
From S2P Require Import Console Fs Pipe File Proc Exec Sysfile.

(** [p->ofile[fd]]: the word before the array is [p->killed]. *)
Definition ofile_word (x : proc) (fd : Z) : fptr :=
  if (0 <=? fd) && (fd <? NOFILE) then
    match ofile x !!! Z.to_nat fd with Some f => FAt f | None => FNull end
  else if (fd =? -1) && (killed x =? 0) then FNull
  else FWild.

(** [f->off = 0] and the use of [f]. *)
Definition deref_file (f : fptr) : M kst nat :=
  match f with
  | FAt i => ret i
  | FNull => undef "null file"
  | FWild => undef "wild file pointer"
  end.

(** The words of a fresh page that [create_vma] does not set. *)
Definition raw_vma (m : gmap Z Z) (a : Z) : vm_area :=
  {| valid := 0; start := 0; vend := 0; pa := load32 m (a + 12); guardstart := load32 m (a + 16);
     len := 0; prot := 0; vflags := 0; vfd := 0; space_after := 0; vf := FNull; next := VNull |}.

Section Mmap.
Context `{KernelImage} `{Waits}.

Definition sys_walkpgdir (pgdir va : Z) (alloc : bool) : M mm Z :=
  let pde := pgdir + 4 * PDX va in
  e <- kload32 pde ;;
  if bit_set e PTE_P then ret (P2V (PTE_ADDR e) + 4 * PTX va)
  else if negb alloc then ret 0
  else
    pgtab <- kalloc ;;
    if pgtab =? 0 then ret 0
    else
      kmemset pgtab 0 PGSIZE ;;
      kstore32 pde (Z.lor (Z.lor (Z.lor (V2P pgtab) PTE_P) PTE_W) PTE_U) ;;
      ret (pgtab + 4 * PTX va).

Fixpoint sys_mappages_loop (fuel : nat) (pgdir a last pa_phys perm : Z) : M mm Z :=
  match fuel with
  | O => fun _ => NoFuel
  | S fuel' =>
      pte <- sys_walkpgdir pgdir a true ;;
      if pte =? 0 then ret (-1)
      else
        e <- kload32 pte ;;
        if bit_set e PTE_P then panic "remap"
        else
          kstore32 pte (Z.lor (Z.lor pa_phys perm) PTE_P) ;;
          if a =? last then ret 0
          else sys_mappages_loop fuel' pgdir (u32 (a + PGSIZE)) last (u32 (pa_phys + PGSIZE)) perm
  end.

(** Here [pa] is a kernel address, not a frame. *)
Definition sys_mappages (pgdir va size pa perm : Z) : M mm Z :=
  let a := PGROUNDDOWN va in
  let last := PGROUNDDOWN (u32 (va + size - 1)) in
  let pa_phys := V2P pa in
  sys_mappages_loop (Z.to_nat (u32 (last - a) / PGSIZE) + 1) pgdir a last pa_phys perm.

Lemma sys_mappages_eq pgdir va size pa perm :
  sys_mappages pgdir va size pa perm = mappages pgdir va size (V2P pa) perm.
Proof. reflexivity. Qed.

Definition create_vma (prev next : vptr) (st len prot flags fd : Z) : M kst vptr :=
  a <- lift_mm kalloc ;;
  if a =? 0 then undef "create_vma: kalloc returned 0"
  else
    raw <- gets (fun s => raw_vma (mem (k_mm s)) a) ;;
    let e := u32 (PGROUNDUP (u32 (st + len)) - 1) in
    nx <- get_vma next ;;
    p <- me ;;
    x <- gets (pr_at p) ;;
    modify (upd_k_pt (upd_vmas (<[a :=
      {| valid := 1; start := st; vend := e; pa := pa raw; guardstart := guardstart raw;
         len := s32 (e - st); prot := prot; vflags := flags; vfd := fd;
         space_after := s32 (start nx - e); vf := ofile_word x fd; next := next |}]>))) ;;
    set_vma prev (upd_next (fun _ => VHeap a)) ;;
    ret (VHeap a).

(** Not called. *)
Definition mmap_read (f : nat) (va o size : Z) : M kst Z :=
  i <- gets (fun s => ip (file_at f s)) ;;
  ilock i ;;
  r <- readi i (to_user va) (u32 o) size ;;
  iunlock i ;;
  ret (s32 (o + fst r)).

(** The loop over the pages of a new mapping. *)
Fixpoint mmap_pages (fuel : nat) (p : nat) (v : vptr) (st flags fd i : Z) : M kst unit :=
  match fuel with
  | O => fun _ => NoFuel
  | S fuel' =>
      x <- get_vma v ;;
      if i <? vend x then
        m <- lift_mm kalloc ;;
        if m =? 0 then panic "kalloc"
        else
          lift_mm (kmemset m 0 PGSIZE) ;;
          (when i =? st do set_vma v (upd_pa (fun _ => m))) ;;
          d <- gets (fun s => pgdir (pr_at p s)) ;;
          r <- lift_mm (sys_mappages d i PGSIZE m (Z.lor (prot x) PTE_U)) ;;
          (when negb (r =? 0) do
            (lift_mm (kfree m) ;;
             modify (upd_pr p (upd_killed (fun _ => 1))))) ;;
          (when negb (bit_set flags MAP_ANON) do
            (y <- gets (pr_at p) ;;
             f <- deref_file (ofile_word y fd) ;;
             modify (upd_file f (upd_off (fun _ => 0))) ;;
             fileread f (to_user i) PGSIZE ;;
             ret tt)) ;;
          mmap_pages fuel' p v st flags fd (u32 (i + PGSIZE))
      else ret tt
  end.

(** The guard pages of the mapping before and of the new one. *)
Definition mmap_guards (prev curr new : vptr) (flags st : Z) : M kst Z :=
  pv <- get_vma prev ;;
  cv <- get_vma curr ;;
  (when bit_set (vflags pv) MAP_GROWSUP && (u32 (guardstart pv + PGSIZE) =? start cv) do
    set_vma prev (upd_guardstart (fun _ => u32 (-1)))) ;;
  if bit_set flags MAP_GROWSUP then
    nv <- get_vma new ;;
    nn <- get_vma (next nv) ;;
    if PGSIZE <=? u32 (start nn - u32 (vend nv + 1)) then
      set_vma new (upd_guardstart (fun _ => u32 (vend nv + 1))) ;;
      ret (s32 st)
    else ret (-1)
  else ret (s32 st).

(** Enough space after [curr]: the new mapping at [st]. *)
Definition mmap_at (fixed : bool) (p : nat) (prev curr : vptr) (st len prot flags fd : Z)
    : M kst Z :=
  set_vma curr (upd_space_after (fun n => s32 (n - len))) ;;
  cv <- get_vma curr ;;
  new <- create_vma curr (next cv) st len prot flags fd ;;
  nv <- get_vma new ;;
  (when fixed && (start nv =? MIN_ADDR) do modify (upd_pr p (upd_head (fun _ => nv)))) ;;
  mmap_pages (page_rounds st (vend nv)) p new st flags fd st ;;
  mmap_guards prev curr new flags st.

(** [MAP_FIXED]: the walk to the VMA before [arg]. *)
Fixpoint mmap_fixed (fuel : nat) (p : nat) (prev curr : vptr) (arg len prot flags fd : Z)
    : M kst Z :=
  match fuel with
  | O => fun _ => NoFuel
  | S fuel' =>
      cv <- get_vma curr ;;
      if start cv =? MAX_ADDR then ret (-1)
      else if (start cv <=? arg) && (arg <=? vend cv) then ret (-1)
      else
        nx <- get_vma (next cv) ;;
        if (arg <? start nx) && (len <? space_after cv) then
          mmap_at true p prev curr arg len prot flags fd
        else mmap_fixed fuel' p curr (next cv) arg len prot flags fd
  end.

(** Otherwise: the first VMA with enough space after it. *)
Fixpoint mmap_any (fuel : nat) (p : nat) (prev curr : vptr) (len prot flags fd : Z) : M kst Z :=
  match fuel with
  | O => fun _ => NoFuel
  | S fuel' =>
      cv <- get_vma curr ;;
      if start cv =? MAX_ADDR then ret (-1)
      else if len <? space_after cv then
        mmap_at false p prev curr (u32 (vend cv + 1)) len prot flags fd
      else mmap_any fuel' p curr (next cv) len prot flags fd
  end.

Definition sys_mmap : M kst Z :=
  addr <-? argint 0 else ret (-1) ;;
  length <-? argint 1 else ret (-1) ;;
  prot <-? argint 2 else ret (-1) ;;
  flags <-? argint 3 else ret (-1) ;;
  fd <-? argint 4 else ret (-1) ;;
  offset <-? argint 5 else ret (-1) ;;
  p <- me ;;
  let arg := u32 addr in
  fuel <- gets vma_fuel ;;
  if bit_set flags MAP_FIXED then
    if negb (arg mod PGSIZE =? 0) || (arg <? MIN_ADDR) || (MAX_ADDR <=? arg) then ret (-1)
    else mmap_fixed fuel p (VHead p) (VHead p) arg length prot flags fd
  else mmap_any fuel p (VHead p) (VHead p) length prot flags fd.

(** ** munmap *)

(** The walk over a copy of the list's elements: the local [curr]. *)
Fixpoint munmap_find (fuel : nat) (curr : vm_area) (arg : Z) : M kst (option vm_area) :=
  match fuel with
  | O => fun _ => NoFuel
  | S fuel' =>
      if start curr =? MAX_ADDR then ret None
      else if (arg =? start curr) && (valid curr =? 1) then ret (Some curr)
      else
        nx <- get_vma (next curr) ;;
        munmap_find fuel' nx arg
  end.

(** The loop over the pages, with its test as written: the entry is only
    looked at when there is none. *)
Fixpoint munmap_pages (fuel : nat) (i e : Z) : M kst unit :=
  match fuel with
  | O => fun _ => NoFuel
  | S fuel' =>
      if i <? e then
        p <- me ;;
        d <- gets (fun s => pgdir (pr_at p s)) ;;
        pte <- lift_mm (sys_walkpgdir d i false) ;;
        (when pte =? 0 do
          (en <- lift_mm (kload32 pte) ;;
           (when bit_set en PTE_P do lift_mm (kfree (P2V (PTE_ADDR en)))) ;;
           lift_mm (kstore32 pte 0))) ;;
        munmap_pages fuel' (u32 (i + PGSIZE)) e
      else ret tt
  end.

(** [prev] and [vm] both point to the local [curr]: the updates at the end of
    the call, on that copy. *)
Definition munmap_unlink (curr : vm_area) (arg : Z) : vm_area :=
  let curr := if guardstart curr =? u32 (-1)
              then upd_guardstart (fun _ => u32 (vend curr + 1)) curr else curr in
  if arg =? start curr then
    let curr := upd_valid (fun _ => 0) curr in
    let curr := upd_next (fun _ => next curr) curr in
    upd_space_after (fun n => s32 (n + len curr)) curr
  else curr.

Definition sys_munmap : M kst Z :=
  addr <-? argint 0 else ret (-1) ;;
  length <-? argint 1 else ret (-1) ;;
  let arg := u32 addr in
  if negb (arg mod PGSIZE =? 0) || (arg <? MIN_ADDR) || (MAX_ADDR <=? arg) then ret (-1)
  else
    p <- me ;;
    let e := u32 (arg + length) in
    h <- gets (fun s => head (pr_at p s)) ;;
    fuel <- gets vma_fuel ;;
    vm <-? munmap_find fuel h arg else ret (-1) ;;
    (when negb (bit_set (vflags vm) MAP_ANON) && negb (bit_set (vflags vm) MAP_PRIVATE) do
      (f <- deref_file (vf vm) ;;
       modify (upd_file f (upd_off (fun _ => 0))) ;;
       filewrite f (from_user (start vm)) (len vm) ;;
       ret tt)) ;;
    munmap_pages (page_rounds arg e) arg e ;;
    let curr := munmap_unlink vm arg in
    ret 0.
End Mmap.
