(* ===== verification/Trap.v ===== *)
(** * sysproc.c, the dispatch of syscall.c, trap.c

    [trap] takes from the hardware what it reads there: the faulting address
    ([%cr2]), the number of the CPU and the characters of the keyboard or the
    serial port.  [lapiceoi] has no state in the model. *)

From S2P Require Import Prelude Machine StringC Spinlock Kalloc Vm Kernel Sleep Bio Log Inode.
From S2P Require Import Console Fs Pipe File Proc Exec Sysfile Mmap.

Definition T_PGFLT : Z := 14.
Definition T_SYSCALL : Z := 64.
Definition T_IRQ0 : Z := 32.
Definition IRQ_TIMER : Z := 0.
Definition IRQ_KBD : Z := 1.
Definition IRQ_COM1 : Z := 4.
Definition IRQ_IDE : Z := 14.
Definition IRQ_SPURIOUS : Z := 31.

(** The interrupt descriptor table of [tvinit]. *)
Definition idt (vectors : Z -> Z) (i : Z) : gatedesc :=
  if i =? T_SYSCALL
  then SETGATE true (Z.shiftl SEG_KCODE 3) (vectors T_SYSCALL) DPL_USER
  else SETGATE false (Z.shiftl SEG_KCODE 3) (vectors i) 0.

Section Trap.
Context `{KernelImage} `{Waits}.

(** ** sysproc.c *)

Definition sys_fork : M kst Z := fork.

Definition sys_exit : M kst Z := exit ;; ret 0.

Definition sys_wait : M kst Z := wait.

Definition sys_kill : M kst Z :=
  pd <-? argint 0 else ret (-1) ;;
  kill pd.

Definition sys_getpid : M kst Z :=
  p <- me ;;
  gets (fun s => pid (pr_at p s)).

Definition sys_sbrk : M kst Z :=
  n <-? argint 0 else ret (-1) ;;
  p <- me ;;
  addr <- gets (fun s => sz (pr_at p s)) ;;
  r <- growproc n ;;
  if r <? 0 then ret (-1) else ret (s32 addr).

Definition sys_sleep : M kst Z :=
  n <-? argint 0 else ret (-1) ;;
  acquire L_tick ;;
  t0 <- gets (fun s => ticks (k_pt s)) ;;
  loop waits (fun _ =>
    t <- gets (fun s => ticks (k_pt s)) ;;
    if u32 (t - t0) <? u32 n then
      p <- me ;;
      k <- gets (fun s => killed (pr_at p s)) ;;
      if negb (k =? 0) then release L_tick ;; ret (inr (-1))
      else sleep Ch_ticks L_tick ;; ret (inl tt)
    else release L_tick ;; ret (inr 0)) tt.

Definition sys_uptime : M kst Z :=
  acquire L_tick ;;
  t <- gets (fun s => ticks (k_pt s)) ;;
  release L_tick ;;
  ret (s32 t).

(** ** syscall.c *)

Definition syscalls (num : Z) : option (M kst Z) :=
  match num with
  | 1 => Some sys_fork | 2 => Some sys_exit | 3 => Some sys_wait | 4 => Some sys_pipe
  | 5 => Some sys_read | 6 => Some sys_kill | 7 => Some sys_exec | 8 => Some sys_fstat
  | 9 => Some sys_chdir | 10 => Some sys_dup | 11 => Some sys_getpid | 12 => Some sys_sbrk
  | 13 => Some sys_sleep | 14 => Some sys_uptime | 15 => Some sys_open | 16 => Some sys_write
  | 17 => Some sys_mknod | 18 => Some sys_unlink | 19 => Some sys_link | 20 => Some sys_mkdir
  | 21 => Some sys_close | 22 => Some sys_mmap | 23 => Some sys_munmap
  | _ => None
  end.

Definition syscall : M kst unit :=
  p <- me ;;
  num <- gets (fun s => s32 (eax (tf (pr_at p s)))) ;;
  r <- (match syscalls num with Some f => f | None => ret (-1) end) ;;
  modify (upd_pr p (upd_tf (upd_eax (fun _ => u32 r)))).

(** ** trap.c *)

Definition trap_walkpgdir (pgdir va : Z) (alloc : bool) : M mm Z :=
  let pde := pgdir + 4 * PDX va in
  e <- kload32 pde ;;
  if bit_set e PTE_P then ret (P2V (PTE_ADDR e) + 4 * PTX va)
  else if negb alloc then ret 0
  else
    pgtab <- kalloc ;;
    if pgtab =? 0 then ret 0
    else
      kmemset pgtab 0 PGSIZE ;;
      kstore32 pde (Z.lor (Z.lor (Z.lor (V2P pgtab) PTE_P) PTE_W) PTE_U) ;;
      ret (pgtab + 4 * PTX va).

Fixpoint trap_mappages_loop (fuel : nat) (pgdir a last pa_phys perm : Z) : M mm Z :=
  match fuel with
  | O => fun _ => NoFuel
  | S fuel' =>
      pte <- trap_walkpgdir pgdir a true ;;
      if pte =? 0 then ret (-1)
      else
        e <- kload32 pte ;;
        if bit_set e PTE_P then panic "remap"
        else
          kstore32 pte (Z.lor (Z.lor pa_phys perm) PTE_P) ;;
          if a =? last then ret 0
          else trap_mappages_loop fuel' pgdir (u32 (a + PGSIZE)) last (u32 (pa_phys + PGSIZE)) perm
  end.

(** Here [pa] is a kernel address, not a frame. *)
Definition trap_mappages (pgdir va size pa perm : Z) : M mm Z :=
  let a := PGROUNDDOWN va in
  let last := PGROUNDDOWN (u32 (va + size - 1)) in
  let pa_phys := V2P pa in
  trap_mappages_loop (Z.to_nat (u32 (last - a) / PGSIZE) + 1) pgdir a last pa_phys perm.

Lemma trap_mappages_eq pgdir va size pa perm :
  trap_mappages pgdir va size pa perm = mappages pgdir va size (V2P pa) perm.
Proof. reflexivity. Qed.

Definition set_killed : M kst unit :=
  p <- me ;;
  modify (upd_pr p (upd_killed (fun _ => 1))).

(** The fault is in the guard page of [v]: map it. *)
Definition grow_guard (v : vptr) : M kst unit :=
  m <- lift_mm kalloc ;;
  if m =? 0 then panic "kalloc"
  else
    lift_mm (kmemset m 0 PGSIZE) ;;
    p <- me ;;
    d <- gets (fun s => pgdir (pr_at p s)) ;;
    x <- get_vma v ;;
    r <- lift_mm (trap_mappages d (guardstart x) PGSIZE m (Z.lor (prot x) PTE_U)) ;;
    if negb (r =? 0) then lift_mm (kfree m) ;; set_killed
    else
      set_vma v (upd_len (fun n => s32 (n + PGSIZE))) ;;
      set_vma v (upd_vend (fun e => u32 (e + PGSIZE))) ;;
      x <- get_vma v ;;
      nx <- get_vma (next x) ;;
      if u32 (start nx - u32 (vend x + 1)) <? 2 * PGSIZE then
        set_vma v (upd_guardstart (fun _ => u32 (-1)))
      else set_vma v (upd_guardstart (fun _ => u32 (vend x + 1))).

Fixpoint pgflt_loop (fuel : nat) (v : vptr) (fault : Z) : M kst unit :=
  match fuel with
  | O => fun _ => NoFuel
  | S fuel' =>
      x <- get_vma v ;;
      if start x =? MAX_ADDR then ret tt
      else if negb (bit_set (vflags x) MAP_GROWSUP) then
        seg <- (if vend x <? fault then
                  nx <- get_vma (next x) ;; ret (fault <? start nx)
                else ret false) ;;
        if seg then set_killed else pgflt_loop fuel' (next x) fault
      else if 0 <? guardstart x then
        if (guardstart x <=? fault) && (fault <=? u32 (guardstart x + PGSIZE - 1)) then
          grow_guard v
        else
          nx <- get_vma (next x) ;;
          if fault <? start nx then set_killed else pgflt_loop fuel' (next x) fault
      else set_killed
  end.

Definition pgflt (fault : Z) : M kst unit :=
  p <- me ;;
  if (fault <? MIN_ADDR) || (MAX_ADDR <=? fault) then set_killed
  else
    fuel <- gets vma_fuel ;;
    pgflt_loop fuel (VHead p) fault.

Definition timer_tick : M kst unit :=
  acquire L_tick ;;
  modify (upd_k_pt (upd_ticks (fun t => u32 (t + 1)))) ;;
  wakeup Ch_ticks ;;
  release L_tick.

(** The switch on [tf->trapno]. *)
Definition trap_switch (f : trapframe) (cpuid cr2 : Z) (input : list Z) : M kst unit :=
  let t := trapno f in
  if t =? T_IRQ0 + IRQ_TIMER then when cpuid =? 0 do timer_tick
  else if t =? T_IRQ0 + IRQ_IDE then ideintr
  else if t =? T_IRQ0 + IRQ_IDE + 1 then ret tt
  else if t =? T_IRQ0 + IRQ_KBD then consoleintr input
  else if t =? T_IRQ0 + IRQ_COM1 then consoleintr input
  else if (t =? T_IRQ0 + 7) || (t =? T_IRQ0 + IRQ_SPURIOUS) then ret tt
  else if t =? T_PGFLT then pgflt cr2
  else
    op <- myproc ;;
    if bool_decide (op = None) || (Z.land (cs f) 3 =? 0) then panic "trap"
    else set_killed.

(** [if(myproc() && myproc()->killed && (tf->cs&3) == DPL_USER) exit();] *)
Definition exit_if_killed (f : trapframe) : M kst unit :=
  op <- myproc ;;
  match op with
  | None => ret tt
  | Some p =>
      k <- gets (fun s => killed (pr_at p s)) ;;
      when negb (k =? 0) && (Z.land (cs f) 3 =? DPL_USER) do exit
  end.

Definition trap (f : trapframe) (cpuid cr2 : Z) (input : list Z) : M kst unit :=
  if trapno f =? T_SYSCALL then
    p <- me ;;
    k <- gets (fun s => killed (pr_at p s)) ;;
    (when negb (k =? 0) do exit) ;;
    modify (upd_pr p (upd_tf (fun _ => f))) ;;
    syscall ;;
    p <- me ;;
    k <- gets (fun s => killed (pr_at p s)) ;;
    when negb (k =? 0) do exit
  else
    trap_switch f cpuid cr2 input ;;
    exit_if_killed f ;;
    op <- myproc ;;
    (match op with
     | None => ret tt
     | Some p =>
         st <- gets (fun s => state (pr_at p s)) ;;
         when bool_decide (st = RUNNING) && (trapno f =? T_IRQ0 + IRQ_TIMER) do yield
     end) ;;
    exit_if_killed f.
End Trap.
