(* ===== verification/MmapWp.v ===== *)
(** * Running mmap

    VMAs as a function of the process state ([vma_at], [put_vma]), and the
    specification of the page loop, of [create_vma] and of a mapping placed
    after a given VMA. *)

From S2P Require Import Prelude Machine StringC Spinlock Kalloc Vm VmWalk VmMap VmUser VmKern.
From S2P Require Import VmAlloc VmCopy Kernel Sleep Bio Log Inode Console Fs Pipe File Proc Exec.
From S2P Require Import Sysfile KernelWp Mmap Trap.

(** ** Tables updated by index *)

Section Alter.
Context {A : Type} `{Inhabited A}.
Implicit Types (l : list A) (f : A -> A).

Lemma alter_total_eq f i l : (i < length l)%nat -> alter f i l !!! i = f (l !!! i).
Proof.
  intros Hi. apply list_lookup_total_correct. rewrite list_lookup_alter_eq.
  by rewrite (list_lookup_lookup_total_lt l i Hi).
Qed.

Lemma alter_total_ne f i j l : i <> j -> alter f i l !!! j = l !!! j.
Proof. intros Hij. rewrite !list_lookup_total_alt. by rewrite list_lookup_alter_ne. Qed.

(** What [f] does not change. *)
Lemma alter_total_field {B} (g : A -> B) f i j l :
  (forall x, g (f x) = g x) -> g (alter f i l !!! j) = g (l !!! j).
Proof.
  intros Hg. destruct (decide (i = j)) as [->|]; [|by rewrite alter_total_ne].
  destruct (decide (j < length l)%nat); [by rewrite alter_total_eq|].
  rewrite !list_lookup_total_alt, list_lookup_alter_eq.
  rewrite (lookup_ge_None_2 l) by lia. done.
Qed.
End Alter.

(** ** VMAs *)

Definition vma_at (pt : prst) (v : vptr) : option vm_area :=
  match v with
  | VNull => None
  | VHead i => Some (head (procs pt !!! i))
  | VTail i => Some (tail (procs pt !!! i))
  | VHeap a => vmas pt !! a
  end.

Definition put_vma (v : vptr) (f : vm_area -> vm_area) (pt : prst) : prst :=
  match v with
  | VNull => pt
  | VHead i => upd_procs (alter (upd_head f) i) pt
  | VTail i => upd_procs (alter (upd_tail f) i) pt
  | VHeap a => upd_vmas (alter f a) pt
  end.

Lemma get_vma_run s v x : vma_at (k_pt s) v = Some x -> get_vma v s = Ok x s.
Proof.
  unfold get_vma. erewrite bind_ok by (unfold get; reflexivity).
  destruct v; simpl; [done|by intros [= <-]|by intros [= <-]|]. by intros ->.
Qed.

Lemma set_vma_run s v f :
  v <> VNull -> set_vma v f s = Ok tt (upd_k_pt (put_vma v f) s).
Proof. by destruct v. Qed.

Definition in_table (pt : prst) (v : vptr) : Prop :=
  match v with VHead i | VTail i => (i < length (procs pt))%nat | _ => True end.

Lemma vma_at_put pt v f :
  in_table pt v -> vma_at (put_vma v f pt) v = f <$> vma_at pt v.
Proof.
  destruct v; simpl; intros Hi; [done|..].
  - by rewrite alter_total_eq.
  - by rewrite alter_total_eq.
  - apply lookup_alter_eq.
Qed.

Lemma vma_at_put_ne pt v v' f : v <> v' -> vma_at (put_vma v f pt) v' = vma_at pt v'.
Proof.
  destruct v, v'; simpl; intros Hne; try done;
    try (f_equal; by apply alter_total_field);
    try (rewrite alter_total_ne; [done|by intros ->]).
  apply lookup_alter_ne. by intros ->.
Qed.

(** Fields that [f] keeps. *)
Lemma vma_at_keep {B} (g : vm_area -> B) pt v w f x :
  (forall y, g (f y) = g y) -> vma_at pt v = Some x ->
  exists x', vma_at (put_vma w f pt) v = Some x' /\ g x' = g x.
Proof.
  intros Hg Hx. destruct (decide (w = v)) as [->|]; [|rewrite vma_at_put_ne by done; by eauto].
  destruct v as [|i|i|a]; simpl in *; [done|..]; simplify_eq.
  - eexists. split; [done|]. apply (alter_total_field (fun y => g (head y))). intros; apply Hg.
  - eexists. split; [done|]. apply (alter_total_field (fun y => g (tail y))). intros; apply Hg.
  - rewrite lookup_alter_eq, Hx. simpl. eauto.
Qed.

Lemma vma_at_insert pt v a y x :
  vmas pt !! a = None -> vma_at pt v = Some x -> vma_at (upd_vmas (<[a := y]>) pt) v = Some x.
Proof.
  intros Ha. destruct v as [|i|i|b]; simpl; try done. intros Hb. rewrite lookup_insert_ne; congruence.
Qed.

(** The tables of processes keep everything but the VMA. *)
Lemma put_vma_field {B} (g : proc -> B) v f pt i :
  (forall h x, g (upd_head h x) = g x) -> (forall h x, g (upd_tail h x) = g x) ->
  g (procs (put_vma v f pt) !!! i) = g (procs pt !!! i).
Proof. intros Hh Ht. destruct v; simpl; try done; by apply alter_total_field. Qed.

Lemma put_vma_length v f pt : length (procs (put_vma v f pt)) = length (procs pt).
Proof. destruct v; simpl; try done; apply length_alter. Qed.

Lemma put_vma_vmas v f pt a : vmas pt !! a = None -> vmas (put_vma v f pt) !! a = None.
Proof.
  intros Ha. destruct v as [|i|i|b]; simpl; try done.
  destruct (decide (b = a)) as [->|]; [by rewrite lookup_alter_eq, Ha|by rewrite lookup_alter_ne].
Qed.

Lemma put_vma_cur v f pt : curproc (put_vma v f pt) = curproc pt.
Proof. by destruct v. Qed.

(** ** The page loop *)

Section Pages.
Context `{KernelImage} `{Waits}.

(** Only the memory and frame of the start of a growth matter. *)
Lemma grow_start fl dat dir lo hi s s1 free s' free' :
  mem s1 = mem s -> mm_frame s s1 ->
  grow fl dat dir lo hi s1 free s' free' -> grow fl dat dir lo hi s free s' free'.
Proof.
  intros Hm Hf []. rewrite Hm in *. split; try done. by etrans.
Qed.

(** What a mapping is asked for: [n] pages at [st] with the flags [pr]. *)
Record map_req (dir st n pr : Z) (s0 : mm) (free0 : list Z) : Prop := {
  mr_al : st mod PGSIZE = 0;
  mr_lo : 0 <= st;
  mr_pos : 0 < n;
  mr_hi : st + n * PGSIZE <= KERNBASE;
  mr_prot : 0 <= pr < PGSIZE;
  mr_un : forall va, st <= va < st + n * PGSIZE -> mapped (mem s0) dir va = false;
  mr_free : 2 * n <= Z.of_nat (length free0) }.

(** The [pa] field is set by the first round. *)
Definition set_pa (st i m : Z) (v : vptr) (pt : prst) : prst :=
  if i =? st then put_vma v (upd_pa (fun _ => m)) pt else pt.

Section Loop.
Context (dir st n pr : Z) (s0 : mm) (free0 : list Z) (Hreq : map_req dir st n pr s0 free0).
Context (p : nat) (v : vptr) (flags fd : Z).
Context (Hanon : bit_set flags MAP_ANON = true) (Hv : v <> VNull).

Let fl (_ : Z) : Z := Z.lor pr PTE_U.

(** The state at round [i]. *)
Record mapping (i m : Z) (s : kst) (free : list Z) (x : vm_area) : Prop := {
  mp_grow : grow fl zero_data dir st i s0 free0 (k_mm s) free;
  mp_len : Z.of_nat (length free0) <= Z.of_nat (length free) + 2 * ((i - st) / PGSIZE);
  mp_vma : vma_at (k_pt s) v = Some x;
  mp_tab : in_table (k_pt s) v;
  mp_end : vend x = st + n * PGSIZE - 1;
  mp_prot : prot x = pr;
  mp_dir : pgdir (pr_at p s) = dir;
  mp_pa : st < i -> page_of (mem (k_mm s)) dir st = m }.

Lemma user_prot_range : 0 <= Z.lor pr PTE_U < PGSIZE.
Proof. apply (lor_range 12); [lia|apply Hreq|unfold PTE_U; lia]. Qed.

Lemma mmap_pages_step (Q : unit -> kst -> Prop) fuel i m s free x :
  mapping i m s free x -> i mod PGSIZE = 0 -> st <= i < st + n * PGSIZE ->
  (forall m' s' free' x', mapping (i + PGSIZE) m' s' free' x' ->
     (i <> st -> m' = m) -> k_pt s' = set_pa st i m' v (k_pt s) ->
     k_fs s' = k_fs s -> k_con s' = k_con s ->
     wp (mmap_pages fuel p v st flags fd (i + PGSIZE)) Q s') ->
  wp (mmap_pages (S fuel) p v st flags fd i) Q s.
Proof.
  intros [Hgr Hlen Hvma Htab Hend Hprot Hdir Hpa] Hal Hi Hk. pose proof Hreq as [].
  cbn [mmap_pages]. wp_step. eapply wp_run; [by apply get_vma_run|].
  destruct (Z.ltb_spec i (vend x)); [|zlia].
  wp_step. apply wp_lift. eapply kalloc_wp; [apply Hgr|]. intros m1 Hf1 Hm1.
  destruct free as [|a rest]; [simpl in Hlen; zlia|]. intros Ha Hn Hai1.
  pose proof (page_ok_range a Ha). destruct (Z.eqb_spec a 0); [lia|].
  wp_step. apply wp_lift. apply wp_kmemset; [simpl; lia|]. cbn [k_mm upd_k_mm].
  pose proof (kalloc_zero (k_mm s) a rest m1 Hf1 Hm1 Ha Hn Hai1) as Hfi.
  set (s1 := upd_k_mm _ _). wp_step.
  assert (exists s2, k_mm s2 = k_mm s1 /\ k_pt s2 = set_pa st i a v (k_pt s) /\
    k_fs s2 = k_fs s /\ k_con s2 = k_con s /\
    (when i =? st do set_vma v (upd_pa (fun _ => a))) s1 = Ok tt s2) as
    (s2 & Hmm2 & Hpt2 & Hfs2 & Hcon2 & Hrun).
  { unfold set_pa. destruct (i =? st); [|by exists s1].
    exists (upd_k_pt (put_vma v (upd_pa (fun _ => a))) s1). by rewrite set_vma_run. }
  eapply wp_run; [exact Hrun|]. wp_step. wp_step.
  assert (Hd2 : pgdir (pr_at p s2) = dir).
  { unfold pr_at. rewrite Hpt2, <- Hdir. unfold set_pa, pr_at.
    destruct (i =? st); [|done]. by apply put_vma_field. }
  rewrite Hd2, sys_mappages_eq, Hprot. wp_step. apply wp_lift. rewrite Hmm2.
  cbn [length] in Hlen.
  eapply (map_page_wp _ fl zero_data dir st i a rest s0 free0 (k_mm s)); try done || zlia.
  - apply user_prot_range.
  - apply mr_un0. lia.
  - intros m3 free3 Hg3 Hl3 Hpg3. change (0 =? 0) with true. cbn [negb]. wp_step. wp_step.
    rewrite Hanon. cbn [negb]. wp_step. wp_step. rewrite u32_small by lia.
    assert (Hvma3 : exists x3, vma_at (k_pt s2) v = Some x3 /\ vend x3 = vend x /\
      prot x3 = prot x).
    { rewrite Hpt2. unfold set_pa. destruct (i =? st); [|by eauto].
      rewrite vma_at_put, Hvma by done. simpl. eauto. }
    destruct Hvma3 as (x3 & ? & ? & ?).
    eapply (Hk (if i =? st then a else m) _ free3 x3); try done.
    + split; try done; [zlia| |congruence|congruence|].
      * simpl. rewrite Hpt2. unfold set_pa. destruct (i =? st); [|done].
        unfold in_table in *. destruct v; try done; by rewrite put_vma_length.
      * intros _. simpl. rewrite Hpg3 by lia. replace (pg st) with st by (unfold pg; zlia).
        destruct (Z.eqb_spec st i), (Z.eqb_spec i st); lia.
    + intros. destruct (Z.eqb_spec i st); done.
    + simpl. rewrite Hpt2. unfold set_pa. by destruct (i =? st).
  - intros m3 _ ->. simpl in Hlen. zlia.
Qed.
Lemma mmap_pages_rest (Q : unit -> kst -> Prop) fuel i m s free x :
  mapping i m s free x -> i mod PGSIZE = 0 -> st < i <= st + n * PGSIZE ->
  (Z.to_nat ((st + n * PGSIZE - i) / PGSIZE) < fuel)%nat ->
  (forall s' free' x', mapping (st + n * PGSIZE) m s' free' x' ->
     k_pt s' = k_pt s -> k_fs s' = k_fs s -> k_con s' = k_con s -> Q tt s') ->
  wp (mmap_pages fuel p v st flags fd i) Q s.
Proof.
  pose proof (mr_al _ _ _ _ _ _ Hreq).
  revert i s free x. induction fuel as [|fuel IH]; intros i s free x Hm Hal Hi Hfuel HQ; [lia|].
  destruct (Z.eq_dec i (st + n * PGSIZE)) as [->|].
  - cbn [mmap_pages]. wp_step. eapply wp_run; [apply get_vma_run, Hm|].
    rewrite (mp_end _ _ _ _ _ Hm). zcases. wp_step. by eapply HQ.
  - eapply mmap_pages_step; [done|done|lia|]. intros m' s' free' x' Hm' Em Hpt Hfs Hcon.
    rewrite Em in * by lia. unfold set_pa in Hpt. destruct (Z.eqb_spec i st); [lia|].
    eapply IH; [done|zlia|zlia|zlia|]. intros s2 free2 x2 ? ? ? ?.
    eapply HQ; [done|congruence..].
Qed.

(** All [n] pages, from the first. *)
Lemma mmap_pages_wp (Q : unit -> kst -> Prop) fuel s x :
  alloc_inv (k_mm s) free0 -> as_inv (mem (k_mm s)) dir free0 -> s0 = k_mm s ->
  vma_at (k_pt s) v = Some x -> in_table (k_pt s) v -> vend x = st + n * PGSIZE - 1 ->
  prot x = pr -> pgdir (pr_at p s) = dir -> (Z.to_nat n < fuel)%nat ->
  (forall s' free', grow fl zero_data dir st (st + n * PGSIZE) s0 free0 (k_mm s') free' ->
     Z.of_nat (length free0) <= Z.of_nat (length free') + 2 * n ->
     k_pt s' = put_vma v (upd_pa (fun _ => page_of (mem (k_mm s')) dir st)) (k_pt s) ->
     k_fs s' = k_fs s -> k_con s' = k_con s -> Q tt s') ->
  wp (mmap_pages fuel p v st flags fd st) Q s.
Proof.
  intros Hai Has E Hx Ht Hend Hprot Hdir Hfuel HQ. pose proof Hreq as [].
  destruct fuel as [|fuel]; [lia|].
  eapply (mmap_pages_step _ _ _ 0 s free0 x); [|done|lia|].
  - split; try done; [rewrite <- E; apply grow_refl; by rewrite E|zlia|lia].
  - intros m s1 free1 x1 Hm1 _ Hpt1 Hfs1 Hcon1. unfold set_pa in Hpt1.
    rewrite Z.eqb_refl in Hpt1.
    eapply mmap_pages_rest; [done|zlia|zlia|zlia|]. intros s2 free2 x2 Hm2 Hpt2 Hfs2 Hcon2.
    eapply HQ; [apply Hm2| | |congruence..].
    { pose proof (mp_len _ _ _ _ _ Hm2). zlia. }
    rewrite (mp_pa _ _ _ _ _ Hm2) by lia. congruence.
Qed.
End Loop.

(** A page loop that starts at a mapped page panics. *)
Lemma mmap_pages_remap fuel p v st flags fd s x b rest :
  alloc_inv (k_mm s) (b :: rest) -> as_inv (mem (k_mm s)) (pgdir (pr_at p s)) (b :: rest) ->
  vma_at (k_pt s) v = Some x -> st < vend x -> st mod PGSIZE = 0 ->
  mapped (mem (k_mm s)) (pgdir (pr_at p s)) st = true ->
  mmap_pages (S fuel) p v st flags fd st s = Panic "remap".
Proof.
  intros Hai Has Hx Hlt Hal Hm. assert (Hv : v <> VNull) by (by intros ->). cbn [mmap_pages].
  erewrite bind_ok by (by eapply get_vma_run). destruct (Z.ltb_spec st (vend x)); [|lia].
  destruct (kalloc_wp (fun r m => r = b /\ page_ok b /\ b ∉ rest /\ alloc_inv m rest /\
    mm_frame (k_mm s) m /\ mem m = mem (k_mm s)) (k_mm s) (b :: rest) Hai)
    as (r & m1 & Hr & -> & Hb & Hn & Hai1 & Hf1 & Hm1); [by intros; split_and!|].
  erewrite bind_ok by (apply lift_ok, Hr).
  pose proof (page_ok_range b Hb). destruct (Z.eqb_spec b 0); [lia|].
  pose proof (kalloc_zero (k_mm s) b rest m1 Hf1 Hm1 Hb Hn Hai1) as Hfi.
  destruct (filled_as _ _ _ _ _ _ Hfi Has) as (Has2 & _ & Hpte2).
  erewrite bind_ok.
  2:{ apply lift_ok. unfold kmemset. destruct (Z.ltb_spec b KERNBASE); [lia|]. reflexivity. }
  rewrite Z.eqb_refl. erewrite bind_ok by (by apply set_vma_run).
  erewrite bind_ok by (unfold gets; reflexivity).
  set (s2 := upd_k_pt _ _).
  assert (Hd : pgdir (pr_at p s2) = pgdir (pr_at p s)).
  { unfold pr_at. simpl. by apply put_vma_field. }
  rewrite Hd, sys_mappages_eq. unfold bind at 1. erewrite lift_panic; [done|].
  eapply mappages_mapped; [apply Has2|done|]. unfold mapped. by rewrite Hpte2.
Qed.

(** ** A new VMA *)

(** What [create_vma] stores in the page [a], before the page loop. *)
Definition new_area (m : gmap Z Z) (a st ln pr flags fd : Z) (nx : vm_area) (f : fptr)
    (nxt : vptr) : vm_area :=
  let e := u32 (PGROUNDUP (u32 (st + ln)) - 1) in
  {| valid := 1; start := st; vend := e; pa := load32 m (a + 12);
     guardstart := load32 m (a + 16); len := s32 (e - st); prot := pr; vflags := flags;
     vfd := fd; space_after := s32 (start nx - e); vf := f; next := nxt |}.

(** The end of [n] pages. *)
Lemma area_end st ln n :
  st mod PGSIZE = 0 -> 0 <= st -> (n - 1) * PGSIZE < ln <= n * PGSIZE ->
  st + n * PGSIZE <= KERNBASE -> 0 < n ->
  u32 (PGROUNDUP (u32 (st + ln)) - 1) = st + n * PGSIZE - 1.
Proof.
  intros. rewrite (u32_small (st + ln)) by lia. rewrite PGROUNDUP_eq by lia.
  replace ((st + ln + PGSIZE - 1) / PGSIZE * PGSIZE) with (st + n * PGSIZE) by zlia.
  apply u32_small. lia.
Qed.

Lemma create_vma_wp (Q : vptr -> kst -> Prop) s p free prev nxt st ln pr flags fd nx :
  user_ctx s p free -> free <> [] -> vma_at (k_pt s) nxt = Some nx -> prev <> VNull ->
  (forall s' a rest, free = a :: rest -> page_ok a -> a ∉ rest ->
     mem (k_mm s') = mem (k_mm s) -> mm_frame (k_mm s) (k_mm s') -> alloc_inv (k_mm s') rest ->
     k_pt s' = put_vma prev (upd_next (fun _ => VHeap a))
       (upd_vmas (<[a := new_area (mem (k_mm s)) a st ln pr flags fd nx
          (ofile_word (pr_at p s) fd) nxt]>) (k_pt s)) ->
     k_fs s' = k_fs s -> k_con s' = k_con s -> Q (VHeap a) s') ->
  wp (create_vma prev nxt st ln pr flags fd) Q s.
Proof.
  intros Hc Hne Hnx Hprev HQ. unfold create_vma. wp_step. apply wp_lift.
  eapply kalloc_wp; [apply Hc|]. intros m1 Hf1 Hm1. destruct free as [|a rest]; [done|].
  intros Ha Hn Hai1. pose proof (page_ok_range a Ha). destruct (Z.eqb_spec a 0); [lia|].
  wp_step. wp_step. cbn zeta. set (s1 := upd_k_mm _ s). wp_step.
  eapply wp_run; [by apply get_vma_run|]. wp_step.
  eapply wp_run; [apply (me_run s1 p); [exact (ai_wf _ _ Hai1)|apply Hc]|].
  wp_step. wp_step. wp_step. wp_step. wp_step. eapply wp_run; [by apply set_vma_run|]. wp_step.
  eapply (HQ _ a rest); try done.
  - destruct Hf1 as [Hsim Hul]. split; [|done]. etrans; [exact Hsim|]. apply cpu_sim_refresh.
  - destruct Hai1 as [Hwf Hlk Hfl Hnd]. split; done.
  - simpl. unfold new_area, raw_vma. simpl. by rewrite Hm1.
Qed.

(** ** A mapping after [curr] *)

(** Changing VMAs does not leave the context. *)
Lemma ctx_put s p free v f : user_ctx s p free -> user_ctx (upd_k_pt (put_vma v f) s) p free.
Proof.
  assert (Hx : pgdir (pr_at p (upd_k_pt (put_vma v f) s)) = pgdir (pr_at p s))
    by (unfold pr_at; simpl; by apply put_vma_field).
  intros []. split; simpl; rewrite ?Hx, ?put_vma_cur, ?put_vma_length; done.
Qed.

(** The process state with the new VMA [a] linked after [curr]. *)
Definition link_area (s : kst) (p : nat) (curr : vptr) (a st ln pr flags fd : Z)
    (cv nx : vm_area) : prst :=
  put_vma curr (upd_next (fun _ => VHeap a))
    (upd_vmas (<[a := new_area (mem (k_mm s)) a st ln pr flags fd nx
                        (ofile_word (pr_at p s) fd) (next cv)]>)
      (put_vma curr (upd_space_after (fun k => s32 (k - ln))) (k_pt s))).

(** [mmap_at] up to the page loop. *)
Lemma mmap_at_link s p a rest fixed prev curr st ln pr flags fd cv nx :
  user_ctx s p (a :: rest) -> in_table (k_pt s) curr ->
  vma_at (k_pt s) curr = Some cv -> vma_at (k_pt s) (next cv) = Some nx -> curr <> next cv ->
  exists s', mem (k_mm s') = mem (k_mm s) /\ mm_frame (k_mm s) (k_mm s') /\
    alloc_inv (k_mm s') rest /\ page_ok a /\ a ∉ rest /\
    k_pt s' = link_area s p curr a st ln pr flags fd cv nx /\
    k_fs s' = k_fs s /\ k_con s' = k_con s /\
    mmap_at fixed p prev curr st ln pr flags fd s =
    (nv <- get_vma (VHeap a) ;;
     (when fixed && (start nv =? MIN_ADDR) do modify (upd_pr p (upd_head (fun _ => nv)))) ;;
     mmap_pages (page_rounds st (vend nv)) p (VHeap a) st flags fd st ;;
     mmap_guards prev curr (VHeap a) flags st) s'.
Proof.
  intros Hc Hcin Hcv Hnx Hcn. assert (Hcnull : curr <> VNull) by (by intros ->).
  pose proof (ctx_put s p _ curr (upd_space_after (fun k => s32 (k - ln))) Hc) as Hc1.
  set (s1 := upd_k_pt _ s) in Hc1.
  assert (Hf : ofile_word (pr_at p s1) fd = ofile_word (pr_at p s) fd).
  { unfold pr_at. simpl. by apply (put_vma_field (fun x => ofile_word x fd)). }
  destruct (create_vma_wp (fun v s' => v = VHeap a /\ mem (k_mm s') = mem (k_mm s) /\
    mm_frame (k_mm s) (k_mm s') /\ alloc_inv (k_mm s') rest /\ page_ok a /\ a ∉ rest /\
    k_pt s' = link_area s p curr a st ln pr flags fd cv nx /\
    k_fs s' = k_fs s /\ k_con s' = k_con s) s1 p (a :: rest) curr (next cv) st ln pr flags fd nx)
    as (v & s' & Hr & -> & Hm & Hfr & Hai & Ha & Hn & Hpt & Hfs & Hcon); try done.
  - simpl. by rewrite vma_at_put_ne.
  - intros s' a' rest' [= <- <-] ? ? ? ? ? Hpt ? ?. rewrite Hf in Hpt. split_and!; done.
  - exists s'. split_and!; try done. unfold mmap_at.
    erewrite bind_ok by (by apply set_vma_run).
    erewrite bind_ok by (apply get_vma_run; simpl; by rewrite vma_at_put, Hcv).
    cbn [upd_space_after next]. by erewrite bind_ok by exact Hr.
Qed.

Lemma link_area_new s p curr a st ln pr flags fd cv nx :
  vma_at (k_pt s) curr = Some cv -> vmas (k_pt s) !! a = None ->
  vma_at (link_area s p curr a st ln pr flags fd cv nx) (VHeap a) =
  Some (new_area (mem (k_mm s)) a st ln pr flags fd nx (ofile_word (pr_at p s) fd) (next cv)).
Proof.
  intros Hcv Ha. unfold link_area. rewrite vma_at_put_ne; [simpl; apply lookup_insert_eq|].
  intros ->. simpl in Hcv. congruence.
Qed.

(** Fields that the new link does not touch. *)
Lemma link_area_keep {B} (g : vm_area -> B) s p curr a st ln pr flags fd cv nx v x :
  (forall f y, g (upd_next f y) = g y) -> (forall f y, g (upd_space_after f y) = g y) ->
  vmas (k_pt s) !! a = None -> vma_at (k_pt s) v = Some x ->
  exists x', vma_at (link_area s p curr a st ln pr flags fd cv nx) v = Some x' /\ g x' = g x.
Proof.
  intros Hg1 Hg2 Ha Hx. unfold link_area.
  destruct (vma_at_keep g (k_pt s) v curr (upd_space_after (fun k => s32 (k - ln))) x)
    as (x1 & Hx1 & E1); [done|done|].
  eapply (vma_at_insert _ _ a) in Hx1; [|by apply put_vma_vmas].
  destruct (vma_at_keep g _ v curr (upd_next (fun _ => VHeap a)) x1 ltac:(done) Hx1)
    as (x2 & Hx2 & E2). exists x2. split; [exact Hx2|congruence].
Qed.

Lemma link_area_dir s p curr a st ln pr flags fd cv nx q :
  pgdir (procs (link_area s p curr a st ln pr flags fd cv nx) !!! q) = pgdir (pr_at q s).
Proof.
  unfold link_area. rewrite (put_vma_field pgdir) by done. cbn [upd_vmas procs].
  by rewrite (put_vma_field pgdir) by done.
Qed.

(** No guard pages involved. *)
Lemma mmap_at_wp (Q : Z -> kst -> Prop) s p a rest prev curr st ln n pr flags fd cv pv nx :
  user_ctx s p (a :: rest) -> in_table (k_pt s) curr ->
  vma_at (k_pt s) curr = Some cv -> vma_at (k_pt s) prev = Some pv ->
  vma_at (k_pt s) (next cv) = Some nx -> curr <> next cv -> vmas (k_pt s) !! a = None ->
  bit_set flags MAP_ANON = true -> bit_set flags MAP_GROWSUP = false ->
  bit_set (vflags pv) MAP_GROWSUP = false ->
  map_req (pgdir (pr_at p s)) st n pr (k_mm s) rest ->
  (n - 1) * PGSIZE < ln <= n * PGSIZE ->
  (forall s' free',
     grow (fun _ => Z.lor pr PTE_U) zero_data (pgdir (pr_at p s)) st (st + n * PGSIZE)
       (k_mm s) rest (k_mm s') free' ->
     Z.of_nat (length rest) <= Z.of_nat (length free') + 2 * n ->
     k_pt s' =
       put_vma (VHeap a) (upd_pa (fun _ => page_of (mem (k_mm s')) (pgdir (pr_at p s)) st))
         (link_area s p curr a st ln pr flags fd cv nx) ->
     k_fs s' = k_fs s -> k_con s' = k_con s -> Q (s32 st) s') ->
  wp (mmap_at false p prev curr st ln pr flags fd) Q s.
Proof.
  intros Hc Hcin Hcv Hpv Hnx Hcn Hfresh Hanon Hgs Hpgs Hreq Hln HQ.
  destruct (mmap_at_link s p a rest false prev curr st ln pr flags fd cv nx)
    as (s2 & Hm2 & Hf2 & Hai2 & Ha & Hn & Hpt2 & Hfs2 & Hcon2 & Hrun); try done.
  eapply wp_eq; [exact Hrun|].
  assert (Hva := link_area_new s p curr a st ln pr flags fd cv nx Hcv Hfresh).
  rewrite <- Hpt2 in Hva. set (area := new_area _ _ _ _ _ _ _ _ _ _) in Hva.
  assert (Hend : vend area = st + n * PGSIZE - 1) by (destruct Hreq; by apply area_end).
  wp_step. eapply wp_run; [by apply get_vma_run|]. cbn [andb]. wp_step. wp_step.
  wp_step. eapply (mmap_pages_wp (pgdir (pr_at p s)) st n pr (k_mm s2) rest); try done.
  - destruct Hreq. split; try done. by rewrite Hm2.
  - rewrite Hm2. eapply as_inv_same; [apply (uc_as _ _ _ Hc)|set_solver|done].
  - unfold pr_at at 1. rewrite Hpt2. apply link_area_dir.
  - rewrite Hend. unfold page_rounds. destruct Hreq. zlia.
  - intros s3 free3 Hg3 Hl3 Hpt3 Hfs3 Hcon3. rewrite Hpt2 in Hpt3.
    assert (Hkeep : forall v x, vma_at (k_pt s) v = Some x ->
      exists x', vma_at (k_pt s3) v = Some x' /\ vflags x' = vflags x).
    { intros v x Hx. rewrite Hpt3.
      edestruct (link_area_keep vflags s p curr a st ln pr flags fd cv nx v x)
        as (x1 & Hx1 & E1); [done..|]. rewrite <- E1. by apply vma_at_keep. }
    destruct (Hkeep _ _ Hpv) as (pv3 & Hpv3 & Epv). destruct (Hkeep _ _ Hcv) as (cv3 & Hcv3 & _).
    unfold mmap_guards. wp_step. eapply wp_run; [by apply get_vma_run|].
    wp_step. eapply wp_run; [by apply get_vma_run|]. rewrite Epv, Hpgs. cbn [andb].
    wp_step. wp_step. rewrite Hgs. wp_step.
    apply (HQ s3 free3); [by eapply grow_start|done|done|by rewrite Hfs3|by rewrite Hcon3].
Qed.
End Pages.

(** ** The list of a process *)

(** The VMAs [l] in pages, from [v] to the tail of [p]. *)
Fixpoint chain_to (pt : prst) (p : nat) (v : vptr) (l : list (Z * vm_area)) : Prop :=
  match l with
  | [] => v = VTail p
  | (a, x) :: l' =>
      v = VHeap a /\ vmas pt !! a = Some x /\ start x <> MAX_ADDR /\ chain_to pt p (next x) l'
  end.

Record vma_list (pt : prst) (p : nat) (l : list (Z * vm_area)) : Prop := {
  vl_head : start (head (procs pt !!! p)) <> MAX_ADDR;
  vl_tail : start (tail (procs pt !!! p)) = MAX_ADDR;
  vl_chain : chain_to pt p (next (head (procs pt !!! p))) l;
  vl_nodup : NoDup l.*1 }.

(** The VMAs of the list in order: the head's, then those in pages. *)
Definition areas (pt : prst) (p : nat) (l : list (Z * vm_area)) : list vm_area :=
  head (procs pt !!! p) :: l.*2.

Lemma chain_dom pt p v l a : chain_to pt p v l -> a ∈ l.*1 -> a ∈ dom (vmas pt).
Proof.
  revert v. induction l as [|[b x] l IH]; intros v Hch Ha; [by apply not_elem_of_nil in Ha|].
  destruct Hch as (-> & Hb & _ & Hch). apply list_elem_of_In in Ha as [<-|Ha].
  - by apply elem_of_dom.
  - eapply IH; [done|by apply list_elem_of_In].
Qed.

(** The fuel of the model covers every well-formed list. *)
Lemma vma_list_fuel s p l : vma_list (k_pt s) p l -> (length l + 2 < vma_fuel s)%nat.
Proof.
  intros [_ _ Hch Hnd]. unfold vma_fuel. change (Z.to_nat NPROC) with 64%nat.
  assert (length l <= size (vmas (k_pt s)))%nat; [|lia].
  rewrite <- (length_fmap fst), <- (size_list_to_set (C := gset Z)) by done.
  rewrite <- size_dom. apply subseteq_size. intros a Ha%elem_of_list_to_set. by eapply chain_dom.
Qed.

(** The first VMA of a walk. *)
Lemma chain_vma pt p v l :
  chain_to pt p v l -> vma_at pt v =
  Some (match l with [] => tail (procs pt !!! p) | (_, x) :: _ => x end).
Proof. destruct l as [|[a x] l]; simpl; [by intros ->|]. by intros (-> & Ha & _). Qed.

(** A walk from [v] over the VMAs [xs] to one that starts at [MAX_ADDR]. *)
Fixpoint walk (pt : prst) (v : vptr) (xs : list vm_area) : Prop :=
  match xs with
  | [] => exists t, vma_at pt v = Some t /\ start t = MAX_ADDR
  | x :: xs' => vma_at pt v = Some x /\ start x <> MAX_ADDR /\ walk pt (next x) xs'
  end.

Lemma chain_walk pt p v l :
  start (tail (procs pt !!! p)) = MAX_ADDR -> chain_to pt p v l -> walk pt v l.*2.
Proof.
  intros Ht. revert v. induction l as [|[a x] l IH]; intros v; simpl.
  - intros ->. by eexists.
  - intros (-> & Ha & Hx & Hch). auto.
Qed.

Lemma vma_list_walk pt p l : vma_list pt p l -> walk pt (VHead p) (areas pt p l).
Proof. intros [Hh Ht Hch _]. split; [done|]. split; [done|]. by eapply chain_walk. Qed.

Section Walks.
Context `{KernelImage} `{Waits} (s : kst) (p : nat).

(** No VMA has room: [mmap] fails. *)
Lemma mmap_any_none fuel prev v xs ln pr flags fd :
  walk (k_pt s) v xs -> Forall (fun x => space_after x <= ln) xs -> (length xs < fuel)%nat ->
  mmap_any fuel p prev v ln pr flags fd s = Ok (-1) s.
Proof.
  revert prev v xs. induction fuel as [|fuel IH]; intros prev v xs Hw Hall Hf; [lia|].
  cbn [mmap_any]. destruct xs as [|x xs]; simpl in Hw.
  - destruct Hw as (t & Hv & Ht). erewrite bind_ok by (by eapply get_vma_run). by rewrite Ht.
  - destruct Hw as (Hv & Hx & Hw). erewrite bind_ok by (by eapply get_vma_run).
    apply Forall_cons_1 in Hall as [Hsp Hall]. zcases. eapply IH; [done|done|simpl in Hf; lia].
Qed.

(** The search of [munmap]. *)
Lemma munmap_find_run fuel x xs a :
  walk (k_pt s) (next x) xs -> start x <> MAX_ADDR -> (length xs + 1 < fuel)%nat ->
  munmap_find fuel x a s =
  Ok (find (fun y => (a =? start y) && (valid y =? 1)) (x :: xs)) s.
Proof.
  revert x xs. induction fuel as [|fuel IH]; intros x xs Hw Hx Hf; [lia|].
  cbn [munmap_find find]. destruct (Z.eqb_spec (start x) MAX_ADDR); [done|].
  destruct ((a =? start x) && (valid x =? 1)); [done|].
  destruct xs as [|y xs]; simpl in Hw.
  - destruct Hw as (t & Hv & Ht). erewrite bind_ok by (by eapply get_vma_run).
    destruct fuel as [|fuel]; [simpl in Hf; lia|]. cbn [munmap_find]. by rewrite Ht.
  - destruct Hw as (Hv & Hy & Hw). erewrite bind_ok by (by eapply get_vma_run).
    rewrite (IH y xs); [done|done|done|simpl in Hf; lia].
Qed.
End Walks.

(** The loop of [munmap] over pages that have a page table. *)
Lemma munmap_pages_run `{KernelImage} fuel s p free i e :
  user_ctx s p free -> touch s = s -> 0 <= i -> e <= KERNBASE ->
  (Z.to_nat ((e - i + PGSIZE - 1) / PGSIZE) < fuel)%nat ->
  (forall va, i <= va < e ->
     bit_set (pde_at (mem (k_mm s)) (pgdir (pr_at p s)) (PDX va)) PTE_P = true) ->
  munmap_pages fuel i e s = Ok tt s.
Proof.
  intros Hc Ht. revert i. induction fuel as [|fuel IH]; intros i Hi He Hf Htab; [lia|].
  cbn [munmap_pages]. destruct (Z.ltb_spec i e); [|done].
  erewrite bind_ok by (by apply (ctx_me s p free)). rewrite Ht.
  erewrite bind_ok by (unfold gets; reflexivity).
  pose proof (as_pt _ _ _ (uc_as _ _ _ Hc)) as Hpt.
  destruct (slot_range _ _ _ i Hpt (Htab i ltac:(lia))) as (Hok & _ & ? & ?).
  pose proof (page_ok_range _ Hok).
  destruct (walkpgdir_find_wp (fun r m => r <> 0 /\ m = k_mm s) (k_mm s) (pgdir (pr_at p s)) i free Hpt)
    as (r & m & Hr & Hne & ->); [intros _; split; [lia|done]|rewrite Htab by lia; discriminate|].
  erewrite bind_ok by (apply lift_ok; exact Hr).
  destruct (Z.eqb_spec r 0); [done|]. erewrite bind_ok by (unfold ret; reflexivity).
  rewrite u32_small by lia. assert (upd_k_mm (fun _ => k_mm s) s = s) as -> by (by destruct s).
  apply IH; [lia|done|zlia|]. intros va Hva. apply Htab. lia.
Qed.
