(* ===== verification/MmapProps.v ===== *)
(** * Properties of mmap, munmap, the page fault handler and fork's VMAs *)

From S2P Require Import Prelude Machine StringC Spinlock Kalloc Vm VmWalk VmMap VmUser VmKern.
From S2P Require Import VmAlloc VmCopy Demo DemoK Kernel Sleep Bio Log Inode Console Fs Pipe File Proc.
From S2P Require Import Exec Sysfile KernelWp Mmap Trap MmapWp.

Section Run.
Context `{KernelImage} `{Waits} (s : kst) (p : nat) (free : list Z).
Context (Hc : user_ctx s p free).

(** The arguments of [sys_mmap] have been read. *)
Lemma sys_mmap_run :
  args_ok s p 6 ->
  sys_mmap s =
  (if bit_set (arg s p 3) MAP_FIXED then
     if negb (u32 (arg s p 0) mod PGSIZE =? 0) || (u32 (arg s p 0) <? MIN_ADDR) ||
        (MAX_ADDR <=? u32 (arg s p 0)) then ret (-1)
     else mmap_fixed (vma_fuel s) p (VHead p) (VHead p) (u32 (arg s p 0)) (arg s p 1)
            (arg s p 2) (arg s p 3) (arg s p 4)
   else mmap_any (vma_fuel s) p (VHead p) (VHead p) (arg s p 1) (arg s p 2) (arg s p 3)
          (arg s p 4)) (touch s).
Proof.
  intros Ha. pose proof (ctx_touch s p free Hc) as Hc'.
  assert (Ht : forall n, 0 <= n < 6 -> argint n (touch s) = Ok (Some (arg s p n)) (touch s)).
  { intros n Hn. rewrite (argint_run (touch s) p free 6 Hc' Ha n Hn). by rewrite touch_touch. }
  unfold sys_mmap.
  erewrite orelse_some by (apply (argint_run s p free 6 Hc Ha); lia).
  do 5 (erewrite orelse_some by (apply Ht; lia)).
  erewrite bind_ok by (apply (ctx_me (touch s) p free Hc')). rewrite touch_touch.
  erewrite bind_ok by (unfold gets; reflexivity). done.
Qed.

Lemma sys_munmap_run :
  args_ok s p 2 ->
  let a := u32 (arg s p 0) in
  let e := u32 (a + arg s p 1) in
  sys_munmap s =
  (if negb (a mod PGSIZE =? 0) || (a <? MIN_ADDR) || (MAX_ADDR <=? a) then ret (-1)
   else
     vm <-? munmap_find (vma_fuel s) (head (pr_at p s)) a else ret (-1) ;;
     (when negb (bit_set (vflags vm) MAP_ANON) && negb (bit_set (vflags vm) MAP_PRIVATE) do
       (f <- deref_file (vf vm) ;;
        modify (upd_file f (upd_off (fun _ => 0))) ;;
        filewrite f (from_user (start vm)) (len vm) ;;
        ret tt)) ;;
     munmap_pages (page_rounds a e) a e ;;
     ret 0) (touch s).
Proof.
  intros Ha a e. pose proof (ctx_touch s p free Hc) as Hc'.
  assert (Ht : argint 1 (touch s) = Ok (Some (arg s p 1)) (touch s)).
  { rewrite (argint_run (touch s) p free 2 Hc' Ha 1 ltac:(lia)). by rewrite touch_touch. }
  unfold sys_munmap.
  erewrite orelse_some by (apply (argint_run s p free 2 Hc Ha); lia).
  erewrite orelse_some by exact Ht. cbn zeta. fold a. fold e.
  destruct (negb (a mod PGSIZE =? 0) || (a <? MIN_ADDR) || (MAX_ADDR <=? a)); [done|].
  erewrite bind_ok by (apply (ctx_me (touch s) p free Hc')). rewrite touch_touch.
  erewrite bind_ok by (unfold gets; reflexivity).
  by erewrite bind_ok by (unfold gets; reflexivity).
Qed.
End Run.

(** The VMA list of a process after exec: no mapping. *)
Definition no_mappings (p : nat) (x : proc) : Prop :=
  start (head x) = MIN_ADDR /\ vend (head x) = MIN_ADDR - 1 /\
  space_after (head x) = 0x20000000 /\ next (head x) = VTail p /\
  bit_set (vflags (head x)) MAP_GROWSUP = false /\ start (tail x) = MAX_ADDR.

(** [s'] is [s] with [n] pages mapped at [MIN_ADDR], recorded in the VMA in the
    page [a]. *)
Record first_mapping `{KernelImage} (s : kst) (p : nat) (a : Z) (rest : list Z) (n : Z)
    (s' : kst) (free' : list Z) : Prop := {
  fm_grow : grow (fun _ => Z.lor (arg s p 2) PTE_U) zero_data (pgdir (pr_at p s))
    MIN_ADDR (MIN_ADDR + n * PGSIZE) (k_mm s) rest (k_mm s') free';
  fm_len : Z.of_nat (length rest) <= Z.of_nat (length free') + 2 * n;
  fm_cur : curproc (k_pt s') = curproc (k_pt s);
  fm_procs : length (procs (k_pt s')) = length (procs (k_pt s));
  fm_vma : vmas (k_pt s') = <[a :=
    {| valid := 1; start := MIN_ADDR; vend := MIN_ADDR + n * PGSIZE - 1;
       pa := page_of (mem (k_mm s')) (pgdir (pr_at p s)) MIN_ADDR;
       guardstart := load32 (mem (k_mm s)) (a + 16);
       len := n * PGSIZE - 1; prot := arg s p 2; vflags := arg s p 3; vfd := arg s p 4;
       space_after := 0x20000000 - n * PGSIZE + 1;
       vf := ofile_word (pr_at p s) (arg s p 4); next := VTail p |}]> (vmas (k_pt s));
  fm_head : head (pr_at p s') =
    upd_next (fun _ => VHeap a)
      (upd_space_after (fun k => k - arg s p 1) (head (pr_at p s)));
  fm_proc : pr_at p s' = upd_head (fun _ => head (pr_at p s')) (pr_at p s);
  fm_others : forall q, q <> p -> pr_at q s' = pr_at q s;
  fm_fs : k_fs s' = k_fs s }.

Lemma mmap_first_run `{KernelImage} `{Waits} (s : kst) (p : nat) (a : Z)
    (rest : list Z) (n : Z) :
  user_ctx s p (a :: rest) -> args_ok s p 6 -> no_mappings p (pr_at p s) ->
  vmas (k_pt s) !! a = None ->
  bit_set (arg s p 3) MAP_FIXED = false -> bit_set (arg s p 3) MAP_ANON = true ->
  bit_set (arg s p 3) MAP_GROWSUP = false -> 0 <= arg s p 2 < PGSIZE ->
  0 < arg s p 1 < 0x20000000 -> (n - 1) * PGSIZE < arg s p 1 <= n * PGSIZE ->
  2 * n <= Z.of_nat (length rest) ->
  (forall va, MIN_ADDR <= va < MAX_ADDR ->
     mapped (mem (k_mm s)) (pgdir (pr_at p s)) va = false) ->
  exists s' free', sys_mmap s = Ok MIN_ADDR s' /\ first_mapping s p a rest n s' free'.
Proof.
  intros Hc Ha (Hst & Hend & Hsp & Hnx & Hgs0 & Htl) Hfr Hfix Hanon Hgs Hpr Hln Hn Hfree Hun.
  pose proof (ctx_touch s p _ Hc) as Hc'. pose proof (uc_lt _ _ _ Hc) as Hlt.
  rewrite (sys_mmap_run s p (a :: rest) Hc Ha), Hfix.
  destruct (vma_fuel s) as [|fuel] eqn:Ef; [unfold vma_fuel in Ef; lia|]. cbn [mmap_any].
  erewrite bind_ok by (by apply get_vma_run). change (pr_at p (touch s)) with (pr_at p s).
  change (head (procs (k_pt (touch s)) !!! p)) with (head (pr_at p s)).
  rewrite Hst, Hsp, Hend. change (MIN_ADDR =? MAX_ADDR) with false. cbn iota.
  destruct (Z.ltb_spec (arg s p 1) 0x20000000); [|lia].
  change (u32 (MIN_ADDR - 1 + 1)) with MIN_ADDR.
  assert (wp (mmap_at false p (VHead p) (VHead p) MIN_ADDR (arg s p 1) (arg s p 2) (arg s p 3)
    (arg s p 4)) (fun r s' => r = MIN_ADDR /\ exists free', first_mapping s p a rest n s' free')
    (touch s)) as (r & s' & Hr & -> & free' & H'); [|by exists s', free'].
  eapply (mmap_at_wp _ (touch s) p a rest _ _ _ _ n _ _ _ (head (pr_at p s)) (head (pr_at p s))
    (tail (pr_at p s))); try done; [by rewrite Hnx..|split; try done || lia; intros; apply Hun; lia|].
  intros s' free' Hg Hl Hpt Hfs Hcon. split; [done|]. exists free'.
  assert (He := area_end MIN_ADDR (arg s p 1) n eq_refl ltac:(lia) Hn ltac:(lia) ltac:(lia)).
  assert (Hp' : procs (k_pt s') = alter (upd_head (upd_next (fun _ => VHeap a))) p
    (alter (upd_head (upd_space_after (fun k => s32 (k - arg s p 1)))) p (procs (k_pt s))))
    by (by rewrite Hpt).
  assert (Hpp : pr_at p s' = upd_head (upd_next (fun _ => VHeap a))
    (upd_head (upd_space_after (fun k => s32 (k - arg s p 1))) (pr_at p s))).
  { unfold pr_at. by rewrite Hp', !alter_total_eq by (rewrite ?length_alter; done). }
  split; [by apply (grow_start _ _ _ _ _ _ (k_mm (touch s))); [|apply touch_frame|]
    |done|by rewrite Hpt|by rewrite Hp', !length_alter| | | | |exact Hfs].
  - rewrite Hpt. simpl. rewrite alter_insert_eq. unfold new_area.
    rewrite He, Htl, Hnx, !s32_small by lia. unfold upd_pa. simpl. do 2 f_equal; lia.
  - rewrite Hpp. unfold upd_head, upd_next, upd_space_after. simpl. rewrite Hsp.
    by rewrite s32_small by lia.
  - by rewrite Hpp.
  - intros q Hq. unfold pr_at. by rewrite Hp', !alter_total_ne.
Qed.

(** C1. The first anonymous [mmap] of a process, without [MAP_FIXED], maps at
    [MIN_ADDR] as many zeroed pages as the length needs, with the requested
    protection and the user bit, changes no other translation, and enters the
    mapping in the process's VMA list between its head and its tail. *)
Theorem mmap_first_anonymous `{KernelImage} `{Waits} (s : kst) (p : nat) (a : Z)
    (rest : list Z) (n : Z) :
  user_ctx s p (a :: rest) -> args_ok s p 6 -> no_mappings p (pr_at p s) ->
  vmas (k_pt s) !! a = None ->
  bit_set (arg s p 3) MAP_FIXED = false -> bit_set (arg s p 3) MAP_ANON = true ->
  bit_set (arg s p 3) MAP_GROWSUP = false -> 0 <= arg s p 2 < PGSIZE ->
  0 < arg s p 1 < 0x20000000 -> (n - 1) * PGSIZE < arg s p 1 <= n * PGSIZE ->
  2 * n <= Z.of_nat (length rest) ->
  (forall va, MIN_ADDR <= va < MAX_ADDR ->
     mapped (mem (k_mm s)) (pgdir (pr_at p s)) va = false) ->
  exists s' free', sys_mmap s = Ok MIN_ADDR s' /\ first_mapping s p a rest n s' free'.
Proof. apply mmap_first_run. Qed.

(** [mmap(0x60000000, 5000, PROT_READ | PROT_WRITE, MAP_ANON, -1, 0)] with ten free
    pages. *)
Definition demo_mmap : kst := demo_k 10 [0x60000000; 5000; 3; 4; -1; 0] demo_proc.

Lemma demo_mmap_ctx : user_ctx demo_mmap 0 (pages_from demo_base 10).
Proof. apply demo_user_ctx; [lia|cbn; lia|reflexivity]. Qed.

Lemma demo_mmap_args : args_ok demo_mmap 0 6.
Proof. apply demo_args_ok; [lia|cbn; lia|reflexivity..|lia]. Qed.

Lemma demo_mmap_unmapped va :
  MIN_ADDR <= va < MAX_ADDR ->
  mapped (mem (k_mm demo_mmap)) (pgdir (pr_at 0 demo_mmap)) va = false.
Proof.
  intros Hva. change (pgdir (pr_at 0 demo_mmap)) with demo_pgdir.
  change (mem (k_mm demo_mmap)) with (mem (demo_user 10 [0x60000000; 5000; 3; 4; -1; 0])).
  rewrite demo_user_mapped; [|lia|cbn; lia|lia]. apply Z.eqb_neq. unfold pg. zlia.
Qed.

Lemma mmap_first_anonymous_witness :
  exists s' free', sys_mmap demo_mmap = Ok MIN_ADDR s' /\
    first_mapping demo_mmap 0 demo_base (List.tl (pages_from demo_base 10)) 2 s' free'.
Proof.
  apply (mmap_first_anonymous demo_mmap 0 demo_base (List.tl (pages_from demo_base 10)) 2).
  - exact demo_mmap_ctx.
  - exact demo_mmap_args.
  - repeat split.
  - reflexivity.
  - vm_compute. reflexivity.
  - vm_compute. reflexivity.
  - vm_compute. reflexivity.
  - vm_compute. split; [discriminate|reflexivity].
  - vm_compute. split; reflexivity.
  - vm_compute. split; [reflexivity|discriminate].
  - vm_compute. discriminate.
  - exact demo_mmap_unmapped.
Defined.

(** C28. While the page at [MIN_ADDR] is mapped and the head of the VMA list
    still advertises enough space after it, every further [mmap] without
    [MAP_FIXED] that fits chooses [MIN_ADDR] again, because the end of the
    head never moves, and the kernel panics with [remap]. *)
Theorem mmap_second_panics `{KernelImage} `{Waits} (s : kst) (p : nat) (a b : Z)
    (rest : list Z) (nx : vm_area) :
  user_ctx s p (a :: b :: rest) -> args_ok s p 6 -> bit_set (arg s p 3) MAP_FIXED = false ->
  start (head (pr_at p s)) <> MAX_ADDR -> vend (head (pr_at p s)) = MIN_ADDR - 1 ->
  0 < arg s p 1 < 0x20000000 -> arg s p 1 < space_after (head (pr_at p s)) ->
  next (head (pr_at p s)) <> VHead p -> vma_at (k_pt s) (next (head (pr_at p s))) = Some nx ->
  vmas (k_pt s) !! a = None ->
  mapped (mem (k_mm s)) (pgdir (pr_at p s)) MIN_ADDR = true ->
  sys_mmap s = Panic "remap".
Proof.
  intros Hc Ha Hfix Hst Hend Hln Hsp Hnh Hnx Hfr Hmap.
  pose proof (ctx_touch s p _ Hc) as Hc'. pose proof (uc_lt _ _ _ Hc) as Hlt.
  rewrite (sys_mmap_run s p _ Hc Ha), Hfix.
  destruct (vma_fuel s) as [|fuel] eqn:Ef; [unfold vma_fuel in Ef; lia|]. cbn [mmap_any].
  erewrite bind_ok by (by apply get_vma_run).
  change (head (procs (k_pt (touch s)) !!! p)) with (head (pr_at p s)).
  destruct (Z.eqb_spec (start (head (pr_at p s))) MAX_ADDR); [done|].
  destruct (Z.ltb_spec (arg s p 1) (space_after (head (pr_at p s)))); [|lia]. rewrite Hend.
  change (u32 (MIN_ADDR - 1 + 1)) with MIN_ADDR.
  edestruct (mmap_at_link (touch s) p a (b :: rest) false (VHead p) (VHead p) MIN_ADDR)
    as (s2 & Hm2 & Hf2 & Hai2 & Hpa & Hpn & Hpt2 & _ & _ & ->); [done|done|done|done|done|].
  change (head (procs (k_pt (touch s)) !!! p)) with (head (pr_at p s)) in Hpt2.
  assert (Hva := link_area_new (touch s) p (VHead p) a MIN_ADDR (arg s p 1) (arg s p 2)
    (arg s p 3) (arg s p 4) (head (pr_at p s)) nx eq_refl Hfr).
  rewrite <- Hpt2 in Hva. erewrite bind_ok by (by apply get_vma_run). cbn [andb].
  erewrite bind_ok by (unfold ret; reflexivity).
  assert (Hd : pgdir (pr_at p s2) = pgdir (pr_at p s))
    by (unfold pr_at at 1; rewrite Hpt2; apply (link_area_dir (touch s))).
  unfold page_rounds. rewrite Nat.add_comm. unfold bind at 1. cbn [Nat.add].
  erewrite (mmap_pages_remap _ _ _ _ _ _ s2); [done|exact Hai2| |exact Hva| |done|].
  - rewrite Hm2, Hd. eapply as_inv_same; [apply (uc_as _ _ _ Hc)|set_solver|done].
  - cbn [new_area vend].
    rewrite (area_end MIN_ADDR _ ((arg s p 1 + PGSIZE - 1) / PGSIZE)) by (done || zlia). zlia.
  - rewrite Hm2, Hd. done.
Qed.

Section After.
Context `{KernelImage} (s : kst) (p : nat) (a : Z) (rest : list Z) (n : Z) (s' : kst)
  (free' : list Z).
Context (Hc : user_ctx s p (a :: rest)) (Hm : first_mapping s p a rest n s' free').

Lemma first_mapping_dir : pgdir (pr_at p s') = pgdir (pr_at p s).
Proof. by rewrite (fm_proc _ _ _ _ _ _ _ Hm). Qed.

(** The process still runs on its page table. *)
Lemma first_mapping_ctx : user_ctx s' p free'.
Proof.
  pose proof (fm_grow _ _ _ _ _ _ _ Hm) as Hg. split.
  - rewrite (fm_cur _ _ _ _ _ _ _ Hm). apply Hc.
  - rewrite (fm_procs _ _ _ _ _ _ _ Hm). apply Hc.
  - apply Hg.
  - rewrite first_mapping_dir. apply Hg.
  - rewrite first_mapping_dir, <- (uc_cr3 _ _ _ Hc).
    destruct (gr_frame _ _ _ _ _ _ _ _ _ Hg) as [E _].
    apply cpu_sim_fields in E as (_ & _ & _ & E & _). by symmetry.
Qed.

(** Memory below [MIN_ADDR] is as before. *)
Lemma first_mapping_low va :
  0 <= va < MIN_ADDR -> mapped (mem (k_mm s)) (pgdir (pr_at p s)) va = true ->
  mapped (mem (k_mm s')) (pgdir (pr_at p s')) va = true /\
  uload (mem (k_mm s')) (pgdir (pr_at p s')) va = uload (mem (k_mm s)) (pgdir (pr_at p s)) va.
Proof.
  intros Hva Hmp. rewrite first_mapping_dir. pose proof (fm_grow _ _ _ _ _ _ _ Hm) as Hg.
  assert (E : pte_at (mem (k_mm s')) (pgdir (pr_at p s)) va =
              pte_at (mem (k_mm s)) (pgdir (pr_at p s)) va).
  { apply (gr_old _ _ _ _ _ _ _ _ _ Hg); [lia|]. pose proof (pg_range va). lia. }
  unfold mapped. rewrite E. split; [exact Hmp|]. unfold uload.
  rewrite (phys_pte _ _ _ _ E). unfold phys.
  destruct (as_page _ _ _ (uc_as _ _ _ Hc) va ltac:(lia) Hmp) as (Hok & Hnf & Hnp).
  apply (gr_data _ _ _ _ _ _ _ _ _ Hg _ Hok ltac:(set_solver) Hnp).
  pose proof (Z.mod_pos_bound va PGSIZE). lia.
Qed.

Lemma first_mapping_args k :
  args_ok s p k -> esp (tf (pr_at p s)) + 4 + 4 * k <= MIN_ADDR ->
  args_ok s' p k /\ forall i, 0 <= i < k -> arg s' p i = arg s p i.
Proof.
  intros (H0 & H1 & H2 & Hmp) Hlow.
  assert (Et : tf (pr_at p s') = tf (pr_at p s) /\ sz (pr_at p s') = sz (pr_at p s))
    by (by rewrite (fm_proc _ _ _ _ _ _ _ Hm)). destruct Et as [Et Es].
  split.
  - unfold args_ok. rewrite Et, Es. split_and!; try done. intros va Hva.
    apply first_mapping_low; [lia|by apply Hmp].
  - intros i Hi. unfold arg, uword. rewrite Et.
    assert (Hu : forall x, esp (tf (pr_at p s)) + 4 <= x < esp (tf (pr_at p s)) + 4 + 4 * k ->
      uload (mem (k_mm s')) (pgdir (pr_at p s')) x =
      uload (mem (k_mm s)) (pgdir (pr_at p s)) x).
    { intros x Hx. apply first_mapping_low; [lia|by apply Hmp]. }
    by rewrite !Hu by lia.
Qed.
(** The new pages are mapped. *)
Lemma first_mapping_mapped va :
  MIN_ADDR <= va < MIN_ADDR + n * PGSIZE -> va < MAX_ADDR ->
  mapped (mem (k_mm s')) (pgdir (pr_at p s')) va = true.
Proof.
  intros Hva Hhi. rewrite first_mapping_dir. pose proof (fm_grow _ _ _ _ _ _ _ Hm) as Hg.
  destruct (gr_new _ _ _ _ _ _ _ _ _ Hg va) as (E & Hok & _); [lia|unfold pg; zlia|].
  unfold mapped. rewrite E. apply present_make. by apply page_ok_V2P_aligned.
Qed.

(** The list of the process has the new VMA only, and the new VMA is the
    one at the first address. *)
Lemma first_mapping_list :
  no_mappings p (pr_at p s) -> valid (head (pr_at p s)) = 0 ->
  exists x, vma_list (k_pt s') p [(a, x)] /\ vflags x = arg s p 3 /\
    find (fun y => (MIN_ADDR =? start y) && (valid y =? 1)) (areas (k_pt s') p [(a, x)]) = Some x.
Proof.
  intros (Hst & _ & Hrest) Hval. pose proof (fm_vma _ _ _ _ _ _ _ Hm) as Hv.
  pose proof (fm_head _ _ _ _ _ _ _ Hm) as Hh. pose proof (fm_proc _ _ _ _ _ _ _ Hm) as Hp.
  eexists. split_and!.
  - change (procs (k_pt s') !!! p) with (pr_at p s'). split.
    + change (procs (k_pt s') !!! p) with (pr_at p s'). rewrite Hh. simpl. by rewrite Hst.
    + change (procs (k_pt s') !!! p) with (pr_at p s'). rewrite Hp. simpl. by destruct Hrest as (_ & _ & _ & ->).
    + change (procs (k_pt s') !!! p) with (pr_at p s'). rewrite Hh. simpl.
      rewrite Hv, lookup_insert_eq. done.
    + apply NoDup_singleton.
  - done.
  - unfold areas. change (procs (k_pt s') !!! p) with (pr_at p s'). rewrite Hh. simpl.
    by rewrite Hval, andb_false_r.
Qed.

(** Pages still free are not the page of the new VMA. *)
Lemma first_mapping_fresh b : b ∈ free' -> b <> a.
Proof.
  intros Hb ->. pose proof (fm_grow _ _ _ _ _ _ _ Hm) as Hg.
  pose proof (NoDup_cons_1_1 _ _ (ai_nodup _ _ (uc_alloc _ _ _ Hc))) as Hnd.
  destruct (gr_pages _ _ _ _ _ _ _ _ _ Hg a) as [_ [Hr|Hp]]; [by left|done|].
  eapply is_pt_page_ok in Hp as [_ Hp]; [|apply (uc_as _ _ _ Hc)]. set_solver.
Qed.
End After.

Lemma demo_first :
  exists s' free', sys_mmap demo_mmap = Ok MIN_ADDR s' /\
    first_mapping demo_mmap 0 demo_base (List.tl (pages_from demo_base 10)) 2 s' free'.
Proof.
  apply (mmap_first_run demo_mmap 0 demo_base (List.tl (pages_from demo_base 10)) 2);
    [exact demo_mmap_ctx|exact demo_mmap_args|repeat split|reflexivity|vm_compute; reflexivity
    |vm_compute; reflexivity|vm_compute; reflexivity|vm_compute; split; [discriminate|reflexivity]
    |vm_compute; split; reflexivity|vm_compute; split; [reflexivity|discriminate]
    |vm_compute; discriminate|exact demo_mmap_unmapped].
Qed.

Lemma mmap_second_panics_witness :
  exists s', sys_mmap demo_mmap = Ok MIN_ADDR s' /\ sys_mmap s' = Panic "remap".
Proof.
  pose proof demo_mmap_ctx as Hc. destruct demo_first as (s' & free' & Hr & Hm).
  exists s'. split; [exact Hr|].
  pose proof (first_mapping_ctx _ _ _ _ _ _ _ Hc Hm) as Hc'.
  destruct (first_mapping_args _ _ _ _ _ _ _ Hc Hm 6 demo_mmap_args) as [Hargs Harg];
    [vm_compute; discriminate|].
  pose proof (fm_head _ _ _ _ _ _ _ Hm) as Hh.
  pose proof (first_mapping_fresh _ _ _ _ _ _ _ Hc Hm) as Hfr.
  pose proof (fm_len _ _ _ _ _ _ _ Hm) as Hl.
  destruct free' as [|a' [|b' rest']]; [vm_compute in Hl; congruence|vm_compute in Hl; congruence|].
  apply (mmap_second_panics s' 0 a' b' rest'
    {| valid := 1; start := MIN_ADDR; vend := MIN_ADDR + 2 * PGSIZE - 1;
       pa := page_of (mem (k_mm s')) (pgdir (pr_at 0 demo_mmap)) MIN_ADDR;
       guardstart := load32 (mem (k_mm demo_mmap)) (demo_base + 16);
       len := 2 * PGSIZE - 1; prot := arg demo_mmap 0 2; vflags := arg demo_mmap 0 3;
       vfd := arg demo_mmap 0 4; space_after := 0x20000000 - 2 * PGSIZE + 1;
       vf := ofile_word (pr_at 0 demo_mmap) (arg demo_mmap 0 4); next := VTail 0 |});
    rewrite ?Hh, ?Harg by lia.
  - exact Hc'.
  - exact Hargs.
  - vm_compute. reflexivity.
  - vm_compute. discriminate.
  - reflexivity.
  - vm_compute. split; reflexivity.
  - vm_compute. reflexivity.
  - discriminate.
  - cbn [vma_at upd_next next]. rewrite (fm_vma _ _ _ _ _ _ _ Hm). apply lookup_insert_eq.
  - rewrite (fm_vma _ _ _ _ _ _ _ Hm). rewrite lookup_insert_ne; [reflexivity|].
    apply not_eq_sym, Hfr, list_elem_of_here.
  - apply (first_mapping_mapped _ _ _ _ _ _ _ Hm); lia.
Defined.

(** ** Errors *)

Definition bad_addr (a : Z) : bool :=
  negb (a mod PGSIZE =? 0) || (a <? MIN_ADDR) || (MAX_ADDR <=? a).

(** [mmap] with [MAP_FIXED] and [munmap] refuse an address that is not
    page aligned or not in [[MIN_ADDR, MAX_ADDR)]: they return -1 and change
    nothing. *)
Theorem bad_address_rejected `{KernelImage} `{Waits} (s : kst) (p : nat) (free : list Z) :
  user_ctx s p free -> args_ok s p 6 -> bad_addr (u32 (arg s p 0)) = true ->
  (bit_set (arg s p 3) MAP_FIXED = true -> sys_mmap s = Ok (-1) (touch s)) /\
  sys_munmap s = Ok (-1) (touch s).
Proof.
  intros Hc Ha Hbad. unfold bad_addr in Hbad. split.
  - intros Hfix. by rewrite (sys_mmap_run s p free Hc Ha), Hfix, Hbad.
  - rewrite (sys_munmap_run s p free Hc); [by rewrite Hbad|].
    destruct Ha as (? & ? & ? & Hm). split_and!; try done; [lia|]. intros. apply Hm. lia.
Qed.

(** A fixed mapping in the middle of a page. *)
Definition demo_bad : kst := demo_k 4 [0x60000800; 5000; 3; 12; -1; 0] demo_proc.

Lemma bad_address_rejected_witness : sys_mmap demo_bad = Ok (-1) (touch demo_bad).
Proof.
  assert (Hc : user_ctx demo_bad 0 (pages_from demo_base 4))
    by (apply demo_user_ctx; [lia|cbn; lia|reflexivity]).
  assert (Ha : args_ok demo_bad 0 6)
    by (apply demo_args_ok; [lia|cbn; lia|reflexivity..|lia]).
  assert (Hb : bad_addr (u32 (arg demo_bad 0 0)) = true) by (vm_compute; reflexivity).
  assert (Hf : bit_set (arg demo_bad 0 3) MAP_FIXED = true) by (vm_compute; reflexivity).
  exact (proj1 (bad_address_rejected demo_bad 0 (pages_from demo_base 4) Hc Ha Hb) Hf).
Defined.

(** When no VMA of a well-formed list has more than the requested length
    free after it, [mmap] without [MAP_FIXED] returns -1 and changes nothing;
    the walk ends for every list. *)
Theorem mmap_no_space `{KernelImage} `{Waits} (s : kst) (p : nat) (free : list Z)
    (l : list (Z * vm_area)) :
  user_ctx s p free -> args_ok s p 6 -> bit_set (arg s p 3) MAP_FIXED = false ->
  vma_list (k_pt s) p l ->
  Forall (fun x => space_after x <= arg s p 1) (areas (k_pt s) p l) ->
  sys_mmap s = Ok (-1) (touch s).
Proof.
  intros Hc Ha Hfix Hl Hall. rewrite (sys_mmap_run s p free Hc Ha), Hfix.
  eapply (mmap_any_none (touch s)); [apply vma_list_walk; exact Hl|done|].
  pose proof (vma_list_fuel s p l Hl). simpl. rewrite length_fmap. lia.
Qed.

Lemma demo_vma_list n args : vma_list (k_pt (demo_k n args demo_proc)) 0 [].
Proof. split; [discriminate|reflexivity|reflexivity|constructor]. Qed.

Definition demo_big : kst := demo_k 4 [0; 0x20000000; 3; 4; -1; 0] demo_proc.

Lemma mmap_no_space_witness : sys_mmap demo_big = Ok (-1) (touch demo_big).
Proof.
  assert (Hc : user_ctx demo_big 0 (pages_from demo_base 4))
    by (apply demo_user_ctx; [lia|cbn; lia|reflexivity]).
  assert (Ha : args_ok demo_big 0 6)
    by (apply demo_args_ok; [lia|cbn; lia|reflexivity..|lia]).
  assert (Hf : bit_set (arg demo_big 0 3) MAP_FIXED = false) by (vm_compute; reflexivity).
  assert (Hs : Forall (fun x => space_after x <= arg demo_big 0 1) (areas (k_pt demo_big) 0 []))
    by (constructor; [vm_compute; discriminate|constructor]).
  exact (mmap_no_space demo_big 0 (pages_from demo_base 4) [] Hc Ha Hf (demo_vma_list _ _) Hs).
Defined.

(** ** munmap *)

(** C27. A [munmap] that succeeds on an anonymous or private mapping returns 0
    and changes nothing at all: the pages stay mapped and allocated and the
    VMA stays valid in the list, because the call edits a copy of the VMA and
    the test that should skip missing page tables skips the present ones. *)
Theorem munmap_no_effect `{KernelImage} `{Waits} (s : kst) (p : nat) (free : list Z)
    (l : list (Z * vm_area)) (x : vm_area) :
  user_ctx s p free -> args_ok s p 2 -> vma_list (k_pt s) p l ->
  bad_addr (u32 (arg s p 0)) = false ->
  find (fun y => (u32 (arg s p 0) =? start y) && (valid y =? 1)) (areas (k_pt s) p l) = Some x ->
  bit_set (vflags x) MAP_ANON || bit_set (vflags x) MAP_PRIVATE = true ->
  0 <= arg s p 1 -> u32 (arg s p 0) + arg s p 1 <= MAX_ADDR ->
  (forall va, u32 (arg s p 0) <= va < u32 (arg s p 0) + arg s p 1 ->
     bit_set (pde_at (mem (k_mm s)) (pgdir (pr_at p s)) (PDX va)) PTE_P = true) ->
  sys_munmap s = Ok 0 (touch s).
Proof.
  intros Hc Ha Hl Hbad Hfind Hfl Hpos Hend Htab. pose proof (ctx_touch s p free Hc) as Hc'.
  pose proof (vma_list_fuel s p l Hl) as Hfuel.
  rewrite (sys_munmap_run s p free Hc Ha). unfold bad_addr in Hbad. rewrite Hbad.
  rewrite (u32_small (u32 (arg s p 0) + arg s p 1)) by (pose proof (u32_range (arg s p 0)); lia).
  erewrite orelse_some.
  2:{ rewrite (munmap_find_run (touch s) _ _ l.*2).
      - exact (f_equal (fun r => Ok r (touch s)) Hfind).
      - eapply chain_walk; [apply Hl|apply Hl].
      - apply Hl.
      - rewrite length_fmap. lia. }
  assert (negb (bit_set (vflags x) MAP_ANON) && negb (bit_set (vflags x) MAP_PRIVATE) = false)
    as -> by (by destruct (bit_set (vflags x) MAP_ANON), (bit_set (vflags x) MAP_PRIVATE)).
  erewrite bind_ok by (unfold ret; reflexivity).
  erewrite bind_ok; [reflexivity|].
  apply (munmap_pages_run _ _ p free); [done|apply touch_touch|apply u32_range|done| |done].
  unfold page_rounds. zlia.
Qed.

Lemma munmap_no_effect_witness :
  exists s', sys_mmap demo_mmap = Ok MIN_ADDR s' /\ sys_munmap s' = Ok 0 (touch s').
Proof.
  pose proof demo_mmap_ctx as Hc. destruct demo_first as (s' & free' & Hr & Hm).
  exists s'. split; [exact Hr|].
  pose proof (first_mapping_ctx _ _ _ _ _ _ _ Hc Hm) as Hc'.
  destruct (first_mapping_args _ _ _ _ _ _ _ Hc Hm 6 demo_mmap_args) as [Hargs Harg];
    [vm_compute; discriminate|].
  destruct (first_mapping_list _ _ _ _ _ _ _ Hm) as (x & Hl & Hfl & Hfind); [repeat split|reflexivity|].
  assert (Ha0 : u32 (arg s' 0 0) = MIN_ADDR) by (rewrite Harg by lia; vm_compute; reflexivity).
  assert (Ha1 : arg s' 0 1 = 5000) by (rewrite Harg by lia; vm_compute; reflexivity).
  assert (Ha3 : arg demo_mmap 0 3 = 4) by (vm_compute; reflexivity).
  apply (munmap_no_effect s' 0 free' [(demo_base, x)] x); rewrite ?Ha0, ?Ha1.
  - exact Hc'.
  - destruct Hargs as (? & ? & ? & Hmp). split_and!; try assumption; [lia|].
    intros. apply Hmp. lia.
  - exact Hl.
  - reflexivity.
  - exact Hfind.
  - rewrite Hfl, Ha3. reflexivity.
  - lia.
  - discriminate.
  - clear - Hm. intros va Hva. unfold MIN_ADDR in Hva.
    apply mapped_table, (first_mapping_mapped _ _ _ _ _ _ _ Hm);
      unfold MIN_ADDR, MAX_ADDR, PGSIZE; clear Hm; lia.
Defined.
