(* ===== verification/TrapProps.v ===== *)
(** * Page faults

    What the handler of [T_PGFLT] does with a well-formed list of VMAs:
    when it kills the process, when it leaves everything as it is, and how a
    mapping with [MAP_GROWSUP] grows by its guard page. *)

From S2P Require Import Prelude Machine StringC Spinlock Kalloc Vm VmWalk VmMap VmUser VmKern.
From S2P Require Import VmAlloc VmCopy Demo Kernel Sleep Bio Log Inode Console Fs Pipe File Proc.
From S2P Require Import Exec Sysfile KernelWp DemoK Mmap Trap MmapWp.

(** The state after [myproc()->killed = 1]. *)
Definition with_killed (p : nat) (s : kst) : kst := upd_pr p (upd_killed (fun _ => 1)) (touch s).

(** [fault] is after one of [xs] and before the VMA that follows it; [e] is
    the start of the VMA after the last. *)
Fixpoint in_gap (xs : list vm_area) (e fault : Z) : bool :=
  match xs with
  | [] => false
  | x :: xs' =>
      (vend x <? fault) && (fault <? match xs' with [] => e | y :: _ => start y end) ||
      in_gap xs' e fault
  end.

(** The VMAs [xs] from [v] on; [w] is the link of the last. *)
Fixpoint leads (pt : prst) (v : vptr) (xs : list vm_area) (w : vptr) : Prop :=
  match xs with
  | [] => v = w
  | x :: xs' => vma_at pt v = Some x /\ start x <> MAX_ADDR /\ leads pt (next x) xs' w
  end.

Definition plain (x : vm_area) : Prop := bit_set (vflags x) MAP_GROWSUP = false.

Lemma chain_leads pt p v l : chain_to pt p v l -> leads pt v l.*2 (VTail p).
Proof.
  revert v. induction l as [|[a x] l IH]; intros v; simpl; [done|].
  intros (-> & Ha & Hs & Hch). by split_and!; [| |apply IH].
Qed.

Lemma vma_list_leads pt p l :
  vma_list pt p l -> leads pt (VHead p) (areas pt p l) (VTail p).
Proof. intros []. split_and!; [done|done|by apply chain_leads]. Qed.

Lemma leads_app pt v xs x ys w :
  leads pt v (xs ++ x :: ys) w ->
  exists u, leads pt v xs u /\ vma_at pt u = Some x /\ start x <> MAX_ADDR /\
    leads pt (next x) ys w.
Proof.
  revert v. induction xs as [|y xs IH]; intros v; simpl.
  - intros (? & ? & ?). by exists v.
  - intros (? & ? & (u & ?)%IH). exists u. naive_solver.
Qed.

Lemma leads_start pt v ys w t :
  leads pt v ys w -> vma_at pt w = Some t ->
  exists y, vma_at pt v = Some y /\ start y = match ys with [] => start t | y :: _ => start y end.
Proof. destruct ys; simpl; [intros -> ->; eauto|intros (-> & _); eauto]. Qed.

Section Fault.
Context `{KernelImage} `{Waits}.

Lemma set_killed_run s p free :
  user_ctx s p free -> set_killed s = Ok tt (with_killed p s).
Proof. intros Hc. unfold set_killed. by erewrite bind_ok by (by eapply ctx_me). Qed.

(** VMAs without [MAP_GROWSUP] are passed unless the fault is in the gap
    after one of them. *)
Lemma pgflt_loop_skip s p free fuel xs : forall v w t fault,
  user_ctx s p free -> leads (k_pt s) v xs w -> vma_at (k_pt s) w = Some t -> Forall plain xs ->
  pgflt_loop (length xs + fuel) v fault s =
  if in_gap xs (start t) fault then Ok tt (with_killed p s) else pgflt_loop fuel w fault s.
Proof.
  induction xs as [|x xs IH]; intros v w t fault Hc; [by intros ->|].
  intros (Hx & Hs & Hl) Ht [Hp Hps]%Forall_cons_1. cbn [length Nat.add pgflt_loop in_gap].
  erewrite bind_ok by (by apply get_vma_run).
  destruct (Z.eqb_spec (start x) MAX_ADDR); [done|]. rewrite Hp. cbn [negb].
  destruct (leads_start _ _ _ _ _ Hl Ht) as (y & Hy & <-).
  destruct (vend x <? fault); cbn [andb orb].
  - erewrite bind_ok by (erewrite bind_ok by (by apply get_vma_run); unfold ret; reflexivity).
    destruct (fault <? start y); [by eapply set_killed_run|]. by apply IH.
  - erewrite bind_ok by (unfold ret; reflexivity). by apply IH.
Qed.

(** The check of the range and the entry of the loop. *)
Lemma pgflt_run s p free fault :
  user_ctx s p free ->
  pgflt fault s =
  if (fault <? MIN_ADDR) || (MAX_ADDR <=? fault) then set_killed (touch s)
  else pgflt_loop (vma_fuel s) (VHead p) fault (touch s).
Proof.
  intros Hc. unfold pgflt. erewrite bind_ok by (by eapply ctx_me).
  by destruct ((fault <? MIN_ADDR) || (MAX_ADDR <=? fault)).
Qed.

Lemma with_killed_touch p s : with_killed p (touch s) = with_killed p s.
Proof. unfold with_killed. by rewrite touch_touch. Qed.

(** C29. A page fault of a process whose mappings all lack [MAP_GROWSUP]:
    outside the region of mappings, or in a gap between two mappings, it
    marks the process killed and changes nothing else; everywhere else (on
    a page of a mapping) the handler changes nothing, so the process faults
    again at the same instruction. *)
Theorem pgflt_plain (s : kst) (p : nat) (free : list Z) (l : list (Z * vm_area)) (fault : Z) :
  user_ctx s p free -> vma_list (k_pt s) p l -> Forall plain (areas (k_pt s) p l) ->
  pgflt fault s =
  Ok tt (if (fault <? MIN_ADDR) || (MAX_ADDR <=? fault) ||
            in_gap (areas (k_pt s) p l) MAX_ADDR fault
         then with_killed p s else touch s).
Proof.
  intros Hc Hl Hp. rewrite (pgflt_run s p free) by done. pose proof (ctx_touch _ _ _ Hc) as Hc'.
  destruct ((fault <? MIN_ADDR) || (MAX_ADDR <=? fault)); cbn [orb].
  - rewrite (set_killed_run _ p free) by done. by rewrite with_killed_touch.
  - pose proof (vma_list_fuel s p l Hl) as Hf.
    destruct (Nat.le_exists_sub (length (areas (k_pt s) p l) + 1) (vma_fuel s)) as (k & -> & _);
      [unfold areas; simpl; rewrite length_fmap; lia|].
    replace (k + (length (areas (k_pt s) p l) + 1))%nat
      with (length (areas (k_pt s) p l) + S k)%nat by lia.
    rewrite (pgflt_loop_skip (touch s) p free _ _ (VHead p) (VTail p) (tail (pr_at p s)));
      [|done|by apply vma_list_leads|done|done].
    unfold pr_at. rewrite (vl_tail _ _ _ Hl), with_killed_touch. destruct (in_gap _ _ _); [done|].
    cbn [pgflt_loop]. erewrite bind_ok by (by apply get_vma_run).
    rewrite (vl_tail (k_pt (touch s)) p l) by done. done.
Qed.

(** ** Guard pages *)









(** ** The VMA at a place of the list *)






End Fault.

(** ** A process with one mapping *)

Definition demo_area (flags : Z) : vm_area :=
  {| valid := 1; start := MIN_ADDR; vend := MIN_ADDR + PGSIZE - 1; pa := 0x801fa000;
     guardstart := MIN_ADDR + PGSIZE; len := PGSIZE - 1; prot := 3; vflags := flags; vfd := -1;
     space_after := 0x10000000; vf := FNull; next := VTail 0 |}.

Definition demo_fault (flags : Z) : kst :=
  upd_k_pt (upd_vmas (fun _ => {[ 0x801fb000 := demo_area flags ]}))
    (demo_k 10 [0] (upd_head (upd_next (fun _ => VHeap 0x801fb000)) demo_proc)).

Lemma demo_fault_ctx flags : user_ctx (demo_fault flags) 0 (pages_from demo_base 10).
Proof.
  destruct (demo_user_ctx 10 [0] ltac:(lia) ltac:(simpl; lia)
    (upd_head (upd_next (fun _ => VHeap 0x801fb000)) demo_proc) eq_refl). by split.
Qed.

Lemma demo_fault_list flags :
  vma_list (k_pt (demo_fault flags)) 0 [(0x801fb000, demo_area flags)].
Proof.
  split; [discriminate|reflexivity|split_and!; try reflexivity; discriminate|apply NoDup_singleton].
Qed.

Lemma pgflt_plain_witness :
  pgflt (MIN_ADDR + 5) (demo_fault 4) = Ok tt (touch (demo_fault 4)) /\
  pgflt (MIN_ADDR + 5000) (demo_fault 4) = Ok tt (with_killed 0 (demo_fault 4)).
Proof.
  assert (Hp : Forall plain (areas (k_pt (demo_fault 4)) 0 [(0x801fb000, demo_area 4)]))
    by (repeat constructor).
  split.
  - exact (pgflt_plain (demo_fault 4) 0 _ _ (MIN_ADDR + 5) (demo_fault_ctx 4) (demo_fault_list 4) Hp).
  - exact (pgflt_plain (demo_fault 4) 0 _ _ (MIN_ADDR + 5000) (demo_fault_ctx 4)
             (demo_fault_list 4) Hp).
Defined.






