(* ===== verification/ProcProps.v ===== *)
(** * Processes: properties

    The process table under [allocproc], [kill], [wakeup], [sleep] and the
    scheduler.  A thread that gives up the CPU is described at the switch and
    from every state in which it may be resumed. *)

From S2P Require Import Prelude Machine StringC Spinlock Kalloc Vm VmWalk VmMap VmUser VmKern.
From S2P Require Import VmAlloc VmCopy Demo Kernel Sleep Bio Log Inode Console Fs Pipe File Proc.
From S2P Require Import Exec Sysfile KernelWp DemoK Mmap Trap MmapWp.

(** ** Locks and switches *)

Lemma bind_sched {S A B} (m : M S A) (f : A -> M S B) s s1 k :
  m s = Sched s1 k -> bind m f s = Sched s1 (fun s' => bindr (k s') f).
Proof. intros E. unfold bind. by rewrite E. Qed.

(** The end of a critical section that left the CPU alone. *)
Lemma unlock_run l s s' :
  cpu_wf (get_cpu s) -> l ∉ held (get_cpu s) -> get_cpu s' = acquired l (get_cpu s) ->
  release l s' = Ok tt (set_cpu (refresh (get_cpu s)) s').
Proof.
  intros Hwf Hl E. rewrite release_run, E.
  - by rewrite released_acquired.
  - rewrite E. by apply acquired_wf.
  - rewrite E. unfold acquired. simpl. set_solver.
Qed.

(** Inside a [pushcli] nothing is refreshed. *)
Lemma touch_id s : ncli (get_cpu s) <> 0 -> touch s = s.
Proof.
  intros Hn. unfold touch. assert (refresh (get_cpu s) = get_cpu s) as ->; [|apply set_get_cpu].
  unfold refresh. destruct (Z.eqb_spec (ncli (get_cpu s)) 0); [done|]. by destruct (get_cpu s).
Qed.

(** The CPU holds exactly the lock [l]. *)
Record holds_only (l : lockid) (s : kst) : Prop := {
  ho_held : held (get_cpu s) = [l];
  ho_ncli : ncli (get_cpu s) = 1;
  ho_if : c_if (get_cpu s) = false }.

Lemma holds_wf l s : holds_only l s -> cpu_wf (get_cpu s).
Proof. intros [E1 E2 E3]. split_and!; [lia|done|]. rewrite E1, E2. simpl. lia. Qed.

Lemma holds_touch l s : holds_only l s -> touch s = s.
Proof. intros [_ E _]. apply touch_id. lia. Qed.

(** Only the locks of the CPU and the process table differ. *)
Definition same_data (s s' : kst) : Prop :=
  mem (k_mm s') = mem (k_mm s) /\ freelist (k_mm s') = freelist (k_mm s) /\
  use_lock (k_mm s') = use_lock (k_mm s) /\ k_fs s' = k_fs s /\ k_con s' = k_con s /\
  c_cr3 (get_cpu s') = c_cr3 (get_cpu s).

(** Trading one lock for another, as [sleep] does before and after. *)
Lemma trade_locks l l' s :
  holds_only l s -> l <> l' ->
  exists s', (acquire l' ;; release l) s = Ok tt s' /\ holds_only l' s' /\
    k_pt s' = k_pt s /\ same_data s s'.
Proof.
  intros Hh Hne. pose proof (holds_wf _ _ Hh) as Hwf. destruct Hh as [E1 E2 E3].
  erewrite bind_ok by (apply acquire_run; [done|rewrite E1; set_solver]).
  rewrite release_run; rewrite ?get_set_cpu; [| |].
  - eexists. split; [done|]. rewrite set_set_cpu. split; [|by repeat split].
    split; rewrite get_set_cpu; unfold released, acquired, pop_cpu, push_cpu, set_held;
      cbn [held ncli c_if intena].
    + rewrite E1. rewrite filter_cons_True by done. by rewrite filter_cons_False by naive_solver.
    + lia.
    + by rewrite E2.
  - by apply acquired_wf.
  - unfold acquired, set_held, push_cpu. cbn [held]. rewrite E1. set_solver.
Qed.

Lemma trade_back l l' s :
  holds_only l s -> l <> l' ->
  exists s', (release l ;; acquire l') s = Ok tt s' /\ holds_only l' s' /\
    k_pt s' = k_pt s /\ same_data s s'.
Proof.
  intros Hh Hne. pose proof (holds_wf _ _ Hh) as Hwf. destruct Hh as [E1 E2 E3].
  erewrite bind_ok by (apply release_run; [done|rewrite E1; set_solver]).
  assert (Hr : held (released l (get_cpu s)) = [] /\ ncli (released l (get_cpu s)) = 0).
  { unfold released, pop_cpu, set_held. cbn [held ncli]. rewrite E1, E2.
    by rewrite filter_cons_False by naive_solver. }
  destruct Hr as [Hr1 Hr2].
  rewrite acquire_run; rewrite ?get_set_cpu.
  - eexists. split; [done|]. rewrite set_set_cpu. split; [|by repeat split].
    split; rewrite get_set_cpu; unfold acquired, push_cpu, set_held; cbn [held ncli c_if].
    + by rewrite Hr1.
    + by rewrite Hr2.
    + done.
  - split_and!; rewrite ?Hr1, ?Hr2; simpl; lia.
  - rewrite Hr1. set_solver.
Qed.

Section Proc.
Context `{KernelImage} `{Waits}.

Lemma mycpu_run s : c_if (get_cpu s) = false -> mycpu s = Ok (get_cpu s) s.
Proof. intros E. unfold mycpu. erewrite bind_ok by (unfold gets; reflexivity). by rewrite E. Qed.

Lemma sched_run s p :
  holds_only L_ptable s -> curproc (k_pt s) = Some p -> state (pr_at p s) <> RUNNING ->
  exists k, sched s = Sched (upd_pr p (upd_context (fun _ => KSched)) s) k /\
    forall s', c_if (get_cpu s') = false ->
      k s' = Ok tt (set_cpu (set_intena (intena (get_cpu s)) (get_cpu s')) s').
Proof.
  intros Hh Hp Hst. pose proof (holds_wf _ _ Hh) as Hwf. pose proof (holds_touch _ _ Hh) as Ht.
  pose proof Hh as [E1 E2 E3]. unfold sched.
  erewrite bind_ok by (by apply me_run). rewrite Ht.
  erewrite bind_ok by (apply holding_run; done). change (set_cpu _ s) with (touch s). rewrite Ht.
  rewrite bool_decide_eq_true_2 by (rewrite E1; set_solver). cbn [negb].
  erewrite bind_ok by (by apply mycpu_run). rewrite E2. change (negb (1 =? 1)) with false. cbn iota.
  erewrite bind_ok by (unfold gets; reflexivity). rewrite bool_decide_eq_false_2, E3 by done.
  erewrite bind_ok by (unfold modify; reflexivity).
  eexists. split; [by erewrite bind_sched by (unfold swtch; reflexivity)|].
  intros s' Hif. cbn [bindr]. by erewrite bind_ok by (by apply mycpu_run).
Qed.

(** What [sleep] stores in the process. *)
Definition asleep (ch : chan) (x : proc) : proc :=
  upd_context (fun _ => KSched) (upd_state (fun _ => SLEEPING) (upd_pchan (fun _ => Some ch) x)).

Lemma upd_procs_upd f g pt : upd_procs f (upd_procs g pt) = upd_procs (fun l => f (g l)) pt.
Proof. done. Qed.

Lemma same_data_trans s1 s2 s3 : same_data s1 s2 -> same_data s2 s3 -> same_data s1 s3.
Proof. unfold same_data. naive_solver congruence. Qed.

Lemma same_data_refl s : same_data s s.
Proof. by repeat split. Qed.

Lemma upd_pr_pr p f g s : upd_pr p f (upd_pr p g s) = upd_pr p (fun x => f (g x)) s.
Proof.
  unfold upd_pr, upd_k_pt, upd_procs. cbn -[alter]. do 2 f_equal. by rewrite list_alter_alter_eq.
Qed.

(** [sleep] up to the switch, from the lock exchange at its start. *)
Lemma sleep_with_run acq rel (s : kst) (p : nat) (ch : chan) (lk : lockid) s0 :
  holds_only lk s -> curproc (k_pt s) = Some p -> (p < length (procs (k_pt s)))%nat ->
  (when negb (bool_decide (lk = L_ptable)) do (acq L_ptable ;; rel lk)) s = Ok tt s0 ->
  holds_only L_ptable s0 -> k_pt s0 = k_pt s ->
  exists k, sleep_with acq rel ch lk s =
      Sched (upd_pr p (asleep ch) s0) (fun s2 => bindr (k s2) (fun _ =>
        modify (upd_pr p (upd_pchan (fun _ => None))) ;;
        when negb (bool_decide (lk = L_ptable)) do (rel L_ptable ;; acq lk))) /\
    forall s2, c_if (get_cpu s2) = false ->
      k s2 = Ok tt (set_cpu (set_intena (intena (get_cpu s0)) (get_cpu s2)) s2).
Proof.
  intros Hh Hp Hlt Er Hh0 Hpt. unfold sleep_with.
  erewrite bind_ok by (apply myproc_run; by eapply holds_wf). rewrite (holds_touch _ _ Hh), Hp.
  erewrite bind_ok by exact Er.
  do 2 erewrite bind_ok by (unfold modify; reflexivity). rewrite upd_pr_pr.
  destruct (sched_run (upd_pr p (fun x => upd_state (fun _ => SLEEPING)
      (upd_pchan (fun _ => Some ch) x)) s0) p) as (k & E & Hk).
  { by destruct Hh0. }
  { simpl. by rewrite Hpt. }
  { unfold pr_at. simpl. by rewrite alter_total_eq by (by rewrite Hpt). }
  rewrite upd_pr_pr in E. erewrite bind_sched by exact E. by exists k.
Qed.

(** The lock exchange at the start. *)
Lemma sleep_trade lk s :
  holds_only lk s ->
  exists s0, (when negb (bool_decide (lk = L_ptable)) do (acquire L_ptable ;; release lk)) s = Ok tt s0 /\
    holds_only L_ptable s0 /\ k_pt s0 = k_pt s /\ same_data s s0.
Proof.
  intros Hh. destruct (bool_decide_reflect (lk = L_ptable)) as [->|]; cbn [negb].
  - exists s. split_and!; try done; apply same_data_refl.
  - by apply trade_locks.
Qed.

Lemma sleep_run (s : kst) (p : nat) (ch : chan) (lk : lockid) :
  holds_only lk s -> curproc (k_pt s) = Some p -> (p < length (procs (k_pt s)))%nat ->
  exists s1 k, sleep ch lk s = Sched s1 k /\ holds_only L_ptable s1 /\
    k_pt s1 = upd_procs (alter (asleep ch) p) (k_pt s) /\ same_data s s1 /\
    forall s2, holds_only L_ptable s2 ->
      exists s3, k s2 = Ok tt s3 /\ holds_only lk s3 /\
        k_pt s3 = upd_procs (alter (upd_pchan (fun _ => None)) p) (k_pt s2) /\ same_data s2 s3.
Proof.
  intros Hh Hp Hlt. destruct (sleep_trade lk s Hh) as (s0 & Er & Hh0 & Hpt & Hsd).
  destruct (sleep_with_run acquire release s p ch lk s0 Hh Hp Hlt Er Hh0 Hpt) as (k & E & Hk).
  eexists _, _. split; [exact E|]. split; [by destruct Hh0|]. split; [simpl; by rewrite Hpt|].
  split; [done|]. intros s2 Hh2. cbn beta. rewrite Hk by apply Hh2. cbn [bindr].
  erewrite bind_ok by (unfold modify; reflexivity).
  destruct (bool_decide_reflect (lk = L_ptable)) as [->|]; cbn [negb].
  - eexists. split; [done|]. split; [by destruct Hh2|]. by repeat split.
  - set (s2' := upd_pr p _ _).
    destruct (trade_back L_ptable lk s2') as (s3 & E3 & Hh3 & Hpt3 & Hsd3);
      [by destruct Hh2|done|]. exists s3. split_and!; try done.
Qed.

(** ** Wakeups on other CPUs

    A CPU that makes a condition true and wakes its sleepers takes the lock
    [lk] of the condition and then [ptable.lock].  [others lk e] is what such
    a CPU, whose work is [e], does at a moment when this CPU is between two
    statements: nothing as long as this CPU has one of the two locks. *)
Definition others (lk : lockid) (e : kst -> kst) (s : kst) : kst :=
  if bool_decide (lk ∈ held (get_cpu s)) || bool_decide (L_ptable ∈ held (get_cpu s)) then s else e s.

(** A lock operation followed by the work of another CPU. *)
Definition amid (lk : lockid) (e : kst -> kst) (op : lockid -> M kst unit) (l : lockid) : M kst unit :=
  op l ;; modify (others lk e).

Lemma amid_run lk e op l s s' :
  op l s = Ok tt s' -> lk ∈ held (get_cpu s') \/ L_ptable ∈ held (get_cpu s') ->
  amid lk e op l s = Ok tt s'.
Proof.
  intros E Hl. unfold amid. erewrite bind_ok by exact E. unfold modify, others.
  destruct Hl; by rewrite ?(bool_decide_eq_true_2 (lk ∈ _)), ?(bool_decide_eq_true_2 (L_ptable ∈ _)), ?orb_true_r by done.
Qed.

(** The exchange leaves the other CPU no moment. *)
Lemma sleep_trade_amid lk e s s0 :
  holds_only lk s -> holds_only L_ptable s0 ->
  (when negb (bool_decide (lk = L_ptable)) do (acquire L_ptable ;; release lk)) s = Ok tt s0 ->
  (when negb (bool_decide (lk = L_ptable)) do
     (amid lk e acquire L_ptable ;; amid lk e release lk)) s = Ok tt s0.
Proof.
  intros Hh Hh0 E. destruct (bool_decide_reflect (lk = L_ptable)); cbn [negb] in *; [done|].
  assert (Ea : acquire L_ptable s = Ok tt (set_cpu (acquired L_ptable (get_cpu s)) s)).
  { apply acquire_run; [by eapply holds_wf|]. destruct Hh as [-> _ _]. set_solver. }
  erewrite bind_ok in E by exact Ea. erewrite bind_ok.
  2:{ apply amid_run; [exact Ea|]. right. rewrite get_set_cpu. unfold acquired, set_held. cbn [held]. set_solver. }
  apply amid_run; [exact E|]. right. destruct Hh0 as [-> _ _]. set_solver.
Qed.

(** C23. [sleep] called with exactly its condition lock: at the switch the
    process is recorded as sleeping on the channel, [ptable.lock] is the one
    lock held, and nothing else has changed.  This is so whatever another CPU
    does that needs the condition lock and [ptable.lock], at any moment up to
    the switch: there is no moment at which it could have both, so a wakeup
    that follows a change of the condition comes after the switch, when it
    finds the process sleeping and makes it runnable.  From any state in which
    the scheduler resumes it, again with [ptable.lock] held, [sleep] returns
    with the condition lock as its only lock and its channel cleared. *)
Theorem sleep_exact (s : kst) (p : nat) (ch : chan) (lk : lockid) :
  holds_only lk s -> curproc (k_pt s) = Some p -> (p < length (procs (k_pt s)))%nat ->
  exists s1 k, sleep ch lk s = Sched s1 k /\ holds_only L_ptable s1 /\
    k_pt s1 = upd_procs (alter (asleep ch) p) (k_pt s) /\ same_data s s1 /\
    (forall e, exists k', sleep_with (amid lk e acquire) (amid lk e release) ch lk s = Sched s1 k') /\
    (exists s2, wakeup1 (Some ch) s1 = Ok tt s2 /\ state (pr_at p s2) = RUNNABLE) /\
    forall s2, holds_only L_ptable s2 ->
      exists s3, k s2 = Ok tt s3 /\ holds_only lk s3 /\
        k_pt s3 = upd_procs (alter (upd_pchan (fun _ => None)) p) (k_pt s2) /\ same_data s2 s3.
Proof.
  intros Hh Hp Hlt. destruct (sleep_run s p ch lk Hh Hp Hlt) as (s1 & k & E & H1 & H2 & H3 & H4).
  exists s1, k. split_and!; try done.
  - intros e. destruct (sleep_trade lk s Hh) as (s0 & Er & Hh0 & Hpt & _).
    destruct (sleep_with_run acquire release s p ch lk s0 Hh Hp Hlt Er Hh0 Hpt) as (k1 & E1 & _).
    destruct (sleep_with_run (amid lk e acquire) (amid lk e release) s p ch lk s0 Hh Hp Hlt) as (k2 & E2 & _);
      [by apply sleep_trade_amid|done|done|].
    unfold sleep in E. rewrite E1 in E. injection E as <- _. by eexists.
  - eexists. split; [by unfold wakeup1, modify|]. unfold pr_at. simpl. rewrite H2. simpl.
    rewrite !list_lookup_total_alt, list_lookup_fmap, list_lookup_alter_eq.
    destruct (lookup_lt_is_Some_2 _ _ Hlt) as [x ->]. simpl. unfold wake. simpl.
    by rewrite !bool_decide_eq_true_2 by done.
Qed.

(** ** The scheduler *)

Lemma switchuvm_run s i :
  holds_only L_ptable s -> kstack (pr_at i s) <> 0 -> pgdir (pr_at i s) <> 0 ->
  switchuvm (Some i) s =
  Ok tt (set_cpu (set_vm_regs (V2P (pgdir (pr_at i s))) (u32 (kstack (pr_at i s) + KSTACKSIZE))
                    (get_cpu s)) s).
Proof.
  intros Hh Hk Hd. unfold switchuvm. erewrite bind_ok by (unfold gets; reflexivity).
  destruct (Z.eqb_spec (kstack (pr_at i s)) 0); [done|].
  destruct (Z.eqb_spec (pgdir (pr_at i s)) 0); [done|].
  unfold pushcli. erewrite bind_ok by (unfold modify; reflexivity).
  erewrite bind_ok by (apply mycpu_run; by rewrite get_set_cpu).
  erewrite bind_ok by (unfold modify; reflexivity).
  rewrite set_set_cpu, get_set_cpu. destruct Hh as [E1 E2 E3]. rewrite popcli_run.
  - rewrite set_set_cpu, get_set_cpu. do 2 f_equal. unfold pop_cpu, set_vm_regs, push_cpu.
    cbn [c_if ncli intena held c_cr3 c_esp0]. rewrite E2, E3. done.
  - by rewrite get_set_cpu.
  - rewrite get_set_cpu. unfold set_vm_regs, push_cpu. cbn [ncli]. lia.
Qed.

(** The state in which the scheduler switches to process [i]. *)
Definition run_state (i : nat) (s : kst) : kst :=
  set_cpu (set_vm_regs (V2P (pgdir (pr_at i s))) (u32 (kstack (pr_at i s) + KSTACKSIZE))
             (get_cpu s))
    (upd_k_pt (fun pt => upd_procs (alter (upd_state (fun _ => RUNNING)) i)
                           (upd_curproc (fun _ => Some i) pt)) s).

Lemma sched_one_runs s i :
  holds_only L_ptable s -> state (pr_at i s) = RUNNABLE ->
  kstack (pr_at i s) <> 0 -> pgdir (pr_at i s) <> 0 ->
  exists k, sched_one i s = Sched (run_state i s) k /\
    forall s', holds_only L_ptable s' -> exists s'', k s' = Ok tt s'' /\
      holds_only L_ptable s'' /\ procs (k_pt s'') = procs (k_pt s').
Proof.
  intros Hh Hst Hk Hd. unfold sched_one. erewrite bind_ok by (unfold gets; reflexivity).
  rewrite bool_decide_eq_true_2 by done. erewrite bind_ok by (unfold modify; reflexivity).
  erewrite bind_ok by (apply switchuvm_run; [by destruct Hh|done|done]).
  erewrite bind_ok by (unfold modify; reflexivity).
  eexists. split; [by erewrite bind_sched by (unfold swtch; reflexivity)|].
  intros s' Hh'. cbn [bindr]. unfold switchkvm.
  eexists. split; [reflexivity|]. split; [by destruct Hh'|done].
Qed.

Lemma sched_one_skips s i : state (pr_at i s) <> RUNNABLE -> sched_one i s = Ok tt s.
Proof.
  intros Hst. unfold sched_one. erewrite bind_ok by (unfold gets; reflexivity).
  by rewrite bool_decide_eq_false_2.
Qed.

(** A thread driven to its end: [env] is what the rest of the system does
    while it is switched out; the states at its switches are collected. *)
Fixpoint drive (env : kst -> kst) (r : res kst unit) : option (list kst * kst) :=
  match r with
  | Ok _ s => Some ([], s)
  | Sched s k => (fun q => (s :: fst q, snd q)) <$> drive env (k (env s))
  | _ => None
  end.

Lemma drive_bind env r f tr s tr' s' :
  drive env r = Some (tr, s) -> drive env (f tt s) = Some (tr', s') ->
  drive env (bindr r f) = Some (tr ++ tr', s').
Proof.
  revert tr s. induction r as [[] s0| | | |s0 k IH]; intros tr s; simpl; try done.
  - by intros [= <- <-] ->.
  - destruct (drive env (k (env s0))) as [[tr0 s1]|] eqn:E; simpl; [|done].
    intros [= <- <-] Hf. by rewrite (IH _ _ _ E Hf).
Qed.

(** Runnable processes have a stack and an address space. *)
Definition ready (s : kst) : Prop :=
  forall i, state (pr_at i s) = RUNNABLE -> kstack (pr_at i s) <> 0 /\ pgdir (pr_at i s) <> 0.

(** What the scheduler relies on while a process runs: the process comes
    back with [ptable.lock] held (the timer sees to it), and the runnable
    processes have a stack and an address space.  The table may have changed
    in any other way: processes may have been created, woken, killed, or run
    by other CPUs. *)
Definition good_env (env : kst -> kst) : Prop :=
  forall s i, curproc (k_pt s) = Some i -> holds_only L_ptable s -> ready s ->
    holds_only L_ptable (env s) /\ ready (env s).

Lemma run_state_other i j s : j <> i -> pr_at j (run_state i s) = pr_at j s.
Proof. intros Hne. unfold pr_at, run_state. simpl. by apply alter_total_ne. Qed.

Lemma runnable_lt i s : state (pr_at i s) = RUNNABLE -> (i < length (procs (k_pt s)))%nat.
Proof.
  unfold pr_at. intros Hst. destruct (decide (i < length (procs (k_pt s)))%nat); [done|].
  rewrite list_lookup_total_alt, lookup_ge_None_2 in Hst by lia. done.
Qed.

Lemma run_state_ready i s : state (pr_at i s) = RUNNABLE -> ready s -> ready (run_state i s).
Proof.
  intros Hi%runnable_lt Hr j. destruct (decide (j = i)) as [->|]; [|rewrite run_state_other by done; apply Hr].
  unfold pr_at, run_state. simpl. by rewrite alter_total_eq.
Qed.

(** [s1] is the switch to process [i] on its own page table. *)
Definition switched_to (i : nat) (s1 : kst) : Prop :=
  curproc (k_pt s1) = Some i /\ state (pr_at i s1) = RUNNING /\
  c_cr3 (get_cpu s1) = V2P (pgdir (pr_at i s1)) /\ holds_only L_ptable s1.

(** While the process of the switch [s1] ran, the rest of the system took
    process [i] out of the runnable ones (another CPU runs it). *)
Definition taken (env : kst -> kst) (i : nat) (s1 : kst) : Prop :=
  state (pr_at i s1) = RUNNABLE /\ state (pr_at i (env s1)) <> RUNNABLE.

Lemma run_state_switched i s :
  holds_only L_ptable s -> state (pr_at i s) = RUNNABLE ->
  switched_to i (run_state i s).
Proof.
  intros Hh Hi%runnable_lt. split_and!; [done| | |by destruct Hh];
    unfold pr_at, run_state; simpl; by rewrite alter_total_eq.
Qed.

(** One process of the loop: it is run if it is runnable, and the other
    runnable processes stay so or are taken. *)
Lemma sched_one_drive env s i :
  good_env env -> holds_only L_ptable s -> ready s ->
  exists tr s', drive env (sched_one i s) = Some (tr, s') /\ holds_only L_ptable s' /\ ready s' /\
    (state (pr_at i s) = RUNNABLE -> Exists (switched_to i) tr) /\
    forall j, j <> i -> state (pr_at j s) = RUNNABLE ->
      state (pr_at j s') = RUNNABLE \/ Exists (taken env j) tr.
Proof.
  intros Henv Hh Hr. destruct (decide (state (pr_at i s) = RUNNABLE)) as [Hst|Hst].
  - destruct (Hr i Hst) as [Hk Hd].
    destruct (sched_one_runs s i Hh Hst Hk Hd) as (k & -> & Hres).
    destruct (Henv (run_state i s) i) as (Hh1 & Hr1);
      [done|by destruct Hh|by apply run_state_ready|].
    destruct (Hres _ Hh1) as (s' & E & Hh' & Hpt). exists [run_state i s], s'.
    assert (Hpr : forall j, pr_at j s' = pr_at j (env (run_state i s)))
      by (intros j; unfold pr_at; by rewrite Hpt).
    simpl. rewrite E. split_and!; [done|done| | |].
    + intros j. rewrite Hpr. apply Hr1.
    + intros _. constructor. by apply run_state_switched.
    + intros j Hne Hj. rewrite Hpr.
      destruct (decide (state (pr_at j (env (run_state i s))) = RUNNABLE)) as [|Ht]; [by left|right].
      constructor. split; [by rewrite run_state_other|done].
  - exists [], s. rewrite sched_one_skips by done. split_and!; try done. intros j _ Hj. by left.
Qed.

Lemma sched_loop_drive env n : good_env env -> forall a s,
  holds_only L_ptable s -> ready s ->
  exists tr s', drive env (for_all (seq a n) sched_one s) = Some (tr, s') /\
    holds_only L_ptable s' /\
    forall i, (a <= i < a + n)%nat -> state (pr_at i s) = RUNNABLE ->
      Exists (switched_to i) tr \/ Exists (taken env i) tr.
Proof.
  intros Henv. induction n as [|n IH]; intros a s Hh Hr.
  { exists [], s. split_and!; [done|done|lia]. }
  destruct (sched_one_drive env s a Henv Hh Hr) as (tr1 & s1 & E1 & Hh1 & Hr1 & Hrun & Hkeep).
  destruct (IH (S a) s1 Hh1 Hr1) as (tr2 & s2 & E2 & Hh2 & Hrest).
  exists (tr1 ++ tr2), s2. split; [|split; [done|]].
  - cbn [seq for_all]. unfold bind. by eapply drive_bind.
  - intros i Hi Hst. rewrite !Exists_app. destruct (decide (i = a)) as [->|Hne]; [auto|].
    destruct (Hkeep i Hne Hst) as [Hst1|]; [|auto]. destruct (Hrest i ltac:(lia) Hst1); auto.
Qed.

(** C8. One round of the scheduler, when every process it runs gives the CPU
    back: the round ends, and every process that was runnable when it began
    has been switched to during the round, on its own page table and with
    [ptable.lock] held across the switch, unless somebody else took it out
    of the runnable processes while another process of the round ran. *)
Theorem scheduler_round_fair (env : kst -> kst) (s : kst) :
  good_env env -> ready s -> ncli (get_cpu s) = 0 -> held (get_cpu s) = [] ->
  exists tr s', drive env (scheduler_round s) = Some (tr, s') /\
    held (get_cpu s') = [] /\
    forall i, (i < Z.to_nat NPROC)%nat -> state (pr_at i s) = RUNNABLE ->
      Exists (switched_to i) tr \/ Exists (taken env i) tr.
Proof.
  intros Henv Hr Hn Hl. unfold scheduler_round, sti.
  erewrite bind_ok by (unfold modify; reflexivity). set (s0 := set_cpu _ s).
  assert (Hwf : cpu_wf (get_cpu s0)).
  { unfold s0. rewrite get_set_cpu. split_and!; cbn [ncli held c_if]; rewrite ?Hn, ?Hl; simpl; lia. }
  assert (Hl0 : L_ptable ∉ held (get_cpu s0)).
  { unfold s0. rewrite get_set_cpu. cbn [held]. rewrite Hl. set_solver. }
  erewrite bind_ok by (by apply acquire_run). set (s1 := set_cpu (acquired _ _) s0).
  assert (Hh1 : holds_only L_ptable s1).
  { unfold s1, s0. split; rewrite get_set_cpu; rewrite get_set_cpu; unfold acquired, push_cpu, set_held;
      cbn [held ncli c_if]; [by rewrite Hl|lia|done]. }
  destruct (sched_loop_drive env (Z.to_nat NPROC) Henv 0 s1 Hh1 Hr) as (tr & s2 & E & Hh2 & Hrun).
  destruct Hh2 as [F1 F2 F3].
  exists (tr ++ []), (set_cpu (released L_ptable (get_cpu s2)) s2). split_and!.
  - unfold bind. eapply drive_bind; [exact E|]. rewrite release_run; [done| |by rewrite F1; set_solver].
    by apply (holds_wf L_ptable).
  - rewrite get_set_cpu. unfold released, pop_cpu, set_held. cbn [held]. rewrite F1.
    by rewrite filter_cons_False by naive_solver.
  - intros i Hi Hst. rewrite app_nil_r. apply (Hrun i); [lia|done].
Qed.

(** ** The process table *)

Lemma free_proc_find l n :
  free_proc l n = (fun q => (n + fst q)%nat) <$> list_find (fun x => state x = UNUSED) l.
Proof.
  revert n. induction l as [|x l IH]; intros n; [done|]. simpl.
  destruct (bool_decide_reflect (state x = UNUSED)) as [E|E].
  - rewrite decide_True by done. simpl. f_equal. lia.
  - rewrite decide_False, IH by done. destruct (list_find _ l) as [[i y]|]; simpl; [|done].
    f_equal. lia.
Qed.

(** [allocproc] up to the allocation of the stack. *)
Lemma allocproc_run s i x :
  cpu_wf (get_cpu s) -> L_ptable ∉ held (get_cpu s) -> nextpid (k_pt s) < INT_MAX ->
  list_find (fun x => state x = UNUSED) (procs (k_pt s)) = Some (i, x) ->
  allocproc s =
  (k <- lift_mm kalloc ;;
   modify (upd_pr i (upd_kstack (fun _ => k))) ;;
   if k =? 0 then modify (upd_pr i (upd_state (fun _ => UNUSED))) ;; ret None
   else modify (upd_pr i (upd_context (fun _ => KForkret))) ;; ret (Some i))
  (upd_k_pt (fun pt => upd_nextpid (fun n => n + 1)
      (upd_procs (alter (fun x => upd_pid (fun _ => nextpid pt)
                                    (upd_state (fun _ => EMBRYO) x)) i) pt)) (touch s)).
Proof.
  intros Hwf Hl Hmax Hf. unfold allocproc. erewrite bind_ok by (by apply acquire_run).
  erewrite bind_ok by (unfold gets; reflexivity). cbn [k_pt upd_k_mm set_cpu kst_HasCpu].
  rewrite free_proc_find, Hf. cbn [fmap option_fmap option_map fst Nat.add].
  do 3 erewrite bind_ok by (unfold modify, gets; reflexivity). change (nextpid (k_pt (upd_pr _ _ _))) with (nextpid (k_pt s)).
  destruct (Z.eqb_spec (nextpid (k_pt s)) INT_MAX); [lia|].
  do 2 erewrite bind_ok by (unfold modify, ret; reflexivity).
  erewrite bind_ok by (eapply (unlock_run _ s); done).
  f_equal. unfold upd_pr, touch, upd_k_pt, upd_procs, upd_nextpid. cbn -[alter].
  rewrite list_alter_alter_eq. done.
Qed.

Lemma allocproc_none s :
  cpu_wf (get_cpu s) -> L_ptable ∉ held (get_cpu s) ->
  list_find (fun x => state x = UNUSED) (procs (k_pt s)) = None -> allocproc s = Ok None (touch s).
Proof.
  intros Hwf Hl Hf. unfold allocproc. erewrite bind_ok by (by apply acquire_run).
  erewrite bind_ok by (unfold gets; reflexivity). cbn [k_pt upd_k_mm set_cpu kst_HasCpu].
  rewrite free_proc_find, Hf. cbn [fmap option_fmap option_map].
  by erewrite bind_ok by (eapply (unlock_run _ s); done).
Qed.

Lemma allocproc_cases (s : kst) (free : list Z) :
  alloc_inv (k_mm s) free -> L_ptable ∉ held (get_cpu s) -> nextpid (k_pt s) < INT_MAX ->
  let pd := nextpid (k_pt s) in
  match list_find (fun x => state x = UNUSED) (procs (k_pt s)), free with
  | None, _ => allocproc s = Ok None (touch s)
  | Some (i, x), [] => exists s', allocproc s = Ok None s' /\ alloc_inv (k_mm s') [] /\
      k_pt s' = upd_nextpid (fun n => n + 1) (upd_procs (alter
        (fun x => upd_pid (fun _ => pd) (upd_kstack (fun _ => 0) (upd_state (fun _ => UNUSED) x))) i)
        (k_pt s)) /\
      mem (k_mm s') = mem (k_mm s) /\ k_fs s' = k_fs s /\ k_con s' = k_con s
  | Some (i, x), a :: rest => exists s', allocproc s = Ok (Some i) s' /\ alloc_inv (k_mm s') rest /\
      k_pt s' = upd_nextpid (fun n => n + 1) (upd_procs (alter
        (fun x => upd_context (fun _ => KForkret) (upd_pid (fun _ => pd)
           (upd_kstack (fun _ => a) (upd_state (fun _ => EMBRYO) x)))) i) (k_pt s)) /\
      mem (k_mm s') = mem (k_mm s) /\ k_fs s' = k_fs s /\ k_con s' = k_con s
  end.
Proof.
  intros Hai Hl Hmax pd. pose proof (ai_wf _ _ Hai) as Hwf.
  destruct (list_find _ _) as [[i x]|] eqn:Hf.
  - rewrite (allocproc_run s i x) by done. set (s1 := upd_k_pt _ _).
    assert (Hai1 : alloc_inv (k_mm s1) free) by (by apply touch_alloc).
    pose proof (kalloc_wp (fun a m => mem m = mem (k_mm s1) /\
      match free with [] => a = 0 /\ alloc_inv m [] | b :: r => a = b /\ alloc_inv m r /\ b <> 0 end)
      (k_mm s1) free Hai1) as Hwp.
    destruct Hwp as (a & m & Ha & Hmem & Hres).
    { intros m Hfr Hm. destruct free; [done|]. intros Hp ? ?. pose proof (page_ok_range _ Hp).
      split_and!; try done. lia. }
    erewrite bind_ok by (by apply lift_ok). erewrite bind_ok by (unfold modify; reflexivity).
    destruct free as [|b rest].
    + destruct Hres as [-> Hai2]. eexists. split; [reflexivity|]. split; [done|].
      split; [|done]. unfold upd_pr. cbn -[alter].
      unfold upd_procs, upd_nextpid. cbn -[alter]. f_equal. rewrite !list_alter_alter_eq. done.
    + destruct Hres as (-> & Hai2 & Hb). destruct (Z.eqb_spec b 0); [done|].
      eexists. split; [reflexivity|]. split; [done|].
      split; [|done]. unfold upd_pr. cbn -[alter].
      unfold upd_procs, upd_nextpid. cbn -[alter]. f_equal. rewrite !list_alter_alter_eq. done.
  - by apply allocproc_none.
Qed.

(** [allocproc] takes the first unused slot: with no such slot it returns
    0 and changes nothing; with no free page the slot is unused again and 0
    is returned; otherwise the slot is an embryo with the next pid, a fresh
    page as its kernel stack, and [forkret] as its first code.  No other
    slot, no memory and no file changes.  The next pid has to be smaller than
    the largest [int]. *)
Theorem allocproc_exact (s : kst) (free : list Z) :
  alloc_inv (k_mm s) free -> L_ptable ∉ held (get_cpu s) -> nextpid (k_pt s) < INT_MAX ->
  let pd := nextpid (k_pt s) in
  match list_find (fun x => state x = UNUSED) (procs (k_pt s)), free with
  | None, _ => allocproc s = Ok None (touch s)
  | Some (i, x), [] => exists s', allocproc s = Ok None s' /\ alloc_inv (k_mm s') [] /\
      k_pt s' = upd_nextpid (fun n => n + 1) (upd_procs (alter
        (fun x => upd_pid (fun _ => pd) (upd_kstack (fun _ => 0) (upd_state (fun _ => UNUSED) x))) i)
        (k_pt s)) /\
      mem (k_mm s') = mem (k_mm s) /\ k_fs s' = k_fs s /\ k_con s' = k_con s
  | Some (i, x), a :: rest => exists s', allocproc s = Ok (Some i) s' /\ alloc_inv (k_mm s') rest /\
      k_pt s' = upd_nextpid (fun n => n + 1) (upd_procs (alter
        (fun x => upd_context (fun _ => KForkret) (upd_pid (fun _ => pd)
           (upd_kstack (fun _ => a) (upd_state (fun _ => EMBRYO) x)))) i) (k_pt s)) /\
      mem (k_mm s') = mem (k_mm s) /\ k_fs s' = k_fs s /\ k_con s' = k_con s
  end.
Proof. apply allocproc_cases. Qed.

(** When the pids are used up, the next creation overflows [nextpid]. *)
Lemma allocproc_overflow s i x r s' :
  cpu_wf (get_cpu s) -> L_ptable ∉ held (get_cpu s) -> nextpid (k_pt s) = INT_MAX ->
  list_find (fun x => state x = UNUSED) (procs (k_pt s)) = Some (i, x) ->
  allocproc s <> Ok r s'.
Proof.
  intros Hwf Hl Hmax Hf. unfold allocproc. erewrite bind_ok by (by apply acquire_run).
  erewrite bind_ok by (unfold gets; reflexivity). cbn [k_pt upd_k_mm set_cpu kst_HasCpu].
  rewrite free_proc_find, Hf. cbn [fmap option_fmap option_map fst Nat.add].
  do 3 erewrite bind_ok by (unfold modify, gets; reflexivity). change (nextpid (k_pt (upd_pr _ _ _))) with (nextpid (k_pt s)).
  rewrite Hmax. change (INT_MAX =? INT_MAX) with true. by unfold bind, undef.
Qed.

(** [kill] marks the process and wakes it if it sleeps. *)
Definition kill_proc (x : proc) : proc :=
  upd_killed (fun _ => 1) (if bool_decide (state x = SLEEPING)
                           then upd_state (fun _ => RUNNABLE) x else x).

Lemma kill_at_run k n : forall i s s0,
  cpu_wf (get_cpu s0) -> L_ptable ∉ held (get_cpu s0) ->
  get_cpu s = acquired L_ptable (get_cpu s0) -> (i + n)%nat = length (procs (k_pt s)) ->
  kill_at i n k s =
  match list_find (fun x => pid x = k) (drop i (procs (k_pt s))) with
  | Some (j, _) => Ok (Some 0) (set_cpu (refresh (get_cpu s0)) (upd_pr (i + j) kill_proc s))
  | None => Ok None s
  end.
Proof.
  induction n as [|n IH]; intros i s s0 Hwf Hl Hc Hlen.
  { rewrite drop_ge by lia. done. }
  cbn [kill_at]. erewrite bind_ok by (unfold gets; reflexivity).
  destruct (lookup_lt_is_Some_2 (procs (k_pt s)) i) as [x Hx]; [lia|].
  rewrite (drop_S _ _ _ Hx). cbn [list_find].
  unfold pr_at. rewrite (list_lookup_total_correct _ _ _ Hx).
  destruct (Z.eqb_spec (pid x) k) as [E|E].
  - rewrite decide_True, Nat.add_0_r by done. erewrite bind_ok by (unfold modify; reflexivity).
    assert (Hk : (when bool_decide (state x = SLEEPING) do
        modify (upd_pr i (upd_state (fun _ => RUNNABLE)))) (upd_pr i (upd_killed (fun _ => 1)) s) =
      Ok tt (upd_pr i kill_proc s)).
    { destruct (bool_decide_reflect (state x = SLEEPING)) as [Es|Es]; unfold modify, ret; f_equal;
        rewrite ?upd_pr_pr; unfold upd_pr, upd_k_pt, upd_procs; do 2 f_equal;
        apply list_alter_ext; try done; intros y Hy; simplify_eq; unfold kill_proc.
      - by rewrite bool_decide_eq_true_2.
      - by rewrite bool_decide_eq_false_2. }
    erewrite bind_ok by exact Hk. by erewrite bind_ok by (by apply (unlock_run _ s0)).
  - rewrite decide_False by done. rewrite (IH (S i) s s0) by (done || lia).
    destruct (list_find _ _) as [[j y]|]; simpl; [|done]. do 3 f_equal. lia.
Qed.

Lemma kill_run (s : kst) (k : Z) :
  cpu_wf (get_cpu s) -> L_ptable ∉ held (get_cpu s) ->
  length (procs (k_pt s)) = Z.to_nat NPROC ->
  kill k s =
  match list_find (fun x => pid x = k) (procs (k_pt s)) with
  | Some (i, _) => Ok 0 (upd_pr i kill_proc (touch s))
  | None => Ok (-1) (touch s)
  end.
Proof.
  intros Hwf Hl Hlen. unfold kill. erewrite bind_ok by (by apply acquire_run).
  set (s1 := set_cpu _ s). assert (E := kill_at_run k (Z.to_nat NPROC) 0 s1 s Hwf Hl eq_refl).
  specialize (E (eq_sym Hlen)). rewrite drop_0 in E. change (procs (k_pt s1)) with (procs (k_pt s)) in E.
  destruct (list_find _ _) as [[j y]|]; erewrite bind_ok by exact E; [done|].
  cbn iota. by erewrite bind_ok by (by apply (unlock_run _ s)).
Qed.

(** [kill] marks the first process with the pid, waking it if it sleeps,
    and returns 0; if there is none it returns -1.  Nothing else changes. *)
Theorem kill_exact (s : kst) (k : Z) :
  cpu_wf (get_cpu s) -> L_ptable ∉ held (get_cpu s) ->
  length (procs (k_pt s)) = Z.to_nat NPROC ->
  kill k s =
  match list_find (fun x => pid x = k) (procs (k_pt s)) with
  | Some (i, _) => Ok 0 (upd_pr i kill_proc (touch s))
  | None => Ok (-1) (touch s)
  end.
Proof. apply kill_run. Qed.

(** The state with the sleepers on [ch] runnable. *)
Definition woken (ch : chan) (s : kst) : kst := upd_k_pt (upd_procs (fmap (wake (Some ch)))) s.

Lemma wakeup_run ch s :
  cpu_wf (get_cpu s) -> L_ptable ∉ held (get_cpu s) -> wakeup ch s = Ok tt (woken ch (touch s)).
Proof.
  intros Hwf Hl. unfold wakeup. erewrite bind_ok by (by apply acquire_run).
  erewrite bind_ok by (unfold wakeup1, modify; reflexivity).
  by rewrite (unlock_run _ s) by done.
Qed.

(** ** Process ids *)

(** The pids in use are positive [int]s, older than the next one, and
    distinct. *)
Definition pids_ok (pt : prst) : Prop :=
  (0 < nextpid pt <= INT_MAX) /\
  (forall i x, procs pt !! i = Some x -> state x <> UNUSED -> 0 < pid x < nextpid pt) /\
  (forall i j x y, procs pt !! i = Some x -> procs pt !! j = Some y ->
     state x <> UNUSED -> state y <> UNUSED -> pid x = pid y -> i = j).

(** Steps that use no new pid. *)
Lemma pids_ok_keep pt pt' :
  pids_ok pt -> nextpid pt <= nextpid pt' <= INT_MAX ->
  (forall i x', procs pt' !! i = Some x' -> state x' <> UNUSED ->
     exists x, procs pt !! i = Some x /\ state x <> UNUSED /\ pid x = pid x') ->
  pids_ok pt'.
Proof.
  intros (Hn & Hr & Hd) Hle Hk. split; [lia|split].
  - intros i x' Hx Hs. destruct (Hk i x' Hx Hs) as (x & Hx0 & Hs0 & <-).
    specialize (Hr i x Hx0 Hs0). lia.
  - intros i j x' y' Hx Hy Hsx Hsy E. destruct (Hk i x' Hx Hsx) as (x & Hx0 & Hsx0 & Ex).
    destruct (Hk j y' Hy Hsy) as (y & Hy0 & Hsy0 & Ey). apply (Hd i j x y); congruence.
Qed.

Lemma pids_ok_alter pt p f :
  pids_ok pt -> (forall x, pid (f x) = pid x \/ state (f x) = UNUSED) ->
  (forall x, procs pt !! p = Some x -> state x = UNUSED -> state (f x) = UNUSED) ->
  pids_ok (upd_procs (alter f p) pt).
Proof.
  intros Hok Hp Hu. eapply pids_ok_keep; [done|destruct Hok; simpl; lia|]. intros i x' Hx Hs. simpl in Hx.
  destruct (decide (i = p)) as [->|].
  - rewrite list_lookup_alter_eq in Hx. destruct (procs pt !! p) as [x|] eqn:E; [|done].
    simplify_eq/=. exists x. split_and!; [done|naive_solver|]. destruct (Hp x); [done|congruence].
  - rewrite list_lookup_alter_ne in Hx by done. eauto.
Qed.

(** ** A system of processes *)

(** The steps of the kernel that change the process table. *)
Inductive pstep : kst -> kst -> Prop :=
| ps_alloc s free r s' :
    alloc_inv (k_mm s) free -> L_ptable ∉ held (get_cpu s) ->
    allocproc s = Ok r s' -> pstep s s'
| ps_kill s k r s' :
    cpu_wf (get_cpu s) -> L_ptable ∉ held (get_cpu s) ->
    length (procs (k_pt s)) = Z.to_nat NPROC -> kill k s = Ok r s' -> pstep s s'
| ps_wakeup s ch s' : wakeup1 ch s = Ok tt s' -> pstep s s'
| ps_reap s p i r s' : wait_reap p i s = Ok r s' -> pstep s s'
| ps_run s i k :
    holds_only L_ptable s -> ready s -> sched_one i s = Sched (run_state i s) k ->
    pstep s (run_state i s)
| ps_sleep s p ch lk s1 k :
    holds_only lk s -> curproc (k_pt s) = Some p -> state (pr_at p s) = RUNNING ->
    sleep ch lk s = Sched s1 k -> pstep s s1.

Lemma lift_inv {A} (m : M mm A) s a s' : lift_mm m s = Ok a s' -> k_pt s' = k_pt s.
Proof. unfold lift_mm. destruct (m (k_mm s)); naive_solver. Qed.

Lemma release_inv l s s' : release l s = Ok tt s' -> k_pt s' = k_pt s.
Proof.
  unfold release, holding, popcli, pushcli, bind, modify, gets, ret. cbn [bindr].
  repeat (case_match; cbn [bindr]; try discriminate); intros; by simplify_eq/=.
Qed.

Lemma pids_ok_next pt : nextpid pt < INT_MAX -> pids_ok pt -> pids_ok (upd_nextpid (fun n => n + 1) pt).
Proof. intros Hmax Hok. eapply pids_ok_keep; [done|simpl; lia|eauto]. Qed.

(** With no pid left, [allocproc] returns only if no slot is unused. *)
Lemma alloc_full_pids s free r s' :
  alloc_inv (k_mm s) free -> L_ptable ∉ held (get_cpu s) -> ~ nextpid (k_pt s) < INT_MAX ->
  allocproc s = Ok r s' -> pids_ok (k_pt s) -> pids_ok (k_pt s').
Proof.
  intros Hai Hl Hmax E Hok. pose proof (ai_wf _ _ Hai) as Hwf.
  destruct (list_find (fun x => state x = UNUSED) (procs (k_pt s))) as [[i x]|] eqn:Hf.
  - destruct Hok as [Hn _]. by destruct (allocproc_overflow s i x r s' Hwf Hl ltac:(lia) Hf).
  - rewrite (allocproc_none s Hwf Hl Hf) in E. by injection E as _ <-.
Qed.

Lemma alloc_pids s free r s' :
  alloc_inv (k_mm s) free -> L_ptable ∉ held (get_cpu s) -> allocproc s = Ok r s' ->
  pids_ok (k_pt s) -> pids_ok (k_pt s').
Proof.
  intros Hai Hl E Hok.
  destruct (decide (nextpid (k_pt s) < INT_MAX)) as [Hmax|Hmax]; [|by eapply alloc_full_pids].
  pose proof (allocproc_cases s free Hai Hl Hmax) as Hcase.
  destruct (list_find _ _) as [[i x]|] eqn:Hf; cbn beta in Hcase;
    [|rewrite E in Hcase; injection Hcase as -> ->; exact Hok].
  apply list_find_Some in Hf as (Hx & Hu & _).
  destruct free as [|a rest]; destruct Hcase as (s1 & E1 & _ & Hpt & _);
    rewrite E in E1; injection E1 as -> ->.
  - rewrite Hpt. apply pids_ok_next; [done|]. apply pids_ok_alter; [done|intros; by right|done].
  - rewrite Hpt. destruct Hok as (Hn & Hr & Hd). unfold pids_ok. simpl in *. split; [lia|split].
    + intros j y Hy Hs. destruct (decide (j = i)) as [->|].
      * rewrite list_lookup_alter_eq, Hx in Hy. simplify_eq/=. lia.
      * rewrite list_lookup_alter_ne in Hy by done. specialize (Hr j y Hy Hs). lia.
    + intros j k y z Hy Hz Hsy Hsz Ep.
      destruct (decide (j = i)) as [->|], (decide (k = i)) as [->|]; [done|..];
        rewrite ?list_lookup_alter_ne in Hy by done; rewrite ?list_lookup_alter_ne in Hz by done;
        rewrite ?list_lookup_alter_eq, ?Hx in Hy; rewrite ?list_lookup_alter_eq, ?Hx in Hz.
      * simplify_eq/=. specialize (Hr k z Hz Hsz). lia.
      * simplify_eq/=. specialize (Hr j y Hy Hsy). lia.
      * by apply (Hd j k y z).
Qed.

Lemma reap_pids s p i r s' :
  wait_reap p i s = Ok r s' -> pids_ok (k_pt s) -> pids_ok (k_pt s').
Proof.
  unfold wait_reap. intros (x & s0 & E0 & E)%bind_ok_inv Hok. injection E0 as <- <-.
  case_match; [|by injection E as <- <-].
  apply bind_ok_inv in E as (? & s1 & E1%lift_inv & E).
  apply bind_ok_inv in E as (? & s2 & [= <- <-] & E).
  apply bind_ok_inv in E as (? & s3 & E3%lift_inv & E).
  apply bind_ok_inv in E as (? & s4 & [= <- <-] & E).
  apply bind_ok_inv in E as ([] & s5 & E5%release_inv & [= <- <-]).
  rewrite E5. apply pids_ok_alter; [|intros; by right|done]. rewrite E3.
  apply pids_ok_alter; [by rewrite E1|intros; by left|done].
Qed.

Lemma pstep_pids s s' : pstep s s' -> pids_ok (k_pt s) -> pids_ok (k_pt s').
Proof.
  destruct 1 as [s free r s' Hai Hl E|s k r s' Hwf Hl Hlen E|s ch s' E|s p i r s' E|s i k Hh Hr E
                |s p ch lk s1 k Hh Hp Hst E].
  - by eapply alloc_pids.
  - rewrite kill_run in E by done. intros Hok. destruct (list_find _ _) as [[i x]|]; simplify_eq; [|done].
    apply (pids_ok_alter (k_pt (touch s))); [done|intros y; left|intros y _ Hy]; unfold kill_proc;
      destruct (bool_decide_reflect (state y = SLEEPING)); simpl; congruence.
  - injection E as <-. intros Hok. eapply pids_ok_keep; [done|destruct Hok; simpl; lia|]. simpl. intros i x' Hx Hs.
    rewrite list_lookup_fmap in Hx. destruct (procs (k_pt s) !! i) as [x|] eqn:Ex; [|done].
    simplify_eq/=. exists x. unfold wake in *.
    destruct (bool_decide_reflect (state x = SLEEPING)), (bool_decide (pchan x = ch)); simpl in *;
      split_and!; congruence.
  - by eapply reap_pids.
  - destruct (decide (state (pr_at i s) = RUNNABLE)) as [Hst|Hst];
      [|by rewrite sched_one_skips in E].
    intros Hok. apply (pids_ok_alter (upd_curproc (fun _ => Some i) (k_pt s))); [done|by left|].
    intros x Hx Hu. unfold pr_at in Hst. rewrite (list_lookup_total_correct _ _ _ Hx) in Hst. congruence.
  - assert (Hlt : (p < length (procs (k_pt s)))%nat).
    { destruct (decide (p < length (procs (k_pt s)))%nat); [done|]. unfold pr_at in Hst.
      rewrite list_lookup_total_alt, lookup_ge_None_2 in Hst by lia. done. }
    destruct (sleep_run s p ch lk Hh Hp Hlt) as (s2 & k2 & E2 & _ & Hpt & _).
    rewrite E in E2. injection E2 as -> ->. intros Hok. rewrite Hpt.
    apply pids_ok_alter; [done|by left|]. intros x Hx Hu. unfold pr_at in Hst.
    rewrite (list_lookup_total_correct _ _ _ Hx) in Hst. congruence.
Qed.

(** C22. Process ids are unique: in every state reached by creating, killing,
    waking, putting to sleep, scheduling and reaping processes, two live
    processes have different pids, all positive [int]s and older than the
    next.  The creation that would make [nextpid] overflow is undefined, so it
    reaches no state. *)
Theorem pids_unique (s s' : kst) :
  rtc pstep s s' -> pids_ok (k_pt s) -> pids_ok (k_pt s').
Proof. induction 1 as [|a b c Hab _ IH]; [done|]. intros Hok. eapply IH, pstep_pids; done. Qed.
End Proc.

(** ** Concrete processes *)

Definition demo_run : kst := demo_k 10 [0] demo_proc.

Lemma demo_run_alloc : alloc_inv (k_mm demo_run) (pages_from demo_base 10).
Proof. apply (demo_user_ctx 10 [0] ltac:(lia) ltac:(simpl; lia) demo_proc eq_refl). Qed.

(** The process inside a critical section of [tickslock]. *)
Definition demo_locked : kst := set_cpu (acquired L_tick (get_cpu demo_run)) demo_run.

Lemma sleep_exact_witness :
  exists s1 k, sleep Ch_ticks L_tick demo_locked = Sched s1 k /\ holds_only L_ptable s1 /\
    k_pt s1 = upd_procs (alter (asleep Ch_ticks) 0%nat) (k_pt demo_locked).
Proof.
  destruct (sleep_exact demo_locked 0 Ch_ticks L_tick) as (s1 & k & E & Hh & Hpt & _ & _ & Hwk & _).
  - by split.
  - reflexivity.
  - simpl. lia.
  - exists s1, k. split_and!; [exact E|exact Hh|exact Hpt].
Defined.

(** Every process that is run sleeps; nobody else does anything. *)
Definition sleepers (s : kst) : kst :=
  match curproc (k_pt s) with
  | Some i => upd_pr i (fun x => if bool_decide (state x = RUNNING) then upd_state (fun _ => SLEEPING) x else x) s
  | None => s
  end.

Lemma sleepers_state s j : state (pr_at j (sleepers s)) = RUNNABLE <-> state (pr_at j s) = RUNNABLE.
Proof.
  unfold sleepers. destruct (curproc (k_pt s)) as [i|]; [|done]. unfold pr_at. simpl.
  rewrite !list_lookup_total_alt. destruct (decide (i = j)) as [->|]; [|by rewrite list_lookup_alter_ne].
  rewrite list_lookup_alter_eq. destruct (procs (k_pt s) !! j) as [x|]; simpl; [|done].
  case_bool_decide as E; [|done]. by rewrite E.
Qed.

Lemma sleepers_good : good_env sleepers.
Proof.
  intros s i Hi Hh Hr. split; [unfold sleepers; rewrite Hi; by destruct Hh|].
  intros j Hst. apply (sleepers_state s) in Hst. specialize (Hr j Hst). unfold sleepers. rewrite Hi.
  unfold pr_at in *. simpl. rewrite !list_lookup_total_alt in *.
  destruct (decide (i = j)) as [->|]; [|by rewrite list_lookup_alter_ne]. rewrite list_lookup_alter_eq.
  destruct (procs (k_pt s) !! j) as [x|]; simpl in *; [|done]. by case_bool_decide.
Qed.

Lemma sleepers_take_none i tr : ~ Exists (taken sleepers i) tr.
Proof. rewrite Exists_exists. intros (s & _ & H1 & H2). by apply H2, sleepers_state. Qed.

Definition demo_ready : kst := demo_k 10 [0] (upd_state (fun _ => RUNNABLE) demo_proc).

Lemma demo_ready_others i : pr_at (S i) demo_ready = proc0.
Proof.
  unfold pr_at. change (procs (k_pt demo_ready) !!! S i) with (replicate 63 proc0 !!! i).
  destruct (decide (i < 63)%nat); [by apply lookup_total_replicate_2|].
  rewrite list_lookup_total_alt, lookup_ge_None_2 by (rewrite length_replicate; lia). done.
Qed.

Lemma scheduler_round_fair_witness :
  exists tr s', drive sleepers (scheduler_round demo_ready) = Some (tr, s') /\
    Exists (switched_to 0) tr.
Proof.
  destruct (scheduler_round_fair sleepers demo_ready) as (tr & s' & E & _ & Hrun).
  - exact sleepers_good.
  - intros [|i]; [by split|]. rewrite demo_ready_others. discriminate.
  - reflexivity.
  - reflexivity.
  - exists tr, s'. split; [exact E|]. destruct (Hrun 0%nat) as [Hsw|Ht]; [unfold NPROC; lia|reflexivity|exact Hsw|].
    destruct (sleepers_take_none 0 tr Ht).
Defined.

Lemma allocproc_exact_witness :
  exists s', allocproc demo_run = Ok (Some 1%nat) s' /\
    pid (pr_at 1 s') = 4 /\ state (pr_at 1 s') = EMBRYO /\ kstack (pr_at 1 s') = demo_base.
Proof.
  destruct (allocproc_exact demo_run (pages_from demo_base 10)) as (s' & E & _ & Hpt & _).
  - exact demo_run_alloc.
  - apply not_elem_of_nil.
  - reflexivity.
  - exists s'. split; [exact E|]. unfold pr_at. rewrite Hpt. by repeat split.
Defined.

Lemma kill_exact_witness :
  kill 3 demo_run = Ok 0 (upd_pr 0 kill_proc (touch demo_run)) /\
  kill 9 demo_run = Ok (-1) (touch demo_run).
Proof.
  assert (Hwf : cpu_wf (get_cpu demo_run)) by exact (ai_wf _ _ demo_run_alloc).
  assert (Hl : L_ptable ∉ held (get_cpu demo_run)) by (apply not_elem_of_nil).
  split.
  - exact (kill_exact demo_run 3 Hwf Hl eq_refl).
  - exact (kill_exact demo_run 9 Hwf Hl eq_refl).
Defined.

Lemma pids_unique_witness :
  exists s', allocproc demo_run = Ok (Some 1%nat) s' /\ pids_ok (k_pt s').
Proof.
  destruct (allocproc_cases demo_run _ demo_run_alloc (not_elem_of_nil _) eq_refl) as (s' & E & _).
  exists s'. split; [exact E|]. apply (pids_unique demo_run s').
  - eapply rtc_once, ps_alloc; [exact demo_run_alloc|apply not_elem_of_nil|exact E].
  - assert (Hu : forall i x, procs (k_pt demo_run) !! S i = Some x -> x = proc0).
    { intros i x Hx. change (replicate 63 proc0 !! i = Some x) in Hx.
      by apply lookup_replicate_1 in Hx as [? _]. }
    split_and!; [reflexivity|discriminate|..].
    + intros [|i] x Hx Hs; [injection Hx as <-; by split|]. apply Hu in Hx as ->. done.
    + intros [|i] [|j] x y Hx Hy Hsx Hsy _; [done|..]; exfalso.
      * apply Hu in Hy as ->. done.
      * apply Hu in Hx as ->. done.
      * apply Hu in Hx as ->. done.
Defined.
