(* ===== verification/PipeProps.v ===== *)
(** * Pipes: properties

    The ring buffer with its wrapping counters is a bounded first-in
    first-out queue ([contents]); [pipewrite] and [piperead] are the queue's
    blocking operations on user buffers. *)

From Stdlib Require Import FunctionalExtensionality.
From S2P Require Import Prelude Machine StringC Spinlock Kalloc Vm VmWalk VmMap VmUser VmKern.
From S2P Require Import VmAlloc VmCopy Demo Kernel Sleep Bio Log Inode Console Fs Pipe File Proc.
From S2P Require Import Exec Sysfile KernelWp DemoK Mmap Trap MmapWp ProcProps.

(** ** The ring as a queue *)

(** How many bytes are in the pipe, counted around the 32-bit wrap. *)
Definition fill (x : pipe) : Z := u32 (nwrite x - nread x).

Definition ring_at (x : pipe) (k : nat) : Z :=
  pdata x !!! Z.to_nat ((nread x + Z.of_nat k) mod PIPESIZE).

Definition contents (x : pipe) : list Z := ring_at x <$> seq 0 (Z.to_nat (fill x)).

Record pipe_ok (x : pipe) : Prop := {
  po_len : length (pdata x) = Z.to_nat PIPESIZE;
  po_read : 0 <= nread x < 4294967296;
  po_write : 0 <= nwrite x < 4294967296;
  po_fill : fill x <= PIPESIZE }.

Lemma fill_range x : 0 <= fill x < 4294967296.
Proof. apply u32_range. Qed.

Lemma contents_length x : Z.of_nat (length (contents x)) = fill x.
Proof. unfold contents. rewrite length_fmap, length_seq. pose proof (fill_range x). lia. Qed.

(** [512] divides [2^32]: indices survive the wrap of the counters. *)
Lemma u32_mod_pipe a : u32 a mod PIPESIZE = a mod PIPESIZE.
Proof. unfold u32, PIPESIZE. zlia. Qed.

(** The tests of the code for a full and for an empty pipe. *)
Lemma full_test x : pipe_ok x -> (nwrite x =? u32 (nread x + PIPESIZE)) = (fill x =? PIPESIZE).
Proof.
  intros [_ Hr Hw Hf]. unfold fill, u32, PIPESIZE in *.
  destruct (Z.eqb_spec (nwrite x) ((nread x + 512) mod 4294967296)),
    (Z.eqb_spec ((nwrite x - nread x) mod 4294967296) 512); try done; zlia.
Qed.

Lemma empty_test x : pipe_ok x -> (nread x =? nwrite x) = (fill x =? 0).
Proof.
  intros [_ Hr Hw Hf]. unfold fill, u32, PIPESIZE in *.
  destruct (Z.eqb_spec (nread x) (nwrite x)),
    (Z.eqb_spec ((nwrite x - nread x) mod 4294967296) 0); try done; zlia.
Qed.

Definition pipe_take (x : pipe) : pipe := upd_nread (fun r => u32 (r + 1)) x.

Lemma fill_put b x : pipe_ok x -> fill x < PIPESIZE -> fill (pipe_put b x) = fill x + 1.
Proof.
  intros [_ Hr Hw _] Hf. unfold fill, pipe_put, u32, PIPESIZE in *. simpl. zlia.
Qed.

Lemma fill_take x : pipe_ok x -> 0 < fill x -> fill (pipe_take x) = fill x - 1.
Proof. intros [_ Hr Hw Hf] H0. unfold fill, pipe_take, u32, PIPESIZE in *. simpl. zlia. Qed.

Lemma put_ok b x : pipe_ok x -> fill x < PIPESIZE -> pipe_ok (pipe_put b x).
Proof.
  intros Hok Hf. pose proof (fill_put b x Hok Hf). pose proof Hok as [Hl Hr Hw _]. split.
  - simpl. by rewrite length_insert.
  - done.
  - apply u32_range.
  - lia.
Qed.

Lemma take_ok x : pipe_ok x -> 0 < fill x -> pipe_ok (pipe_take x).
Proof.
  intros Hok Hf. pose proof (fill_take x Hok Hf). pose proof Hok as [Hl Hr Hw ?]. split.
  - done.
  - apply u32_range.
  - done.
  - lia.
Qed.

(** Indices of bytes in the pipe differ from the index written next. *)
Lemma ring_index x k :
  pipe_ok x -> fill x < PIPESIZE -> 0 <= Z.of_nat k < fill x ->
  (nread x + Z.of_nat k) mod PIPESIZE <> nwrite x mod PIPESIZE.
Proof. intros [_ Hr Hw _] Hf Hk. unfold fill, u32, PIPESIZE in *. zlia. Qed.

Lemma ring_next x :
  pipe_ok x -> (nread x + fill x) mod PIPESIZE = nwrite x mod PIPESIZE.
Proof. intros [_ Hr Hw Hf]. unfold fill, u32, PIPESIZE in *. zlia. Qed.

Lemma contents_put b x :
  pipe_ok x -> fill x < PIPESIZE -> contents (pipe_put b x) = contents x ++ [b].
Proof.
  intros Hok Hf. unfold contents. rewrite fill_put by done. pose proof (fill_range x).
  rewrite Z2Nat.inj_add by lia. rewrite Nat.add_1_r, seq_S, fmap_app. f_equal.
  - apply list_fmap_ext. intros i k Hk. apply lookup_seq in Hk as [-> Hk].
    unfold ring_at. simpl. apply list_lookup_total_insert_ne.
    pose proof (ring_index x i Hok Hf ltac:(lia)).
    pose proof (Z.mod_pos_bound (nread x + Z.of_nat i) PIPESIZE eq_refl).
    pose proof (Z.mod_pos_bound (nwrite x) PIPESIZE eq_refl). lia.
  - simpl. f_equal. unfold ring_at. simpl. rewrite Z2Nat.id, ring_next by (done || lia).
    apply list_lookup_total_insert_eq. rewrite (po_len _ Hok).
    pose proof (Z.mod_pos_bound (nwrite x) PIPESIZE eq_refl). lia.
Qed.

Lemma contents_take x :
  pipe_ok x -> 0 < fill x -> contents x = pipe_get x :: contents (pipe_take x).
Proof.
  intros Hok Hf. unfold contents. rewrite fill_take by done. pose proof (fill_range x).
  replace (Z.to_nat (fill x)) with (S (Z.to_nat (fill x - 1))) by lia. cbn [seq fmap list_fmap].
  f_equal.
  - unfold ring_at, pipe_get. by rewrite Z.add_0_r.
  - rewrite <- fmap_S_seq, <- list_fmap_compose. apply list_fmap_ext. intros i k _. simpl.
    unfold ring_at, pipe_take. simpl. do 2 f_equal.
    rewrite <- (Zplus_mod_idemp_l (u32 _)), u32_mod_pipe, Zplus_mod_idemp_l. f_equal. lia.
Qed.

(** A pipe whose counters are about to wrap. *)
Definition demo_pipe : pipe := Pipe (replicate 512 0) 4294967295 4294967295 true true.

Lemma demo_pipe_ok : pipe_ok demo_pipe.
Proof. split; vm_compute; try done; split; congruence. Qed.

(** ** Reading and writing user memory *)

Section Pipes.
Context `{KernelImage} `{Waits}.

(** The memory and the page table are the same. *)
Definition same_user (s s' : kst) : Prop :=
  mem (k_mm s') = mem (k_mm s) /\ c_cr3 (get_cpu s') = c_cr3 (get_cpu s).

Lemma same_user_refl s : same_user s s.
Proof. done. Qed.

Lemma vread_same n : forall va s s' bs,
  same_user s s' -> vread va n s = Ok bs s -> vread va n s' = Ok bs s'.
Proof.
  induction n as [|n IH]; intros va s s' bs [Em Ec]; [by intros [= <-]|]. cbn [vread].
  intros (b & s1 & E1 & (bs' & s2 & E2 & [= <- ->])%bind_ok_inv)%bind_ok_inv.
  assert (s1 = s /\ vload8 va s' = Ok b s') as [-> E].
  { unfold vload8 in *. apply bind_ok_inv in E1 as (? & ? & [= <- <-] & E1).
    erewrite bind_ok by (unfold get; reflexivity). cbn zeta in *. rewrite Em, Ec.
    destruct (KERNBASE <=? va); [by injection E1 as <- <-|].
    destruct (translate _ _ _ _); [by injection E1 as <- <-|done]. }
  erewrite bind_ok by exact E. erewrite bind_ok by (eapply IH; [split|]; done). done.
Qed.

(** The state with the pipe [p] replaced. *)
Definition put_pipe (p : Z) (x : pipe) (s : kst) : kst := upd_k_fs (upd_pipes (<[p := x]>)) s.

Lemma get_pipe_run p x s : pipes (k_fs s) !! p = Some x -> get_pipe p s = Ok x s.
Proof. intros E. unfold get_pipe. erewrite bind_ok by (unfold get; reflexivity). by rewrite E. Qed.

Lemma upd_pipe_run p f x s :
  pipes (k_fs s) !! p = Some x -> upd_pipe p f s = Ok tt (put_pipe p (f x) s).
Proof.
  intros E. unfold upd_pipe, put_pipe, modify. f_equal. unfold upd_k_fs, upd_pipes. f_equal. f_equal.
  apply map_eq. intros q. destruct (decide (q = p)) as [->|].
  - by rewrite lookup_alter_eq, E, lookup_insert_eq.
  - by rewrite lookup_alter_ne, lookup_insert_ne.
Qed.

Lemma put_pipe_get p x s : pipes (k_fs (put_pipe p x s)) !! p = Some x.
Proof. simpl. apply lookup_insert_eq. Qed.

Lemma put_pipe_put p x y s : put_pipe p x (put_pipe p y s) = put_pipe p x s.
Proof. unfold put_pipe, upd_k_fs, upd_pipes. simpl. by rewrite insert_insert_eq. Qed.

Lemma put_pipe_id p x s : pipes (k_fs s) !! p = Some x -> put_pipe p x s = s.
Proof.
  intros E. unfold put_pipe, upd_k_fs, upd_pipes. destruct s as [? ? [] ?]. simpl in *.
  by rewrite insert_id.
Qed.

Lemma pipe_room_run p x s :
  (0 < waits)%nat -> pipes (k_fs s) !! p = Some x -> pipe_ok x -> fill x < PIPESIZE ->
  pipe_room p s = Ok true s.
Proof.
  intros Hw Hx Hok Hf. unfold pipe_room, room_body. destruct waits as [|w]; [lia|]. cbn [loop].
  erewrite bind_ok; [|erewrite bind_ok by (by apply get_pipe_run); rewrite full_test by done;
    destruct (Z.eqb_spec (fill x) PIPESIZE); [lia|reflexivity]]. done.
Qed.

(** The loop of [pipewrite] on a pipe with room for all the bytes. *)
Lemma pipewrite_loop_run p src f n : (0 < waits)%nat -> forall i s x,
  pipes (k_fs s) !! p = Some x -> pipe_ok x -> fill x + Z.of_nat n <= PIPESIZE ->
  (forall j s', same_user s s' -> i <= j < i + Z.of_nat n -> src j 1%nat s' = Ok [f j] s') ->
  exists x', pipewrite_loop p src i n s = Ok true (put_pipe p x' s) /\ pipe_ok x' /\
    contents x' = contents x ++ ((fun j => f (i + Z.of_nat j)) <$> seq 0 n) /\
    readopen x' = readopen x /\ writeopen x' = writeopen x.
Proof.
  intros Hw. induction n as [|n IH]; intros i s x Hx Hok Hf Hsrc.
  - exists x. cbn [pipewrite_loop seq fmap list_fmap]. rewrite app_nil_r. split_and!; try done.
    unfold ret. by rewrite put_pipe_id.
  - cbn [pipewrite_loop]. erewrite bind_ok by (apply (pipe_room_run p x); done || lia). cbn [negb].
    erewrite bind_ok by (apply Hsrc; [apply same_user_refl|lia]).
    erewrite bind_ok by (by apply (upd_pipe_run p _ x)). cbn [lookup_total list_lookup_total].
    destruct (IH (i + 1) (put_pipe p (pipe_put (f i) x) s) (pipe_put (f i) x))
      as (x' & E & Hok' & Hc & Hr & Hwo).
    + apply put_pipe_get.
    + apply put_ok; [done|lia].
    + rewrite fill_put by (done || lia). lia.
    + intros j s' [Em Ec] Hj. apply Hsrc; [by split|lia].
    + exists x'. rewrite E, put_pipe_put. split_and!; try done.
      rewrite Hc, contents_put by (done || lia). rewrite <- app_assoc. f_equal.
      cbn [seq fmap list_fmap app]. f_equal; [f_equal; lia|].
      rewrite <- fmap_S_seq, <- list_fmap_compose. apply list_fmap_ext. intros j k _. simpl.
      f_equal. lia.
Qed.

(** Leaving the critical section of a pipe after waking the other end. *)
Lemma pipe_finish {A} p ch s s1 (r : A) :
  cpu_wf (get_cpu s) -> held (get_cpu s) = [] ->
  get_cpu s1 = acquired (L_pipe p) (get_cpu s) ->
  (wakeup ch ;; release (L_pipe p) ;; ret r) s1 =
  Ok r (woken ch (set_cpu (refresh (get_cpu s)) s1)).
Proof.
  intros Hwf Hl Hc. assert (Hne : L_pipe p ∉ held (get_cpu s)) by (rewrite Hl; set_solver).
  assert (Hn : ncli (get_cpu s1) <> 0).
  { rewrite Hc. unfold acquired, set_held, push_cpu. cbn [ncli]. destruct Hwf. lia. }
  erewrite bind_ok.
  2:{ apply wakeup_run; rewrite Hc; [by apply acquired_wf|].
      unfold acquired, set_held, push_cpu. cbn [held]. rewrite Hl. set_solver. }
  rewrite touch_id by done. erewrite bind_ok by (by apply (unlock_run _ s)). done.
Qed.

(** A write of [n] bytes to a pipe with room for them returns [n]; the
    bytes of the user's buffer are appended to the queue, sleeping readers
    become runnable, and nothing else changes. *)
Theorem pipewrite_exact (s : kst) (q : nat) (free : list Z) (p va n : Z) (x : pipe) :
  (0 < waits)%nat -> user_ctx s q free -> held (get_cpu s) = [] ->
  pipes (k_fs s) !! p = Some x -> pipe_ok x -> 0 <= n -> fill x + n <= PIPESIZE ->
  0 <= va -> va + n <= KERNBASE ->
  (forall a, va <= a < va + n -> mapped (mem (k_mm s)) (pgdir (pr_at q s)) a = true) ->
  exists x', pipewrite p (from_user va) n s = Ok n (woken (Ch_nread p) (put_pipe p x' (touch s))) /\
    pipe_ok x' /\ readopen x' = readopen x /\ writeopen x' = writeopen x /\
    contents x' = contents x ++
      ((fun j => uload (mem (k_mm s)) (pgdir (pr_at q s)) (va + Z.of_nat j)) <$> seq 0 (Z.to_nat n)).
Proof.
  intros Hw Hc Hl Hx Hok Hn Hf Hva Hend Hm. pose proof (ctx_wf _ _ _ Hc) as Hwf.
  unfold pipewrite. erewrite bind_ok by (apply acquire_run; [done|rewrite Hl; set_solver]).
  set (s1 := set_cpu _ s).
  destruct (pipewrite_loop_run p (from_user va)
    (fun j => uload (mem (k_mm s)) (pgdir (pr_at q s)) (va + j)) (Z.to_nat n) Hw 0 s1 x)
    as (x' & E & Hok' & Hcont & Hr & Hwo); [done|done|lia| |].
  { intros j s' [Em Ec] Hj. unfold from_user. apply (vread_same 1 _ s); [done|].
    rewrite u32_small by lia. rewrite (vread_run s q free Hc) by (lia || (intros; apply Hm; lia)).
    cbn [seq fmap list_fmap]. by rewrite Z.add_0_r. }
  exists x'. split_and!; try done. erewrite bind_ok by exact E. cbn [negb].
  by rewrite (pipe_finish p _ s) by done.
Qed.

(** User pages the kernel may write. *)
Definition user_writable (m : gmap Z Z) (dir a : Z) : Prop :=
  mapped m dir a = true /\ bit_set (pte_at m dir a) PTE_W = true.

(** A byte stored through the page table. *)
Lemma vstore8_run s dir free va b :
  alloc_inv (k_mm s) free -> as_inv (mem (k_mm s)) dir free ->
  c_cr3 (get_cpu s) = V2P dir -> 0 <= va < KERNBASE -> user_writable (mem (k_mm s)) dir va ->
  exists m', vstore8 va b s = Ok tt (upd_k_mm (fun _ => m') s) /\
    uwrite dir va [b] free (k_mm s) m'.
Proof.
  intros Hai Has Hcr Hva [Hm Hwr]. unfold vstore8.
  erewrite bind_ok by (unfold get; reflexivity). cbn zeta.
  destruct (Z.leb_spec KERNBASE va); [lia|]. unfold translate. rewrite Hcr, page_ok_P2V_V2P
    by exact (pt_dir _ _ _ (as_pt _ _ _ Has)).
  unfold mapped in Hm. rewrite Hm, Hwr. cbn [andb negb orb].
  eexists. split; [reflexivity|].
  apply (uwrite_chunk dir va [b]); try done. simpl. zlia.
Qed.

Lemma piperead_loop_run p va dir free n : forall i s x,
  pipes (k_fs s) !! p = Some x -> pipe_ok x ->
  alloc_inv (k_mm s) free -> as_inv (mem (k_mm s)) dir free -> c_cr3 (get_cpu s) = V2P dir ->
  0 <= va -> 0 <= i ->
  let k := Nat.min n (length (contents x)) in
  va + i + Z.of_nat k <= KERNBASE ->
  (forall a, va + i <= a < va + i + Z.of_nat k -> user_writable (mem (k_mm s)) dir a) ->
  exists x' m', piperead_loop p (to_user va) i n s =
      Ok (i + Z.of_nat k) (put_pipe p x' (upd_k_mm (fun _ => m') s)) /\
    pipe_ok x' /\ contents x' = drop k (contents x) /\
    readopen x' = readopen x /\ writeopen x' = writeopen x /\
    uwrite dir (va + i) (take k (contents x)) free (k_mm s) m'.
Proof.
  induction n as [|n IH]; intros i s x Hx Hok Hai Has Hcr Hva Hi k Hend Hwr.
  { exists x, (k_mm s). unfold k. cbn [Nat.min piperead_loop]. rewrite Z.add_0_r. split_and!; try done.
    - rewrite put_pipe_id by done. by destruct s.
    - rewrite take_0. by apply uwrite_nil. }
  subst k. cbn [piperead_loop]. erewrite bind_ok by (by apply get_pipe_run). rewrite empty_test by done.
  pose proof (fill_range x). pose proof (contents_length x) as Hlen.
  destruct (Z.eqb_spec (fill x) 0) as [E|E].
  { assert (Nat.min (S n) (length (contents x)) = 0%nat) as -> by lia. rewrite Z.add_0_r, drop_0, take_0.
    exists x, (k_mm s). split_and!; try done; [|by apply uwrite_nil].
    rewrite put_pipe_id by done. by destruct s. }
  erewrite bind_ok by (by apply (upd_pipe_run p _ x)). fold (pipe_take x).
  unfold to_user at 1. rewrite (u32_small (va + i)) by lia.
  assert (Hsplit := contents_take x Hok ltac:(lia)). rewrite Hsplit in *. cbn [length] in *.
  destruct (vstore8_run (put_pipe p (pipe_take x) s) dir free (va + i) (pipe_get x))
    as (m1 & E1 & Hu1); [done|done|done|lia|apply Hwr; lia|].
  cbn [vwrite]. erewrite bind_ok by (erewrite bind_ok by exact E1; unfold ret; reflexivity).
  set (s1 := upd_k_mm _ _).
  destruct (IH (i + 1) s1 (pipe_take x)) as (x' & m2 & E2 & Hok' & Hc' & Hr & Hwo & Hu2).
  - apply put_pipe_get.
  - apply take_ok; [done|lia].
  - apply Hu1.
  - apply Hu1.
  - rewrite <- Hcr. change (get_cpu s1) with (mm_cpu m1). by rewrite (uw_mem _ _ _ _ _ _ Hu1).
  - done.
  - lia.
  - lia.
  - intros a Ha. unfold user_writable, mapped. change (mem (k_mm s1)) with (mem m1).
    rewrite (uw_pte _ _ _ _ _ _ Hu1). apply Hwr. lia.
  - exists x', m2. rewrite E2. cbn [Nat.min drop take]. split_and!; try done.
    + f_equal; [lia|]. unfold put_pipe, upd_k_fs, upd_pipes. simpl. by rewrite insert_insert_eq.
    + change (pipe_get x :: take ?a ?l) with ([pipe_get x] ++ take a l).
      eapply uwrite_app; [exact Hu1|]. simpl. by rewrite <- Z.add_assoc.
Qed.

Lemma uwrite_cpu dir va bs free m m' c :
  cpu_wf c -> L_kmem ∉ held c -> uwrite dir va bs free m m' ->
  uwrite dir va bs free (set_cpu c m) (set_cpu c m').
Proof.
  intros Hwf Hl [Hm Hp [_ _ Hf Hn] Has Hd Ho]. split; try done.
  by rewrite Hm.
Qed.

Lemma pipe_data_run p x s :
  (0 < waits)%nat -> pipes (k_fs s) !! p = Some x -> pipe_ok x ->
  0 < fill x \/ writeopen x = false -> pipe_data p s = Ok true s.
Proof.
  intros Hw Hx Hok Hf. unfold pipe_data, data_body. destruct waits as [|w]; [lia|]. cbn [loop].
  assert ((nread x =? nwrite x) && writeopen x = false) as E.
  { rewrite empty_test by done. destruct (Z.eqb_spec (fill x) 0), (writeopen x); try done.
    destruct Hf; [lia|done]. }
  erewrite bind_ok; [|erewrite bind_ok by (by apply get_pipe_run); rewrite E; reflexivity]. done.
Qed.

(** A read of [n] bytes from a pipe that has data, or whose writers are
    gone, returns the number of bytes taken, [n] or as many as there are:
    these are the oldest bytes, stored in order in the user's buffer; the
    queue keeps the rest, sleeping writers become runnable, and no other
    memory changes. *)
Theorem piperead_exact (s : kst) (q : nat) (free : list Z) (p va n : Z) (x : pipe) :
  let k := Nat.min (Z.to_nat n) (length (contents x)) in
  (0 < waits)%nat -> user_ctx s q free -> held (get_cpu s) = [] ->
  pipes (k_fs s) !! p = Some x -> pipe_ok x -> 0 < fill x \/ writeopen x = false ->
  0 <= va -> va + Z.of_nat k <= KERNBASE ->
  (forall a, va <= a < va + Z.of_nat k ->
     user_writable (mem (k_mm s)) (pgdir (pr_at q s)) a) ->
  exists x' m',
    piperead p (to_user va) n s =
      Ok (Z.of_nat k) (woken (Ch_nwrite p) (put_pipe p x' (upd_k_mm (fun _ => m') s))) /\
    pipe_ok x' /\ contents x' = drop k (contents x) /\
    readopen x' = readopen x /\ writeopen x' = writeopen x /\
    uwrite (pgdir (pr_at q s)) va (take k (contents x)) free (k_mm (touch s)) m'.
Proof.
  intros k Hw Hc Hl Hx Hok Hd Hva Hend Hwr. pose proof (ctx_wf _ _ _ Hc) as Hwf.
  unfold piperead. erewrite bind_ok by (apply acquire_run; [done|rewrite Hl; set_solver]).
  set (s1 := set_cpu _ s). erewrite bind_ok by (by apply (pipe_data_run p x)). cbn [negb].
  destruct (piperead_loop_run p va (pgdir (pr_at q s)) free (Z.to_nat n) 0 s1 x)
    as (x' & m & E & Hok' & Hcont & Hr & Hwo & Hu); try done.
  { destruct (uc_alloc _ _ _ Hc). split; [by apply acquired_wf| |done|done].
    simpl in *. rewrite Hl. set_solver. }
  all: rewrite ?Z.add_0_r in *; try (by destruct Hc).
  exists x', (set_cpu (refresh (get_cpu s)) m). split_and!; try done.
  - erewrite bind_ok by exact E. rewrite (pipe_finish p _ s); [by rewrite Z.add_0_l|done|done|].
    transitivity (mm_cpu m); [done|]. by rewrite (uw_mem _ _ _ _ _ _ Hu).
  - eapply uwrite_cpu in Hu; [exact Hu|by apply touch_wf|]. simpl. unfold get_cpu in Hl. simpl in Hl.
    rewrite Hl. set_solver.
Qed.
End Pipes.

(** ** The two ends, with their waiting

    What a write of the bytes [bs] and a read of [n] bytes do to the queue of
    the pipe, from the call to the return, through every switch: the process
    is described where it gives up the CPU and from every state in which it
    may be resumed, in which other processes have left any queue.  [w] counts
    how often the waiting loop may still go round. *)

Lemma bindr_assoc {S A B C} (r : res S A) (f : A -> S -> res S B) (g : B -> S -> res S C) :
  bindr (bindr r f) g = bindr r (fun a s => bindr (f a s) g).
Proof.
  induction r as [a s| | | |s k IH]; try done. simpl. f_equal.
  apply functional_extensionality. intros s'. apply IH.
Qed.

Section Ends.
Context `{KernelImage} `{Waits}.
Context (p va : Z) (q : nat) (n : Z).

(** Process [q] sleeps on [ch]. *)
Definition sleeps_on (ch : chan) (s : kst) : Prop :=
  holds_only L_ptable s /\ state (pr_at q s) = SLEEPING /\ pchan (pr_at q s) = Some ch.

(** Nobody sleeps on [ch]. *)
Definition nobody_on (ch : chan) (s : kst) : Prop :=
  forall i x, procs (k_pt s) !! i = Some x -> ~ (state x = SLEEPING /\ pchan x = Some ch).

(** The pipe of [s] is [x]. *)
Definition pipe_is (s : kst) (x : pipe) : Prop := pipes (k_fs s) !! p = Some x /\ pipe_ok x.

Definition queue_full (x : pipe) : Prop := Z.of_nat (length (contents x)) = PIPESIZE.

(** The writer's buffer holds the bytes [f]. *)
Record wr_ctx (f : Z -> Z) (s : kst) (x : pipe) (free : list Z) : Prop := {
  wc_user : user_ctx s q free;
  wc_pipe : pipe_is s x;
  wc_buf : forall j, 0 <= j < n -> mapped (mem (k_mm s)) (pgdir (pr_at q s)) (va + j) = true /\
    uload (mem (k_mm s)) (pgdir (pr_at q s)) (va + j) = f j }.

(** A write of [bs] to the queue [c]: all the bytes are appended; or the
    queue is full before they are and the write fails, since nobody can read
    or the writer is killed; or it is full and the writer sleeps, with no
    reader left asleep, and is then a write of the rest. *)
Inductive wr_out (f : Z -> Z) : nat -> list Z -> list Z -> res kst Z -> Prop :=
| W_done w bs c s' x' :
    pipe_is s' x' -> contents x' = c ++ bs -> held (get_cpu s') = [] -> nobody_on (Ch_nread p) s' ->
    wr_out f w bs c (Ok n s')
| W_fail w b1 b2 c s' x' :
    pipe_is s' x' -> contents x' = c ++ b1 -> queue_full x' -> b2 <> [] ->
    readopen x' = false \/ killed (pr_at q s') <> 0 -> held (get_cpu s') = [] ->
    wr_out f w (b1 ++ b2) c (Ok (-1) s')
| W_sleep w w' b1 b2 c s1 k x1 :
    pipe_is s1 x1 -> contents x1 = c ++ b1 -> queue_full x1 -> b2 <> [] -> readopen x1 = true ->
    sleeps_on (Ch_nwrite p) s1 -> nobody_on (Ch_nread p) s1 ->
    match b1 with [] => w | _ => waits end = S w' ->
    (forall s2 x2 free2, holds_only L_ptable s2 -> wr_ctx f s2 x2 free2 ->
       wr_out f w' b2 (contents x2) (k s2)) ->
    wr_out f w (b1 ++ b2) c (Sched s1 k)
| W_often bs c : wr_out f 0 bs c NoFuel.

(** A byte more at the start. *)
Lemma wr_out_cons f w b bs c r :
  wr_out f waits bs (c ++ [b]) r -> (0 < waits)%nat -> wr_out f w (b :: bs) c r.
Proof.
  assert (E : forall l, (c ++ [b]) ++ l = c ++ b :: l) by (intros l; by rewrite <- app_assoc).
  intros Hr Hw. inversion Hr as [? ? ? s' x' H1 H2 ? ?|? b1 b2 ? s' x' H1 H2|? w' b1 b2 ? s1 k x1 H1 H2 H3 H4 H5 H6 H7 H8|];
    subst; rewrite ?E in *.
  - by eapply W_done.
  - by eapply (W_fail _ _ (b :: b1)).
  - eapply (W_sleep _ _ w' (b :: b1)); try done. by destruct b1.
  - lia.
Qed.

(** A process that is in the same place after a change of locks. *)
Lemma user_ctx_moved s s' free l :
  user_ctx s q free -> holds_only l s' -> l <> L_kmem -> same_data s s' ->
  curproc (k_pt s') = curproc (k_pt s) -> length (procs (k_pt s')) = length (procs (k_pt s)) ->
  pgdir (pr_at q s') = pgdir (pr_at q s) -> user_ctx s' q free.
Proof.
  intros [U1 U2 U3 U4 U5] Hh Hl (E1 & E2 & _ & _ & _ & E3) Ec Elen Epg.
  split; rewrite ?Ec, ?Elen, ?Epg, ?E1, ?E3; try done.
  destruct U3 as [_ _ A3 A4]. split; [exact (holds_wf _ _ Hh)| | |done].
  - change (mm_cpu (k_mm s')) with (get_cpu s'). rewrite (ho_held _ _ Hh). set_solver.
  - by rewrite E1, E2.
Qed.

Lemma pr_at_alter g i s' pt :
  k_pt s' = upd_procs (alter g i) pt -> (forall y, pgdir (g y) = pgdir y) ->
  pgdir (pr_at q s') = pgdir (procs pt !!! q) /\ length (procs (k_pt s')) = length (procs pt).
Proof.
  intros E Hg. unfold pr_at. rewrite E. simpl. rewrite length_alter. split; [|done].
  destruct (decide (i = q)) as [->|]; [|by rewrite alter_total_ne].
  rewrite !list_lookup_total_alt, list_lookup_alter_eq. destruct (procs pt !! q); simpl; by rewrite ?Hg.
Qed.

(** Where [sleep] returns, the process is where it was resumed. *)
Lemma resumed_ctx s2 s3 free l :
  user_ctx s2 q free -> holds_only l s3 -> l <> L_kmem -> same_data s2 s3 ->
  k_pt s3 = upd_procs (alter (upd_pchan (fun _ => None)) q) (k_pt s2) ->
  user_ctx s3 q free /\ pgdir (pr_at q s3) = pgdir (pr_at q s2).
Proof.
  intros Hu Hh Hl Hsd Hpt. destruct (pr_at_alter _ _ _ _ Hpt ltac:(done)) as [Epg Elen].
  split; [|done]. eapply user_ctx_moved; try done. by rewrite Hpt.
Qed.

Lemma woken_nobody ch s : nobody_on ch (woken ch s).
Proof.
  intros i y Hy [H1 H2]. simpl in Hy. rewrite list_lookup_fmap in Hy.
  destruct (procs (k_pt s) !! i) as [z|]; [|done]. simplify_eq/=. unfold wake in *.
  destruct (bool_decide_reflect (state z = SLEEPING)); simpl in *; [|congruence].
  destruct (bool_decide_reflect (pchan z = Some ch)); simpl in *; congruence.
Qed.

Lemma woken_pgdir ch i s : pgdir (pr_at i (woken ch s)) = pgdir (pr_at i s).
Proof.
  unfold pr_at. simpl. rewrite !list_lookup_total_alt, list_lookup_fmap.
  destruct (procs (k_pt s) !! i) as [x|]; [|done]. simpl. unfold wake. by destruct (_ && _).
Qed.

(** Going to sleep on [ch] in the critical section of the pipe. *)
Lemma sleep_there ch s free :
  holds_only (L_pipe p) s -> user_ctx s q free ->
  exists s1 k, sleep ch (L_pipe p) s = Sched s1 k /\ sleeps_on ch s1 /\ k_fs s1 = k_fs s /\
    (forall ch', ch' <> ch -> nobody_on ch' s -> nobody_on ch' s1) /\
    forall s2 free2, holds_only L_ptable s2 -> user_ctx s2 q free2 ->
      exists s3, k s2 = Ok tt s3 /\ holds_only (L_pipe p) s3 /\ user_ctx s3 q free2 /\ k_fs s3 = k_fs s2 /\
        mem (k_mm s3) = mem (k_mm s2) /\ pgdir (pr_at q s3) = pgdir (pr_at q s2).
Proof.
  intros Hh Hu. destruct (sleep_run s q ch (L_pipe p) Hh) as (s1 & k & E & Hh1 & Hpt & Hsd & Hres);
    [apply Hu|apply Hu|]. exists s1, k.
  assert (Hat : pr_at q s1 = asleep ch (pr_at q s)).
  { unfold pr_at. rewrite Hpt. simpl. apply alter_total_eq, Hu. }
  split; [done|]. split; [split_and!; [done|by rewrite Hat|by rewrite Hat]|].
  split; [apply Hsd|]. split.
  - intros ch' Hne Hno i y Hy [H1 H2]. rewrite Hpt in Hy. simpl in Hy.
    destruct (decide (i = q)) as [->|]; [|rewrite list_lookup_alter_ne in Hy by done; by eapply Hno].
    rewrite list_lookup_alter_eq in Hy. destruct (procs (k_pt s) !! q); simplify_eq/=.
  - intros s2 free2 Hh2 Hu2. destruct (Hres s2 Hh2) as (s3 & E3 & Hh3 & Hpt3 & Hsd3).
    destruct (resumed_ctx s2 s3 free2 (L_pipe p) Hu2 Hh3 ltac:(done) Hsd3 Hpt3) as [Hu3 Epg].
    exists s3. split_and!; try done; apply Hsd3.
Qed.

Lemma wr_ctx_moved f s s' x free free' :
  wr_ctx f s x free -> user_ctx s' q free' -> k_fs s' = k_fs s -> mem (k_mm s') = mem (k_mm s) ->
  pgdir (pr_at q s') = pgdir (pr_at q s) -> wr_ctx f s' x free'.
Proof.
  intros [_ [H1 H2] H3] Hu E1 E2 E3. split; [done|split; [by rewrite E1|done]|]. by rewrite E2, E3.
Qed.

Lemma queue_full_fill x : queue_full x <-> fill x = PIPESIZE.
Proof. unfold queue_full. by rewrite contents_length. Qed.

(** The waiting of a writer with bytes left. *)
Lemma room_out f (K : bool -> kst -> res kst Z) bs : bs <> [] ->
  (forall w s x free, holds_only (L_pipe p) s -> wr_ctx f s x free -> fill x < PIPESIZE ->
     wr_out f w bs (contents x) (K true s)) ->
  (forall w s x free, holds_only (L_pipe p) s -> wr_ctx f s x free -> queue_full x ->
     readopen x = false \/ killed (pr_at q s) <> 0 -> wr_out f w bs (contents x) (K false s)) ->
  forall w s x free, holds_only (L_pipe p) s -> wr_ctx f s x free ->
  wr_out f w bs (contents x) (bindr (loop w (room_body p) tt s) K).
Proof.
  intros Hbs Hroom Hfail. induction w as [|w IH]; intros s x free Hh Hc; [apply W_often|].
  pose proof Hc as [Hu [Hx Hok] _]. pose proof (holds_wf _ _ Hh) as Hwf. cbn [loop]. unfold bind at 1, room_body at 1.
  rewrite (bind_ok _ _ _ _ _ (get_pipe_run p x s Hx)), full_test by done.
  destruct (Z.eqb_spec (fill x) PIPESIZE) as [E|E]; [|cbn [bindr]; eapply Hroom; try done; pose proof (po_fill _ Hok); lia].
  apply queue_full_fill in E. destruct (readopen x) eqn:Hro; [|eapply Hfail; try done; by left].
  erewrite bind_ok; [|erewrite bind_ok by (apply me_run; [done|apply Hu]); rewrite (holds_touch _ _ Hh); unfold gets; reflexivity].
  destruct (Z.eqb_spec (killed (pr_at q s)) 0) as [Hk|Hk]; cbn [negb]; [|eapply Hfail; try done; by right].
  erewrite bind_ok; [|apply wakeup_run; [done|rewrite (ho_held _ _ Hh); set_solver]]. rewrite (holds_touch _ _ Hh).
  set (s0 := woken (Ch_nread p) s). assert (Hh0 : holds_only (L_pipe p) s0) by (by destruct Hh).
  assert (Hpg : pgdir (pr_at q s0) = pgdir (pr_at q s)) by apply woken_pgdir.
  assert (Hu0 : user_ctx s0 q free).
  { eapply user_ctx_moved; try done. simpl. by rewrite length_fmap. }
  destruct (sleep_there (Ch_nwrite p) s0 free Hh0 Hu0) as (s1 & k & Es & Hsl & Efs & Hno & Hres).
  erewrite bind_sched by exact Es. cbn [bindr].
  eapply (W_sleep f _ w [] bs _ s1 _ x); try done.
  - split; [by rewrite Efs|done].
  - by rewrite app_nil_r.
  - apply Hno; [done|]. apply woken_nobody.
  - intros s2 x2 free2 Hh2 Hc2. pose proof Hc2 as [Hu2 _ _].
    destruct (Hres s2 free2 Hh2 Hu2) as (s3 & E3 & Hh3 & Hu3 & Efs3 & Em3 & Epg3). rewrite E3. cbn [bindr].
    eapply IH; [done|]. by eapply wr_ctx_moved.
Qed.

(** The ends of the two system calls. *)
Lemma leave_run {A} ch s (r : A) :
  holds_only (L_pipe p) s ->
  exists s', (wakeup ch ;; release (L_pipe p) ;; ret r) s = Ok r s' /\ k_fs s' = k_fs s /\
    mem (k_mm s') = mem (k_mm s) /\ held (get_cpu s') = [] /\ nobody_on ch s'.
Proof.
  intros Hh. pose proof (holds_wf _ _ Hh) as Hwf. erewrite bind_ok.
  2:{ apply wakeup_run; [done|]. rewrite (ho_held _ _ Hh). set_solver. }
  rewrite (holds_touch _ _ Hh). erewrite bind_ok.
  2:{ apply release_run; [done|]. change (get_cpu (woken ch s)) with (get_cpu s). rewrite (ho_held _ _ Hh). set_solver. }
  eexists. split; [reflexivity|]. split_and!; [done|done| |].
  - rewrite get_set_cpu. unfold released, pop_cpu, set_held. cbn [held].
    change (get_cpu (woken ch s)) with (get_cpu s). rewrite (ho_held _ _ Hh). by rewrite filter_cons_False by naive_solver.
  - intros i y Hy. by apply (woken_nobody ch s i).
Qed.

Lemma abandon_run s :
  holds_only (L_pipe p) s ->
  exists s', (release (L_pipe p) ;; ret (-1)) s = Ok (-1) s' /\ k_fs s' = k_fs s /\ k_pt s' = k_pt s /\
    held (get_cpu s') = [].
Proof.
  intros Hh. pose proof (holds_wf _ _ Hh) as Hwf. erewrite bind_ok.
  2:{ apply release_run; [done|]. rewrite (ho_held _ _ Hh). set_solver. }
  eexists. split; [reflexivity|]. split_and!; [done|done|].
  rewrite get_set_cpu. unfold released, pop_cpu, set_held. cbn [held]. rewrite (ho_held _ _ Hh).
  by rewrite filter_cons_False by naive_solver.
Qed.

Lemma enter_run s free :
  user_ctx s q free -> held (get_cpu s) = [] -> ncli (get_cpu s) = 0 ->
  exists s', acquire (L_pipe p) s = Ok tt s' /\ holds_only (L_pipe p) s' /\ user_ctx s' q free /\
    k_fs s' = k_fs s /\ mem (k_mm s') = mem (k_mm s) /\ k_pt s' = k_pt s.
Proof.
  intros Hu Hl Hn. eexists. split.
  { apply acquire_run; [apply (ctx_wf _ _ _ Hu)|]. rewrite Hl. set_solver. }
  assert (Hh : holds_only (L_pipe p) (set_cpu (acquired (L_pipe p) (get_cpu s)) s)).
  { split; rewrite get_set_cpu; unfold acquired, push_cpu, set_held; cbn [held ncli c_if]; [by rewrite Hl|lia|done]. }
  split_and!; try done. eapply user_ctx_moved; done.
Qed.

(** A byte of the writer's buffer. *)
Lemma user_byte f s x free i :
  wr_ctx f s x free -> 0 <= va -> va + n <= KERNBASE -> 0 <= i < n -> from_user va i 1%nat s = Ok [f i] s.
Proof.
  intros [Hu _ Hb] Hva Hend Hi. destruct (Hb i Hi) as [Hm Hv]. unfold from_user. rewrite u32_small by lia.
  rewrite (vread_run s q free Hu) by (lia || (intros z Hz; replace z with (va + i) by lia; done)).
  cbn [seq fmap list_fmap]. by rewrite Z.add_0_r, Hv.
Qed.

(** The rest of [pipewrite] after its loop. *)
Definition write_end (ok : bool) : M kst Z :=
  if negb ok then release (L_pipe p) ;; ret (-1)
  else wakeup (Ch_nread p) ;; release (L_pipe p) ;; ret n.

Lemma write_loop_out f m : (0 < waits)%nat -> 0 <= va -> va + n <= KERNBASE -> forall i s x free,
  holds_only (L_pipe p) s -> wr_ctx f s x free -> 0 <= i -> i + Z.of_nat m = n ->
  wr_out f waits (f <$> seqZ i (Z.of_nat m)) (contents x)
    (bindr (pipewrite_loop p (from_user va) i m s) write_end).
Proof.
  intros Hw Hva Hend. induction m as [|m IH]; intros i s x free Hh Hc Hi Hn.
  - destruct (leave_run (Ch_nread p) s n Hh) as (s' & E & Efs & _ & Hl & Hno).
    cbn [pipewrite_loop bindr ret]. unfold write_end. cbn [negb]. rewrite E.
    destruct (wc_pipe _ _ _ _ Hc) as [Hx Hok].
    eapply (W_done _ _ _ _ _ x); [split; [by rewrite Efs|done]|by rewrite app_nil_r|done|done].
  - cbn [pipewrite_loop]. unfold bind at 1. rewrite bindr_assoc. unfold pipe_room.
    rewrite Nat2Z.inj_succ, seqZ_cons, fmap_cons, Z.pred_succ by lia.
    apply (room_out f) with free; [done| | |done|done]; clear s x free Hh Hc; intros w s x free Hh Hc Hq.
    + cbn [negb]. rewrite (bind_ok _ _ _ _ _ (user_byte f s x free i Hc Hva Hend ltac:(lia))).
      pose proof (wc_pipe _ _ _ _ Hc) as [Hx Hok]. rewrite (bind_ok _ _ _ _ _ (upd_pipe_run p _ x s Hx)).
      apply wr_out_cons; [|done]. change ([f i] !!! 0%nat) with (f i). rewrite <- contents_put by done.
      apply IH with free; [by destruct Hh| |lia|lia]. destruct Hc as [[] _ ?]. split; [by split| |done].
      split; [apply put_pipe_get|by apply put_ok].
    + intros Hwhy. destruct (abandon_run s Hh) as (s' & E & Efs & Ept & Hl).
      cbn [negb bindr ret]. unfold write_end. cbn [negb]. rewrite E.
      destruct (wc_pipe _ _ _ _ Hc) as [Hx Hok].
      eapply (W_fail f w [] _ _ _ x); try done; [split; [by rewrite Efs|done]|by rewrite app_nil_r|].
      unfold pr_at. by rewrite Ept.
Qed.

(** The reader's buffer is writable. *)
Record rd_ctx (s : kst) (x : pipe) (free : list Z) : Prop := {
  rc_user : user_ctx s q free;
  rc_pipe : pipe_is s x;
  rc_buf : forall j, 0 <= j < n -> user_writable (mem (k_mm s)) (pgdir (pr_at q s)) (va + j) }.

(** Between the states the bytes [bs] were stored at [va] of the process, and
    nothing else. *)
Definition delivered (bs : list Z) (s s' : kst) : Prop :=
  exists free m m', uwrite (pgdir (pr_at q s)) va bs free m m' /\
    mem m = mem (k_mm s) /\ mem m' = mem (k_mm s').

(** A read of [n] bytes when the pipe is [x]: the oldest bytes are delivered,
    [n] of them or all there are; none only if no writer is left; or the pipe
    is empty and the read fails since the reader is killed; or the reader
    sleeps and is then a read again. *)
Inductive rd_out : nat -> kst -> pipe -> res kst Z -> Prop :=
| R_done w s x s' x' k :
    k = Nat.min (Z.to_nat n) (length (contents x)) -> contents x <> [] \/ writeopen x = false ->
    pipe_is s' x' -> contents x' = drop k (contents x) -> delivered (take k (contents x)) s s' ->
    held (get_cpu s') = [] -> nobody_on (Ch_nwrite p) s' ->
    rd_out w s x (Ok (Z.of_nat k) s')
| R_fail w s x s' :
    contents x = [] -> killed (pr_at q s') <> 0 -> pipe_is s' x -> held (get_cpu s') = [] ->
    rd_out w s x (Ok (-1) s')
| R_sleep w s x s1 k :
    contents x = [] -> writeopen x = true -> pipe_is s1 x -> sleeps_on (Ch_nread p) s1 ->
    (forall s2 x2 free2, holds_only L_ptable s2 -> rd_ctx s2 x2 free2 -> rd_out w s2 x2 (k s2)) ->
    rd_out (S w) s x (Sched s1 k)
| R_often s x : rd_out 0 s x NoFuel.

Lemma rd_ctx_moved s s' x free free' :
  rd_ctx s x free -> user_ctx s' q free' -> k_fs s' = k_fs s -> mem (k_mm s') = mem (k_mm s) ->
  pgdir (pr_at q s') = pgdir (pr_at q s) -> rd_ctx s' x free'.
Proof.
  intros [_ [H1 H2] H3] Hu E1 E2 E3. split; [done|split; [by rewrite E1|done]|]. by rewrite E2, E3.
Qed.

(** The outcome depends on the memory and the page table of the start only. *)
Lemma rd_out_from w s s' x r :
  mem (k_mm s') = mem (k_mm s) -> pgdir (pr_at q s') = pgdir (pr_at q s) ->
  rd_out w s' x r -> rd_out w s x r.
Proof.
  intros E1 E2 Hr. inversion Hr as [? ? ? y x' k H1 H2 H3 H4 (fr & m & m' & D1 & D2 & D3)| | |]; subst.
  - eapply R_done; try done. exists fr, m, m'. rewrite <- E2. split_and!; [done|by rewrite D2|done].
  - by eapply R_fail.
  - by eapply R_sleep.
  - apply R_often.
Qed.

Lemma no_contents x : contents x = [] <-> fill x = 0.
Proof.
  pose proof (contents_length x) as El. pose proof (fill_range x).
  destruct (contents x); simpl in *; split; intros; (done || lia).
Qed.

(** The waiting of a reader. *)
Lemma data_out (K : bool -> kst -> res kst Z) :
  (forall w s x free, holds_only (L_pipe p) s -> rd_ctx s x free -> contents x <> [] \/ writeopen x = false ->
     rd_out w s x (K true s)) ->
  (forall w s x free, holds_only (L_pipe p) s -> rd_ctx s x free -> contents x = [] ->
     killed (pr_at q s) <> 0 -> rd_out w s x (K false s)) ->
  forall w s x free, holds_only (L_pipe p) s -> rd_ctx s x free ->
  rd_out w s x (bindr (loop w (data_body p) tt s) K).
Proof.
  intros Hdata Hfail. induction w as [|w IH]; intros s x free Hh Hc; [apply R_often|].
  pose proof Hc as [Hu [Hx Hok] _]. pose proof (holds_wf _ _ Hh) as Hwf. cbn [loop]. unfold bind at 1, data_body at 1.
  rewrite (bind_ok _ _ _ _ _ (get_pipe_run p x s Hx)), empty_test by done.
  destruct (Z.eqb_spec (fill x) 0) as [E|E]; cbn [andb].
  2:{ cbn [bindr]. eapply Hdata; try done. left. by rewrite no_contents. }
  apply no_contents in E. destruct (writeopen x) eqn:Hwo; [|eapply Hdata; try done; by right].
  erewrite bind_ok by (apply me_run; [done|apply Hu]). rewrite (holds_touch _ _ Hh).
  erewrite bind_ok by (unfold gets; reflexivity).
  destruct (Z.eqb_spec (killed (pr_at q s)) 0) as [Hk|Hk]; cbn [negb]; [|by eapply Hfail].
  destruct (sleep_there (Ch_nread p) s free Hh Hu) as (s1 & k & Es & Hsl & Efs & _ & Hres).
  erewrite bind_sched by exact Es. cbn [bindr].
  eapply R_sleep; try done; [split; [by rewrite Efs|done]|].
  intros s2 x2 free2 Hh2 Hc2. pose proof Hc2 as [Hu2 _ _].
  destruct (Hres s2 free2 Hh2 Hu2) as (s3 & E3 & Hh3 & Hu3 & Efs3 & Em3 & Epg3). rewrite E3. cbn [bindr].
  apply (rd_out_from _ s2 s3); [done|done|]. eapply IH; [done|]. by eapply rd_ctx_moved.
Qed.

(** The loop of [piperead] and what follows it. *)
Lemma read_rest s x free :
  0 <= va -> 0 <= n -> va + n <= KERNBASE -> holds_only (L_pipe p) s -> rd_ctx s x free ->
  let k := Nat.min (Z.to_nat n) (length (contents x)) in
  exists s' x', (i <- piperead_loop p (to_user va) 0 (Z.to_nat n) ;;
      wakeup (Ch_nwrite p) ;; release (L_pipe p) ;; ret i) s = Ok (Z.of_nat k) s' /\
    pipe_is s' x' /\ contents x' = drop k (contents x) /\ delivered (take k (contents x)) s s' /\
    held (get_cpu s') = [] /\ nobody_on (Ch_nwrite p) s'.
Proof.
  intros Hva Hn Hend Hh [Hu [Hx Hok] Hb] k.
  destruct (piperead_loop_run p va (pgdir (pr_at q s)) free (Z.to_nat n) 0 s x)
    as (x' & m & E & Hok' & Hcont & _ & _ & Huw); try done;
    try exact (uc_alloc _ _ _ Hu); try exact (uc_as _ _ _ Hu); try exact (uc_cr3 _ _ _ Hu).
  { lia. }
  { intros a Ha. replace a with (va + (a - va)) by lia. apply Hb. lia. }
  rewrite Z.add_0_r in Huw. fold k in E, Hcont, Huw. rewrite Z.add_0_l in E.
  rewrite (bind_ok _ _ _ _ _ E).
  destruct (leave_run (Ch_nwrite p) (put_pipe p x' (upd_k_mm (fun _ => m) s)) (Z.of_nat k))
    as (s' & E' & Efs & Em & Hl & Hno).
  { assert (Ecpu : mm_cpu m = mm_cpu (k_mm s)) by (by rewrite (uw_mem _ _ _ _ _ _ Huw)).
    destruct Hh as [H1 H2 H3]. split; cbn; by rewrite Ecpu. }
  exists s', x'. split_and!; try done.
  - split; [|done]. rewrite Efs. apply put_pipe_get.
  - exists free, (k_mm s), m. by split_and!.
Qed.

(** C9. A pipe is a first-in first-out queue of at most [PIPESIZE] bytes with
    a blocking write and a blocking read.  [pipewrite] appends the bytes of
    the user's buffer in order; it gives up the CPU only when the queue is
    full, with every reader awake, and goes on with the rest when it is
    resumed, whatever queue it finds then; it fails only with the queue full
    and nobody to read it or the writer killed.  [piperead] takes the oldest
    bytes, at most [n], and stores them in the user's buffer; it sleeps only
    when the queue is empty and a writer is left.  The counters wrap around
    at 32 bits. *)
Theorem pipe_refines_queue (s : kst) (x : pipe) (free : list Z) :
  (0 < waits)%nat -> held (get_cpu s) = [] -> ncli (get_cpu s) = 0 -> 0 <= va -> 0 <= n -> va + n <= KERNBASE ->
  (forall f, wr_ctx f s x free ->
     wr_out f waits (f <$> seqZ 0 n) (contents x) (pipewrite p (from_user va) n s)) /\
  (rd_ctx s x free -> rd_out waits s x (piperead p (to_user va) n s)).
Proof.
  intros Hw Hl Hn0 Hva Hn Hend. split.
  - intros f Hc. destruct (enter_run s free (wc_user _ _ _ _ Hc) Hl Hn0) as (s1 & E & Hh & Hu & Efs & Em & Ept).
    unfold pipewrite. rewrite (bind_ok _ _ _ _ _ E).
    assert (Hc1 : wr_ctx f s1 x free) by (eapply wr_ctx_moved; try done; unfold pr_at; by rewrite Ept).
    rewrite <- (Z2Nat.id n) at 1 by done. apply write_loop_out with free; (done || lia).
  - intros Hc. destruct (enter_run s free (rc_user _ _ _ Hc) Hl Hn0) as (s1 & E & Hh & Hu & Efs & Em & Ept).
    unfold piperead. rewrite (bind_ok _ _ _ _ _ E).
    assert (Epg : pgdir (pr_at q s1) = pgdir (pr_at q s)) by (unfold pr_at; by rewrite Ept).
    assert (Hc1 : rd_ctx s1 x free) by (by eapply rd_ctx_moved).
    apply (rd_out_from _ s s1); [done|done|]. unfold bind at 1, pipe_data.
    apply data_out with free; [| |done|done]; clear -Hva Hn Hend; intros w s x free Hh Hc.
    + intros Hd. cbn [negb]. destruct (read_rest s x free Hva Hn Hend Hh Hc) as (s' & x' & -> & ? & ? & ? & ? & ?).
      by eapply R_done.
    + intros He Hk. destruct (abandon_run s Hh) as (s' & E & Efs & Ept & Hl). cbn [negb]. rewrite E.
      destruct Hc as [_ [Hx Hok] _]. eapply R_fail; try done; [unfold pr_at; by rewrite Ept|].
      split; [by rewrite Efs|done].
Qed.
End Ends.

(** ** A process and its pipe *)

(** Three bytes in the pipe, just after the counters have wrapped. *)
Definition demo_pipe3 : pipe :=
  pipe_put 30 (pipe_put 20 (pipe_put 10 demo_pipe)).

Definition demo_piped : kst := put_pipe 0x801f0000 demo_pipe3 demo_run.

Lemma demo_piped_ctx : user_ctx demo_piped 0 (pages_from demo_base 10).
Proof.
  destruct (demo_user_ctx 10 [0] ltac:(lia) ltac:(simpl; lia) demo_proc eq_refl). by split.
Qed.

Lemma demo_pipe3_ok : pipe_ok demo_pipe3.
Proof.
  assert (H1 : pipe_ok (pipe_put 10 demo_pipe)) by (apply put_ok; [exact demo_pipe_ok|reflexivity]).
  assert (H2 : pipe_ok (pipe_put 20 (pipe_put 10 demo_pipe)))
    by (apply put_ok; [exact H1|reflexivity]).
  apply put_ok; [exact H2|reflexivity].
Qed.

Lemma demo_pipe3_contents : contents demo_pipe3 = [10; 20; 30].
Proof. vm_compute. reflexivity. Qed.

Lemma demo_piped_mapped a : 0x100 <= a < 0x300 ->
  mapped (mem (k_mm demo_piped)) (pgdir (pr_at 0 demo_piped)) a = true /\
  pte_at (mem (k_mm demo_piped)) (pgdir (pr_at 0 demo_piped)) a = V2P demo_page + 7.
Proof.
  intros Ha. assert (Hpte : pte_at (mem (k_mm demo_piped)) (pgdir (pr_at 0 demo_piped)) a = V2P demo_page + 7).
  { transitivity (if pg a =? 0 then V2P demo_page + 7 else 0).
    - exact (demo_user_pte 10 [0] ltac:(lia) ltac:(simpl; lia) a ltac:(lia)).
    - replace (pg a) with 0 by (unfold pg; zlia). reflexivity. }
  split; [|exact Hpte]. unfold mapped. by rewrite Hpte.
Qed.

(** Two bytes are written to the pipe, and two are read. *)
Lemma pipe_refines_queue_witness :
  let f j := uload (mem (k_mm demo_piped)) demo_pgdir (0x104 + j) in
  wr_out 0x801f0000 0x104 0 2 f waits [f 0; f 1] [10; 20; 30]
    (pipewrite 0x801f0000 (from_user 0x104) 2 demo_piped) /\
  rd_out 0x801f0000 0x104 0 2 waits demo_piped demo_pipe3
    (piperead 0x801f0000 (to_user 0x104) 2 demo_piped).
Proof.
  intros f. destruct (pipe_refines_queue 0x801f0000 0x104 0 2 demo_piped demo_pipe3 (pages_from demo_base 10))
    as [Hwr Hrd]; [exact (le_n 1)|reflexivity|reflexivity|lia|lia|discriminate|].
  assert (Hx : pipe_is 0x801f0000 demo_piped demo_pipe3) by (split; [apply put_pipe_get|exact demo_pipe3_ok]).
  split.
  - rewrite <- demo_pipe3_contents. apply (Hwr f). split; [exact demo_piped_ctx|exact Hx|].
    intros j Hj. split; [apply demo_piped_mapped; lia|reflexivity].
  - apply Hrd. split; [exact demo_piped_ctx|exact Hx|]. intros j Hj.
    destruct (demo_piped_mapped (0x104 + j) ltac:(lia)) as [Hm Hp]. split; [exact Hm|]. rewrite Hp. reflexivity.
Defined.

Lemma pipewrite_exact_witness :
  exists x', pipewrite 0x801f0000 (from_user 0x104) 2 demo_piped =
      Ok 2 (woken (Ch_nread 0x801f0000) (put_pipe 0x801f0000 x' (touch demo_piped))) /\
    contents x' = [10; 20; 30; 0; 0].
Proof.
  destruct (pipewrite_exact demo_piped 0 (pages_from demo_base 10) 0x801f0000 0x104 2 demo_pipe3)
    as (x' & E & _ & _ & _ & Hc).
  - exact (le_n 1).
  - exact demo_piped_ctx.
  - reflexivity.
  - apply put_pipe_get.
  - exact demo_pipe3_ok.
  - lia.
  - discriminate.
  - lia.
  - discriminate.
  - intros a Ha.
    transitivity (pg a =? 0).
    + exact (demo_user_mapped 10 [0] ltac:(lia) ltac:(simpl; lia) a ltac:(lia)).
    + apply Z.eqb_eq. unfold pg. zlia.
  - exists x'. split; [exact E|]. rewrite Hc, demo_pipe3_contents. vm_compute. reflexivity.
Defined.

Lemma piperead_exact_witness :
  exists x' m', piperead 0x801f0000 (to_user 0x200) 2 demo_piped =
      Ok 2 (woken (Ch_nwrite 0x801f0000) (put_pipe 0x801f0000 x' (upd_k_mm (fun _ => m') demo_piped))) /\
    contents x' = [30] /\
    uwrite demo_pgdir 0x200 [10; 20] (pages_from demo_base 10) (k_mm (touch demo_piped)) m'.
Proof.
  assert (Hk : Nat.min (Z.to_nat 2) (length (contents demo_pipe3)) = 2%nat)
    by (rewrite demo_pipe3_contents; reflexivity).
  destruct (piperead_exact demo_piped 0 (pages_from demo_base 10) 0x801f0000 0x200 2 demo_pipe3)
    as (x' & m' & E & _ & Hc & _ & _ & Hu); rewrite ?Hk.
  - exact (le_n 1).
  - exact demo_piped_ctx.
  - reflexivity.
  - apply put_pipe_get.
  - exact demo_pipe3_ok.
  - left. reflexivity.
  - lia.
  - discriminate.
  - intros a Ha. change (Z.of_nat 2) with 2 in Ha.
    assert (Hpte : pte_at (mem (k_mm demo_piped)) (pgdir (pr_at 0 demo_piped)) a = V2P demo_page + 7).
    { transitivity (if pg a =? 0 then V2P demo_page + 7 else 0).
      - exact (demo_user_pte 10 [0] ltac:(lia) ltac:(simpl; lia) a ltac:(lia)).
      - replace (pg a) with 0 by (unfold pg; zlia). reflexivity. }
    unfold user_writable, mapped. rewrite Hpte. split; reflexivity.
  - rewrite Hk in *. rewrite demo_pipe3_contents in *. exists x', m'.
    split_and!; [exact E|exact Hc|exact Hu].
Defined.
