(* ===== verification/Bytes.v ===== *)
(** * Words in byte buffers

    What is read back from a block after words have been stored in it. *)

From S2P Require Import Prelude Machine StringC Spinlock Kalloc Vm VmWalk VmUser VmCopy Kernel.

Lemma splice_length buf o bs :
  (Z.to_nat o + length bs <= length buf)%nat -> length (splice buf o bs) = length buf.
Proof. intros Hl. unfold splice. rewrite !length_app, length_take, length_drop. lia. Qed.

Lemma splice_lookup buf o bs i :
  (Z.to_nat o + length bs <= length buf)%nat ->
  splice buf o bs !!! i =
  if decide (Z.to_nat o <= i < Z.to_nat o + length bs)%nat then bs !!! (i - Z.to_nat o)%nat
  else buf !!! i.
Proof.
  intros Hl. unfold splice.
  assert (Ht : length (take (Z.to_nat o) buf) = Z.to_nat o) by (rewrite length_take; lia).
  rewrite !list_lookup_total_alt. case_decide as Hd.
  - rewrite lookup_app_r, Ht by lia. by rewrite lookup_app_l by lia.
  - destruct (decide (i < Z.to_nat o)%nat).
    + rewrite lookup_app_l by lia. by rewrite lookup_take_lt by lia.
    + rewrite lookup_app_r, Ht by lia. rewrite lookup_app_r by lia. rewrite lookup_drop.
      do 2 f_equal. lia.
Qed.

Lemma byte_at_splice buf o bs i :
  0 <= o -> 0 <= i -> o + Z.of_nat (length bs) <= Z.of_nat (length buf) ->
  byte_at (splice buf o bs) i =
  if (o <=? i) && (i <? o + Z.of_nat (length bs)) then u8 (bs !!! Z.to_nat (i - o)) else byte_at buf i.
Proof.
  intros Ho Hi Hl. unfold byte_at. rewrite splice_lookup by lia.
  case_decide; zcases; try lia; try done. do 2 f_equal. lia.
Qed.

Lemma word_at_splice_other buf o bs i :
  0 <= o -> 0 <= i -> o + Z.of_nat (length bs) <= Z.of_nat (length buf) ->
  i + 4 <= o \/ o + Z.of_nat (length bs) <= i ->
  word_at (splice buf o bs) i = word_at buf i.
Proof.
  intros Ho Hi Hl Hd. unfold word_at. rewrite !byte_at_splice by lia. zcases; try lia; done.
Qed.

Lemma half_at_splice_other buf o bs i :
  0 <= o -> 0 <= i -> o + Z.of_nat (length bs) <= Z.of_nat (length buf) ->
  i + 2 <= o \/ o + Z.of_nat (length bs) <= i ->
  half_at (splice buf o bs) i = half_at buf i.
Proof.
  intros Ho Hi Hl Hd. unfold half_at. rewrite !byte_at_splice by lia. zcases; try lia; done.
Qed.

Lemma word_bytes_length v : length (word_bytes v) = 4%nat.
Proof. done. Qed.

(** The bytes of a word make up the word. *)
Lemma word_split v : 0 <= v < 4294967296 ->
  u8 (u8 v) + 256 * u8 (u8 (v / 256)) + 65536 * u8 (u8 (v / 65536)) +
  16777216 * u8 (u8 (v / 16777216)) = v.
Proof. intros Hv. unfold u8. zlia. Qed.

Lemma word_at_splice buf o v :
  0 <= o -> o + 4 <= Z.of_nat (length buf) -> 0 <= v < 4294967296 ->
  word_at (splice buf o (word_bytes v)) o = v.
Proof.
  intros Ho Hl Hv. unfold word_at. rewrite !byte_at_splice by (rewrite ?word_bytes_length; lia).
  rewrite word_bytes_length. zcases; try lia. rewrite <- (word_split v Hv) at 5.
  replace (o - o) with 0 by lia. replace (o + 1 - o) with 1 by lia.
  replace (o + 2 - o) with 2 by lia. replace (o + 3 - o) with 3 by lia. done.
Qed.

(** Reading inside what was stored. *)
Lemma half_at_inside buf o bs j :
  0 <= o -> o + Z.of_nat (length bs) <= Z.of_nat (length buf) ->
  0 <= j -> j + 2 <= Z.of_nat (length bs) ->
  half_at (splice buf o bs) (o + j) = half_at bs j.
Proof.
  intros Ho Hl Hj Hj2. unfold half_at. rewrite !byte_at_splice by lia. unfold byte_at.
  zcases; try lia. repeat f_equal; lia.
Qed.

Lemma word_at_inside buf o bs j :
  0 <= o -> o + Z.of_nat (length bs) <= Z.of_nat (length buf) ->
  0 <= j -> j + 4 <= Z.of_nat (length bs) ->
  word_at (splice buf o bs) (o + j) = word_at bs j.
Proof.
  intros Ho Hl Hj Hj2. unfold word_at. rewrite !byte_at_splice by lia. unfold byte_at.
  zcases; try lia. repeat f_equal; lia.
Qed.

(** The bytes of a half word make up the half word. *)
Lemma half_split v : -32768 <= v < 32768 -> s16 (u8 (u8 v) + 256 * u8 (u8 (v / 256))) = v.
Proof. intros Hv. unfold s16, u16, u8. zcases; zlia. Qed.

Lemma half_at_app_r bs1 bs2 j :
  Z.of_nat (length bs1) <= j -> half_at (bs1 ++ bs2) j = half_at bs2 (j - Z.of_nat (length bs1)).
Proof.
  intros Hj. unfold half_at, byte_at. rewrite !lookup_total_app_r by lia. repeat f_equal; lia.
Qed.

Lemma word_at_app_r bs1 bs2 j :
  Z.of_nat (length bs1) <= j -> word_at (bs1 ++ bs2) j = word_at bs2 (j - Z.of_nat (length bs1)).
Proof.
  intros Hj. unfold word_at, byte_at. rewrite !lookup_total_app_r by lia. repeat f_equal; lia.
Qed.

Lemma half_at_half_bytes v bs : -32768 <= v < 32768 -> s16 (half_at (half_bytes v ++ bs) 0) = v.
Proof. intros Hv. exact (half_split v Hv). Qed.

Lemma word_at_word_bytes v bs : 0 <= v < 4294967296 -> word_at (word_bytes v ++ bs) 0 = v.
Proof. intros Hv. exact (word_split v Hv). Qed.

(** Words one after the other. *)
Lemma word_at_concat vs k bs :
  Forall (fun v => 0 <= v < 4294967296) vs -> (k < length vs)%nat ->
  word_at (concat (word_bytes <$> vs) ++ bs) (4 * Z.of_nat k) = vs !!! k.
Proof.
  revert k. induction vs as [|v vs IH]; intros k Hvs Hk; [simpl in Hk; lia|].
  apply Forall_cons_1 in Hvs as [Hv Hvs]. cbn [fmap list_fmap concat]. rewrite <- app_assoc.
  destruct k as [|k]; [by apply word_at_word_bytes|].
  rewrite word_at_app_r by (rewrite word_bytes_length; lia). rewrite word_bytes_length.
  replace (4 * Z.of_nat (S k) - Z.of_nat 4) with (4 * Z.of_nat k) by lia.
  apply IH; [done|]. simpl in Hk. lia.
Qed.
