(* ===== verification/BioWp.v ===== *)
(** * Running the buffer cache

    Equations for sleep-locks and for [iderw], then specifications of
    [bread], [bwrite] and [brelse] in terms of what the cache stands for: a
    function [V] from block numbers to blocks, of which the disk and the
    buffers hold parts ([bcache]). *)

From S2P Require Import Prelude Machine StringC Spinlock Kalloc Vm VmWalk VmMap VmUser VmKern.
From S2P Require Import VmAlloc VmCopy Kernel Sleep Bio Log Inode Console Fs Pipe File Proc.
From S2P Require Import Exec Sysfile KernelWp Mmap Trap MmapWp ProcProps.

(** ** Tables of the file system *)

Lemma upd_buf_buf i f g s : upd_buf i f (upd_buf i g s) = upd_buf i (fun x => f (g x)) s.
Proof.
  unfold upd_buf, upd_k_fs, upd_bufs. cbn -[alter]. do 2 f_equal. by rewrite list_alter_alter_eq.
Qed.

Lemma upd_buf_ext i f g s : f (buf_at i s) = g (buf_at i s) -> upd_buf i f s = upd_buf i g s.
Proof.
  intros E. unfold upd_buf, upd_k_fs, upd_bufs. do 2 f_equal. apply list_alter_ext; [|done].
  intros x Hx. unfold buf_at in E. by rewrite (list_lookup_total_correct _ _ _ Hx) in E.
Qed.

Lemma buf_at_upd i f s :
  (i < length (bufs (k_fs s)))%nat -> buf_at i (upd_buf i f s) = f (buf_at i s).
Proof. intros Hi. unfold buf_at. simpl. by apply alter_total_eq. Qed.

Lemma buf_at_upd_ne i j f s : i <> j -> buf_at j (upd_buf i f s) = buf_at j s.
Proof. intros Hne. unfold buf_at. simpl. by apply alter_total_ne. Qed.

(** ** Threads in the file system *)

(** Process [p] runs with no lock held. *)
Record idle (s : kst) (p : nat) : Prop := {
  id_wf : cpu_wf (get_cpu s);
  id_held : held (get_cpu s) = [];
  id_cur : curproc (k_pt s) = Some p }.

(** All of a process but its state, which a wakeup may change. *)
Definition still (x : proc) : proc := upd_state (fun _ => UNUSED) x.

(** What the cache changes outside itself: nothing but the state of
    processes that are woken. *)
Record quiet (s s' : kst) : Prop := {
  q_mm : k_mm (touch s') = k_mm (touch s);
  q_pt : k_pt s' = upd_procs (fun _ => procs (k_pt s')) (k_pt s);
  q_procs : still <$> procs (k_pt s') = still <$> procs (k_pt s);
  q_fs : k_fs s' = upd_bufs (fun _ => bufs (k_fs s')) (upd_lru (fun _ => lru (k_fs s'))
           (upd_disk (fun _ => disk (k_fs s')) (k_fs s)));
  q_con : k_con s' = k_con s }.

Lemma quiet_trans s1 s2 s3 : quiet s1 s2 -> quiet s2 s3 -> quiet s1 s3.
Proof.
  intros [A1 A2 A3 A4 A5] [B1 B2 B3 B4 B5]. split.
  - by rewrite B1.
  - rewrite B2, A2. done.
  - by rewrite B3.
  - rewrite B4, A4. done.
  - by rewrite B5.
Qed.

Lemma quiet_refl s : quiet s s.
Proof. split; try done; by destruct s as [? [] [] ?]. Qed.

Lemma quiet_touch s : quiet s (touch s).
Proof. destruct (quiet_refl s) as [A1 A2 A3 A4 A5]. split; try done. by rewrite touch_touch. Qed.

Lemma quiet_idle s s' p : quiet s s' -> idle s p -> idle s' p.
Proof.
  intros [A1 A2 _ _ _] [Hwf Hl Hc].
  assert (Hs : cpu_sim (get_cpu s) (get_cpu s')) by (symmetry; exact (f_equal mm_cpu A1)).
  split.
  - by rewrite <- Hs.
  - apply cpu_sim_fields in Hs as (_ & _ & E & _). by rewrite <- E.
  - by rewrite A2.
Qed.

Lemma quiet_proc s s' i : quiet s s' -> still (pr_at i s') = still (pr_at i s).
Proof.
  intros [_ _ E _ _]. unfold pr_at. rewrite !list_lookup_total_alt.
  assert (F := f_equal (fun l => l !! i) E). cbn beta in F. rewrite !list_lookup_fmap in F.
  destruct (procs (k_pt s') !! i), (procs (k_pt s) !! i); simpl in *; congruence.
Qed.

Lemma quiet_pid s s' i : quiet s s' -> pid (pr_at i s') = pid (pr_at i s).
Proof. intros Hq. exact (f_equal pid (quiet_proc s s' i Hq)). Qed.

Lemma quiet_log s s' : quiet s s' -> log_of s' = log_of s.
Proof. intros Hq. unfold log_of. by rewrite (q_fs _ _ Hq). Qed.

Lemma quiet_buf i f s : quiet s (upd_buf i f (touch s)).
Proof. destruct (quiet_touch s) as [A1 A2 A3 A4 A5]. by split. Qed.

Lemma still_wake ch x : still (wake ch x) = still x.
Proof. unfold wake. by destruct (_ && _). Qed.

Lemma quiet_woken ch s s' : quiet s s' -> quiet s (woken ch s').
Proof.
  intros [A1 A2 A3 A4 A5]. split; try done.
  - simpl. by rewrite A2.
  - simpl. rewrite <- list_fmap_compose, <- A3. apply list_fmap_ext. intros i x _. apply still_wake.
Qed.

Section Sleeplocks.
Context `{Waits}.
Context (s : kst) (p : nat) (Hid : idle s p).

(** The CPU inside one critical section. *)
Lemma in_section l : cpu_wf (acquired l (get_cpu s)) /\ ncli (acquired l (get_cpu s)) <> 0.
Proof.
  destruct Hid as [Hwf Hl _]. split; [by apply acquired_wf|].
  unfold acquired, set_held, push_cpu. cbn [ncli]. destruct Hwf. lia.
Qed.

Lemma acquire_idle l : acquire l s = Ok tt (set_cpu (acquired l (get_cpu s)) s).
Proof. destruct Hid as [Hwf Hl _]. apply acquire_run; [done|]. rewrite Hl. set_solver. Qed.

(** The code of a critical section on [s]. *)
Lemma release_idle l s' :
  get_cpu s' = acquired l (get_cpu s) -> release l s' = Ok tt (set_cpu (refresh (get_cpu s)) s').
Proof. destruct Hid as [Hwf Hl _]. intros E. apply unlock_run; [done| |done]. rewrite Hl. set_solver. Qed.

Lemma me_section l s' :
  get_cpu s' = acquired l (get_cpu s) -> curproc (k_pt s') = Some p -> me s' = Ok p s'.
Proof.
  intros E Hc. destruct (in_section l) as [Hwf Hn]. rewrite (me_run s' p).
  - rewrite touch_id; [done|]. by rewrite E.
  - by rewrite E.
  - done.
Qed.

Context (i : nat) (Hi : (i < length (bufs (k_fs s)))%nat).

Lemma acquiresleep_run :
  (0 < waits)%nat -> locked (block_lock (buf_at i s)) = false ->
  acquiresleep (buf_lock i) s =
  Ok tt (upd_buf i (upd_block_lock (fun _ => Sleeplock true (pid (pr_at p s)))) (touch s)).
Proof.
  intros Hw Hl. unfold acquiresleep. erewrite bind_ok by apply acquire_idle.
  erewrite bind_ok.
  2:{ destruct waits as [|w]; [lia|]. cbn [loop]. erewrite bind_ok.
      2:{ erewrite bind_ok by (unfold gets; reflexivity). cbn [buf_lock sl_get sl_lk].
          change (buf_at i (set_cpu _ s)) with (buf_at i s). rewrite Hl. reflexivity. }
      reflexivity. }
  erewrite bind_ok by (unfold modify; reflexivity).
  erewrite bind_ok by (apply (me_section (L_buf i)); [done|apply Hid]).
  erewrite bind_ok by (unfold gets; reflexivity).
  erewrite bind_ok by (unfold modify; reflexivity).
  rewrite (release_idle (L_buf i)) by done. f_equal. cbn [buf_lock sl_set sl_get].
  rewrite upd_buf_buf. rewrite buf_at_upd by done. done.
Qed.

Lemma holdingsleep_run :
  holdingsleep (buf_lock i) s =
  Ok (locked (block_lock (buf_at i s)) && (sl_pid (block_lock (buf_at i s)) =? pid (pr_at p s)))
    (touch s).
Proof.
  unfold holdingsleep. erewrite bind_ok by apply acquire_idle.
  erewrite bind_ok by (unfold gets; reflexivity). cbn [buf_lock sl_get sl_lk].
  change (buf_at i (set_cpu _ s)) with (buf_at i s).
  erewrite bind_ok.
  2:{ instantiate (1 := set_cpu (acquired (L_buf i) (get_cpu s)) s).
      instantiate (1 := locked (block_lock (buf_at i s)) &&
                        (sl_pid (block_lock (buf_at i s)) =? pid (pr_at p s))).
      destruct (locked (block_lock (buf_at i s))); [|done].
      erewrite bind_ok by (apply (me_section (L_buf i)); [done|apply Hid]). done. }
  by erewrite bind_ok by (by apply (release_idle (L_buf i))).
Qed.

Lemma releasesleep_run :
  releasesleep (buf_lock i) s =
  Ok tt (woken (Ch_buf i) (upd_buf i (upd_block_lock (fun _ => sleeplock0)) (touch s))).
Proof.
  unfold releasesleep. erewrite bind_ok by apply acquire_idle.
  erewrite bind_ok by (unfold modify; reflexivity).
  erewrite bind_ok by (unfold modify; reflexivity).
  destruct (in_section (L_buf i)) as [Hwf Hn].
  erewrite bind_ok.
  2:{ apply wakeup_run; [exact Hwf|]. cbn. destruct Hid as [_ Hl _]. simpl in Hl. rewrite Hl. set_solver. }
  rewrite touch_id by exact Hn.
  rewrite (release_idle (L_buf i)) by done. f_equal. cbn [buf_lock sl_set sl_get].
  rewrite upd_buf_buf, buf_at_upd by done. done.
Qed.
End Sleeplocks.

(** ** The disk *)

Lemma block_same s s' b : disk (k_fs s') = disk (k_fs s) -> disk_block s' b = disk_block s b.
Proof. unfold disk_block. by intros ->. Qed.

Section Iderw.
Context `{Waits}.
Context (s : kst) (p : nat) (Hid : idle s p) (i : nat) (Hi : (i < length (bufs (k_fs s)))%nat).
Context (Hlk : block_lock (buf_at i s) = Sleeplock true (pid (pr_at p s))).
Context (Hdev : bdev (buf_at i s) = 1).
Context (Hno : 0 <= blockno (buf_at i s) < disksize (k_fs s)).

Lemma holding_mine : holdingsleep (buf_lock i) s = Ok true (touch s).
Proof. rewrite (holdingsleep_run s p) by done. rewrite Hlk. simpl. by rewrite Z.eqb_refl. Qed.

(** A buffer without data is filled. *)
Lemma iderw_read :
  bflags (buf_at i s) = 0 ->
  iderw i s = Ok tt (upd_buf i (fun x => upd_bflags (fun _ => B_VALID)
                       (upd_bdata (fun _ => disk_block s (blockno (buf_at i s))) x)) (touch s)).
Proof.
  intros Hf. unfold iderw. erewrite bind_ok by exact holding_mine. cbn [negb].
  erewrite bind_ok by (unfold gets; reflexivity). change (buf_at i (touch s)) with (buf_at i s).
  rewrite Hf, Hdev. change (Z.land 0 (Z.lor B_VALID B_DIRTY) =? B_VALID) with false.
  change (negb (1 =? 1)) with false. cbn iota. erewrite bind_ok by (unfold gets; reflexivity).
  change (disksize (k_fs (touch s))) with (disksize (k_fs s)).
  destruct (Z.leb_spec (disksize (k_fs s)) (blockno (buf_at i s))); [lia|].
  change (bit_set 0 B_DIRTY) with false. cbn iota.
  erewrite bind_ok by (unfold modify; reflexivity).
  unfold modify. f_equal. rewrite upd_buf_buf. apply upd_buf_ext.
  change (buf_at i (touch s)) with (buf_at i s). unfold upd_bflags, upd_bdata. simpl. rewrite Hf. done.
Qed.

(** A dirty buffer is written. *)
Lemma iderw_write :
  bflags (buf_at i s) = Z.lor B_VALID B_DIRTY ->
  iderw i s =
  Ok tt (upd_k_fs (upd_disk (cons (blockno (buf_at i s), bdata (buf_at i s))))
           (upd_buf i (upd_bflags (fun _ => B_VALID)) (touch s))).
Proof.
  intros Hf. unfold iderw. erewrite bind_ok by exact holding_mine. cbn [negb].
  erewrite bind_ok by (unfold gets; reflexivity). change (buf_at i (touch s)) with (buf_at i s).
  rewrite Hf, Hdev.
  change (Z.land (Z.lor B_VALID B_DIRTY) (Z.lor B_VALID B_DIRTY) =? B_VALID) with false.
  change (negb (1 =? 1)) with false. cbn iota. erewrite bind_ok by (unfold gets; reflexivity).
  change (disksize (k_fs (touch s))) with (disksize (k_fs s)).
  destruct (Z.leb_spec (disksize (k_fs s)) (blockno (buf_at i s))); [lia|].
  change (bit_set (Z.lor B_VALID B_DIRTY) B_DIRTY) with true. cbn iota.
  erewrite bind_ok by (erewrite bind_ok by (unfold modify; reflexivity); unfold modify; reflexivity).
  unfold modify. f_equal.
  transitivity (upd_k_fs (upd_disk (cons (blockno (buf_at i s), bdata (buf_at i s))))
    (upd_buf i (fun x => upd_bflags (fun fl => Z.lor fl B_VALID)
       (upd_bflags (fun fl => Z.land fl (Z.lnot B_DIRTY)) x)) (touch s))).
  - unfold upd_buf, upd_k_fs, upd_bufs, upd_disk. cbn -[alter]. do 2 f_equal.
    by rewrite list_alter_alter_eq.
  - f_equal. apply upd_buf_ext. change (buf_at i (touch s)) with (buf_at i s).
    unfold upd_bflags. simpl. by rewrite Hf.
Qed.

End Iderw.

(** [bwrite] of a valid buffer. *)
Lemma bwrite_run `{Waits} s p i :
  idle s p -> (i < length (bufs (k_fs s)))%nat ->
  block_lock (buf_at i s) = Sleeplock true (pid (pr_at p s)) -> bdev (buf_at i s) = 1 ->
  0 <= blockno (buf_at i s) < disksize (k_fs s) ->
  bflags (buf_at i s) = B_VALID \/ bflags (buf_at i s) = Z.lor B_VALID B_DIRTY ->
  bwrite i s =
  Ok tt (upd_k_fs (upd_disk (cons (blockno (buf_at i s), bdata (buf_at i s))))
           (upd_buf i (upd_bflags (fun _ => B_VALID)) (touch s))).
Proof.
  intros Hid Hi Hlk Hdev Hno Hf. unfold bwrite.
  erewrite bind_ok by (by apply (holding_mine s p)). cbn [negb].
  erewrite bind_ok by (unfold modify; reflexivity). set (s1 := upd_buf i _ (touch s)).
  assert (Hb : buf_at i s1 = upd_bflags (fun fl => Z.lor fl B_DIRTY) (buf_at i s))
    by (unfold s1; by rewrite buf_at_upd).
  rewrite (iderw_write s1 p).
  - f_equal. rewrite Hb. cbn [blockno bdata upd_bflags]. f_equal. change (touch s1) with
      (upd_buf i (upd_bflags (fun fl => Z.lor fl B_DIRTY)) (touch (touch s))).
    by rewrite touch_touch, upd_buf_buf.
  - apply (quiet_idle s); [apply quiet_buf|done].
  - unfold s1. simpl. by rewrite length_alter.
  - by rewrite Hb.
  - by rewrite Hb.
  - by rewrite Hb.
  - rewrite Hb. simpl. by destruct Hf as [->| ->].
Qed.

(** ** What the cache stands for *)

(** All but the lock and the reference count. *)
Definition core (x : buf) : Z * Z * Z * list Z := (bflags x, bdev x, blockno x, bdata x).

Definition NB : nat := Z.to_nat NBUF.

(** Buffer [i] when the caller holds the buffers [H]. *)
Record buf_ok (s : kst) (p : nat) (H : gset nat) (V : Z -> list Z) (i : nat) : Prop := {
  bo_flags : bflags (buf_at i s) = 0 \/ bflags (buf_at i s) = 2 \/ bflags (buf_at i s) = 6;
  bo_dev : bdev (buf_at i s) = 1 -> bflags (buf_at i s) <> 0;
  bo_valid : bflags (buf_at i s) <> 0 ->
    bdev (buf_at i s) = 1 /\ V (blockno (buf_at i s)) = bdata (buf_at i s);
  bo_free : i ∉ H -> locked (block_lock (buf_at i s)) = false /\ refcnt (buf_at i s) = 0;
  bo_clean : i ∉ H -> bflags (buf_at i s) = 2 ->
    bdata (buf_at i s) = disk_block s (blockno (buf_at i s));
  bo_held : i ∈ H -> block_lock (buf_at i s) = Sleeplock true (pid (pr_at p s)) /\
    refcnt (buf_at i s) = 1 /\ bflags (buf_at i s) <> 0 }.

Definition cached (s : kst) (i : nat) (b : Z) : Prop :=
  bdev (buf_at i s) = 1 /\ blockno (buf_at i s) = b /\ bflags (buf_at i s) <> 0.

(** The blocks [V], held by the disk and the buffers. *)
Record bcache (s : kst) (p : nat) (H : gset nat) (V : Z -> list Z) : Prop := {
  bc_len : length (bufs (k_fs s)) = NB;
  bc_lru : lru (k_fs s) ≡ₚ seq 0 NB;
  bc_buf : forall i, (i < NB)%nat -> buf_ok s p H V i;
  bc_uniq : forall i j, (i < NB)%nat -> (j < NB)%nat -> bdev (buf_at i s) = 1 ->
    bdev (buf_at j s) = 1 -> blockno (buf_at i s) = blockno (buf_at j s) -> i = j;
  bc_miss : forall b, (forall i, (i < NB)%nat -> ~ cached s i b) -> V b = disk_block s b;
  bc_in : forall i, i ∈ H -> (i < NB)%nat }.

(** A buffer that can be given to another block. *)
Definition room (s : kst) (H : gset nat) : Prop :=
  exists i, (i < NB)%nat /\ i ∉ H /\ bflags (buf_at i s) <> 6.

Lemma find_buf_some f l s i : find_buf f l s = Some i -> i ∈ l /\ f (buf_at i s) = true.
Proof.
  induction l as [|j l IH]; simpl; [done|]. destruct (f (buf_at j s)) eqn:E.
  - intros [= <-]. split; [by left|done].
  - intros [? ?]%IH. split; [by right|done].
Qed.

Lemma find_buf_none f l s : find_buf f l s = None -> forall i, i ∈ l -> f (buf_at i s) = false.
Proof.
  induction l as [|j l IH]; simpl; intros E i Hi; [by apply not_elem_of_nil in Hi|].
  destruct (f (buf_at j s)) eqn:Ej; [done|]. apply elem_of_cons in Hi as [->|Hi]; [done|by apply IH].
Qed.

Lemma find_buf_same f l s s' :
  bufs (k_fs s') = bufs (k_fs s) -> find_buf f l s' = find_buf f l s.
Proof. intros E. induction l as [|j l IH]; simpl; [done|]. unfold buf_at. by rewrite E, IH. Qed.

Section Bget.
Context `{Waits}.
Context (s : kst) (p : nat) (Hid : idle s p) (i : nat) (Hi : (i < length (bufs (k_fs s)))%nat).

Notation mine := (Sleeplock true (pid (pr_at p s))).

(** The end of [bget], once the buffer is chosen. *)
Lemma bget_lock g :
  (0 < waits)%nat -> locked (block_lock (g (buf_at i s))) = false ->
  (modify (upd_buf i g) ;; release L_bcache ;; acquiresleep (buf_lock i) ;; ret i)
    (set_cpu (acquired L_bcache (get_cpu s)) s) =
  Ok i (upd_buf i (fun x => upd_block_lock (fun _ => mine) (g x)) (touch s)).
Proof.
  intros Hw Hl. erewrite bind_ok by (unfold modify; reflexivity).
  erewrite bind_ok by (by apply (release_idle s p Hid L_bcache)).
  set (s1 := set_cpu _ _). change s1 with (upd_buf i g (touch s)).
  erewrite bind_ok.
  2:{ apply (acquiresleep_run _ p).
      - apply (quiet_idle s); [apply quiet_buf|done].
      - simpl. by rewrite length_alter.
      - done.
      - by rewrite buf_at_upd. }
  unfold ret. f_equal. change (touch (upd_buf i g (touch s))) with (upd_buf i g (touch (touch s))).
  by rewrite touch_touch, upd_buf_buf.
Qed.

(** The block is in the cache. *)
Lemma bread_hit b :
  (0 < waits)%nat -> bflags (buf_at i s) = 2 \/ bflags (buf_at i s) = 6 ->
  locked (block_lock (buf_at i s)) = false ->
  find_buf (fun x => (bdev x =? 1) && (blockno x =? b)) (lru (k_fs s)) s = Some i ->
  bread 1 b s =
  Ok i (upd_buf i (fun x => upd_block_lock (fun _ => mine) (upd_refcnt (fun n => n + 1) x)) (touch s)).
Proof.
  intros Hw Hf Hl Hfind. unfold bread. erewrite bind_ok.
  2:{ unfold bget. erewrite bind_ok by (by apply (acquire_idle s p)).
      erewrite bind_ok by (unfold get; reflexivity).
      rewrite (find_buf_same _ _ s) by done. cbn [k_fs upd_k_mm set_cpu kst_HasCpu].
      rewrite Hfind. by apply bget_lock. }
  erewrite bind_ok by (unfold gets; reflexivity). rewrite buf_at_upd by done. cbn [bflags].
  assert (bit_set (bflags (buf_at i s)) B_VALID = true) as E by (by destruct Hf as [-> | ->]).
  change (bflags _) with (bflags (buf_at i s)). rewrite E. done.
Qed.

(** The block is read into a buffer that is free. *)
Lemma bread_miss b :
  (0 < waits)%nat -> locked (block_lock (buf_at i s)) = false -> 0 <= b < disksize (k_fs s) ->
  find_buf (fun x => (bdev x =? 1) && (blockno x =? b)) (lru (k_fs s)) s = None ->
  find_buf (fun x => (refcnt x =? 0) && negb (bit_set (bflags x) B_DIRTY))
    (reverse (lru (k_fs s))) s = Some i ->
  bread 1 b s = Ok i (upd_buf i (fun _ => Buf 2 1 b mine 1 (disk_block s b)) (touch s)).
Proof.
  intros Hw Hl Hb Hnone Hfind. unfold bread.
  set (g := fun x => upd_bdev (fun _ => 1) (upd_blockno (fun _ => b)
              (upd_bflags (fun _ => 0) (upd_refcnt (fun _ => 1) x)))).
  set (s1 := upd_buf i (fun x => upd_block_lock (fun _ => mine) (g x)) (touch s)).
  erewrite bind_ok.
  2:{ unfold bget. erewrite bind_ok by (by apply (acquire_idle s p)).
      erewrite bind_ok by (unfold get; reflexivity).
      rewrite !(find_buf_same _ _ s) by done. cbn [k_fs upd_k_mm set_cpu kst_HasCpu].
      rewrite Hnone. rewrite (find_buf_same _ _ s), Hfind by done. by apply (bget_lock g). }
  assert (Hb1 : buf_at i s1 = upd_block_lock (fun _ => mine) (g (buf_at i s)))
    by (unfold s1; by rewrite buf_at_upd).
  erewrite bind_ok by (unfold gets; reflexivity). fold s1. rewrite Hb1. cbn [bflags upd_block_lock g
    upd_bdev upd_blockno upd_bflags upd_refcnt].
  change (negb (bit_set 0 B_VALID)) with true. cbn iota.
  erewrite bind_ok.
  2:{ apply (iderw_read s1 p).
      - apply (quiet_idle s); [apply quiet_buf|done].
      - simpl. by rewrite length_alter.
      - by rewrite Hb1.
      - by rewrite Hb1.
      - by rewrite Hb1.
      - by rewrite Hb1. }
  unfold ret. f_equal. rewrite Hb1. change (touch s1) with
    (upd_buf i (fun x => upd_block_lock (fun _ => mine) (g x)) (touch (touch s))).
  by rewrite touch_touch, upd_buf_buf.
Qed.
End Bget.

(** ** A change of one buffer *)

Lemma bcache_upd s s' p (H H' : gset nat) V V' i :
  bcache s p H V -> (i < NB)%nat ->
  length (bufs (k_fs s')) = NB -> lru (k_fs s') ≡ₚ seq 0 NB ->
  pid (pr_at p s') = pid (pr_at p s) ->
  (forall j, j <> i -> buf_at j s' = buf_at j s) ->
  (forall j, j <> i -> j ∈ H' <-> j ∈ H) ->
  buf_ok s' p H' V' i ->
  (forall j, (j < NB)%nat -> j <> i -> bdev (buf_at j s) = 1 -> bdev (buf_at i s') = 1 ->
     blockno (buf_at j s) <> blockno (buf_at i s')) ->
  (forall j b, (j < NB)%nat -> j <> i -> cached s j b ->
     V' b = V b /\ disk_block s' b = disk_block s b) ->
  (forall b, (forall j, (j < NB)%nat -> ~ cached s' j b) -> V' b = disk_block s' b) ->
  bcache s' p H' V'.
Proof.
  intros [Hlen Hlru Hbuf Huniq Hmiss Hin] Hi Hlen' Hlru' Hpid Hsame HH Hok Hne Hothers Hmiss'.
  split; [done|done| | |done|].
  - intros j Hj. destruct (decide (j = i)) as [->|Hji]; [done|].
    destruct (Hbuf j Hj) as [Hfl Hd Hv Hfr Hcl Hhe].
    assert (Hin' : j ∈ H' <-> j ∈ H) by (by apply HH).
    split; rewrite Hsame by done; try done.
    + intros Hf. destruct (Hv Hf) as [Hv1 Hv2]. split; [done|]. rewrite <- Hv2.
      by apply (Hothers j).
    + intros Hj'. apply Hfr. by rewrite <- Hin'.
    + intros Hj' Hf. rewrite Hcl; [|by rewrite <- Hin'|done]. symmetry. apply (Hothers j); [done|done|].
      split_and!; [apply Hv; by rewrite Hf|done|by rewrite Hf].
    + intros Hj'. rewrite Hpid. apply Hhe. by rewrite <- Hin'.
  - intros j k Hj Hk. destruct (decide (j = i)) as [->|Hji], (decide (k = i)) as [->|Hki].
    + done.
    + rewrite (Hsame k) by done. intros H1 H2 E. by destruct (Hne k Hk Hki H2 H1).
    + rewrite (Hsame j) by done. intros H1 H2 E. by destruct (Hne j Hj Hji H1 H2).
    + rewrite !Hsame by done. by apply Huniq.
  - intros j Hj. destruct (decide (j = i)) as [->|]; [done|]. apply Hin. by apply HH.
Qed.

(** ** bread *)

(** [bread] has locked buffer [i] for block [b]. *)
Record bread_post (s : kst) (p : nat) (H : gset nat) (V : Z -> list Z) (b : Z) (i : nat)
    (s' : kst) : Prop := {
  br_quiet : quiet s s';
  br_disk : disk (k_fs s') = disk (k_fs s);
  br_cache : bcache s' p ({[i]} ∪ H) V;
  br_new : i ∉ H;
  br_lt : (i < NB)%nat;
  br_block : blockno (buf_at i s') = b;
  br_dev : bdev (buf_at i s') = 1;
  br_others : forall j, j <> i -> buf_at j s' = buf_at j s;
  br_dirty : bflags (buf_at i s') = 6 <-> bflags (buf_at i s) = 6;
  br_clean : bflags (buf_at i s') <> 6 -> bdata (buf_at i s') = disk_block s' b;
  br_same : bflags (buf_at i s) = 6 -> core (buf_at i s') = core (buf_at i s) }.

Lemma in_add_ne (i j : nat) (H : gset nat) : j <> i -> j ∈ ({[i]} ∪ H) <-> j ∈ H.
Proof. intros Hne. set_solver. Qed.

Lemma in_add (i : nat) (H : gset nat) : i ∈ ({[i]} ∪ H).
Proof. set_solver. Qed.

Section Bread.
Context (s : kst) (p : nat) (H : gset nat) (V : Z -> list Z) (Hbc : bcache s p H V).
Context (i : nat) (Hi : (i < NB)%nat) (Hn : i ∉ H).

Notation mine := (Sleeplock true (pid (pr_at p s))).

Lemma hit_cache :
  bdev (buf_at i s) = 1 ->
  bcache (upd_buf i (fun x => upd_block_lock (fun _ => mine) (upd_refcnt (fun n => n + 1) x))
            (touch s)) p ({[i]} ∪ H) V.
Proof.
  intros Hdev. pose proof (bc_buf _ _ _ _ Hbc i Hi) as [Hfl Hd Hv Hfr Hcl Hhe].
  destruct (Hfr Hn) as [_ Hrc].
  assert (Hi' : (i < length (bufs (k_fs (touch s))))%nat) by (simpl; by rewrite (bc_len _ _ _ _ Hbc)).
  assert (Hsame : forall j f, j <> i -> buf_at j (upd_buf i f (touch s)) = buf_at j s)
    by (intros; by rewrite buf_at_upd_ne).
  apply (bcache_upd s _ p H _ V V i Hbc Hi).
  - simpl. rewrite length_alter. apply Hbc.
  - apply Hbc.
  - done.
  - intros j Hj. by apply Hsame.
  - intros j. apply in_add_ne.
  - split; rewrite buf_at_upd by done; cbn [bflags bdev blockno bdata block_lock refcnt]; try done.
    + intros []. apply in_add.
    + intros []. apply in_add.
    + intros _. split_and!; [done| |by apply Hd].
      change (refcnt (buf_at i s) + 1 = 1). lia.
  - intros j Hj Hji H1 _. rewrite buf_at_upd by done. cbn [blockno]. intros E.
    apply Hji. by apply (bc_uniq _ _ _ _ Hbc).
  - done.
  - intros b Hb. change (V b = disk_block s b). apply (bc_miss _ _ _ _ Hbc). intros j Hj Hc.
    apply (Hb j Hj). unfold cached. destruct (decide (j = i)) as [->|]; [|by rewrite Hsame].
    by rewrite buf_at_upd.
Qed.

Lemma miss_cache b :
  bflags (buf_at i s) <> 6 -> (forall j, (j < NB)%nat -> ~ cached s j b) ->
  bcache (upd_buf i (fun _ => Buf 2 1 b mine 1 (disk_block s b)) (touch s)) p ({[i]} ∪ H) V.
Proof.
  intros Hnd Hno. pose proof (bc_buf _ _ _ _ Hbc i Hi) as [Hfl Hd Hv Hfr Hcl Hhe].
  destruct (Hfr Hn) as [_ Hrc].
  assert (Hi' : (i < length (bufs (k_fs (touch s))))%nat) by (simpl; by rewrite (bc_len _ _ _ _ Hbc)).
  assert (Hsame : forall j f, j <> i -> buf_at j (upd_buf i f (touch s)) = buf_at j s)
    by (intros; by rewrite buf_at_upd_ne).
  assert (HV : V b = disk_block s b) by (by apply (bc_miss _ _ _ _ Hbc)).
  apply (bcache_upd s _ p H _ V V i Hbc Hi).
  - simpl. rewrite length_alter. apply Hbc.
  - apply Hbc.
  - done.
  - intros j Hj. by apply Hsame.
  - intros j. apply in_add_ne.
  - split; rewrite buf_at_upd by done; cbn [bflags bdev blockno bdata block_lock refcnt]; try done.
    + auto.
    + intros []. apply in_add.
  - intros j Hj Hji H1 _. rewrite buf_at_upd by done. cbn [blockno]. intros E.
    apply (Hno j Hj). split_and!; [done|done|]. by apply (bc_buf _ _ _ _ Hbc j Hj).
  - done.
  - intros b' Hb. change (V b' = disk_block s b').
    destruct (decide (b' = b)) as [->|Hbb]; [done|].
    destruct (decide (cached s i b')) as [Hc|Hc].
    + (* the block that was evicted *)
      destruct Hc as (_ & <- & Hf). rewrite (proj2 (Hv Hf)). apply Hcl; [done|]. naive_solver.
    + apply (bc_miss _ _ _ _ Hbc). intros j Hj Hcj. destruct (decide (j = i)) as [->|Hji]; [done|].
      apply (Hb j Hj). unfold cached. by rewrite Hsame.
Qed.
End Bread.

(** ** Specifications *)

Lemma cached_at s p H V i :
  bcache s p H V -> (i < NB)%nat -> bdev (buf_at i s) = 1 -> cached s i (blockno (buf_at i s)).
Proof. intros Hbc Hi Hd. split_and!; [done|done|]. by apply (bc_buf _ _ _ _ Hbc i Hi). Qed.

Lemma lru_lt s p H V i : bcache s p H V -> i ∈ lru (k_fs s) <-> (i < NB)%nat.
Proof.
  intros Hbc. rewrite (bc_lru _ _ _ _ Hbc), elem_of_seq. lia.
Qed.

Section Spec.
Context `{W : Waits} (Hw : (0 < waits)%nat).

Lemma bread_wp (Q : nat -> kst -> Prop) s p H V b :
  idle s p -> bcache s p H V -> 0 <= b < disksize (k_fs s) ->
  (forall i, i ∈ H -> blockno (buf_at i s) <> b) ->
  room s H \/ (exists i, (i < NB)%nat /\ cached s i b) ->
  (forall i s', bread_post s p H V b i s' -> Q i s') ->
  wp (bread 1 b) Q s.
Proof.
  intros Hid Hbc Hb Hnh Hroom Hk.
  destruct (find_buf (fun x => (bdev x =? 1) && (blockno x =? b)) (lru (k_fs s)) s) as [i|] eqn:Hf.
  - apply find_buf_some in Hf as Hf'. destruct Hf' as [Hi [Hd Hbn]%andb_prop].
    apply Z.eqb_eq in Hd, Hbn. apply (lru_lt _ _ _ _ _ Hbc) in Hi.
    assert (Hn : i ∉ H) by (intros Hin; by apply (Hnh i)).
    destruct (bc_buf _ _ _ _ Hbc i Hi) as [Hfl Hdv Hv Hfr Hcl _].
    eapply wp_run; [apply (bread_hit s p Hid i)|].
    + by rewrite (bc_len _ _ _ _ Hbc).
    + done.
    + specialize (Hdv Hd). naive_solver.
    + by apply Hfr.
    + done.
    + assert (Hi' : (i < length (bufs (k_fs (touch s))))%nat)
        by (simpl; by rewrite (bc_len _ _ _ _ Hbc)).
      apply Hk. split; try done.
      * apply quiet_buf.
      * by apply hit_cache.
      * by rewrite buf_at_upd.
      * by rewrite buf_at_upd.
      * intros j Hj. by rewrite buf_at_upd_ne.
      * by rewrite buf_at_upd.
      * rewrite buf_at_upd by done. cbn [bflags bdata upd_block_lock upd_refcnt]. intros Hf6.
        rewrite <- Hbn. apply Hcl; [done|]. specialize (Hdv Hd). naive_solver.
      * by rewrite buf_at_upd.
  - assert (Hnone := find_buf_none _ _ _ Hf).
    assert (Hno : forall j, (j < NB)%nat -> ~ cached s j b).
    { intros j Hj (Hd & Hbn & _). apply (lru_lt _ _ _ _ _ Hbc) in Hj. specialize (Hnone j Hj).
      cbn beta in Hnone. by rewrite Hd, Hbn, !Z.eqb_refl in Hnone. }
    destruct (find_buf (fun x => (refcnt x =? 0) && negb (bit_set (bflags x) B_DIRTY))
                (reverse (lru (k_fs s))) s) as [i|] eqn:Hg.
    + apply find_buf_some in Hg as Hg'. destruct Hg' as [Hi [Hrc Hdt]%andb_prop].
      apply elem_of_reverse, (lru_lt _ _ _ _ _ Hbc) in Hi. apply Z.eqb_eq in Hrc.
      destruct (bc_buf _ _ _ _ Hbc i Hi) as [Hfl Hdv Hv Hfr Hcl Hhe].
      assert (Hn : i ∉ H) by (intros (_ & E & _)%Hhe; lia).
      assert (Hnd : bflags (buf_at i s) <> 6) by (intros E; by rewrite E in Hdt).
      eapply wp_run; [apply (bread_miss s p Hid i)|].
      * by rewrite (bc_len _ _ _ _ Hbc).
      * done.
      * by apply Hfr.
      * done.
      * done.
      * done.
      * assert (Hi' : (i < length (bufs (k_fs (touch s))))%nat)
          by (simpl; by rewrite (bc_len _ _ _ _ Hbc)).
        apply Hk. split; try done; rewrite ?buf_at_upd by done; try done.
        -- apply quiet_buf.
        -- by apply miss_cache.
        -- intros j Hj. by rewrite buf_at_upd_ne.
    + exfalso. destruct Hroom as [(i & Hi & Hn & Hnd)|(i & Hi & Hc)]; [|by destruct (Hno i Hi)].
      assert (Hg' := find_buf_none _ _ _ Hg i). rewrite elem_of_reverse in Hg'.
      specialize (Hg' (proj2 (lru_lt _ _ _ _ _ Hbc) Hi)). cbn beta in Hg'.
      destruct (bc_buf _ _ _ _ Hbc i Hi) as [Hfl Hdv Hv Hfr Hcl Hhe].
      destruct (Hfr Hn) as [_ Hrc]. rewrite Hrc in Hg'. by destruct Hfl as [E|[E|E]]; rewrite E in Hg'.
Qed.

(** Storing into a locked buffer changes the block it stands for. *)
Lemma bset_cache s p H V i f :
  bcache s p H V -> i ∈ H ->
  bcache (upd_buf i (upd_bdata f) s) p H
    (fun b => if b =? blockno (buf_at i s) then f (bdata (buf_at i s)) else V b).
Proof.
  intros Hbc Hin. pose proof (bc_in _ _ _ _ Hbc i Hin) as Hi.
  pose proof (bc_buf _ _ _ _ Hbc i Hi) as [Hfl Hd Hv Hfr Hcl Hhe].
  destruct (Hhe Hin) as (Hlk & Hrc & Hf0). destruct (Hv Hf0) as [Hdev HV].
  assert (Hi' : (i < length (bufs (k_fs s)))%nat) by (by rewrite (bc_len _ _ _ _ Hbc)).
  apply (bcache_upd s _ p H _ V _ i Hbc Hi).
  - simpl. rewrite length_alter. apply Hbc.
  - apply Hbc.
  - done.
  - intros j Hj. by rewrite buf_at_upd_ne.
  - done.
  - split; rewrite buf_at_upd by done; cbn [bflags bdev blockno bdata block_lock refcnt upd_bdata];
      try done. intros _. split; [done|]. by rewrite Z.eqb_refl.
  - intros j Hj Hji H1 _. rewrite buf_at_upd by done. intros E.
    apply Hji. by apply (bc_uniq _ _ _ _ Hbc).
  - intros j b Hj Hji (H1 & <- & H3).
    destruct (Z.eqb_spec (blockno (buf_at j s)) (blockno (buf_at i s))) as [E|]; [|done].
    destruct Hji. by apply (bc_uniq _ _ _ _ Hbc).
  - intros b Hb. change (disk_block (upd_buf i (upd_bdata f) s) b) with (disk_block s b).
    destruct (Z.eqb_spec b (blockno (buf_at i s))) as [->|Hne].
    + destruct (Hb i Hi). unfold cached. by rewrite buf_at_upd.
    + apply (bc_miss _ _ _ _ Hbc). intros j Hj Hc. apply (Hb j Hj). unfold cached.
      destruct (decide (j = i)) as [->|]; [|by rewrite buf_at_upd_ne]. destruct Hc as (_ & E & _). done.
Qed.

(** [bwrite] puts a locked buffer on the disk. *)
Definition written (i : nat) (s : kst) : kst :=
  upd_k_fs (upd_disk (cons (blockno (buf_at i s), bdata (buf_at i s))))
    (upd_buf i (upd_bflags (fun _ => B_VALID)) (touch s)).

Lemma written_at i s :
  (i < length (bufs (k_fs s)))%nat ->
  buf_at i (written i s) = upd_bflags (fun _ => B_VALID) (buf_at i s).
Proof. intros Hi. unfold written, buf_at. simpl. by rewrite alter_total_eq. Qed.

Lemma written_ne i j s : j <> i -> buf_at j (written i s) = buf_at j s.
Proof. intros Hj. unfold written, buf_at. simpl. by rewrite alter_total_ne. Qed.

Lemma written_block i s b :
  disk_block (written i s) b =
  if b =? blockno (buf_at i s) then bdata (buf_at i s) else disk_block s b.
Proof. done. Qed.

Lemma bwrite_cache s p H V i :
  idle s p -> bcache s p H V -> i ∈ H -> 0 <= blockno (buf_at i s) < disksize (k_fs s) ->
  bwrite i s = Ok tt (written i s) /\ quiet s (written i s) /\ bcache (written i s) p H V.
Proof.
  intros Hid Hbc Hin Hb. pose proof (bc_in _ _ _ _ Hbc i Hin) as Hi.
  pose proof (bc_buf _ _ _ _ Hbc i Hi) as [Hfl Hd Hv Hfr Hcl Hhe].
  destruct (Hhe Hin) as (Hlk & Hrc & Hf0). destruct (Hv Hf0) as [Hdev HV].
  assert (Hi' : (i < length (bufs (k_fs s)))%nat) by (by rewrite (bc_len _ _ _ _ Hbc)).
  pose proof (written_at i s Hi') as Hat. pose proof (written_ne i) as Hsame.
  pose proof (written_block i s) as Hdisk.
  split; [|split].
  - apply (bwrite_run s p); try done. naive_solver.
  - destruct (quiet_touch s) as [A1 A2 A3 A4 A5]. by split.
  - apply (bcache_upd s _ p H _ V V i Hbc Hi).
    + simpl. rewrite length_alter. apply Hbc.
    + apply Hbc.
    + done.
    + intros j Hj. by apply Hsame.
    + done.
    + split; rewrite Hat; cbn [bflags bdev blockno bdata block_lock refcnt upd_bflags];
        try done; try naive_solver.
    + intros j Hj Hji H1 _. rewrite Hat. intros E. apply Hji. by apply (bc_uniq _ _ _ _ Hbc).
    + intros j b Hj Hji (H1 & <- & H3). split; [done|]. rewrite Hdisk.
      destruct (Z.eqb_spec (blockno (buf_at j s)) (blockno (buf_at i s))) as [E|]; [|done].
      destruct Hji. by apply (bc_uniq _ _ _ _ Hbc).
    + intros b Hnc. rewrite Hdisk. destruct (Z.eqb_spec b (blockno (buf_at i s))) as [->|Hne]; [done|].
      apply (bc_miss _ _ _ _ Hbc). intros j Hj Hc. apply (Hnc j Hj). unfold cached.
      destruct (decide (j = i)) as [->|]; [|by rewrite Hsame]. destruct Hc as (_ & E & _). done.
Qed.

Lemma lru_front_perm i l : NoDup l -> i ∈ l -> lru_front i l ≡ₚ l.
Proof.
  intros Hnd Hi. unfold lru_front. apply list_elem_of_split in Hi as (l1 & l2 & ->).
  apply list.NoDup_app in Hnd as (_ & Hx & Hi2%NoDup_cons_1_1).
  assert (Hi1 : i ∉ l1) by (intros Hi1; specialize (Hx i Hi1); set_solver).
  assert (Hkeep : forall l : list nat, i ∉ l -> filter (fun j => j <> i) l = l).
  { induction l as [|j l IH]; [done|]. intros [Hne Hl]%not_elem_of_cons.
    rewrite filter_cons_True by done. by rewrite IH. }
  rewrite list.filter_app, filter_cons_False by naive_solver. rewrite !Hkeep by done.
  by rewrite Permutation_middle.
Qed.

(** [brelse] gives a buffer back. *)
Definition given_back (i : nat) (s : kst) : kst :=
  upd_k_fs (upd_lru (lru_front i))
    (upd_buf i (upd_refcnt (fun n => u32 (n - 1)))
      (woken (Ch_buf i) (upd_buf i (upd_block_lock (fun _ => sleeplock0)) (touch s)))).

Lemma brelse_run s p i :
  idle s p -> (i < length (bufs (k_fs s)))%nat ->
  block_lock (buf_at i s) = Sleeplock true (pid (pr_at p s)) -> refcnt (buf_at i s) = 1 ->
  brelse i s = Ok tt (given_back i s).
Proof.
  intros Hid Hi Hlk Hrc. unfold brelse.
  erewrite bind_ok by (by apply (holding_mine s p)). cbn [negb].
  assert (Hid1 : idle (touch s) p) by (by apply (quiet_idle s); [apply quiet_touch|]).
  erewrite bind_ok by (by apply (releasesleep_run (touch s) p)). rewrite touch_touch.
  set (s1 := woken _ _).
  assert (Hid2 : idle s1 p) by (apply (quiet_idle s); [apply quiet_woken, quiet_buf|done]).
  assert (Ht1 : touch s1 = s1).
  { change (touch s1) with (woken (Ch_buf i)
      (upd_buf i (upd_block_lock (fun _ => sleeplock0)) (touch (touch s)))). by rewrite touch_touch. }
  erewrite bind_ok by (by apply (acquire_idle s1 p)).
  erewrite bind_ok by (unfold modify; reflexivity).
  erewrite bind_ok by (unfold gets; reflexivity).
  assert (Hr : refcnt (buf_at i (upd_buf i (upd_refcnt (fun n => u32 (n - 1)))
      (set_cpu (acquired L_bcache (get_cpu s1)) s1))) = 0).
  { rewrite buf_at_upd by (simpl; by rewrite length_alter). cbn [upd_refcnt refcnt].
    change (buf_at i (set_cpu _ s1)) with (buf_at i s1). unfold s1.
    change (buf_at i (woken _ ?x)) with (buf_at i x). rewrite buf_at_upd by done.
    cbn [upd_block_lock refcnt]. change (buf_at i (touch s)) with (buf_at i s). by rewrite Hrc. }
  rewrite Hr. change (0 =? 0) with true. cbn iota.
  erewrite bind_ok by (unfold modify; reflexivity).
  rewrite (release_idle s1 p Hid2 L_bcache) by done. f_equal.
  change (set_cpu (refresh (get_cpu s1)) _) with
    (upd_k_fs (upd_lru (lru_front i)) (upd_buf i (upd_refcnt (fun n => u32 (n - 1))) (touch s1))).
  by rewrite Ht1.
Qed.

Lemma given_back_at i s :
  (i < length (bufs (k_fs s)))%nat ->
  buf_at i (given_back i s) =
  upd_refcnt (fun n => u32 (n - 1)) (upd_block_lock (fun _ => sleeplock0) (buf_at i s)).
Proof.
  intros Hi. unfold given_back, buf_at. simpl. rewrite !alter_total_eq; rewrite ?length_alter; done.
Qed.

Lemma given_back_ne i j s : j <> i -> buf_at j (given_back i s) = buf_at j s.
Proof. intros Hj. unfold given_back, buf_at. simpl. by rewrite !alter_total_ne. Qed.

Lemma given_back_quiet i s : quiet s (given_back i s).
Proof.
  assert (Hq : quiet s (woken (Ch_buf i) (upd_buf i (upd_block_lock (fun _ => sleeplock0)) (touch s))))
    by (apply quiet_woken, quiet_buf).
  destruct Hq as [A1 A2 A3 A4 A5]. by split.
Qed.

Lemma brelse_cache s p H V i :
  idle s p -> bcache s p H V -> i ∈ H ->
  bflags (buf_at i s) = 6 \/ bdata (buf_at i s) = disk_block s (blockno (buf_at i s)) ->
  brelse i s = Ok tt (given_back i s) /\ quiet s (given_back i s) /\
  bcache (given_back i s) p (H ∖ {[i]}) V.
Proof.
  intros Hid Hbc Hin Hcl0. pose proof (bc_in _ _ _ _ Hbc i Hin) as Hi.
  pose proof (bc_buf _ _ _ _ Hbc i Hi) as [Hfl Hd Hv Hfr Hcl Hhe].
  destruct (Hhe Hin) as (Hlk & Hrc & Hf0). destruct (Hv Hf0) as [Hdev HV].
  assert (Hi' : (i < length (bufs (k_fs s)))%nat) by (by rewrite (bc_len _ _ _ _ Hbc)).
  pose proof (given_back_at i s Hi') as Hat. pose proof (given_back_ne i) as Hne.
  pose proof (given_back_quiet i s) as Hq.
  split; [by apply (brelse_run s p)|]. split; [done|].
  apply (bcache_upd s _ p H _ V V i Hbc Hi).
  - simpl. rewrite !length_alter. apply Hbc.
  - cbn [given_back k_fs upd_k_fs upd_lru lru upd_buf upd_bufs woken upd_k_pt touch set_cpu
         kst_HasCpu upd_k_mm].
    assert (Hp := bc_lru _ _ _ _ Hbc). rewrite <- Hp. apply lru_front_perm.
    + rewrite Hp. apply NoDup_seq.
    + by apply (lru_lt _ _ _ _ _ Hbc).
  - by apply quiet_pid.
  - intros j Hj. by apply Hne.
  - intros j Hj. set_solver.
  - split; rewrite Hat; cbn [bflags bdev blockno bdata block_lock refcnt upd_refcnt upd_block_lock];
      try done.
    + intros _. by rewrite Hrc.
    + intros _ Hf. destruct Hcl0 as [E|E]; [congruence|]. exact E.
    + set_solver.
  - intros j Hj Hji H1 _. rewrite Hat. intros E. apply Hji. by apply (bc_uniq _ _ _ _ Hbc).
  - done.
  - intros b Hnc. change (disk_block (given_back i s) b) with (disk_block s b).
    apply (bc_miss _ _ _ _ Hbc). intros j Hj Hc. apply (Hnc j Hj). unfold cached.
    destruct (decide (j = i)) as [->|]; [by rewrite Hat|by rewrite Hne].
Qed.
End Spec.

(** ** Dirty blocks *)

(** The cache holds a change to [b] that is not on the disk. *)
Definition dirty (s : kst) (b : Z) : Prop :=
  exists i, (i < NB)%nat /\ bdev (buf_at i s) = 1 /\ blockno (buf_at i s) = b /\
    bflags (buf_at i s) = 6.

(** Apart from dirty blocks and blocks in use the disk is up to date. *)
Lemma not_dirty_disk s p V b : bcache s p ∅ V -> ~ dirty s b -> V b = disk_block s b.
Proof.
  intros Hbc Hnd.
  destruct (decide (Exists (fun i => bdev (buf_at i s) = 1 /\ blockno (buf_at i s) = b) (seq 0 NB)))
    as [Hex|Hex].
  - apply list.Exists_exists in Hex as (i & Hi & Hd & <-). apply elem_of_seq in Hi.
    destruct (bc_buf _ _ _ _ Hbc i) as [Hfl Hdv Hv _ Hcl _]; [lia|].
    destruct (Hv (Hdv Hd)) as [_ ->]. apply Hcl; [apply not_elem_of_empty|].
    specialize (Hdv Hd). destruct Hfl as [?|[?|?]]; [done|done|].
    destruct Hnd. exists i. split_and!; try done. lia.
  - apply (bc_miss _ _ _ _ Hbc). intros i Hi (Hd & Hb & _). apply Hex, list.Exists_exists.
    exists i. split; [apply elem_of_seq; lia|done].
Qed.

Lemma bread_dirty s p H V b i s' b' :
  bread_post s p H V b i s' -> dirty s' b' <-> dirty s b'.
Proof.
  intros [_ _ _ _ Hlt _ _ Hoth Hd _ Hsame]. split.
  - intros (j & Hj & H1 & H2 & H3). exists j. destruct (decide (j = i)) as [->|Hne].
    + specialize (Hsame (proj1 Hd H3)). unfold core in Hsame. injection Hsame as E1 E2 E3 E4.
      split_and!; congruence.
    + rewrite Hoth in * by done. done.
  - intros (j & Hj & H1 & H2 & H3). exists j. destruct (decide (j = i)) as [->|Hne].
    + specialize (Hsame H3). unfold core in Hsame. injection Hsame as E1 E2 E3 E4.
      split_and!; congruence.
    + rewrite Hoth by done. done.
Qed.

(** Fewer dirty blocks than buffers leave room. *)
Lemma room_count s p V l :
  bcache s p ∅ V -> (forall b, dirty s b -> b ∈ l) -> (length l < NB)%nat -> room s ∅.
Proof.
  intros Hbc Hl Hlen.
  destruct (decide (Exists (fun i => bflags (buf_at i s) <> 6) (seq 0 NB))) as [Hex|Hall].
  - apply list.Exists_exists in Hex as (i & Hi & Hf). apply elem_of_seq in Hi.
    exists i. split_and!; [lia|apply not_elem_of_empty|done].
  - exfalso. assert (Hd : forall i, (i < NB)%nat -> bflags (buf_at i s) = 6).
    { intros i Hi. destruct (decide (bflags (buf_at i s) = 6)) as [|Hn]; [done|].
      destruct Hall. apply list.Exists_exists. exists i. split; [apply elem_of_seq; lia|done]. }
    assert (Hdev : forall i, (i < NB)%nat -> bdev (buf_at i s) = 1).
    { intros i Hi. apply (bo_valid _ _ _ _ _ (bc_buf _ _ _ _ Hbc i Hi)). by rewrite Hd. }
    assert (Hsub : (fun i => blockno (buf_at i s)) <$> seq 0 NB ⊆+ l).
    { apply NoDup_submseteq.
      - apply NoDup_fmap_2_strong; [|apply NoDup_seq]. intros i j Hi Hj E.
        apply elem_of_seq in Hi, Hj. apply (bc_uniq _ _ _ _ Hbc); try lia; apply Hdev; lia.
      - intros b (i & -> & Hi)%list_elem_of_fmap. apply elem_of_seq in Hi. apply Hl.
        exists i. split_and!; [lia|apply Hdev; lia|done|apply Hd; lia]. }
    apply submseteq_length in Hsub. rewrite length_fmap, length_seq in Hsub. lia.
Qed.
