(* ===== verification/LogWp.v ===== *)
(** * Running the log

    The block copies of [write_log] and [install_trans], the header, and the
    commit and recovery they make up. *)

From S2P Require Import Prelude Machine StringC Spinlock Kalloc Vm VmWalk VmMap VmUser VmKern.
From S2P Require Import VmAlloc VmCopy Kernel Sleep Bio Log Inode Console Fs Pipe File Proc.
From S2P Require Import Exec Sysfile KernelWp Mmap Trap MmapWp ProcProps Bytes BioWp.

(** ** The header block *)

Definition hd_fold (blocks : list Z) (d : list Z) (k : Z) : list Z :=
  foldl (fun d i => splice d (4 + 4 * i) (word_bytes (blocks !!! Z.to_nat i))) d (seqZ 0 k).

Lemma hd_fold_spec blocks d k :
  length d = 512%nat -> 0 <= k <= 30 ->
  (forall i, 0 <= i < k -> 0 <= blocks !!! Z.to_nat i < 4294967296) ->
  length (hd_fold blocks d k) = 512%nat /\
  word_at (hd_fold blocks d k) 0 = word_at d 0 /\
  forall i, 0 <= i < k -> word_at (hd_fold blocks d k) (4 + 4 * i) = blocks !!! Z.to_nat i.
Proof.
  intros Hd [Hk0 Hk]. revert Hk. pattern k. apply natlike_ind; [|clear k Hk0|done].
  { intros _ _. split_and!; [done|done|lia]. }
  intros k Hk0 IH Hk Hb. destruct IH as (Hl & H0 & Hi); [lia|intros; apply Hb; lia|].
  unfold hd_fold. unfold Z.succ. rewrite seqZ_app by lia. rewrite foldl_app. cbn [seqZ].
  change (foldl _ d (seqZ 0 k)) with (hd_fold blocks d k).
  rewrite seqZ_cons by lia. rewrite seqZ_nil by lia. cbn [foldl].
  rewrite Z.add_0_l. set (e := hd_fold blocks d k) in *. set (v := blocks !!! Z.to_nat k).
  assert (Hv : 0 <= v < 4294967296) by (apply Hb; lia).
  split_and!.
  - rewrite splice_length; [done|]. rewrite Hl, word_bytes_length. lia.
  - rewrite word_at_splice_other; rewrite ?word_bytes_length, ?Hl; lia || done.
  - intros i Hik. destruct (decide (i = k)) as [->|].
    + apply word_at_splice; rewrite ?Hl; lia || done.
    + rewrite word_at_splice_other; rewrite ?word_bytes_length, ?Hl; try lia. apply Hi. lia.
Qed.

Lemma hd_store_spec n blocks d :
  length d = 512%nat -> 0 <= n <= 30 ->
  (forall i, 0 <= i < n -> 0 <= blocks !!! Z.to_nat i < 4294967296) ->
  length (hd_store n blocks d) = 512%nat /\ hd_n (hd_store n blocks d) = n /\
  forall i, 0 <= i < n -> hd_block (hd_store n blocks d) i = blocks !!! Z.to_nat i.
Proof.
  intros Hd Hn Hb.
  assert (Hd0 : length (splice d 0 (word_bytes n)) = 512%nat)
    by (rewrite splice_length; rewrite ?Hd, ?word_bytes_length; done || lia).
  destruct (hd_fold_spec blocks (splice d 0 (word_bytes n)) n Hd0 Hn Hb) as (Hl & H0 & Hi).
  split_and!; [exact Hl| |exact Hi]. unfold hd_n.
  change (hd_store n blocks d) with (hd_fold blocks (splice d 0 (word_bytes n)) n). rewrite H0.
  rewrite word_at_splice by (rewrite ?Hd; lia). apply s32_small. lia.
Qed.

(** Blocks with the one at [b] replaced. *)
Definition upd_blk (V : Z -> list Z) (b : Z) (d : list Z) : Z -> list Z :=
  fun b' => if b' =? b then d else V b'.

Lemma bcache_ext s p H V V' :
  bcache s p H V -> (forall b, V b = V' b) -> bcache s p H V'.
Proof.
  intros [A1 A2 A3 A4 A5 A6] E. split; try done.
  - intros i Hi. destruct (A3 i Hi) as [B1 B2 B3 B4 B5 B6]. split; try done.
    intros Hf. rewrite <- E. by apply B3.
  - intros b Hb. rewrite <- E. by apply A5.
Qed.

(** Cleaning one buffer. *)
Lemma dirty_clean s s' p H V i :
  bcache s p H V -> (i < NB)%nat -> bdev (buf_at i s) = 1 -> bflags (buf_at i s') <> 6 ->
  (forall j, (j < NB)%nat -> bdev (buf_at j s') = bdev (buf_at j s) /\
     blockno (buf_at j s') = blockno (buf_at j s) /\
     (j <> i -> bflags (buf_at j s') = bflags (buf_at j s))) ->
  forall b, dirty s' b <-> dirty s b /\ b <> blockno (buf_at i s).
Proof.
  intros Hbc Hi Hdev Hcl Htag b. split.
  - intros (j & Hj & H1 & H2 & H3). destruct (Htag j Hj) as (E1 & E2 & E3).
    assert (Hji : j <> i) by (by intros ->). rewrite E1, E2, E3 in * by done.
    split; [by exists j|]. intros ->. apply Hji. by apply (bc_uniq _ _ _ _ Hbc).
  - intros [(j & Hj & H1 & H2 & H3) Hb]. destruct (Htag j Hj) as (E1 & E2 & E3).
    exists j. rewrite E1, E2, E3; [done|]. by intros ->.
Qed.

Lemma given_back_tag i j s :
  (i < length (bufs (k_fs s)))%nat -> core (buf_at j (given_back i s)) = core (buf_at j s).
Proof.
  intros Hi. destruct (decide (j = i)) as [->|]; [by rewrite given_back_at|by rewrite given_back_ne].
Qed.

Lemma dirty_core s s' b :
  (forall j, core (buf_at j s') = core (buf_at j s)) -> dirty s' b <-> dirty s b.
Proof.
  intros E. unfold dirty. split; intros (j & Hj & H1 & H2 & H3); exists j; specialize (E j);
    injection E as E1 E2 E3 _; split_and!; congruence.
Qed.

Section Copy.
Context `{W : Waits} (Hw : (0 < waits)%nat).

(** The end of a copy: the block of [src] into the one of [dst], with both
    buffers locked. *)
Lemma copy_end s p V dst src :
  let d := blockno (buf_at dst s) in
  let c := blockno (buf_at src s) in
  idle s p -> bcache s p ({[dst]} ∪ {[src]}) V -> dst <> src ->
  0 <= d < disksize (k_fs s) ->
  (bflags (buf_at src s) <> 6 -> bdata (buf_at src s) = disk_block s c) ->
  exists s', (bset_data dst (fun _ => bdata (buf_at src s)) ;; bwrite dst ;; brelse src ;; brelse dst) s
      = Ok tt s' /\
    quiet s s' /\ bcache s' p ∅ (upd_blk V d (V c)) /\ disk (k_fs s') = (d, V c) :: disk (k_fs s) /\
    (forall b, dirty s' b <-> dirty s b /\ b <> d).
Proof.
  intros d c Hid Hbc Hne Hd Hcl.
  assert (Hdst : dst ∈ ({[dst]} ∪ {[src]} : gset nat)) by set_solver.
  assert (Hsrc : src ∈ ({[dst]} ∪ {[src]} : gset nat)) by set_solver.
  pose proof (bc_in _ _ _ _ Hbc dst Hdst) as Hlt. pose proof (bc_in _ _ _ _ Hbc src Hsrc) as Hlt'.
  assert (Hlen : (dst < length (bufs (k_fs s)))%nat) by (by rewrite (bc_len _ _ _ _ Hbc)).
  assert (Hdc : d <> c).
  { intros E. apply Hne. destruct (bc_buf _ _ _ _ Hbc dst Hlt), (bc_buf _ _ _ _ Hbc src Hlt').
    apply (bc_uniq _ _ _ _ Hbc); naive_solver. }
  assert (HVc : V c = bdata (buf_at src s)).
  { destruct (bc_buf _ _ _ _ Hbc src Hlt') as [_ _ Hv _ _ Hh]. apply Hv. by apply Hh. }
  assert (Hdevd : bdev (buf_at dst s) = 1).
  { destruct (bc_buf _ _ _ _ Hbc dst Hlt) as [_ _ Hv _ _ Hh]. apply Hv. by apply Hh. }
  unfold bset_data. erewrite bind_ok by (unfold modify; reflexivity).
  set (s1 := upd_buf dst _ s).
  assert (Hbc1 : bcache s1 p ({[dst]} ∪ {[src]}) (upd_blk V d (V c))).
  { eapply bcache_ext; [exact (bset_cache s p _ V dst (fun _ => bdata (buf_at src s)) Hbc Hdst)|].
    intros b. unfold upd_blk. by rewrite HVc. }
  assert (Hs1d : buf_at dst s1 = upd_bdata (fun _ => bdata (buf_at src s)) (buf_at dst s))
    by (unfold s1; by rewrite buf_at_upd).
  assert (Hs1 : forall j, j <> dst -> buf_at j s1 = buf_at j s)
    by (intros j Hj; unfold s1; by rewrite buf_at_upd_ne).
  assert (Hid1 : idle s1 p) by (by destruct Hid).
  destruct (bwrite_cache s1 p _ _ dst Hid1 Hbc1 Hdst) as (E2 & Hq2 & Hbc2); [by rewrite Hs1d|].
  erewrite bind_ok by exact E2. set (s2 := written dst s1) in *.
  assert (Hlen1 : (dst < length (bufs (k_fs s1)))%nat) by (unfold s1; simpl; by rewrite length_alter).
  assert (Hid2 : idle s2 p) by (by apply (quiet_idle s1)).
  assert (Hb2 : forall b, disk_block s2 b = upd_blk (disk_block s) d (V c) b).
  { intros b. unfold s2. rewrite written_block, Hs1d. cbn [upd_bdata blockno bdata].
    unfold upd_blk. rewrite HVc. done. }
  assert (Hs2s : buf_at src s2 = buf_at src s) by (unfold s2; rewrite written_ne, Hs1 by done; done).
  destruct (brelse_cache Hw s2 p _ _ src Hid2 Hbc2 Hsrc) as (E3 & Hq3 & Hbc3).
  { rewrite Hs2s, Hb2. unfold upd_blk. fold c. destruct (Z.eqb_spec c d); [done|].
    destruct (decide (bflags (buf_at src s) = 6)); auto. }
  erewrite bind_ok by exact E3. set (s3 := given_back src s2) in *.
  assert (Hs3d : buf_at dst s3 = upd_bflags (fun _ => B_VALID) (buf_at dst s1)).
  { unfold s3. rewrite given_back_ne by done. unfold s2. by rewrite written_at. }
  assert (Hb3 : forall b, disk_block s3 b = disk_block s2 b) by done.
  assert (Hid3 : idle s3 p) by (by apply (quiet_idle s2)).
  assert (Hdst3 : dst ∈ ({[dst]} ∪ {[src]} : gset nat) ∖ {[src]}) by set_solver.
  destruct (brelse_cache Hw s3 p _ _ dst Hid3 Hbc3 Hdst3) as (E4 & Hq4 & Hbc4).
  { right. rewrite Hs3d, Hs1d, Hb3, Hb2. cbn [upd_bflags upd_bdata bdata blockno].
    unfold upd_blk. fold d. by rewrite Z.eqb_refl, HVc. }
  exists (given_back dst s3). split; [exact E4|]. split_and!.
  - assert (Hq1 : quiet s2 (given_back dst s3)) by (by apply (quiet_trans _ s3)).
    assert (Hq0 : quiet s1 (given_back dst s3)) by (by apply (quiet_trans _ s2)).
    destruct Hq0 as [A1 A2 A3 A4 A5]. split; try done.
  - replace (∅ : gset nat) with (({[dst]} ∪ {[src]} : gset nat) ∖ {[src]} ∖ {[dst]}); [done|].
    apply set_eq. set_solver.
  - change (disk (k_fs (given_back dst s3))) with ((blockno (buf_at dst s1), bdata (buf_at dst s1)) :: disk (k_fs s)).
    by rewrite Hs1d, HVc.
  - assert (Hc4 : forall j, core (buf_at j (given_back dst s3)) = core (buf_at j s2)).
    { intros j. rewrite given_back_tag by (simpl; by rewrite !length_alter).
      apply given_back_tag. by rewrite (bc_len _ _ _ _ Hbc2). }
    apply (dirty_clean s _ p _ V dst Hbc Hlt Hdevd).
    + assert (E := Hc4 dst). unfold s2 in E. rewrite written_at in E by done.
      injection E as -> _ _ _. done.
    + intros j Hj. assert (E := Hc4 j). unfold s2 in E. injection E as E5 E6 E7 _.
      rewrite E5, E6, E7. destruct (decide (j = dst)) as [->|Hjd].
      * rewrite written_at, Hs1d by done. by split_and!.
      * rewrite written_ne, Hs1 by done. done.
Qed.

(** Room for a log block and the block [h]. *)
Definition has_room (s : kst) (h : Z) : Prop :=
  room s ∅ /\ (dirty s h \/ forall b, ~ dirty s b).

(** Two buffers locked, for the blocks [a] and [h]. *)
Record two_held (s : kst) (p : nat) (V : Z -> list Z) (a h : Z) (x y : nat) (s2 : kst) : Prop := {
  th_quiet : quiet s s2;
  th_disk : disk (k_fs s2) = disk (k_fs s);
  th_cache : bcache s2 p ({[y]} ∪ {[x]}) V;
  th_ne : x <> y;
  th_x : blockno (buf_at x s2) = a;
  th_y : blockno (buf_at y s2) = h;
  th_cx : bflags (buf_at x s2) <> 6 -> bdata (buf_at x s2) = disk_block s2 a;
  th_cy : bflags (buf_at y s2) <> 6 -> bdata (buf_at y s2) = disk_block s2 h;
  th_dirty : forall b, dirty s2 b <-> dirty s b }.

Lemma quiet_size s s' : quiet s s' -> disksize (k_fs s') = disksize (k_fs s).
Proof. intros Hq. by rewrite (q_fs _ _ Hq). Qed.

Lemma no_dirty_room s p H V x :
  bcache s p H V -> (forall b, ~ dirty s b) -> room s {[x]}.
Proof.
  intros Hbc Hnd. assert (Hj : exists j, (j < NB)%nat /\ j <> x).
  { destruct (decide (x = 0%nat)) as [->|]; [exists 1%nat|exists 0%nat]; split; try done;
      change NB with 30%nat; lia. }
  destruct Hj as (j & Hj & Hne). exists j. split_and!; [done|by rewrite elem_of_singleton|].
  intros Hf. apply (Hnd (blockno (buf_at j s))). exists j. split_and!; try done.
  apply (bo_valid _ _ _ _ _ (bc_buf _ _ _ _ Hbc j Hj)). by rewrite Hf.
Qed.

Lemma two_breads_wp {A} (Q : A -> kst -> Prop) (k : nat -> nat -> M kst A) s p V a h :
  idle s p -> bcache s p ∅ V -> 0 <= a < disksize (k_fs s) -> 0 <= h < disksize (k_fs s) ->
  a <> h -> has_room s h ->
  (forall x y s2, two_held s p V a h x y s2 -> wp (k x y) Q s2) ->
  wp (x <- bread 1 a ;; y <- bread 1 h ;; k x y) Q s.
Proof.
  intros Hid Hbc Ha Hh Hne [Hroom Hd] Hk. wp_step.
  eapply (bread_wp Hw); [done|done|done|by intros i ?%not_elem_of_empty|by left|]. intros x s1 B1.
  assert (Hd1 : forall b, dirty s1 b <-> dirty s b) by (intros; by eapply bread_dirty).
  pose proof (br_quiet _ _ _ _ _ _ _ B1) as Hq1. wp_step.
  assert (HX : {[x]} ∪ ∅ = ({[x]} : gset nat)) by (apply set_eq; set_solver).
  pose proof (br_cache _ _ _ _ _ _ _ B1) as Hbc1. rewrite HX in Hbc1.
  eapply (bread_wp Hw _ s1 p {[x]} V h);
    [by apply (quiet_idle s)|done|by rewrite (quiet_size _ _ Hq1)| | |].
  - intros i ->%elem_of_singleton. by rewrite (br_block _ _ _ _ _ _ _ B1).
  - destruct Hd as [Hd|Hd].
    + right. apply Hd1 in Hd as (j & Hj & H1 & H2 & H3). exists j. split; [done|].
      split_and!; [done|done|by rewrite H3].
    + left. eapply no_dirty_room; [done|]. intros b. by rewrite Hd1.
  - intros y s2 B2. apply (Hk x y s2).
    assert (Hxy : x <> y) by (intros ->; apply (br_new _ _ _ _ _ _ _ B2); by apply elem_of_singleton).
    pose proof (br_others _ _ _ _ _ _ _ B2 x Hxy) as Ex.
    split.
    + by eapply quiet_trans, B2.
    + rewrite (br_disk _ _ _ _ _ _ _ B2). apply B1.
    + apply B2.
    + done.
    + rewrite Ex. apply B1.
    + apply B2.
    + rewrite Ex. intros Hf. rewrite (br_clean _ _ _ _ _ _ _ B1 Hf).
      symmetry. apply block_same, B2.
    + apply B2.
    + intros b. rewrite (bread_dirty _ _ _ _ _ _ _ b B2). apply Hd1.
Qed.

(** ** Copies between the log and the blocks *)

(** The state after the block [b] has been set to [d], on the disk too. *)
Record stored (s : kst) (p : nat) (V : Z -> list Z) (b : Z) (d : list Z) (s' : kst) : Prop := {
  st_quiet : quiet s s';
  st_cache : bcache s' p ∅ (upd_blk V b d);
  st_disk : disk (k_fs s') = (b, d) :: disk (k_fs s);
  st_dirty : forall b', dirty s' b' <-> dirty s b' /\ b' <> b }.

(** What the write changes on the disk. *)
Lemma stored_block s p V b d s' b' :
  stored s p V b d s' -> disk_block s' b' = upd_blk (disk_block s) b d b'.
Proof. intros [_ _ E _]. unfold disk_block. by rewrite E. Qed.

Lemma install_one_wp (Q : unit -> kst -> Prop) s p V t :
  let a := lstart (log_of s) + t + 1 in
  let h := lh_block (log_of s) !!! Z.to_nat t in
  idle s p -> bcache s p ∅ V -> ldev (log_of s) = 1 ->
  0 <= a < disksize (k_fs s) -> 0 <= h < disksize (k_fs s) -> a <> h -> has_room s h ->
  (forall s', stored s p V h (V a) s' -> Q tt s') ->
  wp (install_one t) Q s.
Proof.
  intros a h Hid Hbc Hdev Ha Hh Hne Hroom Hk. unfold install_one. wp_step. wp_step.
  rewrite Hdev. fold a h. apply (two_breads_wp _ _ s p V); try done.
  intros x y s2 T. unfold bget_data. wp_step. wp_step.
  destruct (copy_end s2 p V y x) as (s' & E & Hq & Hbc' & Hb & Hdt).
  - apply (quiet_idle s); [apply T|done].
  - apply T.
  - symmetry. apply T.
  - rewrite (th_y _ _ _ _ _ _ _ _ T), (quiet_size _ _ (th_quiet _ _ _ _ _ _ _ _ T)). done.
  - rewrite (th_x _ _ _ _ _ _ _ _ T). apply T.
  - eapply wp_run; [exact E|]. apply Hk.
    rewrite (th_x _ _ _ _ _ _ _ _ T), (th_y _ _ _ _ _ _ _ _ T) in *. split.
    + eapply quiet_trans; [apply T|done].
    + done.
    + by rewrite Hb, (th_disk _ _ _ _ _ _ _ _ T).
    + intros b. rewrite Hdt, (th_dirty _ _ _ _ _ _ _ _ T). done.
Qed.

Lemma write_log_one_wp (Q : unit -> kst -> Prop) s p V t :
  let a := lstart (log_of s) + t + 1 in
  let h := lh_block (log_of s) !!! Z.to_nat t in
  idle s p -> bcache s p ∅ V -> ldev (log_of s) = 1 ->
  0 <= a < disksize (k_fs s) -> 0 <= h < disksize (k_fs s) -> a <> h -> has_room s h ->
  (forall s', stored s p V a (V h) s' -> Q tt s') ->
  wp (write_log_one t) Q s.
Proof.
  intros a h Hid Hbc Hdev Ha Hh Hne Hroom Hk. unfold write_log_one. wp_step. wp_step.
  rewrite Hdev. fold a h. apply (two_breads_wp _ _ s p V); try done.
  intros x y s2 T. unfold bget_data. wp_step. wp_step.
  destruct (copy_end s2 p V x y) as (s' & E & Hq & Hbc' & Hb & Hdt).
  - apply (quiet_idle s); [apply T|done].
  - rewrite (union_comm_L {[x]}). apply T.
  - apply T.
  - rewrite (th_x _ _ _ _ _ _ _ _ T), (quiet_size _ _ (th_quiet _ _ _ _ _ _ _ _ T)). done.
  - rewrite (th_y _ _ _ _ _ _ _ _ T). apply T.
  - eapply wp_run; [exact E|]. apply Hk.
    rewrite (th_x _ _ _ _ _ _ _ _ T), (th_y _ _ _ _ _ _ _ _ T) in *. split.
    + eapply quiet_trans; [apply T|done].
    + done.
    + by rewrite Hb, (th_disk _ _ _ _ _ _ _ _ T).
    + intros b. rewrite Hdt, (th_dirty _ _ _ _ _ _ _ _ T). done.
Qed.

(** ** The header *)

(** A locked buffer changed, written and released. *)
Lemma store_end s p V x f :
  let b := blockno (buf_at x s) in
  idle s p -> bcache s p {[x]} V -> 0 <= b < disksize (k_fs s) ->
  exists s', (bset_data x f ;; bwrite x ;; brelse x) s = Ok tt s' /\ stored s p V b (f (V b)) s'.
Proof.
  intros b Hid Hbc Hb. assert (Hx : x ∈ ({[x]} : gset nat)) by (by apply elem_of_singleton).
  pose proof (bc_in _ _ _ _ Hbc x Hx) as Hlt.
  assert (Hlen : (x < length (bufs (k_fs s)))%nat) by (by rewrite (bc_len _ _ _ _ Hbc)).
  assert (HV : bdev (buf_at x s) = 1 /\ V b = bdata (buf_at x s)).
  { destruct (bc_buf _ _ _ _ Hbc x Hlt) as [_ _ Hv _ _ Hh]. apply Hv. by apply Hh. }
  destruct HV as [Hdev HV]. unfold bset_data. erewrite bind_ok by (unfold modify; reflexivity).
  set (s1 := upd_buf x _ s).
  assert (Hbc1 : bcache s1 p {[x]} (upd_blk V b (f (V b)))).
  { eapply bcache_ext; [exact (bset_cache s p _ V x f Hbc Hx)|].
    intros b'. unfold upd_blk. by rewrite HV. }
  assert (Hs1 : buf_at x s1 = upd_bdata f (buf_at x s)) by (unfold s1; by rewrite buf_at_upd).
  assert (Hid1 : idle s1 p) by (by destruct Hid).
  assert (Hlen1 : (x < length (bufs (k_fs s1)))%nat) by (unfold s1; simpl; by rewrite length_alter).
  destruct (bwrite_cache s1 p _ _ x Hid1 Hbc1 Hx) as (E2 & Hq2 & Hbc2); [by rewrite Hs1|].
  erewrite bind_ok by exact E2. set (s2 := written x s1) in *.
  assert (Hb2 : forall b', disk_block s2 b' = upd_blk (disk_block s) b (f (V b)) b').
  { intros b'. unfold s2. rewrite written_block, Hs1. cbn [upd_bdata blockno bdata].
    unfold upd_blk. by rewrite HV. }
  assert (Hs2 : buf_at x s2 = upd_bflags (fun _ => B_VALID) (upd_bdata f (buf_at x s)))
    by (unfold s2; by rewrite written_at, Hs1).
  destruct (brelse_cache Hw s2 p _ _ x (quiet_idle _ _ _ Hq2 Hid1) Hbc2 Hx) as (E3 & Hq3 & Hbc3).
  { right. rewrite Hs2, Hb2. cbn [upd_bflags upd_bdata bdata blockno]. unfold upd_blk. fold b.
    by rewrite Z.eqb_refl, HV. }
  exists (given_back x s2). split; [exact E3|]. split.
  - destruct (quiet_trans _ _ _ Hq2 Hq3) as [A1 A2 A3 A4 A5]. by split.
  - by rewrite difference_diag_L in Hbc3.
  - change (disk (k_fs (given_back x s2))) with ((blockno (buf_at x s1), bdata (buf_at x s1)) :: disk (k_fs s)).
    by rewrite Hs1, HV.
  - apply (dirty_clean s _ p _ V x Hbc Hlt Hdev).
    + rewrite given_back_at, Hs2 by (by rewrite (bc_len _ _ _ _ Hbc2)). done.
    + intros j Hj. assert (E := given_back_tag x j s2 ltac:(by rewrite (bc_len _ _ _ _ Hbc2))).
      injection E as E5 E6 E7 _. rewrite E5, E6, E7. destruct (decide (j = x)) as [->|Hjd].
      * rewrite Hs2. by split_and!.
      * unfold s2. rewrite written_ne by done. unfold s1. by rewrite buf_at_upd_ne.
Qed.

(** [write_head] stores the header in memory in the block of the log. *)
Lemma write_head_wp (Q : unit -> kst -> Prop) s p V :
  let lo := lstart (log_of s) in
  idle s p -> bcache s p ∅ V -> ldev (log_of s) = 1 -> 0 <= lo < disksize (k_fs s) -> room s ∅ ->
  (forall s', stored s p V lo (hd_store (lh_n (log_of s)) (lh_block (log_of s)) (V lo)) s' -> Q tt s') ->
  wp write_head Q s.
Proof.
  intros lo Hid Hbc Hdev Hlo Hroom Hk. unfold write_head. wp_step. wp_step. rewrite Hdev. fold lo.
  wp_step. eapply (bread_wp Hw); [done|done|done|by intros i ?%not_elem_of_empty|by left|].
  intros x s1 B. wp_step. wp_step. rewrite (quiet_log _ _ (br_quiet _ _ _ _ _ _ _ B)).
  pose proof (br_cache _ _ _ _ _ _ _ B) as Hbc1. rewrite (right_id_L ∅ (∪)) in Hbc1.
  destruct (store_end s1 p V x (hd_store (lh_n (log_of s)) (lh_block (log_of s)))) as (s' & E & St).
  - apply (quiet_idle s); [apply B|done].
  - done.
  - rewrite (br_block _ _ _ _ _ _ _ B), (quiet_size _ _ (br_quiet _ _ _ _ _ _ _ B)). done.
  - eapply wp_run; [exact E|]. apply Hk. rewrite (br_block _ _ _ _ _ _ _ B) in St.
    destruct St as [A1 A2 A3 A4]. split.
    + eapply quiet_trans; [apply B|done].
    + done.
    + by rewrite A3, (br_disk _ _ _ _ _ _ _ B).
    + intros b. by rewrite A4, (bread_dirty _ _ _ _ _ _ _ b B).
Qed.
End Copy.

(** ** The loops *)

Lemma wp_bind_inv {S A B} (m : M S A) (f : A -> M S B) Q s :
  wp (bind m f) Q s -> wp m (fun a s' => wp (f a) Q s') s.
Proof.
  intros (b & s'' & E & HQ). apply bind_ok_inv in E as (a & s' & E1 & E2).
  exists a, s'. split; [done|]. by exists b, s''.
Qed.

Lemma wp_for_all_app {A} (l1 l2 : list A) (body : A -> M kst unit) Q s :
  wp (for_all l1 body) (fun _ s' => wp (for_all l2 body) Q s') s ->
  wp (for_all (l1 ++ l2) body) Q s.
Proof.
  revert s. induction l1 as [|x l1 IH]; intros s Hwp; simpl.
  - destruct Hwp as (a & s' & [= <- <-] & HQ). done.
  - apply wp_bind_inv in Hwp. wp_step. eapply wp_mono; [exact Hwp|]. intros [] s' Hs'. by apply IH.
Qed.

(** One more round of a loop that counts. *)
Lemma wp_seqZ_S (body : Z -> M kst unit) k Q s :
  wp (for_all (seqZ 0 (Z.of_nat k)) body) (fun _ s' => wp (body (Z.of_nat k)) Q s') s ->
  wp (for_all (seqZ 0 (Z.of_nat (S k))) body) Q s.
Proof.
  intros Hwp. replace (Z.of_nat (S k)) with (Z.of_nat k + 1) by lia.
  rewrite seqZ_app by lia. apply wp_for_all_app. eapply wp_mono; [exact Hwp|].
  intros [] s' Hs'. rewrite seqZ_cons by lia. rewrite Z.add_0_l, (seqZ_nil _ (Z.pred 1)) by lia.
  cbn [for_all]. wp_step. eapply wp_mono; [exact Hs'|]. intros [] s2 HQ. by apply wp_ret.
Qed.

(** The blocks [V] with the first [k] blocks of [hs] copied to the log, over
    the blocks [D]. *)
Definition logged (lo : Z) (hs : list Z) (V D : Z -> list Z) (k : nat) (b : Z) : list Z :=
  if (lo <? b) && (b <=? lo + Z.of_nat k) then V (hs !!! Z.to_nat (b - lo - 1)) else D b.

(** The first [k] blocks of the log copied to their homes [hs]. *)
Definition installed (lo : Z) (hs : list Z) (V D : Z -> list Z) (k : nat) (b : Z) : list Z :=
  match list_find (eq b) (take k hs) with
  | Some (i, _) => V (lo + Z.of_nat i + 1)
  | None => D b
  end.

(** The writes of these copies, the last first. *)
Definition log_writes (lo : Z) (hs : list Z) (V : Z -> list Z) (k : nat) : list (Z * list Z) :=
  reverse ((fun i => (lo + Z.of_nat i + 1, V (hs !!! i))) <$> seq 0 k).

Definition home_writes (lo : Z) (hs : list Z) (V : Z -> list Z) (k : nat) : list (Z * list Z) :=
  reverse ((fun i => (hs !!! i, V (lo + Z.of_nat i + 1))) <$> seq 0 k).

Lemma reverse_seq_S {A} (f : nat -> A) k :
  reverse (f <$> seq 0 (S k)) = f k :: reverse (f <$> seq 0 k).
Proof. by rewrite seq_S, fmap_app, reverse_app. Qed.

Lemma logged_S lo hs V D k b :
  upd_blk (logged lo hs V D k) (lo + Z.of_nat k + 1) (V (hs !!! k)) b = logged lo hs V D (S k) b.
Proof.
  unfold upd_blk, logged. destruct (Z.eqb_spec b (lo + Z.of_nat k + 1)) as [->|Hne].
  - zcases; try lia. do 2 f_equal. lia.
  - zcases; try lia; done.
Qed.

Lemma installed_S lo hs V D k b :
  (k < length hs)%nat -> NoDup hs ->
  upd_blk (installed lo hs V D k) (hs !!! k) (V (lo + Z.of_nat k + 1)) b =
  installed lo hs V D (S k) b.
Proof.
  intros Hk Hnd. unfold upd_blk, installed.
  destruct (lookup_lt_is_Some_2 hs k Hk) as [h Hh].
  rewrite (list_lookup_total_correct _ _ _ Hh), (take_S_r _ _ _ Hh).
  destruct (Z.eqb_spec b h) as [->|Hne].
  - rewrite list_find_app_r.
    + simpl. rewrite decide_True by done. simpl. rewrite length_take. f_equal. lia.
    + apply list_find_None, list.Forall_forall. intros x Hx <-.
      apply list_elem_of_lookup in Hx as [i Hx]. apply lookup_take_Some in Hx as [Hx Hi].
      pose proof (NoDup_lookup _ _ _ _ Hnd Hx Hh). lia.
  - destruct (list_find (eq b) (take k hs)) as [[i x]|] eqn:E.
    + by rewrite (list_find_app_l _ _ _ _ _ E).
    + rewrite list_find_app_r by done. simpl. rewrite decide_False by done. done.
Qed.

(** Blocks that are not homes. *)
Lemma installed_other lo hs V D k b : b ∉ hs -> installed lo hs V D k b = D b.
Proof.
  intros Hb. unfold installed. destruct (list_find (eq b) (take k hs)) as [[i x]|] eqn:E; [|done].
  apply list_find_Some in E as (Hx & <- & _). destruct Hb. apply lookup_take_Some in Hx as [Hx _].
  by eapply list_elem_of_lookup_2.
Qed.

(** The log of [s] has [length hs] entries, for the blocks [hs]; [lo] is
    its first block. *)
Record log_ctx (s : kst) (p : nat) (lo : Z) (hs : list Z) : Prop := {
  lc_idle : idle s p;
  lc_dev : ldev (log_of s) = 1;
  lc_start : lstart (log_of s) = lo;
  lc_n : lh_n (log_of s) = Z.of_nat (length hs);
  lc_hs : take (length hs) (lh_block (log_of s)) = hs;
  lc_len : (length hs <= 29)%nat;
  lc_area : 0 <= lo /\ lo + LOGSIZE <= disksize (k_fs s) <= 4294967296;
  lc_home : forall h, h ∈ hs -> 0 <= h < disksize (k_fs s) /\ ~ (lo <= h < lo + LOGSIZE);
  lc_nodup : NoDup hs }.

Lemma log_ctx_quiet s s' p lo hs : quiet s s' -> log_ctx s p lo hs -> log_ctx s' p lo hs.
Proof.
  intros Hq []. split; rewrite ?(quiet_log _ _ Hq), ?(quiet_size _ _ Hq); try done.
  by apply (quiet_idle s).
Qed.

Lemma log_ctx_block s p lo hs k :
  log_ctx s p lo hs -> (k < length hs)%nat -> lh_block (log_of s) !!! k = hs !!! k.
Proof.
  intros Hc Hk. rewrite <- (lc_hs _ _ _ _ Hc) at 1. rewrite !list_lookup_total_alt.
  by rewrite lookup_take_lt.
Qed.

Lemma lookup_in (hs : list Z) k : (k < length hs)%nat -> hs !!! k ∈ hs.
Proof. intros Hk. apply list_elem_of_lookup_2 with k. by apply list_lookup_lookup_total_lt. Qed.

Section Loops.
Context `{W : Waits} (Hw : (0 < waits)%nat).

(** The log written up to entry [k]. *)
Record in_log (s : kst) (p : nat) (V : Z -> list Z) (lo : Z) (hs : list Z) (k : nat) (s' : kst)
    : Prop := {
  il_quiet : quiet s s';
  il_cache : bcache s' p ∅ (logged lo hs V V k);
  il_disk : forall b, disk_block s' b = logged lo hs V (disk_block s) k b;
  il_dirty : forall b, dirty s' b <-> dirty s b;
  il_writes : disk (k_fs s') = log_writes lo hs V k ++ disk (k_fs s) }.

Lemma write_log_loop s p V lo hs k :
  log_ctx s p lo hs -> bcache s p ∅ V -> (forall b, dirty s b <-> b ∈ hs) ->
  (k <= length hs)%nat ->
  wp (for_all (seqZ 0 (Z.of_nat k)) write_log_one) (fun _ s' => in_log s p V lo hs k s') s.
Proof.
  intros Hc Hbc Hd. induction k as [|k IH]; intros Hk.
  { apply wp_ret. split.
    - apply quiet_refl.
    - eapply bcache_ext; [exact Hbc|]. intros b. unfold logged. zcases; try lia; done.
    - intros b. unfold logged. zcases; try lia; done.
    - done.
    - done. }
  apply wp_seqZ_S. eapply wp_mono; [apply IH; lia|]. intros [] s1 [Hq Hbc1 Hdk Hd1 Hw1].
  pose proof (log_ctx_quiet _ _ _ _ _ Hq Hc) as Hc1.
  assert (Hin : hs !!! k ∈ hs) by (apply lookup_in; lia).
  pose proof (lc_home _ _ _ _ Hc1 _ Hin) as [Hh Hout].
  pose proof (lc_area _ _ _ _ Hc1). pose proof (lc_len _ _ _ _ Hc1). change LOGSIZE with 30 in *.
  assert (Ha : lstart (log_of s1) + Z.of_nat k + 1 = lo + Z.of_nat k + 1)
    by (by rewrite (lc_start _ _ _ _ Hc1)).
  assert (Hb : lh_block (log_of s1) !!! Z.to_nat (Z.of_nat k) = hs !!! k)
    by (rewrite Nat2Z.id; apply (log_ctx_block _ _ _ _ _ Hc1); lia).
  apply (write_log_one_wp Hw _ s1 p (logged lo hs V V k)); rewrite ?Ha, ?Hb; try done.
  - apply Hc1.
  - apply Hc1.
  - lia.
  - lia.
  - split.
    + apply (room_count s1 p (logged lo hs V V k) hs); [done| |change NB with 30%nat; lia].
      intros b. by rewrite Hd1, Hd.
    + left. by rewrite Hd1, Hd.
  - intros s' St. pose proof (fun b => stored_block _ _ _ _ _ _ b St) as A3.
    destruct St as [A1 A2 A5 A4].
    assert (E : logged lo hs V V k (hs !!! k) = V (hs !!! k)) by (unfold logged; zcases; try lia; done).
    rewrite E in *. split.
    + by eapply quiet_trans.
    + eapply bcache_ext; [exact A2|]. intros b. apply logged_S.
    + intros b. rewrite A3, <- logged_S. unfold upd_blk. destruct (b =? _); [done|]. apply Hdk.
    + intros b. rewrite A4, Hd1. split; [by intros []|]. intros Hdb. split; [done|]. intros ->.
      apply Hd in Hdb. pose proof (lc_home _ _ _ _ Hc _ Hdb) as [_ Hdb']. change LOGSIZE with 30 in *. lia.
    + unfold log_writes. by rewrite reverse_seq_S, A5, Hw1.
Qed.

(** Entries up to [k] installed. *)
Record in_install (s : kst) (p : nat) (V : Z -> list Z) (lo : Z) (hs : list Z) (k : nat) (s' : kst)
    : Prop := {
  ii_quiet : quiet s s';
  ii_cache : bcache s' p ∅ (installed lo hs V V k);
  ii_disk : forall b, disk_block s' b = installed lo hs V (disk_block s) k b;
  ii_dirty : forall b, dirty s' b <-> dirty s b /\ b ∉ take k hs;
  ii_writes : disk (k_fs s') = home_writes lo hs V k ++ disk (k_fs s) }.

Lemma not_in_take (hs : list Z) k : (k < length hs)%nat -> NoDup hs -> hs !!! k ∉ take k hs.
Proof.
  intros Hk Hnd Hin. apply list_elem_of_lookup in Hin as [i Hi]. apply lookup_take_Some in Hi as [Hi Hlt].
  pose proof (NoDup_lookup _ _ _ _ Hnd Hi (list_lookup_lookup_total_lt _ _ Hk)). lia.
Qed.

(** The room an installation has: all the homes are dirty (a commit) or
    nothing is (a recovery). *)
Lemma install_room s p V lo hs k s' :
  log_ctx s p lo hs -> (k < length hs)%nat ->
  (forall b, dirty s b <-> b ∈ hs) \/ (forall b, ~ dirty s b) ->
  in_install s p V lo hs k s' -> has_room s' (hs !!! k).
Proof.
  intros Hc Hk Hd [_ Hbc _ Hd1 _]. pose proof (lc_len _ _ _ _ Hc). split.
  - apply (room_count s' p (installed lo hs V V k) hs); [done| |change NB with 30%nat; lia].
    intros b [Hb _]%Hd1. destruct Hd as [Hd|Hd]; [by apply Hd|by destruct (Hd b)].
  - destruct Hd as [Hd|Hd]; [left|right].
    + apply Hd1. split; [by apply Hd, lookup_in|apply not_in_take; [done|apply Hc]].
    + intros b [Hb _]%Hd1. by apply (Hd b).
Qed.

Lemma install_loop s p V lo hs k :
  log_ctx s p lo hs -> bcache s p ∅ V ->
  (forall b, dirty s b <-> b ∈ hs) \/ (forall b, ~ dirty s b) -> (k <= length hs)%nat ->
  wp (for_all (seqZ 0 (Z.of_nat k)) install_one) (fun _ s' => in_install s p V lo hs k s') s.
Proof.
  intros Hc Hbc Hd. induction k as [|k IH]; intros Hk.
  { apply wp_ret. split; [apply quiet_refl|exact Hbc|done| |done]. intros b. rewrite take_0.
    split; [|by intros []]. intros Hb. split; [done|apply not_elem_of_nil]. }
  apply wp_seqZ_S. eapply wp_mono; [apply IH; lia|]. intros [] s1 Hii.
  pose proof (install_room _ _ _ _ _ _ _ Hc Hk Hd Hii) as Hroom.
  destruct Hii as [Hq Hbc1 Hdk Hd1 Hw1].
  pose proof (log_ctx_quiet _ _ _ _ _ Hq Hc) as Hc1.
  assert (Hin : hs !!! k ∈ hs) by (apply lookup_in; lia).
  pose proof (lc_home _ _ _ _ Hc1 _ Hin) as [Hh Hout].
  pose proof (lc_area _ _ _ _ Hc1). pose proof (lc_len _ _ _ _ Hc1). change LOGSIZE with 30 in *.
  assert (Ha : lstart (log_of s1) + Z.of_nat k + 1 = lo + Z.of_nat k + 1)
    by (by rewrite (lc_start _ _ _ _ Hc1)).
  assert (Hb : lh_block (log_of s1) !!! Z.to_nat (Z.of_nat k) = hs !!! k)
    by (rewrite Nat2Z.id; apply (log_ctx_block _ _ _ _ _ Hc1); lia).
  apply (install_one_wp Hw _ s1 p (installed lo hs V V k)); rewrite ?Ha, ?Hb; try done.
  - apply Hc1.
  - apply Hc1.
  - lia.
  - lia.
  - intros s' St. pose proof (fun b => stored_block _ _ _ _ _ _ b St) as A3.
    destruct St as [A1 A2 A5 A4].
    assert (E : installed lo hs V V k (lo + Z.of_nat k + 1) = V (lo + Z.of_nat k + 1)).
    { apply installed_other. intros Hx. destruct (lc_home _ _ _ _ Hc1 _ Hx) as [_ []].
      change LOGSIZE with 30. lia. }
    rewrite E in *. split.
    + by eapply quiet_trans.
    + eapply bcache_ext; [exact A2|]. intros b. apply installed_S; [lia|apply Hc].
    + intros b. rewrite A3, <- installed_S by (lia || apply Hc). unfold upd_blk.
      destruct (b =? _); [done|]. apply Hdk.
    + intros b. rewrite A4, Hd1.
      rewrite (take_S_r _ _ _ (list_lookup_lookup_total_lt hs k ltac:(lia))), not_elem_of_app.
      rewrite not_elem_of_cons. split; [|naive_solver]. intros [[? ?] ?].
      split_and!; try done. apply not_elem_of_nil.
    + unfold home_writes. by rewrite reverse_seq_S, A5, Hw1.
Qed.
End Loops.

(** ** Changes of the log's fields *)

Lemma bcache_log s p H V f : bcache s p H V -> bcache (upd_log_of f s) p H V.
Proof.
  intros [A1 A2 A3 A4 A5 A6]. split; try done.
  intros i Hi. by destruct (A3 i Hi) as [B1 B2 B3 B4 B5 B6].
Qed.

Lemma idle_log s p f : idle s p -> idle (upd_log_of f s) p.
Proof. by intros []. Qed.

(** The blocks that a header lists. *)
Definition hd_list (d : list Z) : list Z := hd_block d <$> seqZ 0 (hd_n d).

Lemma hd_list_length d : 0 <= hd_n d -> length (hd_list d) = Z.to_nat (hd_n d).
Proof. intros Hn. unfold hd_list. by rewrite length_fmap, length_seqZ. Qed.

(** [s'] is [s] with the log fields [l]. *)
Record relogged (s : kst) (p : nat) (V : Z -> list Z) (l : logst) (s' : kst) : Prop := {
  rl_idle : idle s' p;
  rl_cache : bcache s' p ∅ V;
  rl_disk : disk (k_fs s') = disk (k_fs s);
  rl_size : disksize (k_fs s') = disksize (k_fs s);
  rl_dirty : forall b, dirty s' b <-> dirty s b;
  rl_log : log_of s' = l }.

Section Recover.
Context `{W : Waits} (Hw : (0 < waits)%nat).

Lemma read_head_wp (Q : unit -> kst -> Prop) s p V :
  let lo := lstart (log_of s) in
  let d := V lo in
  idle s p -> bcache s p ∅ V -> ldev (log_of s) = 1 -> 0 <= lo < disksize (k_fs s) -> room s ∅ ->
  hd_n d <= LOGSIZE ->
  (forall s', relogged s p V
     (upd_lh_block (fun bl => hd_list d ++ drop (Z.to_nat (hd_n d)) bl)
        (upd_lh_n (fun _ => hd_n d) (log_of s))) s' -> Q tt s') ->
  wp read_head Q s.
Proof.
  intros lo d Hid Hbc Hdev Hlo Hroom Hn Hk. unfold read_head. wp_step. wp_step. rewrite Hdev. fold lo.
  wp_step. eapply (bread_wp Hw); [done|done|done|by intros i ?%not_elem_of_empty|by left|].
  intros x s1 B. unfold bget_data. wp_step. wp_step.
  pose proof (br_cache _ _ _ _ _ _ _ B) as Hbc1. rewrite (right_id_L ∅ (∪)) in Hbc1.
  assert (Hx : x ∈ ({[x]} : gset nat)) by (by apply elem_of_singleton).
  pose proof (br_lt _ _ _ _ _ _ _ B) as Hlt.
  assert (Ed : bdata (buf_at x s1) = d).
  { destruct (bc_buf _ _ _ _ Hbc1 x Hlt) as [_ _ Hv _ _ Hh]. unfold d.
    rewrite <- (br_block _ _ _ _ _ _ _ B). symmetry. apply Hv. by apply Hh. }
  rewrite Ed. wp_step. wp_step. wp_step.
  destruct (Z.ltb_spec LOGSIZE (hd_n d)); [lia|]. wp_step.
  set (s2 := upd_log_of _ (upd_log_of _ s1)).
  assert (Hbc2 : bcache s2 p {[x]} V) by (by apply bcache_log, bcache_log).
  assert (Hid2 : idle s2 p).
  { apply idle_log, idle_log. apply (quiet_idle s); [apply B|done]. }
  destruct (brelse_cache Hw s2 p {[x]} V x Hid2 Hbc2 Hx) as (E & Hq & Hbc3).
  { change (buf_at x s2) with (buf_at x s1). change (disk_block s2) with (disk_block s1).
    rewrite (br_block _ _ _ _ _ _ _ B).
    destruct (decide (bflags (buf_at x s1) = 6)); [by left|right; by apply B]. }
  eapply wp_run; [exact E|]. apply Hk. rewrite difference_diag_L in Hbc3. split.
  - by apply (quiet_idle s2).
  - done.
  - apply B.
  - rewrite (quiet_size _ _ Hq). exact (quiet_size _ _ (br_quiet _ _ _ _ _ _ _ B)).
  - intros b. rewrite <- (bread_dirty _ _ _ _ _ _ _ b B).
    transitivity (dirty s2 b); [|done]. apply dirty_core. intros j. apply given_back_tag.
    by rewrite (bc_len _ _ _ _ Hbc2).
  - rewrite (quiet_log _ _ Hq). unfold s2. unfold log_of. simpl.
    rewrite (q_fs _ _ (br_quiet _ _ _ _ _ _ _ B)). done.
Qed.

(** A header that a commit wrote: at most 29 distinct blocks of the disk,
    outside the log. *)
Record hd_ok (lo size : Z) (d : list Z) : Prop := {
  ho_len : length d = 512%nat;
  ho_n : 0 <= hd_n d <= 29;
  ho_home : forall h, h ∈ hd_list d -> 0 <= h < size /\ ~ (lo <= h < lo + LOGSIZE);
  ho_nodup : NoDup (hd_list d) }.

(** The disk after recovery. *)
Definition recovered (lo : Z) (D : Z -> list Z) (b : Z) : list Z :=
  installed lo (hd_list (D lo)) D D (length (hd_list (D lo))) b.

Lemma relogged_ctx s p lo V s' :
  lstart (log_of s) = lo -> ldev (log_of s) = 1 -> 0 <= lo -> lo + LOGSIZE <= disksize (k_fs s) <= 4294967296 ->
  hd_ok lo (disksize (k_fs s)) (V lo) ->
  relogged s p V (upd_lh_block (fun bl => hd_list (V lo) ++ drop (Z.to_nat (hd_n (V lo))) bl)
        (upd_lh_n (fun _ => hd_n (V lo)) (log_of s))) s' ->
  log_ctx s' p lo (hd_list (V lo)).
Proof.
  intros Hst Hdev H0 Hsz [Hl Hn Hh Hnd] [A1 A2 A3 A4 A5 A6].
  pose proof (hd_list_length (V lo) (proj1 Hn)) as Hlen.
  split; rewrite ?A6, ?A4; try done; cbn [lh_n lh_block upd_lh_block upd_lh_n ldev lstart]; try done.
  - lia.
  - by rewrite take_app_length.
  - lia.
Qed.

(** [recover_from_log] on a machine that has just booted. *)
Lemma recover_wp (Q : unit -> kst -> Prop) s p lo :
  let D := disk_block s in
  idle s p -> bcache s p ∅ D -> (forall b, ~ dirty s b) ->
  lstart (log_of s) = lo -> ldev (log_of s) = 1 -> 0 <= lo -> lo + LOGSIZE <= disksize (k_fs s) <= 4294967296 ->
  hd_ok lo (disksize (k_fs s)) (D lo) ->
  (forall s', (forall b, b <> lo -> disk_block s' b = recovered lo D b) ->
     hd_n (disk_block s' lo) = 0 -> Q tt s') ->
  wp recover_from_log Q s.
Proof.
  intros D Hid Hbc Hnd Hst Hdev H0 Hsz Hok Hk. change LOGSIZE with 30 in *.
  assert (Hroom : forall s' V, bcache s' p ∅ V -> (forall b, ~ dirty s' b) -> room s' ∅).
  { intros s' V Hb' Hn'. apply (room_count s' p V []); [done| |change NB with 30%nat; simpl; lia].
    intros b Hb. by destruct (Hn' b). }
  unfold recover_from_log. wp_step.
  apply (read_head_wp _ s p D); rewrite ?Hst; try done; [lia|by apply (Hroom _ D)| |].
  { pose proof (ho_n _ _ _ Hok). change LOGSIZE with 30. lia. }
  intros s1 R. pose proof (relogged_ctx s p lo D s1 Hst Hdev H0 Hsz Hok R) as Hc1.
  destruct R as [Hid1 Hbc1 Hdk1 Hsz1 Hd1 Hl1]. wp_step. unfold install_trans. wp_step. wp_step.
  rewrite (lc_n _ _ _ _ Hc1).
  eapply wp_mono; [apply (install_loop Hw s1 p D lo _ _ Hc1 Hbc1); [|done]|].
  { right. intros b. by rewrite Hd1. }
  intros [] s2 [Hq2 Hbc2 Hdk2 Hd2 _]. wp_step. wp_step. set (s3 := upd_log_of _ s2).
  pose proof (log_ctx_quiet _ _ _ _ _ Hq2 Hc1) as Hc2.
  assert (Hd3 : forall b, ~ dirty s3 b) by (intros b [Hb _]%Hd2; apply Hd1 in Hb; by apply (Hnd b)).
  assert (Hbc3 : bcache s3 p ∅ (installed lo (hd_list (D lo)) D D (length (hd_list (D lo)))))
    by (by apply bcache_log).
  assert (Est : lstart (log_of s3) = lo) by apply Hc2.
  assert (HD : forall b, disk_block s1 b = D b) by (intros b; by apply block_same).
  apply (write_head_wp Hw _ s3 p _ (idle_log _ _ _ (lc_idle _ _ _ _ Hc2)) Hbc3); rewrite ?Est.
  - apply Hc2.
  - change (disksize (k_fs s3)) with (disksize (k_fs s2)). rewrite (quiet_size _ _ Hq2), Hsz1. lia.
  - by apply (Hroom _ _ Hbc3).
  - intros s4 St. pose proof (fun b => stored_block _ _ _ _ _ _ b St) as Hdk4. apply Hk.
    + intros b Hb. rewrite Hdk4. unfold upd_blk. destruct (Z.eqb_spec b lo); [done|].
      change (disk_block s3 b) with (disk_block s2 b). rewrite Hdk2. unfold recovered, installed.
      destruct (list_find _ _) as [[i x]|]; [done|apply HD].
    + rewrite Hdk4. unfold upd_blk. rewrite Z.eqb_refl. apply hd_store_spec.
      * rewrite installed_other; [apply Hok|]. intros Hin. destruct (ho_home _ _ _ Hok _ Hin) as [_ []].
        change LOGSIZE with 30. lia.
      * cbn. lia.
      * cbn. lia.
Qed.
End Recover.
