(* ===== verification/LogProps.v ===== *)
(** * The log: properties

    The writes that a commit makes to the disk, in order; a commit cut off
    after any of them leaves a disk from which recovery makes either the old
    or the new blocks. *)

From S2P Require Import Prelude Machine StringC Spinlock Kalloc Vm VmWalk VmMap VmUser VmKern.
From S2P Require Import VmAlloc VmCopy Demo Kernel Sleep Bio Log Inode Console Fs Pipe File Proc.
From S2P Require Import Exec Sysfile KernelWp DemoK Mmap Trap MmapWp ProcProps Bytes BioWp LogWp.

(** ** A transaction ready to commit *)

(** The cache stands for the blocks [V]; the changes are those of the blocks
    [hs] in the log in memory; the log on disk is empty. *)
Record transaction (s : kst) (p : nat) (V : Z -> list Z) (lo : Z) (hs : list Z) : Prop := {
  tr_ctx : log_ctx s p lo hs;
  tr_cache : bcache s p ∅ V;
  tr_dirty : forall b, dirty s b <-> b ∈ hs;
  tr_head : hd_n (V lo) = 0;
  tr_len : length (V lo) = 512%nat }.

(** Between two disk writes of [commit]: in [write_log] after [k] blocks,
    after the header, in [install_trans] after [k] blocks, at the end. *)
Inductive crash_point := At_log (k : nat) | At_head | At_install (k : nat) | At_end.

Definition point_ok (hs : list Z) (c : crash_point) : Prop :=
  match c with At_log k | At_install k => (k <= length hs)%nat | _ => True end.

(** The code of [commit] before a point. *)
Definition commit_upto `{Waits} (c : crash_point) : M kst unit :=
  match c with
  | At_log k => for_all (seqZ 0 (Z.of_nat k)) write_log_one
  | At_head => write_log ;; write_head
  | At_install k => write_log ;; write_head ;; for_all (seqZ 0 (Z.of_nat k)) install_one
  | At_end =>
      write_log ;; write_head ;; install_trans ;;
      modify (upd_log_of (upd_lh_n (fun _ => 0))) ;; write_head
  end.

Definition outside (lo b : Z) : Prop := ~ (lo <= b < lo + LOGSIZE).

(** The commit is decided when the header is written. *)
Definition decided (c : crash_point) : bool := match c with At_log _ => false | _ => true end.

Lemma lo_not_home lo (hs : list Z) :
  (forall h, h ∈ hs -> outside lo h /\ 0 <= h < 4294967296) -> lo ∉ hs.
Proof.
  intros Hout Hin. destruct (Hout lo Hin) as [Ho _]. unfold outside in Ho.
  change LOGSIZE with 30 in Ho. lia.
Qed.

Lemma log_not_home lo (hs : list Z) i :
  (forall h, h ∈ hs -> outside lo h /\ 0 <= h < 4294967296) -> (length hs <= 29)%nat ->
  (i < length hs)%nat -> lo + Z.of_nat i + 1 ∉ hs.
Proof.
  intros Hout Hn Hi Hin. destruct (Hout _ Hin) as [Ho _]. unfold outside in Ho.
  change LOGSIZE with 30 in Ho. lia.
Qed.

Section Points.
Context (V D : Z -> list Z) (lo : Z) (hs bl : list Z).

Definition head_block : list Z := hd_store (Z.of_nat (length hs)) bl (V lo).

Definition after_head (B : Z -> list Z) : Z -> list Z :=
  upd_blk (logged lo hs V B (length hs)) lo head_block.

(** The disk at each point. *)
Definition point_disk (c : crash_point) : Z -> list Z :=
  match c with
  | At_log k => logged lo hs V D k
  | At_head => after_head D
  | At_install k => installed lo hs (after_head V) (after_head D) k
  | At_end =>
      upd_blk (installed lo hs (after_head V) (after_head D) (length hs)) lo
        (hd_store 0 bl head_block)
  end.

(** The writes made up to each point, the last first. *)
Definition head_writes : list (Z * list Z) := (lo, head_block) :: log_writes lo hs V (length hs).

Definition point_writes (c : crash_point) : list (Z * list Z) :=
  match c with
  | At_log k => log_writes lo hs V k
  | At_head => head_writes
  | At_install k => home_writes lo hs (after_head V) k ++ head_writes
  | At_end =>
      (lo, hd_store 0 bl head_block) :: home_writes lo hs (after_head V) (length hs) ++ head_writes
  end.

(** The point after [k] writes. *)
Definition nth_point (k : nat) : crash_point :=
  if (k <=? length hs)%nat then At_log k
  else if (k <=? 2 * length hs + 1)%nat then At_install (k - length hs - 1) else At_end.

Lemma nth_point_ok k : point_ok hs (nth_point k).
Proof.
  unfold nth_point. destruct (Nat.leb_spec k (length hs)); [done|].
  destruct (Nat.leb_spec k (2 * length hs + 1)); simpl; [lia|done].
Qed.

Lemma nth_point_decided k : decided (nth_point k) = negb (k <=? length hs)%nat.
Proof. unfold nth_point. destruct (k <=? length hs)%nat; [done|]. by destruct (_ <=? _)%nat. Qed.

Lemma reverse_seq_split {A} (f : nat -> A) k n :
  (k <= n)%nat ->
  exists l, reverse (f <$> seq 0 n) = l ++ reverse (f <$> seq 0 k) /\ length l = (n - k)%nat.
Proof.
  intros Hk. exists (reverse (f <$> seq k (n - k))). split.
  - rewrite <- reverse_app, <- fmap_app. do 2 f_equal.
    change k with (0 + k)%nat at 2. rewrite <- seq_app. f_equal. lia.
  - by rewrite length_reverse, length_fmap, length_seq.
Qed.

Lemma length_log_writes n : length (log_writes lo hs V n) = n.
Proof. unfold log_writes. by rewrite length_reverse, length_fmap, length_seq. Qed.

Lemma length_home_writes B n : length (home_writes lo hs B n) = n.
Proof. unfold home_writes. by rewrite length_reverse, length_fmap, length_seq. Qed.

Lemma end_writes_length : length (point_writes At_end) = (2 * length hs + 2)%nat.
Proof.
  unfold point_writes, head_writes. simpl. rewrite length_app. simpl.
  rewrite length_home_writes, length_log_writes. lia.
Qed.

(** The first [k] writes of the whole are those before the point. *)
Lemma nth_point_writes k :
  (k <= 2 * length hs + 2)%nat ->
  drop (2 * length hs + 2 - k) (point_writes At_end) = point_writes (nth_point k).
Proof.
  intros Hk. assert (Hsp : exists l, point_writes At_end = l ++ point_writes (nth_point k) /\
    length l = (2 * length hs + 2 - k)%nat).
  { unfold nth_point. destruct (Nat.leb_spec k (length hs)) as [H1|H1];
      [|destruct (Nat.leb_spec k (2 * length hs + 1)) as [H2|H2]].
    - destruct (reverse_seq_split (fun i => (lo + Z.of_nat i + 1, V (hs !!! i))) k (length hs) H1)
        as (l & E & Hl).
      exists ((lo, hd_store 0 bl head_block) :: home_writes lo hs (after_head V) (length hs) ++
                (lo, head_block) :: l).
      unfold point_writes, head_writes, log_writes. rewrite E. split.
      + by rewrite <- app_comm_cons, <- app_assoc.
      + simpl. rewrite length_app. simpl. rewrite length_home_writes. lia.
    - destruct (reverse_seq_split (fun i => (hs !!! i, after_head V (lo + Z.of_nat i + 1)))
        (k - length hs - 1) (length hs)) as (l & E & Hl); [lia|].
      exists ((lo, hd_store 0 bl head_block) :: l). unfold point_writes, home_writes. rewrite E. split.
      + by rewrite <- app_comm_cons, <- app_assoc.
      + simpl. lia.
    - exists []. split; [done|]. simpl. lia. }
  destruct Hsp as (l & -> & Hl). by rewrite <- Hl, drop_app_length.
Qed.

Context (Hn : (length hs <= 29)%nat) (Hbl : take (length hs) bl = hs) (Hnd : NoDup hs).
Context (Hout : forall h, h ∈ hs -> outside lo h /\ 0 <= h < 4294967296).
Context (Hsame : forall b, b ∉ hs -> V b = D b).
Context (Hhd : hd_n (V lo) = 0) (Hlen : length (V lo) = 512%nat).

Lemma bl_lookup i : (i < length hs)%nat -> bl !!! i = hs !!! i.
Proof.
  intros Hi. rewrite <- Hbl at 1. rewrite !list_lookup_total_alt. by rewrite lookup_take_lt.
Qed.

Lemma head_block_spec :
  length head_block = 512%nat /\ hd_list head_block = hs /\ hd_n head_block = Z.of_nat (length hs).
Proof.
  destruct (hd_store_spec (Z.of_nat (length hs)) bl (V lo)) as (Hl & Hn' & Hb); [done|lia| |].
  { intros i Hi. rewrite bl_lookup by lia. apply Hout, lookup_in. lia. }
  split_and!; [done| |done]. unfold hd_list, head_block. rewrite Hn'.
  apply list_eq. intros i. rewrite list_lookup_fmap. destruct (decide (i < length hs)%nat) as [Hi|Hi].
  - rewrite lookup_seqZ_lt by lia. simpl. rewrite Hb by lia.
    rewrite Z.add_0_l, Nat2Z.id, bl_lookup by done. by rewrite list_lookup_lookup_total_lt.
  - rewrite lookup_seqZ_ge, lookup_ge_None_2 by lia. done.
Qed.

(** The log holds the new blocks. *)
Lemma after_head_log B i :
  (i < length hs)%nat -> after_head B (lo + Z.of_nat i + 1) = V (hs !!! i).
Proof.
  intros Hi. unfold after_head, upd_blk, logged. zcases; try lia. do 2 f_equal. lia.
Qed.

Lemma after_head_out B b : outside lo b -> after_head B b = B b.
Proof.
  unfold outside. change LOGSIZE with 30. intros Ho. unfold after_head, upd_blk, logged.
  zcases; try lia; done.
Qed.

Lemma after_head_lo B : after_head B lo = head_block.
Proof. unfold after_head, upd_blk. by rewrite Z.eqb_refl. Qed.

(** Installing gives the new blocks, wherever it started. *)
Lemma install_new B E b :
  outside lo b -> (forall i, (i < length hs)%nat -> B (lo + Z.of_nat i + 1) = V (hs !!! i)) ->
  (b ∉ hs -> E b = V b) -> installed lo hs B E (length hs) b = V b.
Proof.
  intros Ho HB HE. unfold installed. rewrite take_ge by done.
  destruct (list_find (eq b) hs) as [[i x]|] eqn:F.
  - apply list_find_Some in F as (Hx & <- & _).
    rewrite HB by (by eapply lookup_lt_Some). by rewrite (list_lookup_total_correct _ _ _ Hx).
  - apply HE. intros Hin. apply list_find_None in F. rewrite list.Forall_forall in F. by apply (F b).
Qed.

(** What recovery makes of the disk at each point. *)
Lemma point_recovered c b :
  point_ok hs c -> outside lo b ->
  recovered lo (point_disk c) b = if decided c then V b else D b.
Proof.
  intros Hc Ho. destruct head_block_spec as (Hl & Hhs & Hhn). pose proof (lo_not_home lo hs Hout) as Hlo.
  assert (Hempty : forall d E, hd_n d = 0 -> installed lo (hd_list d) E E (length (hd_list d)) b = E b).
  { intros d E Hd. unfold hd_list. by rewrite Hd, seqZ_nil by lia. }
  assert (Hnew : b ∉ hs -> after_head D b = V b)
    by (intros Hb; rewrite after_head_out by done; symmetry; by apply Hsame).
  destruct c as [k| |k|]; unfold recovered; simpl.
  - assert (E : logged lo hs V D k lo = V lo)
      by (rewrite Hsame by done; unfold logged; zcases; try lia; done).
    rewrite E, Hempty by done. unfold outside in Ho. change LOGSIZE with 30 in Ho. simpl in Hc.
    unfold logged. zcases; try lia; done.
  - rewrite after_head_lo, Hhs. apply install_new; [done| |done]. intros i Hi. by apply after_head_log.
  - rewrite !(installed_other _ _ _ _ k lo), !after_head_lo, !Hhs by done. apply install_new; [done| |].
    + intros i Hi. rewrite installed_other by (by apply log_not_home). by apply after_head_log.
    + intros Hb. rewrite installed_other by done. by apply Hnew.
  - rewrite Hempty.
    + unfold upd_blk. destruct (Z.eqb_spec b lo) as [->|].
      * unfold outside in Ho. change LOGSIZE with 30 in Ho. lia.
      * apply install_new; [done| |done]. intros i Hi. by apply after_head_log.
    + unfold upd_blk. rewrite Z.eqb_refl. apply hd_store_spec; [done|lia|lia].
Qed.

(** The header on the disk at each point is one that recovery can read. *)
Lemma point_hd_ok size c :
  point_ok hs c -> (forall h, h ∈ hs -> 0 <= h < size) -> hd_ok lo size (point_disk c lo).
Proof.
  intros Hc Hsz. destruct head_block_spec as (Hl & Hhs & Hhn). pose proof (lo_not_home lo hs Hout) as Hlo.
  assert (Hempty : forall d, length d = 512%nat -> hd_n d = 0 -> hd_ok lo size d).
  { intros d Hd E. assert (hd_list d = []) as El by (unfold hd_list; by rewrite E, seqZ_nil by lia).
    split; rewrite ?El; [done|lia|by intros h ?%not_elem_of_nil|constructor]. }
  assert (Hfull : hd_ok lo size head_block).
  { split; rewrite ?Hhs, ?Hhn; [done|lia| |done]. intros h Hh. split; [by apply Hsz|by apply Hout]. }
  destruct c as [k| |k|]; simpl.
  - assert (logged lo hs V D k lo = V lo) as ->
      by (rewrite Hsame by done; unfold logged; zcases; try lia; done). by apply Hempty.
  - by rewrite after_head_lo.
  - by rewrite installed_other, after_head_lo.
  - unfold upd_blk. rewrite Z.eqb_refl.
    destruct (hd_store_spec 0 bl head_block) as (? & ? & _); [done|lia|lia|]. by apply Hempty.
Qed.
End Points.

Section Commit.
Context `{W : Waits} (Hw : (0 < waits)%nat).
Context (s : kst) (p : nat) (V : Z -> list Z) (lo : Z) (hs : list Z).
Context (Htr : transaction s p V lo hs).

Notation bl := (lh_block (log_of s)).
Notation D := (disk_block s).

Lemma tr_room s' V' : bcache s' p ∅ V' -> (forall b, dirty s' b -> b ∈ hs) -> room s' ∅.
Proof.
  intros Hbc Hd. apply (room_count s' p V' hs); [done|done|]. change NB with 30%nat.
  pose proof (lc_len _ _ _ _ (tr_ctx _ _ _ _ _ Htr)). lia.
Qed.

Lemma tr_range : 0 <= lo < disksize (k_fs s).
Proof. pose proof (lc_area _ _ _ _ (tr_ctx _ _ _ _ _ Htr)) as H. change LOGSIZE with 30 in H. lia. Qed.

Lemma tr_outside h : h ∈ hs -> outside lo h /\ 0 <= h < 4294967296.
Proof.
  intros Hh. destruct (lc_home _ _ _ _ (tr_ctx _ _ _ _ _ Htr) h Hh) as [? ?].
  pose proof (lc_area _ _ _ _ (tr_ctx _ _ _ _ _ Htr)). split; [done|lia].
Qed.

(** The state after [write_log] and the first [write_head]. *)
Lemma head_wp (Q : unit -> kst -> Prop) :
  (forall s', quiet s s' -> bcache s' p ∅ (after_head V lo hs bl V) ->
     (forall b, disk_block s' b = after_head V lo hs bl D b) ->
     (forall b, dirty s' b <-> b ∈ hs) ->
     disk (k_fs s') = head_writes V lo hs bl ++ disk (k_fs s) -> Q tt s') ->
  wp (write_log ;; write_head) Q s.
Proof.
  intros Hk. destruct Htr as [Hc Hbc Hd _ _]. wp_step. unfold write_log. wp_step. wp_step.
  rewrite (lc_n _ _ _ _ Hc).
  eapply wp_mono; [by apply (write_log_loop Hw s p V lo hs)|]. intros [] s1 [Hq1 Hbc1 Hdk1 Hd1 Hw1].
  pose proof (log_ctx_quiet _ _ _ _ _ Hq1 Hc) as Hc1.
  pose proof (lo_not_home lo hs tr_outside) as Hlo.
  assert (El : logged lo hs V V (length hs) lo = V lo) by (unfold logged; zcases; try lia; done).
  assert (Est : lstart (log_of s1) = lo) by apply Hc1.
  apply (write_head_wp Hw _ s1 p _ (lc_idle _ _ _ _ Hc1) Hbc1); rewrite ?Est.
  - apply Hc1.
  - rewrite (quiet_size _ _ Hq1). apply tr_range.
  - apply (tr_room _ _ Hbc1). intros b. by rewrite Hd1, Hd.
  - intros s2 St. pose proof (fun b => stored_block _ _ _ _ _ _ b St) as A3.
    destruct St as [A1 A2 A5 A4]. rewrite El, (quiet_log _ _ Hq1), (lc_n _ _ _ _ Hc) in *. apply Hk.
    + by eapply quiet_trans.
    + exact A2.
    + intros b. rewrite A3. unfold after_head, upd_blk, head_block. destruct (b =? lo); [done|apply Hdk1].
    + intros b. rewrite A4, Hd1, Hd. split; [by intros []|]. intros Hb. split; [done|]. by intros ->.
    + by rewrite A5, Hw1.
Qed.

Lemma wp_assoc {A B C} (m : M kst A) (f : A -> M kst B) (g : B -> M kst C) Q x :
  wp (y <- m ;; f y) (fun b => wp (g b) Q) x -> wp (y <- m ;; z <- f y ;; g z) Q x.
Proof.
  intros Hwp. apply wp_bind_inv in Hwp. wp_step. eapply wp_mono; [exact Hwp|].
  intros a x' Hx. by wp_step.
Qed.

(** The state after [k] blocks are installed. *)
Lemma install_wp (Q : unit -> kst -> Prop) k :
  (k <= length hs)%nat ->
  (forall s', quiet s s' ->
     bcache s' p ∅ (installed lo hs (after_head V lo hs bl V) (after_head V lo hs bl V) k) ->
     (forall b, disk_block s' b =
        installed lo hs (after_head V lo hs bl V) (after_head V lo hs bl D) k b) ->
     (forall b, dirty s' b <-> b ∈ hs /\ b ∉ take k hs) ->
     disk (k_fs s') = point_writes V lo hs bl (At_install k) ++ disk (k_fs s) -> Q tt s') ->
  wp (write_log ;; write_head ;; for_all (seqZ 0 (Z.of_nat k)) install_one) Q s.
Proof.
  intros Hk HQ. apply wp_assoc, head_wp. intros s1 Hq Hbc1 Hdk Hd Hw1.
  pose proof (log_ctx_quiet _ _ _ _ _ Hq (tr_ctx _ _ _ _ _ Htr)) as Hc1.
  eapply wp_mono; [apply (install_loop Hw s1 p _ lo hs k Hc1 Hbc1); [by left|done]|].
  intros [] s2 [Hq2 Hbc2 Hdk2 Hd2 Hw2]. apply HQ.
  - by eapply quiet_trans.
  - done.
  - intros b. rewrite Hdk2. unfold installed. destruct (list_find _ _) as [[i x]|]; [done|apply Hdk].
  - intros b. by rewrite Hd2, Hd.
  - rewrite Hw2, Hw1. apply app_assoc.
Qed.

(** The whole commit. *)
Lemma end_wp (Q : unit -> kst -> Prop) :
  (forall s', bcache s' p ∅ (upd_blk (installed lo hs (after_head V lo hs bl V)
       (after_head V lo hs bl V) (length hs)) lo (hd_store 0 bl (head_block V lo hs bl))) ->
     (forall b, disk_block s' b = point_disk V D lo hs bl At_end b) ->
     (forall b, ~ dirty s' b) -> idle s' p -> disksize (k_fs s') = disksize (k_fs s) ->
     log_of s' = upd_lh_n (fun _ => 0) (log_of s) ->
     disk (k_fs s') = point_writes V lo hs bl At_end ++ disk (k_fs s) -> Q tt s') ->
  wp (commit_upto At_end) Q s.
Proof.
  intros HQ. unfold commit_upto. apply wp_assoc, head_wp. intros s1 Hq Hbc1 Hdk Hd Hw1.
  pose proof (log_ctx_quiet _ _ _ _ _ Hq (tr_ctx _ _ _ _ _ Htr)) as Hc1.
  wp_step. unfold install_trans. wp_step. wp_step. rewrite (lc_n _ _ _ _ Hc1).
  eapply wp_mono; [apply (install_loop Hw s1 p _ lo hs _ Hc1 Hbc1); [by left|done]|].
  intros [] s2 [Hq2 Hbc2 Hdk2 Hd2 Hw2]. wp_step. wp_step. set (s3 := upd_log_of _ s2).
  pose proof (log_ctx_quiet _ _ _ _ _ Hq2 Hc1) as Hc2.
  assert (Hd3 : forall b, ~ dirty s3 b).
  { intros b [Hb Hn]%Hd2. apply Hn. rewrite take_ge by done. by apply Hd. }
  assert (Est : lstart (log_of s3) = lo) by apply Hc2.
  assert (Elog : log_of s2 = log_of s) by (by rewrite (quiet_log _ _ Hq2), (quiet_log _ _ Hq)).
  assert (Ehd : installed lo hs (after_head V lo hs bl V) (after_head V lo hs bl V) (length hs) lo =
    head_block V lo hs bl).
  { rewrite installed_other by exact (lo_not_home lo hs tr_outside). apply after_head_lo. }
  assert (Esz : disksize (k_fs s3) = disksize (k_fs s))
    by (rewrite <- (quiet_size _ _ Hq); exact (quiet_size _ _ Hq2)).
  apply (write_head_wp Hw _ s3 p _ (idle_log _ _ _ (lc_idle _ _ _ _ Hc2)) (bcache_log _ _ _ _ _ Hbc2));
    rewrite ?Est.
  - apply Hc2.
  - rewrite Esz. apply tr_range.
  - apply (tr_room s3 _ (bcache_log _ _ _ _ _ Hbc2)). intros b Hb. by destruct (Hd3 b).
  - intros s4 St. pose proof (fun b => stored_block _ _ _ _ _ _ b St) as A3.
    destruct St as [A1 A2 A5 A4]. rewrite Ehd in *.
    assert (E0 : lh_n (log_of s3) = 0) by done. rewrite E0 in *.
    assert (Ebl : lh_block (log_of s3) = bl) by (rewrite <- Elog; done). rewrite Ebl in *. apply HQ.
    + done.
    + intros b. rewrite A3. unfold point_disk, upd_blk. destruct (b =? lo); [done|].
      change (disk_block s3 b) with (disk_block s2 b). rewrite Hdk2. unfold installed.
      destruct (list_find _ _) as [[i x]|]; [done|apply Hdk].
    + intros b [Hb _]%A4. by apply (Hd3 b).
    + apply (quiet_idle s3); [done|apply idle_log, Hc2].
    + by rewrite (quiet_size _ _ A1).
    + rewrite (quiet_log _ _ A1). unfold s3. unfold log_of at 1. simpl.
      change (log (k_fs s2)) with (log_of s2). by rewrite Elog.
    + rewrite A5. change (disk (k_fs s3)) with (disk (k_fs s2)). rewrite Hw2, Hw1.
      cbn [point_writes]. by rewrite <- app_comm_cons, app_assoc.
Qed.

(** Each prefix of [commit] runs, to the disk of its point. *)
Lemma upto_wp c :
  point_ok hs c ->
  wp (commit_upto c) (fun _ s' => (forall b, disk_block s' b = point_disk V D lo hs bl c b) /\
    disk (k_fs s') = point_writes V lo hs bl c ++ disk (k_fs s)) s.
Proof.
  intros Hc. destruct c as [k| |k|]; unfold point_ok in Hc.
  - destruct Htr as [Hctx Hbc Hd _ _].
    eapply wp_mono; [by apply (write_log_loop Hw s p V lo hs k)|].
    intros [] s1 [_ _ Hdk1 _ Hw1]. by split.
  - apply head_wp. intros s1 _ _ Hdk _ Hw1. by split.
  - apply install_wp; [done|]. intros s1 _ _ Hdk _ Hw1. by split.
  - apply end_wp. intros s1 _ Hdk _ _ _ _ Hw1. by split.
Qed.
End Commit.

(** ** After a crash *)

(** A machine that boots: nothing in the cache, the log found at [lo]. *)
Record booted (s : kst) (p : nat) (lo : Z) : Prop := {
  bt_idle : idle s p;
  bt_bufs : bufs (k_fs s) = replicate NB buf0;
  bt_lru : lru (k_fs s) ≡ₚ seq 0 NB;
  bt_start : lstart (log_of s) = lo;
  bt_dev : ldev (log_of s) = 1 }.

Lemma booted_buf s p lo i : booted s p lo -> buf_at i s = buf0.
Proof.
  intros Hb. unfold buf_at. rewrite (bt_bufs _ _ _ Hb), list_lookup_total_alt.
  destruct (replicate NB buf0 !! i) as [x|] eqn:E; [|done]. by apply lookup_replicate in E as [-> _].
Qed.

Lemma booted_cache s p lo :
  booted s p lo -> bcache s p ∅ (disk_block s) /\ forall b, ~ dirty s b.
Proof.
  intros Hb. pose proof (booted_buf s p lo) as Hat. split.
  - split.
    + rewrite (bt_bufs _ _ _ Hb). by rewrite length_replicate.
    + apply Hb.
    + intros i Hi. split; rewrite Hat by done; try done; try (by left).
    + intros i j _ _. by rewrite Hat.
    + done.
    + intros i ?%not_elem_of_empty. done.
  - intros b (i & _ & H1 & _). by rewrite Hat in H1.
Qed.

Lemma recovered_ext lo D D' b : (forall b, D b = D' b) -> recovered lo D b = recovered lo D' b.
Proof.
  intros E. unfold recovered, installed. rewrite E. destruct (list_find _ _) as [[i x]|]; apply E.
Qed.

(** Recovery from the disk of a point. *)
Lemma point_recovers `{Waits} s p V lo hs c s2 q :
  (0 < waits)%nat -> transaction s p V lo hs -> point_ok hs c -> booted s2 q lo ->
  disk (k_fs s2) = point_writes V lo hs (lh_block (log_of s)) c ++ disk (k_fs s) ->
  disksize (k_fs s2) = disksize (k_fs s) ->
  exists s3, recover_from_log s2 = Ok tt s3 /\ hd_n (disk_block s3 lo) = 0 /\
    forall b, outside lo b -> disk_block s3 b = if decided c then V b else disk_block s b.
Proof.
  intros Hw Htr Hc Hb Hdk Hsz. destruct (upto_wp Hw s p V lo hs Htr c Hc) as ([] & s1 & _ & Hdk1 & Hw1).
  destruct (booted_cache s2 q lo Hb) as [Hbc2 Hnd2].
  assert (HD : forall b, disk_block s2 b = point_disk V (disk_block s) lo hs (lh_block (log_of s)) c b)
    by (intros b; rewrite (block_same s1) by congruence; apply Hdk1).
  pose proof Htr as [Hctx Hbc Hd Hhd Hlen]. pose proof (tr_outside Hw s p V lo hs Htr) as Hout.
  assert (Hsame : forall b, b ∉ hs -> V b = disk_block s b)
    by (intros b Hb'; apply (not_dirty_disk s p); [done|by rewrite Hd]).
  assert (Hwp : wp recover_from_log (fun _ s3 => hd_n (disk_block s3 lo) = 0 /\
    forall b, outside lo b -> disk_block s3 b = if decided c then V b else disk_block s b) s2).
  { pose proof (lc_area _ _ _ _ Hctx) as [Ha1 Ha2].
    apply (recover_wp Hw _ s2 q lo); try apply Hb; try done; rewrite ?Hsz; try done.
    - rewrite HD. apply point_hd_ok; try apply Hctx; done.
    - intros s3 Hrec Hhd3. split; [done|]. intros b Ho. rewrite Hrec.
      + rewrite (recovered_ext _ _ _ _ HD). apply point_recovered; try done; apply Hctx.
      + intros ->. unfold outside in Ho. change LOGSIZE with 30 in Ho. lia. }
  destruct Hwp as ([] & s3 & E3 & ? & ?). by exists s3.
Qed.

(** [commit] of a transaction that is not empty is the code up to the
    last point. *)
Lemma commit_whole `{Waits} s p V lo hs :
  transaction s p V lo hs -> hs <> [] -> commit s = commit_upto At_end s.
Proof.
  intros [Hctx _ _ _ _] Hne. unfold commit. erewrite bind_ok by (unfold gets; reflexivity).
  rewrite (lc_n _ _ _ _ Hctx). destruct hs; [done|]. by destruct (Z.ltb_spec 0 (Z.of_nat (length (z :: hs)))); [|simpl in *; lia].
Qed.

(** C3. A commit is atomic across crashes: [commit] runs to its end, and its
    writes to the disk are a sequence [ws] (twice as many as the transaction
    has blocks, and two for the header).  Stop the machine after any number
    [k] of them: the recovery code run at the next boot on that disk ends,
    empties the log, and leaves every block outside the log as it was before
    the commit if [k] is at most the number of blocks (the header had not
    been written), and as the transaction left it otherwise. *)
Theorem commit_crash_atomic `{Waits} (s : kst) (p : nat) (V : Z -> list Z) (lo : Z) (hs : list Z) :
  (0 < waits)%nat -> transaction s p V lo hs -> hs <> [] ->
  exists s' ws, commit s = Ok tt s' /\ disk (k_fs s') = ws ++ disk (k_fs s) /\
    length ws = (2 * length hs + 2)%nat /\
    forall k s2 q, (k <= length ws)%nat -> booted s2 q lo ->
      disk (k_fs s2) = drop (length ws - k) ws ++ disk (k_fs s) ->
      disksize (k_fs s2) = disksize (k_fs s) ->
      exists s3, recover_from_log s2 = Ok tt s3 /\ hd_n (disk_block s3 lo) = 0 /\
        forall b, outside lo b ->
          disk_block s3 b = if (k <=? length hs)%nat then disk_block s b else V b.
Proof.
  intros Hw Htr Hne. rewrite (commit_whole s p V lo hs Htr Hne).
  destruct (upto_wp Hw s p V lo hs Htr At_end I) as ([] & s' & E & _ & Hws).
  exists s', (point_writes V lo hs (lh_block (log_of s)) At_end).
  pose proof (end_writes_length V lo hs (lh_block (log_of s))) as Hlen.
  split; [exact E|]. split; [exact Hws|]. split; [exact Hlen|].
  intros k s2 q Hk Hb Hdk Hsz. rewrite Hlen in Hk, Hdk. rewrite nth_point_writes in Hdk by done.
  destruct (point_recovers s p V lo hs (nth_point hs k) s2 q Hw Htr (nth_point_ok hs k) Hb Hdk Hsz)
    as (s3 & E3 & H0 & Hblk).
  exists s3. split; [exact E3|]. split; [exact H0|]. intros b Ho. rewrite Hblk by done.
  rewrite nth_point_decided. by destruct (k <=? length hs)%nat.
Qed.

(** A commit that completes has every change of the transaction on the
    disk, leaves nothing dirty in the cache, and leaves an empty
    transaction, ready for the next one. *)
Theorem commit_exact `{Waits} (s : kst) (p : nat) (V : Z -> list Z) (lo : Z) (hs : list Z) :
  (0 < waits)%nat -> transaction s p V lo hs -> hs <> [] ->
  exists s' V', commit s = Ok tt s' /\ transaction s' p V' lo [] /\
    forall b, outside lo b -> V' b = V b /\ disk_block s' b = V b.
Proof.
  intros Hw Htr Hne. pose proof Htr as [Hctx Hbc Hd Hhd Hlen].
  pose proof (tr_outside Hw s p V lo hs Htr) as Hout.
  rewrite (commit_whole s p V lo hs Htr Hne). assert (Hsame : forall b, b ∉ hs -> V b = disk_block s b)
    by (intros b Hb'; apply (not_dirty_disk s p); [done|by rewrite Hd]).
  set (bl := lh_block (log_of s)).
  set (V' := upd_blk (installed lo hs (after_head V lo hs bl V) (after_head V lo hs bl V) (length hs))
               lo (hd_store 0 bl (head_block V lo hs bl))).
  destruct (head_block_spec V lo hs bl) as (Hl & Hhs & Hhn); try apply Hctx; try done.
  destruct (hd_store_spec 0 bl (head_block V lo hs bl)) as (Hl0 & Hn0 & _); [done|lia|lia|].
  assert (HV' : forall B b, outside lo b -> (b ∉ hs -> B b = V b) ->
    upd_blk (installed lo hs (after_head V lo hs bl V) (after_head V lo hs bl B) (length hs)) lo
      (hd_store 0 bl (head_block V lo hs bl)) b = V b).
  { intros B b Ho HB. unfold upd_blk. destruct (Z.eqb_spec b lo) as [->|];
      [unfold outside in Ho; change LOGSIZE with 30 in Ho; lia|].
    apply install_new; try done.
    - intros i Hi. apply after_head_log; try done; apply Hctx.
    - intros Hb. rewrite after_head_out; try done; by (apply HB || apply Hctx). }
  assert (Hwp : wp (commit_upto At_end) (fun _ s' => transaction s' p V' lo [] /\
    forall b, outside lo b -> V' b = V b /\ disk_block s' b = V b) s).
  { apply (end_wp Hw s p V lo hs Htr). intros s' Hbc' Hdk Hnd Hid Hsz Hlog _. split.
    - split; [|exact Hbc'| | |].
      + destruct Hctx as [B1 B2 B3 B4 B5 B6 B7 B8 B9].
        split; rewrite ?Hlog, ?Hsz; try done; [simpl; lia|by intros h ?%not_elem_of_nil|constructor].
      + intros b. split; [intros Hb; by destruct (Hnd b)|by intros ?%not_elem_of_nil].
      + unfold V', upd_blk. by rewrite Z.eqb_refl.
      + unfold V', upd_blk. by rewrite Z.eqb_refl.
    - intros b Ho. split; [by apply (HV' V)|]. rewrite Hdk. apply (HV' (disk_block s)); [done|].
      intros Hb. symmetry. by apply Hsame. }
  destruct Hwp as ([] & s' & E & ? & ?). by exists s', V'.
Qed.

(** ** Adding to a transaction *)

Lemma log_find_spec bs b n : forall i,
  (i + n <= length bs)%nat ->
  log_find bs b i n =
  match list_find (eq b) (take n (drop i bs)) with
  | Some (j, _) => (i + j)%nat
  | None => (i + n)%nat
  end.
Proof.
  induction n as [|n IH]; intros i Hi; simpl; [lia|].
  destruct (lookup_lt_is_Some_2 bs i) as [x Hx]; [lia|].
  rewrite (drop_S _ _ _ Hx), (list_lookup_total_correct _ _ _ Hx). simpl.
  destruct (Z.eqb_spec x b) as [->|Hne].
  - rewrite decide_True by done. lia.
  - rewrite decide_False by congruence. rewrite IH by lia.
    destruct (list_find _ _) as [[j y]|]; simpl; lia.
Qed.

(** The blocks recorded in the log. *)
Definition log_blocks (l : logst) : list Z := take (Z.to_nat (lh_n l)) (lh_block l).

(** The log with block [b] recorded. *)
Definition log_add (b : Z) (l : logst) : logst :=
  if decide (b ∈ log_blocks l) then l
  else upd_lh_n (fun n => n + 1) (upd_lh_block (<[Z.to_nat (lh_n l) := b]>) l).

Lemma upd_log_ext f g s : f (log_of s) = g (log_of s) -> upd_log_of f s = upd_log_of g s.
Proof. intros E. unfold upd_log_of, upd_k_fs, upd_log. unfold log_of in E. by rewrite E. Qed.

(** [log_write] in a transaction with room: the block is added to the
    log unless it is there already (absorption), its buffer is marked dirty
    so that it stays in the cache, and nothing else changes. *)
Theorem log_write_exact (s : kst) (p i : nat) :
  let l := log_of s in
  idle s p -> length (lh_block l) = Z.to_nat LOGSIZE -> 0 <= lh_n l < LOGSIZE ->
  lh_n l < lsize l - 1 -> 1 <= outstanding l ->
  log_write i s =
    Ok tt (upd_buf i (upd_bflags (fun f => Z.lor f B_DIRTY))
             (upd_log_of (log_add (blockno (buf_at i s))) (touch s))) /\
  log_blocks (log_add (blockno (buf_at i s)) l) =
    (if decide (blockno (buf_at i s) ∈ log_blocks l) then log_blocks l
     else log_blocks l ++ [blockno (buf_at i s)]).
Proof.
  intros l Hid Hlen Hn Hsz Hout. set (b := blockno (buf_at i s)). split.
  - unfold log_write. erewrite bind_ok by (unfold gets; reflexivity). fold l.
    destruct (Z.leb_spec LOGSIZE (lh_n l)); [lia|]. destruct (Z.leb_spec (lsize l - 1) (lh_n l)); [lia|].
    destruct (Z.ltb_spec (outstanding l) 1); [lia|]. cbn [orb].
    erewrite bind_ok by (by apply (acquire_idle s p)). set (s1 := set_cpu _ s).
    erewrite bind_ok by (unfold gets; reflexivity). erewrite bind_ok by (unfold gets; reflexivity).
    change (log_of s1) with l. change (blockno (buf_at i s1)) with b.
    rewrite log_find_spec by lia. rewrite drop_0. fold (log_blocks l).
    erewrite bind_ok by (unfold modify; reflexivity).
    destruct (list_find (eq b) (log_blocks l)) as [[j x]|] eqn:F; rewrite Nat.add_0_l.
    + apply list_find_Some in F as (Hx & <- & _).
      assert (Hin : b ∈ log_blocks l) by (by eapply list_elem_of_lookup_2).
      apply lookup_take_Some in Hx as [Hx Hj]. destruct (Z.eqb_spec (Z.of_nat j) (lh_n l)); [lia|].
      erewrite bind_ok by (unfold ret; reflexivity). erewrite bind_ok by (unfold modify; reflexivity).
      rewrite (release_idle s p Hid L_log) by done. f_equal.
      change (set_cpu _ _) with (upd_buf i (upd_bflags (fun f => Z.lor f B_DIRTY))
        (upd_log_of (upd_lh_block (<[j := b]>)) (touch s))).
      f_equal. apply upd_log_ext. change (log_of (touch s)) with l. unfold log_add.
      rewrite decide_True by done. unfold upd_lh_block. rewrite list_insert_id by done. by destruct l.
    + assert (Hnin : b ∉ log_blocks l).
      { intros Hin. apply list_find_None in F. rewrite list.Forall_forall in F. by apply (F b). }
      destruct (Z.eqb_spec (Z.of_nat (Z.to_nat (lh_n l))) (lh_n l)); [|lia].
      erewrite bind_ok by (unfold modify; reflexivity). erewrite bind_ok by (unfold modify; reflexivity).
      rewrite (release_idle s p Hid L_log) by done. f_equal.
      change (set_cpu _ _) with (upd_buf i (upd_bflags (fun f => Z.lor f B_DIRTY))
        (upd_log_of (fun l' => upd_lh_n (fun n => n + 1) (upd_lh_block (<[Z.to_nat (lh_n l) := b]>) l'))
           (touch s))).
      f_equal. apply upd_log_ext. change (log_of (touch s)) with l. unfold log_add.
      by rewrite decide_False.
  - unfold log_add. case_decide as Hd; [done|]. unfold log_blocks. cbn [lh_n lh_block upd_lh_n upd_lh_block].
    replace (Z.to_nat (lh_n l + 1)) with (S (Z.to_nat (lh_n l))) by lia.
    assert (Hlt : (Z.to_nat (lh_n l) < length (lh_block l))%nat) by lia.
    erewrite take_S_r by (by apply list_lookup_insert_eq). by rewrite take_insert_ge.
Qed.

(** The log takes [LOGSIZE - 1] blocks, not the [LOGSIZE] that
    [begin_op] reserves: on the log of the image ([LOGSIZE] blocks, one of
    them the header) the write of another block panics when
    [LOGSIZE - 1] are recorded, even if the block is one of them. *)
Theorem log_write_too_big (s : kst) (i : nat) :
  lsize (log_of s) = LOGSIZE -> lh_n (log_of s) = LOGSIZE - 1 ->
  log_write i s = Panic "too big a transaction".
Proof.
  intros Hsz Hn. unfold log_write. erewrite bind_ok by (unfold gets; reflexivity).
  rewrite Hsz, Hn, (proj2 (Z.leb_le (LOGSIZE - 1) _)) by lia. by rewrite orb_true_r.
Qed.

(** ** A transaction of one block *)

Definition demo_data : list Z := replicate 512 7.

(** Block 100 changed in the cache and recorded in the log at block 2. *)
Definition demo_tr : kst :=
  upd_k_fs (fun x => upd_bufs (<[0%nat := Buf 6 1 100 sleeplock0 0 demo_data]>)
    (upd_log (fun _ => Logst 2 30 0 true 1 1 (100 :: replicate 29 0)) x)) demo_run.

Definition demo_V (b : Z) : list Z := if b =? 100 then demo_data else replicate 512 0.

Lemma demo_tr_buf i : buf_at (S i) demo_tr = buf0.
Proof.
  unfold buf_at. change (replicate 29 buf0 !!! i = buf0). rewrite list_lookup_total_alt.
  destruct (replicate 29 buf0 !! i) as [x|] eqn:E; [|done]. by apply lookup_replicate in E as [-> _].
Qed.

Lemma demo_run_idle : idle demo_run 0.
Proof. split; [exact (ai_wf _ _ demo_run_alloc)|reflexivity|reflexivity]. Qed.

Lemma demo_tr_cache : bcache demo_tr 0 ∅ demo_V.
Proof.
  split.
  - reflexivity.
  - reflexivity.
  - intros [|i] _.
    + split; try done; by right; right.
    + split; rewrite demo_tr_buf; try done; by left.
  - intros [|i] [|j] _ _; rewrite ?demo_tr_buf; done.
  - intros b Hb. change (disk_block demo_tr b) with (replicate 512 0). unfold demo_V.
    destruct (Z.eqb_spec b 100) as [->|]; [|done]. destruct (Hb 0%nat); [change NB with 30%nat; lia|].
    by repeat split.
  - intros i ?%not_elem_of_empty. done.
Qed.

Lemma demo_transaction : transaction demo_tr 0 demo_V 2 [100].
Proof.
  split.
  - pose proof demo_run_idle as []. split; try reflexivity; try done.
    + simpl. lia.
    + intros h ->%list_elem_of_singleton. change LOGSIZE with 30. simpl. lia.
    + apply NoDup_singleton.
  - exact demo_tr_cache.
  - intros b. rewrite list_elem_of_singleton. split.
    + intros ([|i] & _ & H1 & H2 & _); [by rewrite <- H2|]. by rewrite demo_tr_buf in H1.
    + intros ->. exists 0%nat. split; [change NB with 30%nat; lia|by repeat split].
  - vm_compute. reflexivity.
  - reflexivity.
Qed.

(** The machine booted on the disk [d]. *)
Definition demo_boot (d : list (Z * list Z)) : kst :=
  upd_k_fs (fun x => upd_disk (fun _ => d) x) demo_run.

Lemma demo_booted d : booted (demo_boot d) 0 2.
Proof. destruct demo_run_idle. split; try reflexivity. by split. Qed.

(** The machine stops after the log block, and after the header. *)
Lemma commit_crash_atomic_witness :
  exists s' ws, commit demo_tr = Ok tt s' /\ disk (k_fs s') = ws ++ disk (k_fs demo_tr) /\
    length ws = 4%nat /\
    (exists s3, recover_from_log (demo_boot (drop 3 ws ++ disk (k_fs demo_tr))) = Ok tt s3 /\
       disk_block s3 100 = disk_block demo_tr 100) /\
    (exists s3, recover_from_log (demo_boot (drop 2 ws ++ disk (k_fs demo_tr))) = Ok tt s3 /\
       disk_block s3 100 = demo_data).
Proof.
  destruct (commit_crash_atomic demo_tr 0 demo_V 2 [100] (le_n 1) demo_transaction)
    as (s' & ws & E & Hws & Hl & Hrec); [discriminate|].
  exists s', ws. split; [exact E|]. split; [exact Hws|]. split; [exact Hl|].
  assert (Ho : outside 2 100) by (unfold outside; change LOGSIZE with 30; lia). rewrite Hl in Hrec. split.
  - destruct (Hrec 1%nat _ 0%nat ltac:(lia) (demo_booted _) eq_refl eq_refl) as (s3 & E3 & _ & Hb).
    exists s3. split; [exact E3|exact (Hb 100 Ho)].
  - destruct (Hrec 2%nat _ 0%nat ltac:(lia) (demo_booted _) eq_refl eq_refl) as (s3 & E3 & _ & Hb).
    exists s3. split; [exact E3|exact (Hb 100 Ho)].
Defined.

Lemma commit_exact_witness :
  exists s' V', commit demo_tr = Ok tt s' /\ transaction s' 0 V' 2 [] /\
    disk_block s' 100 = demo_data.
Proof.
  destruct (commit_exact demo_tr 0 demo_V 2 [100] (le_n 1) demo_transaction)
    as (s' & V' & E & Htr & Hb); [discriminate|].
  exists s', V'. split; [exact E|]. split; [exact Htr|].
  apply (Hb 100). unfold outside. change LOGSIZE with 30. lia.
Defined.

(** The same process inside an operation. *)
Definition demo_op : kst := upd_log_of (upd_outstanding (fun _ => 1)) demo_tr.

Lemma log_write_exact_witness :
  log_write 1 demo_op =
    Ok tt (upd_buf 1 (upd_bflags (fun f => Z.lor f B_DIRTY))
             (upd_log_of (log_add 0) (touch demo_op))) /\
  log_blocks (log_add 0 (log_of demo_op)) = [100; 0].
Proof.
  destruct (log_write_exact demo_op 0 1) as [E1 E2].
  - destruct demo_run_idle. by split.
  - reflexivity.
  - split; [discriminate|reflexivity].
  - reflexivity.
  - discriminate.
  - split; [exact E1|exact E2].
Defined.

Lemma log_write_too_big_witness :
  log_write 0 (upd_log_of (upd_lh_n (fun _ => 29)) demo_op) = Panic "too big a transaction".
Proof. apply log_write_too_big; reflexivity. Defined.
