(* ===== verification/FsProps.v ===== *)
(** * System call arguments and inodes on disk: properties *)

From S2P Require Import Prelude Machine StringC Spinlock Kalloc Vm VmWalk VmMap VmUser VmKern.
From S2P Require Import VmAlloc VmCopy Demo Kernel Sleep Bio Log Inode Console Fs Pipe File Proc.
From S2P Require Import Exec Sysfile KernelWp DemoK Mmap Trap MmapWp Bytes.

(** ** Pointers from user space *)

Section Args.
Context `{KernelImage} `{Waits}.

Lemma argptr_run (s : kst) (p : nat) (free : list Z) (k n size : Z) :
  user_ctx s p free -> args_ok s p k -> 0 <= n < k -> size < 2147483648 ->
  let a := u32 (arg s p n) in
  argptr n size s =
  Ok (if (0 <=? size) && (a <? sz (pr_at p s)) && (a + size <=? sz (pr_at p s))
      then Some a else None) (touch s).
Proof.
  intros Hc Ha Hn Hsz a. pose proof (ctx_touch _ _ _ Hc) as Hc'. unfold argptr.
  erewrite bind_ok by (by eapply ctx_me).
  erewrite bind_ok by (eapply argint_run; [done|apply args_touch, Ha|done]).
  rewrite arg_touch, touch_touch. erewrite bind_ok by (unfold gets; reflexivity).
  change (sz (pr_at p (touch s))) with (sz (pr_at p s)). fold a.
  destruct Ha as (_ & _ & Hk & _). pose proof (u32_range (arg s p n)). fold a in H1.
  destruct (Z.ltb_spec size 0), (Z.leb_spec 0 size); try lia; cbn [orb andb]; [done|].
  destruct (Z.leb_spec (sz (pr_at p s)) a), (Z.ltb_spec a (sz (pr_at p s))); try lia;
    cbn [orb andb]; [done|]. rewrite (u32_small (a + size)) by lia.
  destruct (Z.ltb_spec (sz (pr_at p s)) (a + size)), (Z.leb_spec (a + size) (sz (pr_at p s)));
    try lia; done.
Qed.

(** C35. [argptr] accepts a pointer exactly when the block of [size] bytes
    starts inside the process's memory and does not pass its end, with no
    wrap-around, and changes nothing. *)
Theorem argptr_exact (s : kst) (p : nat) (free : list Z) (k n size : Z) :
  user_ctx s p free -> args_ok s p k -> 0 <= n < k -> size < 2147483648 ->
  let a := u32 (arg s p n) in
  argptr n size s =
  Ok (if (0 <=? size) && (a <? sz (pr_at p s)) && (a + size <=? sz (pr_at p s))
      then Some a else None) (touch s).
Proof. apply argptr_run. Qed.

Lemma argfd_run (s : kst) (p : nat) (free : list Z) (k n : Z) :
  user_ctx s p free -> args_ok s p k -> 0 <= n < k -> exists r, argfd n s = Ok r (touch s).
Proof.
  intros Hc Ha Hn. unfold argfd. erewrite orelse_some by (by eapply argint_run).
  destruct ((arg s p n <? 0) || (NOFILE <=? arg s p n)); [by exists None|].
  erewrite bind_ok by (eapply ctx_me, ctx_touch, Hc). rewrite touch_touch.
  erewrite bind_ok by (unfold gets; reflexivity).
  destruct (ofile _ !!! _); [eexists; reflexivity|by exists None].
Qed.

(** The three arguments of [read] and [write]. *)
Lemma rw_args_rejected (s : kst) (p : nat) (free : list Z) (g : Z * nat -> Z -> Z -> M kst Z) :
  user_ctx s p free -> args_ok s p 3 -> sz (pr_at p s) <= u32 (arg s p 1) ->
  (f <-? argfd 0 else ret (-1) ;; n <-? argint 2 else ret (-1) ;;
   q <-? argptr 1 n else ret (-1) ;; g f n q) s = Ok (-1) (touch s).
Proof.
  intros Hc Ha Hsz. pose proof (ctx_touch _ _ _ Hc) as Hc'.
  assert (Ha' : args_ok (touch s) p 3) by (by apply args_touch).
  destruct (argfd_run s p free 3 0) as [[f|] E]; [done|done|lia|..].
  2:{ by erewrite orelse_none by exact E. }
  erewrite orelse_some by exact E.
  erewrite orelse_some by (eapply (argint_run (touch s)); [exact Hc'|exact Ha'|lia]).
  rewrite touch_touch. erewrite orelse_none; [done|].
  rewrite (argptr_run (touch s) p free 3) by
    (done || lia || (apply s32_range)).
  cbv zeta. rewrite !arg_touch, touch_touch. change (sz (pr_at p (touch s))) with (sz (pr_at p s)).
  destruct (Z.ltb_spec (u32 (arg s p 1)) (sz (pr_at p s))); [lia|]. by rewrite andb_false_r.
Qed.

(** The system calls cannot be given mapped memory: a [read] or [write]
    whose buffer lies at or above the process's size, as every mapping made
    by [mmap] does, returns -1 and changes nothing, mapped or not. *)
Theorem mmap_buffer_rejected (s : kst) (p : nat) (free : list Z) :
  user_ctx s p free -> args_ok s p 3 -> sz (pr_at p s) <= u32 (arg s p 1) ->
  sys_read s = Ok (-1) (touch s) /\ sys_write s = Ok (-1) (touch s).
Proof.
  intros Hc Ha Hsz. split.
  - unfold sys_read.
    exact (rw_args_rejected s p free (fun f n q => fileread (snd f) (to_user q) n) Hc Ha Hsz).
  - unfold sys_write.
    exact (rw_args_rejected s p free (fun f n q => filewrite (snd f) (from_user q) n) Hc Ha Hsz).
Qed.
End Args.

(** ** Inodes on disk *)

(** The fields fit the types of [struct dinode]. *)
Record dinode_ok (x : dinode) : Prop := {
  dn_type : -32768 <= d_type x < 32768;
  dn_major : -32768 <= d_major x < 32768;
  dn_minor : -32768 <= d_minor x < 32768;
  dn_nlink : -32768 <= d_nlink x < 32768;
  dn_size : 0 <= d_size x < 4294967296;
  dn_addrs : Forall (fun a => 0 <= a < 4294967296) (d_addrs x);
  dn_len : length (d_addrs x) = 13%nat }.

Lemma concat_words_length vs : length (concat (word_bytes <$> vs)) = (4 * length vs)%nat.
Proof.
  induction vs as [|v vs IH]; [done|]. cbn [fmap list_fmap concat].
  rewrite length_app, IH, word_bytes_length. simpl. lia.
Qed.

Lemma encode_length x : dinode_ok x -> length (dinode_encode x) = 64%nat.
Proof.
  intros Hx. unfold dinode_encode. rewrite !length_app, concat_words_length, (dn_len _ Hx). done.
Qed.

Lemma encode_word x k :
  dinode_ok x -> (k < 13)%nat -> word_at (dinode_encode x) (12 + 4 * Z.of_nat k) = d_addrs x !!! k.
Proof.
  intros Hx Hk. pose proof (dn_len _ Hx). unfold dinode_encode.
  rewrite !word_at_app_r by (simpl; lia). cbn [length half_bytes word_bytes].
  rewrite <- (word_at_concat (d_addrs x) k []) by (apply Hx || lia). rewrite app_nil_r.
  f_equal. lia.
Qed.

(** Writing an inode to its place in a block and reading it back gives
    the inode, and the other inodes of the block are as they were. *)
Theorem dinode_roundtrip (x : dinode) (d : list Z) (j : Z) :
  dinode_ok x -> length d = Z.to_nat BSIZE -> 0 <= j < IPB ->
  let d' := splice d (64 * j) (dinode_encode x) in
  length d' = length d /\ dinode_decode d' (64 * j) = x /\
  forall k, 0 <= k < IPB -> k <> j -> dinode_decode d' (64 * k) = dinode_decode d (64 * k).
Proof.
  intros Hx Hd Hj d'. change IPB with 8 in *. change (Z.to_nat BSIZE) with 512%nat in Hd.
  pose proof (encode_length x Hx) as Hl.
  assert (Hfit : 64 * j + Z.of_nat (length (dinode_encode x)) <= Z.of_nat (length d)) by lia.
  split_and!.
  - apply splice_length. lia.
  - unfold dinode_decode, d'.
    rewrite <- (Z.add_0_r (64 * j)) at 2. rewrite !half_at_inside by lia.
    rewrite word_at_inside by lia. destruct x as [ty mj mn nl szx ad]. f_equal.
    + apply half_at_half_bytes, Hx.
    + exact (half_split _ (dn_major _ Hx)).
    + exact (half_split _ (dn_minor _ Hx)).
    + exact (half_split _ (dn_nlink _ Hx)).
    + exact (word_split _ (dn_size _ Hx)).
    + pose proof (dn_len _ Hx) as Had. cbn [d_addrs] in Had.
      apply list_eq. intros k. rewrite list_lookup_fmap. change (NDIRECT + 1) with 13.
      destruct (decide (k < 13)%nat).
      * rewrite lookup_seqZ_lt by lia. simpl. rewrite <- Z.add_assoc, word_at_inside by lia.
        rewrite Z.add_0_l, encode_word by (done || lia). cbn [d_addrs].
        symmetry. apply list_lookup_lookup_total_lt. lia.
      * rewrite lookup_seqZ_ge by lia. simpl. symmetry. apply lookup_ge_None_2. lia.
  - intros k Hk Hne. unfold dinode_decode, d'.
    rewrite !half_at_splice_other, !word_at_splice_other by (rewrite ?Hl; lia). f_equal.
    apply list_fmap_ext. intros i z Hz. apply lookup_seqZ in Hz as [-> Hz]. change (NDIRECT + 1) with 13 in Hz.
    apply word_at_splice_other; rewrite ?Hl; lia.
Qed.

(** ** Examples *)

(** The second of eight inodes: a file of 700 bytes in two blocks. *)
Definition demo_dinode : dinode := Dinode 2 0 0 1 700 ([60; 61] ++ replicate 11 0).

Lemma demo_dinode_ok : dinode_ok demo_dinode.
Proof.
  split; cbn [demo_dinode d_type d_major d_minor d_nlink d_size d_addrs]; try lia.
  - cbn [app replicate]. repeat (apply Forall_cons_2; [lia|]). apply Forall_nil_2.
  - done.
Qed.

Lemma dinode_roundtrip_witness :
  dinode_decode (splice (replicate 512 0) (64 * 1) (dinode_encode demo_dinode)) (64 * 1) =
  demo_dinode.
Proof.
  exact (proj1 (proj2 (dinode_roundtrip demo_dinode (replicate 512 0) 1 demo_dinode_ok eq_refl
    (conj Z.le_0_1 eq_refl)))).
Defined.

(** A process of one page that gives the buffer [a] of 10 bytes. *)
Definition demo_rw (a : Z) : kst := demo_k 4 [1; a; 10] demo_proc.

Lemma demo_rw_len a : 0 < Z.of_nat (length (concat (word_bytes <$> [1; a; 10]))) <= 24.
Proof. change (0 < 12 <= 24). lia. Qed.

Lemma demo_rw_ctx a : user_ctx (demo_rw a) 0 (pages_from demo_base 4).
Proof.
  unfold demo_rw. assert (Hn : (4 <= 1000)%nat) by lia.
  exact (demo_user_ctx 4 [1; a; 10] Hn (demo_rw_len a) demo_proc eq_refl).
Qed.

Lemma demo_rw_args a : args_ok (demo_rw a) 0 3.
Proof.
  unfold demo_rw. assert (Hn : (4 <= 1000)%nat) by lia. assert (Hk : 0 <= 3 <= 6) by lia.
  exact (demo_args_ok 4 [1; a; 10] Hn (demo_rw_len a) demo_proc 3 eq_refl eq_refl eq_refl Hk).
Qed.

Lemma argptr_exact_witness :
  argptr 1 10 (demo_rw 4086) = Ok (Some 4086) (touch (demo_rw 4086)) /\
  argptr 1 10 (demo_rw 4087) = Ok None (touch (demo_rw 4087)).
Proof.
  split.
  - exact (argptr_exact (demo_rw 4086) 0 _ 3 1 10 (demo_rw_ctx _) (demo_rw_args _)
             ltac:(lia) ltac:(lia)).
  - exact (argptr_exact (demo_rw 4087) 0 _ 3 1 10 (demo_rw_ctx _) (demo_rw_args _)
             ltac:(lia) ltac:(lia)).
Defined.

Lemma mmap_buffer_rejected_witness :
  sys_write (demo_rw MIN_ADDR) = Ok (-1) (touch (demo_rw MIN_ADDR)).
Proof.
  assert (Hsz : sz (pr_at 0 (demo_rw MIN_ADDR)) <= u32 (arg (demo_rw MIN_ADDR) 0 1))
    by (vm_compute; discriminate).
  exact (proj2 (mmap_buffer_rejected (demo_rw MIN_ADDR) 0 _ (demo_rw_ctx _) (demo_rw_args _) Hsz)).
Defined.
