(* ===== verification/User.v ===== *)
(** * User space: system calls, ulib.c and printf.c

    A user program is a tree of the system calls it makes ([prog]): each node
    is a call, with what the program does for every answer of the kernel.
    [run] interprets a program against a kernel given as a function from
    calls and states to answers and states.

    A [char *] that a program only reads is the list of the bytes it points
    to; the end of the list reads as the terminating NUL. *)

From S2P Require Import Prelude Machine StringC Digits.

(** ** System calls (user.h) *)

Record stat_t := Stat { st_type : Z; st_dev : Z; st_ino : Z; st_nlink : Z; st_size : Z }.

Inductive sys : Type :=
| Sys_fork
| Sys_wait
| Sys_pipe
| Sys_write (fd : Z) (bs : list Z)
| Sys_read (fd n : Z)
| Sys_close (fd : Z)
| Sys_kill (pid : Z)
| Sys_exec (path : list Z) (argv : list (list Z))
| Sys_open (path : list Z) (mode : Z)
| Sys_mknod (path : list Z) (major minor : Z)
| Sys_unlink (path : list Z)
| Sys_fstat (fd : Z)
| Sys_link (old new : list Z)
| Sys_mkdir (path : list Z)
| Sys_chdir (path : list Z)
| Sys_dup (fd : Z)
| Sys_sbrk (n : Z)
| Sys_sleep (n : Z).

(** [None] is -1; the bytes read, the two descriptors of a pipe and the
    [struct stat] are what the kernel stores in the caller's buffer. *)
Definition answer (c : sys) : Type :=
  match c with
  | Sys_read _ _ => option (list Z)
  | Sys_pipe => option (Z * Z)
  | Sys_fstat _ => option stat_t
  | _ => Z
  end.

(** ** Programs *)

Inductive prog (A : Type) : Type :=
| Ret (a : A)
| Exit
| Crash (msg : string)
| Spin
| Act (c : sys) (k : answer c -> prog A).
Arguments Ret {A} a.
Arguments Exit {A}.
Arguments Crash {A} msg.
Arguments Spin {A}.
Arguments Act {A} c k.

Fixpoint prog_bind {A B} (f : A -> prog B) (p : prog A) : prog B :=
  match p with
  | Ret a => f a
  | Exit => Exit
  | Crash msg => Crash msg
  | Spin => Spin
  | Act c k => Act c (fun x => prog_bind f (k x))
  end.

#[export] Instance prog_ret : MRet prog := @Ret.
#[export] Instance prog_mbind : MBind prog := @prog_bind.

Definition call (c : sys) : prog (answer c) := Act c Ret.

(** How a program ends: it returns, exits, does something undefined, or is
    still going round a loop when the fuel of the model is used up. *)
Inductive outcome (K A : Type) : Type :=
| Returns (a : A) (k : K)
| Exits (k : K)
| Crashes (msg : string)
| Spins.
Arguments Returns {K A} a k.
Arguments Exits {K A} k.
Arguments Crashes {K A} msg.
Arguments Spins {K A}.

Fixpoint run {K A} (h : forall c, K -> answer c * K) (p : prog A) (k : K) : outcome K A :=
  match p with
  | Ret a => Returns a k
  | Exit => Exits k
  | Crash msg => Crashes msg
  | Spin => Spins
  | Act c f => let r := h c k in run h (f (fst r)) (snd r)
  end.

(** ** ulib.c *)

Module Ulib.

(** [None]: the string has not ended within the fuel. *)
Fixpoint strcpy (m : gmap Z Z) (s t : Z) (fuel : nat) : option (gmap Z Z) :=
  match fuel with
  | O => None
  | S f =>
      let c := load8 m t in
      let m' := store8 m s c in
      if c =? 0 then Some m' else strcpy m' (s + 1) (t + 1) f
  end.

Fixpoint strcmp (p q : list Z) : Z :=
  let c := default 0 (head p) in
  let d := default 0 (head q) in
  match p with
  | [] => u8 c - u8 d
  | _ :: p' => if negb (c =? 0) && (c =? d) then strcmp p' (tail q) else u8 c - u8 d
  end.

Fixpoint strlen (s : list Z) : Z :=
  match s with
  | [] => 0
  | c :: s' => if c =? 0 then 0 else 1 + strlen s'
  end.

Definition memset (m : gmap Z Z) (dst c n : Z) : gmap Z Z := stosb m dst c (Z.to_nat n).

(** The index of the character in the string. *)
Fixpoint strchr (s : list Z) (c : Z) : option nat :=
  match s with
  | [] => None
  | d :: s' => if d =? 0 then None else if d =? c then Some O else S <$> strchr s' c
  end.

(** The bytes stored in [buf]; [n] more characters fit. *)
Fixpoint gets_loop (n : nat) : prog (list Z) :=
  match n with
  | O => Ret [0]
  | S n' =>
      r ← call (Sys_read 0 1);
      match r with
      | Some (c :: _) =>
          if (c =? 10) || (c =? 13) then Ret [c; 0]
          else rest ← gets_loop n'; Ret (c :: rest)
      | _ => Ret [0]
      end
  end.

Definition gets (max : Z) : prog (list Z) := gets_loop (Z.to_nat (max - 1)).

Definition stat (n : list Z) : prog (option stat_t) :=
  fd ← call (Sys_open n O_RDONLY);
  if fd <? 0 then Ret None
  else r ← call (Sys_fstat fd); _ ← call (Sys_close fd); Ret r.

(** [None]: the [int] overflows, which C leaves undefined. *)
Fixpoint atoi_loop (n : Z) (s : list Z) : option Z :=
  match s with
  | [] => Some n
  | c :: s' =>
      if (ch_0 <=? c) && (c <=? ch_9) then
        let n' := n * 10 + c - ch_0 in
        if n * 10 + c <? 2147483648 then atoi_loop n' s' else None
      else Some n
  end.

Definition atoi (s : list Z) : option Z := atoi_loop 0 s.

(** Always forwards, unlike the kernel's. *)
Definition memmove (m : gmap Z Z) (vdst vsrc n : Z) : gmap Z Z :=
  copy_fwd m vdst vsrc (Z.to_nat n).
End Ulib.

(** ** printf.c *)

Module Printf.

Definition putc (fd c : Z) : prog unit := _ ← call (Sys_write fd [u8 c]); Ret tt.

Fixpoint puts (fd : Z) (cs : list Z) : prog unit :=
  match cs with
  | [] => Ret tt
  | c :: cs' => _ ← putc fd c; puts fd cs'
  end.

Definition digits : list Z := chars "0123456789ABCDEF".

Definition printint (fd xx base : Z) (sgn : bool) : prog unit :=
  match int_chars digits (s32 xx) base sgn with
  | None => Crash "printint: buf overrun"
  | Some cs => puts fd cs
  end.

(** [st] is [state == '%']. *)
Fixpoint printf_loop (fd : Z) (fmt : list Z) (st : bool) (ap : list arg) : prog unit :=
  match fmt with
  | [] => Ret tt
  | f :: fmt' =>
      if f =? 0 then Ret tt
      else
        let c := Z.land f 0xff in
        if negb st then
          if c =? pct then printf_loop fd fmt' true ap
          else _ ← putc fd c; printf_loop fd fmt' false ap
        else
          if c =? 100 then
            match ap with
            | a :: ap' =>
                match arg_word a with
                | Some z => _ ← printint fd z 10 true; printf_loop fd fmt' false ap'
                | None => Crash "printf: %d of a pointer"
                end
            | [] => Crash "printf: no argument"
            end
          else if (c =? 120) || (c =? 112) then
            match ap with
            | a :: ap' =>
                match arg_word a with
                | Some z => _ ← printint fd z 16 false; printf_loop fd fmt' false ap'
                | None => Crash "printf: %x of a pointer"
                end
            | [] => Crash "printf: no argument"
            end
          else if c =? 115 then
            match ap with
            | a :: ap' =>
                match arg_str a with
                | Some s => _ ← puts fd s; printf_loop fd fmt' false ap'
                | None => Crash "printf: %s of a number"
                end
            | [] => Crash "printf: no argument"
            end
          else if c =? 99 then
            match ap with
            | a :: ap' =>
                match arg_word a with
                | Some z => _ ← putc fd z; printf_loop fd fmt' false ap'
                | None => Crash "printf: %c of a pointer"
                end
            | [] => Crash "printf: no argument"
            end
          else if c =? pct then _ ← putc fd c; printf_loop fd fmt' false ap
          else _ ← putc fd pct; _ ← putc fd c; printf_loop fd fmt' false ap
  end.

Definition printf (fd : Z) (fmt : list Z) (ap : list arg) : prog unit :=
  printf_loop fd fmt false ap.
End Printf.
