(* ===== verification/UserProps.v ===== *)
(** * The user library: properties

    The interface between user programs and the kernel, and what [printf] and
    [atoi] do behind it. *)

From S2P Require Import Prelude Machine StringC Digits User.
Import Ulib Printf.

(** ** Strings *)

Definition no_nul (s : list Z) : Prop := Forall (fun c => c <> 0) s.

Lemma no_nul_test s : forallb (fun c => negb (c =? 0)) s = true -> no_nul s.
Proof.
  intros E. rewrite forallb_forall in E. apply list.Forall_forall. intros c Hc%list_elem_of_In E0.
  specialize (E c Hc). subst. done.
Qed.

Lemma strchr_none s c : no_nul s -> strchr s c = None <-> c ∉ s.
Proof.
  induction 1 as [|d s Hd Hs IH]; simpl; [split; [intros _; apply not_elem_of_nil|done]|].
  rewrite (proj2 (Z.eqb_neq d 0)) by done. rewrite not_elem_of_cons, <- IH.
  destruct (Z.eqb_spec d c) as [->|Hne]; [naive_solver|].
  destruct (strchr s c); simpl; naive_solver.
Qed.

(** ** Running programs *)

Lemma run_bind {K A B} (h : forall c, K -> answer c * K) (p : prog A) (f : A -> prog B) (k : K) :
  run h (x ← p; f x) k =
  match run h p k with
  | Returns a k' => run h (f a) k'
  | Exits k' => Exits k'
  | Crashes msg => Crashes msg
  | Spins => Spins
  end.
Proof.
  unfold mbind, prog_mbind. revert k.
  induction p as [a| | | |c g IH]; intros k; simpl; done.
Qed.

Lemma run_bind_ok {K A B} h (p : prog A) (f : A -> prog B) (k k' : K) a :
  run h p k = Returns a k' -> run h (x ← p; f x) k = run h (f a) k'.
Proof. intros E. by rewrite run_bind, E. Qed.

Lemma run_call {K B} h c (f : answer c -> prog B) (k : K) :
  run h (x ← call c; f x) k = run h (f (fst (h c k))) (snd (h c k)).
Proof. done. Qed.

(** Perform the system call at the head of the program. *)
Ltac do_call :=
  match goal with
  | |- context [run ?h (mbind ?f (call ?c)) ?k] =>
      change (run h (mbind f (call c)) k) with (run h (f (fst (h c k))) (snd (h c k)))
  end.

(** ** What programs rely on

    A kernel in which [unread k fd] is what is still to come from descriptor
    [fd] ([None]: not open for reading) and [written k fd] what has been
    written to it.  A read delivers at least one and at most [n] of the bytes
    to come, none at the end; a write takes all its bytes. *)
Class World (K : Type) := {
  sys_do : forall c : sys, K -> answer c * K;
  unread : K -> Z -> option (list Z);
  written : K -> Z -> option (list Z);
  world_read k fd n l :
    unread k fd = Some l -> 0 < n ->
    exists bs rest k', sys_do (Sys_read fd n) k = (Some bs, k') /\ l = bs ++ rest /\
      (bs = [] -> rest = []) /\ Z.of_nat (length bs) <= n /\ unread k' fd = Some rest /\
      (forall g, g <> fd -> unread k' g = unread k g) /\ (forall g, written k' g = written k g);
  world_write k fd bs out :
    written k fd = Some out ->
    exists k', sys_do (Sys_write fd bs) k = (Z.of_nat (length bs), k') /\
      written k' fd = Some (out ++ bs) /\
      (forall g, g <> fd -> written k' g = written k g) /\ (forall g, unread k' g = unread k g) }.

Section Output.
Context {K : Type} `{World K}.

(** From [k] to [k'] exactly [cs] has been written, to [fd]. *)
Record wrote (fd : Z) (cs : list Z) (k k' : K) : Prop := {
  wr_fd : forall out, written k fd = Some out -> written k' fd = Some (out ++ cs);
  wr_other : forall g, g <> fd -> written k' g = written k g;
  wr_unread : forall g, unread k' g = unread k g }.

Lemma wrote_refl fd k : wrote fd [] k k.
Proof. split; try done. intros out ->. by rewrite app_nil_r. Qed.

Lemma wrote_trans fd cs ds k1 k2 k3 :
  wrote fd cs k1 k2 -> wrote fd ds k2 k3 -> wrote fd (cs ++ ds) k1 k3.
Proof.
  intros [F1 O1 U1] [F2 O2 U2]. split.
  - intros out E. rewrite (F2 _ (F1 _ E)). by rewrite (assoc_L (++)).
  - intros g Hg. by rewrite O2, O1.
  - intros g. by rewrite U2, U1.
Qed.

(** A program that writes [cs] to [fd] and returns. *)
Definition prints (fd : Z) (cs : list Z) (p : prog unit) : Prop :=
  forall k, is_Some (written k fd) ->
  exists k', run sys_do p k = Returns tt k' /\ wrote fd cs k k' /\ is_Some (written k' fd).

Lemma prints_ret fd : prints fd [] (Ret tt).
Proof. intros k Hk. exists k. split_and!; [done|apply wrote_refl|done]. Qed.

Lemma prints_bind fd cs ds p q :
  prints fd cs p -> prints fd ds q -> prints fd (cs ++ ds) (_ ← p; q).
Proof.
  intros Hp Hq k Hk. destruct (Hp k Hk) as (k1 & E1 & W1 & Hk1).
  destruct (Hq k1 Hk1) as (k2 & E2 & W2 & Hk2).
  exists k2. split_and!; [by rewrite (run_bind_ok _ _ _ _ _ _ E1)|by eapply wrote_trans|done].
Qed.

Lemma prints_putc fd c : prints fd [u8 c] (putc fd c).
Proof.
  intros k [out Hout]. destruct (world_write k fd [u8 c] out Hout) as (k' & E & Hf & Ho & Hu).
  exists k'. unfold putc. rewrite run_call, E. split_and!; [done| |by rewrite Hf].
  split; try done. intros out' E'. rewrite Hout in E'. injection E' as <-. done.
Qed.

Definition byte (c : Z) : Prop := 0 <= c < 256.

Lemma prints_puts fd cs : Forall byte cs -> prints fd cs (puts fd cs).
Proof.
  induction 1 as [|c cs Hc _ IH]; [apply prints_ret|].
  apply (prints_bind fd [c] cs (putc fd c)); [|done]. rewrite <- (u8_small c Hc) at 1. apply prints_putc.
Qed.
End Output.

(** ** Numbers *)

Lemma int_chars_bytes (tab : list Z) xx base sgn cs :
  Forall byte tab -> 2 <= base -> base <= Z.of_nat (length tab) ->
  int_chars tab xx base sgn = Some cs -> Forall byte cs.
Proof.
  intros Ht Hb Hlen. unfold int_chars.
  assert (Hl : forall room x ds, digit_loop tab base x room = Some ds -> Forall byte ds).
  { induction room as [|r IH]; intros x ds; [done|]. cbn [digit_loop].
    assert (Hd : byte (tab !!! Z.to_nat (x mod base))).
    { eapply Forall_lookup_1; [done|]. apply list_lookup_lookup_total_lt.
      pose proof (Z.mod_pos_bound x base ltac:(lia)). lia. }
    destruct (_ =? 0); [intros [= <-]; by constructor|].
    destruct (digit_loop tab base _ r) as [ds'|] eqn:E; [|done]. intros [= <-].
    constructor; [done|by eapply IH]. }
  destruct (digit_loop tab base _ 16) as [ds|] eqn:E; [|done].
  pose proof (Hl _ _ _ E) as Hds. destruct (sgn && (xx <? 0)).
  - destruct (_ <? _)%nat; [|done]. intros [= <-]. rewrite reverse_app.
    apply Forall_app_2; [repeat constructor; unfold byte, ch_minus; lia|by apply Forall_reverse].
  - intros [= <-]. by apply Forall_reverse.
Qed.

Lemma digits_decimal d : 0 <= d < 10 -> digits !!! Z.to_nat d = ch_0 + d.
Proof.
  intros Hd. assert (d = 0 \/ d = 1 \/ d = 2 \/ d = 3 \/ d = 4 \/ d = 5 \/ d = 6 \/ d = 7 \/
                     d = 8 \/ d = 9) as Hc by lia.
  repeat destruct Hc as [->|Hc]; [reflexivity..|subst; reflexivity].
Qed.

Lemma digits_bytes : Forall byte digits /\ length digits = 16%nat.
Proof. split; [|done]. unfold digits. simpl. repeat constructor; unfold byte; lia. Qed.

(** The digits of printf.c; ten is [A]. *)
Lemma digits_table : digit_table 65 digits.
Proof.
  intros d Hd. assert (Hin : d ∈ seqZ 0 16) by (apply elem_of_seqZ; lia).
  assert (E : Forall (fun d => digits !!! Z.to_nat d = digit_char 65 d) (seqZ 0 16)) by (by repeat constructor).
  rewrite list.Forall_forall in E. by apply E.
Qed.

(** ** printf *)

Ltac no_eqb :=
  repeat match goal with
  | |- context [?c =? ?d] =>
      first [ rewrite (proj2 (Z.eqb_neq c d)) by (unfold pct in *; lia)
            | rewrite (proj2 (Z.eqb_eq c d)) by (unfold pct in *; lia) ]
  end.

Section Printf.
Context {K : Type} `{World K}.

Lemma prints_int fd z base sgn cs :
  base = 10 \/ base = 16 -> int_chars digits (s32 z) base sgn = Some cs ->
  prints fd cs (printint fd z base sgn).
Proof.
  intros Hb E. unfold printint. rewrite E. apply prints_puts.
  destruct digits_bytes as [Hd Hl]. eapply int_chars_bytes; [done| |rewrite Hl|done]; lia.
Qed.

(** String arguments hold characters. *)
Definition arg_ok (a : arg) : Prop :=
  match a with A_str s => Forall byte s | _ => True end.

Lemma str_part_bytes s : Forall byte s -> Forall byte (str_part s).
Proof. induction 1; simpl; [done|]. destruct (_ =? 0); by constructor. Qed.

Lemma null_bytes : Forall byte (chars "(null)").
Proof. simpl. repeat constructor; unfold byte; lia. Qed.

Lemma arg_str_bytes a s : arg_ok a -> arg_str a = Some s -> Forall byte s.
Proof.
  pose proof null_bytes. destruct a as [z|s'|]; simpl; intros Ha E.
  - destruct (z =? 0); by simplify_eq.
  - injection E as <-. by apply str_part_bytes.
  - by simplify_eq.
Qed.

Lemma land_byte c : byte c -> Z.land c 0xff = c.
Proof. intros Hc. change 0xff with (Z.ones 8). rewrite Z.land_ones by lia. apply u8_small, Hc. Qed.

Lemma printf_prints fd fmt ap out :
  formats 65 true fmt ap out -> Forall arg_ok ap -> prints fd out (printf_loop fd fmt false ap).
Proof.
  induction 1 as [|ap|c fmt ap out Hc Hn _ IH|a z cs fmt ap out Ha Hi _ IH
    |c a z cs fmt ap out Hc Ha Hi _ IH|a s fmt ap out Hs _ IH|a z fmt ap out _ Ha _ IH
    |fmt ap out _ IH|c fmt ap out Hc Hn Hn99 _ IH]; intros Hap; try apply prints_ret.
  - cbn [printf_loop]. rewrite land_byte by (unfold byte; lia). no_eqb. cbn [negb].
    apply (prints_bind fd [c]); [|by apply IH].
    rewrite <- (u8_small c) at 1 by lia. apply prints_putc.
  - apply Forall_cons_1 in Hap as [_ Hap]. cbn -[printint]. rewrite Ha.
    apply (prints_bind fd cs); [|by apply IH].
    apply prints_int; [auto|]. by apply (printed_signed 65); [apply digits_table|].
  - apply Forall_cons_1 in Hap as [_ Hap]. apply (printed_hex 65 digits) in Hi; [|apply digits_table].
    destruct Hc as [-> | ->]; cbn -[printint]; rewrite Ha;
      (apply (prints_bind fd cs); [apply prints_int; auto|by apply IH]).
  - apply Forall_cons_1 in Hap as [Ha Hap]. apply arg_text_str in Hs. cbn -[puts arg_str]. rewrite Hs.
    apply (prints_bind fd s); [apply prints_puts; by eapply arg_str_bytes|by apply IH].
  - apply Forall_cons_1 in Hap as [_ Hap]. cbn -[putc]. rewrite Ha.
    apply (prints_bind fd [u8 z]); [apply prints_putc|by apply IH].
  - apply (prints_bind fd [pct] out (putc fd pct)); [apply (prints_putc fd pct)|by apply IH].
  - change (printf_loop fd (pct :: c :: fmt) false ap) with (printf_loop fd (c :: fmt) true ap).
    cbn [printf_loop]. specialize (Hn99 eq_refl).
    assert (c <> 100 /\ c <> 120 /\ c <> 112 /\ c <> 115 /\ c <> pct) as (?&?&?&?&?)
      by (rewrite !not_elem_of_cons in Hn; naive_solver).
    rewrite land_byte by (unfold byte; lia). no_eqb. cbn [negb orb].
    apply (prints_bind fd [pct] (c :: out) (putc fd pct)); [apply (prints_putc fd pct)|].
    apply (prints_bind fd [c] out (putc fd c)); [|by apply IH].
    rewrite <- (u8_small c) at 1 by lia. apply prints_putc.
Qed.

(** C30. [printf] prints what its format means (numbers as their numerals,
    strings up to the zero byte): for every format and arguments that fit it,
    to a descriptor that accepts output, exactly the formatted characters are
    written there, and nothing anywhere else. *)
Theorem printf_exact (fd : Z) (fmt : list Z) (ap : list arg) (out : list Z) :
  formats 65 true fmt ap out -> Forall arg_ok ap -> prints fd out (printf fd fmt ap).
Proof. apply printf_prints. Qed.
End Printf.

(** ** Numbers read back *)

Section Atoi.
Let step (n c : Z) : Z := n * 10 + (c - ch_0).
Let digit (c : Z) : Prop := ch_0 <= c <= ch_9.

Lemma foldl_step_ge ds n : Forall digit ds -> 0 <= n -> n <= foldl step n ds.
Proof.
  intros Hds. revert n. induction Hds as [|c ds Hc _ IH]; intros n Hn; simpl; [lia|].
  unfold digit, step, ch_0, ch_9 in *. etransitivity; [|apply IH; lia]. lia.
Qed.

Lemma atoi_loop_digits ds rest n :
  Forall digit ds -> 0 <= n -> foldl step n ds + ch_0 < 2147483648 ->
  atoi_loop n (ds ++ rest) = atoi_loop (foldl step n ds) rest.
Proof.
  intros Hds. revert n. induction Hds as [|c ds Hc Hds IH]; intros n Hn Hb; [done|].
  cbn [app foldl atoi_loop] in *.
  assert (Hs : 0 <= step n c) by (unfold step, digit, ch_0, ch_9 in *; lia).
  pose proof (foldl_step_ge ds _ Hds Hs) as Hge.
  unfold digit in Hc. destruct (Z.leb_spec ch_0 c), (Z.leb_spec c ch_9); try lia. cbn [andb].
  destruct (Z.ltb_spec (n * 10 + c) 2147483648); [|unfold step, ch_0 in *; lia].
  replace (n * 10 + c - ch_0) with (step n c) by (unfold step; lia). by apply IH.
Qed.
End Atoi.

(** [atoi] reads back what [printint] prints: the characters of a
    non-negative [int], followed by anything that is not a digit, are read
    as that number (below [2^31 - 48]: closer to the limit the addition in
    [atoi] overflows before the subtraction). *)
Theorem atoi_printint_roundtrip (n : Z) (rest : list Z) :
  0 <= n < 2147483648 - ch_0 -> ~ (ch_0 <= default 0 (head rest) <= ch_9) ->
  exists cs, int_chars digits n 10 true = Some cs /\ atoi (cs ++ rest) = Some n.
Proof.
  intros Hn Hr. destruct (int_chars_total digits n 10 true) as [cs E]; [auto|unfold ch_0 in *; lia|].
  exists cs. split; [done|]. unfold int_chars in E.
  destruct (Z.ltb_spec n 0); [lia|]. cbn [andb] in E.
  rewrite u32_small in E by (unfold ch_0 in *; lia).
  destruct (digit_loop digits 10 n 16) as [ds|] eqn:Ed; [|done]. injection E as <-.
  destruct (digit_loop_value digits digits_decimal n 16 ds) as [Hv Hf]; [lia|done|].
  unfold atoi. rewrite atoi_loop_digits; [|by apply Forall_reverse|lia|].
  - change (atoi_loop (dec_value (reverse ds)) rest = Some n). rewrite Hv.
    destruct rest as [|c rest]; [done|]. simpl in Hr |- *.
    destruct (Z.leb_spec ch_0 c), (Z.leb_spec c ch_9); try done. lia.
  - change (dec_value (reverse ds) + ch_0 < 2147483648). lia.
Qed.

(** ** A world of byte streams

    A read of [m] bytes delivers at most [lim m]; the other calls fail. *)
Record streams := Streams { w_in : gmap Z (list Z); w_out : gmap Z (list Z) }.

Section Streams.
Context (lim : nat -> nat) (Hlim : forall m, (0 < m -> 0 < lim m)%nat /\ (lim m <= m)%nat).

Definition stream_do (c : sys) : streams -> answer c * streams :=
  match c with
  | Sys_read fd n => fun k =>
      match w_in k !! fd with
      | None => (None, k)
      | Some l =>
          let m := lim (Z.to_nat n) in
          (Some (take m l), Streams (<[fd := drop m l]> (w_in k)) (w_out k))
      end
  | Sys_write fd bs => fun k =>
      match w_out k !! fd with
      | None => (-1, k)
      | Some out => (Z.of_nat (length bs), Streams (w_in k) (<[fd := out ++ bs]> (w_out k)))
      end
  | Sys_pipe => fun k => (None, k)
  | Sys_fstat _ => fun k => (None, k)
  | _ => fun k => (-1, k)
  end.

#[refine] Definition stream_world : World streams := {|
  sys_do := stream_do;
  unread := fun k fd => w_in k !! fd;
  written := fun k fd => w_out k !! fd |}.
Proof.
  - intros k fd n l E Hn. simpl. rewrite E. destruct (Hlim (Z.to_nat n)) as [Hp Hle].
    set (m := lim (Z.to_nat n)) in *.
    exists (take m l), (drop m l), (Streams (<[fd := drop m l]> (w_in k)) (w_out k)).
    split_and!; [done|by rewrite take_drop| |rewrite length_take; lia|simpl; by rewrite lookup_insert_eq| |done].
    + intros E'. destruct l as [|b l]; [by rewrite drop_nil|].
      assert (0 < m)%nat by lia. destruct m; [lia|done].
    + intros g Hg. simpl. by rewrite lookup_insert_ne.
  - intros k fd bs out E. simpl. rewrite E. eexists. split; [done|]. simpl.
    split_and!; [by rewrite lookup_insert_eq| |done]. intros g Hg. by rewrite lookup_insert_ne.
Defined.
End Streams.

(** Files deliver all that is asked for, pipes and the console perhaps less. *)
Definition file_world : World streams := stream_world (fun m => m) (fun m => conj (fun H => H) (le_n m)).

Lemma byte_lim m : ((0 < m -> 0 < Nat.min m 1) /\ (Nat.min m 1 <= m))%nat.
Proof. lia. Qed.

Definition tty_world : World streams := stream_world (fun m => Nat.min m 1) byte_lim.

(** A descriptor with this input, and standard output. *)
Definition demo_world (l : list Z) : streams := Streams {[ 3 := l ]} {[ 1 := [] ]}.

Lemma printf_exact_witness :
  exists k', run (@sys_do _ tty_world) (printf 1 (chars "a%d") [A_num (-12)]) (demo_world []) = Returns tt k' /\
    w_out k' !! 1 = Some (chars "a-12").
Proof.
  assert (Hf : formats 65 true (chars "a%d") [A_num (-12)] (chars "a-12")).
  { apply (F_char _ _ 97 (chars "%d")); [lia|done|].
    apply (F_d _ _ (A_num (-12)) (-12) (chars "-12") [] [] []); [done| |constructor].
    exists (chars "12"). split; [done|]. exists [1; 2]. by repeat constructor. }
  assert (Ha : Forall arg_ok [A_num (-12)]) by (repeat constructor).
  destruct (@printf_exact _ tty_world 1 (chars "a%d") [A_num (-12)] (chars "a-12") Hf Ha (demo_world []))
    as (k' & E & W & _); [by eexists|].
  exists k'. split; [exact E|]. exact (@wr_fd _ tty_world _ _ _ _ W [] eq_refl).
Defined.

Lemma atoi_printint_roundtrip_witness :
  exists cs, int_chars digits 4096 10 true = Some cs /\ atoi (cs ++ [32; 49]) = Some 4096.
Proof. apply (atoi_printint_roundtrip 4096 [32; 49]); [unfold ch_0; lia|unfold ch_0, ch_9; simpl; lia]. Defined.
