(* ===== verification/Tools.v ===== *)
(** * The user programs cat, echo, grep, init, kill, ln, ls, mkdir, rm, wc
      and zombie

    Each program is the tree of its system calls.  Loops that end when the
    kernel says so (end of file, no more children) take fuel; [Spin] is a
    program that is still in such a loop. *)

From S2P Require Import Prelude Machine StringC Digits User.
Import Ulib Printf.

Definition nl : Z := 10.

(** The character at a pointer. *)
Definition cur (s : list Z) : Z := default 0 (head s).

(** The [n] that [read] returns. *)
Definition read_count (r : option (list Z)) : Z :=
  match r with Some bs => Z.of_nat (length bs) | None => -1 end.

(** Store [bs] in the array [buf] from index [o]. *)
Definition put_at (buf : list Z) (o : nat) (bs : list Z) : list Z :=
  take o buf ++ bs ++ drop (o + length bs) buf.

Definition argc (argv : list (list Z)) : Z := Z.of_nat (length argv).

(** ** grep.c *)

Module Grep.

(** [here text] is [matchhere(re, text)]. *)
Fixpoint matchstar (here : list Z -> bool) (c : Z) (text : list Z) : bool :=
  if here text then true
  else
    match text with
    | [] => false
    | t :: text' => if negb (t =? 0) && ((t =? c) || (c =? 46)) then matchstar here c text' else false
    end.

Fixpoint matchhere (re text : list Z) : bool :=
  match re with
  | [] => true
  | r0 :: re1 =>
      if r0 =? 0 then true
      else if cur re1 =? 42 then
        match re1 with
        | [] => false
        | _ :: re2 => matchstar (matchhere re2) r0 text
        end
      else if (r0 =? 36) && (cur re1 =? 0) then cur text =? 0
      else if negb (cur text =? 0) && ((r0 =? 46) || (r0 =? cur text)) then
        matchhere re1 (tail text)
      else false
  end.

Fixpoint match_from (re text : list Z) : bool :=
  if matchhere re text then true
  else
    match text with
    | [] => false
    | t :: text' => if negb (t =? 0) then match_from re text' else false
    end.

Definition match_re (re text : list Z) : bool :=
  if cur re =? 94 then matchhere (tail re) text else match_from re text.

Definition BUFSZ : nat := 1024.

(** The inner loop: the lines of [buf] from [p]; returns [buf] and [p]. *)
Fixpoint grep_lines (fuel : nat) (pattern buf : list Z) (p : nat) : prog (list Z * nat) :=
  match fuel with
  | O => Spin
  | S f =>
      match strchr (drop p buf) nl with
      | None => Ret (buf, p)
      | Some i =>
          let q := (p + i)%nat in
          let buf1 := <[q := 0]> buf in
          if match_re pattern (drop p buf1) then
            let buf2 := <[q := nl]> buf1 in
            _ ← call (Sys_write 1 (take (i + 1) (drop p buf2)));
            grep_lines f pattern buf2 (q + 1)
          else grep_lines f pattern buf1 (q + 1)
      end
  end.

(** [m] bytes of an unfinished line are at the start of [buf]. *)
Fixpoint grep_loop (fuel : nat) (pattern : list Z) (fd : Z) (buf : list Z) (m : nat) :
    prog (list Z) :=
  match fuel with
  | O => Spin
  | S f =>
      r ← call (Sys_read fd (Z.of_nat BUFSZ - Z.of_nat m - 1));
      match r with
      | Some (b :: bs') =>
          let bs := b :: bs' in
          let m1 := (m + length bs)%nat in
          let buf1 := <[m1 := 0]> (put_at buf m bs) in
          x ← grep_lines (BUFSZ + 1) pattern buf1 0;
          let '(buf2, p) := (x : list Z * nat) in
          let m2 := if (p =? 0)%nat then O else m1 in
          if (0 <? m2)%nat then
            let m3 := (m2 - p)%nat in
            grep_loop f pattern fd (put_at buf2 0 (take m3 (drop p buf2))) m3
          else grep_loop f pattern fd buf2 m2
      | _ => Ret buf
      end
  end.

Definition grep (fuel : nat) (pattern : list Z) (fd : Z) (buf : list Z) : prog (list Z) :=
  grep_loop fuel pattern fd buf 0.

Fixpoint grep_files (fuel : nat) (pattern buf : list Z) (files : list (list Z)) : prog unit :=
  match files with
  | [] => Ret tt
  | a :: files' =>
      fd ← call (Sys_open a 0);
      if fd <? 0 then
        _ ← printf 1 (chars "grep: cannot open %s" ++ [nl]) [A_str a]; Exit
      else
        buf' ← grep fuel pattern fd buf;
        _ ← call (Sys_close fd);
        grep_files fuel pattern buf' files'
  end.

Definition main (fuel : nat) (argv : list (list Z)) : prog unit :=
  let buf := replicate BUFSZ 0 in
  if argc argv <=? 1 then
    _ ← printf 2 (chars "usage: grep pattern [file ...]" ++ [nl]) []; Exit
  else
    let pattern := argv !!! 1%nat in
    if argc argv <=? 2 then _ ← grep fuel pattern 0 buf; Exit
    else _ ← grep_files fuel pattern buf (drop 2 argv); Exit.
End Grep.

(** ** wc.c *)

Module Wc.

Record counts := Counts { n_l : Z; n_w : Z; n_c : Z; inword : bool }.

(** The white space of [wc]: space, \r, \t, \n, \v. *)
Definition spaces : list Z := [32; 13; 9; 10; 11].

Definition wc_char (x : counts) (b : Z) : counts :=
  let c := s32 (n_c x + 1) in
  let l := if b =? nl then s32 (n_l x + 1) else n_l x in
  match strchr spaces b with
  | Some _ => Counts l (n_w x) c false
  | None => if negb (inword x) then Counts l (s32 (n_w x + 1)) c true else Counts l (n_w x) c (inword x)
  end.

Fixpoint wc_loop (fuel : nat) (fd : Z) (x : counts) : prog (counts * Z) :=
  match fuel with
  | O => Spin
  | S f =>
      r ← call (Sys_read fd 512);
      match r with
      | Some (b :: bs) => wc_loop f fd (foldl wc_char x (b :: bs))
      | _ => Ret (x, read_count r)
      end
  end.

Definition wc (fuel : nat) (fd : Z) (name : list Z) : prog unit :=
  r ← wc_loop fuel fd (Counts 0 0 0 false);
  let '(x, n) := (r : counts * Z) in
  if n <? 0 then _ ← printf 1 (chars "wc: read error" ++ [nl]) []; Exit
  else
    printf 1 (chars "%d %d %d %s" ++ [nl]) [A_num (n_l x); A_num (n_w x); A_num (n_c x); A_str name].

Fixpoint wc_files (fuel : nat) (files : list (list Z)) : prog unit :=
  match files with
  | [] => Ret tt
  | a :: files' =>
      fd ← call (Sys_open a 0);
      if fd <? 0 then _ ← printf 1 (chars "wc: cannot open %s" ++ [nl]) [A_str a]; Exit
      else _ ← wc fuel fd a; _ ← call (Sys_close fd); wc_files fuel files'
  end.

Definition main (fuel : nat) (argv : list (list Z)) : prog unit :=
  if argc argv <=? 1 then _ ← wc fuel 0 []; Exit
  else _ ← wc_files fuel (drop 1 argv); Exit.
End Wc.

(** ** cat.c *)

Module Cat.

Fixpoint cat (fuel : nat) (fd : Z) : prog unit :=
  match fuel with
  | O => Spin
  | S f =>
      r ← call (Sys_read fd 512);
      match r with
      | Some (b :: bs') =>
          let bs := b :: bs' in
          w ← call (Sys_write 1 bs);
          if negb (w =? Z.of_nat (length bs)) then
            _ ← printf 1 (chars "cat: write error" ++ [nl]) []; Exit
          else cat f fd
      | Some [] => Ret tt
      | None => _ ← printf 1 (chars "cat: read error" ++ [nl]) []; Exit
      end
  end.

Fixpoint cat_files (fuel : nat) (files : list (list Z)) : prog unit :=
  match files with
  | [] => Ret tt
  | a :: files' =>
      fd ← call (Sys_open a 0);
      if fd <? 0 then _ ← printf 1 (chars "cat: cannot open %s" ++ [nl]) [A_str a]; Exit
      else _ ← cat fuel fd; _ ← call (Sys_close fd); cat_files fuel files'
  end.

Definition main (fuel : nat) (argv : list (list Z)) : prog unit :=
  if argc argv <=? 1 then _ ← cat fuel 0; Exit
  else _ ← cat_files fuel (drop 1 argv); Exit.
End Cat.

(** ** echo.c *)

Module Echo.

Fixpoint echo_args (args : list (list Z)) : prog unit :=
  match args with
  | [] => Ret tt
  | a :: args' =>
      _ ← printf 1 (chars "%s%s") [A_str a; A_str (match args' with [] => [nl] | _ => [32] end)];
      echo_args args'
  end.

Definition main (argv : list (list Z)) : prog unit := _ ← echo_args (drop 1 argv); Exit.
End Echo.

(** ** kill.c, ln.c, rm.c, mkdir.c *)

Module Kill.

Fixpoint kill_args (args : list (list Z)) : prog unit :=
  match args with
  | [] => Ret tt
  | a :: args' =>
      match atoi a with
      | None => Crash "atoi: overflow"
      | Some pid => _ ← call (Sys_kill pid); kill_args args'
      end
  end.

Definition main (argv : list (list Z)) : prog unit :=
  if argc argv <? 2 then _ ← printf 2 (chars "usage: kill pid..." ++ [nl]) []; Exit
  else _ ← kill_args (drop 1 argv); Exit.
End Kill.

Module Ln.

Definition main (argv : list (list Z)) : prog unit :=
  if negb (argc argv =? 3) then _ ← printf 2 (chars "Usage: ln old new" ++ [nl]) []; Exit
  else
    let old := argv !!! 1%nat in
    let new := argv !!! 2%nat in
    r ← call (Sys_link old new);
    if (r : Z) <? 0 then _ ← printf 2 (chars "link %s %s: failed" ++ [nl]) [A_str old; A_str new]; Exit
    else Exit.
End Ln.

Module Rm.

Fixpoint rm_args (args : list (list Z)) : prog unit :=
  match args with
  | [] => Ret tt
  | a :: args' =>
      r ← call (Sys_unlink a);
      if (r : Z) <? 0 then printf 2 (chars "rm: %s failed to delete" ++ [nl]) [A_str a]
      else rm_args args'
  end.

Definition main (argv : list (list Z)) : prog unit :=
  if argc argv <? 2 then _ ← printf 2 (chars "Usage: rm files..." ++ [nl]) []; Exit
  else _ ← rm_args (drop 1 argv); Exit.
End Rm.

Module Mkdir.

Fixpoint mkdir_args (args : list (list Z)) : prog unit :=
  match args with
  | [] => Ret tt
  | a :: args' =>
      r ← call (Sys_mkdir a);
      if (r : Z) <? 0 then printf 2 (chars "mkdir: %s failed to create" ++ [nl]) [A_str a]
      else mkdir_args args'
  end.

Definition main (argv : list (list Z)) : prog unit :=
  if argc argv <? 2 then _ ← printf 2 (chars "Usage: mkdir files..." ++ [nl]) []; Exit
  else _ ← mkdir_args (drop 1 argv); Exit.
End Mkdir.

(** ** ls.c *)

Module Ls.

(** The index after the last slash at or before [i]. *)
Fixpoint after_slash (path : list Z) (i : nat) : nat :=
  if (default 0 (path !! i)) =? 47 then S i
  else match i with O => O | S i' => after_slash path i' end.

Definition fmtname (path : list Z) : list Z :=
  let p := drop (after_slash path (Z.to_nat (strlen path))) path in
  if DIRSIZ <=? strlen p then p
  else take (Z.to_nat (strlen p)) p ++ replicate (Z.to_nat (DIRSIZ - strlen p)) 32.

Definition ls_line (name : list Z) (st : stat_t) : prog unit :=
  printf 1 (chars "%s %d %d %d" ++ [nl])
    [A_str (fmtname name); A_num (st_type st); A_num (st_ino st); A_num (st_size st)].

(** The entries of a directory; [buf] is the path with its slash. *)
Fixpoint ls_dir (fuel : nat) (fd : Z) (buf : list Z) : prog unit :=
  match fuel with
  | O => Spin
  | S f =>
      r ← call (Sys_read fd 16);
      match r with
      | Some de =>
          if (length de =? 16)%nat then
            if (de !!! O) + 256 * (de !!! 1%nat) =? 0 then ls_dir f fd buf
            else
              let name := buf ++ str_part (take (Z.to_nat DIRSIZ) (drop 2 de)) in
              x ← stat name;
              match x with
              | None => _ ← printf 1 (chars "ls: cannot stat %s" ++ [nl]) [A_str name]; ls_dir f fd buf
              | Some st => _ ← ls_line name st; ls_dir f fd buf
              end
          else Ret tt
      | None => Ret tt
      end
  end.

Definition ls (fuel : nat) (path : list Z) : prog unit :=
  fd ← call (Sys_open path 0);
  if (fd : Z) <? 0 then printf 2 (chars "ls: cannot open %s" ++ [nl]) [A_str path]
  else
    x ← call (Sys_fstat fd);
    match (x : option stat_t) with
    | None =>
        _ ← printf 2 (chars "ls: cannot stat %s" ++ [nl]) [A_str path];
        _ ← call (Sys_close fd); Ret tt
    | Some st =>
        _ ← (if st_type st =? T_FILE then ls_line path st
             else if st_type st =? T_DIR then
               if 512 <? strlen path + 1 + DIRSIZ + 1 then
                 printf 1 (chars "ls: path too long" ++ [nl]) []
               else ls_dir fuel fd (str_part path ++ [47])
             else Ret tt);
        _ ← call (Sys_close fd); Ret tt
    end.

Fixpoint ls_args (fuel : nat) (args : list (list Z)) : prog unit :=
  match args with
  | [] => Ret tt
  | a :: args' => _ ← ls fuel a; ls_args fuel args'
  end.

Definition main (fuel : nat) (argv : list (list Z)) : prog unit :=
  if argc argv <? 2 then _ ← ls fuel (chars "."); Exit
  else _ ← ls_args fuel (drop 1 argv); Exit.
End Ls.

(** ** init.c and zombie.c *)

Module Init.

Definition argv : list (list Z) := [chars "sh"].

(** Wait for the shell; other children are orphans. *)
Fixpoint reap (fuel : nat) (pid : Z) : prog unit :=
  match fuel with
  | O => Spin
  | S f =>
      wpid ← call Sys_wait;
      if (0 <=? (wpid : Z)) && negb (wpid =? pid) then
        _ ← printf 1 (chars "zombie!" ++ [nl]) []; reap f pid
      else Ret tt
  end.

Fixpoint init_loop (fuel : nat) : prog unit :=
  match fuel with
  | O => Spin
  | S f =>
      _ ← printf 1 (chars "init: starting sh" ++ [nl]) [];
      pid ← call Sys_fork;
      if (pid : Z) <? 0 then _ ← printf 1 (chars "init: fork failed" ++ [nl]) []; Exit
      else if pid =? 0 then
        _ ← call (Sys_exec (chars "sh") argv);
        _ ← printf 1 (chars "init: exec sh failed" ++ [nl]) []; Exit
      else _ ← reap f pid; init_loop f
  end.

Definition main (fuel : nat) : prog unit :=
  fd ← call (Sys_open (chars "console") O_RDWR);
  _ ← (if (fd : Z) <? 0 then
         _ ← call (Sys_mknod (chars "console") 1 1);
         _ ← call (Sys_open (chars "console") O_RDWR); Ret tt
       else Ret tt);
  _ ← call (Sys_dup 0);
  _ ← call (Sys_dup 0);
  init_loop fuel.
End Init.

Module Zombie.

Definition main : prog unit :=
  pid ← call Sys_fork;
  if 0 <? (pid : Z) then _ ← call (Sys_sleep 5); Exit else Exit.
End Zombie.
