(* ===== verification/GrepProps.v ===== *)
(** * grep.c: properties

    The matcher decides the language of its pattern, and [grep] prints
    exactly the lines that match. *)

From S2P Require Import Prelude Machine StringC Digits User UserProps Tools.
Import Ulib Printf Grep.

(** ** The language of a pattern

    A pattern is a sequence of characters, each possibly starred, with an
    optional [^] in front and an optional [$] at the end. *)

Inductive atom := One (c : Z) | Star (c : Z).

Fixpoint parse_re (re : list Z) : list atom * bool :=
  match re with
  | [] => ([], false)
  | c :: re1 =>
      match re1 with
      | [] => if c =? 36 then ([], true) else ([One c], false)
      | d :: re2 =>
          if d =? 42 then let (l, e) := parse_re re2 in (Star c :: l, e)
          else let (l, e) := parse_re re1 in (One c :: l, e)
      end
  end.

(** [.] stands for every character. *)
Definition accepts (c t : Z) : Prop := c = t \/ c = 46.

Inductive lang : list atom -> list Z -> Prop :=
| L_nil : lang [] []
| L_one c t l w : accepts c t -> lang l w -> lang (One c :: l) (t :: w)
| L_star c u l w : Forall (accepts c) u -> lang l w -> lang (Star c :: l) (u ++ w).

(** A prefix of [text], all of it if the pattern ends in [$], is in the
    language. *)
Definition starts (re text : list Z) : Prop :=
  exists w post, text = w ++ post /\ lang (fst (parse_re re)) w /\
    (snd (parse_re re) = true -> post = []).

Lemma matchstar_iff here c text :
  no_nul text ->
  matchstar here c text = true <->
  exists u v, text = u ++ v /\ Forall (accepts c) u /\ here v = true.
Proof.
  intros Ht. induction Ht as [|t text Ht0 Ht IH]; cbn [matchstar].
  - destruct (here []) eqn:E; split; try done.
    + intros _. by exists [], [].
    + intros (u & v & Eq & _ & Hv). symmetry in Eq. apply app_eq_nil in Eq as [-> ->]. congruence.
  - destruct (here (t :: text)) eqn:E.
    { split; [|done]. intros _. exists [], (t :: text). split_and!; [done|constructor|done]. }
    rewrite (proj2 (Z.eqb_neq t 0)) by done. cbn [negb andb].
    destruct ((t =? c) || (c =? 46)) eqn:Ec.
    + rewrite IH. apply orb_true_iff in Ec. rewrite !Z.eqb_eq in Ec. split.
      * intros (u & v & -> & Hu & Hv). exists (t :: u), v. split_and!; [done| |done].
        constructor; [unfold accepts; naive_solver|done].
      * intros ([|x u] & v & Eq & Hu & Hv); simpl in Eq; [subst; congruence|].
        injection Eq as -> ->. exists u, v. split_and!; [done|by inversion Hu|done].
    + apply orb_false_iff in Ec. rewrite !Z.eqb_neq in Ec. split; [done|].
      intros ([|x u] & v & Eq & Hu & Hv); simpl in Eq; [subst; congruence|].
      injection Eq as -> ->. apply Forall_cons_1 in Hu as [Hx _]. unfold accepts in Hx. naive_solver.
Qed.

Lemma lang_star c l w :
  lang (Star c :: l) w <-> exists u v, w = u ++ v /\ Forall (accepts c) u /\ lang l v.
Proof.
  split.
  - intros Hl. inversion Hl; subst. by eexists _, _.
  - intros (u & v & -> & Hu & Hv). by constructor.
Qed.

Lemma starts_star c re text :
  starts (c :: 42 :: re) text <-> exists u v, text = u ++ v /\ Forall (accepts c) u /\ starts re v.
Proof.
  unfold starts. cbn [parse_re]. change (42 =? 42) with true. cbn iota.
  destruct (parse_re re) as [l e]. cbn [fst snd]. split.
  - intros (w & post & -> & Hl & He). apply lang_star in Hl as (u & v & -> & Hu & Hv).
    exists u, (v ++ post). split_and!; [by rewrite (assoc_L (++))|done|]. by exists v, post.
  - intros (u & v & -> & Hu & w & post & -> & Hl & He). exists (u ++ w), post.
    split_and!; [by rewrite (assoc_L (++))| |done]. by constructor.
Qed.

(** A pattern that is neither empty, nor starred, nor the final [$]. *)
Lemma starts_one c re text :
  cur re <> 42 -> ~ (c = 36 /\ re = []) ->
  starts (c :: re) text <-> exists t v, text = t :: v /\ accepts c t /\ starts re v.
Proof.
  intros Hc Hd. unfold starts.
  assert (Ep : parse_re (c :: re) = (One c :: fst (parse_re re), snd (parse_re re))).
  { destruct re as [|d re']; cbn [parse_re].
    - destruct (Z.eqb_spec c 36); [naive_solver|done].
    - rewrite (proj2 (Z.eqb_neq d 42)) by done. cbn iota. by destruct (match re' with [] => _ | _ => _ end). }
  rewrite Ep. cbn [fst snd]. split.
  - intros (w & post & -> & Hl & He). inversion Hl; subst. eexists _, _. split_and!; [done|done|].
    by eexists _, _.
  - intros (t & v & -> & Ht & w & post & -> & Hl & He). exists (t :: w), post.
    split_and!; [done| |done]. by constructor.
Qed.

Lemma matchhere_iff re text :
  no_nul re -> no_nul text -> matchhere re text = true <-> starts re text.
Proof.
  remember (length re) as n eqn:En. revert re En text.
  induction (lt_wf n) as [n _ IH]; intros re -> text Hre Ht.
  destruct re as [|c re1].
  { split; [|done]. intros _. exists [], text. split_and!; [done|constructor|done]. }
  apply Forall_cons_1 in Hre as [Hc Hre]. cbn [matchhere]. rewrite (proj2 (Z.eqb_neq c 0)) by done.
  destruct (Z.eqb_spec (cur re1) 42) as [E42|E42].
  { destruct re1 as [|d re2]; [done|]. change (d = 42) in E42. subst d. apply Forall_cons_1 in Hre as [_ Hre].
    rewrite matchstar_iff, starts_star by done.
    assert (Hv : forall v, no_nul v -> matchhere re2 v = true <-> starts re2 v)
      by (intros v ?; eapply (IH (length re2)); simpl; [lia|done..]).
    split; intros (u & v & -> & Hu & H); exists u, v; (split_and!; [done..|]);
      apply Hv; try done; by apply Forall_app in Ht as [_ ?]. }
  destruct (decide (c = 36 /\ re1 = [])) as [[-> ->]|Hd].
  { change ((36 =? 36) && (cur [] =? 0)) with true. cbn iota. rewrite Z.eqb_eq. split.
    - intros E. exists [], text. split_and!; [done|constructor|]. intros _.
      destruct text as [|t text]; [done|]. inversion Ht; subst. done.
    - intros (w & post & -> & Hl & He). inversion Hl; subst. by rewrite He. }
  assert ((c =? 36) && (cur re1 =? 0) = false) as ->.
  { apply andb_false_iff. destruct (Z.eqb_spec c 36); [right|by left]. apply Z.eqb_neq.
    destruct re1; [naive_solver|]. by inversion Hre. }
  rewrite starts_one by done. destruct text as [|t text].
  { split; [done|]. intros (? & ? & ? & _). done. }
  apply Forall_cons_1 in Ht as [Ht0 Ht]. change (cur (t :: text)) with t. cbn [tail]. rewrite (proj2 (Z.eqb_neq t 0)) by done. cbn [negb andb].
  assert (Hr : matchhere re1 text = true <-> starts re1 text)
    by (eapply (IH (length re1)); simpl; [lia|done..]).
  destruct ((c =? 46) || (c =? t)) eqn:Ea.
  - rewrite Hr. apply orb_true_iff in Ea. rewrite !Z.eqb_eq in Ea. split.
    + intros Hs. exists t, text. split_and!; [done|unfold accepts; naive_solver|done].
    + intros (t' & v & [= <- <-] & _ & Hs). done.
  - apply orb_false_iff in Ea. rewrite !Z.eqb_neq in Ea. split; [done|].
    intros (t' & v & [= <- <-] & Ha & _). unfold accepts in Ha. naive_solver.
Qed.

Lemma match_from_iff re text :
  no_nul re -> no_nul text ->
  match_from re text = true <-> exists pre t, text = pre ++ t /\ starts re t.
Proof.
  intros Hre Ht. induction Ht as [|t text Ht0 Ht IH]; cbn [match_from].
  - destruct (matchhere re []) eqn:E; split; try done.
    + intros _. exists [], []. split; [done|]. apply matchhere_iff; [done|constructor|done].
    + intros (pre & t & Eq & Hs). symmetry in Eq. apply app_eq_nil in Eq as [-> ->].
      apply matchhere_iff in Hs; [congruence|done|constructor].
  - assert (Hn : no_nul (t :: text)) by by constructor.
    destruct (matchhere re (t :: text)) eqn:E.
    { split; [|done]. intros _. exists [], (t :: text). split; [done|]. by apply matchhere_iff. }
    rewrite (proj2 (Z.eqb_neq t 0)) by done. cbn [negb]. rewrite IH. split.
    + intros (pre & t' & -> & Hs). by exists (t :: pre), t'.
    + intros ([|x pre] & t' & Eq & Hs); simpl in Eq.
      * subst. apply matchhere_iff in Hs; [congruence|done..].
      * injection Eq as -> ->. by exists pre, t'.
Qed.

(** C18. The matcher decides the language of the pattern: [match] returns 1
    exactly when some part of the text is in the language of the pattern,
    a part at its beginning if the pattern starts with [^], and at its end
    if the pattern ends in [$].  It always ends. *)
Theorem match_decides_language (re text : list Z) :
  no_nul re -> no_nul text ->
  let body := if cur re =? 94 then tail re else re in
  match_re re text = true <->
  exists pre w post, text = pre ++ w ++ post /\ lang (fst (parse_re body)) w /\
    (cur re = 94 -> pre = []) /\ (snd (parse_re body) = true -> post = []).
Proof.
  intros Hre Ht body. unfold match_re, body. destruct (Z.eqb_spec (cur re) 94) as [E|E].
  - rewrite matchhere_iff by (done || by destruct re; [|inversion Hre]). unfold starts. split.
    + intros (w & post & -> & ? & ?). by exists [], w, post.
    + intros (pre & w & post & -> & ? & Hp & ?). rewrite Hp by done. by exists w, post.
  - rewrite match_from_iff by done. unfold starts. split.
    + intros (pre & t & -> & w & post & -> & ? & ?). by exists pre, w, post.
    + intros (pre & w & post & -> & ? & _ & ?). exists pre, (w ++ post). split; [done|]. by exists w, post.
Qed.

Lemma match_decides_language_witness :
  match_re (chars "ab*.$") (chars "xabbc") = true /\ match_re (chars "^b") (chars "ab") = false.
Proof.
  split.
  - apply (match_decides_language (chars "ab*.$") (chars "xabbc"));
      [by apply no_nul_test|by apply no_nul_test|].
    exists (chars "x"), (chars "abbc"), []. split_and!; [done| |done|done].
    apply L_one; [by left|]. apply (L_star 98 [98; 98]); [repeat constructor|].
    apply L_one; [by right|constructor].
  - destruct (match_re (chars "^b") (chars "ab")) eqn:E; [|done].
    apply (match_decides_language (chars "^b") (chars "ab")) in E;
      [|by apply no_nul_test|by apply no_nul_test].
    destruct E as (pre & w & post & Ew & Hl & Hp & _). rewrite Hp in Ew by done.
    inversion Hl as [|c t l w' Ha|]; subst. injection Ew as Et _. unfold accepts in Ha. lia.
Defined.

(** ** Lines *)

(** The complete lines of a text, without their newlines; [acc] is the
    beginning of the current one. *)
Fixpoint lines_of (acc l : list Z) : list (list Z) :=
  match l with
  | [] => []
  | c :: l' => if c =? nl then acc :: lines_of [] l' else lines_of (acc ++ [c]) l'
  end.

Definition matching (pat l : list Z) : list Z :=
  concat ((fun x => x ++ [nl]) <$> filter (fun x => match_re pat x = true) (lines_of [] l)).

Lemma lines_of_line acc line y :
  nl ∉ line -> lines_of acc (line ++ nl :: y) = (acc ++ line) :: lines_of [] y.
Proof.
  revert acc. induction line as [|c line IH]; intros acc Hn; simpl.
  - by rewrite app_nil_r.
  - apply not_elem_of_cons in Hn as [Hc Hn]. rewrite (proj2 (Z.eqb_neq c nl)) by done.
    rewrite IH by done. by rewrite <- (assoc_L (++)).
Qed.

Lemma lines_of_partial acc line : nl ∉ line -> lines_of acc line = [].
Proof.
  revert acc. induction line as [|c line IH]; intros acc Hn; simpl; [done|].
  apply not_elem_of_cons in Hn as [Hc Hn]. rewrite (proj2 (Z.eqb_neq c nl)) by done. by apply IH.
Qed.

Lemma matching_line pat line y :
  nl ∉ line ->
  matching pat (line ++ nl :: y) =
  (if match_re pat line then line ++ [nl] else []) ++ matching pat y.
Proof.
  intros Hn. unfold matching. rewrite lines_of_line by done. rewrite filter_cons.
  simpl. by destruct (match_re pat line).
Qed.

Lemma matching_partial pat line : nl ∉ line -> matching pat line = [].
Proof. intros Hn. unfold matching. by rewrite lines_of_partial. Qed.

(** *** Texts that end at a NUL in the buffer *)

Lemma matchstar_nul here c t x :
  (forall v, no_nul v -> here (v ++ 0 :: x) = here v) -> no_nul t ->
  matchstar here c (t ++ 0 :: x) = matchstar here c t.
Proof.
  intros Hh Ht. induction Ht as [|y t Hy Ht IH].
  - cbn [app matchstar]. pose proof (Hh [] (Forall_nil_2 _)) as E. cbn [app] in E. rewrite E. done.
  - cbn [app matchstar]. pose proof (Hh (y :: t)) as E. cbn [app] in E. rewrite E by by constructor.
    by rewrite IH.
Qed.

Lemma cur_nul t x : no_nul t -> cur (t ++ 0 :: x) = cur t.
Proof. by destruct 1. Qed.

Lemma matchhere_nul re t x : no_nul t -> matchhere re (t ++ 0 :: x) = matchhere re t.
Proof.
  remember (length re) as n eqn:En. revert re En t.
  induction (lt_wf n) as [n _ IH]; intros re -> t Ht. destruct re as [|c re1]; [done|].
  cbn [matchhere]. rewrite cur_nul by done. destruct (c =? 0); [done|].
  destruct (cur re1 =? 42).
  { destruct re1 as [|d re2]; [done|]. apply matchstar_nul; [|done].
    intros v Hv. eapply (IH (length re2)); simpl; [lia|done..]. }
  destruct (_ && _); [done|]. destruct Ht as [|y t Hy Ht]; [done|].
  destruct (_ && _); [|done]. cbn [app tail]. eapply (IH (length re1)); simpl; [lia|done..].
Qed.

Lemma match_re_nul re t x : no_nul t -> match_re re (t ++ 0 :: x) = match_re re t.
Proof.
  intros Ht. unfold match_re. destruct (cur re =? 94); [by apply matchhere_nul|].
  induction Ht as [|y t Hy Ht IH].
  - cbn [app match_from]. pose proof (matchhere_nul re [] x (Forall_nil_2 _)) as E.
    cbn [app] in E. by rewrite E.
  - cbn [app match_from]. pose proof (matchhere_nul re (y :: t) x) as E. cbn [app] in E.
    rewrite E by by constructor. by rewrite IH.
Qed.

Lemma strchr_line line x : no_nul line -> nl ∉ line -> strchr (line ++ nl :: x) nl = Some (length line).
Proof.
  intros Ht. induction Ht as [|y line Hy Ht IH]; intros Hn; [done|].
  apply not_elem_of_cons in Hn as [Hc Hn]. cbn [app strchr].
  rewrite (proj2 (Z.eqb_neq y 0)), (proj2 (Z.eqb_neq y nl)), IH by done. done.
Qed.

Lemma strchr_partial line x : no_nul line -> nl ∉ line -> strchr (line ++ 0 :: x) nl = None.
Proof.
  intros Ht. induction Ht as [|y line Hy Ht IH]; intros Hn; [done|].
  apply not_elem_of_cons in Hn as [Hc Hn]. cbn [app strchr].
  by rewrite (proj2 (Z.eqb_neq y 0)), (proj2 (Z.eqb_neq y nl)), IH by done.
Qed.

(** A text is a first line and the rest, or has no newline. *)
Lemma split_line (l : list Z) :
  nl ∉ l \/ exists line y, l = line ++ nl :: y /\ nl ∉ line.
Proof.
  induction l as [|c l [IH|(line & y & -> & IH)]].
  - left. apply not_elem_of_nil.
  - destruct (decide (c = nl)) as [->|Hc].
    + right. exists [], l. split; [done|apply not_elem_of_nil].
    + left. by apply not_elem_of_cons.
  - right. destruct (decide (c = nl)) as [->|Hc].
    + exists [], (line ++ nl :: y). split; [done|apply not_elem_of_nil].
    + exists (c :: line), y. split; [done|]. by apply not_elem_of_cons.
Qed.

(** ** The loops of grep *)

Lemma insert_middle (dn line y : list Z) (c d : Z) :
  <[(length dn + length line)%nat := d]> (dn ++ line ++ c :: y) = dn ++ line ++ d :: y.
Proof.
  rewrite insert_app_r, insert_app_r_alt by lia. by rewrite Nat.sub_diag.
Qed.

Section Loops.
Context {K : Type} `{World K} (pat : list Z).

(** What the inner loop does with the lines of [rest]. *)
Lemma grep_lines_run fuel (dn rest junk : list Z) (k : K) :
  no_nul rest -> (length rest < fuel)%nat -> is_Some (written k 1) ->
  exists dn' rest' text k',
    run sys_do (grep_lines fuel pat (dn ++ rest ++ 0 :: junk) (length dn)) k =
      Returns (dn' ++ rest' ++ 0 :: junk, length dn') k' /\
    wrote 1 text k k' /\ is_Some (written k' 1) /\ nl ∉ rest' /\ no_nul rest' /\
    (length dn' + length rest' = length dn + length rest)%nat /\
    (forall y, matching pat (rest ++ y) = text ++ matching pat (rest' ++ y)) /\
    (exists u, rest = u ++ rest') /\ (nl ∈ rest -> (length dn < length dn')%nat).
Proof.
  revert dn rest k. induction fuel as [|f IH]; intros dn rest k Hn Hf Hk; [lia|].
  cbn [grep_lines]. rewrite drop_app_length.
  destruct (split_line rest) as [Hnl|(line & y & -> & Hnl)].
  { rewrite strchr_partial by done. exists dn, rest, [], k.
    split_and!; [done|apply wrote_refl|done..| |by exists []|done]. done. }
  apply Forall_app in Hn as [Hline Hy]. apply Forall_cons_1 in Hy as [_ Hy].
  replace ((line ++ nl :: y) ++ 0 :: junk) with (line ++ nl :: y ++ 0 :: junk)
    by by rewrite <- (assoc_L (++)).
  rewrite strchr_line by done. cbn zeta. rewrite !insert_middle. rewrite !drop_app_length.
  rewrite match_re_nul by done. rewrite length_app in Hf. simpl in Hf.
  assert (Hrec : forall c k1 t, wrote 1 t k k1 -> is_Some (written k1 1) ->
    t = (if match_re pat line then line ++ [nl] else []) ->
    exists dn' rest' text k',
    run sys_do (grep_lines f pat (dn ++ line ++ c :: y ++ 0 :: junk) (length dn + length line + 1)) k1 =
      Returns (dn' ++ rest' ++ 0 :: junk, length dn') k' /\
    wrote 1 text k k' /\ is_Some (written k' 1) /\ nl ∉ rest' /\ no_nul rest' /\
    (length dn' + length rest' = length dn + length (line ++ nl :: y))%nat /\
    (forall z, matching pat ((line ++ nl :: y) ++ z) = text ++ matching pat (rest' ++ z)) /\
    (exists u, line ++ nl :: y = u ++ rest') /\ (nl ∈ line ++ nl :: y -> (length dn < length dn')%nat)).
  { intros c k1 t W1 Hk1 Ht.
    destruct (IH (dn ++ line ++ [c]) y k1) as (dn' & rest' & text & k' & E & W & Hk' & Hn' & Hz & Hlen & Hm & [u Hu] & _);
      [done|lia|done|].
    rewrite !length_app in E, Hlen. simpl in E, Hlen.
    exists dn', rest', (t ++ text), k'. split_and!; try done.
    - rewrite <- E. do 2 f_equal; [by rewrite <- !(assoc_L (++))|lia].
    - by eapply wrote_trans.
    - rewrite length_app. simpl. lia.
    - intros z. rewrite <- (assoc_L (++)). cbn [app]. rewrite matching_line by done.
      rewrite Hm, <- Ht. by rewrite (assoc_L (++)).
    - exists (line ++ nl :: u). rewrite Hu. by rewrite <- (assoc_L (++)).
    - intros _. apply (f_equal length) in Hu. rewrite length_app in Hu. lia. }
  destruct (match_re pat line) eqn:Em.
  - destruct Hk as [out Hout].
    destruct (world_write k 1 (line ++ [nl]) out Hout) as (k1 & E1 & Hf1 & Ho1 & Hu1).
    assert (Et : take (length line + 1) (line ++ nl :: y ++ 0 :: junk) = line ++ [nl]).
    { rewrite take_app_add. done. }
    rewrite Et, run_call, E1. cbn [fst snd]. apply (Hrec _ _ (line ++ [nl])); [|by eexists|done].
    split; try done. intros out' Eo. congruence.
  - apply (Hrec _ _ []); [apply wrote_refl|done|done].
Qed.

(** Every 1023 consecutive bytes, what fits in the buffer, hold a newline. *)
Definition short_lines (l : list Z) : Prop :=
  forall u w v, l = u ++ w ++ v -> length w = (BUFSZ - 1)%nat -> nl ∈ w.

Lemma short_lines_suffix u l : short_lines (u ++ l) -> short_lines l.
Proof. intros Hs u' w v -> Hw. apply (Hs (u ++ u') w v); [by rewrite <- (assoc_L (++))|done]. Qed.

(** Reads of a file deliver all that is asked for, or all there is. *)
Definition full_reads (fd : Z) : Prop :=
  forall k n l, unread k fd = Some l -> 0 < n ->
  fst (sys_do (Sys_read fd n) k) = Some (take (Z.to_nat n) l).

Lemma full_read fd k n l :
  full_reads fd -> unread k fd = Some l -> (0 < n)%nat ->
  exists k', sys_do (Sys_read fd (Z.of_nat n)) k = (Some (take n l), k') /\
    unread k' fd = Some (drop n l) /\ (forall g, written k' g = written k g).
Proof.
  intros Hfull Hl Hn. pose proof (Hfull k (Z.of_nat n) l Hl ltac:(lia)) as E.
  destruct (world_read k fd (Z.of_nat n) l Hl ltac:(lia)) as (bs & rest & k' & E' & Eq & _ & _ & Hu & _ & Hw).
  rewrite E' in E. cbn [fst] in E. rewrite Nat2Z.id in E. injection E as ->.
  exists k'. split_and!; [done| |done]. rewrite Hu. f_equal.
  apply (app_inv_head (take n l)). by rewrite take_drop.
Qed.

Lemma put_at_eq (buf bs : list Z) m :
  (m + length bs < length buf)%nat ->
  exists junk, <[(m + length bs)%nat := 0]> (put_at buf m bs) = take m buf ++ bs ++ 0 :: junk /\
    length (take m buf ++ bs ++ 0 :: junk) = length buf.
Proof.
  intros Hm. unfold put_at. set (r := drop (m + length bs) buf).
  assert (Hr : length r = (length buf - (m + length bs))%nat) by apply length_drop.
  destruct r as [|c r'] eqn:Er; [simpl in Hr; lia|]. exists r'.
  assert (Hlt : length (take m buf) = m) by (rewrite length_take; lia).
  split; [rewrite <- Hlt at 1; apply insert_middle|].
  rewrite !length_app, Hlt. simpl in Hr |- *. lia.
Qed.

Lemma grep_loop_run fd fuel (buf l : list Z) m (k : K) :
  full_reads fd -> length buf = BUFSZ -> (m < BUFSZ - 1)%nat ->
  nl ∉ take m buf -> no_nul (take m buf) -> unread k fd = Some l -> no_nul l ->
  short_lines (take m buf ++ l) -> (length l < fuel)%nat -> is_Some (written k 1) ->
  exists buf' k', run sys_do (grep_loop fuel pat fd buf m) k = Returns buf' k' /\
    (forall out, written k 1 = Some out ->
       written k' 1 = Some (out ++ matching pat (take m buf ++ l))) /\
    unread k' fd = Some [].
Proof.
  intros Hfull. revert buf l m k. induction fuel as [|f IH];
    intros buf l m k Hb Hm Hn Hz Hl Hzl Hs Hf Hk; [lia|].
  cbn [grep_loop]. set (n := (BUFSZ - 1 - m)%nat).
  replace (Z.of_nat BUFSZ - Z.of_nat m - 1) with (Z.of_nat n) by (unfold n; lia).
  destruct (full_read fd k n l Hfull Hl ltac:(unfold n; lia)) as (k1 & E1 & Hu1 & Hw1).
  do_call. rewrite E1. cbn [fst snd].
  destruct (take n l) as [|b bs'] eqn:Ebs.
  { assert (l = []) as -> by (destruct l; [done|]; destruct n eqn:En; [unfold n in En; lia|done]).
    exists buf, k1. rewrite drop_nil in Hu1. split_and!; [done| |done].
    intros out Ho. rewrite Hw1, app_nil_r, matching_partial, app_nil_r by done. done. }
  set (bs := b :: bs') in *.
  assert (El : l = bs ++ drop n l) by (rewrite <- Ebs; by rewrite take_drop).
  assert (Hlbs : (length bs <= n)%nat) by (rewrite <- Ebs, length_take; lia).
  set (rest := drop n l) in *. rewrite El in Hzl. apply Forall_app in Hzl as [Hzb Hzr].
  destruct (put_at_eq buf bs m) as (junk & Ej & Hlj); [unfold n in Hlbs; lia|]. cbn zeta. rewrite Ej.
  set (pend := take m buf) in *.
  assert (Hlp : length pend = m) by (unfold pend; rewrite length_take; lia).
  replace (pend ++ bs ++ 0 :: junk) with ([] ++ (pend ++ bs) ++ 0 :: junk) in Hlj |- *
    by by rewrite <- (assoc_L (++)).
  destruct (grep_lines_run (BUFSZ + 1) [] (pend ++ bs) junk k1)
    as (dn & rest' & text & k2 & E2 & W2 & Hk2 & Hn2 & Hz2 & Hlen & Hmt & [u Hu] & Hnl).
  { by apply Forall_app. }
  { rewrite length_app, Hlp. unfold n in Hlbs. lia. }
  { by rewrite Hw1. }
  change (length (@nil Z)) with O in *. rewrite (run_bind_ok _ _ _ _ _ _ E2). cbn iota beta.
  assert (Hrl : (length rest < f)%nat)
    by (apply (f_equal length) in El; rewrite length_app in El; simpl in El; lia).
  rewrite <- (wr_unread _ _ _ _ W2) in Hu1.
  assert (Hout : forall out, written k 1 = Some out -> written k2 1 = Some (out ++ text))
    by (intros out Ho; apply (wr_fd _ _ _ _ W2); by rewrite Hw1).
  rewrite length_app, Hlp in Hlen.
  assert (Hlb : length (dn ++ rest' ++ 0 :: junk) = BUFSZ).
  { rewrite <- Hb, <- Hlj. rewrite !length_app, Hlp. simpl in Hlen |- *. lia. }
  destruct dn as [|d dn].
  - (* no newline in the buffer: the end of the input *)
    cbn [length Nat.eqb]. cbn iota. simpl in Hlen.
    assert (u = []) as -> by (apply (f_equal length) in Hu; rewrite !length_app, Hlp in Hu;
      destruct u; [done|simpl in Hu; lia]).
    simpl in Hu. assert (Hno : nl ∉ pend ++ bs) by (rewrite Hu; done).
    assert (rest = []) as Er.
    { destruct (Nat.eq_dec (length bs) n) as [En|En].
      - destruct Hno. apply (Hs [] (pend ++ bs) rest).
        + simpl. rewrite El at 1. by rewrite (assoc_L (++)).
        + rewrite length_app, Hlp, En. unfold n. lia.
      - unfold rest. apply drop_ge. rewrite <- Ebs, length_take in En. lia. }
    rewrite Er in *. destruct (IH ([] ++ rest' ++ 0 :: junk) [] 0%nat k2)
      as (buf' & k3 & E3 & H3 & Hu3); try done.
    { unfold BUFSZ; lia. } { apply not_elem_of_nil. } { intros x y z E Hy. apply (f_equal length) in E. rewrite !length_app, Hy in E.
      unfold BUFSZ in E. simpl in E. lia. }
    exists buf', k3. split_and!; [exact E3| |done]. intros out Ho.
    assert (El' : l = bs) by (rewrite El; apply app_nil_r).
    rewrite (H3 _ (Hout _ Ho)), El', (matching_partial _ (pend ++ bs)) by done.
    specialize (Hmt []). rewrite !app_nil_r, !matching_partial in Hmt by done.
    symmetry in Hmt. apply app_eq_nil in Hmt as [-> _]. by rewrite !app_nil_r.
  - set (dn' := d :: dn) in *. replace (length dn' =? 0)%nat with false by done. cbn iota.
    replace (0 <? m + length bs)%nat with true by (symmetry; apply Nat.ltb_lt; simpl; lia). cbn iota.
    replace (m + length bs - length dn')%nat with (length rest') by lia.
    rewrite drop_app_length, take_app_length. unfold put_at. rewrite take_0. cbn [app Nat.add].
    set (buf3 := rest' ++ drop (length rest') (dn' ++ rest' ++ 0 :: junk)).
    assert (Ht3 : take (length rest') buf3 = rest') by apply take_app_length.
    destruct (IH buf3 rest (length rest') k2) as (buf' & k3 & E3 & H3 & Hu3); rewrite ?Ht3; try done.
    { pose proof Hlb as Hlb'. rewrite !length_app in Hlb'.
      unfold buf3. rewrite length_app, length_drop, Hlb. lia. }
    { change (length dn') with (S (length dn)) in Hlen. unfold n in Hlbs. lia. }
    { apply (short_lines_suffix u). rewrite El, (assoc_L (++)), Hu in Hs. by rewrite <- (assoc_L (++)) in Hs. }
    exists buf', k3. split_and!; [exact E3| |done]. intros out Ho.
    rewrite Ht3 in H3. rewrite (H3 _ (Hout _ Ho)), El, (assoc_L (++)), Hmt.
    by rewrite <- (assoc_L (++)).
Qed.

(** C31. [grep] prints exactly the complete lines of a file that match the
    pattern, in their order, and reads the file to its end, provided the
    file has no NUL and every 1023 bytes of it hold a newline. *)
Theorem grep_exact (fd : Z) (fuel : nat) (buf l out : list Z) (k : K) :
  full_reads fd -> length buf = BUFSZ -> unread k fd = Some l -> written k 1 = Some out ->
  no_nul l -> short_lines l -> (length l < fuel)%nat ->
  exists buf' k', run sys_do (grep fuel pat fd buf) k = Returns buf' k' /\
    written k' 1 = Some (out ++ matching pat l) /\ unread k' fd = Some [].
Proof.
  intros Hfull Hb Hl Ho Hz Hs Hf. unfold grep.
  destruct (grep_loop_run fd fuel buf l 0 k) as (buf' & k' & E & Hw & Hu); try done.
  - unfold BUFSZ; lia.
  - apply not_elem_of_nil.
  - constructor.
  - exists buf', k'. split_and!; [done|by apply Hw|done].
Qed.

(** A read that delivers no newline is forgotten: [grep] goes on as if
    its bytes had not been in the input, so the beginning of a line that
    arrives in two reads (from a pipe or the console) is lost. *)
Theorem grep_forgets_partial_line (fd : Z) (fuel : nat) (buf bs : list Z) (k k1 : K) :
  length buf = BUFSZ -> is_Some (written k1 1) ->
  sys_do (Sys_read fd (Z.of_nat BUFSZ - 1)) k = (Some bs, k1) ->
  bs <> [] -> (length bs < BUFSZ)%nat -> no_nul bs -> nl ∉ bs ->
  exists buf', length buf' = BUFSZ /\
    run sys_do (grep (S fuel) pat fd buf) k = run sys_do (grep fuel pat fd buf') k1.
Proof.
  intros Hb Hk E Hne Hl Hz Hn. unfold grep. cbn [grep_loop].
  replace (Z.of_nat BUFSZ - Z.of_nat 0 - 1) with (Z.of_nat BUFSZ - 1) by lia.
  do_call. rewrite E. cbn [fst snd]. destruct bs as [|b bs']; [done|]. set (bs := b :: bs') in *.
  destruct (put_at_eq buf bs 0) as (junk & Ej & Hlj); [lia|]. rewrite Ej, take_0. rewrite take_0 in Hlj.
  cbn [app] in Hlj |- *. set (buf' := bs ++ 0 :: junk) in *.
  assert (Est : forall f, grep_lines (f + 1) pat buf' 0 = Ret (buf', O)).
  { intros f. rewrite Nat.add_1_r. cbn [grep_lines]. unfold buf'. rewrite drop_0.
    by rewrite strchr_partial. }
  rewrite Est. exists buf'. split; [congruence|]. reflexivity.
Qed.
End Loops.

(** *** A file of three lines *)

Definition demo_text : list Z := chars "one" ++ [nl] ++ chars "two" ++ [nl] ++ chars "three" ++ [nl].

Lemma demo_text_short : short_lines demo_text.
Proof.
  intros u w v E Hw. apply (f_equal length) in E. rewrite !length_app, Hw in E.
  change (length demo_text) with 14%nat in E. unfold BUFSZ in E. lia.
Qed.

Lemma grep_exact_witness :
  exists buf' k', run (@sys_do _ file_world) (grep 20 (chars "t.*e") 3 (replicate BUFSZ 0)) (demo_world demo_text)
    = Returns buf' k' /\ w_out k' !! 1 = Some (chars "three" ++ [nl]).
Proof.
  assert (Hfull : @full_reads _ file_world 3).
  { intros k n l E Hn. cbn in E |- *. by rewrite E. }
  assert (Hz : no_nul demo_text) by by apply no_nul_test.
  destruct (@grep_exact _ file_world (chars "t.*e") 3 20 (replicate BUFSZ 0) demo_text [] (demo_world demo_text)
    Hfull (length_replicate _ _) eq_refl eq_refl Hz demo_text_short ltac:(simpl; lia))
    as (buf' & k' & E & Hw & _).
  exists buf', k'. split; [exact E|]. exact Hw.
Defined.

Lemma grep_forgets_partial_line_witness :
  exists buf', length buf' = BUFSZ /\
    run (@sys_do _ tty_world) (grep 20 (chars "one") 3 (replicate BUFSZ 0)) (demo_world demo_text) =
    run (@sys_do _ tty_world) (grep 19 (chars "one") 3 buf') (demo_world (tail demo_text)).
Proof.
  exact (@grep_forgets_partial_line _ tty_world (chars "one") 3 19 (replicate BUFSZ 0) (chars "o")
    (demo_world demo_text) (demo_world (tail demo_text)) (length_replicate _ _) (ex_intro _ [] eq_refl)
    eq_refl ltac:(done) ltac:(simpl; unfold BUFSZ; lia) (no_nul_test (chars "o") eq_refl)
    ltac:(apply not_elem_of_cons; split; [done|apply not_elem_of_nil])).
Defined.
