(* ===== verification/ToolsProps.v ===== *)
(** * cat.c and wc.c: properties

    What the programs do with a stream of bytes does not depend on how the
    kernel cuts it into reads. *)

From S2P Require Import Prelude Machine StringC Digits User UserProps Tools.
Import Ulib Printf.

(** ** wc *)

Definition is_space (c : Z) : bool := bool_decide (c ∈ Wc.spaces).

(** The words of a text; [acc] is the beginning of the current one. *)
Fixpoint words_of (acc l : list Z) : list (list Z) :=
  let now := match acc with [] => [] | _ => [acc] end in
  match l with
  | [] => now
  | c :: l' => if is_space c then now ++ words_of [] l' else words_of (acc ++ [c]) l'
  end.

Definition newlines (l : list Z) : Z := Z.of_nat (length (filter (fun c => c = nl) l)).
Definition words (acc l : list Z) : Z := Z.of_nat (length (words_of acc l)).
Definition begun (acc : list Z) : Z := match acc with [] => 0 | _ => 1 end.

Lemma strchr_spaces c : strchr Wc.spaces c = None <-> is_space c = false.
Proof. unfold is_space. rewrite bool_decide_eq_false. apply strchr_none. by apply no_nul_test. Qed.

Lemma words_of_begun acc l : begun acc <= words acc l <= begun acc + Z.of_nat (length l).
Proof.
  unfold words. revert acc. induction l as [|c l IH]; intros acc.
  - destruct acc; simpl; lia.
  - cbn [words_of]. destruct (is_space c).
    + pose proof (IH []) as H. rewrite length_app. destruct acc; simpl in *; lia.
    + pose proof (IH (acc ++ [c])) as H. assert (begun (acc ++ [c]) = 1) as E by by destruct acc.
      rewrite E in H. destruct acc; simpl in *; lia.
Qed.

(** The counters while the text is being read. *)
Lemma wc_chars acc l a b c :
  0 <= a -> 0 <= b -> 0 <= c -> a + Z.of_nat (length l) < 2147483648 ->
  b + Z.of_nat (length l) < 2147483648 -> c + Z.of_nat (length l) < 2147483648 ->
  exists i, foldl Wc.wc_char (Wc.Counts a b c (negb (begun acc =? 0))) l =
    Wc.Counts (a + newlines l) (b + words acc l - begun acc) (c + Z.of_nat (length l)) i.
Proof.
  revert acc a b c. induction l as [|x l IH]; intros acc a b c Ha Hb Hc Hla Hlb Hlc.
  { exists (negb (begun acc =? 0)). unfold newlines, words. simpl. f_equal; destruct acc; simpl; lia. }
  cbn [foldl length] in *. unfold Wc.wc_char at 2. cbn [Wc.n_c Wc.n_l Wc.n_w Wc.inword].
  rewrite (s32_small (c + 1)), (s32_small (a + 1)), (s32_small (b + 1)) by lia.
  assert (Hnl : newlines (x :: l) = (if x =? nl then 1 else 0) + newlines l).
  { unfold newlines. rewrite filter_cons. destruct (Z.eqb_spec x nl).
    - rewrite decide_True by done. simpl. lia.
    - rewrite decide_False by done. lia. }
  rewrite Hnl. set (a' := if x =? nl then a + 1 else a).
  assert (Ea : a' = a + (if x =? nl then 1 else 0)) by (unfold a'; destruct (x =? nl); lia).
  assert (Hw : words acc (x :: l) =
    if is_space x then begun acc + words [] l else words (acc ++ [x]) l).
  { unfold words. cbn [words_of]. destruct (is_space x); [|done]. rewrite length_app. destruct acc; simpl; lia. }
  rewrite Hw. destruct (strchr Wc.spaces x) as [i|] eqn:Es.
  - assert (is_space x = true) as ->.
    { destruct (is_space x) eqn:E; [done|]. apply strchr_spaces in E. congruence. }
    destruct (IH [] a' b (c + 1)) as [j Hj]; try (destruct (x =? nl); lia).
    change (negb (begun [] =? 0)) with false in Hj. exists j. rewrite Hj. simpl. f_equal; lia.
  - apply strchr_spaces in Es. rewrite Es.
    assert (Hb1 : begun (acc ++ [x]) = 1) by by destruct acc.
    pose proof (words_of_begun (acc ++ [x]) l) as Hwb. rewrite Hb1 in Hwb.
    destruct acc as [|y acc].
    + change (negb (negb (begun [] =? 0))) with true. cbn iota.
      destruct (IH [x] a' (b + 1) (c + 1)) as [j Hj]; try (destruct (x =? nl); lia).
      exists j. change (negb (begun [x] =? 0)) with true in Hj. rewrite Hj. simpl. f_equal; lia.
    + change (negb (negb (begun (y :: acc) =? 0))) with false. cbn iota.
      destruct (IH ((y :: acc) ++ [x]) a' b (c + 1)) as [j Hj]; try (destruct (x =? nl); lia).
      rewrite Hb1 in Hj. exists j. change (negb (begun (y :: acc) =? 0)) with true.
      change (negb (1 =? 0)) with true in Hj. rewrite Hj. simpl. f_equal; lia.
Qed.

(** A number as [%d] prints it. *)
Definition dec (z : Z) : list Z := default [] (int_chars digits z 10 true).

Section Streams.
Context {K : Type} `{World K}.

(** Reading to the end of a stream: the bytes are folded in whatever pieces
    they come. *)
Lemma wc_loop_run fuel fd x l (k : K) :
  unread k fd = Some l -> (length l < fuel)%nat ->
  exists k', run sys_do (Wc.wc_loop fuel fd x) k = Returns (foldl Wc.wc_char x l, 0) k' /\
    unread k' fd = Some [] /\ (forall g, written k' g = written k g).
Proof.
  revert x l k. induction fuel as [|f IH]; intros x l k Hl Hf; [lia|]. cbn [Wc.wc_loop].
  destruct (world_read k fd 512 l Hl ltac:(lia)) as (bs & rest & k1 & E1 & -> & He & _ & Hu & _ & Hw).
  do_call. rewrite E1. cbn [fst snd]. destruct bs as [|b bs].
  - rewrite (He eq_refl) in Hu |- *. exists k1. split_and!; [done|done|done].
  - rewrite length_app in Hf. simpl in Hf.
    destruct (IH (foldl Wc.wc_char x (b :: bs)) rest k1 Hu ltac:(lia)) as (k2 & E2 & Hu2 & Hw2).
    exists k2. split_and!; [|done|]. { rewrite E2, foldl_app. done. }
    intros g. by rewrite Hw2, Hw.
Qed.

(** It is the numeral. *)
Lemma dec_numeral z : 0 <= z < 2147483648 -> signed_numeral 65 (s32 z) (dec z).
Proof.
  intros Hz. apply (int_chars_signed 65 digits); [apply digits_table|]. rewrite s32_small by lia. unfold dec.
  destruct (int_chars_total digits z 10 true) as [cs ->]; [auto|lia|done].
Qed.

(** C36. [wc] counts: for a stream of fewer than [2^31] bytes, however the
    reads cut it up, it prints the number of newlines, of words (runs of
    characters other than white space) and of bytes, and the name. *)
Theorem wc_exact (fuel : nat) (fd : Z) (name l out : list Z) (k : K) :
  unread k fd = Some l -> written k 1 = Some out -> Z.of_nat (length l) < 2147483648 ->
  (length l < fuel)%nat -> Forall byte name ->
  exists k', run sys_do (Wc.wc fuel fd name) k = Returns tt k' /\ unread k' fd = Some [] /\
    written k' 1 = Some (out ++ dec (newlines l) ++ [32] ++ dec (words [] l) ++ [32] ++
                         dec (Z.of_nat (length l)) ++ [32] ++ str_part name ++ [nl]).
Proof.
  intros Hl Ho Hlen Hf Hname. unfold Wc.wc.
  destruct (wc_loop_run fuel fd (Wc.Counts 0 0 0 false) l k Hl Hf) as (k1 & E1 & Hu1 & Hw1).
  rewrite (run_bind_ok _ _ _ _ _ _ E1). cbn iota beta. change (0 <? 0) with false. cbn iota.
  destruct (wc_chars [] l 0 0 0) as [i Ei]; try lia.
  change (negb (begun [] =? 0)) with false in Ei. rewrite Ei. cbn [Wc.n_l Wc.n_w Wc.n_c].
  change (begun []) with 0. rewrite !Z.add_0_l, Z.sub_0_r.
  pose proof (words_of_begun [] l) as Hwb. change (begun []) with 0 in Hwb.
  assert (Hnb : 0 <= newlines l <= Z.of_nat (length l)).
  { unfold newlines. pose proof (length_filter (fun c => c = nl) l). lia. }
  set (args := [A_num (newlines l); A_num (words [] l); A_num (Z.of_nat (length l)); A_str name]).
  assert (Hfm : formats 65 true (chars "%d %d %d %s" ++ [nl]) args
    (dec (newlines l) ++ [32] ++ dec (words [] l) ++ [32] ++ dec (Z.of_nat (length l)) ++ [32] ++
     str_part name ++ [nl])).
  { unfold args. eapply F_d; [done|apply dec_numeral; lia|]. apply F_char; [lia|done|].
    eapply F_d; [done|apply dec_numeral; lia|]. apply F_char; [lia|done|].
    eapply F_d; [done|apply dec_numeral; lia|]. apply F_char; [lia|done|].
    apply F_s; [apply str_part_text|]. apply F_char; [unfold nl; lia|done|]. apply F_end. }
  destruct (printf_prints 1 _ args _ Hfm) with (k := k1) as (k2 & E2 & W2 & _).
  - unfold args. repeat constructor. done.
  - rewrite Hw1. by eexists.
  - exists k2. split_and!; [exact E2|by rewrite (wr_unread _ _ _ _ W2)|].
    apply (wr_fd _ _ _ _ W2). by rewrite Hw1.
Qed.

(** ** cat *)

(** [cat] copies: however the reads cut the input up, all of it is
    written to standard output, in order, and nothing else. *)
Theorem cat_exact (fuel : nat) (fd : Z) (l out : list Z) (k : K) :
  unread k fd = Some l -> written k 1 = Some out -> (length l < fuel)%nat ->
  exists k', run sys_do (Cat.cat fuel fd) k = Returns tt k' /\
    written k' 1 = Some (out ++ l) /\ unread k' fd = Some [] /\
    (forall g, g <> fd -> unread k' g = unread k g) /\ (forall g, g <> 1 -> written k' g = written k g).
Proof.
  revert l out k. induction fuel as [|f IH]; intros l out k Hl Ho Hf; [lia|]. cbn [Cat.cat].
  destruct (world_read k fd 512 l Hl ltac:(lia)) as (bs & rest & k1 & E1 & -> & He & _ & Hu & Hu' & Hw).
  do_call. rewrite E1. cbn [fst snd]. destruct bs as [|b bs].
  - rewrite (He eq_refl) in Hu |- *. exists k1. split_and!; try done. by rewrite Hw, Ho, !app_nil_r.
  - destruct (world_write k1 1 (b :: bs) out) as (k2 & E2 & Hw2 & Ho2 & Hu2); [by rewrite Hw|].
    do_call. rewrite E2. cbn [fst snd]. rewrite Z.eqb_refl. cbn [negb].
    rewrite length_app in Hf. simpl in Hf.
    destruct (IH rest (out ++ b :: bs) k2) as (k3 & E3 & Hw3 & Hu3 & Hf3 & Ho3); [by rewrite Hu2|done|lia|].
    exists k3. split_and!; [done|by rewrite <- (assoc_L (++)) in Hw3|done| |].
    + intros g Hg. by rewrite Hf3, Hu2, Hu'.
    + intros g Hg. by rewrite Ho3, Ho2, Hw.
Qed.
End Streams.

Definition demo_input : list Z := chars "a bc" ++ [nl] ++ chars "  d".

Lemma wc_exact_witness :
  exists k', run (@sys_do _ tty_world) (Wc.wc 20 3 (chars "f")) (demo_world demo_input) = Returns tt k' /\
    w_out k' !! 1 = Some (chars "1 3 8 f" ++ [nl]).
Proof.
  destruct (@wc_exact _ tty_world 20 3 (chars "f") demo_input [] (demo_world demo_input) eq_refl eq_refl)
    as (k' & E & _ & Hw).
  - vm_compute. reflexivity.
  - simpl. lia.
  - repeat constructor; unfold byte; lia.
  - exists k'. split; [exact E|]. exact Hw.
Defined.

Lemma cat_exact_witness :
  exists k', run (@sys_do _ tty_world) (Cat.cat 20 3) (demo_world demo_input) = Returns tt k' /\
    w_out k' !! 1 = Some demo_input.
Proof.
  destruct (@cat_exact _ tty_world 20 3 demo_input [] (demo_world demo_input) eq_refl eq_refl)
    as (k' & E & Hw & _); [simpl; lia|].
  exists k'. split; [exact E|]. exact Hw.
Defined.
