(* ===== verification/Umalloc.v ===== *)
(** * umalloc.c: the memory allocator of user programs

    The allocator of Kernighan and Ritchie, in the memory of the process.  A
    [Header] is two words, [ptr] and [size]; pointers to headers advance by
    eight bytes.  Where the linker puts the static header [base], and whether
    the kernel grants more memory, are parameters. *)

From S2P Require Import Prelude Machine.

Record heap := Heap { umem : gmap Z Z; freep : Z; brk : Z }.

(** [sbrk_new b n]: the size of the process after [sbrk(n)] in a process of
    size [b], if it succeeds.  A grant of [n >= 0] bytes is of exactly these
    bytes and stays below the kernel. *)
Class UserImage := {
  base : Z;
  sbrk_new : Z -> Z -> option Z;
  base_lo : 0 < base;
  sbrk_grows b n b' : 0 <= n -> sbrk_new b n = Some b' -> b' = b + n /\ b' <= KERNBASE }.

Definition hdr : Z := 8.

Definition upd_umem (f : gmap Z Z -> gmap Z Z) (s : heap) : heap := Heap (f (umem s)) (freep s) (brk s).
Definition upd_freep (f : Z -> Z) (s : heap) : heap := Heap (umem s) (f (freep s)) (brk s).
Definition upd_brk (f : Z -> Z) (s : heap) : heap := Heap (umem s) (freep s) (f (brk s)).

(** The fields [s.ptr] and [s.size]. *)
Definition ptr (p : Z) (s : heap) : Z := load32 (umem s) p.
Definition size (p : Z) (s : heap) : Z := load32 (umem s) (p + 4).
Definition set_ptr (p v : Z) : M heap unit := modify (upd_umem (fun m => store32 m p v)).
Definition set_size (p v : Z) : M heap unit := modify (upd_umem (fun m => store32 m (p + 4) v)).

(** [p + n] for a pointer to headers. *)
Definition plus (p n : Z) : Z := u32 (p + hdr * n).

Section Umalloc.
Context `{UserImage}.

Definition sbrk (n : Z) : M heap Z :=
  b <- gets brk ;;
  match sbrk_new b n with
  | Some b' => modify (upd_brk (fun _ => b')) ;; ret b
  | None => ret 0xffffffff
  end.

(** The loop of [free]: the free block after which [bp] belongs. *)
Fixpoint free_find (fuel : nat) (bp p : Z) : M heap Z :=
  match fuel with
  | O => fun _ => NoFuel
  | S f =>
      nx <- gets (ptr p) ;;
      if (p <? bp) && (bp <? nx) then ret p
      else if (nx <=? p) && ((p <? bp) || (bp <? nx)) then ret p
      else free_find f bp nx
  end.

(** Link [bp] to the block after [p], joining the two if they touch. *)
Definition join_upper (bp p : Z) : M heap unit :=
  nx <- gets (ptr p) ;;
  sz <- gets (size bp) ;;
  if plus bp sz =? nx then
    nsz <- gets (size nx) ;;
    set_size bp (u32 (sz + nsz)) ;;
    nnx <- gets (ptr nx) ;;
    set_ptr bp nnx
  else set_ptr bp nx.

(** Link [p] to [bp], joining the two if they touch. *)
Definition join_lower (bp p : Z) : M heap unit :=
  psz <- gets (size p) ;;
  if plus p psz =? bp then
    bsz <- gets (size bp) ;;
    set_size p (u32 (psz + bsz)) ;;
    bnx <- gets (ptr bp) ;;
    set_ptr p bnx
  else set_ptr p bp.

Definition free (fuel : nat) (ap : Z) : M heap unit :=
  let bp := u32 (ap - hdr) in
  p0 <- gets freep ;;
  p <- free_find fuel bp p0 ;;
  join_upper bp p ;;
  join_lower bp p ;;
  modify (upd_freep (fun _ => p)).

Definition morecore (fuel : nat) (nu : Z) : M heap Z :=
  let nu := if nu <? 4096 then 4096 else nu in
  p <- sbrk (s32 (u32 (nu * hdr))) ;;
  if p =? 0xffffffff then ret 0
  else
    set_size p nu ;;
    free fuel (plus p 1) ;;
    gets freep.

Definition units (nbytes : Z) : Z := u32 (nbytes + hdr - 1) / hdr + 1.

(** The block [p] of [sz >= nunits] units gives the whole of it or its end. *)
Definition take_block (nunits prevp p sz : Z) : M heap Z :=
  if sz =? nunits then
    nx <- gets (ptr p) ;;
    set_ptr prevp nx ;;
    modify (upd_freep (fun _ => prevp)) ;;
    ret (plus p 1)
  else
    set_size p (sz - nunits) ;;
    let q := plus p (sz - nunits) in
    set_size q nunits ;;
    modify (upd_freep (fun _ => prevp)) ;;
    ret (plus q 1).

Fixpoint malloc_loop (fuel : nat) (nunits prevp p : Z) : M heap Z :=
  match fuel with
  | O => fun _ => NoFuel
  | S f =>
      sz <- gets (size p) ;;
      if nunits <=? sz then take_block nunits prevp p sz
      else
        fp <- gets freep ;;
        if p =? fp then
          p' <- morecore f nunits ;;
          if p' =? 0 then ret 0
          else nx <- gets (ptr p') ;; malloc_loop f nunits p' nx
        else nx <- gets (ptr p) ;; malloc_loop f nunits p nx
  end.

Definition malloc (fuel : nat) (nbytes : Z) : M heap Z :=
  let nunits := units nbytes in
  fp <- gets freep ;;
  (when fp =? 0 do
    (set_ptr base base ;;
     modify (upd_freep (fun _ => base)) ;;
     set_size base 0)) ;;
  prevp <- gets freep ;;
  p <- gets (ptr prevp) ;;
  malloc_loop fuel nunits prevp p.
End Umalloc.
