(* ===== verification/UmallocProps.v ===== *)
(** * umalloc.c: properties

    The circular free list in memory stands for a list of free blocks in the
    order of their addresses, with [base] in front; the blocks handed out are
    apart from them and from each other. *)

From Stdlib Require Import Sorted.
From S2P Require Import Prelude Machine Umalloc.

(** ** Blocks

    A block is the address of its header and its size in units, the header's
    included. *)

Definition addrs (F : list (Z * Z)) : list Z := fst <$> F.

Definition total (F : list (Z * Z)) : Z := foldr (fun x n => snd x + n) 0 F.

Definition apart (x y : Z * Z) : Prop :=
  fst x + hdr * snd x <= fst y \/ fst y + hdr * snd y <= fst x.

(** Blocks from [lo] to [hi] in the order of their addresses, none touching
    the next. *)
Fixpoint spaced (lo : Z) (F : list (Z * Z)) (hi : Z) : Prop :=
  match F with
  | [] => True
  | (a, n) :: F' => lo <= a /\ 1 <= n /\ a + hdr * n <= hi /\ spaced (a + hdr * n + 1) F' hi
  end.

(** The headers at [x], and then at each address of [l], are linked. *)
Fixpoint chain (m : gmap Z Z) (x : Z) (l : list Z) : Prop :=
  match l with
  | [] => True
  | y :: l' => load32 m x = y /\ chain m y l'
  end.

Lemma chain_split m x l1 y l2 :
  chain m x (l1 ++ y :: l2) <-> chain m x (l1 ++ [y]) /\ chain m y l2.
Proof. revert x. induction l1 as [|z l1 IH]; intros x; simpl; [naive_solver|]. rewrite IH. naive_solver. Qed.

(** What counts are the links out of [x] and of the addresses before the last. *)
Lemma chain_frame m m' x l z :
  (forall y, y ∈ x :: l -> load32 m' y = load32 m y) -> chain m x (l ++ [z]) -> chain m' x (l ++ [z]).
Proof.
  revert x. induction l as [|y l IH]; intros x Hf; simpl.
  - rewrite Hf by constructor. done.
  - intros [Hx Hc]. rewrite Hf by constructor. split; [done|]. apply IH; [|done].
    intros w Hw. apply Hf. by constructor.
Qed.

Lemma spaced_app lo F1 F2 hi :
  spaced lo (F1 ++ F2) hi <->
  spaced lo F1 hi /\ spaced (default lo ((fun x => fst x + hdr * snd x + 1) <$> list.last F1)) F2 hi.
Proof.
  revert lo. induction F1 as [|[a n] F1 IH]; intros lo; [simpl; naive_solver|].
  cbn [app spaced]. rewrite IH. destruct F1 as [|y F1]; simpl; [naive_solver|].
  rewrite last_cons. destruct (list.last F1) eqn:E; simpl; naive_solver.
Qed.

Lemma spaced_weaken lo lo' F hi : lo' <= lo -> spaced lo F hi -> spaced lo' F hi.
Proof. destruct F as [|[a n] F]; simpl; [done|]. intros ? (? & ?). split; [lia|done]. Qed.

Lemma spaced_grow lo F hi hi' : hi <= hi' -> spaced lo F hi -> spaced lo F hi'.
Proof.
  intros Hh. revert lo. induction F as [|[a n] F IH]; intros lo; simpl; [done|].
  intros (? & ? & ? & ?). split_and!; [done|done|lia|auto].
Qed.

Lemma spaced_elem lo F hi x : spaced lo F hi -> x ∈ F -> lo <= fst x /\ 1 <= snd x /\ fst x + hdr * snd x <= hi.
Proof.
  revert lo. induction F as [|[a n] F IH]; intros lo; simpl; [intros _ Hx; by apply elem_of_nil in Hx|].
  intros (? & ? & ? & Hs) [-> | Hx]%elem_of_cons; [simpl; lia|].
  apply IH in Hs; [|done]. unfold hdr in *. lia.
Qed.

(** The blocks before an address and those after it. *)
Lemma spaced_split lo F hi a n :
  spaced lo F hi -> 1 <= n -> (forall x, x ∈ F -> apart x (a, n)) ->
  exists F1 F2, F = F1 ++ F2 /\ (forall x, x ∈ F1 -> fst x + hdr * snd x <= a) /\
    (forall x, x ∈ F2 -> a + hdr * n <= fst x).
Proof.
  intros Hs Hn. revert lo Hs. induction F as [|[b k] F IH]; intros lo Hs Hd.
  { exists [], []. split; [done|]. split; intros x Hx; by apply elem_of_nil in Hx. }
  destruct Hs as (Hlo & Hk & Hhi & Hs).
  destruct (Hd (b, k) ltac:(constructor)) as [Hb|Hb]; simpl in Hb.
  - destruct (IH _ Hs) as (F1 & F2 & -> & H1 & H2); [intros x Hx; apply Hd; by constructor|].
    exists ((b, k) :: F1), F2. split; [done|]. split; [|done].
    intros x [-> | Hx]%elem_of_cons; [done|by apply H1].
  - exists [], ((b, k) :: F). split; [done|]. split; [intros x Hx; by apply elem_of_nil in Hx|].
    intros x [-> | Hx]%elem_of_cons; [done|]. apply (spaced_elem _ _ _ _ Hs) in Hx. unfold hdr in *. lia.
Qed.

(** ** The invariant *)

Section Heap.
Context `{UserImage}.

(** [F] is free, [A] is handed out. *)
Record heap_ok (s : heap) (F A : list (Z * Z)) : Prop := {
  ho_chain : chain (umem s) base (addrs F ++ [base]);
  ho_base : size base s = 0;
  ho_free : forall x, x ∈ F -> size (fst x) s = snd x;
  ho_size : forall x, x ∈ A -> size (fst x) s = snd x;
  ho_spaced : spaced (base + hdr) F (brk s);
  ho_freep : freep s ∈ base :: addrs F;
  ho_alloc : forall x, x ∈ A -> base + hdr <= fst x /\ 1 <= snd x /\ fst x + hdr * snd x <= brk s;
  ho_apart : forall x y, x ∈ A -> y ∈ F -> apart y x;
  ho_nodup : NoDup A;
  ho_apart' : forall x y, x ∈ A -> y ∈ A -> x <> y -> apart x y;
  ho_brk : base + hdr <= brk s <= KERNBASE }.

(** The bytes of the blocks in [A] are as they were. *)
Definition keeps (A : list (Z * Z)) (s s' : heap) : Prop :=
  forall x b, x ∈ A -> fst x <= b < fst x + hdr * snd x -> load8 (umem s') b = load8 (umem s) b.

(** A block that is neither in the free list nor handed out. *)
Record loose (s : heap) (F A : list (Z * Z)) (a n : Z) : Prop := {
  lo_range : base + hdr <= a /\ 1 <= n /\ a + hdr * n <= brk s;
  lo_size : size a s = n;
  lo_free : forall x, x ∈ F -> apart x (a, n);
  lo_alloc : forall x, x ∈ A -> apart x (a, n) }.

(** ** The search of [free] *)

(** Going up to the last block before [bp]. *)
Lemma free_find_up fuel s bp p l1 F2 :
  chain (umem s) p (l1 ++ addrs F2 ++ [base]) -> StronglySorted Z.lt (p :: l1) -> base <= p ->
  Forall (fun a => a < bp) (p :: l1) -> Forall (fun x => bp < fst x) F2 -> (length l1 < fuel)%nat ->
  free_find fuel bp p s = Ok (default p (list.last l1)) s.
Proof.
  revert p l1. induction fuel as [|f IH]; intros p l1 Hc Hs Hb Hl H2 Hf; [lia|].
  cbn [free_find]. erewrite bind_ok by (unfold gets; reflexivity).
  apply Forall_cons_1 in Hl as [Hp Hl]. rewrite (proj2 (Z.ltb_lt p bp)) by done. cbn [andb].
  destruct l1 as [|q l1].
  - simpl in Hc |- *. destruct F2 as [|[b k] F2]; simpl in Hc; destruct Hc as [Hc _]; unfold ptr; rewrite Hc.
    + rewrite (proj2 (Z.ltb_ge bp base)), (proj2 (Z.leb_le base p)) by lia. done.
    + apply Forall_cons_1 in H2 as [H2 _]. simpl in H2. by rewrite (proj2 (Z.ltb_lt bp b)).
  - simpl in Hc. destruct Hc as [Hc Hc']. unfold ptr at 1 2 3. rewrite Hc.
    apply StronglySorted_inv in Hs as [Hs Hpq]. apply Forall_cons_1 in Hpq as [Hpq _].
    apply Forall_cons_1 in Hl as Hl'. destruct Hl' as [Hq _].
    rewrite (proj2 (Z.ltb_ge bp q)), (proj2 (Z.leb_gt q p)) by lia. cbn [andb]. unfold ptr. rewrite Hc.
    rewrite (IH q l1); [|done|done|lia|done|done|simpl in Hf; lia].
    rewrite last_cons. by destruct (list.last l1).
Qed.

(** Going round from a block after [bp]. *)
Lemma free_find_round fuel s bp p l1 l F2 :
  chain (umem s) p (l1 ++ [base]) -> StronglySorted Z.lt (p :: l1) -> base < bp -> bp < p ->
  chain (umem s) base (l ++ addrs F2 ++ [base]) -> StronglySorted Z.lt (base :: l) ->
  Forall (fun a => a < bp) l -> Forall (fun x => bp < fst x) F2 ->
  (length l1 + length l + 1 < fuel)%nat ->
  free_find fuel bp p s = Ok (default base (list.last l)) s.
Proof.
  revert p l1. induction fuel as [|f IH]; intros p l1 Hc Hs Hb Hp Hc' Hs' Hl H2 Hf; [lia|].
  cbn [free_find]. erewrite bind_ok by (unfold gets; reflexivity).
  rewrite (proj2 (Z.ltb_ge p bp)) by lia. cbn [andb orb].
  destruct l1 as [|q l1]; simpl in Hc; destruct Hc as [Hc Hc1]; unfold ptr; rewrite Hc.
  - rewrite (proj2 (Z.ltb_ge bp base)) by lia. rewrite andb_false_r.
    apply (free_find_up _ _ _ _ _ F2); [done|done|lia|constructor; [lia|done]|done|simpl in Hf; lia].
  - apply StronglySorted_inv in Hs as [Hs Hpq]. apply Forall_cons_1 in Hpq as [Hpq _].
    rewrite (proj2 (Z.leb_gt q p)) by lia. cbn [andb].
    apply (IH q l1); try done; [lia|simpl in Hf; lia].
Qed.

(** ** Joining blocks *)

(** Only the eight bytes of the header at [a] may differ. *)
Definition only_hdr (a : Z) (s s' : heap) : Prop :=
  (forall b, b < a \/ a + hdr <= b -> load8 (umem s') b = load8 (umem s) b) /\
  freep s' = freep s /\ brk s' = brk s.

Lemma only_hdr_load a s s' p :
  only_hdr a s s' -> p + 4 <= a \/ a + hdr <= p -> load32 (umem s') p = load32 (umem s) p.
Proof. intros [Hb _] Hp. apply load32_ext. intros i Hi. apply Hb. unfold hdr in *. lia. Qed.

Lemma only_hdr_size a s s' p :
  only_hdr a s s' -> p + hdr <= a \/ a + hdr <= p -> size p s' = size p s.
Proof. intros Ho Hp. unfold size. eapply only_hdr_load; [done|]. unfold hdr in *. lia. Qed.

Lemma only_hdr_chain a s s' x l z :
  only_hdr a s s' -> (forall y, y ∈ x :: l -> y + hdr <= a \/ a + hdr <= y) ->
  chain (umem s) x (l ++ [z]) -> chain (umem s') x (l ++ [z]).
Proof.
  intros Ho Hy. apply chain_frame. intros y Hin. eapply only_hdr_load; [done|].
  destruct (Hy y Hin); unfold hdr in *; lia.
Qed.

Lemma set_ptr_hdr a v s : only_hdr a s (upd_umem (fun m => store32 m a v) s).
Proof. split_and!; [|done|done]. intros b Hb. simpl. apply load8_store32_ne. unfold hdr in *. lia. Qed.

Lemma set_size_hdr a v s : only_hdr a s (upd_umem (fun m => store32 m (a + 4) v) s).
Proof. split_and!; [|done|done]. intros b Hb. simpl. apply load8_store32_ne. unfold hdr in *. lia. Qed.

Lemma only_hdr_trans a s1 s2 s3 : only_hdr a s1 s2 -> only_hdr a s2 s3 -> only_hdr a s1 s3.
Proof. intros (Ha & ? & ?) (Hb & ? & ?). split_and!; [|congruence..]. intros b Hl. by rewrite Hb, Ha. Qed.

(** A header rewritten: both its words are known, nothing else changes. *)
Lemma set_both a n v s :
  0 <= n < 4294967296 -> 0 <= v < 4294967296 ->
  let s' := upd_umem (fun m => store32 m a v) (upd_umem (fun m => store32 m (a + 4) n) s) in
  only_hdr a s s' /\ ptr a s' = v /\ size a s' = n.
Proof.
  intros Hn Hv s'. split_and!.
  - eapply only_hdr_trans; [apply set_size_hdr|apply set_ptr_hdr].
  - unfold ptr, s'. simpl. by apply load32_store32.
  - unfold size, s'. simpl. rewrite load32_store32_ne by lia. by apply load32_store32.
Qed.

Lemma set_one a v s :
  0 <= v < 4294967296 ->
  let s' := upd_umem (fun m => store32 m a v) s in
  only_hdr a s s' /\ ptr a s' = v /\ size a s' = size a s.
Proof.
  intros Hv s'. split_and!; [apply set_ptr_hdr| |].
  - unfold ptr, s'. simpl. by apply load32_store32.
  - unfold size, s'. simpl. apply load32_store32_ne. lia.
Qed.

Lemma plus_small p n : 0 <= p -> 0 <= n -> p + hdr * n < 4294967296 -> plus p n = p + hdr * n.
Proof. intros. apply u32_small. unfold hdr in *. lia. Qed.

(** The block [(a, n)] joined with the blocks [F2] above it. *)
Lemma join_upper_run s a n p F2 :
  chain (umem s) p (addrs F2 ++ [base]) -> base + hdr <= a -> 1 <= n -> size a s = n ->
  spaced (a + hdr * n) F2 (brk s) -> a + hdr * n <= brk s -> brk s <= KERNBASE ->
  (forall x, x ∈ F2 -> size (fst x) s = snd x) ->
  exists s' n1 R, join_upper a p s = Ok tt s' /\ only_hdr a s s' /\
    chain (umem s') a (addrs R ++ [base]) /\ size a s' = n1 /\ n <= n1 /\ n1 + total R = n + total F2 /\
    spaced (a + hdr * n1 + 1) R (brk s) /\ a + hdr * n1 <= brk s /\
    (forall x, x ∈ R -> x ∈ F2) /\ (length R <= length F2)%nat /\
    (forall y, 1 <= snd y -> apart (a, n) y -> (forall x, x ∈ F2 -> apart x y) -> apart (a, n1) y).
Proof.
  intros Hc Ha Hn Hsz Hsp Hend Hbrk Hsizes. pose proof base_lo as Hb. unfold join_upper.
  erewrite bind_ok by (unfold gets; reflexivity). erewrite bind_ok by (unfold gets; reflexivity).
  rewrite Hsz, plus_small by (unfold hdr in *; lia).
  destruct F2 as [|[b k] F2]; simpl in Hc; destruct Hc as [Hp Hc]; unfold ptr at 1; rewrite Hp.
  - rewrite (proj2 (Z.eqb_neq _ _)) by (unfold hdr in *; lia).
    destruct (set_one a base s) as (Ho & Hp' & Hs'); [unfold hdr in *; lia|].
    eexists _, n, []. unfold set_ptr, modify. unfold ptr at 1. rewrite Hp.
    split_and!; [reflexivity|done| |by rewrite Hs'|lia|simpl; lia|done|done|done|done|done].
    simpl. by split.
  - destruct Hsp as (Hlo & Hk & Hhi & Hsp). unfold hdr in *.
    destruct (Z.eqb_spec (a + 8 * n) b) as [E|E].
    + erewrite bind_ok by (unfold gets; reflexivity).
      assert (Hkb : size b s = k) by (apply (Hsizes (b, k)); constructor). 
      unfold ptr. rewrite Hp, Hkb, (u32_small (n + k)) by lia.
      erewrite bind_ok by (unfold set_size, modify; reflexivity).
      erewrite bind_ok by (unfold gets; reflexivity).
      set (nnx := load32 (umem s) b).
      assert (Ennx : ptr b (upd_umem (fun m => store32 m (a + 4) (n + k)) s) = nnx).
      { apply load32_store32_ne. lia. }
      unfold ptr in Ennx. rewrite Ennx. destruct (set_both a (n + k) nnx s) as (Ho & Hp' & Hs'); [lia|apply load32_range|].
      set (s2 := upd_umem (fun m => store32 m a nnx) _) in *.
      assert (Er : set_ptr a nnx (upd_umem (fun m => store32 m (a + 4) (n + k)) s) = Ok tt s2) by done.
      clearbody s2. exists s2, (n + k), F2.
      split_and!; [exact Er|done| |done|lia|simpl; lia| |lia| |simpl; lia|].
      * assert (Hc' : chain (umem s) b (addrs F2 ++ [base])) by done.
        destruct (addrs F2 ++ [base]) as [|z l] eqn:El; [by destruct F2|]. simpl in Hc' |- *.
        destruct Hc' as [Hz Hc']. split; [unfold ptr in Hp'; rewrite Hp'; exact Hz|].
        destruct F2 as [|[c j] F2]; simpl in El; injection El as <- <-; [done|].
        eapply only_hdr_chain; [exact Ho| |done]. intros y Hy.
        assert (Hin : y ∈ addrs ((c, j) :: F2)) by done.
        apply list_elem_of_fmap in Hin as (x & -> & Hx). apply (spaced_elem _ _ _ _ Hsp) in Hx.
        unfold hdr. lia.
      * eapply spaced_weaken; [|exact Hsp]. unfold hdr. lia.
      * intros x Hx. by constructor.
      * intros y Hy Hay HF. pose proof (HF (b, k) ltac:(constructor)). unfold apart, hdr in *. simpl in *. lia.
    + destruct (set_one a b s) as (Ho & Hp' & Hs'); [lia|].
      set (s2 := upd_umem (fun m => store32 m a b) _) in *.
      assert (Er : set_ptr a b s = Ok tt s2) by done. clearbody s2.
      exists s2, n, ((b, k) :: F2). unfold ptr at 1. rewrite Hp.
      split_and!; [exact Er|done| |by rewrite Hs'|lia|done| |lia|done|done|done].
      * simpl. split; [done|]. eapply only_hdr_chain; [exact Ho| |exact Hc]. intros y Hy.
        assert (Hin : y ∈ addrs ((b, k) :: F2)) by done.
        apply list_elem_of_fmap in Hin as (x & -> & Hx).
        assert (Hsp' : spaced (a + 8 * n) ((b, k) :: F2) (brk s)) by (split_and!; done).
        apply (spaced_elem _ _ _ _ Hsp') in Hx. unfold hdr. lia.
      * split_and!; [unfold hdr; lia|done|done|done].
Qed.

Lemma total_app F1 F2 : total (F1 ++ F2) = total F1 + total F2.
Proof. induction F1; simpl; lia. Qed.

Lemma addrs_app F1 F2 : addrs (F1 ++ F2) = addrs F1 ++ addrs F2.
Proof. apply fmap_app. Qed.

(** What the block before [bp] does: it takes it in, or points to it. *)
Record joined (s : heap) (F1 R : list (Z * Z)) (a n1 : Z) (s' : heap) (F' : list (Z * Z)) (p : Z) : Prop := {
  jo_hdr : only_hdr p s s';
  jo_chain : chain (umem s') base (addrs F' ++ [base]);
  jo_spaced : spaced (base + hdr) F' (brk s);
  jo_base : size base s' = 0;
  jo_size : forall x, x ∈ F' -> size (fst x) s' = snd x;
  jo_total : total F' = total F1 + n1 + total R;
  jo_in : p ∈ base :: addrs F';
  jo_len : (length F' <= length F1 + 1 + length R)%nat;
  jo_big : exists x, x ∈ F' /\ n1 <= snd x;
  jo_apart : forall y, 1 <= snd y -> (forall x, x ∈ F1 -> apart x y) -> apart (a, n1) y ->
    (forall x, x ∈ R -> apart x y) -> forall x, x ∈ F' -> apart x y }.

Lemma join_lower_base s a n1 R :
  size base s = 0 -> chain (umem s) a (addrs R ++ [base]) -> size a s = n1 -> 1 <= n1 ->
  spaced (a + hdr * n1 + 1) R (brk s) -> a + hdr * n1 <= brk s -> brk s <= KERNBASE ->
  base + hdr <= a -> (forall x, x ∈ R -> size (fst x) s = snd x) ->
  exists s', join_lower a base s = Ok tt s' /\ joined s [] R a n1 s' ((a, n1) :: R) base.
Proof.
  intros Hb Hc Hsz Hn Hsp Hend Hbrk Ha Hr. pose proof base_lo as Hb0. unfold join_lower.
  erewrite bind_ok by (unfold gets; reflexivity). rewrite Hb, plus_small by (unfold hdr in *; lia).
  rewrite (proj2 (Z.eqb_neq _ _)) by (unfold hdr in *; lia).
  destruct (set_one base a s) as (Ho & Hp & Hs'); [unfold hdr in *; lia|].
  set (s2 := upd_umem (fun m => store32 m base a) s) in *.
  assert (Er : set_ptr base a s = Ok tt s2) by done. clearbody s2. exists s2. split; [exact Er|].
  assert (Hfar : forall y, y ∈ a :: addrs R -> base + hdr <= y).
  { intros y [-> | Hy]%elem_of_cons; [done|]. apply list_elem_of_fmap in Hy as (x & -> & Hx).
    apply (spaced_elem _ _ _ _ Hsp) in Hx. unfold hdr in *. lia. }
  split; try done.
  - simpl. split; [exact Hp|]. eapply only_hdr_chain; [exact Ho| |done].
    intros y Hy. right. by apply Hfar.
  - by rewrite Hs'.
  - intros x Hx. rewrite (only_hdr_size _ _ _ _ Ho).
    + apply elem_of_cons in Hx as [-> | Hx]; [done|by apply Hr].
    + right. apply Hfar. change (a :: addrs R) with (addrs ((a, n1) :: R)). by apply list_elem_of_fmap_2.
  - constructor.
  - exists (a, n1). split; [constructor|done].
  - intros y Hy _ Hay HR x [-> | Hx]%elem_of_cons; [done|by apply HR].
Qed.

Lemma join_lower_block s G p q z a n1 R :
  size base s = 0 -> chain (umem s) base (addrs (G ++ [(p, q)]) ++ [z]) ->
  spaced (base + hdr) (G ++ [(p, q)]) (brk s) -> p + hdr * q <= a ->
  (forall x, x ∈ G ++ [(p, q)] -> size (fst x) s = snd x) ->
  chain (umem s) a (addrs R ++ [base]) -> size a s = n1 -> 1 <= n1 ->
  spaced (a + hdr * n1 + 1) R (brk s) -> a + hdr * n1 <= brk s -> brk s <= KERNBASE ->
  (forall x, x ∈ R -> size (fst x) s = snd x) ->
  exists s' F', join_lower a p s = Ok tt s' /\ joined s (G ++ [(p, q)]) R a n1 s' F' p.
Proof.
  intros Hb Hc Hsp Hpa HG Ha Hsz Hn HspR Hend Hbrk HR. pose proof base_lo as Hb0.
  assert (Hpq : base + hdr <= p /\ 1 <= q /\ p + hdr * q <= brk s)
    by (apply (spaced_elem _ _ _ (p, q) Hsp), elem_of_app; right; constructor).
  rewrite addrs_app, <- (assoc_L (++)) in Hc. simpl in Hc. apply chain_split in Hc as [Hc _].
  assert (Hsq : size p s = q) by (apply (HG (p, q)), elem_of_app; right; constructor).
  apply spaced_app in Hsp as [HspG HspP].
  assert (Hlow : forall y, y ∈ base :: addrs G -> y + hdr <= p).
  { intros y [-> | Hy]%elem_of_cons; [lia|]. apply list_elem_of_fmap in Hy as (x & -> & Hx).
    apply list_elem_of_split in Hx as (G1 & G2 & ->).
    assert (Hx : forall lo, spaced lo (x :: G2 ++ [(p, q)]) (brk s) -> fst x + hdr <= p).
    { intros lo Hl. destruct x as [xa xn]. simpl in Hl. destruct Hl as (_ & Hxn & _ & Hl).
      apply (spaced_elem _ _ _ (p, q)) in Hl; [simpl in *; unfold hdr in *; lia|].
      apply elem_of_app; right; constructor. }
    assert (Hall : spaced (base + hdr) ((G1 ++ x :: G2) ++ [(p, q)]) (brk s)) by (apply spaced_app; done).
    rewrite <- (assoc_L (++)) in Hall. apply spaced_app in Hall as [_ Hall]. by eapply Hx. }
  assert (Hfar : forall y, y ∈ a :: addrs R -> p + hdr <= y).
  { intros y [-> | Hy]%elem_of_cons; [unfold hdr in *; lia|]. apply list_elem_of_fmap in Hy as (x & -> & Hx).
    apply (spaced_elem _ _ _ _ HspR) in Hx. unfold hdr in *. lia. }
  unfold join_lower. erewrite bind_ok by (unfold gets; reflexivity).
  rewrite Hsq, plus_small by (unfold hdr in *; lia).
  destruct (Z.eqb_spec (p + hdr * q) a) as [E|E].
  - erewrite bind_ok by (unfold gets; reflexivity). rewrite Hsz, (u32_small (q + n1)) by (unfold hdr in *; lia).
    erewrite bind_ok by (unfold set_size, modify; reflexivity).
    erewrite bind_ok by (unfold gets; reflexivity).
    assert (En : ptr a (upd_umem (fun m => store32 m (p + 4) (q + n1)) s) = ptr a s).
    { apply load32_store32_ne. unfold hdr in *. lia. }
    rewrite En. destruct (set_both p (q + n1) (ptr a s) s) as (Ho & Hp & Hs');
      [unfold hdr in *; lia|apply load32_range|].
    set (s2 := upd_umem (fun m => store32 m p (ptr a s)) _) in *.
    assert (Er : set_ptr p (ptr a s) (upd_umem (fun m => store32 m (p + 4) (q + n1)) s) = Ok tt s2) by done.
    clearbody s2. exists s2, (G ++ (p, q + n1) :: R). split; [exact Er|].
    split; try done.
    + rewrite addrs_app, <- (assoc_L (++)). simpl. apply chain_split. split.
      * eapply only_hdr_chain; [exact Ho| |exact Hc]. intros y Hy. left. by apply Hlow.
      * destruct R as [|[r rn] R]; simpl in Ha |- *; destruct Ha as [Ha1 Ha2];
          unfold ptr in Hp; rewrite Hp; (split; [exact Ha1|]); [done|].
        eapply only_hdr_chain; [exact Ho| |exact Ha2]. intros y Hy. right. apply Hfar. by constructor.
    + apply spaced_app. split; [done|]. simpl in HspP |- *. destruct HspP as (? & ? & ? & _).
      split_and!; [done|lia|unfold hdr in *; lia|]. eapply spaced_weaken; [|exact HspR]. unfold hdr in *. lia.
    + rewrite (only_hdr_size _ _ _ _ Ho); [done|]. left. lia.
    + intros x Hx. apply elem_of_app in Hx as [Hx|[-> | Hx]%elem_of_cons]; [| exact Hs' |].
      * rewrite (only_hdr_size _ _ _ _ Ho); [apply HG, elem_of_app; by left|].
        left. apply Hlow. constructor. by apply list_elem_of_fmap_2.
      * rewrite (only_hdr_size _ _ _ _ Ho); [by apply HR|].
        right. apply Hfar. constructor. by apply list_elem_of_fmap_2.
    + rewrite !total_app. simpl. lia.
    + constructor. rewrite addrs_app. apply elem_of_app. right. constructor.
    + rewrite !length_app. simpl. lia.
    + exists (p, q + n1). split; [apply elem_of_app; right; constructor|simpl; lia].
    + intros y Hy HGy Hay HRy x Hx. apply elem_of_app in Hx as [Hx|[-> | Hx]%elem_of_cons].
      * apply HGy, elem_of_app. by left.
      * pose proof (HGy (p, q) ltac:(apply elem_of_app; right; constructor)) as Hpy.
        unfold apart, hdr in *. simpl in *. lia.
      * by apply HRy.
  - destruct (set_one p a s) as (Ho & Hp & Hs'); [unfold hdr in *; lia|].
    set (s2 := upd_umem (fun m => store32 m p a) s) in *.
    assert (Er : set_ptr p a s = Ok tt s2) by done. clearbody s2.
    exists s2, ((G ++ [(p, q)]) ++ (a, n1) :: R). split; [exact Er|]. split; try done.
    + rewrite !addrs_app, <- !(assoc_L (++)). simpl. apply chain_split. split.
      * eapply only_hdr_chain; [exact Ho| |exact Hc]. intros y Hy. left. by apply Hlow.
      * simpl. split; [exact Hp|]. eapply only_hdr_chain; [exact Ho| |exact Ha].
        intros y Hy. right. by apply Hfar.
    + apply spaced_app. split; [apply spaced_app; done|]. rewrite last_snoc. simpl.
      split_and!; [unfold hdr in *; lia|done|done|done].
    + rewrite (only_hdr_size _ _ _ _ Ho); [done|]. left. lia.
    + intros x Hx. apply elem_of_app in Hx as [Hx|Hx].
      * apply elem_of_app in Hx as [Hx|Hx].
        -- rewrite (only_hdr_size _ _ _ _ Ho); [apply HG, elem_of_app; by left|].
           left. apply Hlow. constructor. by apply list_elem_of_fmap_2.
        -- apply list_elem_of_singleton in Hx as ->. simpl. by rewrite Hs'.
      * rewrite (only_hdr_size _ _ _ _ Ho).
        -- apply elem_of_cons in Hx as [-> | Hx]; [done|by apply HR].
        -- right. apply Hfar. change (a :: addrs R) with (addrs ((a, n1) :: R)). by apply list_elem_of_fmap_2.
    + rewrite !total_app. simpl. lia.
    + constructor. rewrite !addrs_app. apply elem_of_app. left. apply elem_of_app. right. constructor.
    + rewrite !length_app. simpl. lia.
    + exists (a, n1). split; [apply elem_of_app; right; constructor|done].
    + intros y Hy HGy Hay HRy x Hx. apply elem_of_app in Hx as [Hx|[-> | Hx]%elem_of_cons]; auto.
Qed.

Lemma spaced_sorted lo F hi : spaced lo F hi -> StronglySorted Z.lt (addrs F) /\ Forall (fun a => lo <= a) (addrs F).
Proof.
  revert lo. induction F as [|[a n] F IH]; intros lo; simpl; [repeat constructor|].
  intros (Hlo & Hn & _ & Hs). destruct (IH _ Hs) as [Hss Hf]. split.
  - constructor; [done|]. eapply list.Forall_impl; [exact Hf|]. intros b Hb. unfold hdr in *. lia.
  - constructor; [done|]. eapply list.Forall_impl; [exact Hf|]. intros b Hb. simpl in Hb. unfold hdr in *. lia.
Qed.

Lemma sorted_app_inv (l1 l2 : list Z) :
  StronglySorted Z.lt (l1 ++ l2) -> StronglySorted Z.lt l1 /\ StronglySorted Z.lt l2.
Proof.
  induction l1 as [|x l1 IH]; simpl; [repeat constructor; done|].
  intros [Hs Hx]%StronglySorted_inv. destruct (IH Hs). split; [|done].
  constructor; [done|]. by apply Forall_app in Hx as [? _].
Qed.

(** The search ends at the last free block before [a], or [base]. *)
Lemma free_find_run s F A F1 F2 a fuel :
  heap_ok s F A -> F = F1 ++ F2 -> base < a ->
  (forall x, x ∈ F1 -> fst x < a) -> (forall x, x ∈ F2 -> a < fst x) -> (length F + 1 < fuel)%nat ->
  free_find fuel a (freep s) s = Ok (default base (list.last (addrs F1))) s.
Proof.
  intros Hok -> Hb H1 H2 Hf. destruct (spaced_sorted _ _ _ (ho_spaced _ _ _ Hok)) as [Hss Hlo].
  pose proof (ho_chain _ _ _ Hok) as Hc. pose proof (ho_freep _ _ _ Hok) as Hp.
  rewrite addrs_app in Hss, Hlo, Hc, Hp. rewrite <- (assoc_L (++)) in Hc. rewrite length_app in Hf.
  assert (Hl1 : Forall (fun b => b < a) (addrs F1)).
  { apply list.Forall_forall. intros b Hin. apply list_elem_of_fmap in Hin as (x & -> & Hx). by apply H1. }
  assert (Hl2 : Forall (fun x => a < fst x) F2) by (apply list.Forall_forall; done).
  assert (Hl2' : Forall (fun b => a < b) (addrs F2)) by by apply Forall_fmap.
  assert (Hsb : StronglySorted Z.lt (base :: addrs F1 ++ addrs F2)).
  { constructor; [done|]. eapply list.Forall_impl; [exact Hlo|]. intros b Hin. simpl in Hin. unfold hdr in *. lia. }
  apply sorted_app_inv in Hss as [Hs1 Hs2].
  assert (Hsb1 : StronglySorted Z.lt (base :: addrs F1)).
  { apply (sorted_app_inv (base :: addrs F1) (addrs F2)). exact Hsb. }
  assert (Hln : forall G : list (Z * Z), length (addrs G) = length G) by (intros; apply length_fmap).
  destruct (decide (freep s ∈ addrs F2)) as [Hin|Hout].
  - apply list_elem_of_split in Hin as (l0 & l1 & E). rewrite E in Hc, Hs2, Hl2'.
    apply sorted_app_inv in Hs2 as [_ Hs2]. apply Forall_app in Hl2' as [_ Hl2'].
    apply Forall_cons_1 in Hl2' as [Hpa _].
    rewrite <- (Hln F2), E, length_app in Hf. simpl in Hf.
    apply (free_find_round _ _ _ _ l1 (addrs F1) F2); try done.
    + rewrite <- (assoc_L (++)), (assoc_L (++)) in Hc. simpl in Hc. by apply chain_split in Hc as [_ Hc].
    + rewrite E. done.
    + rewrite (Hln F1). lia.
  - assert (Hin : freep s ∈ base :: addrs F1) by (rewrite elem_of_cons, elem_of_app in Hp; set_solver).
    apply list_elem_of_split in Hin as (l0 & l1 & E).
    assert (El : default base (list.last (addrs F1)) = default (freep s) (list.last l1)).
    { transitivity (default base (list.last (base :: addrs F1))).
      - rewrite last_cons. by destruct (list.last (addrs F1)).
      - rewrite E, last_app_cons, last_cons. by destruct (list.last l1). }
    rewrite El. apply (free_find_up _ _ _ _ l1 F2).
    + destruct l0 as [|y l0]; simpl in E; injection E as Ep E; [rewrite <- Ep, <- E; exact Hc|].
      rewrite E, <- (assoc_L (++)) in Hc. simpl in Hc. by apply chain_split in Hc as [_ Hc].
    + rewrite E in Hsb1. by apply sorted_app_inv in Hsb1 as [_ ?].
    + assert (Hall : Forall (fun b => base <= b) (base :: addrs F1)).
      { constructor; [lia|]. apply Forall_app in Hlo as [Hlo _]. eapply list.Forall_impl; [exact Hlo|].
        intros b Hin. simpl in Hin. unfold hdr in *. lia. }
      rewrite E in Hall. apply Forall_app in Hall as [_ Hall]. by apply Forall_cons_1 in Hall as [? _].
    + assert (Hall : Forall (fun b => b < a) (base :: addrs F1)) by by constructor.
      rewrite E in Hall. by apply Forall_app in Hall as [_ ?].
    + done.
    + apply (f_equal length) in E. rewrite length_app in E. simpl in E. rewrite (Hln F1) in E. lia.
Qed.

(** [free] of a block that is nobody's puts it on the free list. *)
Lemma free_loose s F A a n fuel :
  heap_ok s F A -> loose s F A a n -> (length F + 1 < fuel)%nat ->
  exists s' F', free fuel (a + hdr) s = Ok tt s' /\ heap_ok s' F' A /\ keeps A s s' /\
    total F' = total F + n /\ brk s' = brk s /\ (length F' <= length F + 1)%nat /\
    exists x, x ∈ F' /\ n <= snd x.
Proof.
  intros Hok Hlo Hf. destruct Hlo as [(Hlo1 & Hn & Hhi) Hsz Hlf Hla]. pose proof base_lo as Hb0.
  destruct (spaced_split _ _ _ a n (ho_spaced _ _ _ Hok) Hn Hlf) as (F1 & F2 & EF & H1 & H2).
  pose proof (ho_brk _ _ _ Hok) as Hbrk.
  pose proof (ho_spaced _ _ _ Hok) as Hsp. rewrite EF in Hsp. apply spaced_app in Hsp as [Hsp1 Hsp2].
  assert (Hpos1 : forall x, x ∈ F1 -> base + hdr <= fst x /\ 1 <= snd x /\ fst x + hdr * snd x <= brk s)
    by (intros x; apply (spaced_elem _ _ _ _ Hsp1)).
  unfold free. rewrite u32_small by (unfold hdr in *; lia). replace (a + hdr - hdr) with a by lia.
  erewrite bind_ok by (unfold gets; reflexivity).
  rewrite (bind_ok _ _ _ _ _ (free_find_run s F A F1 F2 a fuel Hok EF ltac:(unfold hdr in *; lia)
    ltac:(intros x Hx; pose proof (H1 x Hx); pose proof (Hpos1 x Hx); unfold hdr in *; lia)
    ltac:(intros x Hx; pose proof (H2 x Hx); unfold hdr in *; lia) Hf)).
  set (p := default base (list.last (addrs F1))).
  pose proof (ho_chain _ _ _ Hok) as Hc. rewrite EF, addrs_app, <- (assoc_L (++)) in Hc.
  assert (Hcp : chain (umem s) p (addrs F2 ++ [base]) /\ exists z, chain (umem s) base (addrs F1 ++ [z])).
  { unfold p. destruct F1 as [|x F1 _] using rev_ind; [simpl in *; split; [done|]; by eexists|].
    rewrite addrs_app in Hc |- *. simpl in Hc |- *. rewrite last_snoc. simpl.
    rewrite <- (assoc_L (++)) in Hc. simpl in Hc. apply chain_split in Hc as [Hc1 Hc2]. split; [done|].
    eexists (load32 (umem s) (fst x)). rewrite <- (assoc_L (++)). simpl. apply chain_split. done. }
  destruct Hcp as [Hcp [z Hcz]].
  assert (Hspa : spaced (a + hdr * n) F2 (brk s)).
  { destruct F2 as [|[b k] F2]; [done|]. destruct Hsp2 as (_ & Hr). split; [|done].
    apply (H2 (b, k)). constructor. }
  destruct (join_upper_run s a n p F2)
    as (s1 & n1 & R & E1 & Ho1 & Hc1 & Hs1 & Hn1 & Htot & HspR & Hend & HR & HlR & HaR); try done; try lia.
  { intros x Hx. apply (ho_free _ _ _ Hok). rewrite EF. apply elem_of_app. by right. }
  rewrite (bind_ok _ _ _ _ _ E1). pose proof Ho1 as (_ & Hfp1 & Hbrk1).
  assert (Hlow : forall y, y ∈ base :: addrs F1 -> y + hdr <= a).
  { intros y [-> | Hy]%elem_of_cons; [done|]. apply list_elem_of_fmap in Hy as (x & -> & Hx).
    pose proof (H1 x Hx). pose proof (Hpos1 x Hx). unfold hdr in *. lia. }
  assert (Hsz1 : forall x, x ∈ F1 -> size (fst x) s1 = snd x).
  { intros x Hx. rewrite (only_hdr_size _ _ _ _ Ho1).
    - apply (ho_free _ _ _ Hok). rewrite EF. apply elem_of_app. by left.
    - left. apply Hlow. constructor. by apply list_elem_of_fmap_2. }
  assert (HszR : forall x, x ∈ R -> size (fst x) s1 = snd x).
  { intros x Hx. apply HR in Hx. rewrite (only_hdr_size _ _ _ _ Ho1).
    - apply (ho_free _ _ _ Hok). rewrite EF. apply elem_of_app. by right.
    - right. pose proof (H2 x Hx). unfold hdr in *. lia. }
  assert (Hb1 : size base s1 = 0).
  { rewrite (only_hdr_size _ _ _ _ Ho1); [apply Hok|]. left. apply Hlow. constructor. }
  assert (Hj : exists s2 F', join_lower a p s1 = Ok tt s2 /\ joined s1 F1 R a n1 s2 F' p).
  { apply (only_hdr_chain a s s1) in Hcz; [|done|intros y Hy; left; by apply Hlow].
    destruct F1 as [|[p' q] G _] using rev_ind.
    - destruct (join_lower_base s1 a n1 R) as (s2 & E2 & Hj); rewrite ?Hbrk1; try done; try lia. by eauto.
    - assert (Ep : p = p') by (unfold p; rewrite addrs_app; simpl; by rewrite last_snoc). rewrite Ep.
      apply (join_lower_block s1 G p' q z a n1 R); rewrite ?Hbrk1; try done; try lia.
      apply (H1 (p', q)). apply elem_of_app. right. constructor. }
  destruct Hj as (s2 & F' & E2 & Hj). rewrite (bind_ok _ _ _ _ _ E2). pose proof (jo_hdr _ _ _ _ _ _ _ _ Hj) as Ho2.
  pose proof Ho2 as (_ & Hfp2 & Hbrk2).
  assert (Hmiss : forall x, x ∈ A -> (fst x + hdr * snd x <= a \/ a + hdr <= fst x) /\
                                     (fst x + hdr * snd x <= p \/ p + hdr <= fst x)).
  { intros x Hx. pose proof (Hla x Hx) as Hxa. pose proof (ho_alloc _ _ _ Hok x Hx) as Hxr.
    split; [unfold apart, hdr in *; simpl in *; lia|].
    assert (Hp : p ∈ base :: addrs F1).
    { unfold p. destruct F1 as [|y F1 _] using rev_ind; [constructor|].
      rewrite addrs_app. simpl. rewrite last_snoc. constructor. apply elem_of_app. right. constructor. }
    apply elem_of_cons in Hp as [-> | Hp]; [right; lia|].
    apply list_elem_of_fmap in Hp as (y & -> & Hy). pose proof (Hpos1 y Hy) as Hyr.
    pose proof (ho_apart _ _ _ Hok x y Hx ltac:(rewrite EF; apply elem_of_app; by left)) as Hyx.
    unfold apart, hdr in *. lia. }
  exists (upd_freep (fun _ => p) s2), F'. split; [done|].
  assert (Hk : keeps A s (upd_freep (fun _ => p) s2)).
  { intros x b Hx Hb. destruct (Hmiss x Hx). simpl. destruct Ho2 as [Ho2 _]. destruct Ho1 as [Ho1 _].
    rewrite Ho2, Ho1; [done|unfold hdr in *; lia..]. }
  assert (Hbs : brk s2 = brk s) by congruence.
  split_and!; [|done|rewrite (jo_total _ _ _ _ _ _ _ _ Hj), EF, total_app; lia|done| |].
  - split; simpl; rewrite ?Hbs.
    + apply Hj. + apply Hj. + apply Hj.
    + intros x Hx. destruct (Hmiss x Hx). pose proof (ho_alloc _ _ _ Hok x Hx).
      change (size (fst x) s2 = snd x).
      rewrite (only_hdr_size _ _ _ _ Ho2), (only_hdr_size _ _ _ _ Ho1) by (unfold hdr in *; lia).
      by apply (ho_size _ _ _ Hok).
    + rewrite <- Hbrk1. apply Hj. + apply Hj. + apply Hok.
    + intros x y Hx Hy. apply (jo_apart _ _ _ _ _ _ _ _ Hj); try done.
      * by apply (ho_alloc _ _ _ Hok).
      * intros w Hw. apply (ho_apart _ _ _ Hok); [done|]. rewrite EF. apply elem_of_app. by left.
      * apply HaR; [by apply (ho_alloc _ _ _ Hok)| |].
        -- pose proof (Hla x Hx) as Hxa. unfold apart in *. simpl in *. lia.
        -- intros w Hw. apply (ho_apart _ _ _ Hok); [done|]. rewrite EF. apply elem_of_app. by right.
      * intros w Hw. apply HR in Hw. apply (ho_apart _ _ _ Hok); [done|]. rewrite EF. apply elem_of_app. by right.
    + apply Hok. + apply Hok. + apply Hok.
  - pose proof (jo_len _ _ _ _ _ _ _ _ Hj). rewrite EF, length_app. lia.
  - destruct (jo_big _ _ _ _ _ _ _ _ Hj) as (x & Hx & Hxn). exists x. split; [done|lia].
Qed.

(** ** Taking a block *)

Lemma heap_ok_nodup s F A : heap_ok s F A -> NoDup (base :: addrs F).
Proof.
  intros Hok. destruct (spaced_sorted _ _ _ (ho_spaced _ _ _ Hok)) as [Hss Hlo]. constructor.
  - intros Hin. rewrite list.Forall_forall in Hlo. specialize (Hlo _ Hin). simpl in Hlo. unfold hdr in *. lia.
  - clear Hlo. induction Hss as [|a l Hs IH Ha]; constructor; [|done].
    intros Hin. rewrite list.Forall_forall in Ha. specialize (Ha _ Hin). lia.
Qed.

(** The place of a member of a list without repetitions is unique. *)
Lemma nodup_split (l1 l2 k1 k2 : list Z) x :
  NoDup (l1 ++ x :: l2) -> l1 ++ x :: l2 = k1 ++ x :: k2 -> l1 = k1 /\ l2 = k2.
Proof.
  revert k1. induction l1 as [|y l1 IH]; intros k1 Hnd E; destruct k1 as [|z k1]; simpl in *.
  - by injection E as ->.
  - injection E as <- ->. exfalso. apply (NoDup_cons_1_1 _ _ Hnd). apply elem_of_app. right. constructor.
  - injection E as -> _. exfalso. apply (NoDup_cons_1_1 _ _ Hnd). apply elem_of_app. right. constructor.
  - injection E as <- E. destruct (IH k1) as [-> ->]; [by inversion Hnd|done|done].
Qed.

(** The block that points to a free block is the one before it. *)
Lemma pred_unique s F A G p sz G2 y :
  heap_ok s F A -> F = G ++ (p, sz) :: G2 -> y ∈ base :: addrs F -> ptr y s = p ->
  y = default base (list.last (addrs G)).
Proof.
  intros Hok -> Hy Hp. pose proof (heap_ok_nodup _ _ _ Hok) as Hnd. pose proof (ho_chain _ _ _ Hok) as Hc.
  rewrite addrs_app in *. simpl in *. apply list_elem_of_split in Hy as (l0 & l1 & E).
  assert (Hsucc : chain (umem s) y (l1 ++ [base])).
  { destruct l0 as [|z l0]; simpl in E; injection E as Ez E; [by rewrite <- Ez, <- E|].
    rewrite E, <- (assoc_L (++)) in Hc. simpl in Hc. by apply chain_split in Hc as [_ Hc]. }
  destruct l1 as [|q l1]; simpl in Hsucc; destruct Hsucc as [Hq _]; unfold ptr in Hp; rewrite Hq in Hp.
  - subst p. exfalso. apply (NoDup_cons_1_1 _ _ Hnd). apply elem_of_app. right. constructor.
  - subst q. assert (E' : (base :: addrs G) ++ p :: addrs G2 = (l0 ++ [y]) ++ p :: l1)
      by (simpl; rewrite E; by rewrite <- (assoc_L (++))).
    apply nodup_split in E' as [E' _]; [|done].
    transitivity (default base (list.last (l0 ++ [y]))); [by rewrite last_snoc|].
    rewrite <- E', last_cons. by destruct (list.last (addrs G)).
Qed.

(** What a successful allocation of [n] units leaves. *)
Definition given (s : heap) (F A : list (Z * Z)) (n r : Z) (s' : heap) : Prop :=
  exists a F', r = a + hdr /\ heap_ok s' F' ((a, n) :: A) /\ keeps A s s' /\
    total F' + n = total F /\ brk s' = brk s.

Lemma spaced_drop_block lo G x G2 hi : spaced lo (G ++ x :: G2) hi -> spaced lo (G ++ G2) hi.
Proof.
  rewrite !spaced_app. intros [HG Hx]. split; [done|]. destruct x as [a n]. destruct Hx as (Hlo & Hn & _ & Hs).
  eapply spaced_weaken; [|exact Hs]. unfold hdr in *. lia.
Qed.

Lemma spaced_apart lo F hi G x G2 y :
  spaced lo F hi -> F = G ++ x :: G2 -> y ∈ G ++ G2 -> apart y x.
Proof.
  intros Hs -> Hy. apply elem_of_app in Hy as [Hy|Hy].
  - apply list_elem_of_split in Hy as (G0 & G1 & ->). rewrite <- (assoc_L (++)) in Hs. simpl in Hs.
    apply spaced_app in Hs as [_ Hs]. destruct y as [b k]. destruct Hs as (_ & _ & _ & Hs).
    apply (spaced_elem _ _ _ x) in Hs; [|apply elem_of_app; right; constructor].
    left. simpl. lia.
  - apply spaced_app in Hs as [_ Hs]. destruct x as [b k]. destruct Hs as (_ & _ & _ & Hs).
    apply (spaced_elem _ _ _ y Hs) in Hy. right. simpl. lia.
Qed.

(** The block before [p] is apart from it, as is [base]. *)
Lemma pred_range s F A G p sz G2 :
  heap_ok s F A -> F = G ++ (p, sz) :: G2 -> default base (list.last (addrs G)) + hdr <= p.
Proof.
  intros Hok EF. pose proof (ho_spaced _ _ _ Hok) as Hsp. rewrite EF in Hsp. apply spaced_app in Hsp as [Hs1 Hs2].
  destruct G as [|[b k] G _] using rev_ind; [by destruct Hs2 as (Hlo & _)|].
  rewrite addrs_app, last_snoc in *. destruct Hs2 as (Hlo & _). simpl in Hlo |- *. rewrite last_snoc. simpl.
  apply (spaced_elem _ _ _ (b, k)) in Hs1; [|apply elem_of_app; right; constructor].
  simpl in Hs1. unfold hdr in *. lia.
Qed.

(** A member taken out of a chain. *)
Lemma chain_unlink m m' x l p T z :
  NoDup (x :: l ++ T) -> chain m x (l ++ p :: T ++ [z]) ->
  load32 m' (default x (list.last l)) = load32 m p ->
  (forall y, y ∈ x :: l ++ T -> y <> default x (list.last l) -> load32 m' y = load32 m y) ->
  chain m' x (l ++ T ++ [z]).
Proof.
  revert x. induction l as [|y l IH]; intros x Hnd Hc Hp Hf; simpl in *.
  - destruct Hc as [_ Hc]. destruct T as [|t T]; simpl in *; destruct Hc as [Ht Hc];
      (split; [congruence|]); [done|].
    eapply chain_frame; [|exact Hc]. intros y Hy. apply Hf; [by constructor|].
    intros ->. by apply (NoDup_cons_1_1 _ _ Hnd).
  - destruct Hc as [Hx Hc].
    assert (E : default x (list.last (y :: l)) = default y (list.last l))
      by (rewrite last_cons; by destruct (list.last l)).
    rewrite E in *. split.
    + rewrite Hf; [done|constructor|]. intros Ex. apply (NoDup_cons_1_1 _ _ Hnd). rewrite Ex.
      destruct (list.last l) as [w|] eqn:El; simpl; [|constructor].
      constructor. apply elem_of_app. left. by apply list.last_Some_elem_of.
    + apply IH; try done; [by inversion Hnd|]. intros w Hw. apply Hf. by constructor.
Qed.

Lemma heap_ok_elem s F A G p sz G2 :
  heap_ok s F A -> F = G ++ (p, sz) :: G2 -> size p s = sz /\ base + hdr <= p /\ 1 <= sz /\ p + hdr * sz <= brk s.
Proof.
  intros Hok ->. assert (Hin : (p, sz) ∈ G ++ (p, sz) :: G2) by (apply elem_of_app; right; constructor).
  split; [by apply (ho_free _ _ _ Hok (p, sz))|]. by apply (spaced_elem _ _ _ _ (ho_spaced _ _ _ Hok)) in Hin.
Qed.

(** Headers other than [p]'s own are outside its block. *)
Lemma other_headers s F A G p sz G2 y :
  heap_ok s F A -> F = G ++ (p, sz) :: G2 -> y ∈ base :: addrs F -> y <> p ->
  y + hdr <= p \/ p + hdr * sz <= y.
Proof.
  intros Hok EF Hy Hne. destruct (heap_ok_elem _ _ _ _ _ _ _ Hok EF) as (_ & Hp & _).
  apply elem_of_cons in Hy as [-> | Hy]; [by left|].
  apply list_elem_of_fmap in Hy as ([b k] & -> & Hx). simpl in *.
  assert (Hx' : (b, k) ∈ G ++ G2) by (rewrite EF in Hx; set_solver).
  pose proof (spaced_apart _ _ _ _ _ _ _ (ho_spaced _ _ _ Hok) EF Hx') as Ha.
  pose proof (spaced_elem _ _ _ _ (ho_spaced _ _ _ Hok) Hx). unfold apart, hdr in *. simpl in *. lia.
Qed.

Lemma take_whole s F A G p n G2 :
  heap_ok s F A -> F = G ++ (p, n) :: G2 ->
  exists s', take_block n (default base (list.last (addrs G))) p n s = Ok (p + hdr) s' /\
    given s F A n (p + hdr) s'.
Proof.
  intros Hok EF. set (prev := default base (list.last (addrs G))). pose proof base_lo as Hb0.
  destruct (heap_ok_elem _ _ _ _ _ _ _ Hok EF) as (Hsz & Hp & Hn & Hend). pose proof (ho_brk _ _ _ Hok) as Hbrk.
  pose proof (pred_range _ _ _ _ _ _ _ Hok EF) as Hpr. fold prev in Hpr.
  assert (Hprev : prev ∈ base :: addrs (G ++ G2)).
  { unfold prev. destruct (list.last (addrs G)) as [w|] eqn:El; simpl; [|constructor].
    constructor. rewrite addrs_app. apply elem_of_app. left. by apply list.last_Some_elem_of. }
  assert (Hpb : base <= prev).
  { apply elem_of_cons in Hprev as [-> | Hin]; [lia|]. apply list_elem_of_fmap in Hin as (x & -> & Hx).
    assert (x ∈ F) by (rewrite EF; set_solver).
    pose proof (spaced_elem _ _ _ x (ho_spaced _ _ _ Hok) ltac:(done)). unfold hdr in *. lia. }
  unfold take_block. rewrite Z.eqb_refl. erewrite bind_ok by (unfold gets; reflexivity).
  erewrite bind_ok by (unfold set_ptr, modify; reflexivity).
  erewrite bind_ok by (unfold modify; reflexivity). rewrite plus_small by (unfold hdr in *; lia).
  destruct (set_one prev (ptr p s) s) as (Ho & Hp' & Hs'); [apply load32_range|].
  set (s1 := upd_umem (fun m => store32 m prev (ptr p s)) s) in *.
  exists (upd_freep (fun _ => prev) s1). unfold ret. split; [f_equal; unfold hdr; lia|].
  exists p, (G ++ G2). split; [done|]. pose proof Ho as (Hob & _ & Hbr).
  assert (Hmiss : forall x, x ∈ A -> fst x + hdr * snd x <= prev \/ prev + hdr <= fst x).
  { intros x Hx. pose proof (ho_alloc _ _ _ Hok x Hx) as Hxr.
    apply elem_of_cons in Hprev as [-> | Hin]; [right; lia|]. apply list_elem_of_fmap in Hin as (y & Ey & Hy).
    assert (HyF : y ∈ F) by (rewrite EF; set_solver).
    pose proof (ho_apart _ _ _ Hok x y Hx HyF). pose proof (spaced_elem _ _ _ y (ho_spaced _ _ _ Hok) HyF).
    unfold apart, hdr in *. lia. }
  assert (Hszs : forall y, y ∈ F -> size (fst y) s1 = snd y).
  { intros y Hy. rewrite <- (ho_free _ _ _ Hok y Hy). destruct (Z.eq_dec (fst y) prev) as [->|Hne]; [done|].
    apply (only_hdr_size _ _ _ _ Ho). apply list_elem_of_split in Hy as (G' & G2' & EF'). destruct y as [b k].
    assert (Hin : prev ∈ base :: addrs F) by (rewrite EF, addrs_app in *; set_solver).
    destruct (other_headers _ _ _ _ _ _ _ _ Hok EF' Hin) as [?|?]; [simpl in Hne; congruence|by right|].
    destruct (heap_ok_elem _ _ _ _ _ _ _ Hok EF') as (_ & _ & Hk & _). simpl. unfold hdr in *. lia. }
  assert (Hin : forall x, x ∈ G ++ G2 -> x ∈ F) by (intros x Hx; rewrite EF; set_solver).
  assert (HpF : (p, n) ∈ F) by (rewrite EF; set_solver).
  split_and!; [| |rewrite EF, !total_app; simpl; lia|done].
  - split; simpl.
    + rewrite addrs_app, <- (assoc_L (++)). apply (chain_unlink (umem s) _ _ _ p).
      * pose proof (heap_ok_nodup _ _ _ Hok) as Hnd. rewrite EF, addrs_app in Hnd. simpl in Hnd.
        assert (Hnd' : NoDup (p :: (base :: addrs G) ++ addrs G2))
          by (rewrite Permutation_middle; exact Hnd).
        by apply NoDup_cons_1_2 in Hnd'.
      * pose proof (ho_chain _ _ _ Hok) as Hc. rewrite EF, addrs_app, <- (assoc_L (++)) in Hc. exact Hc.
      * exact Hp'.
      * intros y Hy Hne. fold prev in Hne. apply (only_hdr_load _ _ _ _ Ho).
        assert (Hyp : y + hdr <= prev \/ prev + hdr <= y); [|unfold hdr in *; lia].
        apply elem_of_cons in Hy as [-> | Hy].
        { apply elem_of_cons in Hprev as [? | Hpi]; [congruence|].
          apply list_elem_of_fmap in Hpi as (x & -> & Hx). left.
          destruct (spaced_elem _ _ _ x (ho_spaced _ _ _ Hok) (Hin x Hx)); lia. }
        rewrite <- addrs_app in Hy. apply list_elem_of_fmap in Hy as (x & -> & Hx).
        apply Hin, list_elem_of_split in Hx as (G' & G2' & EF'). destruct x as [b k].
        assert (Hpin : prev ∈ base :: addrs F) by (rewrite EF, addrs_app in *; set_solver).
        destruct (other_headers _ _ _ _ _ _ _ _ Hok EF' Hpin) as [?|?]; [simpl in Hne; congruence|by right|].
        destruct (heap_ok_elem _ _ _ _ _ _ _ Hok EF') as (_ & _ & Hk & _). simpl. unfold hdr in *. lia.
    + change (size base s1 = 0). destruct (Z.eq_dec base prev) as [E|E].
      * rewrite E, Hs', <- E. apply Hok.
      * rewrite (only_hdr_size _ _ _ _ Ho); [apply Hok|]. left.
        apply elem_of_cons in Hprev as [? | Hpi]; [congruence|].
        apply list_elem_of_fmap in Hpi as (x & -> & Hx).
        destruct (spaced_elem _ _ _ x (ho_spaced _ _ _ Hok) (Hin x Hx)); lia.
    + intros x Hx. by apply Hszs, Hin.
    + intros x [-> | Hx]%elem_of_cons; [by apply (Hszs (p, n))|]. destruct (Hmiss x Hx).
      * change (size (fst x) s1 = snd x). pose proof (ho_alloc _ _ _ Hok x Hx).
        rewrite (only_hdr_size _ _ _ _ Ho) by (unfold hdr in *; lia). by apply (ho_size _ _ _ Hok).
      * change (size (fst x) s1 = snd x). rewrite (only_hdr_size _ _ _ _ Ho) by lia. by apply (ho_size _ _ _ Hok).
    + rewrite ?Hbr. eapply spaced_drop_block. rewrite <- EF. apply Hok.
    + exact Hprev.
    + rewrite ?Hbr. intros x [-> | Hx]%elem_of_cons; [done|by apply (ho_alloc _ _ _ Hok)].
    + intros x y [-> | Hx]%elem_of_cons Hy; [|by apply (ho_apart _ _ _ Hok), Hin].
      by apply (spaced_apart _ _ _ _ _ _ _ (ho_spaced _ _ _ Hok) EF).
    + constructor; [|apply Hok]. intros Hx. pose proof (ho_apart _ _ _ Hok _ _ Hx HpF). unfold apart, hdr in *. simpl in *. lia.
    + intros x y [-> | Hx]%elem_of_cons [-> | Hy]%elem_of_cons Hxy; [done| | |by apply (ho_apart' _ _ _ Hok)].
      * by apply (ho_apart _ _ _ Hok).
      * pose proof (ho_apart _ _ _ Hok _ _ Hx HpF). unfold apart in *. simpl in *. lia.
    + rewrite ?Hbr. apply Hok.
  - intros x b Hx Hb. simpl. destruct (Hmiss x Hx); apply Hob; unfold hdr in *; lia.
Qed.

Lemma spaced_shrink lo G p sz k G2 hi :
  1 <= k <= sz -> spaced lo (G ++ (p, sz) :: G2) hi -> spaced lo (G ++ (p, k) :: G2) hi.
Proof.
  rewrite !spaced_app. intros Hk [HG (Hlo & Hn & Hh & Hs)]. split; [done|]. simpl.
  split_and!; [done|lia|unfold hdr in *; lia|]. eapply spaced_weaken; [|exact Hs]. unfold hdr. lia.
Qed.

Lemma take_end s F A G p sz G2 n :
  heap_ok s F A -> F = G ++ (p, sz) :: G2 -> 1 <= n < sz ->
  exists r s', take_block n (default base (list.last (addrs G))) p sz s = Ok r s' /\ given s F A n r s'.
Proof.
  intros Hok EF Hn. set (prev := default base (list.last (addrs G))). pose proof base_lo as Hb0.
  destruct (heap_ok_elem _ _ _ _ _ _ _ Hok EF) as (Hsz & Hp & _ & Hend). pose proof (ho_brk _ _ _ Hok) as Hbrk.
  set (q := p + hdr * (sz - n)).
  assert (Hq : p + hdr <= q /\ q + hdr * n = p + hdr * sz) by (unfold q, hdr; lia).
  unfold take_block. rewrite (proj2 (Z.eqb_neq sz n)) by lia.
  erewrite bind_ok by (unfold set_size, modify; reflexivity).
  rewrite (plus_small p (sz - n)) by (unfold hdr in *; lia). cbn zeta. fold q.
  erewrite bind_ok by (unfold set_size, modify; reflexivity).
  erewrite bind_ok by (unfold modify; reflexivity). rewrite plus_small by (unfold hdr in *; lia).
  set (s1 := upd_umem _ (upd_umem _ s)).
  assert (Hout : forall b, b < p \/ p + hdr * sz <= b -> load8 (umem s1) b = load8 (umem s) b).
  { intros b Hb. unfold s1. simpl. rewrite !load8_store32_ne by (unfold hdr in *; lia). done. }
  assert (Hptr : load32 (umem s1) p = load32 (umem s) p).
  { unfold s1. simpl. rewrite !load32_store32_ne by (unfold hdr in *; lia). done. }
  assert (Hsp : size p s1 = sz - n).
  { unfold size, s1. simpl. rewrite load32_store32_ne by (unfold hdr in *; lia).
    apply load32_store32. unfold hdr in *. lia. }
  assert (Hsq : size q s1 = n).
  { unfold size, s1. simpl. apply load32_store32. unfold hdr in *. lia. }
  assert (Hothers : forall y, y ∈ base :: addrs F -> y <> p ->
    load32 (umem s1) y = load32 (umem s) y /\ size y s1 = size y s).
  { intros y Hy Hne. pose proof (other_headers _ _ _ _ _ _ _ _ Hok EF Hy Hne) as Hy'.
    split; apply load32_ext; intros b Hb; apply Hout; unfold hdr in *; lia. }
  assert (Hbr : brk s1 = brk s) by done. clearbody s1.
  exists (q + hdr), (upd_freep (fun _ => prev) s1). unfold ret. split; [f_equal; unfold hdr; lia|].
  assert (Eadr : addrs (G ++ (p, sz - n) :: G2) = addrs F) by (rewrite EF, !addrs_app; done).
  assert (HpF : (p, sz) ∈ F) by (rewrite EF; set_solver).
  assert (HA : forall x, x ∈ A -> fst x + hdr * snd x <= p \/ p + hdr * sz <= fst x).
  { intros x Hx. pose proof (ho_apart _ _ _ Hok _ _ Hx HpF). unfold apart in *. simpl in *. lia. }
  exists q, (G ++ (p, sz - n) :: G2). split; [done|]. split_and!; [| |rewrite EF, !total_app; simpl; lia|done].
  - split; simpl; rewrite ?Hbr, ?Eadr.
    + eapply chain_frame; [|apply Hok]. intros y Hy. destruct (Z.eq_dec y p) as [->|Hne]; [done|].
      by apply Hothers.
    + change (size base s1 = 0). destruct (Hothers base ltac:(constructor)) as [_ ->]; [unfold hdr in *; lia|apply Hok].
    + intros x Hx. change (size (fst x) s1 = snd x).
      destruct (Z.eq_dec (fst x) p) as [E|Hne].
      * assert (x = (p, sz - n)) as ->; [|done]. apply elem_of_app in Hx as [Hx|[-> | Hx]%elem_of_cons]; [|done|];
          (pose proof (spaced_apart _ _ _ _ _ _ x (ho_spaced _ _ _ Hok) EF ltac:(set_solver)) as Ha;
           pose proof (spaced_elem _ _ _ x (ho_spaced _ _ _ Hok) ltac:(rewrite EF; set_solver));
           unfold apart, hdr in *; simpl in *; lia).
      * assert (HxF : x ∈ F) by (rewrite EF; apply elem_of_app in Hx as [Hx|[-> | Hx]%elem_of_cons]; [set_solver|done|set_solver]).
        destruct (Hothers (fst x)) as [_ ->]; [constructor; by apply list_elem_of_fmap_2|done|by apply (ho_free _ _ _ Hok)].
    + intros x [-> | Hx]%elem_of_cons; [done|]. change (size (fst x) s1 = snd x).
      rewrite <- (ho_size _ _ _ Hok x Hx). apply load32_ext. intros b Hb. apply Hout.
      pose proof (HA x Hx). pose proof (ho_alloc _ _ _ Hok x Hx). unfold hdr in *. lia.
    + eapply (spaced_shrink _ _ _ sz); [lia|]. rewrite <- EF. apply Hok.
    + unfold prev. destruct (list.last (addrs G)) as [w|] eqn:El; simpl; [|constructor].
      constructor. rewrite EF, addrs_app. apply elem_of_app. left. by apply list.last_Some_elem_of.
    + intros x [-> | Hx]%elem_of_cons; [simpl; unfold hdr in *; lia|by apply (ho_alloc _ _ _ Hok)].
    + intros x y [-> | Hx]%elem_of_cons Hy.
      * apply elem_of_app in Hy as [Hy|[-> | Hy]%elem_of_cons]; [|left; simpl; unfold hdr in *; lia|];
          (pose proof (spaced_apart _ _ _ _ _ _ y (ho_spaced _ _ _ Hok) EF ltac:(set_solver)) as Ha;
           unfold apart, hdr in *; simpl in *; lia).
      * apply elem_of_app in Hy as [Hy|[-> | Hy]%elem_of_cons].
        -- apply (ho_apart _ _ _ Hok); [done|]. rewrite EF. set_solver.
        -- pose proof (HA x Hx). unfold apart, hdr in *. simpl. lia.
        -- apply (ho_apart _ _ _ Hok); [done|]. rewrite EF. set_solver.
    + constructor; [|apply Hok]. intros Hx. pose proof (HA _ Hx). simpl in *. unfold hdr in *. lia.
    + intros x y [-> | Hx]%elem_of_cons [-> | Hy]%elem_of_cons Hxy; [done| | |by apply (ho_apart' _ _ _ Hok)].
      * pose proof (HA y Hy). unfold apart, hdr in *. simpl. lia.
      * pose proof (HA x Hx). unfold apart, hdr in *. simpl. lia.
    + apply Hok.
  - intros x b Hx Hb. simpl. apply Hout. pose proof (HA x Hx). unfold hdr in *. lia.
Qed.

(** ** The search of [malloc] *)

Lemma take_block_run s F A n prev p sz :
  heap_ok s F A -> (p, sz) ∈ F -> 1 <= n <= sz -> prev ∈ base :: addrs F -> ptr prev s = p ->
  exists r s', take_block n prev p sz s = Ok r s' /\ given s F A n r s'.
Proof.
  intros Hok Hin Hn Hprev Hp. apply list_elem_of_split in Hin as (G & G2 & EF).
  rewrite (pred_unique _ _ _ _ _ _ _ _ Hok EF Hprev Hp).
  destruct (Z.eq_dec sz n) as [-> |Hne].
  - destruct (take_whole _ _ _ _ _ _ _ Hok EF) as (s' & E & Hg). by eauto.
  - apply (take_end _ _ _ _ _ _ _ n Hok EF). lia.
Qed.

(** The rest of the loop of [malloc] when a round has found nothing. *)
Definition more (f : nat) (n : Z) : M heap Z :=
  p' <- morecore f n ;;
  if p' =? 0 then ret 0 else nx <- gets (ptr p') ;; malloc_loop f n p' nx.

(** From [prev] over the addresses [l], which end at [freep]: a block that
    fits is taken, or none of them does and [more] is called. *)
Lemma malloc_scan fuel s F A n prev p l :
  heap_ok s F A -> 1 <= n -> prev ∈ base :: addrs F -> (forall y, y ∈ p :: l -> y ∈ base :: addrs F) ->
  NoDup (p :: l) -> chain (umem s) prev (p :: l) -> list.last (p :: l) = Some (freep s) ->
  (length (p :: l) <= fuel)%nat ->
  (exists r s', malloc_loop fuel n prev p s = Ok r s' /\ given s F A n r s') \/
  ((forall y, y ∈ p :: l -> size y s < n) /\
   malloc_loop fuel n prev p s = more (fuel - length (p :: l)) n s).
Proof.
  intros Hok Hn. revert fuel prev p. induction l as [|q l IH]; intros fuel prev p Hprev Hl Hnd Hc Hlast Hf.
  all: destruct fuel as [|f]; [simpl in Hf; lia|]; cbn [malloc_loop].
  all: erewrite bind_ok by (unfold gets; reflexivity); destruct Hc as [Hp Hc].
  all: assert (Hfit : n <= size p s -> exists r s', take_block n prev p (size p s) s = Ok r s' /\ given s F A n r s').
  1,3: intros Hle; pose proof (Hl p ltac:(constructor)) as Hpin; apply elem_of_cons in Hpin as [-> | Hpin];
    [pose proof (ho_base _ _ _ Hok); lia|]; apply list_elem_of_fmap in Hpin as ([b k] & -> & Hx);
    simpl in *; pose proof (ho_free _ _ _ Hok _ Hx) as Hk; simpl in Hk; rewrite Hk in *;
    apply (take_block_run s F A n prev b k); (done || lia).
  - destruct (Z.leb_spec n (size p s)) as [Hle|Hlt]; [left; by apply Hfit|]. right. split.
    + by intros y ->%list_elem_of_singleton.
    + erewrite bind_ok by (unfold gets; reflexivity). injection Hlast as <-. rewrite Z.eqb_refl.
      simpl. by rewrite Nat.sub_0_r.
  - destruct (Z.leb_spec n (size p s)) as [Hle|Hlt]; [left; by apply Hfit|].
    erewrite bind_ok by (unfold gets; reflexivity).
    assert (Hne : p <> freep s).
    { intros E. apply (NoDup_cons_1_1 _ _ Hnd). rewrite E. apply list.last_Some_elem_of. by rewrite last_cons_cons in Hlast. }
    rewrite (proj2 (Z.eqb_neq _ _)) by done. erewrite bind_ok by (unfold gets; reflexivity).
    assert (Eq : ptr p s = q) by (by destruct Hc). rewrite Eq.
    destruct (IH f p q) as [Hg|[Hsm E]].
    + apply Hl. constructor.
    + intros y Hy. apply Hl. by constructor.
    + by apply NoDup_cons_1_2 in Hnd.
    + exact Hc.
    + by rewrite last_cons_cons in Hlast.
    + simpl in Hf |- *. lia.
    + by left.
    + right. split; [|rewrite E; done]. intros y [-> | Hy]%elem_of_cons; [done|by apply Hsm].
Qed.

(** Once round from the block after [freep] back to it. *)
Lemma rotation s F A :
  heap_ok s F A -> exists l, chain (umem s) (freep s) l /\ l ≡ₚ base :: addrs F /\ list.last l = Some (freep s).
Proof.
  intros Hok. pose proof (ho_freep _ _ _ Hok) as Hp. pose proof (ho_chain _ _ _ Hok) as Hc.
  apply list_elem_of_split in Hp as (l0 & l1 & E). exists (l1 ++ l0 ++ [freep s]). split_and!.
  - destruct l0 as [|y l0]; simpl in E; injection E as Ey E.
    + simpl. rewrite <- Ey, <- E. done.
    + rewrite E, <- (assoc_L (++)) in Hc. simpl in Hc |- *. apply chain_split in Hc as [Hc1 Hc2].
      rewrite <- Ey. apply chain_split. done.
  - rewrite E. etransitivity; [apply Permutation_app_comm|]. by rewrite <- (assoc_L (++)).
  - by rewrite !last_app.
Qed.

Lemma rotation_sizes s F A l n :
  heap_ok s F A -> l ≡ₚ base :: addrs F -> (forall y, y ∈ l -> size y s < n) ->
  forall x, x ∈ F -> snd x < n.
Proof.
  intros Hok El Hl x Hx. rewrite <- (ho_free _ _ _ Hok x Hx). apply Hl. rewrite El. constructor.
  by apply list_elem_of_fmap_2.
Qed.

(** ** More memory *)

(** Memory above the break does not matter, and the break may move up. *)
Lemma heap_ok_above s s' F A :
  heap_ok s F A -> (forall b, b < brk s -> load8 (umem s') b = load8 (umem s) b) ->
  freep s' = freep s -> brk s <= brk s' <= KERNBASE -> heap_ok s' F A.
Proof.
  intros Hok Hm Hfp Hb. pose proof (ho_brk _ _ _ Hok) as Hbrk.
  assert (Hr : forall x, x ∈ F -> fst x + hdr <= brk s).
  { intros x Hx. pose proof (spaced_elem _ _ _ _ (ho_spaced _ _ _ Hok) Hx). unfold hdr in *. lia. }
  assert (Hld : forall p, p + 4 <= brk s -> load32 (umem s') p = load32 (umem s) p)
    by (intros p Hp; apply load32_ext; intros b Hlt; apply Hm; lia).
  split.
  - eapply chain_frame; [|apply Hok]. intros y [-> | Hy]%elem_of_cons; [apply Hld; unfold hdr in *; lia|].
    apply list_elem_of_fmap in Hy as (x & -> & Hx). apply Hld. pose proof (Hr x Hx). unfold hdr in *. lia.
  - unfold size. rewrite Hld by (unfold hdr in *; lia). apply Hok.
  - intros x Hx. unfold size. pose proof (Hr x Hx). rewrite Hld by (unfold hdr in *; lia). by apply (ho_free _ _ _ Hok).
  - intros x Hx. unfold size. pose proof (ho_alloc _ _ _ Hok x Hx). rewrite Hld by (unfold hdr in *; lia).
    by apply (ho_size _ _ _ Hok).
  - eapply spaced_grow; [|apply Hok]. lia.
  - rewrite Hfp. apply Hok.
  - intros x Hx. pose proof (ho_alloc _ _ _ Hok x Hx). lia.
  - apply Hok.
  - apply Hok.
  - apply Hok.
  - lia.
Qed.

Definition asked (n : Z) : Z := Z.max n 4096.

Lemma morecore_run s F A n f :
  heap_ok s F A -> 1 <= n -> hdr * asked n < 2147483648 -> (length F + 1 < f)%nat ->
  (sbrk_new (brk s) (hdr * asked n) = None /\ morecore f n s = Ok 0 s) \/
  exists s' F', morecore f n s = Ok (freep s') s' /\ freep s' <> 0 /\ heap_ok s' F' A /\ keeps A s s' /\
    (exists x, x ∈ F' /\ n <= snd x) /\ (length F' <= length F + 1)%nat.
Proof.
  intros Hok Hn Ha Hf. pose proof base_lo as Hb0. pose proof (ho_brk _ _ _ Hok) as Hbrk. unfold morecore.
  assert (Enu : (if n <? 4096 then 4096 else n) = asked n) by (unfold asked; destruct (Z.ltb_spec n 4096); lia).
  rewrite Enu. set (nu := asked n) in *. assert (Hnu : n <= nu /\ 1 <= nu) by (unfold nu, asked; lia).
  rewrite (u32_small (nu * hdr)), s32_small, (Z.mul_comm nu) by (unfold hdr in *; lia).
  unfold sbrk. destruct (sbrk_new (brk s) (hdr * nu)) as [b'|] eqn:Es.
  2: { left. split; [done|]. erewrite bind_ok; [|erewrite bind_ok by (unfold gets; reflexivity); by rewrite Es]. done. }
  right. destruct (sbrk_grows (brk s) (hdr * nu) b' ltac:(unfold hdr in *; lia) Es) as [-> Hhi].
  erewrite bind_ok; [|erewrite bind_ok by (unfold gets; reflexivity); rewrite Es;
    erewrite bind_ok by (unfold modify; reflexivity); reflexivity].
  rewrite (proj2 (Z.eqb_neq (brk s) 4294967295)) by lia.
  erewrite bind_ok by (unfold set_size, modify; reflexivity).
  set (s1 := upd_umem _ (upd_brk _ s)). rewrite plus_small by (unfold hdr in *; lia). rewrite Z.mul_1_r.
  assert (Hm : forall b, b < brk s -> load8 (umem s1) b = load8 (umem s) b)
    by (intros b Hb; unfold s1; simpl; apply load8_store32_ne; lia).
  assert (Hsz : size (brk s) s1 = nu) by (unfold size, s1; simpl; apply load32_store32; unfold hdr in *; lia).
  assert (Hb1 : brk s1 = brk s + hdr * nu) by done. assert (Hf1 : freep s1 = freep s) by done. clearbody s1.
  assert (Hok1 : heap_ok s1 F A) by (eapply heap_ok_above; [done..|rewrite Hb1; unfold hdr in *; lia]).
  assert (Hlo : loose s1 F A (brk s) nu).
  { split; [rewrite Hb1; lia|done| |].
    - intros x Hx. pose proof (spaced_elem _ _ _ _ (ho_spaced _ _ _ Hok) Hx). left. simpl. lia.
    - intros x Hx. pose proof (ho_alloc _ _ _ Hok x Hx). left. simpl. lia. }
  destruct (free_loose s1 F A (brk s) nu f Hok1 Hlo Hf) as (s2 & F' & E2 & Hok2 & Hk & _ & _ & Hlen & x & Hx & Hxn).
  rewrite (bind_ok _ _ _ _ _ E2). exists s2, F'. split; [done|]. split.
  { pose proof (ho_freep _ _ _ Hok2) as Hp. apply elem_of_cons in Hp as [-> | Hp]; [lia|].
    apply list_elem_of_fmap in Hp as (y & -> & Hy).
    pose proof (spaced_elem _ _ _ _ (ho_spaced _ _ _ Hok2) Hy). unfold hdr in *. lia. }
  split_and!; [done| |by exists x; split; [|lia]|lia].
  intros y b Hy Hb. rewrite (Hk y b Hy Hb). apply Hm. pose proof (ho_alloc _ _ _ Hok y Hy). lia.
Qed.

(** ** malloc and free *)

(** Before the first call, or with the free list [F] and the blocks [A]
    handed out. *)
Definition heap_inv (s : heap) (F A : list (Z * Z)) : Prop :=
  (freep s = 0 /\ F = [] /\ A = [] /\ base + hdr <= brk s <= KERNBASE) \/ heap_ok s F A.

Lemma keeps_trans A s1 s2 s3 : keeps A s1 s2 -> keeps A s2 s3 -> keeps A s1 s3.
Proof. intros H1 H2 x b Hx Hb. by rewrite (H2 x b), (H1 x b). Qed.

Lemma malloc_loop_run s F A n fuel p :
  heap_ok s F A -> 1 <= n -> hdr * asked n < 2147483648 -> (2 * length F + 4 <= fuel)%nat -> ptr (freep s) s = p ->
  exists r s', malloc_loop fuel n (freep s) p s = Ok r s' /\ keeps A s s' /\
    ((r = 0 /\ heap_ok s' F A /\ sbrk_new (brk s) (hdr * asked n) = None) \/
     exists a F', r = a + hdr /\ heap_ok s' F' ((a, n) :: A)).
Proof.
  intros Hok Hn Ha Hf Hp. destruct (rotation _ _ _ Hok) as (l & Hc & El & Hlast).
  assert (Hln : length l = S (length F)) by (rewrite El; simpl; unfold addrs; by rewrite length_fmap).
  destruct l as [|q l]; [done|]. assert (q = p) as -> by (destruct Hc as [<- _]; done).
  assert (Hnd : NoDup (p :: l)) by (rewrite El; by eapply heap_ok_nodup).
  destruct (malloc_scan fuel s F A n (freep s) p l) as [(r & s' & E & a & F' & -> & Hok' & Hk & _)|[Hsm E]]; try done.
  - apply Hok.
  - intros y Hy. by rewrite <- El.
  - lia.
  - exists (a + hdr), s'. split_and!; [done|done|]. right. by eauto.
  - rewrite E, Hln. clear E. set (f := (fuel - S (length F))%nat). unfold more.
    destruct (morecore_run s F A n f) as [[Es Em]|(s1 & F1 & Em & Hne & Hok1 & Hk1 & (x & Hx & Hxn) & Hl1)];
      [done|done|done|unfold f; lia| |].
    + rewrite (bind_ok _ _ _ _ _ Em). exists 0, s. split_and!; [done|intros ? ? ? ?; done|by left].
    + rewrite (bind_ok _ _ _ _ _ Em). rewrite (proj2 (Z.eqb_neq _ _)) by done.
      erewrite bind_ok by (unfold gets; reflexivity).
      destruct (rotation _ _ _ Hok1) as (k & Hck & Ek & Hlk).
      assert (Hlnk : length k = S (length F1)) by (rewrite Ek; simpl; unfold addrs; by rewrite length_fmap).
      destruct k as [|q k]; [done|]. assert (q = ptr (freep s1) s1) as -> by (by destruct Hck as [<- _]).
      destruct (malloc_scan f s1 F1 A n (freep s1) (ptr (freep s1) s1) k)
        as [(r & s' & E & a & F' & -> & Hok' & Hk & _)|[Hsm1 _]]; try done.
      * apply Hok1.
      * intros y Hy. by rewrite <- Ek.
      * rewrite Ek. by eapply heap_ok_nodup.
      * unfold f. lia.
      * exists (a + hdr), s'. split_and!; [done|by eapply keeps_trans|]. right. by eauto.
      * pose proof (rotation_sizes _ _ _ _ n Hok1 Ek Hsm1 x Hx). lia.
Qed.

Lemma units_spec nbytes :
  0 <= nbytes < 2147483632 ->
  1 <= units nbytes /\ nbytes <= hdr * (units nbytes - 1) /\ hdr * asked (units nbytes) < 2147483648.
Proof.
  intros Hb. unfold units, asked. rewrite u32_small by (unfold hdr; lia). unfold hdr. zlia.
Qed.

(** The first call makes [base] the free list. *)
Lemma heap_init s :
  base + hdr <= brk s <= KERNBASE ->
  heap_ok (upd_umem (fun m => store32 m (base + 4) 0) (upd_freep (fun _ => base)
    (upd_umem (fun m => store32 m base base) s))) [] [].
Proof.
  intros Hb. pose proof base_lo as Hb0. unfold hdr in *. split; simpl.
  - split; [|done]. rewrite load32_store32_ne by lia. apply load32_store32. lia.
  - unfold size. simpl. apply load32_store32. lia.
  - intros x Hx. by apply elem_of_nil in Hx.
  - intros x Hx. by apply elem_of_nil in Hx.
  - done.
  - constructor.
  - intros x Hx. by apply elem_of_nil in Hx.
  - intros x y Hx. by apply elem_of_nil in Hx.
  - constructor.
  - intros x y Hx. by apply elem_of_nil in Hx.
  - done.
Qed.

Lemma malloc_run s F A nbytes fuel :
  heap_inv s F A -> 1 <= units nbytes -> hdr * asked (units nbytes) < 2147483648 ->
  (2 * length F + 4 <= fuel)%nat ->
  let n := units nbytes in
  exists r s', malloc fuel nbytes s = Ok r s' /\ keeps A s s' /\
    ((r = 0 /\ heap_ok s' F A /\ sbrk_new (brk s) (hdr * asked n) = None) \/
     exists a F', r = a + hdr /\ heap_ok s' F' ((a, n) :: A)).
Proof.
  intros Hinv Hn Ha Hf n.
  pose proof base_lo as Hb0. unfold malloc. fold n in Hn, Ha |- *. erewrite bind_ok by (unfold gets; reflexivity).
  destruct Hinv as [(Hfp & -> & -> & Hbrk)|Hok].
  - rewrite Hfp. change (0 =? 0) with true. cbn iota.
    erewrite bind_ok; [|erewrite bind_ok by (unfold set_ptr, modify; reflexivity);
      erewrite bind_ok by (unfold modify; reflexivity); unfold set_size, modify; reflexivity].
    pose proof (heap_init s Hbrk) as Hok. set (s1 := upd_umem _ _) in *.
    assert (Hb1 : brk s1 = brk s) by done. clearbody s1.
    erewrite bind_ok by (unfold gets; reflexivity). erewrite bind_ok by (unfold gets; reflexivity).
    destruct (malloc_loop_run s1 [] [] n fuel _ Hok Hn Ha Hf eq_refl) as (r & s' & E & _ & Hr).
    rewrite Hb1 in Hr. exists r, s'. split; [done|]. split; [intros x b Hx; by apply elem_of_nil in Hx|].
    destruct Hr as [Hr|(a & F' & -> & Hr)]; [by left|right]. by eauto.
  - rewrite (proj2 (Z.eqb_neq (freep s) 0)).
    2: { pose proof (ho_freep _ _ _ Hok) as Hp. apply elem_of_cons in Hp as [-> | Hp]; [lia|].
         apply list_elem_of_fmap in Hp as (y & -> & Hy).
         pose proof (spaced_elem _ _ _ _ (ho_spaced _ _ _ Hok) Hy). unfold hdr in *. lia. }
    erewrite bind_ok by done. erewrite bind_ok by (unfold gets; reflexivity).
    erewrite bind_ok by (unfold gets; reflexivity).
    destruct (malloc_loop_run s F A n fuel _ Hok Hn Ha Hf eq_refl) as (r & s' & E & Hk & Hr).
    exists r, s'. split_and!; [done|done|].
    destruct Hr as [Hr|(a & F' & -> & Hr)]; [by left|right]. by eauto.
Qed.

(** C11. [malloc] returns memory nobody else has: a block of at least
    [nbytes] bytes apart from every block handed out before and from the
    free list, which stays well formed; the contents of the other blocks are
    untouched.  It returns 0 only if the kernel refuses more memory, and
    then changes nothing.  It always ends. *)
Theorem malloc_exact (s : heap) (F A : list (Z * Z)) (nbytes : Z) (fuel : nat) :
  heap_inv s F A -> 0 <= nbytes < 2147483632 -> (2 * length F + 4 <= fuel)%nat ->
  let n := units nbytes in
  exists r s', malloc fuel nbytes s = Ok r s' /\ keeps A s s' /\
    ((r = 0 /\ heap_ok s' F A /\ sbrk_new (brk s) (hdr * asked n) = None) \/
     exists a F', r = a + hdr /\ nbytes <= hdr * (n - 1) /\ heap_ok s' F' ((a, n) :: A)).
Proof.
  intros Hinv Hb Hf n. destruct (units_spec nbytes Hb) as (Hn & Hroom & Ha).
  destruct (malloc_run s F A nbytes fuel Hinv Hn Ha Hf) as (r & s' & E & Hk & Hr).
  exists r, s'. split_and!; [done|done|]. destruct Hr as [Hr|(a & F' & -> & Hr)]; [by left|right]. by eauto.
Qed.

(** The number of units wraps around: asked for nearly [2^32] bytes,
    [malloc] returns a block of one unit, which is its header, with no room
    for data at all. *)
Theorem malloc_huge (s : heap) (F A : list (Z * Z)) (nbytes : Z) (fuel : nat) :
  heap_inv s F A -> 4294967289 <= nbytes < 4294967296 -> (2 * length F + 4 <= fuel)%nat ->
  sbrk_new (brk s) 32768 <> None ->
  exists a s' F', malloc fuel nbytes s = Ok (a + hdr) s' /\ heap_ok s' F' ((a, 1) :: A).
Proof.
  intros Hinv Hb Hf Hs. assert (Eu : units nbytes = 1) by (unfold units, u32, hdr; zlia).
  destruct (malloc_run s F A nbytes fuel Hinv) as (r & s' & E & _ & [(_ & _ & En)|(a & F' & -> & Hok)]);
    [rewrite Eu; lia|rewrite Eu; unfold asked, hdr; lia|done| |].
  - rewrite Eu in En. by destruct Hs.
  - rewrite Eu in Hok. by exists a, s', F'.
Qed.

(** C21. [free] gives a block back: the free list stays well formed and grows
    by exactly the units of the block, touching free blocks are joined, and
    the other blocks handed out, with their contents, stay as they are.  It
    always ends. *)
Theorem free_exact (s : heap) (F A A' : list (Z * Z)) (a n : Z) (fuel : nat) :
  heap_ok s F A -> A ≡ₚ (a, n) :: A' -> (length F + 1 < fuel)%nat ->
  exists s' F', free fuel (a + hdr) s = Ok tt s' /\ heap_ok s' F' A' /\ keeps A' s s' /\
    total F' = total F + n.
Proof.
  intros Hok EA Hf. assert (Hsub : forall x, x ∈ A' -> x ∈ A) by (intros x Hx; rewrite EA; by constructor).
  assert (Hin : (a, n) ∈ A) by (rewrite EA; constructor).
  assert (Hnd : NoDup ((a, n) :: A')) by (rewrite <- EA; apply Hok).
  assert (Hok' : heap_ok s F A').
  { split; try apply Hok.
    - intros x Hx. by apply (ho_size _ _ _ Hok), Hsub.
    - intros x Hx. by apply (ho_alloc _ _ _ Hok), Hsub.
    - intros x y Hx. by apply (ho_apart _ _ _ Hok), Hsub.
    - by apply NoDup_cons_1_2 in Hnd.
    - intros x y Hx Hy. apply (ho_apart' _ _ _ Hok); by apply Hsub. }
  assert (Hlo : loose s F A' a n).
  { split; [by apply (ho_alloc _ _ _ Hok (a, n))|by apply (ho_size _ _ _ Hok (a, n))| |].
    - intros x Hx. by apply (ho_apart _ _ _ Hok).
    - intros x Hx. apply (ho_apart' _ _ _ Hok); [by apply Hsub|done|].
      intros ->. by apply (NoDup_cons_1_1 _ _ Hnd). }
  destruct (free_loose s F A' a n fuel Hok' Hlo Hf) as (s' & F' & E & Hok2 & Hk & Ht & _).
  by exists s', F'.
Qed.
End Heap.

(** ** A process with a heap *)

#[local] Instance demo_image : UserImage.
Proof.
  refine {| base := 4096;
            sbrk_new := fun b n => if b + n <=? KERNBASE then Some (b + n) else None |}; [lia|].
  intros b n b' Hn. destruct (Z.leb_spec (b + n) KERNBASE); [|done]. intros [= <-]. done.
Defined.

Definition demo_heap : heap := Heap ∅ 0 8192.

Lemma demo_heap_inv : heap_inv demo_heap [] [].
Proof. left. split_and!; [done..| |]; cbn; unfold hdr; lia. Qed.

Lemma malloc_exact_witness :
  exists a s' F', malloc 10 100 demo_heap = Ok (a + hdr) s' /\ heap_ok s' F' [(a, 14)].
Proof.
  destruct (malloc_exact demo_heap [] [] 100 10 demo_heap_inv) as (r & s' & E & _ & [(_ & _ & En)|(a & F' & -> & _ & Hok)]);
    [lia|simpl; lia|discriminate En|].
  exists a, s', F'. split; [exact E|exact Hok].
Defined.

Lemma malloc_huge_witness :
  exists a s' F', malloc 10 0xffffffff demo_heap = Ok (a + hdr) s' /\ heap_ok s' F' [(a, 1)].
Proof.
  apply (malloc_huge demo_heap [] [] 0xffffffff 10 demo_heap_inv); [lia|simpl; lia|discriminate].
Defined.

Lemma free_exact_witness :
  exists fuel a s s' F', malloc 10 100 demo_heap = Ok (a + hdr) s /\
    free fuel (a + hdr) s = Ok tt s' /\ heap_ok s' F' [].
Proof.
  destruct (malloc_run demo_heap [] [] 100 10 demo_heap_inv) as (r & s & E & _ & [(_ & _ & En)|(a & F & -> & Hok)]);
    [vm_compute; discriminate|reflexivity|simpl; lia|discriminate En|].
  destruct (free_exact s F [(a, units 100)] [] a (units 100) (length F + 2) Hok (Permutation_refl _) ltac:(lia))
    as (s' & F' & E' & Hok' & _).
  exists (length F + 2)%nat, a, s, s', F'. split; [exact E|]. split; [exact E'|exact Hok'].
Defined.
