(* ===== verification/Sh.v ===== *)
(** * sh.c: the shell

    The parser works on a command line given as the list of its characters
    before the terminating NUL; a [char *] into it is an index, and the end of
    the line reads as NUL.  Parsed commands hold the indices of their words,
    as the C structures hold pointers; [nulterminate] then cuts the words off
    in the buffer.  [runcmd] is the tree of system calls of a command.  The
    allocation of the structures is not modelled (see umalloc.c). *)

From S2P Require Import Prelude Machine StringC Digits User Tools.
Import Ulib Printf.

Definition MAXARGS : nat := 10.

(** ** Commands *)

(** [W] is how a word is given: two indices in the parser, a string later. *)
Inductive cmd (W : Type) : Type :=
| Exec (argv : list W)
| Redir (c : cmd W) (file : W) (mode fd : Z)
| Pipe (left right : cmd W)
| List (left right : cmd W)
| Back (c : cmd W).
Arguments Exec {W} argv.
Arguments Redir {W} c file mode fd.
Arguments Pipe {W} left right.
Arguments List {W} left right.
Arguments Back {W} c.

Definition span : Type := nat * nat.

(** ** The parser *)

(** [PPanic]: the shell has printed this and exits; [PFuel]: the recursion
    was deeper than the fuel. *)
Inductive pres (A : Type) : Type :=
| POk (a : A)
| PPanic (said : list Z)
| PFuel.
Arguments POk {A} a.
Arguments PPanic {A} said.
Arguments PFuel {A}.

#[export] Instance pres_ret : MRet pres := @POk.
#[export] Instance pres_bind : MBind pres := fun A B f r =>
  match r with
  | POk a => f a
  | PPanic said => PPanic said
  | PFuel => PFuel
  end.

Definition whitespace : list Z := [32; 9; 13; 10; 11].
Definition symbols : list Z := chars "<|>&;()".

Definition in_set (s : list Z) (c : Z) : bool :=
  match strchr s c with Some _ => true | None => false end.

(** The number of characters in [s] at the beginning of the text. *)
Fixpoint run_len (f : Z -> bool) (l : list Z) : nat :=
  match l with
  | [] => O
  | c :: l' => if f c then S (run_len f l') else O
  end.

Definition is_ws : Z -> bool := in_set whitespace.
Definition is_word (c : Z) : bool := negb (in_set whitespace c) && negb (in_set symbols c).

(** The character at [i]. *)
Definition char_at (line : list Z) (i : nat) : Z := default 0 (line !! i).

Definition skip_ws (line : list Z) (i : nat) : nat := i + run_len is_ws (drop i line).

(** The token, [*q], [*eq] and the new [*ps]. *)
Definition gettoken (line : list Z) (ps : nat) : Z * nat * nat * nat :=
  let q := skip_ws line ps in
  let c := char_at line q in
  let '(tok, eq) :=
    if c =? 0 then (0, q)
    else if bool_decide (c ∈ chars "|();&<") then (c, (q + 1)%nat)
    else if c =? 62 then
      if char_at line (q + 1) =? 62 then (43, (q + 2)%nat) else (62, (q + 1)%nat)
    else (97, (q + run_len is_word (drop q line))%nat) in
  (tok, q, eq, skip_ws line eq).

(** Whether the next token starts with one of [toks], and the new [*ps]. *)
Definition peek (line : list Z) (ps : nat) (toks : list Z) : bool * nat :=
  let s := skip_ws line ps in
  let c := char_at line s in
  (negb (c =? 0) && in_set toks c, s).

Definition say (msg : string) : list Z := chars msg ++ [nl].

(** What [parseredirs] wraps around its command for a token. *)
Definition redir_of (tok : Z) (w : span) (c : cmd span) : cmd span :=
  if tok =? 60 then Redir c w O_RDONLY 0
  else if tok =? 62 then Redir c w (Z.lor O_WRONLY O_CREATE) 1
  else if tok =? 43 then Redir c w (Z.lor O_WRONLY O_CREATE) 1
  else c.

(** The redirections are returned as the function that wraps them around a
    command, since [parseexec] fills in the arguments of the command inside
    after it has been wrapped. *)
Fixpoint parseredirs (fuel : nat) (line : list Z) (wrap : cmd span -> cmd span) (ps : nat) :
    pres ((cmd span -> cmd span) * nat) :=
  match fuel with
  | O => PFuel
  | S f =>
      let '(b, ps) := peek line ps (chars "<>") in
      if negb b then POk (wrap, ps)
      else
        let '(tok, _, _, ps) := gettoken line ps in
        let '(t, q, eq, ps) := gettoken line ps in
        if negb (t =? 97) then PPanic (say "missing file for redirection")
        else parseredirs f line (fun c => redir_of tok (q, eq) (wrap c)) ps
  end.

(** The loop of [parseexec]. *)
Fixpoint parseargs (fuel : nat) (line : list Z) (argv : list span) (wrap : cmd span -> cmd span) (ps : nat) :
    pres (cmd span * nat) :=
  match fuel with
  | O => PFuel
  | S f =>
      let '(b, ps) := peek line ps (chars "|)&;") in
      if b then POk (wrap (Exec argv), ps)
      else
        let '(tok, q, eq, ps) := gettoken line ps in
        if tok =? 0 then POk (wrap (Exec argv), ps)
        else if negb (tok =? 97) then PPanic (say "syntax")
        else
          let argv := argv ++ [(q, eq)] in
          if (MAXARGS <=? length argv)%nat then PPanic (say "too many args")
          else
            x ← parseredirs f line wrap ps;
            let '(wrap, ps) := x in
            parseargs f line argv wrap ps
  end.

(** The loop of [parseline] over [&]. *)
Fixpoint parsebacks (fuel : nat) (line : list Z) (c : cmd span) (ps : nat) : pres (cmd span * nat) :=
  match fuel with
  | O => PFuel
  | S f =>
      let '(b, ps) := peek line ps (chars "&") in
      if b then
        let '(_, _, _, ps) := gettoken line ps in
        parsebacks f line (Back c) ps
      else POk (c, ps)
  end.

Fixpoint parseline (fuel : nat) (line : list Z) (ps : nat) : pres (cmd span * nat) :=
  match fuel with
  | O => PFuel
  | S f =>
      x ← parsepipe f line ps;
      let '(c, ps) := x in
      x ← parsebacks f line c ps;
      let '(c, ps) := x in
      let '(b, ps) := peek line ps (chars ";") in
      if b then
        let '(_, _, _, ps) := gettoken line ps in
        x ← parseline f line ps;
        let '(r, ps) := x in
        POk (List c r, ps)
      else POk (c, ps)
  end
with parsepipe (fuel : nat) (line : list Z) (ps : nat) : pres (cmd span * nat) :=
  match fuel with
  | O => PFuel
  | S f =>
      x ← parseexec f line ps;
      let '(c, ps) := x in
      let '(b, ps) := peek line ps (chars "|") in
      if b then
        let '(_, _, _, ps) := gettoken line ps in
        x ← parsepipe f line ps;
        let '(r, ps) := x in
        POk (Pipe c r, ps)
      else POk (c, ps)
  end
with parseblock (fuel : nat) (line : list Z) (ps : nat) : pres (cmd span * nat) :=
  match fuel with
  | O => PFuel
  | S f =>
      let '(b, ps) := peek line ps (chars "(") in
      if negb b then PPanic (say "parseblock")
      else
        let '(_, _, _, ps) := gettoken line ps in
        x ← parseline f line ps;
        let '(c, ps) := x in
        let '(b, ps) := peek line ps (chars ")") in
        if negb b then PPanic (say "syntax - missing )")
        else
          let '(_, _, _, ps) := gettoken line ps in
          x ← parseredirs f line (fun c => c) ps;
          let '(wrap, ps) := x in
          POk (wrap c, ps)
  end
with parseexec (fuel : nat) (line : list Z) (ps : nat) : pres (cmd span * nat) :=
  match fuel with
  | O => PFuel
  | S f =>
      let '(b, ps) := peek line ps (chars "(") in
      if b then parseblock f line ps
      else
        x ← parseredirs f line (fun c => c) ps;
        let '(wrap, ps) := x in
        parseargs f line [] wrap ps
  end.

(** The words cut off in the buffer: a NUL at the end of each. *)
Definition cut (w : span) (buf : list Z) : list Z := <[snd w := 0]> buf.

Fixpoint nulterminate (c : cmd span) (buf : list Z) : list Z :=
  match c with
  | Exec argv => foldl (fun b w => cut w b) buf argv
  | Redir c w _ _ => cut w (nulterminate c buf)
  | Pipe l r => nulterminate r (nulterminate l buf)
  | List l r => nulterminate r (nulterminate l buf)
  | Back c => nulterminate c buf
  end.

(** [s] points to the buffer; the result is the command and the buffer. *)
Definition parsecmd (fuel : nat) (buf : list Z) : pres (cmd span * list Z) :=
  let line := take (Z.to_nat (strlen buf)) buf in
  x ← parseline fuel line 0;
  let '(c, ps) := x in
  let '(_, ps) := peek line ps [] in
  if negb (ps =? length line)%nat then
    PPanic (chars "leftovers: " ++ drop ps line ++ [nl] ++ say "syntax")
  else POk (c, nulterminate c buf).

(** ** Running commands *)

(** The strings that the pointers of a command point to. *)
Fixpoint cmd_map {V W} (f : V -> W) (c : cmd V) : cmd W :=
  match c with
  | Exec argv => Exec (f <$> argv)
  | Redir c w m fd => Redir (cmd_map f c) (f w) m fd
  | Pipe l r => Pipe (cmd_map f l) (cmd_map f r)
  | List l r => List (cmd_map f l) (cmd_map f r)
  | Back c => Back (cmd_map f c)
  end.

Definition string_at (buf : list Z) (w : span) : list Z := str_part (drop (fst w) buf).

Definition sh_panic {A} (s : list Z) : prog A := _ ← printf 2 (chars "%s" ++ [nl]) [A_str s]; Exit.

Definition fork1 : prog Z :=
  pid ← call Sys_fork;
  if (pid : Z) =? -1 then sh_panic (chars "fork") else Ret pid.

(** A program that never returns, where a result is expected. *)
Definition never {A} (p : prog Empty_set) : prog A := x ← p; match (x : Empty_set) with end.

Fixpoint runcmd (c : cmd (list Z)) : prog Empty_set :=
  match c with
  | Exec argv =>
      match argv with
      | [] => Exit
      | a :: _ =>
          _ ← call (Sys_exec a argv);
          _ ← printf 2 (chars "exec %s failed" ++ [nl]) [A_str a]; Exit
      end
  | Redir c file mode fd =>
      _ ← call (Sys_close fd);
      r ← call (Sys_open file mode);
      if (r : Z) <? 0 then _ ← printf 2 (chars "open %s failed" ++ [nl]) [A_str file]; Exit
      else runcmd c
  | List l r =>
      pid ← fork1;
      if (pid : Z) =? 0 then runcmd l
      else _ ← call Sys_wait; runcmd r
  | Pipe l r =>
      p ← call Sys_pipe;
      match (p : option (Z * Z)) with
      | None => sh_panic (chars "pipe")
      | Some (p0, p1) =>
          pid ← fork1;
          if (pid : Z) =? 0 then
            _ ← call (Sys_close 1); _ ← call (Sys_dup p1);
            _ ← call (Sys_close p0); _ ← call (Sys_close p1); runcmd l
          else
            pid ← fork1;
            if (pid : Z) =? 0 then
              _ ← call (Sys_close 0); _ ← call (Sys_dup p0);
              _ ← call (Sys_close p0); _ ← call (Sys_close p1); runcmd r
            else
              _ ← call (Sys_close p0); _ ← call (Sys_close p1);
              _ ← call Sys_wait; _ ← call Sys_wait; Exit
      end
  | Back c =>
      pid ← fork1;
      if (pid : Z) =? 0 then runcmd c else Exit
  end.

Definition NBUFSH : Z := 100.

(** The buffer, or [None] at the end of the input. *)
Definition getcmd : prog (option (list Z)) :=
  _ ← printf 2 (chars "$ ") [];
  bs ← gets NBUFSH;
  let buf := bs ++ replicate (Z.to_nat NBUFSH - length bs) 0 in
  if cur buf =? 0 then Ret None else Ret (Some buf).

(** Make sure that descriptors 0, 1 and 2 are open. *)
Fixpoint open_three (fuel : nat) : prog unit :=
  match fuel with
  | O => Spin
  | S f =>
      fd ← call (Sys_open (chars "console") O_RDWR);
      if 0 <=? (fd : Z) then
        if 3 <=? fd then _ ← call (Sys_close fd); Ret tt else open_three f
      else Ret tt
  end.

Fixpoint sh_loop (fuel : nat) : prog unit :=
  match fuel with
  | O => Spin
  | S f =>
      x ← getcmd;
      match (x : option (list Z)) with
      | None => Exit
      | Some buf =>
          if (char_at buf 0 =? 99) && (char_at buf 1 =? 100) && (char_at buf 2 =? 32) then
            let buf := <[Z.to_nat (strlen buf - 1) := 0]> buf in
            let dir := str_part (drop 3 buf) in
            r ← call (Sys_chdir dir);
            _ ← (if (r : Z) <? 0 then printf 2 (chars "cannot cd %s" ++ [nl]) [A_str dir] else Ret tt);
            sh_loop f
          else
            pid ← fork1;
            if (pid : Z) =? 0 then
              match parsecmd (4 * Z.to_nat NBUFSH) buf with
              | POk (c, buf) => never (runcmd (cmd_map (string_at buf) c))
              | PPanic said => _ ← puts 2 said; Exit
              | PFuel => Spin
              end
            else _ ← call Sys_wait; sh_loop f
      end
  end.

Definition main (fuel : nat) : prog unit := _ ← open_three fuel; sh_loop fuel.
