(* ===== verification/ShProps.v ===== *)
(** * sh.c: properties of the parser

    Parsing ends on every line, the words of the parsed command are the
    strings in the buffer after [nulterminate], and parsing is the inverse of
    printing a command. *)

From S2P Require Import Prelude Machine StringC Digits User UserProps Tools Sh.
Import Ulib Printf.

(** ** Tokens *)

Lemma run_len_le f l : (run_len f l <= length l)%nat.
Proof. induction l; simpl; [lia|]. destruct (f a); lia. Qed.

Lemma skip_ws_ge line i : (i <= skip_ws line i)%nat.
Proof. unfold skip_ws. lia. Qed.

Lemma skip_ws_le line i : (i <= length line -> skip_ws line i <= length line)%nat.
Proof. intros Hi. unfold skip_ws. pose proof (run_len_le is_ws (drop i line)). rewrite length_drop in *. lia. Qed.

(** The character after the longest run. *)
Lemma run_len_stop f l : match l !! run_len f l with Some c => f c = false | None => True end.
Proof. induction l as [|c l IH]; simpl; [done|]. destruct (f c) eqn:E; [done|by simpl]. Qed.

Lemma char_at_skip line i : is_ws (char_at line (skip_ws line i)) = true -> char_at line (skip_ws line i) = 0.
Proof.
  unfold char_at, skip_ws. pose proof (run_len_stop is_ws (drop i line)) as Hs. rewrite lookup_drop in Hs.
  destruct (line !! (i + _)%nat) as [c|]; simpl; [congruence|done].
Qed.

Lemma in_set_iff s c : no_nul s -> in_set s c = true <-> c ∈ s.
Proof.
  intros Hs. unfold in_set. pose proof (strchr_none s c Hs). destruct (strchr s c); [|naive_solver].
  split; [|done]. intros _. destruct (decide (c ∈ s)); [done|naive_solver].
Qed.

Lemma in_set_false s c : no_nul s -> in_set s c = false <-> c ∉ s.
Proof.
  intros Hs. rewrite <- not_true_iff_false, in_set_iff by done. done.
Qed.

Lemma symbols_ok : no_nul symbols.
Proof. by apply no_nul_test. Qed.

Lemma whitespace_ok : no_nul whitespace.
Proof. by apply no_nul_test. Qed.

(** What [gettoken] finds after white space: the end, a symbol, or a word
    that stops where the line, a space or a symbol does. *)
Lemma gettoken_cases line ps :
  (ps <= length line)%nat -> no_nul line ->
  let '(tok, q, eq, ps') := gettoken line ps in
  (ps <= q <= eq)%nat /\ (eq <= ps' <= length line)%nat /\
  ((tok = 0 /\ eq = q /\ q = length line) \/
   (tok <> 0 /\ tok <> 97 /\ (q < eq)%nat) \/
   (tok = 97 /\ (q < eq)%nat /\
    (forall j, (q <= j < eq)%nat -> is_word (char_at line j) = true) /\
    ((eq < length line)%nat -> is_word (char_at line eq) = false))).
Proof.
  intros Hps Hz. unfold gettoken. set (q := skip_ws line ps).
  assert (Hq : (ps <= q <= length line)%nat) by (split; [apply skip_ws_ge|by apply skip_ws_le]).
  assert (Hin : char_at line q <> 0 -> (q < length line)%nat).
  { intros Hc. unfold char_at in Hc. destruct (line !! q) eqn:E; [by apply lookup_lt_Some in E|done]. }
  assert (Hend : char_at line q = 0 -> q = length line).
  { intros Hc. unfold char_at in Hc. destruct (line !! q) as [c|] eqn:E.
    - simpl in Hc. subst. by apply (Forall_lookup_1 _ _ _ _ Hz) in E.
    - apply lookup_ge_None in E. lia. }
  assert (Hsk : forall e, (e <= length line)%nat -> (e <= skip_ws line e <= length line)%nat).
  { intros e He. split; [apply skip_ws_ge|by apply skip_ws_le]. }
  set (c := char_at line q) in *.
  destruct (Z.eqb_spec c 0) as [E0|E0].
  { pose proof (Hsk q ltac:(lia)). split_and!; [lia..|]. left. split_and!; [done|done|by apply Hend]. }
  specialize (Hin E0). destruct (bool_decide_reflect (c ∈ chars "|();&<")) as [Hs|Hs].
  { pose proof (Hsk (q + 1)%nat ltac:(lia)). split_and!; [lia..|]. right. left.
    split_and!; [done| |lia]. intros E. rewrite E in Hs.
    change (chars "|();&<") with [124; 40; 41; 59; 38; 60] in Hs.
    clear - Hs. set_solver. }
  destruct (Z.eqb_spec c 62) as [E62|E62].
  { destruct (Z.eqb_spec (char_at line (q + 1)) 62) as [E|E].
    - assert (q + 1 < length line)%nat.
      { unfold char_at in E. destruct (line !! (q + 1)%nat) eqn:El; [by apply lookup_lt_Some in El|done]. }
      pose proof (Hsk (q + 2)%nat ltac:(lia)). split_and!; [lia..|]. right. left. split_and!; [done|done|lia].
    - pose proof (Hsk (q + 1)%nat ltac:(lia)). split_and!; [lia..|]. right. left. split_and!; [done|done|lia]. }
  set (n := run_len is_word (drop q line)).
  assert (Hn : (n <= length line - q)%nat) by (unfold n; rewrite <- length_drop; apply run_len_le).
  assert (Hw : is_word c = true).
  { unfold is_word. apply andb_true_iff. rewrite !negb_true_iff. split.
    - destruct (in_set whitespace c) eqn:E; [|done]. exfalso. apply E0. by apply char_at_skip.
    - apply in_set_false; [apply symbols_ok|]. intros Hin'. change symbols with [60; 124; 62; 38; 59; 40; 41] in Hin'.
      change (chars "|();&<") with [124; 40; 41; 59; 38; 60] in Hs.
      clear - Hs Hin' E62. set_solver. }
  assert (Hrun : forall l j, (j < run_len is_word l)%nat -> is_word (default 0 (l !! j)) = true).
  { clear. induction l as [|d l IH]; simpl; intros j Hj; [lia|]. destruct (is_word d) eqn:E; [|lia].
    destruct j; [done|]. simpl. apply IH. lia. }
  assert (Hpos : (0 < n)%nat).
  { unfold n. destruct (drop q line) as [|d l] eqn:Ed.
    - apply (f_equal length) in Ed. rewrite length_drop in Ed. simpl in Ed. lia.
    - assert (d = c) as ->.
      { unfold c, char_at. assert (line !! q = Some d) as ->; [|done].
        rewrite <- (Nat.add_0_r q), <- lookup_drop, Ed. done. }
      simpl. rewrite Hw. lia. }
  pose proof (Hsk (q + n)%nat ltac:(lia)). split_and!; [lia..|]. right. right. split_and!; [done|lia| |].
  - intros j Hj. replace j with (q + (j - q))%nat by lia. unfold char_at. rewrite <- lookup_drop.
    apply Hrun. unfold n in Hj. lia.
  - intros Hlt. pose proof (run_len_stop is_word (drop q line)) as Hst. fold n in Hst.
    rewrite lookup_drop in Hst. unfold char_at. destruct (line !! (q + n)%nat) eqn:El; [done|].
    apply lookup_ge_None in El. lia.
Qed.

Lemma peek_pos line ps toks :
  (ps <= length line)%nat -> (ps <= snd (peek line ps toks) <= length line)%nat.
Proof. intros Hp. unfold peek. simpl. split; [apply skip_ws_ge|by apply skip_ws_le]. Qed.

(** After a successful [peek] there is a token, and it is not the end. *)
Lemma peek_token line ps toks s :
  no_nul line -> (ps <= length line)%nat -> peek line ps toks = (true, s) ->
  let '(tok, q, eq, ps') := gettoken line s in (s < ps' <= length line)%nat.
Proof.
  intros Hz Hps E. pose proof (peek_pos line ps toks Hps) as Hp. rewrite E in Hp. simpl in Hp.
  pose proof (gettoken_cases line s ltac:(lia) Hz) as Hg.
  unfold peek in E. injection E as Eb Es. rewrite Es in Eb. apply andb_true_iff in Eb as [Eb _].
  apply negb_true_iff, Z.eqb_neq in Eb.
  assert (Hq : skip_ws line s = s).
  { unfold skip_ws. destruct (drop s line) as [|c l] eqn:Ed; simpl; [lia|].
    destruct (is_ws c) eqn:Ew; [|lia]. exfalso. apply Eb. rewrite <- Es. apply char_at_skip. rewrite Es.
    unfold char_at. rewrite <- (Nat.add_0_r s), <- lookup_drop, Ed. done. }
  destruct (gettoken line s) as [[[tok q] eq] ps'] eqn:Eg.
  assert (q = s) as -> by (unfold gettoken in Eg; rewrite Hq in Eg; repeat case_match; congruence).
  destruct Hg as (H1 & H2 & [(_ & _ & Hl)|[(_ & _ & ?)|(_ & ? & _)]]); [|lia|lia].
  exfalso. apply Eb. unfold char_at. rewrite lookup_ge_None_2; [done|lia].
Qed.

(** ** Words *)

(** A longest run of word characters. *)
Record word (line : list Z) (w : span) : Prop := {
  wd_range : (fst w < snd w <= length line)%nat;
  wd_chars : forall j, (fst w <= j < snd w)%nat -> is_word (char_at line j) = true;
  wd_after : (snd w < length line)%nat -> is_word (char_at line (snd w)) = false;
  wd_before : (0 < fst w)%nat -> is_word (char_at line (fst w - 1)) = false }.

(** A position that is not inside a word. *)
Definition boundary (line : list Z) (i : nat) : Prop :=
  (i <= length line)%nat /\
  (i = O \/ i = length line \/ is_word (char_at line (i - 1)) = false \/ is_word (char_at line i) = false).

Lemma ws_not_word c : is_ws c = true -> is_word c = false.
Proof. unfold is_word, is_ws. by intros ->. Qed.

Lemma boundary_skip line i : boundary line i -> boundary line (skip_ws line i).
Proof.
  intros [Hi Hb]. split; [by apply skip_ws_le|]. unfold skip_ws.
  destruct (run_len is_ws (drop i line)) as [|n] eqn:E; [by rewrite Nat.add_0_r|]. right. right. left.
  assert (Hrun : forall l m, run_len is_ws l = S m -> is_ws (default 0 (l !! m)) = true).
  { clear. induction l as [|d l IH]; intros m; simpl; [done|]. destruct (is_ws d) eqn:Ed; [|done].
    intros [= <-]. destruct (run_len is_ws l) eqn:El; [done|]. simpl. by apply IH. }
  apply ws_not_word. replace (i + S n - 1)%nat with (i + n)%nat by lia. unfold char_at.
  rewrite <- lookup_drop. by apply Hrun.
Qed.

(** Tokens start and end at boundaries, and words are words. *)
Lemma gettoken_word line ps :
  boundary line ps -> no_nul line ->
  let '(tok, q, eq, ps') := gettoken line ps in
  boundary line ps' /\ (tok = 97 -> word line (q, eq)).
Proof.
  intros Hb Hz. pose proof (gettoken_cases line ps ltac:(apply Hb) Hz) as Hg.
  pose proof (boundary_skip _ _ Hb) as Hbq.
  destruct (gettoken line ps) as [[[tok q] eq] ps'] eqn:E.
  assert (Hq : q = skip_ws line ps) by (unfold gettoken in E; repeat case_match; congruence).
  assert (Hps' : ps' = skip_ws line eq) by (unfold gettoken in E; repeat case_match; congruence).
  rewrite <- Hq in Hbq. destruct Hg as (H1 & H2 & Hg).
  destruct Hg as [(-> & -> & Hl)|[(Ht0 & Ht & Hlt)|(-> & Hlt & Hc & Ha)]].
  - split; [|done]. rewrite Hps'. by apply boundary_skip.
  - split; [|done]. rewrite Hps'. apply boundary_skip. split; [lia|]. right. right. left.
    assert (Hcs : char_at line (eq - 1) ∈ symbols).
    { unfold gettoken in E. rewrite <- Hq in E. change symbols with [60; 124; 62; 38; 59; 40; 41].
      destruct (Z.eqb_spec (char_at line q) 0); [congruence|].
      destruct (bool_decide_reflect (char_at line q ∈ chars "|();&<")) as [Hs|Hs].
      { injection E as _ <- _. replace (q + 1 - 1)%nat with q by lia.
        change (chars "|();&<") with [124; 40; 41; 59; 38; 60] in Hs. clear - Hs. set_solver. }
      destruct (Z.eqb_spec (char_at line q) 62) as [E62|E62]; [|congruence].
      destruct (Z.eqb_spec (char_at line (q + 1)) 62) as [E2|E2]; injection E as _ <- _.
      - replace (q + 2 - 1)%nat with (q + 1)%nat by lia. rewrite E2. clear. set_solver.
      - replace (q + 1 - 1)%nat with q by lia. rewrite E62. clear. set_solver. }
    unfold is_word. apply (in_set_iff _ _ symbols_ok) in Hcs. rewrite Hcs. apply andb_false_r.
  - split.
    + rewrite Hps'. apply boundary_skip. split; [lia|].
      destruct (Nat.eq_dec eq (length line)); [by right; left|]. right. right. right. apply Ha. lia.
    + intros _. split; simpl; [lia|done|done|]. intros Hq0.
      destruct Hbq as [_ [?|[?|[?|Hw]]]]; [lia|lia|done|]. rewrite Hc in Hw by lia. done.
Qed.

Lemma peek_boundary line ps toks : boundary line ps -> boundary line (snd (peek line ps toks)).
Proof. apply boundary_skip. Qed.

(** ** What the parser returns *)

Fixpoint spans_of (c : cmd span) : list span :=
  match c with
  | Exec argv => argv
  | Redir c w _ _ => w :: spans_of c
  | Pipe l r => spans_of l ++ spans_of r
  | List l r => spans_of l ++ spans_of r
  | Back c => spans_of c
  end.

(** The parser returns, with a result in [P], or panics. *)
Definition ends_in {A} (P : A -> Prop) (r : pres A) : Prop :=
  match r with POk a => P a | PPanic _ => True | PFuel => False end.

Lemma ends_bind {A B} (P : A -> Prop) (Q : B -> Prop) (r : pres A) (f : A -> pres B) :
  ends_in P r -> (forall a, P a -> ends_in Q (f a)) -> ends_in Q (x ← r; f x).
Proof. destruct r; simpl; auto. Qed.

Section Ends.
Context (line : list Z) (Hz : no_nul line).

Definition words_in (c : cmd span) : Prop := Forall (word line) (spans_of c).
Definition goes_on (ps ps' : nat) : Prop := (ps <= ps')%nat /\ boundary line ps'.
Definition rest (ps : nat) : nat := length line - ps.

Lemma goes_trans p1 p2 p3 : goes_on p1 p2 -> goes_on p2 p3 -> goes_on p1 p3.
Proof. intros [] []. split; [lia|done]. Qed.

Lemma peek_goes ps toks : boundary line ps -> goes_on ps (snd (peek line ps toks)).
Proof. intros Hb. split; [apply peek_pos, Hb|by apply peek_boundary]. Qed.

Lemma redir_of_words tok w c : word line w -> words_in c -> words_in (redir_of tok w c).
Proof. intros Hw Hc. unfold redir_of. repeat case_match; try done; by constructor. Qed.

Lemma parseredirs_ends fuel wrap ps :
  boundary line ps -> (rest ps < fuel)%nat -> (forall c, words_in c -> words_in (wrap c)) ->
  ends_in (fun x => goes_on ps (snd x) /\ forall c, words_in c -> words_in (fst x c)) (parseredirs fuel line wrap ps).
Proof.
  revert wrap ps. induction fuel as [|f IH]; intros wrap ps Hb Hf Hw; [lia|]. cbn [parseredirs].
  pose proof (peek_goes ps (chars "<>") Hb) as Hp.
  destruct (peek line ps (chars "<>")) as [b s] eqn:Ep. simpl in Hp. destruct b; cbn [negb]; [|done].
  pose proof (peek_token line ps _ s Hz (proj1 Hb) Ep) as Ht.
  pose proof (gettoken_word line s (proj2 Hp) Hz) as Hg.
  destruct (gettoken line s) as [[[tok q] eq] ps1]. destruct Hg as [Hb1 _].
  pose proof (gettoken_cases line ps1 ltac:(lia) Hz) as Hc2. pose proof (gettoken_word line ps1 Hb1 Hz) as Hg2.
  destruct (gettoken line ps1) as [[[t q2] eq2] ps2]. destruct Hg2 as [Hb2 Hw2].
  destruct (Z.eqb_spec t 97) as [->|Ht97]; cbn [negb]; [|done].
  assert (Hgo : goes_on ps ps2) by (destruct Hp; split; [lia|done]).
  assert (Hr : (rest ps2 < f)%nat) by (unfold rest in *; destruct Hp; lia).
  specialize (IH (fun c => redir_of tok (q2, eq2) (wrap c)) ps2 Hb2 Hr).
  destruct (parseredirs f line _ ps2) as [[w' ps3]| |]; simpl in *; [|done|].
  - destruct IH as [Hgo' Hw']; [intros c Hc; by apply redir_of_words; [apply Hw2|apply Hw]|].
    split; [by eapply goes_trans|done].
  - apply IH. intros c Hc. by apply redir_of_words; [apply Hw2|apply Hw].
Qed.

Lemma parseargs_ends fuel argv wrap ps :
  boundary line ps -> (rest ps < fuel)%nat -> (forall c, words_in c -> words_in (wrap c)) -> Forall (word line) argv ->
  ends_in (fun x => goes_on ps (snd x) /\ words_in (fst x)) (parseargs fuel line argv wrap ps).
Proof.
  revert argv wrap ps. induction fuel as [|f IH]; intros argv wrap ps Hb Hf Hw Ha; [lia|]. cbn [parseargs].
  pose proof (peek_goes ps (chars "|)&;") Hb) as Hp.
  destruct (peek line ps (chars "|)&;")) as [b s] eqn:Ep. simpl in Hp. destruct b.
  { split; [done|]. by apply Hw. }
  pose proof (gettoken_cases line s ltac:(apply Hp) Hz) as Hc. pose proof (gettoken_word line s (proj2 Hp) Hz) as Hg.
  destruct (gettoken line s) as [[[tok q] eq] ps1]. destruct Hg as [Hb1 Hw1].
  assert (Hgo : goes_on ps ps1) by (destruct Hp; split; [lia|done]).
  destruct (Z.eqb_spec tok 0) as [->|Ht0]. { split; [done|]. by apply Hw. }
  destruct (Z.eqb_spec tok 97) as [->|Ht97]; cbn [negb]; [|done]. destruct (_ <=? _)%nat; [done|].
  assert (Hr : (rest ps1 < f)%nat).
  { unfold rest in *. destruct Hp. destruct Hc as (? & ? & [?|[?|?]]); [naive_solver|naive_solver|lia]. }
  eapply ends_bind; [by apply parseredirs_ends|]. intros [w2 ps2] [Hgo2 Hw2]. simpl in Hgo2, Hw2.
  assert (Hr2 : (rest ps2 < f)%nat) by (unfold rest in *; destruct Hgo2; lia).
  assert (Ha2 : Forall (word line) (argv ++ [(q, eq)])) by (apply Forall_app; split; [done|]; constructor; [by apply Hw1|done]).
  specialize (IH (argv ++ [(q, eq)]) w2 ps2 (proj2 Hgo2) Hr2 Hw2 Ha2).
  destruct (parseargs f line _ w2 ps2) as [[c ps3]| |]; simpl in *; [|done|done].
  destruct IH as [Hgo3 Hc3]. split; [|done]. eapply goes_trans; [exact Hgo|]. by eapply goes_trans.
Qed.

Lemma parsebacks_ends fuel c ps :
  boundary line ps -> (rest ps < fuel)%nat -> words_in c ->
  ends_in (fun x => goes_on ps (snd x) /\ words_in (fst x)) (parsebacks fuel line c ps).
Proof.
  revert c ps. induction fuel as [|f IH]; intros c ps Hb Hf Hc; [lia|]. cbn [parsebacks].
  pose proof (peek_goes ps (chars "&") Hb) as Hp.
  destruct (peek line ps (chars "&")) as [b s] eqn:Ep. simpl in Hp. destruct b; [|done].
  pose proof (peek_token line ps _ s Hz (proj1 Hb) Ep) as Ht. pose proof (gettoken_word line s (proj2 Hp) Hz) as Hg.
  destruct (gettoken line s) as [[[tok q] eq] ps1]. destruct Hg as [Hb1 _].
  assert (Hr : (rest ps1 < f)%nat) by (unfold rest in *; destruct Hp; lia).
  specialize (IH (Back c) ps1 Hb1 Hr Hc).
  destruct (parsebacks f line _ ps1) as [[c2 ps2]| |]; simpl in *; [|done|done].
  destruct IH as [Hgo2 Hc2]. split; [|done]. eapply goes_trans; [|exact Hgo2]. destruct Hp. split; [lia|done].
Qed.

(** A symbol that [peek] has seen, then what follows it. *)
Lemma after_symbol ps toks s :
  boundary line ps -> peek line ps toks = (true, s) ->
  let '(_, _, _, ps') := gettoken line s in goes_on ps ps' /\ (rest ps' < rest ps)%nat.
Proof.
  intros Hb Ep. pose proof (peek_goes ps toks Hb) as Hp. rewrite Ep in Hp. simpl in Hp.
  pose proof (peek_token line ps _ s Hz (proj1 Hb) Ep) as Ht. pose proof (gettoken_word line s (proj2 Hp) Hz) as Hg.
  destruct (gettoken line s) as [[[tok q] eq] ps1]. destruct Hg as [Hb1 _]. destruct Hp as [Hle _].
  split; [split; [lia|done]|]. unfold rest. lia.
Qed.

Definition good (ps : nat) (x : cmd span * nat) : Prop := goes_on ps (snd x) /\ words_in (fst x).

Lemma good_later ps ps' x : goes_on ps ps' -> good ps' x -> good ps x.
Proof. intros Hg [Hx Hw]. split; [by eapply goes_trans|done]. Qed.

Lemma ends_mono {A} (P Q : A -> Prop) (r : pres A) : (forall a, P a -> Q a) -> ends_in P r -> ends_in Q r.
Proof. destruct r; simpl; auto. Qed.

Lemma rest_le ps ps' : goes_on ps ps' -> (rest ps' <= rest ps)%nat.
Proof. intros [? _]. unfold rest. lia. Qed.

Lemma parse_ends fuel :
  (forall ps, boundary line ps -> (4 * rest ps + 4 <= fuel)%nat -> ends_in (good ps) (parseline fuel line ps)) /\
  (forall ps, boundary line ps -> (4 * rest ps + 3 <= fuel)%nat -> ends_in (good ps) (parsepipe fuel line ps)) /\
  (forall ps, boundary line ps -> (4 * rest ps + 1 <= fuel)%nat -> ends_in (good ps) (parseblock fuel line ps)) /\
  (forall ps, boundary line ps -> (4 * rest ps + 2 <= fuel)%nat -> ends_in (good ps) (parseexec fuel line ps)).
Proof.
  induction fuel as [|f (IHl & IHp & IHb & IHe)]; [split_and!; intros; lia|].
  assert (Hid : forall c, words_in c -> words_in c) by done. split_and!; intros ps Hb Hf.
  - cbn [parseline]. eapply ends_bind; [apply IHp; [done|lia]|]. intros [c1 ps1] [Hg1 Hw1]. simpl in Hg1, Hw1.
    pose proof (rest_le _ _ Hg1). eapply ends_bind; [apply parsebacks_ends; [apply Hg1|lia|done]|].
    intros [c2 ps2] [Hg2 Hw2]. simpl in Hg2, Hw2. pose proof (rest_le _ _ Hg2).
    assert (Hg : goes_on ps ps2) by by eapply goes_trans.
    pose proof (peek_goes ps2 (chars ";") (proj2 Hg)) as Hp.
    destruct (peek line ps2 (chars ";")) as [b s] eqn:Ep. simpl in Hp. destruct b.
    2: { split; [by eapply goes_trans|done]. }
    pose proof (after_symbol ps2 _ s (proj2 Hg) Ep) as Ha. destruct (gettoken line s) as [[[tok q] eq] ps3].
    destruct Ha as [Hg3 Hlt]. eapply ends_bind; [apply IHl; [apply Hg3|lia]|]. intros [c4 ps4] [Hg4 Hw4].
    split; [|by apply Forall_app]. eapply goes_trans; [exact Hg|]. by eapply goes_trans.
  - cbn [parsepipe]. eapply ends_bind; [apply IHe; [done|lia]|]. intros [c1 ps1] [Hg1 Hw1]. simpl in Hg1, Hw1.
    pose proof (rest_le _ _ Hg1). pose proof (peek_goes ps1 (chars "|") (proj2 Hg1)) as Hp.
    destruct (peek line ps1 (chars "|")) as [b s] eqn:Ep. simpl in Hp. destruct b.
    2: { split; [by eapply goes_trans|done]. }
    pose proof (after_symbol ps1 _ s (proj2 Hg1) Ep) as Ha. destruct (gettoken line s) as [[[tok q] eq] ps3].
    destruct Ha as [Hg3 Hlt]. eapply ends_bind; [apply IHp; [apply Hg3|lia]|]. intros [c4 ps4] [Hg4 Hw4].
    split; [|by apply Forall_app]. eapply goes_trans; [exact Hg1|]. by eapply goes_trans.
  - cbn [parseblock]. pose proof (peek_goes ps (chars "(") Hb) as Hp.
    destruct (peek line ps (chars "(")) as [b s] eqn:Ep. simpl in Hp. destruct b; cbn [negb]; [|done].
    pose proof (after_symbol ps _ s Hb Ep) as Ha. destruct (gettoken line s) as [[[tok q] eq] ps1].
    destruct Ha as [Hg1 Hlt1]. eapply ends_bind; [apply IHl; [apply Hg1|lia]|]. intros [c2 ps2] [Hg2 Hw2].
    simpl in Hg2, Hw2. pose proof (rest_le _ _ Hg2). pose proof (peek_goes ps2 (chars ")") (proj2 Hg2)) as Hp2.
    destruct (peek line ps2 (chars ")")) as [b2 s2] eqn:Ep2. simpl in Hp2. destruct b2; cbn [negb]; [|done].
    pose proof (after_symbol ps2 _ s2 (proj2 Hg2) Ep2) as Ha2. destruct (gettoken line s2) as [[[tok2 q2] eq2] ps3].
    destruct Ha2 as [Hg3 Hlt3]. eapply ends_bind; [apply parseredirs_ends; [apply Hg3|lia|done]|].
    intros [w ps4] [Hg4 Hw4]. simpl in Hg4, Hw4. split; [|by apply Hw4]. simpl.
    eapply goes_trans; [exact Hg1|]. eapply goes_trans; [exact Hg2|]. by eapply goes_trans.
  - cbn [parseexec]. pose proof (peek_goes ps (chars "(") Hb) as Hp.
    destruct (peek line ps (chars "(")) as [b s] eqn:Ep. simpl in Hp. pose proof (rest_le _ _ Hp). destruct b.
    { eapply ends_mono; [|apply IHb; [apply Hp|lia]]. intros x. by apply good_later. }
    eapply ends_bind; [apply parseredirs_ends; [apply Hp|lia|done]|]. intros [w ps1] [Hg1 Hw1]. simpl in Hg1, Hw1.
    pose proof (rest_le _ _ Hg1).
    eapply ends_mono; [|apply parseargs_ends; [apply Hg1|lia|done|constructor]].
    intros x. apply good_later. by eapply goes_trans.
Qed.
End Ends.

(** ** Strings in the buffer *)

(** The characters of a word in the line. *)
Definition text_of (line : list Z) (w : span) : list Z := take (snd w - fst w) (drop (fst w) line).

Lemma char_word_nonzero line w j :
  no_nul line -> word line w -> (fst w <= j < snd w)%nat -> exists c, line !! j = Some c /\ c <> 0.
Proof.
  intros Hz [Hr _ _ _] Hj. destruct (lookup_lt_is_Some_2 line j ltac:(lia)) as [c E]. exists c.
  split; [done|]. by apply (Forall_lookup_1 _ _ _ _ Hz E).
Qed.

(** Cutting off one word does not cut another. *)
Lemma words_apart line v w :
  word line v -> word line w -> ~ (fst w <= snd v < snd w)%nat.
Proof.
  intros Hv Hw Hj. pose proof (wd_range _ _ Hv). pose proof (wd_range _ _ Hw).
  pose proof (wd_after _ _ Hv ltac:(lia)) as Ha. by rewrite (wd_chars _ _ Hw _ Hj) in Ha.
Qed.

Lemma string_of_word buf line w junk :
  no_nul line -> word line w ->
  (forall j, (fst w <= j < snd w)%nat -> buf !! j = (line ++ junk) !! j) -> buf !! snd w = Some 0 ->
  string_at buf w = text_of line w.
Proof.
  intros Hz Hw Hsame Hend. pose proof (wd_range _ _ Hw) as Hr. unfold string_at, text_of.
  assert (Hstr : forall n i, (i + n = snd w)%nat -> (fst w <= i)%nat ->
    str_part (drop i buf) = take n (drop i line)).
  { induction n as [|n IH]; intros i Hi Hlo.
    - rewrite take_0. replace i with (snd w) by lia. by rewrite (drop_S _ _ _ Hend).
    - destruct (char_word_nonzero line w i Hz Hw ltac:(lia)) as (c & Ec & Hc).
      assert (Eb : buf !! i = Some c) by (rewrite Hsame by lia; by rewrite lookup_app_l by lia).
      rewrite (drop_S _ _ _ Eb), (drop_S _ _ _ Ec). simpl. rewrite (proj2 (Z.eqb_neq c 0)) by done.
      f_equal. apply IH; lia. }
  apply Hstr; lia.
Qed.

Lemma nulterminate_lookup c buf j :
  nulterminate c buf !! j =
  if decide (j ∈ (snd <$> spans_of c)) then (if decide (j < length buf)%nat then Some 0 else None) else buf !! j.
Proof.
  assert (Hlen : forall c b, length (nulterminate c b) = length b).
  { clear. induction c as [argv|c IH w m fd|l IHl r IHr|l IHl r IHr|c IH]; intros b; simpl.
    - revert b. induction argv as [|w argv IH]; intros b; simpl; [done|]. rewrite IH. apply length_insert.
    - unfold cut. by rewrite length_insert.
    - by rewrite IHr.
    - by rewrite IHr.
    - done. }
  assert (Hcut : forall w (b : list Z), cut w b !! j =
    if decide (j = snd w) then (if decide (j < length b)%nat then Some 0 else None) else b !! j).
  { clear. intros w b. unfold cut. destruct (decide (j = snd w)) as [->|Hne].
    - destruct (decide _); [by rewrite list_lookup_insert_eq|]. apply lookup_ge_None_2. rewrite length_insert. lia.
    - by rewrite list_lookup_insert_ne. }
  revert buf. induction c as [argv|c IH w m fd|l IHl r IHr|l IHl r IHr|c IH]; intros buf; simpl.
  - revert buf. induction argv as [|w argv IH]; intros buf; simpl; [done|].
    rewrite IH, Hcut. unfold cut. rewrite length_insert.
    destruct (decide (j ∈ snd <$> argv)) as [Hin|Hin].
    + by rewrite (decide_True (P := j ∈ _ :: _)) by (by constructor).
    + destruct (decide (j = snd w)) as [->|Hne].
      * by rewrite (decide_True (P := _ ∈ _ :: _)) by constructor.
      * by rewrite decide_False by (apply not_elem_of_cons; done).
  - rewrite Hcut, IH, Hlen. destruct (decide (j = snd w)) as [->|Hne].
    + by rewrite (decide_True (P := _ ∈ _ :: _)) by constructor.
    + destruct (decide (j ∈ snd <$> spans_of c)).
      * by rewrite (decide_True (P := _ ∈ _ :: _)) by (by constructor).
      * by rewrite decide_False by (apply not_elem_of_cons; done).
  - rewrite IHr, IHl, Hlen, fmap_app. repeat case_decide; rewrite ?elem_of_app in *; naive_solver.
  - rewrite IHr, IHl, Hlen, fmap_app. repeat case_decide; rewrite ?elem_of_app in *; naive_solver.
  - apply IH.
Qed.

Lemma cmd_map_ext {W} (f g : span -> W) (c : cmd span) :
  Forall (fun w => f w = g w) (spans_of c) -> cmd_map f c = cmd_map g c.
Proof.
  induction c as [argv|c IH w m fd|l IHl r IHr|l IHl r IHr|c IH]; simpl; intros H.
  - f_equal. by apply Forall_fmap_ext_1.
  - apply Forall_cons_1 in H as [-> H]. by rewrite IH.
  - apply Forall_app in H as [? ?]. by rewrite IHl, IHr.
  - apply Forall_app in H as [? ?]. by rewrite IHl, IHr.
  - by rewrite IH.
Qed.

(** After [nulterminate] the pointers of the command point to its words. *)
Lemma nulterminate_strings line junk c :
  no_nul line -> words_in line c ->
  cmd_map (string_at (nulterminate c (line ++ 0 :: junk))) c = cmd_map (text_of line) c.
Proof.
  intros Hz Hw. apply cmd_map_ext. apply list.Forall_forall. intros w Hin.
  unfold words_in in Hw. rewrite list.Forall_forall in Hw. pose proof (Hw w Hin) as Hword.
  pose proof (wd_range _ _ Hword) as Hr.
  apply (string_of_word _ _ _ (0 :: junk)); [done|done| |].
  - intros j Hj. rewrite nulterminate_lookup. rewrite decide_False; [done|].
    intros Hjn. apply list_elem_of_fmap in Hjn as (v & -> & Hv). by apply (words_apart line v w); [apply Hw|..].
  - rewrite nulterminate_lookup, decide_True by (by apply list_elem_of_fmap_2).
    rewrite decide_True; [done|]. rewrite length_app. simpl. lia.
Qed.

Lemma strlen_line line junk : no_nul line -> strlen (line ++ 0 :: junk) = Z.of_nat (length line).
Proof.
  induction 1 as [|c line Hc _ IH]; [done|]. cbn [app strlen length]. rewrite (proj2 (Z.eqb_neq c 0)), IH by done. lia.
Qed.

Lemma boundary_0 line : boundary line 0.
Proof. split; [lia|by left]. Qed.

(** C37. The parser always ends, on every line, within recursion four deep per
    character: with a command or with a message. *)
Theorem parsecmd_terminates (line junk : list Z) (fuel : nat) :
  no_nul line -> (4 * length line + 4 <= fuel)%nat -> parsecmd fuel (line ++ 0 :: junk) <> PFuel.
Proof.
  intros Hz Hf. unfold parsecmd. rewrite strlen_line, Nat2Z.id, take_app_length by done.
  destruct (parse_ends line Hz fuel) as [Hl _].
  specialize (Hl 0%nat (boundary_0 line) ltac:(unfold rest; lia)).
  destruct (parseline fuel line 0) as [[c ps]| |]; [|done|done]. cbn. by destruct (negb _).
Qed.

(** The strings a command is run with are its words: after parsing, every
    argument and file name, read from the buffer up to its NUL, is the run
    of characters that the parser took for the word, whatever the other
    words that have been cut off. *)
Theorem parsed_strings (line junk buf : list Z) (fuel : nat) (c : cmd span) :
  no_nul line -> (4 * length line + 4 <= fuel)%nat -> parsecmd fuel (line ++ 0 :: junk) = POk (c, buf) ->
  Forall (word line) (spans_of c) /\ cmd_map (string_at buf) c = cmd_map (text_of line) c.
Proof.
  intros Hz Hf. unfold parsecmd. rewrite strlen_line, Nat2Z.id, take_app_length by done.
  destruct (parse_ends line Hz fuel) as [Hl _].
  specialize (Hl 0%nat (boundary_0 line) ltac:(unfold rest; lia)).
  destruct (parseline fuel line 0) as [[c' ps]| |]; [|done|done]. destruct Hl as [_ Hw].
  cbn. destruct (negb _); [done|]. intros [= <- <-]. split; [done|]. by apply nulterminate_strings.
Qed.

Lemma parsecmd_terminates_witness :
  parsecmd (4 * length (chars "ls | (wc") + 4) (chars "ls | (wc" ++ [0]) <> PFuel.
Proof. apply (parsecmd_terminates (chars "ls | (wc") []); [by apply no_nul_test|apply le_n]. Defined.

(** The words of [echo hi > x] after parsing, the rest of the buffer being
    what an earlier line left there. *)
Lemma parsed_strings_witness :
  exists c buf, parsecmd 60 (chars "echo hi > x" ++ 0 :: chars "old") = POk (c, buf) /\
    cmd_map (string_at buf) c = Redir (Exec [chars "echo"; chars "hi"]) (chars "x") (Z.lor O_WRONLY O_CREATE) 1.
Proof.
  destruct (parsecmd 60 (chars "echo hi > x" ++ 0 :: chars "old")) as [[c buf]| |] eqn:E; [|vm_compute in E; discriminate..].
  exists c, buf. split; [reflexivity|].
  rewrite (proj2 (parsed_strings (chars "echo hi > x") (chars "old") buf 60 c ltac:(by apply no_nul_test) ltac:(simpl; lia) E)).
  vm_compute in E. by injection E as <- <-.
Defined.
