(* ===== verification/ShPrint.v ===== *)
(** * sh.c: parsing is the inverse of printing

    A command is printed with parentheses where the grammar needs them; the
    parser reads the text back as the same command. *)

From S2P Require Import Prelude Machine StringC Digits User UserProps Tools Sh ShProps.
Import Ulib Printf.

(** ** Printing *)

Inductive level := L_exec | L_pipe | L_back | L_line.

Definition paren (b : bool) (t : list Z) : list Z := if b then 40 :: t ++ [41] else t.

Fixpoint print_words (ws : list (list Z)) : list Z :=
  match ws with
  | [] => []
  | [w] => w
  | w :: ws' => w ++ 32 :: print_words ws'
  end.

Definition redir_sym (fd : Z) : Z := if fd =? 0 then 60 else 62.

Fixpoint print (lv : level) (u : cmd (list Z)) : list Z :=
  match u with
  | Exec ws => print_words ws
  | Redir u f _ fd => print L_exec u ++ redir_sym fd :: f
  | Pipe l r => paren (match lv with L_exec => true | _ => false end) (print L_exec l ++ 124 :: print L_pipe r)
  | Back u => paren (match lv with L_exec | L_pipe => true | _ => false end) (print L_back u ++ [38])
  | List l r => paren (match lv with L_line => false | _ => true end) (print L_back l ++ 59 :: print L_line r)
  end.

(** A word: not empty, of word characters. *)
Definition wordy (w : list Z) : Prop := w <> [] /\ Forall (fun c => c <> 0 /\ is_word c = true) w.

(** What can be typed: fewer than [MAXARGS] arguments, and the two kinds of
    redirection. *)
Fixpoint typable (u : cmd (list Z)) : Prop :=
  match u with
  | Exec ws => (length ws < MAXARGS)%nat /\ Forall wordy ws
  | Redir u f m fd => typable u /\ wordy f /\
      ((m = O_RDONLY /\ fd = 0) \/ (m = Z.lor O_WRONLY O_CREATE /\ fd = 1))
  | Pipe l r => typable l /\ typable r
  | List l r => typable l /\ typable r
  | Back u => typable u
  end.

(** ** Tokens in a text *)

Lemma run_len_app_all f l1 l2 : Forall (fun c => f c = true) l1 -> run_len f (l1 ++ l2) = (length l1 + run_len f l2)%nat.
Proof. induction 1 as [|c l1 Hc _ IH]; simpl; [done|]. by rewrite Hc, IH. Qed.

Lemma run_len_0 f l : (forall c, head l = Some c -> f c = false) -> run_len f l = 0%nat.
Proof. destruct l as [|c l]; simpl; [done|]. intros H. by rewrite H. Qed.

Definition no_ws (l : list Z) : Prop := forall c, head l = Some c -> is_ws c = false.

Lemma skip_ws_at pre l : skip_ws (pre ++ l) (length pre) = (length pre + run_len is_ws l)%nat.
Proof. unfold skip_ws. by rewrite drop_app_length. Qed.

Lemma skip_ws_stay pre l : no_ws l -> skip_ws (pre ++ l) (length pre) = length pre.
Proof. intros Hl. rewrite skip_ws_at, run_len_0 by done. lia. Qed.

Lemma char_at_app pre l : char_at (pre ++ l) (length pre) = cur l.
Proof. unfold char_at. rewrite lookup_app_r, Nat.sub_diag by lia. by destruct l. Qed.

Lemma peek_at pre l toks :
  no_ws l -> peek (pre ++ l) (length pre) toks = (negb (cur l =? 0) && in_set toks (cur l), length pre).
Proof. intros Hl. unfold peek. by rewrite skip_ws_stay, char_at_app by done. Qed.

Lemma gettoken_sym pre c l :
  c ∈ chars "|();&<" -> no_ws l ->
  gettoken (pre ++ c :: l) (length pre) = (c, length pre, (length pre + 1)%nat, (length pre + 1)%nat).
Proof.
  intros Hc Hl. change (chars "|();&<") with [124; 40; 41; 59; 38; 60] in Hc.
  assert (Hw : is_ws c = false /\ c <> 0).
  { split; [|set_solver]. apply in_set_false; [apply whitespace_ok|]. unfold whitespace. set_solver. }
  unfold gettoken. rewrite skip_ws_stay by (intros d [= <-]; apply Hw). rewrite char_at_app.
  change (cur (c :: l)) with c. rewrite (proj2 (Z.eqb_neq c 0)) by apply Hw.
  rewrite bool_decide_eq_true_2 by done. do 2 f_equal.
  replace (pre ++ c :: l) with ((pre ++ [c]) ++ l) by by rewrite <- (assoc_L (++)).
  replace (length pre + 1)%nat with (length (pre ++ [c])) by (rewrite length_app; simpl; lia).
  by apply skip_ws_stay.
Qed.

Lemma gettoken_out pre l :
  no_ws l -> cur l <> 62 ->
  gettoken (pre ++ 62 :: l) (length pre) = (62, length pre, (length pre + 1)%nat, (length pre + 1)%nat).
Proof.
  intros Hl Hc. unfold gettoken. rewrite skip_ws_stay by (intros d [= <-]; done). rewrite char_at_app.
  change (cur (62 :: l)) with 62. change (62 =? 0) with false. rewrite bool_decide_eq_false_2.
  2: { change (chars "|();&<") with [124; 40; 41; 59; 38; 60]. set_solver. }
  change (62 =? 62) with true. cbn iota.
  replace (pre ++ 62 :: l) with ((pre ++ [62]) ++ l) by by rewrite <- (assoc_L (++)).
  replace (length pre + 1)%nat with (length (pre ++ [62])) by (rewrite length_app; simpl; lia).
  rewrite char_at_app, (proj2 (Z.eqb_neq _ _)) by done. by rewrite skip_ws_stay.
Qed.

(** Where a word ends. *)
Definition ends_word (l : list Z) : Prop := forall c, head l = Some c -> is_word c = false.

Lemma word_char c : is_word c = true -> c <> 0 ->
  is_ws c = false /\ c ∉ symbols.
Proof.
  intros Hw H0. unfold is_word in Hw. apply andb_true_iff in Hw as [H1 H2].
  rewrite negb_true_iff in H1, H2. split; [done|]. by apply in_set_false in H2; [|apply symbols_ok].
Qed.

Lemma gettoken_word_at pre w l :
  wordy w -> ends_word l ->
  gettoken (pre ++ w ++ l) (length pre) =
  (97, length pre, (length pre + length w)%nat, (length pre + length w + run_len is_ws l)%nat).
Proof.
  intros [Hne Hw] Hl. destruct w as [|c w]; [done|]. pose proof (Forall_cons_1 _ _ _ Hw) as [[Hc0 Hc] _].
  destruct (word_char c Hc Hc0) as [Hws Hsym]. unfold gettoken.
  rewrite skip_ws_stay by (intros d [= <-]; done). rewrite char_at_app. change (cur ((c :: w) ++ l)) with c.
  rewrite (proj2 (Z.eqb_neq c 0)) by done. change symbols with [60; 124; 62; 38; 59; 40; 41] in Hsym.
  rewrite bool_decide_eq_false_2.
  2: { change (chars "|();&<") with [124; 40; 41; 59; 38; 60]. set_solver. }
  rewrite (proj2 (Z.eqb_neq c 62)) by set_solver. rewrite drop_app_length.
  rewrite run_len_app_all by (eapply list.Forall_impl; [exact Hw|]; simpl; tauto).
  rewrite (run_len_0 is_word l) by done. rewrite Nat.add_0_r. f_equal.
  rewrite (assoc_L (++)). rewrite <- length_app. apply skip_ws_at.
Qed.

Lemma text_of_at pre w l : text_of (pre ++ w ++ l) (length pre, (length pre + length w)%nat) = w.
Proof.
  unfold text_of. simpl. rewrite drop_app_length. replace (length pre + length w - length pre)%nat with (length w) by lia.
  apply take_app_length.
Qed.

(** ** What comes next *)

Definition follow (S post : list Z) : Prop := post = [] \/ exists c p, post = c :: p /\ c ∈ S.

Definition after_exec : list Z := [124; 41; 38; 59].
Definition after_pipe : list Z := [41; 38; 59].
Definition after_backs : list Z := [41; 59].
Definition after_line : list Z := [41].

Lemma follow_weaken S T post : S ⊆ T -> follow S post -> follow T post.
Proof. intros Hs [->|(c & p & -> & Hc)]; [by left|]. right. exists c, p. split; [done|set_solver]. Qed.

Lemma follow_no_ws post : follow after_exec post -> no_ws post.
Proof.
  intros [->|(c & p & -> & Hc)]; [done|]. intros d [= <-].
  apply in_set_false; [apply whitespace_ok|]. unfold after_exec, whitespace in *. set_solver.
Qed.

Lemma symbol_ends c l : c ∈ symbols -> ends_word (c :: l).
Proof.
  intros Hc d [= <-]. apply (in_set_iff _ _ symbols_ok) in Hc. unfold is_word. rewrite Hc. apply andb_false_r.
Qed.

Lemma follow_ends post : follow after_exec post -> ends_word post.
Proof.
  intros [->|(c & p & -> & Hc)]; [done|]. apply symbol_ends. unfold after_exec in Hc.
  change symbols with [60; 124; 62; 38; 59; 40; 41]. set_solver.
Qed.

(** [peek] at the text that follows. *)
Lemma peek_follow pre post S toks :
  S ⊆ after_exec -> follow S post -> no_nul toks ->
  peek (pre ++ post) (length pre) toks = (match head post with Some c => in_set toks c | None => false end, length pre).
Proof.
  intros HS Hf Ht. rewrite peek_at by (by eapply follow_no_ws, follow_weaken).
  destruct Hf as [->|(c & p & -> & Hc)]; [done|]. change (cur (c :: p)) with c. simpl.
  rewrite (proj2 (Z.eqb_neq c 0)); [done|]. apply HS in Hc. unfold after_exec in Hc. set_solver.
Qed.

Lemma peek_char pre c l toks :
  c <> 0 -> is_ws c = false -> peek (pre ++ c :: l) (length pre) toks = (in_set toks c, length pre).
Proof.
  intros H0 Hw. rewrite peek_at by (intros d [= <-]; done). change (cur (c :: l)) with c.
  by rewrite (proj2 (Z.eqb_neq c 0)).
Qed.

Lemma print_no_ws u lv post : typable u -> no_ws post -> no_ws (print lv u ++ post).
Proof.
  revert lv post. induction u as [ws|u IH f m fd|l IHl r IHr|l IHl r IHr|u IH]; intros lv post Ht Hp; simpl in *.
  - destruct Ht as [_ Hw]. destruct ws as [|w ws]; [done|]. apply Forall_cons_1 in Hw as [[Hne Hw] _].
    destruct w as [|c w]; [done|]. apply Forall_cons_1 in Hw as [[H0 Hc] _].
    destruct (word_char c Hc H0) as [Hws _]. destruct ws; intros d [= <-]; done.
  - rewrite <- (assoc_L (++)). apply IH; [apply Ht|]. intros d [= <-]. unfold redir_sym. by destruct (fd =? 0).
  - destruct lv; simpl; try (rewrite <- (assoc_L (++)); apply IHl; [apply Ht|]; intros d [= <-]; done).
    intros d [= <-]. done.
  - destruct lv; simpl; try (rewrite <- (assoc_L (++)); apply IHl; [apply Ht|]; intros d [= <-]; done);
      intros d [= <-]; done.
  - destruct lv; simpl; try (rewrite <- (assoc_L (++)); apply IH; [apply Ht|]; intros d [= <-]; done);
      intros d [= <-]; done.
Qed.

(** ** Redirections *)

Definition redirection : Type := list Z * Z * Z.

Definition wraps (u : cmd (list Z)) (rs : list redirection) : cmd (list Z) :=
  foldl (fun u r => Redir u (fst (fst r)) (snd (fst r)) (snd r)) u rs.

Fixpoint print_redirs (rs : list redirection) : list Z :=
  match rs with
  | [] => []
  | (f, m, fd) :: rs' => redir_sym fd :: f ++ print_redirs rs'
  end.

Definition redir_ok (r : redirection) : Prop :=
  wordy (fst (fst r)) /\
  ((snd (fst r) = O_RDONLY /\ snd r = 0) \/ (snd (fst r) = Z.lor O_WRONLY O_CREATE /\ snd r = 1)).

(** What can follow redirections. *)
Lemma redirs_follow rs post : follow after_exec post -> ends_word (print_redirs rs ++ post) /\ no_ws (print_redirs rs ++ post).
Proof.
  intros Hf. destruct rs as [|[[f m] fd] rs]; simpl; [split; [by apply follow_ends|by apply follow_no_ws]|].
  split.
  - apply symbol_ends. change symbols with [60; 124; 62; 38; 59; 40; 41]. unfold redir_sym. destruct (fd =? 0); set_solver.
  - intros d [= <-]. unfold redir_sym. by destruct (fd =? 0).
Qed.

Lemma redirs_run fuel line pre rs post wrap :
  line = pre ++ print_redirs rs ++ post -> Forall redir_ok rs -> follow after_exec post -> (length rs < fuel)%nat ->
  exists wrap', parseredirs fuel line wrap (length pre) = POk (wrap', length (pre ++ print_redirs rs)) /\
    (rs = [] -> wrap' = wrap) /\
    forall c, cmd_map (text_of line) (wrap' c) = wraps (cmd_map (text_of line) (wrap c)) rs.
Proof.
  revert pre rs wrap. induction fuel as [|n IH]; intros pre rs wrap El Hok Hf Hn; [lia|]. cbn [parseredirs].
  destruct rs as [|[[f m] fd] rs]; simpl in El.
  - assert (Ep : peek line (length pre) (chars "<>") =
      (match head post with Some c => in_set (chars "<>") c | None => false end, length pre))
      by (rewrite El; apply (peek_follow pre post after_exec); [done|done|by apply no_nul_test]).
    rewrite Ep. clear Ep. assert (Eb : (match head post with Some c => in_set (chars "<>") c | None => false end) = false).
    { destruct Hf as [->|(c & p & -> & Hc)]; [done|]. simpl. apply in_set_false; [by apply no_nul_test|].
      change (chars "<>") with [60; 62]. unfold after_exec in Hc. set_solver. }
    rewrite Eb. cbn [negb]. exists wrap. simpl. rewrite app_nil_r. done.
  - apply Forall_cons_1 in Hok as [[Hw Hm] Hok]. simpl in Hw, Hm.
    set (rest := print_redirs rs ++ post) in *. rewrite <- (assoc_L (++)) in El. fold rest in El.
    destruct (redirs_follow rs post Hf) as [Hew Hnw]. fold rest in Hew, Hnw.
    pose proof Hw as [Hne Hwf]. assert (Hfw : no_ws (f ++ rest) /\ cur (f ++ rest) <> 62).
    { destruct f as [|c f]; [done|]. apply Forall_cons_1 in Hwf as [[H0 Hc] _].
      destruct (word_char c Hc H0) as [Hws Hsym]. split; [intros d [= <-]; done|]. simpl.
      change symbols with [60; 124; 62; 38; 59; 40; 41] in Hsym. change (cur (c :: _)) with c. set_solver. }
    assert (Hs : redir_sym fd = 60 \/ redir_sym fd = 62) by (unfold redir_sym; destruct (fd =? 0); auto).
    assert (Ep : peek line (length pre) (chars "<>") = (true, length pre)).
    { rewrite El, peek_char by (destruct Hs as [-> | ->]; done). by destruct Hs as [-> | ->]. }
    rewrite Ep. clear Ep. cbn [negb].
    assert (Eg : gettoken line (length pre) = (redir_sym fd, length pre, (length pre + 1)%nat, (length pre + 1)%nat)).
    { rewrite El. destruct Hs as [-> | ->]; [apply gettoken_sym; [|apply Hfw]|apply gettoken_out; apply Hfw].
      change (chars "|();&<") with [124; 40; 41; 59; 38; 60]. set_solver. }
    rewrite Eg. clear Eg.
    assert (El2 : line = (pre ++ [redir_sym fd]) ++ f ++ rest) by (rewrite El; by rewrite <- (assoc_L (++))).
    replace (length pre + 1)%nat with (length (pre ++ [redir_sym fd])) by (rewrite length_app; simpl; lia).
    set (pre1 := pre ++ [redir_sym fd]) in *.
    assert (Eg : gettoken line (length pre1) =
      (97, length pre1, (length pre1 + length f)%nat, (length pre1 + length f + run_len is_ws rest)%nat))
      by (rewrite El2; by apply gettoken_word_at).
    rewrite Eg, (run_len_0 is_ws rest), Nat.add_0_r by done. clear Eg. cbn [negb Z.eqb Pos.eqb].
    assert (El3 : line = (pre1 ++ f) ++ print_redirs rs ++ post) by (rewrite El2; by rewrite <- (assoc_L (++))).
    rewrite <- length_app.
    destruct (IH (pre1 ++ f) rs (fun c => redir_of (redir_sym fd) (length pre1, length (pre1 ++ f)) (wrap c)) El3 Hok Hf)
      as (wrap' & E' & _ & Hc); [simpl in Hn; lia|].
    exists wrap'. rewrite E'. split_and!; [|done|].
    + do 2 f_equal. unfold pre1. rewrite <- !(assoc_L (++)). done.
    + intros c. rewrite Hc. simpl. f_equal.
      assert (Et : text_of line (length pre1, length (pre1 ++ f)) = f)
        by (rewrite El2, length_app; apply text_of_at).
      destruct Hm as [[-> ->]|[-> ->]]; simpl; rewrite Et; done.
Qed.

(** ** Arguments *)

(** The loop of [parseexec] at the end of the arguments. *)
Lemma args_end fuel line pre post argv wrap :
  line = pre ++ post -> follow after_exec post -> (0 < fuel)%nat ->
  parseargs fuel line argv wrap (length pre) = POk (wrap (Exec argv), length pre).
Proof.
  intros El Hf Hn. destruct fuel as [|n]; [lia|]. cbn [parseargs].
  assert (Ep : peek line (length pre) (chars "|)&;") =
    (match head post with Some c => in_set (chars "|)&;") c | None => false end, length pre))
    by (rewrite El; apply (peek_follow pre post after_exec); [done|done|by apply no_nul_test]).
  rewrite Ep. destruct Hf as [->|(c & p & -> & Hc)]; simpl.
  - rewrite app_nil_r in El. subst pre. unfold gettoken.
    assert (Hs : skip_ws line (length line) = length line).
    { unfold skip_ws. rewrite drop_ge by lia. simpl. lia. }
    rewrite Hs. assert (Hc : char_at line (length line) = 0) by (unfold char_at; by rewrite lookup_ge_None_2).
    rewrite Hc. change (0 =? 0) with true. cbn iota. by rewrite Hs.
  - assert (in_set (chars "|)&;") c = true) as ->; [|done]. apply in_set_iff; [by apply no_nul_test|].
    change (chars "|)&;") with [124; 41; 38; 59]. done.
Qed.

Lemma wordy_head w l : wordy w -> exists c l', w ++ l = c :: l' /\ c <> 0 /\ is_ws c = false /\ c ∉ symbols.
Proof.
  intros [Hne Hw]. destruct w as [|c w]; [done|]. apply Forall_cons_1 in Hw as [[H0 Hc] _].
  destruct (word_char c Hc H0). by exists c, (w ++ l).
Qed.

Lemma peek_word pre w l toks :
  wordy w -> no_nul toks -> (forall c, c ∈ toks -> c ∈ symbols) ->
  peek (pre ++ w ++ l) (length pre) toks = (false, length pre).
Proof.
  intros Hw Ht Hsub. destruct (wordy_head w l Hw) as (c & l' & -> & H0 & Hws & Hsym).
  rewrite peek_char by done. f_equal. apply in_set_false; [done|]. intros Hin. by apply Hsym, Hsub.
Qed.

Lemma print_words_head w ws : exists y, print_words (w :: ws) = w ++ y.
Proof. destruct ws; [exists []; by rewrite app_nil_r|by eexists]. Qed.

Lemma redirs_word fuel line pre w l wrap :
  line = pre ++ w ++ l -> wordy w -> (0 < fuel)%nat ->
  parseredirs fuel line wrap (length pre) = POk (wrap, length pre).
Proof.
  intros El Hw Hn. destruct fuel as [|n]; [lia|]. cbn [parseredirs].
  assert (Ep : peek line (length pre) (chars "<>") = (false, length pre)); [|by rewrite Ep].
  rewrite El. apply peek_word; [done|by apply no_nul_test|].
  change (chars "<>") with [60; 62]. change symbols with [60; 124; 62; 38; 59; 40; 41]. set_solver.
Qed.

Lemma args_run fuel line pre w ws rs post argv :
  line = pre ++ print_words (w :: ws) ++ print_redirs rs ++ post ->
  Forall wordy (w :: ws) -> (length argv + length (w :: ws) < MAXARGS)%nat -> Forall redir_ok rs ->
  follow after_exec post -> (length ws + 1 + length rs < fuel)%nat ->
  exists c, parseargs fuel line argv (fun c => c) (length pre) =
      POk (c, length (pre ++ print_words (w :: ws) ++ print_redirs rs)) /\
    cmd_map (text_of line) c = wraps (Exec ((text_of line <$> argv) ++ w :: ws)) rs.
Proof.
  revert pre w ws argv. induction fuel as [|n IH]; intros pre w ws argv El Hw Hlen Hrs Hf Hn; [lia|].
  cbn [parseargs]. apply Forall_cons_1 in Hw as [Hw Hws].
  set (tail := match ws with [] => [] | _ => 32 :: print_words ws end ++ print_redirs rs ++ post).
  assert (El1 : line = pre ++ w ++ tail).
  { rewrite El. unfold tail. f_equal. destruct ws; simpl; [done|]. by rewrite <- (assoc_L (++)). }
  assert (Ep : peek line (length pre) (chars "|)&;") = (false, length pre)).
  { rewrite El1. apply peek_word; [done|by apply no_nul_test|].
    change (chars "|)&;") with [124; 41; 38; 59]. change symbols with [60; 124; 62; 38; 59; 40; 41]. set_solver. }
  rewrite Ep. clear Ep. destruct (redirs_follow rs post Hf) as [Hre Hrn].
  assert (Hte : ends_word tail).
  { unfold tail. destruct ws; [done|]. intros d [= <-]. done. }
  assert (Eg : gettoken line (length pre) =
    (97, length pre, (length pre + length w)%nat, (length pre + length w + run_len is_ws tail)%nat))
    by (rewrite El1; by apply gettoken_word_at).
  rewrite Eg. clear Eg. cbn [negb Z.eqb Pos.eqb].
  assert (Em : (MAXARGS <=? length (argv ++ [(length pre, (length pre + length w)%nat)]))%nat = false)
    by (apply Nat.leb_gt; rewrite length_app; simpl in *; lia).
  rewrite Em. clear Em.
  assert (Et : text_of line (length pre, (length pre + length w)%nat) = w) by (rewrite El1; apply text_of_at).
  destruct ws as [|w2 ws].
  - (* the last word, then the redirections *)
    assert (Htl : tail = print_redirs rs ++ post) by done.
    rewrite Htl, (run_len_0 is_ws _ Hrn), Nat.add_0_r, <- length_app.
    assert (El2 : line = (pre ++ w) ++ print_redirs rs ++ post) by (rewrite El1, Htl; by rewrite (assoc_L (++))).
    destruct (redirs_run n line (pre ++ w) rs post (fun c => c) El2 Hrs Hf) as (wrap' & E & _ & Hc); [simpl in Hn; lia|].
    rewrite E. simpl.
    assert (El3 : line = ((pre ++ w) ++ print_redirs rs) ++ post) by (rewrite El2; by rewrite (assoc_L (++))).
    rewrite (args_end n line ((pre ++ w) ++ print_redirs rs) post _ wrap' El3 Hf) by (simpl in Hn; lia).
    eexists. split; [do 2 f_equal; by rewrite <- (assoc_L (++))|]. rewrite Hc. simpl.
    rewrite fmap_app. simpl. rewrite length_app, Et. done.
  - (* another word after a space *)
    apply Forall_cons_1 in Hws as Hws'. destruct Hws' as [Hw2 _].
    assert (Htl : tail = 32 :: (print_words (w2 :: ws) ++ print_redirs rs ++ post)) by done.
    assert (Hrl : run_len is_ws tail = 1%nat).
    { rewrite Htl. simpl. f_equal. apply run_len_0.
      destruct (print_words_head w2 ws) as [y Hx]. change (match ws with [] => w2 | _ :: _ => w2 ++ 32 :: print_words ws end) with (print_words (w2 :: ws)).
      rewrite Hx, <- (assoc_L (++)). destruct (wordy_head w2 (y ++ print_redirs rs ++ post) Hw2) as (c & l' & -> & _ & Hc & _).
      intros d [= <-]. done. }
    rewrite Hrl. set (pre2 := pre ++ w ++ [32]).
    assert (Hp2 : length pre2 = (length pre + length w + 1)%nat) by (unfold pre2; rewrite !length_app; simpl; lia).
    rewrite <- Hp2.
    assert (El2 : line = pre2 ++ print_words (w2 :: ws) ++ print_redirs rs ++ post).
    { rewrite El1, Htl. unfold pre2. rewrite <- !(assoc_L (++)). done. }
    assert (Er : parseredirs n line (fun c => c) (length pre2) = POk (fun c => c, length pre2)).
    { destruct (print_words_head w2 ws) as [y Hx].
      eapply (redirs_word _ _ _ w2); [|done|simpl in Hn; lia]. rewrite El2, Hx. by rewrite <- (assoc_L (++)). }
    rewrite Er. simpl.
    destruct (IH pre2 w2 ws (argv ++ [(length pre, (length pre + length w)%nat)]) El2 Hws) as (c & E & Hc);
      [rewrite length_app; simpl in *; lia|done|done|simpl in *; lia|].
    exists c. rewrite E. split; [|rewrite Hc, fmap_app; simpl; rewrite Et; by rewrite <- (assoc_L (++))].
    do 2 f_equal. unfold pre2. rewrite !length_app. simpl. rewrite ?length_app. simpl. lia.
Qed.

(** ** The parser on a printed command *)

Fixpoint size_of (u : cmd (list Z)) : nat :=
  match u with
  | Exec _ => 1
  | Redir u _ _ _ | Back u => S (size_of u)
  | Pipe l r | List l r => S (size_of l + size_of r)
  end.

(** What [parse] makes of a text: the command it was printed from. *)
Definition reads (parse : nat -> list Z -> nat -> pres (cmd span * nat)) (slack : nat) (S : list Z) (lv : level)
    (u : cmd (list Z)) : Prop :=
  forall fuel line pre post, line = pre ++ print lv u ++ post -> follow S post ->
    (4 * length (print lv u ++ post) + slack <= fuel)%nat ->
    exists c, parse fuel line (length pre) = POk (c, length (pre ++ print lv u)) /\ cmd_map (text_of line) c = u.

Definition reads_exec := reads parseexec 2 after_exec L_exec.
Definition reads_pipe := reads parsepipe 3 after_pipe L_pipe.
Definition reads_line := reads parseline 4 after_line L_line.

(** The part of [parseline] before the semicolon. *)
Definition parseback (fuel : nat) (line : list Z) (ps : nat) : pres (cmd span * nat) :=
  x ← parsepipe fuel line ps; parsebacks fuel line (fst x) (snd x).

Definition reads_back := reads parseback 3 after_backs L_back.

Definition is_exec (u : cmd (list Z)) : Prop := match u with Exec _ => True | _ => False end.
Definition is_redir (u : cmd (list Z)) : Prop := match u with Redir _ _ _ _ => True | _ => False end.
Definition is_pipe (u : cmd (list Z)) : Prop := match u with Pipe _ _ => True | _ => False end.
Definition is_list (u : cmd (list Z)) : Prop := match u with List _ _ => True | _ => False end.
Definition is_back (u : cmd (list Z)) : Prop := match u with Back _ => True | _ => False end.

(** A command under its redirections. *)
Lemma wraps_snoc u rs r : wraps u (rs ++ [r]) = Redir (wraps u rs) (fst (fst r)) (snd (fst r)) (snd r).
Proof. unfold wraps. by rewrite foldl_app. Qed.

Lemma print_redirs_snoc rs f m fd : print_redirs (rs ++ [(f, m, fd)]) = print_redirs rs ++ redir_sym fd :: f.
Proof.
  induction rs as [|[[g k] d] rs IH]; simpl; [by rewrite app_nil_r|]. rewrite IH. by rewrite <- (assoc_L (++)).
Qed.

Lemma print_wraps v rs : print L_exec (wraps v rs) = print L_exec v ++ print_redirs rs.
Proof.
  induction rs as [|[[f m] fd] rs IH] using rev_ind; [simpl; by rewrite app_nil_r|].
  rewrite wraps_snoc, print_redirs_snoc. simpl. rewrite IH. by rewrite <- (assoc_L (++)).
Qed.

Lemma unwrap u : typable u ->
  exists v rs, u = wraps v rs /\ ~ is_redir v /\ typable v /\ Forall redir_ok rs /\ (size_of v + length rs = size_of u)%nat.
Proof.
  induction u as [ws|u IH f m fd|l _ r _|l _ r _|u _]; intros Ht;
    try (eexists _, []; split_and!; [done|by intros []|done|done|simpl; lia]).
  destruct Ht as (Hu & Hf & Hm). destruct (IH Hu) as (v & rs & -> & Hv & Htv & Hrs & Hsz).
  exists v, (rs ++ [(f, m, fd)]). split_and!; [by rewrite wraps_snoc|done|done| |].
  - apply Forall_app. split; [done|]. apply Forall_singleton. by split.
  - rewrite length_app. simpl. lia.
Qed.

(** A command under its ampersands. *)
Definition backs {W} (n : nat) (u : cmd W) : cmd W := Nat.iter n Back u.

Lemma unback u : typable u ->
  exists n p, u = backs n p /\ ~ is_back p /\ typable p /\ (size_of p + n = size_of u)%nat.
Proof.
  induction u as [ws|u _ f m fd|l _ r _|l _ r _|u IH]; intros Ht;
    try (eexists 0%nat, _; split_and!; [done|by intros []|done|simpl; lia]).
  destruct (IH Ht) as (n & p & -> & Hp & Htp & Hsz). exists (S n), p. split_and!; [done|done|done|simpl; lia].
Qed.

Lemma print_backs n p : ~ is_back p -> print L_back (backs n p) = print L_pipe p ++ replicate n 38.
Proof.
  intros Hp. induction n as [|n IH]; simpl.
  - rewrite app_nil_r. by destruct p; try (by destruct Hp).
  - change (38 :: replicate n 38) with (replicate (S n) 38). rewrite replicate_S_end, IH. by rewrite <- (assoc_L (++)).
Qed.

Lemma cmd_map_backs {V W} (f : V -> W) n c : cmd_map f (backs n c) = backs n (cmd_map f c).
Proof. induction n as [|n IH]; simpl; [done|]. by rewrite IH. Qed.

Lemma backs_run fuel line pre n post c :
  line = pre ++ replicate n 38 ++ post -> follow after_backs post -> (n < fuel)%nat ->
  parsebacks fuel line c (length pre) = POk (backs n c, length (pre ++ replicate n 38)).
Proof.
  revert pre n c. induction fuel as [|f IH]; intros pre n c El Hf Hn; [lia|]. cbn [parsebacks].
  destruct n as [|n]; simpl in El.
  - assert (Ep : peek line (length pre) (chars "&") =
      (match head post with Some c => in_set (chars "&") c | None => false end, length pre)).
    { rewrite El. apply (peek_follow pre post after_backs); [unfold after_backs, after_exec; set_solver|done|by apply no_nul_test]. }
    rewrite Ep. simpl. rewrite app_nil_r.
    destruct Hf as [->|(d & p & -> & Hd)]; simpl; [done|]. unfold after_backs in Hd.
    assert (in_set (chars "&") d = false) as ->; [|done]. apply in_set_false; [by apply no_nul_test|].
    change (chars "&") with [38]. set_solver.
  - assert (Ep : peek line (length pre) (chars "&") = (true, length pre)) by (rewrite El; by rewrite peek_char).
    rewrite Ep. assert (Hns : no_ws (replicate n 38 ++ post)).
    { destruct n; [|intros d [= <-]; done]. apply follow_no_ws. eapply follow_weaken; [|done].
      unfold after_backs, after_exec. set_solver. }
    assert (Eg : gettoken line (length pre) = (38, length pre, (length pre + 1)%nat, (length pre + 1)%nat)).
    { rewrite El. apply gettoken_sym; [|done]. change (chars "|();&<") with [124; 40; 41; 59; 38; 60]. set_solver. }
    rewrite Eg. replace (length pre + 1)%nat with (length (pre ++ [38])) by (rewrite length_app; simpl; lia).
    rewrite (IH (pre ++ [38]) n); [|by rewrite El, <- (assoc_L (++))|done|lia].
    rewrite <- (assoc_L (++)). unfold backs. by rewrite Nat.iter_swap.
Qed.

(** Printing without parentheses, and with them. *)
Lemma print_L_pipe u : ~ is_pipe u -> print L_pipe u = print L_exec u.
Proof. by destruct u; try (intros Hn; by destruct Hn). Qed.

Lemma print_L_line u : ~ is_list u -> print L_line u = print L_back u.
Proof. by destruct u; try (intros Hn; by destruct Hn). Qed.

Lemma print_block v : ~ is_exec v -> ~ is_redir v -> print L_exec v = 40 :: print L_line v ++ [41].
Proof. by destruct v; intros He Hr; try (by destruct He); try (by destruct Hr). Qed.

(** The end of a production: the next token is not the one that goes on. *)
Lemma peek_stop line pre post S tok :
  line = pre ++ post -> S ⊆ after_exec -> follow S post -> tok ∉ S -> no_nul [tok] ->
  peek line (length pre) [tok] = (false, length pre).
Proof.
  intros -> HS Hf Ht Hz. rewrite (peek_follow pre post S) by done. f_equal.
  destruct Hf as [->|(c & p & -> & Hc)]; [done|]. simpl. apply in_set_false; [done|]. set_solver.
Qed.

(** The token that goes on: seen and consumed. *)
Lemma token_at line pre tok post :
  line = pre ++ tok :: post -> tok ∈ chars "|();&<" -> no_ws post ->
  peek line (length pre) [tok] = (true, length pre) /\
  gettoken line (length pre) = (tok, length pre, length (pre ++ [tok]), length (pre ++ [tok])).
Proof.
  intros -> Ht Hns. rewrite length_app. split; [|by apply gettoken_sym].
  change (chars "|();&<") with [124; 40; 41; 59; 38; 60] in Ht. rewrite peek_char.
  - f_equal. apply in_set_iff; [|set_solver]. apply Forall_singleton. set_solver.
  - set_solver.
  - apply in_set_false; [apply whitespace_ok|]. unfold whitespace. set_solver.
Qed.

Lemma redirs_length rs : (length rs <= length (print_redirs rs))%nat.
Proof. induction rs as [|[[f m] fd] rs IH]; simpl; [lia|]. rewrite length_app. lia. Qed.

Lemma words_length ws : Forall wordy ws -> (length ws <= length (print_words ws))%nat.
Proof.
  induction 1 as [|w ws [Hne _] _ IH]; simpl; [lia|]. destruct w as [|c w]; [done|]. destruct ws; simpl in *; [lia|].
  rewrite length_app. simpl in *. lia.
Qed.

Lemma exec_flat ws rs : typable (Exec ws) -> Forall redir_ok rs -> reads_exec (wraps (Exec ws) rs).
Proof.
  intros [Hlen Hws] Hrs fuel line pre post El Hf Hfuel. rewrite print_wraps in *. simpl print in *.
  rewrite <- (assoc_L (++)) in El. rewrite !length_app in Hfuel.
  destruct fuel as [|f]; [lia|]. cbn [parseexec]. pose proof (redirs_length rs) as Hrl.
  assert (Ep : peek line (length pre) (chars "(") = (false, length pre)).
  { change (chars "(") with [40]. destruct ws as [|w ws].
    - simpl in El. destruct rs as [|[[g k] d] rs].
      + apply (peek_stop line pre post after_exec); [done|done|done|unfold after_exec; set_solver|by apply no_nul_test].
      + rewrite El. simpl. rewrite peek_char by (unfold redir_sym; by destruct (d =? 0)).
        unfold redir_sym. by destruct (d =? 0).
    - apply Forall_cons_1 in Hws as [Hw _]. destruct (print_words_head w ws) as [y Hy].
      rewrite El, Hy, <- (assoc_L (++)). apply peek_word; [done|by apply no_nul_test|].
      change symbols with [60; 124; 62; 38; 59; 40; 41]. set_solver. }
  rewrite Ep. clear Ep. destruct ws as [|w ws].
  - simpl in El. destruct (redirs_run f line pre rs post (fun c => c) El Hrs Hf) as (wrap' & E & _ & Hc);
      [simpl in Hfuel; lia|].
    rewrite E. simpl. rewrite (args_end f line (pre ++ print_redirs rs) post);
      [|by rewrite El, (assoc_L (++))|done|lia]. eexists. split; [done|]. by rewrite Hc.
  - destruct (print_words_head w ws) as [y Hy]. pose proof (words_length (w :: ws) Hws) as Hwl.
    erewrite (redirs_word f line pre w); [|by rewrite El, Hy, <- (assoc_L (++))|by apply Forall_cons_1 in Hws as [? _]|lia].
    cbn [mbind pres_bind]. destruct (args_run f line pre w ws rs post [] El Hws) as (c & E & Hc);
      [done|done|done|simpl in *; lia|]. exists c. by rewrite E.
Qed.

Lemma exec_block v rs :
  ~ is_exec v -> ~ is_redir v -> typable v -> reads_line v -> Forall redir_ok rs -> reads_exec (wraps v rs).
Proof.
  intros He Hr Ht Hline Hrs fuel line pre post El Hf Hfuel. rewrite print_wraps, (print_block v) in * by done.
  set (body := print L_line v) in *.
  assert (El1 : line = pre ++ 40 :: body ++ 41 :: print_redirs rs ++ post)
    by (rewrite El; simpl; by rewrite <- !(assoc_L (++))).
  rewrite !length_app in Hfuel. simpl in Hfuel. rewrite !length_app in Hfuel. simpl in Hfuel.
  pose proof (redirs_length rs) as Hrl. destruct fuel as [|[|f]]; [lia|lia|].
  destruct (redirs_follow rs post Hf) as [_ Hrn].
  assert (Hb : no_ws (body ++ 41 :: print_redirs rs ++ post))
    by (apply print_no_ws; [done|intros d [= <-]; done]).
  destruct (token_at line pre 40 _ El1 ltac:(change (chars "|();&<") with [124; 40; 41; 59; 38; 60]; set_solver) Hb)
    as [Ep Eg].
  cbn [parseexec]. change (chars "(") with [40]. rewrite Ep. cbn [parseblock]. change (chars "(") with [40].
  rewrite Ep. cbn [negb]. rewrite Eg.
  assert (El2 : line = (pre ++ [40]) ++ body ++ 41 :: print_redirs rs ++ post) by (rewrite El1; by rewrite <- !(assoc_L (++))).
  destruct (Hline f line (pre ++ [40]) (41 :: print_redirs rs ++ post) El2) as (c & E & Hc).
  { right. eexists _, _. split; [done|]. unfold after_line. set_solver. }
  { rewrite length_app. simpl. rewrite length_app. fold body. lia. }
  rewrite E. cbn [mbind pres_bind]. fold body.
  assert (El3 : line = ((pre ++ [40]) ++ body) ++ 41 :: print_redirs rs ++ post) by (rewrite El2; by rewrite <- !(assoc_L (++))).
  destruct (token_at line _ 41 _ El3 ltac:(change (chars "|();&<") with [124; 40; 41; 59; 38; 60]; set_solver) Hrn)
    as [Ep2 Eg2].
  change (chars ")") with [41]. rewrite Ep2. cbn [negb]. rewrite Eg2.
  assert (El4 : line = (((pre ++ [40]) ++ body) ++ [41]) ++ print_redirs rs ++ post) by (rewrite El3; by rewrite <- !(assoc_L (++))).
  destruct (redirs_run f line _ rs post (fun c => c) El4 Hrs Hf) as (wrap' & Er & _ & Hw); [lia|].
  rewrite Er. cbn [mbind pres_bind]. eexists. split; [|by rewrite Hw, Hc].
  do 2 f_equal. f_equal. simpl. by rewrite <- !(assoc_L (++)).
Qed.

Lemma pipe_of_exec u : ~ is_pipe u -> reads_exec u -> reads_pipe u.
Proof.
  intros Hn He fuel line pre post El Hf Hfuel. rewrite print_L_pipe in * by done.
  destruct fuel as [|f]; [lia|]. cbn [parsepipe].
  destruct (He f line pre post El) as (c & E & Hc); [|lia|].
  { eapply follow_weaken; [|done]. unfold after_pipe, after_exec. set_solver. }
  rewrite E. cbn [mbind pres_bind]. change (chars "|") with [124].
  rewrite (peek_stop line (pre ++ print L_exec u) post after_pipe); [by exists c| | |done| |by apply no_nul_test].
  - by rewrite El, (assoc_L (++)).
  - unfold after_pipe, after_exec. set_solver.
  - unfold after_pipe. set_solver.
Qed.

Lemma pipe_pipe l r : typable r -> reads_exec l -> reads_pipe r -> reads_pipe (Pipe l r).
Proof.
  intros Ht Hl Hr fuel line pre post El Hf Hfuel. simpl print in *. unfold paren in *.
  assert (El1 : line = pre ++ print L_exec l ++ 124 :: print L_pipe r ++ post) by (rewrite El; by rewrite <- !(assoc_L (++))).
  rewrite !length_app in Hfuel. simpl in Hfuel. destruct fuel as [|f]; [lia|]. cbn [parsepipe].
  destruct (Hl f line pre _ El1) as (c & E & Hc).
  { right. eexists _, _. split; [done|]. unfold after_exec. set_solver. }
  { rewrite length_app. simpl. rewrite length_app. lia. }
  rewrite E. cbn [mbind pres_bind]. change (chars "|") with [124].
  assert (El2 : line = (pre ++ print L_exec l) ++ 124 :: print L_pipe r ++ post) by (rewrite El1; by rewrite <- !(assoc_L (++))).
  assert (Hns : no_ws (print L_pipe r ++ post)).
  { apply print_no_ws; [done|]. apply follow_no_ws. eapply follow_weaken; [|done]. unfold after_pipe, after_exec. set_solver. }
  destruct (token_at line _ 124 _ El2 ltac:(change (chars "|();&<") with [124; 40; 41; 59; 38; 60]; set_solver) Hns)
    as [Ep Eg].
  rewrite Ep, Eg.
  assert (El3 : line = ((pre ++ print L_exec l) ++ [124]) ++ print L_pipe r ++ post) by (rewrite El2; by rewrite <- !(assoc_L (++))).
  destruct (Hr f line _ post El3 Hf) as (d & Ed & Hd); [rewrite length_app; lia|].
  rewrite Ed. cbn [mbind pres_bind]. exists (Pipe c d). split; [|simpl; by rewrite Hc, Hd].
  do 2 f_equal. f_equal. by rewrite <- !(assoc_L (++)).
Qed.

Lemma back_of_pipe n p : ~ is_back p -> reads_pipe p -> reads_back (backs n p).
Proof.
  intros Hn Hp fuel line pre post El Hf Hfuel. rewrite print_backs in * by done. rewrite !length_app, length_replicate in Hfuel.
  rewrite <- (assoc_L (++)) in El.
  assert (Hfp : follow after_pipe (replicate n 38 ++ post)).
  { destruct n; [|right; eexists _, _; split; [done|unfold after_pipe; set_solver]].
    eapply follow_weaken; [|done]. unfold after_backs, after_pipe. set_solver. }
  destruct (Hp fuel line pre _ El Hfp) as (c & E & Hc); [rewrite !length_app, length_replicate; lia|].
  unfold parseback. rewrite E. cbn [mbind pres_bind fst snd].
  rewrite (backs_run fuel line _ n post c); [|by rewrite El, (assoc_L (++))|done|lia].
  exists (backs n c). split; [by rewrite <- !(assoc_L (++))|]. by rewrite cmd_map_backs, Hc.
Qed.

(** [parseline] after its first part. *)
Lemma parseline_back f line ps : parseline (S f) line ps =
  x ← parseback f line ps;
  let '(c, ps) := x in
  let '(b, ps) := peek line ps (chars ";") in
  if b then
    let '(_, _, _, ps) := gettoken line ps in
    x ← parseline f line ps;
    let '(r, ps) := x in POk (List c r, ps)
  else POk (c, ps).
Proof. cbn [parseline]. unfold parseback. by destruct (parsepipe f line ps) as [[c q]| |]. Qed.

Lemma line_of_back u : ~ is_list u -> reads_back u -> reads_line u.
Proof.
  intros Hn Hb fuel line pre post El Hf Hfuel. rewrite print_L_line in * by done.
  destruct fuel as [|f]; [lia|]. rewrite parseline_back.
  assert (Hfb : follow after_backs post) by (eapply follow_weaken; [|done]; unfold after_line, after_backs; set_solver).
  destruct (Hb f line pre post El Hfb) as (c & E & Hc); [lia|].
  rewrite E. cbn [mbind pres_bind]. change (chars ";") with [59].
  rewrite (peek_stop line (pre ++ print L_back u) post after_line); [by exists c| | |done| |by apply no_nul_test].
  - by rewrite El, (assoc_L (++)).
  - unfold after_line, after_exec. set_solver.
  - unfold after_line. set_solver.
Qed.

Lemma line_list l r : typable r -> reads_back l -> reads_line r -> reads_line (List l r).
Proof.
  intros Ht Hl Hr fuel line pre post El Hf Hfuel. simpl print in *. unfold paren in *.
  assert (El1 : line = pre ++ print L_back l ++ 59 :: print L_line r ++ post) by (rewrite El; by rewrite <- !(assoc_L (++))).
  rewrite !length_app in Hfuel. simpl in Hfuel. destruct fuel as [|f]; [lia|]. rewrite parseline_back.
  destruct (Hl f line pre _ El1) as (c & E & Hc).
  { right. eexists _, _. split; [done|]. unfold after_backs. set_solver. }
  { rewrite length_app. simpl. rewrite length_app. lia. }
  rewrite E. cbn [mbind pres_bind]. change (chars ";") with [59].
  assert (El2 : line = (pre ++ print L_back l) ++ 59 :: print L_line r ++ post) by (rewrite El1; by rewrite <- !(assoc_L (++))).
  assert (Hns : no_ws (print L_line r ++ post)).
  { apply print_no_ws; [done|]. apply follow_no_ws. eapply follow_weaken; [|done]. unfold after_line, after_exec. set_solver. }
  destruct (token_at line _ 59 _ El2 ltac:(change (chars "|();&<") with [124; 40; 41; 59; 38; 60]; set_solver) Hns)
    as [Ep Eg].
  rewrite Ep, Eg.
  assert (El3 : line = ((pre ++ print L_back l) ++ [59]) ++ print L_line r ++ post) by (rewrite El2; by rewrite <- !(assoc_L (++))).
  destruct (Hr f line _ post El3 Hf) as (d & Ed & Hd); [rewrite length_app; lia|].
  rewrite Ed. cbn [mbind pres_bind]. exists (List c d). split; [|simpl; by rewrite Hc, Hd].
  do 2 f_equal. f_equal. by rewrite <- !(assoc_L (++)).
Qed.

(** Every printed command is read back, at every level of the grammar. *)
Lemma reads_all k u : (size_of u <= k)%nat -> typable u -> reads_exec u /\ reads_pipe u /\ reads_back u /\ reads_line u.
Proof.
  revert u. induction k as [|k IH]; intros u Hk Ht; [destruct u; simpl in Hk; lia|].
  assert (Hup : reads_pipe u -> ~ is_back u -> ~ is_list u -> reads_back u /\ reads_line u).
  { intros Hp Hb Hl. pose proof (back_of_pipe 0 u Hb Hp). split; [done|]. by apply line_of_back. }
  destruct u as [ws|v f m fd|l r|l r|v].
  - assert (He : reads_exec (Exec ws)) by by apply (exec_flat ws []).
    pose proof (pipe_of_exec (Exec ws) ltac:(by intros []) He). split_and!; [done|done| |]; by apply Hup; try (by intros []).
  - assert (He : reads_exec (Redir v f m fd)).
    { destruct (unwrap _ Ht) as (x & rs & E & Hx & Htx & Hrs & Hsz). rewrite E.
      assert (Hs : (size_of x <= k)%nat).
      { destruct rs as [|r0 rs]; [simpl in E; subst x; by destruct Hx|]. simpl in Hsz, Hk. lia. }
      destruct x as [ws| | | |]; try (apply exec_block; [by intros []|by intros []|done|apply (IH _ Hs Htx)|done]).
      by apply exec_flat. }
    pose proof (pipe_of_exec (Redir v f m fd) ltac:(by intros []) He). split_and!; [done|done| |]; by apply Hup; try (by intros []).
  - destruct Ht as [Htl Htr]. simpl in Hk. destruct (IH l ltac:(lia) Htl) as (Hel & _ & _ & _).
    destruct (IH r ltac:(lia) Htr) as (_ & Hpr & _ & _). pose proof (pipe_pipe l r Htr Hel Hpr) as Hp.
    destruct (Hup Hp ltac:(by intros []) ltac:(by intros [])) as [Hb Hl].
    split_and!; [|done..]. by apply (exec_block (Pipe l r) []); try (by intros []).
  - destruct Ht as [Htl Htr]. simpl in Hk. destruct (IH l ltac:(lia) Htl) as (_ & _ & Hbl & _).
    destruct (IH r ltac:(lia) Htr) as (_ & _ & _ & Hlr). pose proof (line_list l r Htr Hbl Hlr) as Hl.
    assert (He : reads_exec (List l r)) by (by apply (exec_block (List l r) []); try (by intros [])).
    pose proof (pipe_of_exec (List l r) ltac:(by intros []) He) as Hp.
    split_and!; [done|done| |done]. by apply (back_of_pipe 0); [intros []|].
  - destruct (unback _ Ht) as (n & p & E & Hp & Htp & Hsz).
    assert (Hs : (size_of p <= k)%nat) by (destruct n; [simpl in E; subst p; by destruct Hp|simpl in *; lia]).
    destruct (IH p Hs Htp) as (_ & Hpp & _ & _).
    assert (Hb : reads_back (Back v)) by (rewrite E; by apply back_of_pipe).
    pose proof (line_of_back (Back v) ltac:(by intros []) Hb) as Hl.
    assert (He : reads_exec (Back v)) by (by apply (exec_block (Back v) []); try (by intros [])).
    split_and!; [done| |done|done]. by apply pipe_of_exec; [intros []|].
Qed.

(** ** The whole line *)

Lemma print_no_nul u lv : typable u -> no_nul (print lv u).
Proof.
  assert (Hwz : forall w, wordy w -> no_nul w).
  { intros w [_ Hw]. eapply list.Forall_impl; [exact Hw|]. simpl. tauto. }
  revert lv. induction u as [ws|u IH f m fd|l IHl r IHr|l IHl r IHr|u IH]; intros lv Ht; simpl in *.
  - destruct Ht as [_ Hw]. induction Hw as [|w ws Hw _ IHw]; [constructor|].
    destruct ws; [by apply Hwz|]. change (no_nul (w ++ 32 :: print_words (l :: ws))). apply Forall_app.
    split; [by apply Hwz|]. constructor; [done|exact IHw].
  - apply Forall_app. split; [apply IH, Ht|]. constructor; [unfold redir_sym; by destruct (fd =? 0)|]. apply Hwz, Ht.
  - assert (no_nul (print L_exec l ++ 124 :: print L_pipe r)).
    { apply Forall_app. split; [apply IHl, Ht|]. constructor; [done|apply IHr, Ht]. }
    destruct lv; simpl; try done. constructor; [done|]. apply Forall_app. split; [done|by apply Forall_singleton].
  - assert (no_nul (print L_back l ++ 59 :: print L_line r)).
    { apply Forall_app. split; [apply IHl, Ht|]. constructor; [done|apply IHr, Ht]. }
    destruct lv; simpl; try done; (constructor; [done|]; apply Forall_app; split; [done|by apply Forall_singleton]).
  - assert (no_nul (print L_back u ++ [38])).
    { apply Forall_app. split; [by apply IH|by apply Forall_singleton]. }
    destruct lv; simpl; try done; (constructor; [done|]; apply Forall_app; split; [done|by apply Forall_singleton]).
Qed.

Lemma peek_end line : peek line (length line) [] = (false, length line).
Proof.
  unfold peek.
  assert (Hs : skip_ws line (length line) = length line) by (unfold skip_ws; rewrite drop_ge by lia; simpl; lia).
  rewrite Hs. f_equal. unfold char_at. by rewrite lookup_ge_None_2.
Qed.

(** C10. The shell understands what is typed: the text of any command, with
    parentheses where the grammar needs them, is parsed as that command, and
    the strings of its words in the buffer, once they have been cut off with
    NULs, are the words of the command. *)
Theorem shell_roundtrip (u : cmd (list Z)) (junk : list Z) :
  typable u ->
  exists c buf, parsecmd (4 * length (print L_line u) + 4) (print L_line u ++ 0 :: junk) = POk (c, buf) /\
    cmd_map (string_at buf) c = u.
Proof.
  intros Ht. set (line := print L_line u). pose proof (print_no_nul u L_line Ht) as Hz. fold line in Hz.
  destruct (reads_all (size_of u) u (le_n _) Ht) as (_ & _ & _ & Hl).
  destruct (Hl (4 * length line + 4)%nat line [] []) as (c & E & Hc);
    [unfold line; by rewrite app_nil_r|by left|unfold line; by rewrite app_nil_r|].
  cbn [length app] in E. fold line in E. exists c, (nulterminate c (line ++ 0 :: junk)). split.
  - unfold parsecmd. rewrite strlen_line, Nat2Z.id, take_app_length by done. rewrite E. cbn [mbind pres_bind].
    rewrite peek_end. by rewrite Nat.eqb_refl.
  - destruct (parse_ends line Hz (4 * length line + 4)) as [He _].
    specialize (He 0%nat (boundary_0 line) ltac:(unfold rest; lia)). rewrite E in He. destruct He as [_ Hw].
    by rewrite nulterminate_strings.
Qed.

(** A command with a list in parentheses, a pipe, a redirection and [&]. *)
Definition demo_cmd : cmd (list Z) :=
  List (Back (Pipe (Redir (List (Exec [chars "cat"; chars "README"]) (Exec [chars "ls"])) (chars "out") (Z.lor O_WRONLY O_CREATE) 1)
                   (Exec [chars "wc"])))
       (Redir (Exec [chars "grep"; chars "x"]) (chars "in") O_RDONLY 0).

Definition wordy_b (w : list Z) : bool :=
  negb (length w =? 0)%nat && forallb (fun c => negb (c =? 0) && is_word c) w.

Lemma wordy_test w : wordy_b w = true -> wordy w.
Proof.
  intros H. apply andb_true_iff in H as [H1 H2]. split; [by destruct w|]. apply list.Forall_forall. intros c Hin.
  apply list_elem_of_In in Hin. rewrite forallb_forall in H2. specialize (H2 c Hin).
  apply andb_true_iff in H2 as [H2 H3]. by apply negb_true_iff, Z.eqb_neq in H2.
Qed.

Lemma typable_exec ws : (length ws <? MAXARGS)%nat && forallb wordy_b ws = true -> typable (Exec ws).
Proof.
  intros H. apply andb_true_iff in H as [H1 H2]. apply Nat.ltb_lt in H1. split; [done|].
  apply list.Forall_forall. intros w Hin. apply list_elem_of_In in Hin. rewrite forallb_forall in H2.
  by apply wordy_test, H2.
Qed.

Lemma demo_typable : typable demo_cmd.
Proof.
  split; [split; [split; [split|split]|]|split; [|split]].
  1, 2, 5, 6: by apply typable_exec; vm_compute.
  - by apply wordy_test.
  - by right.
  - by apply wordy_test.
  - by left.
Qed.

Lemma shell_roundtrip_witness :
  print L_line demo_cmd = chars "(cat README;ls)>out|wc&;grep x<in" /\
  exists c buf, parsecmd (4 * length (print L_line demo_cmd) + 4) (print L_line demo_cmd ++ [0]) = POk (c, buf) /\
    cmd_map (string_at buf) c = demo_cmd.
Proof. split; [reflexivity|]. apply (shell_roundtrip demo_cmd []). apply demo_typable. Defined.
