(* ===== verification/Mkfs.v ===== *)
(** * mkfs.c: the program that makes the file system image

    Runs on the host, a little-endian machine.  The image is a file of blocks;
    [exit(1)] and a failed [assert] are panics.  What the host's [open] and
    [read] answer for the files to copy is a parameter. *)

From S2P Require Import Prelude Machine StringC Spinlock Kalloc Vm Kernel Sleep Bio Log Inode Fs Digits.

Module Mkfs.

Definition NINODES : Z := 200.
Definition nbitmap : Z := FSSIZE / (BSIZE * 8) + 1.
Definition ninodeblocks : Z := NINODES / IPB + 1.
Definition nmeta : Z := 2 + LOGSIZE + ninodeblocks + nbitmap.

Record img := Img { blk : gmap Z (list Z); freeinode : Z; freeblock : Z }.

Definition upd_blk (f : gmap Z (list Z) -> gmap Z (list Z)) (s : img) : img := Img (f (blk s)) (freeinode s) (freeblock s).
Definition upd_freeinode (f : Z -> Z) (s : img) : img := Img (blk s) (f (freeinode s)) (freeblock s).
Definition upd_freeblock (f : Z -> Z) (s : img) : img := Img (blk s) (freeinode s) (f (freeblock s)).

(** The bytes [a[0]], [a[1]], ... of the result, read back by the host. *)
Definition xshort (x : Z) : Z := half_at (half_bytes x) 0.
Definition xint (x : Z) : Z := word_at (word_bytes x) 0.

Definition mk_sb : superblock :=
  {| sb_size := xint FSSIZE; nblocks := xint (FSSIZE - nmeta); ninodes := xint NINODES; nlog := xint LOGSIZE;
     logstart := xint 2; inodestart := xint (2 + LOGSIZE); bmapstart := xint (2 + LOGSIZE + ninodeblocks) |}.

Definition sb_bytes (x : superblock) : list Z :=
  concat (word_bytes <$> [sb_size x; nblocks x; ninodes x; nlog x; logstart x; inodestart x; bmapstart x]).

(** The block at the offset [sec * BSIZE] of the file, a [uint]. *)
Definition sector (sec : Z) : Z := u32 (sec * BSIZE) / BSIZE.

Definition wsect (sec : Z) (buf : list Z) : M img unit := modify (upd_blk (<[sector sec := buf]>)).

Definition rsect (sec : Z) : M img (list Z) :=
  b <- gets (fun s => blk s !! sector sec) ;;
  match b with
  | Some buf => ret buf
  | None => panic "read"
  end.

Definition winode (inum : Z) (ip : dinode) : M img unit :=
  let bn := IBLOCK inum mk_sb in
  buf <- rsect bn ;;
  wsect bn (splice buf (inum mod IPB * 64) (dinode_encode ip)).

Definition rinode (inum : Z) : M img dinode :=
  buf <- rsect (IBLOCK inum mk_sb) ;;
  ret (dinode_decode buf (inum mod IPB * 64)).

Definition ialloc (type : Z) : M img Z :=
  inum <- gets freeinode ;;
  modify (upd_freeinode (fun n => u32 (n + 1))) ;;
  winode inum {| d_type := xshort type; d_major := 0; d_minor := 0; d_nlink := xshort 1; d_size := xint 0;
                 d_addrs := replicate 13 0 |} ;;
  ret inum.

Definition balloc (used : Z) : M img unit :=
  if negb (used <? BSIZE * 8) then panic "used < BSIZE*8"
  else wsect (bmapstart mk_sb) (foldl bit_mark (replicate (Z.to_nat BSIZE) 0) (seqZ 0 used)).

(** [freeblock++]. *)
Definition next_block : M img Z :=
  b <- gets freeblock ;;
  modify (upd_freeblock (fun n => u32 (n + 1))) ;;
  ret b.

Definition set_addr (i : Z) (b : Z) (d : dinode) : dinode :=
  {| d_type := d_type d; d_major := d_major d; d_minor := d_minor d; d_nlink := d_nlink d; d_size := d_size d;
     d_addrs := <[Z.to_nat i := b]> (d_addrs d) |}.

Definition with_size (n : Z) (d : dinode) : dinode :=
  {| d_type := d_type d; d_major := d_major d; d_minor := d_minor d; d_nlink := d_nlink d; d_size := n;
     d_addrs := d_addrs d |}.

(** The block [x] of [iappend] for the file block [fbn]. *)
Definition iappend_block (din : dinode) (fbn : Z) : M img (dinode * Z) :=
  if fbn <? NDIRECT then
    din <- (if xint (d_addrs din !!! Z.to_nat fbn) =? 0 then b <- next_block ;; ret (set_addr fbn (xint b) din)
            else ret din) ;;
    ret (din, xint (d_addrs din !!! Z.to_nat fbn))
  else
    din <- (if xint (d_addrs din !!! Z.to_nat NDIRECT) =? 0 then b <- next_block ;; ret (set_addr NDIRECT (xint b) din)
            else ret din) ;;
    let ind := xint (d_addrs din !!! Z.to_nat NDIRECT) in
    let o := 4 * (fbn - NDIRECT) in
    indirect <- rsect ind ;;
    indirect <- (if word_at indirect o =? 0 then
                   b <- next_block ;;
                   let indirect := splice indirect o (word_bytes (xint b)) in
                   wsect ind indirect ;; ret indirect
                 else ret indirect) ;;
    ret (din, xint (word_at indirect o)).

Fixpoint iappend_loop (fuel : nat) (din : dinode) (off : Z) (p : list Z) : M img (dinode * Z) :=
  match fuel with
  | O => fun _ => NoFuel
  | S f =>
      match p with
      | [] => ret (din, off)
      | _ =>
          let fbn := off / BSIZE in
          if negb (fbn <? MAXFILE) then panic "fbn < MAXFILE"
          else
            r <- iappend_block din fbn ;;
            let '(din, x) := r in
            let n1 := Z.min (Z.of_nat (length p)) (u32 ((fbn + 1) * BSIZE - off)) in
            buf <- rsect x ;;
            wsect x (splice buf (off - fbn * BSIZE) (take (Z.to_nat n1) p)) ;;
            iappend_loop f din (u32 (off + n1)) (drop (Z.to_nat n1) p)
      end
  end.

Definition iappend (inum : Z) (xp : list Z) : M img unit :=
  din <- rinode inum ;;
  r <- iappend_loop (S (length xp)) din (xint (d_size din)) xp ;;
  winode inum (with_size (xint (snd r)) (fst r)).

(** A [struct dirent], cleared, with the name copied by [strncpy] (or, for
    the short names, [strcpy]). *)
Definition dirent_bytes (inum : Z) (name : list Z) : list Z :=
  half_bytes (xshort inum) ++ take (Z.to_nat DIRSIZ) (name ++ replicate (Z.to_nat DIRSIZ) 0).

Definition ch_underscore : Z := 95.

(** The name without a leading underscore. *)
Definition strip (name : list Z) : list Z :=
  match name with
  | c :: name' => if c =? ch_underscore then name' else name
  | [] => []
  end.

Section Host.
(** Whether the image can be created, and what reading the file of a given
    name returns: nothing when it cannot be opened, else the bytes of each
    [read] in turn. *)
Context (creates : bool) (reads : list Z -> option (list (list Z))).

Definition add_file (rootino : Z) (name : list Z) : M img unit :=
  if bool_decide (ch_slash ∈ name) then panic "index(argv[i], '/') == 0"
  else
    match reads name with
    | None => panic "open"
    | Some chunks =>
        inum <- ialloc T_FILE ;;
        iappend rootino (dirent_bytes inum (strip name)) ;;
        for_all chunks (fun buf => iappend inum buf)
    end.

(** [argv] without the program's own name. *)
Definition main (argv : list (list Z)) : M img unit :=
  match argv with
  | [] => panic "Usage: mkfs fs.img files..."
  | _ :: names =>
      if negb creates then panic "fs.img"
      else
        modify (upd_freeblock (fun _ => nmeta)) ;;
        for_all (seqZ 0 FSSIZE) (fun i => wsect i (replicate (Z.to_nat BSIZE) 0)) ;;
        wsect 1 (splice (replicate (Z.to_nat BSIZE) 0) 0 (sb_bytes mk_sb)) ;;
        rootino <- ialloc T_DIR ;;
        if negb (rootino =? ROOTINO) then panic "rootino == ROOTINO"
        else
          iappend rootino (dirent_bytes rootino [46]) ;;
          iappend rootino (dirent_bytes rootino [46; 46]) ;;
          for_all names (add_file rootino) ;;
          din <- rinode rootino ;;
          let off := xint (d_size din) in
          let off := u32 ((off / BSIZE + 1) * BSIZE) in
          winode rootino (with_size (xint off) din) ;;
          b <- gets freeblock ;;
          balloc b
  end.
End Host.

(** The image before the program runs: [freeinode] is 1. *)
Definition start : img := Img ∅ 1 0.
End Mkfs.
