(* ===== verification/MkfsProps.v ===== *)
(** * mkfs.c: the image holds the files

    Every file and the root directory, read through the block pointers of
    their inodes, have the bytes they were given; blocks are shared by no two
    files; the bitmap marks the blocks that are in use. *)

From S2P Require Import Prelude Machine StringC Spinlock Kalloc Vm Kernel Sleep Bio Log Inode Fs Digits Bytes FsProps Mkfs.
Import Mkfs.

(** ** Blocks of the image *)

Definition BS : nat := 512.

Definition B (s : img) (b : Z) : list Z := default [] (blk s !! b).

Definition full (s : img) : Prop := forall b, 0 <= b < FSSIZE -> exists d, blk s !! b = Some d /\ length d = BS.

Lemma full_length s b : full s -> 0 <= b < FSSIZE -> length (B s b) = BS.
Proof. intros Hf Hb. destruct (Hf b Hb) as (d & E & Hd). unfold B. by rewrite E. Qed.

Lemma sector_id b : 0 <= b < FSSIZE -> sector b = b.
Proof. intros Hb. unfold sector, u32. change FSSIZE with 1000 in Hb. change BSIZE with 512. zlia. Qed.

Lemma xint_id x : 0 <= x < 4294967296 -> xint x = x.
Proof. intros Hx. exact (word_split x Hx). Qed.

Lemma xshort_id x : 0 <= x < 32768 -> xshort x = x.
Proof. intros Hx. unfold xshort, half_at, byte_at. simpl. unfold u8. zlia. Qed.

Lemma rsect_ok s b : full s -> 0 <= b < FSSIZE -> rsect b s = Ok (B s b) s.
Proof.
  intros Hf Hb. destruct (Hf b Hb) as (d & E & _). unfold rsect.
  erewrite bind_ok by (unfold gets; reflexivity). rewrite sector_id by done. unfold B. by rewrite E.
Qed.

Definition put (b : Z) (d : list Z) (s : img) : img := upd_blk (<[b := d]>) s.

Lemma wsect_ok s b d : 0 <= b < FSSIZE -> wsect b d s = Ok tt (put b d s).
Proof. intros Hb. unfold wsect, modify. by rewrite sector_id. Qed.

Lemma B_put b d s c : B (put b d s) c = if decide (c = b) then d else B s c.
Proof.
  unfold B, put. simpl. case_decide as Hc; [subst; by rewrite lookup_insert_eq|by rewrite lookup_insert_ne].
Qed.

Lemma put_full b d s : full s -> length d = BS -> full (put b d s).
Proof.
  intros Hf Hd c Hc. destruct (decide (c = b)) as [->|Hn]; unfold put; simpl.
  - exists d. by rewrite lookup_insert_eq.
  - rewrite lookup_insert_ne by done. by apply Hf.
Qed.

(** ** The pointers of a file *)

Definition bptr (s : img) (d : dinode) (k : Z) : Z :=
  if k <? NDIRECT then d_addrs d !!! Z.to_nat k
  else if d_addrs d !!! 12%nat =? 0 then 0
  else word_at (B s (d_addrs d !!! 12%nat)) (4 * (k - NDIRECT)).

(** Who owns a block: a file and the place of the block in it, -1 for the
    block of indirect pointers. *)
Definition owners : Type := Z -> option (Z * Z).

(** File [i] has exactly its first [nb] blocks, allocated below [freeblock],
    and a block of indirect pointers if [hi]. *)
Record pages_ok (s : img) (own : owners) (i : Z) (d : dinode) (nb : Z) (hi : bool) : Prop := {
  pg_nb : 0 <= nb <= MAXFILE;
  pg_len : length (d_addrs d) = 13%nat;
  pg_in : forall k, 0 <= k < nb -> nmeta <= bptr s d k < freeblock s /\ own (bptr s d k) = Some (i, k);
  pg_hi : 12 < nb -> hi = true;
  pg_ind : hi = true -> nmeta <= d_addrs d !!! 12%nat < freeblock s /\ own (d_addrs d !!! 12%nat) = Some (i, -1);
  pg_ind0 : hi = false -> d_addrs d !!! 12%nat = 0;
  pg_zero : forall k, nb <= k < MAXFILE -> bptr s d k = 0 }.

(** The bytes of a file. *)
Definition data_ok (s : img) (d : dinode) (data : list Z) : Prop :=
  forall j, 0 <= j < Z.of_nat (length data) -> B s (bptr s d (j / 512)) !!! Z.to_nat (j mod 512) = data !!! Z.to_nat j.

Definition zero_block : list Z := replicate BS 0.

(** The blocks that have not been allocated are zero. *)
Record room_ok (s : img) : Prop := {
  rm_full : full s;
  rm_free : nmeta <= freeblock s <= FSSIZE;
  rm_zero : forall b, freeblock s <= b < FSSIZE -> B s b = zero_block }.

(** What [iappend] to file [i] leaves alone. *)
Record frame (i : Z) (own own' : owners) (s s' : img) : Prop := {
  fr_free : freeblock s <= freeblock s';
  fr_inode : freeinode s' = freeinode s;
  fr_own : forall b, b < freeblock s -> own' b = own b;
  fr_blk : forall b, b < freeblock s -> (forall k, own b <> Some (i, k)) -> B s' b = B s b }.

Lemma frame_refl i own s : frame i own own s s.
Proof. split; [lia|done|done|done]. Qed.

Lemma frame_trans i o1 o2 o3 s1 s2 s3 : frame i o1 o2 s1 s2 -> frame i o2 o3 s2 s3 -> frame i o1 o3 s1 s3.
Proof.
  intros [F1 N1 O1 B1] [F2 N2 O2 B2]. split; [lia|congruence| |].
  - intros b Hb. rewrite O2 by lia. by apply O1.
  - intros b Hb Hk. rewrite B2; [by apply B1|lia|]. intros k. rewrite O1 by done. apply Hk.
Qed.

(** Another file keeps its blocks and its bytes. *)
Lemma other_pages i j own own' s s' d nb hi :
  frame i own own' s s' -> i <> j -> pages_ok s own j d nb hi ->
  pages_ok s' own' j d nb hi /\ forall k, 0 <= k < nb -> bptr s' d k = bptr s d k.
Proof.
  intros Hfr Hij Hp. destruct Hfr as [F _ O Bk].
  assert (Hptr : forall k, bptr s' d k = bptr s d k).
  { intros k. unfold bptr. destruct (k <? NDIRECT); [done|]. destruct (Z.eqb_spec (d_addrs d !!! 12%nat) 0) as [|Hn]; [done|].
    destruct hi eqn:Eh; [|by rewrite (pg_ind0 _ _ _ _ _ _ Hp) in Hn by done].
    destruct (pg_ind _ _ _ _ _ _ Hp eq_refl) as [Hr Ho]. rewrite Bk; [done|lia|]. intros k'. rewrite Ho. congruence. }
  split; [|intros; apply Hptr]. split.
  - apply Hp.
  - apply Hp.
  - intros k Hk. rewrite Hptr. destruct (pg_in _ _ _ _ _ _ Hp k Hk) as [Hr Ho]. rewrite O by lia. split; [lia|done].
  - apply Hp.
  - intros H12. destruct (pg_ind _ _ _ _ _ _ Hp H12) as [Hr Ho]. rewrite O by lia. split; [lia|done].
  - apply Hp.
  - intros k Hk. rewrite Hptr. by apply Hp.
Qed.

Lemma other_data i j own own' s s' d nb hi data :
  frame i own own' s s' -> i <> j -> pages_ok s own j d nb hi -> Z.of_nat (length data) <= nb * 512 ->
  data_ok s d data -> data_ok s' d data.
Proof.
  intros Hfr Hij Hp Hl Hd j' Hj. assert (Hk : 0 <= j' / 512 < nb) by zlia.
  destruct (other_pages _ _ _ _ _ _ _ _ _ Hfr Hij Hp) as [_ Hptr]. rewrite Hptr by done.
  destruct (pg_in _ _ _ _ _ _ Hp _ Hk) as [Hr Ho]. destruct Hfr as [_ _ _ Bk].
  rewrite Bk; [by apply Hd|lia|]. intros k. rewrite Ho. congruence.
Qed.

(** ** A block for the next bytes *)

Definition bump (s : img) : img := Img (blk s) (freeinode s) (freeblock s + 1).

Lemma next_block_ok s : nmeta <= freeblock s < FSSIZE -> next_block s = Ok (freeblock s) (bump s).
Proof.
  intros Hf. unfold next_block. erewrite bind_ok by (unfold gets; reflexivity).
  erewrite bind_ok by (unfold modify; reflexivity). unfold ret, bump, upd_freeblock.
  unfold u32. rewrite Z.mod_small; [done|].
  change nmeta with 59 in Hf. change FSSIZE with 1000 in Hf. lia.
Qed.

Lemma bptr_bump s d k : bptr (bump s) d k = bptr s d k.
Proof. done. Qed.

Lemma bptr_range s own i d nb hi k : room_ok s -> pages_ok s own i d nb hi -> 0 <= k < nb -> nmeta <= bptr s d k < FSSIZE.
Proof. intros Hr Hp Hk. destruct (pg_in _ _ _ _ _ _ Hp k Hk) as [H _]. pose proof (rm_free _ Hr). lia. Qed.

Lemma xint_block b : 0 <= b < FSSIZE -> xint b = b.
Proof. intros Hb. apply xint_id. change FSSIZE with 1000 in Hb. lia. Qed.

Definition own_at (own : owners) (b : Z) (x : Z * Z) : owners := fun c => if decide (c = b) then Some x else own c.

(** What a step of [iappend] to file [i] gives: the pointers so far stay and
    so do the blocks behind them. *)
Record grown (s s' : img) (own own' : owners) (i : Z) (d d' : dinode) (nb nb' : Z) (hi' : bool) : Prop := {
  gr_room : room_ok s';
  gr_pages : pages_ok s' own' i d' nb' hi';
  gr_frame : frame i own own' s s';
  gr_ptr : forall k, 0 <= k < nb -> bptr s' d' k = bptr s d k;
  gr_blk : forall k, 0 <= k < nb -> B s' (bptr s d k) = B s (bptr s d k);
  gr_head : d' = with_size (d_size d) (Dinode (d_type d) (d_major d) (d_minor d) (d_nlink d) 0 (d_addrs d')) }.

Lemma grown_same s own i d nb hi : room_ok s -> pages_ok s own i d nb hi -> grown s s own own i d d nb nb hi.
Proof. intros Hr Hp. split; [done|done|apply frame_refl|done|done|by destruct d]. Qed.

Lemma block_there s own i d nb hi fbn :
  room_ok s -> pages_ok s own i d nb hi -> 0 <= fbn < nb -> iappend_block d fbn s = Ok (d, bptr s d fbn) s.
Proof.
  intros Hr Hp Hk. pose proof (bptr_range _ _ _ _ _ _ _ Hr Hp Hk) as Hb. pose proof (pg_nb _ _ _ _ _ _ Hp).
  unfold iappend_block, bptr in *. change NDIRECT with 12 in *. change nmeta with 59 in *.
  destruct (Z.ltb_spec fbn 12) as [Hd|Hd].
  - rewrite xint_block by lia. rewrite (proj2 (Z.eqb_neq _ 0)) by lia. erewrite bind_ok by (unfold ret; reflexivity).
    by rewrite xint_block by lia.
  - destruct (pg_ind _ _ _ _ _ _ Hp (pg_hi _ _ _ _ _ _ Hp ltac:(lia))) as [Hi _]. pose proof (rm_free _ Hr). change nmeta with 59 in *.
    change (Z.to_nat 12) with 12%nat. rewrite xint_block by lia. rewrite (proj2 (Z.eqb_neq (d_addrs d !!! 12%nat) 0)) in * by lia.
    erewrite bind_ok by (unfold ret; reflexivity). rewrite xint_block by lia.
    erewrite bind_ok by (apply rsect_ok; [apply Hr|lia]). cbv beta.
    rewrite (proj2 (Z.eqb_neq _ 0)) by lia. erewrite bind_ok by (unfold ret; reflexivity).
    by rewrite xint_block by lia.
Qed.

Lemma room_bump s : room_ok s -> freeblock s < FSSIZE -> room_ok (bump s).
Proof.
  intros Hr Hf. pose proof (rm_free _ Hr). split; [apply Hr|simpl; lia|].
  intros b Hb. simpl in Hb. apply (rm_zero _ Hr). lia.
Qed.

Lemma block_direct s own i d nb :
  room_ok s -> pages_ok s own i d nb false -> nb < 12 -> freeblock s < FSSIZE ->
  let d' := set_addr nb (freeblock s) d in
  iappend_block d nb s = Ok (d', bptr (bump s) d' nb) (bump s) /\
  grown s (bump s) own (own_at own (freeblock s) (i, nb)) i d d' nb (nb + 1) false.
Proof.
  intros Hr Hp Hnb Hfs d'. pose proof (pg_nb _ _ _ _ _ _ Hp) as H0. pose proof (rm_free _ Hr) as Hf.
  pose proof (pg_len _ _ _ _ _ _ Hp) as Hlen. change nmeta with 59 in *. change MAXFILE with 140 in *.
  assert (Hd' : forall k, 0 <= k < 140 -> bptr (bump s) d' k = if decide (k = nb) then freeblock s else bptr s d k).
  { intros k Hk. rewrite bptr_bump. unfold bptr, d', set_addr. cbn [d_addrs]. change NDIRECT with 12.
    rewrite (list_lookup_total_insert_ne _ (Z.to_nat nb) 12) by lia.
    destruct (Z.ltb_spec k 12); [|by rewrite decide_False by lia].
    destruct (decide (k = nb)) as [->|Hn]; [by rewrite list_lookup_total_insert_eq by lia|].
    by rewrite list_lookup_total_insert_ne by lia. }
  split.
  - unfold iappend_block. change NDIRECT with 12. rewrite (proj2 (Z.ltb_lt nb 12)) by done.
    pose proof (pg_zero _ _ _ _ _ _ Hp nb ltac:(change MAXFILE with 140; lia)) as Hz. unfold bptr in Hz.
    change NDIRECT with 12 in Hz. rewrite (proj2 (Z.ltb_lt nb 12)) in Hz by done. rewrite Hz.
    rewrite xint_block by lia. rewrite Z.eqb_refl.
    erewrite bind_ok by (erewrite bind_ok by (apply next_block_ok; change nmeta with 59; lia); unfold ret; reflexivity).
    rewrite xint_block by lia. fold d'. unfold ret. do 2 f_equal.
    rewrite Hd', decide_True by (done || lia). unfold d', set_addr. cbn [d_addrs].
    rewrite list_lookup_total_insert_eq by lia. apply xint_block. lia.
  - split.
    + by apply room_bump.
    + split; [change MAXFILE with 140; lia|unfold d', set_addr; cbn [d_addrs]; by rewrite length_insert| |lia|done| |].
      * intros k Hk. rewrite Hd' by lia. unfold own_at. simpl. change nmeta with 59. case_decide as E1.
        -- rewrite decide_True by done. split; [lia|by subst k].
        -- destruct (pg_in _ _ _ _ _ _ Hp k ltac:(lia)) as [Hr' Ho]. change nmeta with 59 in Hr'.
           rewrite decide_False by lia. split; [lia|done].
      * intros _. unfold d', set_addr. cbn [d_addrs]. rewrite list_lookup_total_insert_ne by lia. by apply Hp.
      * intros k Hk. change MAXFILE with 140 in Hk. rewrite Hd', decide_False by lia. apply Hp. change MAXFILE with 140. lia.
    + split; simpl; [lia|done| |done]. intros b Hb. unfold own_at. by rewrite decide_False by lia.
    + intros k Hk. by rewrite Hd', decide_False by lia.
    + done.
    + done.
Qed.

(** The blocks of indirect pointers. *)
Lemma zero_word k : 0 <= k < 128 -> word_at zero_block (4 * k) = 0.
Proof.
  intros Hk. unfold word_at, byte_at, zero_block. rewrite !list_lookup_total_alt.
  rewrite !lookup_replicate_2 by (unfold BS; lia). done.
Qed.

Lemma indirect_put ind k b :
  length ind = BS -> 0 <= k < 128 -> 0 <= b < FSSIZE ->
  length (splice ind (4 * k) (word_bytes b)) = BS /\
  forall m, 0 <= m < 128 -> word_at (splice ind (4 * k) (word_bytes b)) (4 * m) = if decide (m = k) then b else word_at ind (4 * m).
Proof.
  intros Hl Hk Hb. unfold BS in *. change FSSIZE with 1000 in Hb. split; [rewrite splice_length; simpl; lia|].
  intros m Hm. case_decide as E; [subst m; apply word_at_splice; lia|].
  apply word_at_splice_other; rewrite ?word_bytes_length; lia.
Qed.

(** The pointer block [ind] of file [i] exists and block [nb] is missing. *)
Lemma block_indirect s own i d nb ind fb :
  ind = d_addrs d !!! 12%nat -> fb = freeblock s ->
  room_ok s -> pages_ok s own i d nb true -> 12 <= nb < MAXFILE -> fb < FSSIZE ->
  let s' := put ind (splice (B s ind) (4 * (nb - 12)) (word_bytes fb)) (bump s) in
  iappend_block d nb s = Ok (d, bptr s' d nb) s' /\
  grown s s' own (own_at own fb (i, nb)) i d d nb (nb + 1) true.
Proof.
  intros Ei Ef Hr Hp Hnb Hfs s'. pose proof (rm_free _ Hr) as Hf. destruct (pg_ind _ _ _ _ _ _ Hp eq_refl) as [Hi Ho].
  rewrite <- Ei in Hi, Ho. rewrite <- Ef in Hi, Hf. change nmeta with 59 in *. change MAXFILE with 140 in *.
  pose proof (full_length s ind (rm_full _ Hr) ltac:(lia)) as Hil.
  destruct (indirect_put (B s ind) (nb - 12) fb Hil ltac:(lia) ltac:(lia)) as [Hnl Hw].
  assert (Hptr : forall k, 0 <= k < 140 -> bptr s' d k = if decide (k = nb) then fb else bptr s d k).
  { intros k Hk. unfold bptr. change NDIRECT with 12. rewrite <- Ei. rewrite (proj2 (Z.eqb_neq ind 0)) by lia.
    destruct (Z.ltb_spec k 12); [by rewrite decide_False by lia|]. unfold s'. rewrite B_put, decide_True by done.
    rewrite Hw by lia. destruct (decide (k = nb)); [by rewrite decide_True by lia|by rewrite decide_False by lia]. }
  assert (Hkeep : forall b, b <> ind -> B s' b = B s b) by (intros b Hb; unfold s'; by rewrite B_put, decide_False).
  assert (Hne : forall k, 0 <= k < nb -> bptr s d k <> ind).
  { intros k Hk E. destruct (pg_in _ _ _ _ _ _ Hp k Hk) as [_ Hok]. rewrite E, Ho in Hok. injection Hok as Hk'. lia. }
  split.
  - unfold iappend_block. change NDIRECT with 12. rewrite (proj2 (Z.ltb_ge nb 12)) by lia.
    change (Z.to_nat 12) with 12%nat. rewrite <- Ei, xint_block by lia. rewrite (proj2 (Z.eqb_neq ind 0)) by lia.
    erewrite bind_ok by (unfold ret; reflexivity). rewrite <- Ei, xint_block by lia.
    erewrite bind_ok by (apply rsect_ok; [apply Hr|lia]). cbv beta.
    pose proof (pg_zero _ _ _ _ _ _ Hp nb ltac:(change MAXFILE with 140; lia)) as Hz. unfold bptr in Hz.
    change NDIRECT with 12 in Hz. rewrite (proj2 (Z.ltb_ge nb 12)), <- Ei, (proj2 (Z.eqb_neq ind 0)) in Hz by lia.
    rewrite Hz, Z.eqb_refl. rewrite bind_ok with (a := splice (B s ind) (4 * (nb - 12)) (word_bytes fb)) (s' := s').
    + rewrite Hw, decide_True, xint_block by lia. rewrite Hptr, decide_True by lia. done.
    + erewrite bind_ok by (apply next_block_ok; change nmeta with 59; lia). cbv beta zeta. rewrite <- Ef, xint_block by lia.
      erewrite bind_ok by (apply wsect_ok; lia). done.
  - split.
    + destruct (room_bump s Hr ltac:(lia)) as [Hfu Hfr Hze]. split.
      * by apply put_full.
      * done.
      * intros b Hb. rewrite Hkeep by (simpl in Hb; lia). by apply Hze.
    + split; [change MAXFILE with 140; lia|apply Hp| |done| |done|].
      * intros k Hk. rewrite Hptr by lia. unfold own_at. simpl. change nmeta with 59. rewrite <- Ef. case_decide as E1.
        -- rewrite decide_True by done. split; [lia|by subst k].
        -- destruct (pg_in _ _ _ _ _ _ Hp k ltac:(lia)) as [Hr' Hok]. change nmeta with 59 in Hr'.
           rewrite decide_False by lia. split; [lia|done].
      * intros _. unfold own_at. simpl. change nmeta with 59. rewrite <- Ei, <- Ef. rewrite decide_False by lia.
        split; [lia|done].
      * intros k Hk. change MAXFILE with 140 in Hk. rewrite Hptr, decide_False by lia. apply Hp. change MAXFILE with 140. lia.
    + split; simpl; rewrite <- ?Ef; [lia|done| |].
      * intros b Hb. unfold own_at. by rewrite decide_False by lia.
      * intros b Hb Hn. apply Hkeep. intros ->. by apply (Hn (-1)).
    + intros k Hk. by rewrite Hptr, decide_False by lia.
    + intros k Hk. apply Hkeep. by apply Hne.
    + by destruct d.
Qed.

Lemma grown_trans s0 s1 s2 o0 o1 o2 i d0 d1 d2 n0 n1 n2 h1 h2 :
  grown s0 s1 o0 o1 i d0 d1 n0 n1 h1 -> grown s1 s2 o1 o2 i d1 d2 n1 n2 h2 -> n0 <= n1 ->
  grown s0 s2 o0 o2 i d0 d2 n0 n2 h2.
Proof.
  intros G1 G2 Hn. split; [apply G2|apply G2|eapply frame_trans; [apply G1|apply G2]| | |].
  - intros k Hk. rewrite (gr_ptr _ _ _ _ _ _ _ _ _ _ G2) by lia. by apply G1.
  - intros k Hk. pose proof (gr_ptr _ _ _ _ _ _ _ _ _ _ G1 k Hk) as E. rewrite <- E at 1.
    rewrite (gr_blk _ _ _ _ _ _ _ _ _ _ G2) by lia. rewrite E. by apply (gr_blk _ _ _ _ _ _ _ _ _ _ G1).
  - rewrite (gr_head _ _ _ _ _ _ _ _ _ _ G2), (gr_head _ _ _ _ _ _ _ _ _ _ G1). done.
Qed.

(** The block of indirect pointers itself. *)
Lemma block_pointers s own i d :
  room_ok s -> pages_ok s own i d 12 false -> freeblock s < FSSIZE ->
  let d' := set_addr 12 (freeblock s) d in
  iappend_block d 12 s = iappend_block d' 12 (bump s) /\
  grown s (bump s) own (own_at own (freeblock s) (i, -1)) i d d' 12 12 true.
Proof.
  intros Hr Hp Hfs d'. pose proof (rm_free _ Hr) as Hf. pose proof (pg_len _ _ _ _ _ _ Hp) as Hlen.
  pose proof (pg_ind0 _ _ _ _ _ _ Hp eq_refl) as Hz. change nmeta with 59 in *.
  assert (H12 : d_addrs d' !!! 12%nat = freeblock s)
    by (unfold d', set_addr; cbn [d_addrs]; apply list_lookup_total_insert_eq; change (Z.to_nat 12) with 12%nat; lia).
  assert (Hptr : forall k, 0 <= k < 140 -> bptr (bump s) d' k = bptr s d k).
  { intros k Hk. rewrite bptr_bump. unfold bptr. rewrite H12, Hz, Z.eqb_refl, (proj2 (Z.eqb_neq (freeblock s) 0)) by lia.
    change NDIRECT with 12. destruct (Z.ltb_spec k 12).
    - unfold d', set_addr. cbn [d_addrs]. by rewrite list_lookup_total_insert_ne by lia.
    - rewrite (rm_zero _ Hr) by lia. apply zero_word. lia. }
  split.
  - unfold iappend_block at 1 2. change NDIRECT with 12. change (12 <? 12) with false. cbn iota.
    change (Z.to_nat 12) with 12%nat. rewrite Hz, H12, !xint_block by lia. rewrite Z.eqb_refl, (proj2 (Z.eqb_neq (freeblock s) 0)) by lia.
    erewrite bind_ok by (erewrite bind_ok by (apply next_block_ok; change nmeta with 59; lia); unfold ret; reflexivity).
    rewrite (xint_block (freeblock s)) by lia. fold d'. symmetry. erewrite bind_ok by (unfold ret; reflexivity). done.
  - split.
    + by apply room_bump.
    + split; [done|unfold d', set_addr; cbn [d_addrs]; by rewrite length_insert| |done| |done|].
      * intros k Hk. rewrite Hptr by lia. destruct (pg_in _ _ _ _ _ _ Hp k Hk) as [Hb Ho]. unfold own_at. simpl.
        rewrite decide_False by lia. split; [lia|done].
      * intros _. rewrite H12. unfold own_at. rewrite decide_True by done. simpl. change nmeta with 59. split; [lia|done].
      * intros k Hk. change MAXFILE with 140 in Hk. rewrite Hptr by lia. apply Hp. done.
    + split; simpl; [lia|done| |done]. intros b Hb. unfold own_at. by rewrite decide_False by lia.
    + intros k Hk. apply Hptr. lia.
    + done.
    + done.
Qed.

(** How many blocks a file takes. *)
Definition blocks_of (nb : Z) : Z := nb + (if 12 <? nb then 1 else 0).

Lemma iappend_block_ok s own i d nb fbn :
  room_ok s -> pages_ok s own i d nb (12 <? nb) -> 0 <= fbn <= nb -> fbn < MAXFILE ->
  let nb' := Z.max nb (fbn + 1) in
  freeblock s + blocks_of nb' - blocks_of nb <= FSSIZE ->
  exists s' own' d', iappend_block d fbn s = Ok (d', bptr s' d' fbn) s' /\
    grown s s' own own' i d d' nb nb' (12 <? nb') /\ freeblock s' = freeblock s + blocks_of nb' - blocks_of nb.
Proof.
  intros Hr Hp Hfbn Hmax nb' Hroom. unfold blocks_of in *.
  destruct (decide (fbn < nb)) as [Hlt|Hge].
  - assert (En : nb' = nb) by (unfold nb'; lia). rewrite En in *. exists s, own, d.
    rewrite (block_there s own i d nb _ fbn Hr Hp) by lia. split_and!; [done|by apply grown_same|lia].
  - assert (En : nb' = nb + 1) by (unfold nb'; lia). rewrite En in *. replace fbn with nb by lia. change MAXFILE with 140 in *.
    destruct (Z.ltb_spec 12 nb) as [H1|H1], (Z.ltb_spec 12 (nb + 1)) as [H2|H2]; try lia.
    + destruct (block_indirect s own i d nb _ _ eq_refl eq_refl Hr Hp ltac:(change MAXFILE with 140; lia) ltac:(lia)) as [E G].
      eexists _, _, _. split_and!; [exact E|exact G|simpl; lia].
    + assert (nb = 12) as -> by lia. destruct (block_pointers s own i d Hr Hp ltac:(lia)) as [E1 G1].
      destruct (block_indirect (bump s) _ i _ 12 _ _ eq_refl eq_refl (gr_room _ _ _ _ _ _ _ _ _ _ G1) (gr_pages _ _ _ _ _ _ _ _ _ _ G1)
        ltac:(done) ltac:(simpl; lia)) as [E2 G2].
      rewrite E1. eexists _, _, _. split_and!; [exact E2|by eapply grown_trans|simpl; lia].
    + destruct (block_direct s own i d nb Hr Hp ltac:(lia) ltac:(lia)) as [E G].
      eexists _, _, _. split_and!; [exact E|exact G|simpl; lia].
Qed.

(** ** Bytes into a block *)

Lemma write_ok s own i d nb hi fbn o bs :
  room_ok s -> pages_ok s own i d nb hi -> 0 <= fbn < nb -> 0 <= o -> o + Z.of_nat (length bs) <= 512 ->
  let x := bptr s d fbn in
  let s' := put x (splice (B s x) o bs) s in
  room_ok s' /\ pages_ok s' own i d nb hi /\ frame i own own s s' /\
  (forall k, 0 <= k < nb -> bptr s' d k = bptr s d k) /\
  (forall k, 0 <= k < nb -> k <> fbn -> B s' (bptr s d k) = B s (bptr s d k)).
Proof.
  intros Hr Hp Hk Ho Hl x s'. destruct (pg_in _ _ _ _ _ _ Hp fbn Hk) as [Hx Hox]. fold x in Hx, Hox.
  pose proof (rm_free _ Hr) as Hf. change nmeta with 59 in *.
  pose proof (full_length s x (rm_full _ Hr) ltac:(lia)) as Hxl. unfold BS in Hxl.
  assert (Hkeep : forall b, b <> x -> B s' b = B s b) by (intros b Hb; unfold s'; by rewrite B_put, decide_False).
  assert (Hptr : forall k, bptr s' d k = bptr s d k).
  { intros k. unfold bptr. destruct (k <? NDIRECT); [done|].
    destruct (Z.eqb_spec (d_addrs d !!! 12%nat) 0) as [|Hn]; [done|]. rewrite Hkeep; [done|]. intros E.
    destruct hi; [|by rewrite (pg_ind0 _ _ _ _ _ _ Hp) in Hn by done].
    destruct (pg_ind _ _ _ _ _ _ Hp eq_refl) as [_ Ho']. rewrite E, Hox in Ho'. injection Ho' as Ho'. lia. }
  split_and!.
  - split; [apply put_full; [apply Hr|unfold BS; rewrite splice_length; lia]|apply Hr|].
    intros b Hb. rewrite Hkeep by (simpl in Hb; lia). by apply Hr.
  - split; [apply Hp|apply Hp| |apply Hp|apply Hp|apply Hp|]; intros k Hk'; rewrite Hptr; by apply Hp.
  - split; [simpl; lia|done|done|]. intros b Hb Hn. apply Hkeep. intros ->. by apply (Hn fbn).
  - done.
  - intros k Hk' Hne. apply Hkeep. intros E. destruct (pg_in _ _ _ _ _ _ Hp k Hk') as [_ Ho'].
    rewrite E, Hox in Ho'. congruence.
Qed.

Definition nblk (n : nat) : Z := (Z.of_nat n + 511) / 512.

Definition head_of (d : dinode) : Z * Z * Z * Z * Z := (d_type d, d_major d, d_minor d, d_nlink d, d_size d).

(** A file with its bytes. *)
Definition file_ok (s : img) (own : owners) (i : Z) (d : dinode) (data : list Z) : Prop :=
  pages_ok s own i d (nblk (length data)) (12 <? nblk (length data)) /\ data_ok s d data.

Lemma chunk_ok s s1 own own1 i d d1 data bs fbn o :
  file_ok s own i d data -> fbn = Z.of_nat (length data) / 512 -> o = Z.of_nat (length data) mod 512 ->
  (0 < length bs)%nat -> o + Z.of_nat (length bs) <= 512 ->
  let nb := nblk (length data) in let nb' := nblk (length (data ++ bs)) in
  grown s s1 own own1 i d d1 nb nb' (12 <? nb') ->
  let x := bptr s1 d1 fbn in
  let s2 := put x (splice (B s1 x) o bs) s1 in
  room_ok s2 /\ file_ok s2 own1 i d1 (data ++ bs) /\ frame i own own1 s s2.
Proof.
  intros [Hp Hd] Ef Eo Hbs Hl nb nb' G x s2.
  assert (Hlen : length (data ++ bs) = (length data + length bs)%nat) by apply length_app.
  assert (Hfbn : 0 <= fbn < nb') by (unfold nb', nblk; rewrite Hlen; zlia).
  assert (Hnb : fbn <= nb) by (unfold nb, nblk; zlia).
  destruct (write_ok s1 own1 i d1 nb' _ fbn o bs (gr_room _ _ _ _ _ _ _ _ _ _ G) (gr_pages _ _ _ _ _ _ _ _ _ _ G) Hfbn ltac:(zlia) Hl)
    as (Hr2 & Hp2 & Hf2 & Hptr2 & Hblk2). fold x in Hr2, Hp2, Hf2, Hptr2, Hblk2. fold s2 in Hr2, Hp2, Hf2, Hptr2, Hblk2.
  destruct (pg_in _ _ _ _ _ _ (gr_pages _ _ _ _ _ _ _ _ _ _ G) fbn Hfbn) as [Hx _]. fold x in Hx.
  pose proof (rm_free _ (gr_room _ _ _ _ _ _ _ _ _ _ G)) as Hf1. change nmeta with 59 in *.
  pose proof (full_length s1 x (rm_full _ (gr_room _ _ _ _ _ _ _ _ _ _ G)) ltac:(lia)) as Hxl. unfold BS in Hxl.
  split_and!; [done| |eapply frame_trans; [apply G|done]]. split; [done|].
  intros j Hj. rewrite Hlen in Hj. assert (Hk : 0 <= j / 512 < nb') by (unfold nb', nblk; rewrite Hlen; zlia).
  rewrite Hptr2 by done. destruct (decide (j / 512 = fbn)) as [E|E].
  - rewrite E. fold x. unfold s2. rewrite B_put, decide_True by done.
    rewrite splice_lookup by (rewrite Hxl; zlia).
    destruct (decide (j < Z.of_nat (length data))) as [Hlt|Hge].
    + rewrite decide_False by zlia. rewrite lookup_total_app_l, <- Hd by lia.
      assert (Hk2 : 0 <= fbn < nb) by (unfold nb, nblk; zlia). rewrite E. unfold x.
      rewrite (gr_ptr _ _ _ _ _ _ _ _ _ _ G) by done. by rewrite (gr_blk _ _ _ _ _ _ _ _ _ _ G) by done.
    + rewrite decide_True by zlia. rewrite lookup_total_app_r by lia. f_equal. zlia.
  - assert (Hlt : j < Z.of_nat (length data)) by zlia. assert (Hk2 : 0 <= j / 512 < nb) by (unfold nb, nblk; zlia).
    rewrite Hblk2 by (done || lia). rewrite lookup_total_app_l, <- Hd by lia. rewrite (gr_ptr _ _ _ _ _ _ _ _ _ _ G) by done. by rewrite (gr_blk _ _ _ _ _ _ _ _ _ _ G) by done.
Qed.

Lemma blocks_of_mono a b : a <= b -> blocks_of a <= blocks_of b.
Proof. intros H. unfold blocks_of. destruct (Z.ltb_spec 12 a), (Z.ltb_spec 12 b); lia. Qed.

Lemma nblk_mono a b : (a <= b)%nat -> nblk a <= nblk b.
Proof. intros H. unfold nblk. zlia. Qed.

Lemma iappend_loop_step f din off p : (0 < length p)%nat ->
  iappend_loop (S f) din off p =
  (let fbn := off / BSIZE in
   if negb (fbn <? MAXFILE) then panic "fbn < MAXFILE"
   else
     r <- iappend_block din fbn ;;
     let '(din, x) := r in
     let n1 := Z.min (Z.of_nat (length p)) (u32 ((fbn + 1) * BSIZE - off)) in
     buf <- rsect x ;;
     wsect x (splice buf (off - fbn * BSIZE) (take (Z.to_nat n1) p)) ;;
     iappend_loop f din (u32 (off + n1)) (drop (Z.to_nat n1) p)).
Proof. destruct p; [simpl; lia|done]. Qed.

Lemma iappend_loop_ok fuel s own i d data p :
  room_ok s -> file_ok s own i d data -> (length p < fuel)%nat ->
  Z.of_nat (length (data ++ p)) <= MAXFILE * 512 ->
  freeblock s + blocks_of (nblk (length (data ++ p))) - blocks_of (nblk (length data)) <= FSSIZE ->
  exists s' own' d', iappend_loop fuel d (Z.of_nat (length data)) p s = Ok (d', Z.of_nat (length (data ++ p))) s' /\
    room_ok s' /\ file_ok s' own' i d' (data ++ p) /\ frame i own own' s s' /\ head_of d' = head_of d /\
    freeblock s' = freeblock s + blocks_of (nblk (length (data ++ p))) - blocks_of (nblk (length data)).
Proof.
  revert s own d data p. induction fuel as [|f IH]; intros s own d data p Hr Hfile Hfu Hmax Hroom; [lia|].
  destruct p as [|c p0].
  { rewrite app_nil_r in *. exists s, own, d. split_and!; [done|done|done|apply frame_refl|done|lia]. }
  remember (c :: p0) as p eqn:Ep. assert (Hp0 : (0 < length p)%nat) by (subst p; simpl; lia).
  rewrite iappend_loop_step by done. clear Ep. cbv zeta.
  rewrite length_app in *. change BSIZE with 512. change MAXFILE with 140 in *.
  set (off := Z.of_nat (length data)) in *. set (fbn := off / 512).
  assert (Hfbn : 0 <= fbn < 140) by (unfold fbn; zlia). rewrite (proj2 (Z.ltb_lt fbn 140)) by lia. cbn [negb].
  set (nb := nblk (length data)) in *. assert (Hnbf : fbn <= nb) by (unfold fbn, nb, nblk; zlia).
  set (n1 := Z.min (Z.of_nat (length p)) (512 - off mod 512)).
  assert (Hn1 : 0 < n1 <= Z.of_nat (length p)) by (unfold n1; zlia).
  set (bs := take (Z.to_nat n1) p). assert (Hbl : Z.of_nat (length bs) = n1) by (unfold bs; rewrite length_take; lia).
  assert (Hnb' : Z.max nb (fbn + 1) = nblk (length (data ++ bs))).
  { rewrite length_app. unfold nb, nblk, fbn. rewrite Nat2Z.inj_add, Hbl. fold off. unfold n1. zlia. }
  assert (Hsplit : data ++ p = (data ++ bs) ++ drop (Z.to_nat n1) p).
  { rewrite <- (assoc_L (++)). unfold bs. by rewrite take_drop. }
  assert (Hlt : length (data ++ bs) = (length data + length bs)%nat) by apply length_app.
  assert (Hle : blocks_of (nblk (length (data ++ bs))) <= blocks_of (nblk (length data + length p)))
    by (apply blocks_of_mono, nblk_mono; lia).
  destruct (iappend_block_ok s own i d nb fbn Hr (proj1 Hfile)) as (s1 & own1 & d1 & E1 & G & Hf1);
    [lia|change MAXFILE with 140; lia|rewrite Hnb'; lia|].
  rewrite Hnb' in G, Hf1. erewrite bind_ok by exact E1. cbv beta iota.
  assert (Hu : Z.min (Z.of_nat (length p)) (u32 ((fbn + 1) * 512 - off)) = n1).
  { unfold n1, u32, fbn. rewrite Z.mod_small by zlia. f_equal. zlia. }
  rewrite Hu. cbv zeta. fold bs. pose proof (rm_free _ (gr_room _ _ _ _ _ _ _ _ _ _ G)) as Hrf.
  destruct (pg_in _ _ _ _ _ _ (gr_pages _ _ _ _ _ _ _ _ _ _ G) fbn) as [Hx _]; [rewrite <- Hnb'; lia|]. change nmeta with 59 in *.
  erewrite bind_ok by (apply rsect_ok; [apply G|lia]). erewrite bind_ok by (apply wsect_ok; lia).
  destruct (chunk_ok s s1 own own1 i d d1 data bs fbn (off - fbn * 512) Hfile eq_refl ltac:(unfold fbn; fold off; zlia)
    ltac:(lia) ltac:(rewrite Hbl; unfold n1, fbn; zlia) G) as (Hr2 & Hfile2 & Hfr2).
  set (s2 := put _ _ s1) in *.
  assert (Hoff : u32 (off + n1) = Z.of_nat (length (data ++ bs))) by (unfold u32; rewrite Z.mod_small by zlia; lia).
  rewrite Hoff. assert (Hdl : length (drop (Z.to_nat n1) p) = (length p - length bs)%nat) by (rewrite length_drop; lia).
  destruct (IH s2 own1 d1 (data ++ bs) (drop (Z.to_nat n1) p) Hr2 Hfile2) as (s3 & own3 & d3 & E3 & Hr3 & Hfile3 & Hfr3 & Hh3 & Hf3).
  - lia.
  - change MAXFILE with 140. rewrite <- Hsplit, length_app. lia.
  - rewrite <- Hsplit, length_app. change (freeblock s2) with (freeblock s1). lia.
  - rewrite <- Hsplit in *. exists s3, own3, d3. rewrite length_app in *. rewrite E3.
    split_and!; [by rewrite length_app|done|done|by eapply frame_trans| |].
    + rewrite Hh3, (gr_head _ _ _ _ _ _ _ _ _ _ G). done.
    + rewrite Hf3. change (freeblock s2) with (freeblock s1). rewrite Hf1, ?length_app. lia.
Qed.

(** ** Inodes in the image *)

Definition ino (s : img) (i : Z) : dinode := dinode_decode (B s (IBLOCK i mk_sb)) (i mod IPB * 64).

Lemma iblock i : 0 <= i < 208 -> IBLOCK i mk_sb = 32 + i / 8.
Proof. intros Hi. unfold IBLOCK, u32. change IPB with 8. change (inodestart mk_sb) with 32. zlia. Qed.

Lemma rinode_ok s i : full s -> 0 <= i < 208 -> rinode i s = Ok (ino s i) s.
Proof.
  intros Hf Hi. unfold rinode. erewrite bind_ok; [done|]. apply rsect_ok; [done|].
  rewrite iblock by done. change FSSIZE with 1000. zlia.
Qed.

Definition put_ino (i : Z) (d : dinode) (s : img) : img :=
  put (IBLOCK i mk_sb) (splice (B s (IBLOCK i mk_sb)) (i mod IPB * 64) (dinode_encode d)) s.

Lemma winode_ok s i d :
  full s -> 0 <= i < 208 -> dinode_ok d ->
  winode i d s = Ok tt (put_ino i d s) /\ full (put_ino i d s) /\ ino (put_ino i d s) i = d /\
  (forall j, 0 <= j < 208 -> j <> i -> ino (put_ino i d s) j = ino s j) /\
  (forall b, b < 32 \/ 58 <= b -> B (put_ino i d s) b = B s b).
Proof.
  intros Hf Hi Hd. pose proof (iblock i Hi) as Eb. assert (Hb : 0 <= IBLOCK i mk_sb < FSSIZE) by (rewrite Eb; change FSSIZE with 1000; zlia).
  pose proof (full_length s _ Hf Hb) as Hl.
  assert (Hj : 0 <= i mod IPB < IPB) by (change IPB with 8; zlia).
  destruct (dinode_roundtrip d (B s (IBLOCK i mk_sb)) (i mod IPB) Hd Hl Hj) as (Hlen & Hdec & Hoth).
  rewrite Z.mul_comm in Hlen, Hdec.
  split_and!.
  - unfold winode. erewrite bind_ok by (by apply rsect_ok). by apply wsect_ok.
  - apply put_full; [done|]. by rewrite Hlen.
  - unfold ino, put_ino at 1. by rewrite B_put, decide_True.
  - intros j Hj' Hne. unfold ino, put_ino. rewrite B_put. case_decide as E; [|done]. rewrite E.
    pose proof (iblock j Hj') as Ej. rewrite Eb, Ej in E. change IPB with 8 in *.
    rewrite !(Z.mul_comm (_ mod 8)). apply Hoth; zlia.
  - intros b Hb'. unfold put_ino. rewrite B_put, decide_False; [done|]. rewrite Eb. zlia.
Qed.

(** Files depend on the blocks after the inodes alone. *)
Lemma bptr_same s s' own i d nb hi k :
  (forall b, nmeta <= b -> B s' b = B s b) -> pages_ok s own i d nb hi -> bptr s' d k = bptr s d k.
Proof.
  intros HB Hp. unfold bptr. destruct (k <? NDIRECT); [done|]. destruct (Z.eqb_spec (d_addrs d !!! 12%nat) 0) as [|Hn]; [done|].
  destruct hi; [|by rewrite (pg_ind0 _ _ _ _ _ _ Hp) in Hn by done].
  destruct (pg_ind _ _ _ _ _ _ Hp eq_refl) as [Hr _]. rewrite HB by lia. done.
Qed.

Lemma file_same s s' own i d d' data :
  (forall b, nmeta <= b -> B s' b = B s b) -> freeblock s' = freeblock s -> d_addrs d' = d_addrs d ->
  file_ok s own i d data -> file_ok s' own i d' data.
Proof.
  intros HB Hf Ha [Hp Hd]. assert (Hptr : forall k, bptr s' d' k = bptr s d k).
  { intros k. rewrite <- (bptr_same s s' own i d _ _ k HB Hp). unfold bptr. by rewrite Ha. }
  split.
  - split; rewrite ?Ha, ?Hf; try apply Hp; intros k Hk; rewrite Hptr; by apply Hp.
  - intros j Hj. rewrite Hptr. assert (Hk : 0 <= j / 512 < nblk (length data)) by (unfold nblk; zlia).
    destruct (pg_in _ _ _ _ _ _ Hp _ Hk) as [Hr _]. rewrite HB by lia. by apply Hd.
Qed.

Lemma room_same s s' :
  (forall b, nmeta <= b -> B s' b = B s b) -> freeblock s' = freeblock s -> full s' -> room_ok s -> room_ok s'.
Proof.
  intros HB Hf Hfu [_ Hr Hz]. split; [done|by rewrite Hf|]. intros b Hb. rewrite Hf in Hb. rewrite HB by lia. by apply Hz.
Qed.

(** The pointers fit a [uint]. *)
Lemma pages_range s own i d nb hi :
  room_ok s -> pages_ok s own i d nb hi -> Forall (fun a => 0 <= a < 4294967296) (d_addrs d).
Proof.
  intros Hr Hp. pose proof (rm_free _ Hr) as Hf. pose proof (pg_len _ _ _ _ _ _ Hp) as Hlen. change nmeta with 59 in *.
  change FSSIZE with 1000 in *. apply list.Forall_forall. intros a Ha. apply list_elem_of_lookup in Ha as [k Hk].
  pose proof (lookup_lt_Some _ _ _ Hk) as Hkl. apply list_lookup_total_correct in Hk.
  destruct (decide (k = 12%nat)) as [->|Hk12].
  - destruct hi; [|rewrite (pg_ind0 _ _ _ _ _ _ Hp) in Hk by done; lia].
    destruct (pg_ind _ _ _ _ _ _ Hp eq_refl) as [Hb _]. change nmeta with 59 in Hb. lia.
  - assert (E : bptr s d (Z.of_nat k) = a).
    { unfold bptr. change NDIRECT with 12. rewrite (proj2 (Z.ltb_lt _ _)) by lia. by rewrite Nat2Z.id. }
    destruct (decide (Z.of_nat k < nb)) as [Hlt|Hge].
    + destruct (pg_in _ _ _ _ _ _ Hp (Z.of_nat k) ltac:(lia)) as [Hb _]. rewrite E in Hb. change nmeta with 59 in Hb. lia.
    + rewrite (pg_zero _ _ _ _ _ _ Hp) in E by (change MAXFILE with 140; lia). lia.
Qed.

(** ** The image as a whole *)

Notation entry := (Z * list Z)%type.

Definition cost (e : entry) : Z := blocks_of (nblk (length (snd e))).

Fixpoint total (A : list entry) : Z := match A with [] => 0 | e :: A' => cost e + total A' end.

Definition sb_block : list Z := splice zero_block 0 (sb_bytes mk_sb).

(** The inodes 1, 2, ... hold the entries of [A]: their type and their bytes. *)
Record image_ok (s : img) (own : owners) (A : list entry) : Prop := {
  im_room : room_ok s;
  im_count : freeinode s = Z.of_nat (length A) + 1 /\ (length A < 200)%nat;
  im_own : forall b, b < nmeta -> own b = None;
  im_used : freeblock s = nmeta + total A;
  im_sb : B s 1 = sb_block;
  im_file : forall n ty data, A !! n = Some (ty, data) ->
    file_ok s own (Z.of_nat n + 1) (ino s (Z.of_nat n + 1)) data /\
    head_of (ino s (Z.of_nat n + 1)) = (ty, 0, 0, 1, Z.of_nat (length data)) /\ 0 <= ty < 32768 }.

Lemma total_entries_app A A' : total (A ++ A') = total A + total A'.
Proof. induction A as [|e A IH]; simpl; [done|]. rewrite IH. lia. Qed.

Lemma total_insert A n e e' : A !! n = Some e -> total (<[n := e']> A) = total A + cost e' - cost e.
Proof.
  revert n. induction A as [|x A IH]; intros [|n] Hn; simpl in *; [done|done|injection Hn as ->; lia|].
  rewrite (IH n) by done. lia.
Qed.

Lemma cost_nonneg e : 0 <= cost e.
Proof. unfold cost, blocks_of, nblk. destruct (Z.ltb_spec 12 ((Z.of_nat (length (snd e)) + 511) / 512)); zlia. Qed.

Lemma ialloc_ok s own A ty :
  image_ok s own A -> (length A < 199)%nat -> 0 <= ty < 32768 ->
  exists s', ialloc ty s = Ok (Z.of_nat (length A) + 1) s' /\ image_ok s' own (A ++ [(ty, [])]).
Proof.
  intros [Hr [Hc Hn] Ho Hu Hsb Hfile] Hlt Hty. set (i := Z.of_nat (length A) + 1).
  set (d := Dinode ty 0 0 1 0 (replicate 13 0)). set (s0 := Img (blk s) (i + 1) (freeblock s)).
  assert (Hd : dinode_ok d).
  { split; simpl; try lia. repeat (apply Forall_cons_2; [lia|]). apply Forall_nil_2. }
  destruct (winode_ok s0 i d (rm_full _ Hr) ltac:(lia) Hd) as (E & Hfu & Hi & Hoth & Hblk).
  exists (put_ino i d s0). split.
  - unfold ialloc. erewrite bind_ok by (unfold gets; reflexivity). rewrite Hc. fold i.
    erewrite bind_ok by (unfold modify; reflexivity). unfold upd_freeinode. rewrite Hc. fold i.
    assert (Hu1 : u32 (i + 1) = i + 1) by (unfold u32, i; apply Z.mod_small; lia). rewrite Hu1. fold s0.
    rewrite xshort_id, (xshort_id 1), (xint_id 0) by lia. fold d. by erewrite bind_ok by exact E.
  - assert (HB : forall b, nmeta <= b -> B (put_ino i d s0) b = B s b) by (intros b Hb; apply Hblk; right; change nmeta with 59 in Hb; lia).
    split.
    + by apply (room_same s).
    + rewrite length_app. simpl. unfold i. lia.
    + done.
    + rewrite total_entries_app. simpl. change (cost (ty, [])) with 0. rewrite Hu. lia.
    + rewrite Hblk by lia. done.
    + intros n ty' data HA. apply lookup_app_Some in HA as [HA|[Hge HA]].
      * destruct (Hfile n ty' data HA) as (Hf & Hh & Ht). apply lookup_lt_Some in HA.
        rewrite Hoth by (unfold i; lia). split; [|done]. by eapply (file_same s).
      * apply list_lookup_singleton_Some in HA as [Hn0 [= <- <-]]. assert (n = length A) as -> by lia. fold i. rewrite Hi.
        split; [|done]. split; [|intros j Hj; simpl in Hj; lia].
        assert (Hz : forall k, bptr (put_ino i d s0) d k = 0).
        { intros k. unfold bptr, d. cbn [d_addrs]. change NDIRECT with 12. destruct (Z.ltb_spec k 12); [|done].
          by rewrite lookup_total_replicate_2 by lia. }
        change (nblk (length ([] : list Z))) with 0.
        split; [change MAXFILE with 140; lia|done|intros k Hk; lia|done|done|done|intros k _; apply Hz].
Qed.

Lemma iappend_ok s own A n ty data p :
  image_ok s own A -> A !! n = Some (ty, data) ->
  Z.of_nat (length (data ++ p)) <= MAXFILE * 512 ->
  total (<[n := (ty, data ++ p)]> A) <= FSSIZE - nmeta ->
  exists s' own', iappend (Z.of_nat n + 1) p s = Ok tt s' /\ image_ok s' own' (<[n := (ty, data ++ p)]> A).
Proof.
  intros [Hr [Hc Hn] Ho Hu Hsb Hfile] HA Hmax Htot. pose proof (lookup_lt_Some _ _ _ HA) as Hnl.
  destruct (Hfile n ty data HA) as (Hf & Hh & Hty). set (i := Z.of_nat n + 1) in *.
  rewrite (total_insert _ _ _ _ HA) in Htot. unfold cost in Htot. simpl in Htot.
  assert (Hds : d_size (ino s i) = Z.of_nat (length data)) by (injection Hh; done).
  assert (Hmax' : Z.of_nat (length (data ++ p)) < 4294967296) by (change MAXFILE with 140 in Hmax; lia).
  assert (Hdl : (length data <= length (data ++ p))%nat) by (rewrite length_app; lia).
  destruct (iappend_loop_ok (S (length p)) s own i (ino s i) data p Hr Hf ltac:(lia) Hmax ltac:(lia))
    as (s1 & own1 & d1 & E1 & Hr1 & Hf1 & Hfr & Hh1 & Hfb).
  set (d2 := with_size (Z.of_nat (length (data ++ p))) d1).
  assert (Hd2 : dinode_ok d2).
  { unfold head_of in Hh1, Hh. rewrite Hh in Hh1. injection Hh1 as E2 E3 E4 E5 _.
    split; cbn [d2 with_size d_type d_major d_minor d_nlink d_size d_addrs]; try lia.
    - by eapply pages_range, (proj1 Hf1).
    - apply Hf1. }
  destruct (winode_ok s1 i d2 (rm_full _ Hr1) ltac:(lia) Hd2) as (E & Hfu & Hi & Hoth & Hblk).
  assert (HB : forall b, nmeta <= b -> B (put_ino i d2 s1) b = B s1 b) by (intros b Hb; apply Hblk; right; change nmeta with 59 in Hb; lia).
  assert (Hlow : forall b, b < nmeta -> B s1 b = B s b).
  { intros b Hb. apply (fr_blk _ _ _ _ _ Hfr); [pose proof (rm_free _ Hr); lia|]. intros k. by rewrite Ho. }
  assert (Hino : forall j, 0 <= j < 208 -> ino s1 j = ino s j).
  { intros j Hj. unfold ino. rewrite Hlow; [done|]. rewrite iblock by done. change nmeta with 59. zlia. }
  exists (put_ino i d2 s1), own1. split.
  - unfold iappend. erewrite bind_ok by (apply rinode_ok; [apply Hr|lia]). rewrite Hds, xint_id by lia.
    erewrite bind_ok by exact E1. cbn [fst snd]. rewrite xint_id by lia. exact E.
  - split.
    + by apply (room_same s1).
    + rewrite length_insert. simpl. rewrite (fr_inode _ _ _ _ _ Hfr). done.
    + intros b Hb. rewrite (fr_own _ _ _ _ _ Hfr); [by apply Ho|]. pose proof (rm_free _ Hr). lia.
    + rewrite (total_insert _ _ _ _ HA). unfold cost. simpl. lia.
    + rewrite Hblk, Hlow by (change nmeta with 59; lia). done.
    + intros m ty' data' Hm. destruct (decide (m = n)) as [->|Hne].
      * rewrite list_lookup_insert_eq in Hm by done. injection Hm as <- <-. fold i. rewrite Hi.
        split; [by apply (file_same s1 _ _ _ d1)|]. split; [|done].
        unfold head_of in *. rewrite Hh in Hh1. injection Hh1 as E2 E3 E4 E5 _. unfold d2. simpl. by rewrite E2, E3, E4, E5.
      * rewrite list_lookup_insert_ne in Hm by done. destruct (Hfile m ty' data' Hm) as (Hfm & Hhm & Htm).
        pose proof (lookup_lt_Some _ _ _ Hm). rewrite Hoth, Hino by (unfold i; lia). split; [|done].
        apply (file_same s1 _ _ _ (ino s (Z.of_nat m + 1))); [done|done|done|]. destruct Hfm as [Hp Hd]. split.
        -- by apply (other_pages i _ _ _ _ _ _ _ _ Hfr); [unfold i; lia|].
        -- eapply (other_data i (Z.of_nat m + 1) own own1 s); [done|unfold i; lia|done|unfold nblk; zlia|done].
Qed.

(** ** The bitmap *)

Lemma land_bit x k : 0 <= k -> (Z.land x (Z.shiftl 1 k) =? 0) = negb (Z.testbit x k).
Proof.
  intros Hk. destruct (Z.testbit x k) eqn:E; simpl.
  - apply Z.eqb_neq. intros H. assert (Ht : Z.testbit (Z.land x (Z.shiftl 1 k)) k = false) by (rewrite H; apply Z.testbit_0_l).
    rewrite Z.land_spec, E, Z.shiftl_spec, Z.sub_diag in Ht by lia. done.
  - apply Z.eqb_eq. apply Z.bits_inj'. intros n Hn. rewrite Z.land_spec, Z.testbit_0_l, Z.shiftl_1_l.
    destruct (decide (n = k)) as [->|Hne]; [by rewrite E|]. rewrite Z.pow2_bits_false by lia. apply andb_false_r.
Qed.

Lemma bit_used_mark d i b :
  length d = BS -> 0 <= i < 4096 -> 0 <= b < 4096 ->
  length (bit_mark d i) = BS /\ bit_used (bit_mark d i) b = (b =? i) || bit_used d b.
Proof.
  intros Hl Hi Hb. unfold BS in *. split; [unfold bit_mark; by rewrite length_insert|].
  unfold bit_used, bit_mark, bit_mask. rewrite !land_bit, !negb_involutive by zlia.
  destruct (decide (b / 8 = i / 8)) as [E|E].
  - unfold byte_at at 1. rewrite E, list_lookup_total_insert_eq by zlia. unfold u8.
    change 256 with (2 ^ 8). rewrite Z.mod_pow2_bits_low by zlia. rewrite Z.lor_spec, Z.shiftl_1_l.
    destruct (Z.eqb_spec b i) as [->|Hne]; simpl.
    + rewrite Z.pow2_bits_true by zlia. apply orb_true_r.
    + rewrite Z.pow2_bits_false by zlia. apply orb_false_r.
  - unfold byte_at at 1. rewrite list_lookup_total_insert_ne by zlia. rewrite (proj2 (Z.eqb_neq b i)) by congruence. done.
Qed.

Lemma bitmap_marks n b :
  (n <= 4096)%nat -> 0 <= b < 4096 ->
  length (foldl bit_mark zero_block (seqZ 0 (Z.of_nat n))) = BS /\
  bit_used (foldl bit_mark zero_block (seqZ 0 (Z.of_nat n))) b = (b <? Z.of_nat n).
Proof.
  intros Hn Hb. induction n as [|n IH]; [|destruct (IH ltac:(lia)) as [Hl Hu]].
  - split; [done|]. change (seqZ 0 (Z.of_nat 0)) with (@nil Z). change (Z.of_nat 0) with 0. cbn [foldl].
    rewrite (proj2 (Z.ltb_ge b 0)) by lia. unfold bit_used, byte_at, zero_block.
    rewrite lookup_total_replicate_2 by (unfold BS; zlia). done.
  - rewrite seqZ_S, foldl_app. cbn [foldl]. rewrite Nat2Z.inj_succ, <- Z.add_1_r.
    destruct (bit_used_mark _ (0 + Z.of_nat n) b Hl ltac:(lia) Hb) as [Hl2 Hu2]. split; [done|].
    rewrite Hu2, Hu. destruct (Z.eqb_spec b (0 + Z.of_nat n)), (Z.ltb_spec b (Z.of_nat n)), (Z.ltb_spec b (Z.of_nat n + 1)); simpl; lia || done.
Qed.

(** ** The empty image *)

Lemma zero_image l s :
  Forall (fun i => 0 <= i < FSSIZE) l ->
  for_all l (fun i => wsect i zero_block) s = Ok tt (foldl (fun s i => put i zero_block s) s l).
Proof.
  revert s. induction l as [|i l IH]; intros s Hl; [done|]. apply Forall_cons_1 in Hl as [Hi Hl]. cbn [for_all foldl].
  erewrite bind_ok by (by apply wsect_ok). by apply IH.
Qed.

Lemma zeroed_lookup l s b :
  b ∈ l \/ blk s !! b = Some zero_block -> blk (foldl (fun s i => put i zero_block s) s l) !! b = Some zero_block.
Proof.
  revert s. induction l as [|i l IH]; intros s Hb; [by destruct Hb as [Hb|]; [apply not_elem_of_nil in Hb|]|]. cbn [foldl].
  apply IH. destruct (decide (b = i)) as [->|Hn]; [right; by apply lookup_insert_eq|].
  destruct Hb as [Hb|Hb]; [left; set_solver|]. right. unfold put, upd_blk. simpl. by rewrite lookup_insert_ne.
Qed.

Lemma zeroed_rest l s :
  freeinode (foldl (fun s i => put i zero_block s) s l) = freeinode s /\
  freeblock (foldl (fun s i => put i zero_block s) s l) = freeblock s.
Proof. revert s. induction l as [|i l IH]; intros s; [done|]. cbn [foldl]. apply (IH (put i zero_block s)). Qed.

Lemma start_ok l :
  Forall (fun i => 0 <= i < FSSIZE) l -> (forall b, 0 <= b < FSSIZE -> b ∈ l) ->
  exists s own, (modify (upd_freeblock (fun _ => nmeta)) ;;
    for_all l (fun i => wsect i zero_block) ;; wsect 1 sb_block) start = Ok tt s /\ image_ok s own [].
Proof.
  intros Hin Hl. erewrite bind_ok by (unfold modify; reflexivity). set (s0 := upd_freeblock _ start).
  erewrite bind_ok by (by apply zero_image). set (s1 := foldl _ _ _).
  assert (Hz : forall b, 0 <= b < FSSIZE -> blk s1 !! b = Some zero_block).
  { intros b Hb. apply zeroed_lookup. left. by apply Hl. }
  destruct (zeroed_rest l s0) as [Hfi Hfb]. fold s1 in Hfi, Hfb.
  rewrite wsect_ok by (change FSSIZE with 1000; lia). exists (put 1 sb_block s1), (fun _ => None). split; [done|].
  clearbody s1. change (freeinode s0) with 1 in Hfi. change (freeblock s0) with nmeta in Hfb.
  assert (HB : forall b, 0 <= b < FSSIZE -> b <> 1 -> B (put 1 sb_block s1) b = zero_block).
  { intros b Hb Hn. rewrite B_put, decide_False by done. unfold B. by rewrite Hz. }
  assert (Hnm : nmeta = 59) by done. split.
  - split.
    + apply put_full; [|done]. intros b Hb. exists zero_block. by rewrite Hz.
    + change (nmeta <= freeblock s1 <= FSSIZE). rewrite Hfb. done.
    + intros b Hb. change (freeblock s1 <= b < FSSIZE) in Hb. rewrite Hfb in Hb. apply HB; lia.
  - change (freeinode s1 = 1 /\ (0 < 200)%nat). split; [done|lia].
  - done.
  - change (freeblock s1 = nmeta + 0). lia.
  - by rewrite B_put, decide_True.
  - intros n ty data HA. by rewrite lookup_nil in HA.
Qed.

Lemma seq3_ok {S A} (a b c : M S unit) (k : M S A) s s' : (a ;; b ;; c) s = Ok tt s' -> (a ;; b ;; c ;; k) s = k s'.
Proof.
  unfold bind. destruct (a s) as [u1 s1| | | |]; simpl; try done. destruct (b s1) as [u2 s2| | | |]; simpl; try done.
  by intros ->.
Qed.

(** ** Files *)

Lemma cost_mono ty l1 l2 : (length l1 <= length l2)%nat -> cost (ty, l1) <= cost (ty, l2).
Proof. intros H. unfold cost. simpl. by apply blocks_of_mono, nblk_mono. Qed.

Lemma chunks_ok chunks s own A n ty data :
  image_ok s own A -> A !! n = Some (ty, data) ->
  Z.of_nat (length (data ++ concat chunks)) <= MAXFILE * 512 ->
  total (<[n := (ty, data ++ concat chunks)]> A) <= FSSIZE - nmeta ->
  exists s' own', for_all chunks (fun buf => iappend (Z.of_nat n + 1) buf) s = Ok tt s' /\
    image_ok s' own' (<[n := (ty, data ++ concat chunks)]> A).
Proof.
  revert s own A data. induction chunks as [|c cs IH]; intros s own A data Him HA Hmax Htot; cbn [concat for_all] in *.
  - rewrite app_nil_r in *. exists s, own. split; [done|]. by rewrite list_insert_id.
  - pose proof (lookup_lt_Some _ _ _ HA) as Hnl. rewrite (assoc_L (++)) in *.
    assert (Hl : (length (data ++ c) <= length ((data ++ c) ++ concat cs))%nat) by (rewrite (length_app (data ++ c)); lia).
    destruct (iappend_ok s own A n ty data c Him HA) as (s1 & own1 & E1 & Him1); [lia| |].
    { rewrite (total_insert _ _ _ _ HA) in Htot. rewrite (total_insert _ _ _ _ HA). pose proof (cost_mono ty _ _ Hl). lia. }
    erewrite bind_ok by exact E1.
    destruct (IH s1 own1 _ (data ++ c) Him1) as (s2 & own2 & E2 & Him2).
    + by apply list_lookup_insert_eq.
    + done.
    + by rewrite list_insert_insert_eq.
    + exists s2, own2. rewrite E2. split; [done|]. by rewrite list_insert_insert_eq in Him2.
Qed.

#[local] Arguments dirent_bytes : simpl never.

Section Tree.
Context (reads : list Z -> option (list (list Z))).

Definition content (name : list Z) : list Z := concat (default [] (reads name)).

(** The directory entries of files with the inodes [inum], [inum + 1], ... *)
Fixpoint dir_of (inum : Z) (names : list (list Z)) : list Z :=
  match names with
  | [] => []
  | n :: ns => dirent_bytes inum (strip n) ++ dir_of (inum + 1) ns
  end.

Definition root_dir (names : list (list Z)) : list Z :=
  dirent_bytes 1 [46] ++ dirent_bytes 1 [46; 46] ++ dir_of 2 names.

(** What the image is to hold: the root directory, then the files. *)
Definition tree (names : list (list Z)) : list entry :=
  (T_DIR, root_dir names) :: ((fun n => (T_FILE, content n)) <$> names).

Lemma dir_of_app i l1 l2 : dir_of i (l1 ++ l2) = dir_of i l1 ++ dir_of (i + Z.of_nat (length l1)) l2.
Proof.
  revert i. induction l1 as [|n l1 IH]; intros i; cbn [dir_of app length]; [by rewrite Z.add_0_r|].
  replace (i + Z.of_nat (S (length l1))) with (i + 1 + Z.of_nat (length l1)) by lia. by rewrite IH, <- (assoc_L (++)).
Qed.

Lemma dirent_length i n : length (dirent_bytes i n) = 16%nat.
Proof.
  unfold dirent_bytes. rewrite length_app, length_take, length_app, length_replicate.
  change (Z.to_nat DIRSIZ) with 14%nat. change (length (half_bytes (xshort i))) with 2%nat. lia.
Qed.

Lemma dir_length i l : length (dir_of i l) = (16 * length l)%nat.
Proof. revert i. induction l as [|n l IH]; intros i; cbn [dir_of length]; [done|]. rewrite length_app, dirent_length, IH. lia. Qed.

Lemma root_length names : length (root_dir names) = (32 + 16 * length names)%nat.
Proof. unfold root_dir. rewrite !length_app, !dirent_length, dir_length. lia. Qed.

Lemma tree_length names : length (tree names) = S (length names).
Proof. unfold tree. simpl. by rewrite length_fmap. Qed.

Lemma total_nonneg A : 0 <= total A.
Proof. induction A as [|e A IH]; simpl; [lia|]. pose proof (cost_nonneg e). lia. Qed.

Lemma tree_mono l1 l2 : total (tree l1) <= total (tree (l1 ++ l2)).
Proof.
  unfold tree. rewrite fmap_app. simpl. rewrite total_entries_app.
  pose proof (cost_mono T_DIR (root_dir l1) (root_dir (l1 ++ l2)) ltac:(rewrite !root_length, length_app; lia)).
  pose proof (total_nonneg ((fun n => (T_FILE, content n)) <$> l2)). lia.
Qed.

Definition file_fits (name : list Z) : Prop :=
  ch_slash ∉ name /\ exists chunks, reads name = Some chunks /\ Z.of_nat (length (concat chunks)) <= MAXFILE * BSIZE.

Lemma add_file_ok s own l n :
  image_ok s own (tree l) -> (length l < 198)%nat -> file_fits n -> total (tree (l ++ [n])) <= FSSIZE - nmeta ->
  exists s' own', add_file reads 1 n s = Ok tt s' /\ image_ok s' own' (tree (l ++ [n])).
Proof.
  intros Him Hlen (Hsl & chunks & Er & Hfit) Htot. unfold add_file. rewrite bool_decide_eq_false_2 by done. rewrite Er.
  destruct (ialloc_ok s own (tree l) T_FILE Him) as (s1 & E1 & Him1); [rewrite tree_length; lia|done|].
  erewrite bind_ok by exact E1. rewrite tree_length in *. set (i := Z.of_nat (S (length l)) + 1).
  set (de := dirent_bytes i (strip n)).
  assert (Hroot : root_dir (l ++ [n]) = root_dir l ++ de).
  { unfold root_dir, de. rewrite dir_of_app. cbn [dir_of]. replace (2 + Z.of_nat (length l)) with i by (unfold i; lia).
    by rewrite app_nil_r, <- !(assoc_L (++)). }
  assert (Htree : tree (l ++ [n]) = <[S (length l) := (T_FILE, [] ++ concat chunks)]>
    (<[0%nat := (T_DIR, root_dir l ++ de)]> (tree l ++ [(T_FILE, [])]))).
  { unfold tree. rewrite Hroot, fmap_app. simpl. f_equal. rewrite insert_app_r_alt by (by rewrite length_fmap).
    rewrite length_fmap, Nat.sub_diag. simpl. unfold content. by rewrite Er. }
  assert (Hlk : (<[0%nat := (T_DIR, root_dir l ++ de)]> (tree l ++ [(T_FILE, [])])) !! S (length l) = Some (T_FILE, [])).
  { rewrite list_lookup_insert_ne by lia. apply list_lookup_middle. by rewrite tree_length. }
  assert (Hmono : total (<[0%nat := (T_DIR, root_dir l ++ de)]> (tree l ++ [(T_FILE, [])])) <= FSSIZE - nmeta).
  { rewrite Htree, (total_insert _ _ _ _ Hlk) in Htot. pose proof (cost_mono T_FILE [] ([] ++ concat chunks) ltac:(simpl; lia)). lia. }
  destruct (iappend_ok s1 own _ 0 T_DIR (root_dir l) de Him1) as (s2 & own2 & E2 & Him2).
  - done.
  - rewrite length_app, root_length. unfold de. rewrite dirent_length. change MAXFILE with 140. lia.
  - done.
  - erewrite bind_ok by exact E2.
    destruct (chunks_ok chunks s2 own2 _ (S (length l)) T_FILE [] Him2 Hlk) as (s3 & own3 & E3 & Him3).
    + exact Hfit.
    + by rewrite <- Htree.
    + exists s3, own3. by rewrite Htree.
Qed.

Lemma add_files_ok s own l todo :
  image_ok s own (tree l) -> (length (l ++ todo) <= 198)%nat -> Forall file_fits todo ->
  total (tree (l ++ todo)) <= FSSIZE - nmeta ->
  exists s' own', for_all todo (add_file reads 1) s = Ok tt s' /\ image_ok s' own' (tree (l ++ todo)).
Proof.
  revert s own l. induction todo as [|n todo IH]; intros s own l Him Hlen Hfit Htot.
  - rewrite app_nil_r in *. by exists s, own.
  - apply Forall_cons_1 in Hfit as [Hn Hfit]. rewrite cons_middle, (assoc_L (++)) in *. cbn [for_all].
    destruct (add_file_ok s own l n Him) as (s1 & own1 & E1 & Him1); [rewrite !length_app in Hlen; simpl in Hlen; lia|done| |].
    { pose proof (tree_mono (l ++ [n]) todo). lia. }
    erewrite bind_ok by exact E1. by apply IH with own1.
Qed.
End Tree.

(** ** The program *)

(** The first [len] bytes of a file, through the pointers of its inode. *)
Definition read_file (s : img) (i : Z) (len : nat) : list Z :=
  (fun j => B s (bptr s (ino s i) (j / 512)) !!! Z.to_nat (j mod 512)) <$> seqZ 0 (Z.of_nat len).

Lemma file_read s own i data : file_ok s own i (ino s i) data -> read_file s i (length data) = data.
Proof.
  intros [_ Hd]. apply list_eq. intros k. unfold read_file. rewrite list_lookup_fmap.
  destruct (decide (k < length data)%nat) as [Hk|Hk].
  - rewrite lookup_seqZ_lt by lia. simpl. rewrite Hd by lia. rewrite Z.add_0_l, Nat2Z.id.
    symmetry. by apply list_lookup_lookup_total_lt.
  - rewrite lookup_seqZ_ge by lia. symmetry. apply lookup_ge_None_2. lia.
Qed.

Lemma head_fields d ty mj mn nl sz :
  head_of d = (ty, mj, mn, nl, sz) -> d_type d = ty /\ d_major d = mj /\ d_minor d = mn /\ d_nlink d = nl /\ d_size d = sz.
Proof. unfold head_of. by intros [= -> -> -> -> ->]. Qed.

(** The end of [main]: the size of the root directory and the bitmap. *)
Lemma finish_ok s own A rd files :
  image_ok s own A -> A = (T_DIR, rd) :: files -> (length rd < 4000)%nat ->
  exists s', (din <- rinode 1 ;;
      let off := xint (d_size din) in let off := u32 ((off / BSIZE + 1) * BSIZE) in
      winode 1 (with_size (xint off) din) ;; b <- gets freeblock ;; balloc b) s = Ok tt s' /\
    freeblock s' = freeblock s /\ B s' 1 = sb_block /\
    head_of (ino s' 1) = (T_DIR, 0, 0, 1, (Z.of_nat (length rd) / 512 + 1) * 512) /\
    (forall n ty data, A !! n = Some (ty, data) ->
       file_ok s' own (Z.of_nat n + 1) (ino s' (Z.of_nat n + 1)) data /\
       (n <> 0%nat -> head_of (ino s' (Z.of_nat n + 1)) = (ty, 0, 0, 1, Z.of_nat (length data)))) /\
    forall b, 0 <= b < 4096 -> bit_used (B s' 58) b = (b <? freeblock s).
Proof.
  intros [Hr [Hc Hn] Ho Hu Hsb Hfile] HA Hrd.
  destruct (Hfile 0%nat T_DIR rd) as (Hf & Hh & _); [by rewrite HA|]. change (Z.of_nat 0 + 1) with 1 in *.
  destruct (head_fields _ _ _ _ _ _ Hh) as (E1 & E2 & E3 & E4 & E5). set (off := (Z.of_nat (length rd) / 512 + 1) * 512).
  assert (Hoff : 0 <= off < 8192) by (unfold off; zlia). set (d := with_size off (ino s 1)).
  assert (Hd : dinode_ok d).
  { split; cbn [d with_size d_type d_major d_minor d_nlink d_size d_addrs]; rewrite ?E1, ?E2, ?E3, ?E4; change T_DIR with 1; try lia.
    - by eapply pages_range, (proj1 Hf).
    - apply Hf. }
  destruct (winode_ok s 1 d (rm_full _ Hr) ltac:(lia) Hd) as (E & Hfu & Hi & Hoth & Hblk).
  pose proof (rm_free _ Hr) as Hfree. change nmeta with 59 in *. change FSSIZE with 1000 in *.
  set (s1 := put_ino 1 d s) in *. assert (Hf1 : freeblock s1 = freeblock s) by done.
  set (bm := foldl bit_mark zero_block (seqZ 0 (freeblock s))).
  destruct (bitmap_marks (Z.to_nat (freeblock s)) 0 ltac:(lia) ltac:(lia)) as [Hbl _]. rewrite Z2Nat.id in Hbl by lia. fold bm in Hbl.
  set (s2 := put 58 bm s1).
  assert (HB : forall b, nmeta <= b -> B s2 b = B s b).
  { intros b Hb. change nmeta with 59 in Hb. unfold s2. rewrite B_put, decide_False by lia. apply Hblk. lia. }
  assert (Hino : forall j, 0 <= j < 208 -> ino s2 j = ino s1 j).
  { intros j Hj. unfold ino, s2. rewrite B_put, decide_False; [done|]. rewrite iblock by done. zlia. }
  exists s2. split_and!.
  - erewrite bind_ok by (apply rinode_ok; [apply Hr|lia]). cbv zeta. rewrite E5, (xint_id (Z.of_nat (length rd))) by lia.
    assert (Hu2 : u32 ((Z.of_nat (length rd) / BSIZE + 1) * BSIZE) = off)
      by (change BSIZE with 512; unfold u32; rewrite Z.mod_small; [done|fold off; lia]).
    rewrite Hu2, (xint_id off) by lia. fold d. erewrite bind_ok by exact E. erewrite bind_ok by (unfold gets; reflexivity).
    unfold balloc. rewrite Hf1. change (BSIZE * 8) with 4096. rewrite (proj2 (Z.ltb_lt _ 4096)) by lia. cbn [negb].
    change (bmapstart mk_sb) with 58. rewrite wsect_ok by (change FSSIZE with 1000; lia). done.
  - done.
  - unfold s2. rewrite B_put, decide_False by lia. rewrite Hblk by lia. done.
  - rewrite Hino by lia. rewrite Hi. unfold head_of, d. cbn [with_size d_type d_major d_minor d_nlink d_size]. by rewrite E1, E2, E3, E4.
  - intros n ty data Hnth. destruct (Hfile n ty data Hnth) as (Hfn & Hhn & _). pose proof (lookup_lt_Some _ _ _ Hnth).
    rewrite Hino by lia. destruct (decide (n = 0%nat)) as [->|Hne].
    + change (Z.of_nat 0 + 1) with 1 in *. rewrite Hi. split; [|done]. by apply (file_same s _ _ _ (ino s 1)).
    + rewrite Hoth by lia. split; [|done]. by apply (file_same s _ _ _ (ino s (Z.of_nat n + 1))).
  - intros b Hb. unfold s2. rewrite B_put, decide_True by done. unfold bm.
    destruct (bitmap_marks (Z.to_nat (freeblock s)) b ltac:(lia) Hb) as [_ Hub]. by rewrite Z2Nat.id in Hub by lia.
Qed.

(** C5. mkfs makes the file system it is asked for.  Given files that can be
    read and fit, it ends with an image in which the superblock, as the kernel
    reads it, describes the layout, file [k] is inode [k + 2] with its size
    and, read through its block pointers, its bytes; the root directory is
    inode 1 and names the files; no block belongs to two files or to two places of a file; and the
    bitmap marks exactly the blocks up to the last one allocated. *)
Theorem mkfs_exact (reads : list Z -> option (list (list Z))) (out : list Z) (names : list (list Z)) :
  (length names <= 198)%nat -> Forall (file_fits reads) names -> nmeta + total (tree reads names) <= FSSIZE ->
  exists s, main true reads (out :: names) start = Ok tt s /\
    sb_decode (B s 1) = mk_sb /\
    (forall k n, names !! k = Some n ->
       head_of (ino s (Z.of_nat k + 2)) = (T_FILE, 0, 0, 1, Z.of_nat (length (content reads n))) /\
       read_file s (Z.of_nat k + 2) (length (content reads n)) = content reads n) /\
    head_of (ino s 1) = (T_DIR, 0, 0, 1, (Z.of_nat (length (root_dir names)) / BSIZE + 1) * BSIZE) /\
    read_file s 1 (length (root_dir names)) = root_dir names /\
    (forall n m e e' k k', tree reads names !! n = Some e -> tree reads names !! m = Some e' ->
       0 <= k < nblk (length (snd e)) -> 0 <= k' < nblk (length (snd e')) ->
       nmeta <= bptr s (ino s (Z.of_nat n + 1)) k < freeblock s /\
       (bptr s (ino s (Z.of_nat n + 1)) k = bptr s (ino s (Z.of_nat m + 1)) k' -> n = m /\ k = k')) /\
    freeblock s = nmeta + total (tree reads names) /\
    forall b, 0 <= b < BPB -> bit_used (B s (bmapstart mk_sb)) b = (b <? freeblock s).
Proof.
  intros Hlen Hfit Htot. destruct (start_ok (seqZ 0 FSSIZE)) as (s0 & own0 & E0 & Him0).
  { apply list.Forall_forall. intros i Hi. apply elem_of_seqZ in Hi. lia. }
  { intros b Hb. apply elem_of_seqZ. lia. }
  destruct (ialloc_ok s0 own0 [] T_DIR Him0 ltac:(simpl; lia) ltac:(done)) as (s1 & E1 & Him1).
  assert (Htree : total (tree reads []) <= FSSIZE - nmeta) by (pose proof (tree_mono reads [] names); simpl in *; lia).
  destruct (iappend_ok s1 own0 _ 0 T_DIR [] (dirent_bytes 1 [46]) Him1 eq_refl) as (s2 & own2 & E2 & Him2); [done|vm_compute; done|].
  destruct (iappend_ok s2 own2 _ 0 T_DIR _ (dirent_bytes 1 [46; 46]) Him2 eq_refl) as (s3 & own3 & E3 & Him3); [done|vm_compute; done|].
  assert (Etree : <[0%nat := (T_DIR, ([] ++ dirent_bytes 1 [46]) ++ dirent_bytes 1 [46; 46])]>
    (<[0%nat := (T_DIR, [] ++ dirent_bytes 1 [46])]> ([] ++ [(T_DIR, [])])) = tree reads []).
  { reflexivity. }
  rewrite Etree in Him3.
  destruct (add_files_ok reads s3 own3 [] names Him3 Hlen Hfit) as (s4 & own4 & E4 & Him4); [cbn [app]; lia|]. cbn [app] in Him4.
  destruct (finish_ok s4 own4 _ (root_dir names) _ Him4 eq_refl) as (s5 & E5 & Hfb & Hsb & Hroot & Hfiles & Hbits);
    [rewrite root_length; lia|].
  pose proof (im_used _ _ _ Him4) as Hused.
  exists s5. split_and!.
  - unfold main. cbn [negb]. change (replicate (Z.to_nat BSIZE) 0) with zero_block. fold sb_block.
    erewrite seq3_ok by exact E0. erewrite bind_ok by exact E1.
    change (negb (Z.of_nat (length ([] : list entry)) + 1 =? ROOTINO)) with false. cbn iota.
    erewrite bind_ok by exact E2. erewrite bind_ok by exact E3. erewrite bind_ok by exact E4. exact E5.
  - rewrite Hsb. by vm_compute.
  - intros k n Hk. destruct (Hfiles (S k) T_FILE (content reads n)) as [Hf Hh].
    { unfold tree. simpl. by rewrite list_lookup_fmap, Hk. }
    replace (Z.of_nat (S k) + 1) with (Z.of_nat k + 2) in * by lia. split; [by apply Hh|by eapply file_read].
  - exact Hroot.
  - destruct (Hfiles 0%nat T_DIR (root_dir names) eq_refl) as [Hf _]. by eapply file_read.
  - intros n m [ty data] [ty' data'] k k' Hn Hm Hk Hk'. destruct (Hfiles n ty data Hn) as [[Hp _] _].
    destruct (Hfiles m ty' data' Hm) as [[Hp' _] _]. destruct (pg_in _ _ _ _ _ _ Hp k Hk) as [Hr Ho].
    destruct (pg_in _ _ _ _ _ _ Hp' k' Hk') as [_ Ho']. split; [done|]. intros E. rewrite E, Ho' in Ho.
    injection Ho as En Ek. split; [lia|done].
  - by rewrite Hfb.
  - intros b Hb. rewrite Hfb. by apply Hbits.
Qed.

(** A file of fourteen blocks, which needs indirect pointers, and a short one
    under a name with an underscore. *)
Definition demo_reads (n : list Z) : option (list (list Z)) :=
  if decide (n = chars "README") then Some (replicate 14 (replicate 512 65))
  else if decide (n = chars "_cat") then Some [chars "hi"; chars "!"] else None.

Lemma demo_fits : Forall (file_fits demo_reads) [chars "README"; chars "_cat"].
Proof.
  repeat apply Forall_cons_2; [| |apply Forall_nil_2]; (split; [by apply (bool_decide_unpack (_ ∉ _))|]); eexists;
    (split; [reflexivity|by apply Z.leb_le]).
Qed.

Lemma mkfs_exact_witness :
  exists s, main true demo_reads [chars "fs.img"; chars "README"; chars "_cat"] start = Ok tt s /\
    read_file s 3 3 = chars "hi!" /\ head_of (ino s 2) = (T_FILE, 0, 0, 1, 7168) /\ freeblock s = 76.
Proof.
  destruct (mkfs_exact demo_reads (chars "fs.img") [chars "README"; chars "_cat"]) as (s & E & _ & Hf & _ & _ & _ & Hfb & _).
  - apply Nat.leb_le. reflexivity.
  - exact demo_fits.
  - apply Z.leb_le. vm_compute. reflexivity.
  - exists s. split; [exact E|]. destruct (Hf 1%nat (chars "_cat") eq_refl) as [_ H3].
    destruct (Hf 0%nat (chars "README") eq_refl) as [H2 _]. split; [exact H3|]. split; [|rewrite Hfb; by vm_compute].
    replace (T_FILE, 0, 0, 1, 7168) with (T_FILE, 0, 0, 1, Z.of_nat (length (content demo_reads (chars "README")))) by by vm_compute.
    exact H2.
Defined.
