(* ===== verification/Hw.v ===== *)
(** * x86.h: access to devices

    The devices behind the I/O ports and the memory-mapped registers are a
    parameter: how they answer a read and change at a write.  A driver runs
    in any state that contains them. *)

From S2P Require Import Prelude Machine.

(** Reads and writes of a byte at a port, of a block of bytes at a port, and
    of a word of some bytes at a memory-mapped address. *)
Class Hw (D : Type) := {
  port_in : Z -> D -> Z * D;
  port_out : Z -> Z -> D -> D;
  port_ins : Z -> Z -> D -> list Z * D;
  port_outs : Z -> list Z -> D -> D;
  bus_in : Z -> D -> Z * D;
  bus_out : Z -> Z -> Z -> D -> D }.

Class HasDev (S D : Type) := {
  get_dev : S -> D;
  set_dev : D -> S -> S }.

#[export] Instance dev_self D : HasDev D D := {| get_dev := fun d => d; set_dev := fun d _ => d |}.

Section Hw.
Context {S D : Type} `{Hw D} `{HasDev S D}.

Definition inb (port : Z) : M S Z := fun s =>
  let r := port_in port (get_dev s) in Ok (u8 (fst r)) (set_dev (snd r) s).

Definition outb (port data : Z) : M S unit := modify (fun s => set_dev (port_out port (u8 data) (get_dev s)) s).

(** [cnt] words of four bytes. *)
Definition insl (port cnt : Z) : M S (list Z) := fun s =>
  let r := port_ins port (4 * cnt) (get_dev s) in Ok (fst r) (set_dev (snd r) s).

Definition outsl (port : Z) (bytes : list Z) : M S unit :=
  modify (fun s => set_dev (port_outs port bytes (get_dev s)) s).

(** A volatile load of a word, and a volatile store of [w] bytes. *)
Definition mread (a : Z) : M S Z := fun s =>
  let r := bus_in a (get_dev s) in Ok (u32 (fst r)) (set_dev (snd r) s).

Definition mwrite (w a v : Z) : M S unit := modify (fun s => set_dev (bus_out w a v (get_dev s)) s).
End Hw.
