(* ===== verification/Apic.v ===== *)
(** * lapic.c, ioapic.c, picirq.c: interrupt controllers and the clock

    [lapic] is the address of the local APIC, set by [mpinit]; 0 when there
    is none.  A loop that waits for a device goes round at most [waits]
    times. *)

From S2P Require Import Prelude Machine Hw StringC Spinlock Kalloc Vm Kernel Sleep Trap.

Section Apic.
Context {S D : Type} `{Hw D} `{HasDev S D} `{Waits}.

(** ** The local APIC *)

Definition lapicw (lapic index value : Z) : M S unit :=
  mwrite 4 (lapic + 4 * index) (u32 value) ;;
  mread (lapic + 4 * (0x20 / 4)) ;;
  ret tt.

Definition lapicinit (lapic : Z) : M S unit :=
  if lapic =? 0 then ret tt
  else
    lapicw lapic (0xF0 / 4) (Z.lor 0x100 (T_IRQ0 + IRQ_SPURIOUS)) ;;
    lapicw lapic (0x3E0 / 4) 0xB ;;
    lapicw lapic (0x320 / 4) (Z.lor 0x20000 (T_IRQ0 + IRQ_TIMER)) ;;
    lapicw lapic (0x380 / 4) 10000000 ;;
    lapicw lapic (0x350 / 4) 0x10000 ;;
    lapicw lapic (0x360 / 4) 0x10000 ;;
    ver <- mread (lapic + 4 * (0x30 / 4)) ;;
    (when 4 <=? Z.land (Z.shiftr ver 16) 0xFF do lapicw lapic (0x340 / 4) 0x10000) ;;
    lapicw lapic (0x370 / 4) (T_IRQ0 + 19) ;;
    lapicw lapic (0x280 / 4) 0 ;;
    lapicw lapic (0x280 / 4) 0 ;;
    lapicw lapic (0xB0 / 4) 0 ;;
    lapicw lapic (0x310 / 4) 0 ;;
    lapicw lapic (0x300 / 4) (Z.lor (Z.lor 0x80000 0x500) 0x8000) ;;
    loop waits (fun _ =>
      icr <- mread (lapic + 4 * (0x300 / 4)) ;;
      if bit_set icr 0x1000 then ret (inl tt) else ret (inr tt)) tt ;;
    lapicw lapic (0x80 / 4) 0.

Definition lapicid (lapic : Z) : M S Z :=
  if lapic =? 0 then ret 0
  else v <- mread (lapic + 4 * (0x20 / 4)) ;; ret (Z.shiftr v 24).

Definition lapiceoi (lapic : Z) : M S unit :=
  if lapic =? 0 then ret tt else lapicw lapic (0xB0 / 4) 0.

(** The warm reset vector is the pair of half words at 0x467. *)
Definition lapicstartap (lapic apicid addr : Z) : M S unit :=
  outb 0x70 0xF ;;
  outb 0x71 0x0A ;;
  mwrite 2 (P2V 0x467) 0 ;;
  mwrite 2 (P2V 0x467 + 2) (u16 (Z.shiftr addr 4)) ;;
  lapicw lapic (0x310 / 4) (Z.shiftl apicid 24) ;;
  lapicw lapic (0x300 / 4) (Z.lor (Z.lor 0x500 0x8000) 0x4000) ;;
  lapicw lapic (0x300 / 4) (Z.lor 0x500 0x8000) ;;
  for_all [0; 1] (fun _ =>
    lapicw lapic (0x310 / 4) (Z.shiftl apicid 24) ;;
    lapicw lapic (0x300 / 4) (Z.lor 0x600 (Z.shiftr addr 12))).

(** ** The I/O APIC *)

Definition IOAPIC : Z := 0xFEC00000.

Definition ioapicread (reg : Z) : M S Z :=
  mwrite 4 IOAPIC reg ;; mread (IOAPIC + 16).

Definition ioapicwrite (reg data : Z) : M S unit :=
  mwrite 4 IOAPIC reg ;; mwrite 4 (IOAPIC + 16) (u32 data).

(** [ioapicid] is the id that [mpinit] found; the message for another one
    has no effect here. *)
Definition ioapicinit : M S unit :=
  ver <- ioapicread 0x01 ;;
  let maxintr := Z.land (Z.shiftr ver 16) 0xFF in
  ioapicread 0x00 ;;
  for_all (seqZ 0 (maxintr + 1)) (fun i =>
    ioapicwrite (0x10 + 2 * i) (Z.lor 0x10000 (T_IRQ0 + i)) ;;
    ioapicwrite (0x10 + 2 * i + 1) 0).

Definition ioapicenable (irq cpunum : Z) : M S unit :=
  ioapicwrite (0x10 + 2 * irq) (T_IRQ0 + irq) ;;
  ioapicwrite (0x10 + 2 * irq + 1) (Z.shiftl cpunum 24).

Definition picinit : M S unit :=
  outb (0x20 + 1) 0xFF ;; outb (0xA0 + 1) 0xFF.

(** ** The clock *)

Definition cmos_read (reg : Z) : M S Z := outb 0x70 reg ;; inb 0x71.

(** [struct rtcdate]. *)
Record rtcdate := Rtcdate { second : Z; minute : Z; hour : Z; day : Z; month : Z; year : Z }.

Definition fill_rtcdate : M S rtcdate :=
  se <- cmos_read 0x00 ;;
  mi <- cmos_read 0x02 ;;
  ho <- cmos_read 0x04 ;;
  da <- cmos_read 0x07 ;;
  mo <- cmos_read 0x08 ;;
  ye <- cmos_read 0x09 ;;
  ret (Rtcdate se mi ho da mo ye).

Definition rtc_eqb (a b : rtcdate) : bool :=
  (second a =? second b) && (minute a =? minute b) && (hour a =? hour b) &&
  (day a =? day b) && (month a =? month b) && (year a =? year b).

Definition CONV (x : Z) : Z := u32 (Z.shiftr x 4 * 10 + Z.land x 0xf).

Definition cmostime : M S rtcdate :=
  sb <- cmos_read 0x0b ;;
  let bcd := Z.land sb 4 =? 0 in
  t1 <- loop waits (fun _ =>
    t1 <- fill_rtcdate ;;
    st <- cmos_read 0x0a ;;
    if bit_set st 0x80 then ret (inl tt)
    else
      t2 <- fill_rtcdate ;;
      if rtc_eqb t1 t2 then ret (inr t1) else ret (inl tt)) tt ;;
  let t1 := if bcd then Rtcdate (CONV (second t1)) (CONV (minute t1)) (CONV (hour t1))
                                (CONV (day t1)) (CONV (month t1)) (CONV (year t1)) else t1 in
  ret (Rtcdate (second t1) (minute t1) (hour t1) (day t1) (month t1) (u32 (year t1 + 2000))).
End Apic.
