(* ===== verification/Ide.v ===== *)
(** * ide.c: the interrupt-driven disk driver

    The driver's own variables beside the disk and the kernel's state: the
    queue is linked through [qnext] as in the code.  The kernel's routines it
    calls (locks, [sleep], [wakeup]) are those of the other files. *)

From S2P Require Import Prelude Machine Hw StringC Spinlock Kalloc Vm Kernel Sleep Trap Apic.

Record idest (D : Type) := Idest {
  ata : D;
  idequeue : option nat;
  qnext : gmap nat nat;
  havedisk1 : bool;
  ik : kst }.

Arguments Idest {D}.
Arguments ata {D}.
Arguments idequeue {D}.
Arguments qnext {D}.
Arguments havedisk1 {D}.
Arguments ik {D}.

Module Ide.
Section Ide.
Context {D : Type} `{Hw D} `{Waits}.
Notation st := (idest D).

Definition upd_ata (f : D -> D) (s : st) : st := Idest (f (ata s)) (idequeue s) (qnext s) (havedisk1 s) (ik s).
Definition upd_idequeue (f : option nat -> option nat) (s : st) : st :=
  Idest (ata s) (f (idequeue s)) (qnext s) (havedisk1 s) (ik s).
Definition upd_qnext (f : gmap nat nat -> gmap nat nat) (s : st) : st :=
  Idest (ata s) (idequeue s) (f (qnext s)) (havedisk1 s) (ik s).
Definition upd_havedisk1 (f : bool -> bool) (s : st) : st :=
  Idest (ata s) (idequeue s) (qnext s) (f (havedisk1 s)) (ik s).
Definition upd_ik (f : kst -> kst) (s : st) : st := Idest (ata s) (idequeue s) (qnext s) (havedisk1 s) (f (ik s)).

#[export] Instance ide_HasDev : HasDev st D := {| get_dev := ata; set_dev := fun d => upd_ata (fun _ => d) |}.

(** The kernel's routines. *)
Fixpoint lift_ik {A} (r : res kst A) (s : st) : res st A :=
  match r with
  | Ok a k => Ok a (upd_ik (fun _ => k) s)
  | Panic msg => Panic msg
  | Undef msg => Undef msg
  | NoFuel => NoFuel
  | Sched k f => Sched (upd_ik (fun _ => k) s) (fun s' => lift_ik (f (ik s')) s')
  end.

Definition lift_k {A} (m : M kst A) : M st A := fun s => lift_ik (m (ik s)) s.

Definition IDE_BSY : Z := 0x80.
Definition IDE_DRDY : Z := 0x40.
Definition IDE_DF : Z := 0x20.
Definition IDE_ERR : Z := 0x01.

Definition idewait (checkerr : bool) : M st Z :=
  r <- loop waits (fun _ =>
    r <- inb 0x1f7 ;;
    if Z.land r (Z.lor IDE_BSY IDE_DRDY) =? IDE_DRDY then ret (inr r) else ret (inl tt)) tt ;;
  ret (if checkerr && bit_set r (Z.lor IDE_DF IDE_ERR) then -1 else 0).

(** The probe for disk 1, [n] times at most. *)
Fixpoint probe (n : nat) : M st unit :=
  match n with
  | O => ret tt
  | S n' =>
      r <- inb 0x1f7 ;;
      if negb (r =? 0) then modify (upd_havedisk1 (fun _ => true)) else probe n'
  end.

(** [ncpu] is what [mpinit] found. *)
Definition ideinit (ncpu : Z) : M st unit :=
  lift_k (initlock L_ide) ;;
  ioapicenable IRQ_IDE (ncpu - 1) ;;
  idewait false ;;
  outb 0x1f6 (Z.lor 0xe0 (Z.shiftl 1 4)) ;;
  probe 1000 ;;
  outb 0x1f6 (Z.lor 0xe0 (Z.shiftl 0 4)).

Definition idestart (ob : option nat) : M st unit :=
  match ob with
  | None => panic "idestart"
  | Some i =>
      b <- gets (fun s => buf_at i (ik s)) ;;
      if FSSIZE <=? blockno b then panic "incorrect blockno"
      else
        let sector_per_block := BSIZE / 512 in
        let sector := blockno b * sector_per_block in
        let read_cmd := if sector_per_block =? 1 then 0x20 else 0xc4 in
        let write_cmd := if sector_per_block =? 1 then 0x30 else 0xc5 in
        if 7 <? sector_per_block then panic "idestart"
        else
          idewait false ;;
          outb 0x3f6 0 ;;
          outb 0x1f2 sector_per_block ;;
          outb 0x1f3 (Z.land sector 0xff) ;;
          outb 0x1f4 (Z.land (Z.shiftr sector 8) 0xff) ;;
          outb 0x1f5 (Z.land (Z.shiftr sector 16) 0xff) ;;
          outb 0x1f6 (Z.lor (Z.lor 0xe0 (Z.shiftl (Z.land (bdev b) 1) 4)) (Z.land (Z.shiftr sector 24) 0x0f)) ;;
          if bit_set (bflags b) B_DIRTY then outb 0x1f7 write_cmd ;; outsl 0x1f0 (bdata b)
          else outb 0x1f7 read_cmd
  end.

Definition ideintr : M st unit :=
  lift_k (acquire L_ide) ;;
  q <- gets idequeue ;;
  match q with
  | None => lift_k (release L_ide)
  | Some i =>
      modify (fun s => upd_idequeue (fun _ => qnext s !! i) s) ;;
      b <- gets (fun s => buf_at i (ik s)) ;;
      (if bit_set (bflags b) B_DIRTY then ret tt
       else
         r <- idewait true ;;
         when 0 <=? r do
           (data <- insl 0x1f0 (BSIZE / 4) ;;
            modify (upd_ik (upd_buf i (upd_bdata (fun _ => data)))))) ;;
      modify (upd_ik (upd_buf i (upd_bflags (fun fl => Z.lor fl B_VALID)))) ;;
      modify (upd_ik (upd_buf i (upd_bflags (fun fl => Z.land fl (Z.lnot B_DIRTY))))) ;;
      lift_k (wakeup (Ch_buf i)) ;;
      q' <- gets idequeue ;;
      (when bool_decide (q' <> None) do idestart q') ;;
      lift_k (release L_ide)
  end.

(** The walk to the end of the queue and [*pp = b]: [pp] is [&idequeue] or
    the [qnext] of a buffer. *)
Fixpoint append_at (fuel : nat) (pp : option nat) (i : nat) : M st unit :=
  match fuel with
  | O => fun _ => NoFuel
  | S f =>
      q <- gets (fun s => match pp with None => idequeue s | Some j => qnext s !! j end) ;;
      match q with
      | Some j => append_at f (Some j) i
      | None =>
          match pp with
          | None => modify (upd_idequeue (fun _ => Some i))
          | Some j => modify (upd_qnext (<[j := i]>))
          end
      end
  end.

(** [iderw] up to the wait: the checks, the queue, the start of the disk. *)
Definition submit (i : nat) : M st unit :=
  h <- lift_k (holdingsleep (buf_lock i)) ;;
  if negb h then panic "iderw: buf not locked"
  else
    b <- gets (fun s => buf_at i (ik s)) ;;
    if Z.land (bflags b) (Z.lor B_VALID B_DIRTY) =? B_VALID then panic "iderw: nothing to do"
    else
      h1 <- gets havedisk1 ;;
      if negb (bdev b =? 0) && negb h1 then panic "iderw: ide disk 1 not present"
      else
        lift_k (acquire L_ide) ;;
        modify (upd_qnext (delete i)) ;;
        append_at (S (Z.to_nat NBUF)) None i ;;
        q <- gets idequeue ;;
        when bool_decide (q = Some i) do idestart (Some i).

Definition iderw (i : nat) : M st unit :=
  submit i ;;
  loop waits (fun _ =>
    b <- gets (fun s => buf_at i (ik s)) ;;
    if Z.land (bflags b) (Z.lor B_VALID B_DIRTY) =? B_VALID then ret (inr tt)
    else lift_k (sleep (Ch_buf i) L_ide) ;; ret (inl tt)) tt ;;
  lift_k (release L_ide).
End Ide.
End Ide.
