(* ===== verification/IdeProps.v ===== *)
(** * ide.c: the driver refines the memory disk

    What is assumed of an ATA disk is the class [AtaDisk].  Under it, the
    driver with its queue and its interrupts does what the disk of memide.c
    does at once: the requests are carried out one by one in the order of
    their submission, each exactly as memide.c carries it out. *)

From S2P Require Import Prelude Machine Hw StringC Spinlock Kalloc Vm VmWalk VmMap VmUser VmKern.
From S2P Require Import VmAlloc VmCopy Kernel Sleep Bio Log Inode Console Fs Pipe File Proc.
From S2P Require Import Exec Sysfile KernelWp Mmap Trap MmapWp ProcProps BioWp Apic Ide.
Import Ide.

(** ** The disk *)

Inductive ata_cmd := Rd (drive lba : Z) | Wr (drive lba : Z) (bytes : list Z).

(** Idle, carrying out a command, or with the data of a read to be fetched. *)
Inductive phase := A_idle | A_busy (c : ata_cmd) | A_data (drive lba : Z).

(** The registers that select a drive and a sector. *)
Definition select {D} `{Hw D} (drive lba : Z) (d : D) : D :=
  port_out 0x1f6 (0xe0 + 16 * drive + lba / 16777216)
    (port_out 0x1f5 (lba / 65536 mod 256) (port_out 0x1f4 (lba / 256 mod 256)
      (port_out 0x1f3 (lba mod 256) (port_out 0x1f2 1 d)))).

(** Programmed I/O with 28-bit addresses and interrupts: the status register
    of a drive that is not busy; the control register; the commands READ SECTORS and WRITE SECTORS
    for one sector; the end of a command ([finish], announced by an
    interrupt); the data register. *)
Class AtaDisk (D : Type) `{Hw D} := {
  sect : D -> Z -> Z -> list Z;
  ata_phase : D -> phase;
  finish : D -> D;
  ata_status : forall d, (forall c, ata_phase d <> A_busy c) ->
    exists v, port_in 0x1f7 d = (v, d) /\ 0 <= v < 256 /\ Z.land v 0xC0 = 0x40 /\ Z.land v 0x21 = 0;
  ata_ctl : forall d, ata_phase (port_out 0x3f6 0 d) = ata_phase d /\ forall dr l, sect (port_out 0x3f6 0 d) dr l = sect d dr l;
  ata_read : forall d drive lba, ata_phase d = A_idle -> 0 <= drive <= 1 -> 0 <= lba < 268435456 ->
    let d' := port_out 0x1f7 0x20 (select drive lba d) in
    ata_phase d' = A_busy (Rd drive lba) /\ forall dr l, sect d' dr l = sect d dr l;
  ata_write : forall d drive lba bytes, ata_phase d = A_idle -> 0 <= drive <= 1 -> 0 <= lba < 268435456 ->
    length bytes = 512%nat ->
    let d' := port_outs 0x1f0 bytes (port_out 0x1f7 0x30 (select drive lba d)) in
    ata_phase d' = A_busy (Wr drive lba bytes) /\ forall dr l, sect d' dr l = sect d dr l;
  ata_finish_rd : forall d drive lba, ata_phase d = A_busy (Rd drive lba) ->
    ata_phase (finish d) = A_data drive lba /\ forall dr l, sect (finish d) dr l = sect d dr l;
  ata_finish_wr : forall d drive lba bytes, ata_phase d = A_busy (Wr drive lba bytes) ->
    ata_phase (finish d) = A_idle /\
    forall dr l, sect (finish d) dr l = if (dr =? drive) && (l =? lba) then bytes else sect d dr l;
  ata_data : forall d drive lba, ata_phase d = A_data drive lba ->
    exists d', port_ins 0x1f0 512 d = (sect d drive lba, d') /\ ata_phase d' = A_idle /\
      forall dr l, sect d' dr l = sect d dr l }.

(** ** The reference: memide.c *)

(** Buffers and disk blocks. *)
Record store := Store { st_bufs : list buf; st_disk : Z -> list Z }.

Definition store_of (s : kst) : store := Store (bufs (k_fs s)) (disk_block s).

(** A dirty buffer goes to the disk, another one comes from it. *)
Definition transfer (i : nat) (a : store) : store :=
  let b := st_bufs a !!! i in
  if bit_set (bflags b) B_DIRTY then
    Store (alter (upd_bflags (fun fl => Z.lor (Z.land fl (Z.lnot B_DIRTY)) B_VALID)) i (st_bufs a))
      (fun n => if n =? blockno b then bdata b else st_disk a n)
  else
    Store (alter (fun x => upd_bflags (fun fl => Z.lor fl B_VALID) (upd_bdata (fun _ => st_disk a (blockno b)) x)) i (st_bufs a))
      (st_disk a).

Definition store_eq (a b : store) : Prop := st_bufs a = st_bufs b /\ forall n, st_disk a n = st_disk b n.

Lemma memide_transfer `{Waits} s p i s' :
  idle s p -> (i < length (bufs (k_fs s)))%nat -> Bio.iderw i s = Ok tt s' -> store_eq (store_of s') (transfer i (store_of s)).
Proof.
  intros Hid Hi E. unfold Bio.iderw in E. rewrite (bind_ok _ _ _ _ _ (holdingsleep_run s p Hid i)) in E.
  destruct (negb _); [done|]. rewrite (bind_ok _ _ _ _ _ (eq_refl : gets (buf_at i) (touch s) = Ok (buf_at i s) (touch s))) in E.
  destruct (_ =? B_VALID); [done|]. destruct (negb (bdev _ =? 1)); [done|].
  rewrite (bind_ok _ _ _ _ _ (eq_refl : gets (fun s => disksize (k_fs s)) (touch s) = Ok (disksize (k_fs s)) (touch s))) in E.
  destruct (disksize (k_fs s) <=? _); [done|]. unfold transfer, store_of at 2 3 4. cbn [st_bufs].
  change (bufs (k_fs s) !!! i) with (buf_at i s). destruct (bit_set (bflags (buf_at i s)) B_DIRTY).
  - unfold bind, modify in E. cbn [bindr] in E. injection E as <-. split.
    + simpl. rewrite list_alter_alter_eq. done.
    + done.
  - unfold bind, modify in E. cbn [bindr] in E. injection E as <-. split; [|done].
    simpl. rewrite list_alter_alter_eq. done.
Qed.

(** ** The queue *)

Section Driver.
Context {D : Type} `{AtaDisk D} `{Waits} (Hw1 : (0 < waits)%nat).
Notation st := (idest D).

(** The list that starts at [o], linked through [nx]. *)
Fixpoint chained (o : option nat) (nx : gmap nat nat) (q : list nat) : Prop :=
  match q with
  | [] => o = None
  | i :: q' => o = Some i /\ chained (nx !! i) nx q'
  end.

Lemma append_run fuel pp i q (x : st) :
  chained (match pp with None => idequeue x | Some j => qnext x !! j end) (qnext x) q -> (length q < fuel)%nat ->
  append_at fuel pp i x = Ok tt (match list.last q, pp with
    | Some j, _ | None, Some j => upd_qnext (<[j := i]>) x
    | None, None => upd_idequeue (fun _ => Some i) x end).
Proof.
  revert pp q. induction fuel as [|f IH]; intros pp q Hc Hf; [lia|]. cbn [append_at].
  erewrite bind_ok by (unfold gets; reflexivity). destruct q as [|j q]; cbn [chained] in Hc.
  - rewrite Hc. by destruct pp.
  - destruct Hc as [-> Hc]. rewrite (IH (Some j) q Hc) by (simpl in Hf; lia). rewrite last_cons. by destruct (list.last q).
Qed.

Lemma chained_other o nx q j v : j ∉ q -> chained o nx q -> chained o (<[j := v]> nx) q.
Proof.
  revert o. induction q as [|i q IH]; intros o Hj; [done|]. intros [-> Hc]. split; [done|].
  rewrite lookup_insert_ne by set_solver. apply IH; [set_solver|done].
Qed.

Lemma chained_delete o nx q j : j ∉ q -> chained o nx q -> chained o (delete j nx) q.
Proof.
  revert o. induction q as [|i q IH]; intros o Hj; [done|]. intros [-> Hc]. split; [done|].
  rewrite lookup_delete_ne by set_solver. apply IH; [set_solver|done].
Qed.

Lemma chained_snoc o nx q i j :
  NoDup q -> i ∉ q -> nx !! i = None -> list.last q = Some j -> chained o nx q -> chained o (<[j := i]> nx) (q ++ [i]).
Proof.
  revert o. induction q as [|k q IH]; intros o Hnd Hi Hn Hl Hc; [done|]. destruct Hc as [-> Hc].
  pose proof (NoDup_cons_1_1 _ _ Hnd) as Hk; apply NoDup_cons_1_2 in Hnd. split; [done|]. destruct q as [|k' q].
  - injection Hl as ->. simpl. rewrite lookup_insert_eq. split; [done|]. rewrite lookup_insert_ne by set_solver. done.
  - rewrite lookup_insert_ne.
    + apply IH; [done|set_solver|done|done|done].
    + change (list.last (k' :: q) = Some j) in Hl. apply list.last_Some_elem_of in Hl. intros ->. by apply Hk.
Qed.

(** ** One request *)

(** A request the driver accepts. *)
Record req_ok (b : buf) : Prop := {
  rq_dev : bdev b = 1;
  rq_no : 0 <= blockno b < FSSIZE;
  rq_len : length (bdata b) = 512%nat;
  rq_todo : Z.land (bflags b) (Z.lor B_VALID B_DIRTY) <> B_VALID }.

Definition cmd_of (b : buf) : ata_cmd :=
  if bit_set (bflags b) B_DIRTY then Wr 1 (blockno b) (bdata b) else Rd 1 (blockno b).

Definition after_cmd (c : ata_cmd) : phase :=
  match c with Rd dr l => A_data dr l | Wr _ _ _ => A_idle end.

Lemma idewait_run (x : st) e : (forall c, ata_phase (ata x) <> A_busy c) -> idewait e x = Ok 0 x.
Proof.
  intros Hph. destruct (ata_status _ Hph) as (v & Ev & Hv & Hr1 & Hr2). unfold idewait.
  assert (Ein : inb 0x1f7 x = Ok v x).
  { unfold inb. simpl. rewrite Ev. simpl. unfold upd_ata. rewrite u8_small by done. by destruct x. }
  erewrite bind_ok.
  2: { destruct waits as [|w]; [lia|]. cbn [loop]. erewrite bind_ok.
       2: { erewrite bind_ok by exact Ein. change (Z.lor IDE_BSY IDE_DRDY) with 0xC0. change IDE_DRDY with 0x40.
            rewrite Hr1. reflexivity. }
       reflexivity. }
  unfold bit_set. change (Z.lor IDE_DF IDE_ERR) with 0x21. rewrite Hr2. simpl. by rewrite andb_false_r.
Qed.

Lemma outb_run (x : st) port v : outb port v x = Ok tt (upd_ata (port_out port (u8 v)) x).
Proof. done. Qed.

Lemma idestart_run (x : st) i :
  req_ok (buf_at i (ik x)) -> ata_phase (ata x) = A_idle ->
  exists d', idestart (Some i) x = Ok tt (upd_ata (fun _ => d') x) /\
    ata_phase d' = A_busy (cmd_of (buf_at i (ik x))) /\ forall dr l, sect d' dr l = sect (ata x) dr l.
Proof.
  intros [Hdev Hno Hlen _] Hph. set (b := buf_at i (ik x)) in *. unfold idestart.
  erewrite bind_ok by (unfold gets; reflexivity). fold b. destruct (Z.leb_spec FSSIZE (blockno b)); [lia|].
  change (BSIZE / 512) with 1. change (7 <? 1) with false. change (1 =? 1) with true. cbv zeta iota. rewrite Z.mul_1_r.
  erewrite bind_ok by (apply idewait_run; by rewrite Hph). do 6 erewrite bind_ok by apply outb_run.
  change FSSIZE with 1000 in Hno. set (n := blockno b) in *.
  assert (E1 : u8 (Z.land n 0xff) = n mod 256) by (change 0xff with (Z.ones 8); rewrite Z.land_ones by lia; unfold u8; change (2 ^ 8) with 256; zlia).
  assert (E2 : u8 (Z.land (Z.shiftr n 8) 0xff) = n / 256 mod 256)
    by (change 0xff with (Z.ones 8); rewrite Z.land_ones, Z.shiftr_div_pow2 by lia; unfold u8; change (2 ^ 8) with 256; zlia).
  assert (E3 : u8 (Z.land (Z.shiftr n 16) 0xff) = n / 65536 mod 256)
    by (change 0xff with (Z.ones 8); rewrite Z.land_ones, Z.shiftr_div_pow2 by lia; unfold u8; change (2 ^ 8) with 256;
        change (2 ^ 16) with 65536; zlia).
  assert (E4 : u8 (Z.lor (Z.lor 0xe0 (Z.shiftl (Z.land (bdev b) 1) 4)) (Z.land (Z.shiftr n 24) 0x0f)) = 0xe0 + 16 * 1 + n / 16777216).
  { rewrite Hdev, Z.shiftr_div_pow2 by lia. change (2 ^ 24) with 16777216. rewrite Z.div_small by lia. done. }
  destruct (ata_ctl (ata x)) as [Hc Hcs]. set (d0 := port_out 0x3f6 0 (ata x)) in *. rewrite Hph in Hc.
  unfold cmd_of. fold n. destruct (bit_set (bflags b) B_DIRTY).
  - destruct (ata_write d0 1 n (bdata b) Hc ltac:(lia) ltac:(lia) Hlen) as [Hp Hs].
    eexists. split_and!; [|exact Hp|intros dr l; by rewrite Hs]. erewrite bind_ok by apply outb_run. unfold outsl, modify, upd_ata, select. simpl.
    rewrite E1, E2, E3, E4. done.
  - destruct (ata_read d0 1 n Hc ltac:(lia) ltac:(lia)) as [Hp Hs].
    eexists. split_and!; [|exact Hp|intros dr l; by rewrite Hs]. rewrite outb_run. unfold upd_ata, select. simpl. rewrite E1, E2, E3, E4. done.
Qed.

(** ** The driver and the reference *)

(** The driver stands for the store [a] with the requests [q] pending, the
    first of which the disk is working on or has finished. *)
Record ide_ok (x : st) (a : store) (q : list nat) : Prop := {
  io_bufs : bufs (k_fs (ik x)) = st_bufs a;
  io_num : length (st_bufs a) = Z.to_nat NBUF;
  io_chain : chained (idequeue x) (qnext x) q;
  io_nodup : NoDup q;
  io_req : Forall (fun i => (i < Z.to_nat NBUF)%nat /\ req_ok (st_bufs a !!! i)) q;
  io_one : havedisk1 x = true;
  io_disk : match q with
    | [] => ata_phase (ata x) = A_idle /\ forall n, sect (ata x) 1 n = st_disk a n
    | i :: _ =>
        let b := st_bufs a !!! i in
        ata_phase (ata x) = A_busy (cmd_of b) /\ (forall n, sect (ata x) 1 n = st_disk a n) \/
        ata_phase (ata x) = after_cmd (cmd_of b) /\
          forall n, sect (ata x) 1 n = if bit_set (bflags b) B_DIRTY && (n =? blockno b) then bdata b else st_disk a n
    end }.

Lemma lift_k_ok {A} (m : M kst A) (x : st) a k : m (ik x) = Ok a k -> lift_k m x = Ok a (upd_ik (fun _ => k) x).
Proof. unfold lift_k. by intros ->. Qed.

Lemma nodup_short q : NoDup q -> Forall (fun i => (i < Z.to_nat NBUF)%nat) q -> (length q <= Z.to_nat NBUF)%nat.
Proof.
  intros Hnd Hq. rewrite <- (length_seq (Z.to_nat NBUF) 0). apply submseteq_length, NoDup_submseteq; [done|].
  intros i Hi. rewrite list.Forall_forall in Hq. apply elem_of_seq. specialize (Hq i Hi). lia.
Qed.

(** Only the CPU changes when a lock is taken. *)
Lemma acquire_ide k : cpu_wf (get_cpu k) -> held (get_cpu k) = [] -> ncli (get_cpu k) = 0 ->
  exists k1, acquire L_ide (touch k) = Ok tt k1 /\ holds_only L_ide k1 /\ k_pt k1 = k_pt k /\ same_data k k1.
Proof.
  intros Hwf Hh Hn. assert (Hc : held (get_cpu (touch k)) = [] /\ ncli (get_cpu (touch k)) = 0).
  { unfold touch. by rewrite get_set_cpu. }
  destruct Hc as [Hc1 Hc2]. rewrite acquire_run; [|by apply touch_wf|rewrite Hc1; set_solver].
  eexists. split; [done|]. split; [|by repeat split].
  split; rewrite get_set_cpu; unfold acquired, set_held, push_cpu; cbn [held ncli c_if]; [by rewrite Hc1|by rewrite Hc2|done].
Qed.

(** A new request starts the disk when no other waits. *)
Definition started (q : list nat) (x x' : st) : Prop :=
  match q with [] => exists c, ata_phase (ata x') = A_busy c | _ => ata x' = ata x end.

Lemma submit_run (x : st) a q i p :
  ide_ok x a q -> idle (ik x) p -> ncli (get_cpu (ik x)) = 0 ->
  block_lock (buf_at i (ik x)) = Sleeplock true (pid (pr_at p (ik x))) ->
  (i < Z.to_nat NBUF)%nat -> i ∉ q -> req_ok (buf_at i (ik x)) ->
  exists x1, submit i x = Ok tt x1 /\ holds_only L_ide (ik x1) /\ k_pt (ik x1) = k_pt (ik x) /\
    same_data (ik x) (ik x1) /\ ide_ok x1 a (q ++ [i]) /\ started q x x1.
Proof.
  intros [Hb Hnum Hch Hnd Hreq Hone Hdisk] Hid Hn Hlk Hi Hiq Hrq. set (k := ik x) in *.
  assert (Hbuf : buf_at i k = st_bufs a !!! i) by (unfold buf_at; by rewrite Hb).
  assert (Hlen : (i < length (bufs (k_fs k)))%nat) by (by rewrite Hb, Hnum).
  destruct (acquire_ide k (id_wf _ _ Hid) (id_held _ _ Hid) Hn) as (k1 & Ek1 & Ho1 & Hpt1 & Hsd1).
  set (x0 := upd_ik (fun _ => k1) x). set (x2 := upd_qnext (delete i) x0).
  assert (Hfs : k_fs k1 = k_fs k) by apply Hsd1.
  assert (Hch2 : chained (idequeue x2) (qnext x2) q) by (by apply chained_delete).
  assert (Hq30 : (length q <= Z.to_nat NBUF)%nat).
  { apply nodup_short; [done|]. eapply list.Forall_impl; [exact Hreq|]. by intros j [? _]. }
  assert (Hpre : exists x3, (append_at (S (Z.to_nat NBUF)) None i x2 = Ok tt x3) /\
    chained (idequeue x3) (qnext x3) (q ++ [i]) /\ ik x3 = k1 /\ ata x3 = ata x /\ havedisk1 x3 = true).
  { eexists. split; [apply (append_run _ None i q x2 Hch2); lia|]. destruct (list.last q) as [j|] eqn:El.
    - split; [|done]. simpl. apply chained_snoc; [done|done|apply lookup_delete_eq|done|done].
    - apply last_None in El. subst q. split; [|done]. simpl. split; [done|]. apply lookup_delete_eq. }
  destruct Hpre as (x3 & Ea & Hch3 & Hik3 & Hata3 & Hone3).
  assert (Hrun : forall x4, (q' <- gets idequeue ;; when bool_decide (q' = Some i) do idestart (Some i)) x3 = Ok tt x4 -> submit i x = Ok tt x4).
  { intros x4 E4. unfold submit. erewrite bind_ok by (apply lift_k_ok, (holding_mine k p Hid i Hlk)). cbn [negb].
    erewrite bind_ok by (unfold gets; reflexivity). change (buf_at i (ik (upd_ik _ x))) with (buf_at i k).
    rewrite (proj2 (Z.eqb_neq _ _) (rq_todo _ Hrq)). erewrite bind_ok by (unfold gets; reflexivity).
    change (havedisk1 (upd_ik (fun _ => touch k) x)) with (havedisk1 x). rewrite Hone. cbn [negb]. rewrite andb_false_r.
    erewrite bind_ok by (apply lift_k_ok; exact Ek1). erewrite bind_ok by (unfold modify; reflexivity).
    change (upd_qnext (delete i) _) with x2. erewrite bind_ok by exact Ea. exact E4. }
  assert (Hreq' : Forall (fun i => (i < Z.to_nat NBUF)%nat /\ req_ok (st_bufs a !!! i)) (q ++ [i])).
  { apply Forall_app. split; [done|]. apply Forall_singleton. by rewrite <- Hbuf. }
  assert (Hnd' : NoDup (q ++ [i])).
  { apply list.NoDup_app. split_and!; [done|set_solver|apply NoDup_singleton]. }
  destruct q as [|j q].
  - (* the disk is idle *)
    destruct Hch3 as [Hq3 Hq3']. destruct Hdisk as [Hph Hs].
    destruct (idestart_run x3 i) as (d' & Es & Hp' & Hs'); [by rewrite Hik3; unfold buf_at; rewrite Hfs|by rewrite Hata3|].
    exists (upd_ata (fun _ => d') x3). split_and!.
    + apply Hrun. erewrite bind_ok by (unfold gets; reflexivity). rewrite Hq3, bool_decide_eq_true_2 by done. exact Es.
    + simpl. by rewrite Hik3.
    + simpl. by rewrite Hik3.
    + simpl. by rewrite Hik3.
    + split; try done; simpl.
      * by rewrite Hik3, Hfs.
      * left. split; [|intros n; rewrite Hs', Hata3; apply Hs]. rewrite Hp', Hik3. unfold buf_at. by rewrite Hfs, Hb.
    + by eexists.
  - (* it is busy with an older request *)
    exists x3. split_and!.
    + apply Hrun. erewrite bind_ok by (unfold gets; reflexivity). destruct Hch3 as [-> _].
      rewrite bool_decide_eq_false_2; [done|]. intros [= ->]. set_solver.
    + by rewrite Hik3.
    + by rewrite Hik3.
    + by rewrite Hik3.
    + split; try done.
      * by rewrite Hik3, Hfs.
      * simpl. rewrite Hata3. exact Hdisk.
    + done.
Qed.

Lemma ide_ok_ik x a q k : ide_ok x a q -> bufs (k_fs k) = bufs (k_fs (ik x)) -> ide_ok (upd_ik (fun _ => k) x) a q.
Proof. intros [Hb Hnum Hch Hnd Hreq Hone Hdisk] E. split; try done. simpl. by rewrite E. Qed.

(** The release of the driver's lock at the end of [iderw]. *)
Lemma release_ide k : holds_only L_ide k ->
  exists k', release L_ide k = Ok tt k' /\ held (get_cpu k') = [] /\ k_pt k' = k_pt k /\ same_data k k'.
Proof.
  intros Hh. pose proof (holds_wf _ _ Hh) as Hwf. destruct Hh as [E1 E2 E3].
  rewrite release_run by (done || rewrite E1; set_solver). eexists. split; [done|]. split; [|by repeat split].
  rewrite get_set_cpu. unfold released, pop_cpu, set_held. cbn [held]. rewrite E1. by rewrite filter_cons_False by naive_solver.
Qed.

Definition done_flags (b : buf) : Prop := Z.land (bflags b) (Z.lor B_VALID B_DIRTY) = B_VALID.

Lemma iderw_run (x : st) a q i p :
  (1 < waits)%nat -> ide_ok x a q -> idle (ik x) p -> ncli (get_cpu (ik x)) = 0 -> (p < length (procs (k_pt (ik x))))%nat ->
  block_lock (buf_at i (ik x)) = Sleeplock true (pid (pr_at p (ik x))) ->
  (i < Z.to_nat NBUF)%nat -> i ∉ q -> req_ok (buf_at i (ik x)) ->
  exists x1 f, Ide.iderw i x = Sched x1 f /\ holds_only L_ptable (ik x1) /\
    k_pt (ik x1) = upd_procs (alter (asleep (Ch_buf i)) p) (k_pt (ik x)) /\ same_data (ik x) (ik x1) /\
    ide_ok x1 a (q ++ [i]) /\ started q x x1 /\
    forall x2, holds_only L_ptable (ik x2) -> done_flags (buf_at i (ik x2)) ->
      exists k, f x2 = Ok tt (upd_ik (fun _ => k) x2) /\ held (get_cpu k) = [] /\ same_data (ik x2) k.
Proof.
  intros Hw2 Hok Hid Hn Hp Hlk Hi Hiq Hrq.
  destruct (submit_run x a q i p Hok Hid Hn Hlk Hi Hiq Hrq) as (x1 & Es & Hh1 & Hpt1 & Hsd1 & Hok1 & Hbusy1).
  destruct (sleep_run (ik x1) p (Ch_buf i) L_ide Hh1) as (k2 & f & Esl & Hh2 & Hpt2 & Hsd2 & Hres);
    [rewrite Hpt1; apply Hid|by rewrite Hpt1|].
  assert (Hfs1 : k_fs (ik x1) = k_fs (ik x)) by apply Hsd1.
  assert (Hbody : forall x' : st, k_fs (ik x') = k_fs (ik x) ->
    (Z.land (bflags (buf_at i (ik x'))) (Z.lor B_VALID B_DIRTY) =? B_VALID) = false).
  { intros x' E. unfold buf_at. rewrite E. apply Z.eqb_neq. apply Hrq. }
  assert (exists w, waits = S (S w)) as [w Ew] by (exists (waits - 2)%nat; lia).
  eexists (upd_ik (fun _ => k2) x1), _. split_and!.
  - unfold Ide.iderw. erewrite bind_ok by exact Es. rewrite Ew. cbn [loop].
    erewrite bind_sched; [done|]. erewrite bind_sched; [done|].
    erewrite bind_ok by (unfold gets; reflexivity). rewrite Hbody by done.
    erewrite bind_sched; [done|]. unfold lift_k. rewrite Esl. simpl. done.
  - done.
  - simpl. by rewrite Hpt2, Hpt1.
  - simpl. by eapply same_data_trans.
  - apply ide_ok_ik; [done|]. destruct Hsd2 as (_ & _ & _ & -> & _). done.
  - done.
  - intros x2 Hh Hd. destruct (Hres (ik x2) Hh) as (k3 & Ek & Hh3 & _ & Hsd3). cbn beta. rewrite Ek. cbn [lift_ik bindr].
    unfold ret. cbn [bindr]. assert (Hfs3 : k_fs k3 = k_fs (ik x2)) by apply Hsd3.
    erewrite bind_ok.
    2: { erewrite bind_ok by (unfold gets; reflexivity). change (ik (upd_ik (fun _ => k3) x2)) with k3.
         assert (Ef : (Z.land (bflags (buf_at i k3)) (Z.lor B_VALID B_DIRTY) =? B_VALID) = true)
           by (apply Z.eqb_eq; unfold buf_at; rewrite Hfs3; exact Hd).
         rewrite Ef. reflexivity. }
    unfold ret. cbn [bindr]. destruct (release_ide k3 Hh3) as (k4 & Er & Hh4 & _ & Hsd4).
    exists k4. rewrite (lift_k_ok _ _ tt k4) by exact Er. split; [done|]. split; [done|]. by eapply same_data_trans.
Qed.

(** ** The interrupt *)

Lemma flags_clean fl : bit_set fl B_DIRTY = false -> Z.land (Z.lor fl B_VALID) (Z.lnot B_DIRTY) = Z.lor fl B_VALID.
Proof.
  unfold bit_set. rewrite negb_false_iff, Z.eqb_eq. intros Hf. rewrite <- Z.ldiff_land. apply Z.bits_inj'. intros n Hn.
  rewrite Z.ldiff_spec, Z.lor_spec. assert (Hb : Z.testbit (Z.land fl B_DIRTY) n = false) by (rewrite Hf; apply Z.bits_0).
  rewrite Z.land_spec in Hb. destruct (decide (n = 2)) as [->|Hn2].
  - change (Z.testbit B_DIRTY 2) with true in *. rewrite andb_true_r in Hb. by rewrite Hb.
  - change B_DIRTY with (2 ^ 2) in *. rewrite Z.pow2_bits_false by lia. by rewrite andb_true_r.
Qed.

Lemma flags_dirty fl : Z.land (Z.lor fl B_VALID) (Z.lnot B_DIRTY) = Z.lor (Z.land fl (Z.lnot B_DIRTY)) B_VALID.
Proof. by rewrite Z.land_lor_distr_l. Qed.

Lemma flags_done fl : Z.land (Z.land (Z.lor fl B_VALID) (Z.lnot B_DIRTY)) (Z.lor B_VALID B_DIRTY) = B_VALID.
Proof.
  apply Z.bits_inj'. intros n Hn. rewrite !Z.land_spec, !Z.lor_spec, Z.lnot_spec by lia.
  change B_VALID with (2 ^ 1). change B_DIRTY with (2 ^ 2).
  destruct (decide (n = 1)) as [->|H1n]; [by rewrite orb_true_r|].
  rewrite (Z.pow2_bits_false 1 n) by lia. simpl. destruct (Z.testbit (2 ^ 2) n); simpl; [by rewrite andb_false_r|].
  by rewrite !andb_false_r.
Qed.

(** The buffer when its request is done. *)
Definition finished (data : list Z) (b : buf) : buf :=
  upd_bflags (fun fl => Z.land (Z.lor fl B_VALID) (Z.lnot B_DIRTY)) (upd_bdata (fun _ => data) b).

Lemma transfer_finished a i :
  (i < length (st_bufs a))%nat ->
  let b := st_bufs a !!! i in
  let data := if bit_set (bflags b) B_DIRTY then bdata b else st_disk a (blockno b) in
  st_bufs (transfer i a) = alter (finished data) i (st_bufs a).
Proof.
  intros Hi b data. unfold transfer, data, finished. fold b. destruct (bit_set (bflags b) B_DIRTY) eqn:Ed; simpl;
    apply list_alter_ext; try done; intros y Hy; assert (y = b) as -> by (unfold b; by rewrite (list_lookup_total_correct _ _ _ Hy)).
  - destruct b. unfold upd_bflags, upd_bdata. simpl. f_equal. symmetry. apply flags_dirty.
  - unfold upd_bflags, upd_bdata. simpl. f_equal. symmetry. by apply flags_clean.
Qed.

Lemma same_buf i k : upd_buf i (upd_bdata (fun _ => bdata (buf_at i k))) k = k.
Proof.
  rewrite (upd_buf_ext i _ (fun b => b)) by (by destruct (buf_at i k)). destruct k as [k1 k2 k3 k4].
  unfold upd_buf, upd_k_fs, upd_bufs. simpl. f_equal. destruct k3. simpl. f_equal. by apply list_alter_id.
Qed.

(** The data of a read, and the disk ready for the next command. *)
Lemma fetch_run (x : st) i (disk : Z -> list Z) :
  let b := buf_at i (ik x) in
  let data := if bit_set (bflags b) B_DIRTY then bdata b else disk (blockno b) in
  (i < length (bufs (k_fs (ik x))))%nat -> ata_phase (ata x) = after_cmd (cmd_of b) ->
  (forall n, sect (ata x) 1 n = if bit_set (bflags b) B_DIRTY && (n =? blockno b) then bdata b else disk n) ->
  exists d', (if bit_set (bflags b) B_DIRTY then ret tt
       else
         r <- idewait true ;;
         when 0 <=? r do
           (data <- insl 0x1f0 (BSIZE / 4) ;;
            modify (upd_ik (upd_buf i (upd_bdata (fun _ => data)))))) x =
    Ok tt (upd_ata (fun _ => d') (upd_ik (upd_buf i (upd_bdata (fun _ => data))) x)) /\
    ata_phase d' = A_idle /\ forall n, sect d' 1 n = sect (ata x) 1 n.
Proof.
  intros b data Hi Hph Hs. unfold cmd_of in Hph. unfold data. destruct (bit_set (bflags b) B_DIRTY) eqn:Ed; simpl in Hph.
  - exists (ata x). split_and!; [|done|done]. unfold ret. f_equal. unfold upd_ata, upd_ik. cbn [ik ata]. unfold b. rewrite same_buf. by destruct x.
  - destruct (ata_data _ _ _ Hph) as (d' & Ei & Hp' & Hs'). exists d'. split_and!; [|done|intros; apply Hs'].
    erewrite bind_ok by (apply idewait_run; by rewrite Hph). change (0 <=? 0) with true. cbn iota.
    erewrite bind_ok by (unfold insl; change (4 * (BSIZE / 4)) with 512; simpl; rewrite Ei; reflexivity).
    unfold modify. simpl. by rewrite Hs.
Qed.

Lemma intr_run (x : st) a q i :
  ide_ok x a (i :: q) -> (forall c, ata_phase (ata x) <> A_busy c) -> cpu_wf (get_cpu (ik x)) -> held (get_cpu (ik x)) = [] ->
  exists x', Ide.ideintr x = Ok tt x' /\ ide_ok x' (transfer i a) q /\ done_flags (buf_at i (ik x')) /\
    procs (k_pt (ik x')) = wake (Some (Ch_buf i)) <$> procs (k_pt (ik x)) /\
    get_cpu (ik x') = refresh (get_cpu (ik x)) /\
    (q <> [] -> exists c, ata_phase (ata x') = A_busy c).
Proof.
  intros [Hb Hnum [Hq Hch] Hnd Hreq Hone Hdisk] Hph Hwf Hheld.
  pose proof (Forall_cons_1 _ _ _ Hreq) as [[Hi Hrq] Hreq']. set (b := st_bufs a !!! i) in *.
  destruct Hdisk as [[Hbad _]|[Hph' Hs]]; [by apply Hph in Hbad|].
  set (k := ik x) in *. set (k1 := set_cpu (acquired L_ide (get_cpu k)) k).
  assert (Hbuf : buf_at i k1 = b) by (unfold b; rewrite <- Hb; done).
  assert (Hlen : (i < length (bufs (k_fs k1)))%nat) by (change (k_fs k1) with (k_fs k); by rewrite Hb, Hnum).
  set (x1 := upd_idequeue (fun _ => qnext x !! i) (upd_ik (fun _ => k1) x)).
  destruct (fetch_run x1 i (st_disk a)) as (d' & Ef & Hp' & Hs').
  { exact Hlen. } { change (buf_at i (ik x1)) with (buf_at i k1). by rewrite Hbuf. }
  { change (buf_at i (ik x1)) with (buf_at i k1). by rewrite Hbuf. }
  change (buf_at i (ik x1)) with (buf_at i k1) in Ef. rewrite Hbuf in Ef.
  set (data := if bit_set (bflags b) B_DIRTY then bdata b else st_disk a (blockno b)) in *.
  set (x2 := upd_ata (fun _ => d') (upd_ik (upd_buf i (finished data)) x1)).
  assert (Hcpu : get_cpu (ik x2) = acquired L_ide (get_cpu k)) by done.
  assert (Hwf2 : cpu_wf (get_cpu (ik x2)) /\ L_ptable ∉ held (get_cpu (ik x2)) /\ ncli (get_cpu (ik x2)) <> 0).
  { rewrite Hcpu. split; [by apply acquired_wf|]. unfold acquired, set_held, push_cpu. cbn [held ncli]. rewrite Hheld.
    split; [set_solver|]. destruct Hwf. lia. }
  destruct Hwf2 as (Hwf2 & Hpt2 & Hn2).
  set (x3 := upd_ik (woken (Ch_buf i)) x2). set (a' := transfer i a).
  assert (Hbufs : bufs (k_fs (ik x3)) = st_bufs a').
  { unfold a'. rewrite transfer_finished by (by rewrite Hnum). fold b. fold data. simpl. by rewrite Hb. }
  assert (Hdisk' : forall n, sect d' 1 n = st_disk a' n).
  { intros n. rewrite Hs'. change (ata x1) with (ata x). rewrite Hs. unfold a', transfer. fold b.
    destruct (bit_set (bflags b) B_DIRTY); simpl; [|done]. done. }
  assert (Hreqs : Forall (fun j => (j < Z.to_nat NBUF)%nat /\ req_ok (st_bufs a' !!! j)) q).
  { apply list.Forall_forall. intros j Hj. rewrite list.Forall_forall in Hreq'. destruct (Hreq' j Hj) as [Hj1 Hj2]. split; [done|].
    unfold a'. rewrite transfer_finished by (by rewrite Hnum). rewrite alter_total_ne; [done|].
    intros ->. by apply (NoDup_cons_1_1 _ _ Hnd). }
  assert (Hnum' : length (st_bufs a') = Z.to_nat NBUF).
  { unfold a'. rewrite transfer_finished by (by rewrite Hnum). by rewrite length_alter. }
  assert (Hstart : exists d2, (q' <- gets idequeue ;; when bool_decide (q' <> None) do idestart q') x3 = Ok tt (upd_ata (fun _ => d2) x3) /\
    (forall n, sect d2 1 n = st_disk a' n) /\
    ata_phase d2 = match q with [] => A_idle | j :: _ => A_busy (cmd_of (st_bufs a' !!! j)) end).
  { erewrite bind_ok by (unfold gets; reflexivity). change (idequeue x3) with (qnext x !! i). destruct q as [|j q]; simpl in Hch.
    - rewrite Hch. rewrite bool_decide_eq_false_2 by naive_solver. exists d'. done.
    - destruct Hch as [-> _]. rewrite bool_decide_eq_true_2 by done. apply Forall_cons_1 in Hreqs as [[_ Hj] _].
      destruct (idestart_run x3 j) as (d2 & Es & Hpb & Hsb).
      { unfold buf_at. by rewrite Hbufs. } { exact Hp'. }
      exists d2. split_and!; [done|intros n; rewrite Hsb; apply Hdisk'|]. rewrite Hpb. unfold buf_at. by rewrite Hbufs. }
  destruct Hstart as (d2 & Es & Hsd2 & Hp2).
  set (x4 := upd_ata (fun _ => d2) x3). set (k4 := set_cpu (refresh (get_cpu k)) (ik x4)).
  exists (upd_ik (fun _ => k4) x4). split_and!.
  - unfold Ide.ideintr. erewrite bind_ok by (apply lift_k_ok, acquire_run; [done|fold k; rewrite Hheld; set_solver]).
    fold k. fold k1. erewrite bind_ok by (unfold gets; reflexivity). change (idequeue (upd_ik (fun _ => k1) x)) with (idequeue x).
    rewrite Hq. erewrite bind_ok by (unfold modify; reflexivity). change (upd_idequeue _ (upd_ik (fun _ => k1) x)) with x1.
    erewrite bind_ok by (unfold gets; reflexivity). change (buf_at i (ik x1)) with (buf_at i k1). rewrite Hbuf.
    erewrite bind_ok by exact Ef. do 2 erewrite bind_ok by (unfold modify; reflexivity).
    assert (E2 : upd_ik (upd_buf i (upd_bflags (fun fl => Z.land fl (Z.lnot B_DIRTY))))
      (upd_ik (upd_buf i (upd_bflags (fun fl => Z.lor fl B_VALID)))
        (upd_ata (fun _ => d') (upd_ik (upd_buf i (upd_bdata (fun _ => data))) x1))) = x2).
    { unfold x2, upd_ik, upd_ata. simpl. f_equal. rewrite !upd_buf_buf. done. }
    rewrite E2. erewrite bind_ok by (apply lift_k_ok, wakeup_run; done). rewrite (touch_id (ik x2)) by done.
    change (upd_ik (fun _ => woken (Ch_buf i) (ik x2)) x2) with x3.
    unfold bind in Es |- *. unfold gets in Es |- *. cbn [bindr] in Es |- *. rewrite Es. cbn [bindr].
    apply lift_k_ok. apply unlock_run; [done|fold k; rewrite Hheld; set_solver|done].
  - split; try done.
    + by apply NoDup_cons_1_2 in Hnd.
    + destruct q as [|j q]; [done|]. left. done.
  - unfold done_flags. change (buf_at i (ik (upd_ik (fun _ => k4) x4))) with (buf_at i (upd_buf i (finished data) k1)).
    rewrite buf_at_upd by done. apply flags_done.
  - done.
  - change (ik (upd_ik _ x4)) with k4. unfold k4. by rewrite get_set_cpu.
  - intros Hq'. destruct q as [|j q]; [done|]. by eexists.
Qed.
End Driver.
