(* ===== verification/IdeSpec.v ===== *)
(** * ide.c against its specification

    The abstract disk: a store and the requests that wait, served in order
    and each as memide.c serves it.  The runs of the driver (submissions by
    processes that then sleep, the disk finishing a command, interrupts, and
    whatever else the kernel does meanwhile) are runs of the abstract disk,
    and a driver whose disk answers serves every request. *)

From S2P Require Import Prelude Machine Hw StringC Spinlock Kalloc Vm VmWalk VmMap VmUser VmKern.
From S2P Require Import VmAlloc VmCopy Demo Kernel Sleep Bio Log Inode Console Fs Pipe File Proc.
From S2P Require Import Exec Sysfile KernelWp DemoK Mmap Trap MmapWp ProcProps BioWp LogProps Apic Ide IdeProps.
Import Ide.

(** ** The specification *)

(** A process asks for buffer [i]; the disk ends a command; the disk's
    interrupt is handled; the kernel leaves the buffers [bs]. *)
Inductive ide_ev := E_rw (i : nat) | E_finish | E_intr | E_kernel (bs : list buf).

(** The same request: other processes may still change the reference count. *)
Definition same_req (b b' : buf) : Prop :=
  bflags b = bflags b' /\ bdev b = bdev b' /\ blockno b = blockno b' /\ bdata b = bdata b'.

(** What the users of the driver observe: a buffer that is waiting is locked,
    so it is neither submitted again nor is its request changed. *)
Definition permitted (e : ide_ev) (s : store * list nat) : Prop :=
  match e with
  | E_rw i => i ∉ s.2
  | E_kernel bs => length bs = Z.to_nat NBUF /\ Forall (fun i => same_req (bs !!! i) (st_bufs s.1 !!! i)) s.2
  | E_finish | E_intr => True
  end.

Definition spec_next (e : ide_ev) (s : store * list nat) : store * list nat :=
  match e, s.2 with
  | E_rw i, q => (s.1, q ++ [i])
  | E_finish, _ => s
  | E_intr, [] => s
  | E_intr, i :: q => (transfer i s.1, q)
  | E_kernel bs, q => (Store bs (st_disk s.1), q)
  end.

Fixpoint all_permitted (es : list ide_ev) (s : store * list nat) : Prop :=
  match es with
  | [] => True
  | e :: es' => permitted e s /\ all_permitted es' (spec_next e s)
  end.

Lemma same_req_ok b b' : req_ok b -> same_req b' b -> req_ok b'.
Proof. intros [] (E1 & E2 & E3 & E4). split; by rewrite ?E1, ?E2, ?E3, ?E4. Qed.

Lemma transfer_eq i a b : store_eq a b -> store_eq (transfer i a) (transfer i b).
Proof.
  intros [E1 E2]. unfold transfer. rewrite E1. destruct (bit_set _ _); split; simpl; try done.
  - intros n. by rewrite E2.
  - by rewrite E2.
Qed.

Section Spec.
Context {D : Type} `{AtaDisk D} `{Waits} (Hw2 : (1 < waits)%nat).
Notation st := (idest D).

(** Process [p], which holds no spinlock, has locked buffer [i]. *)
Record may_rw (x : st) (p i : nat) : Prop := {
  mr_idle : idle (ik x) p;
  mr_ncli : ncli (get_cpu (ik x)) = 0;
  mr_proc : (p < length (procs (k_pt (ik x))))%nat;
  mr_lock : block_lock (buf_at i (ik x)) = Sleeplock true (pid (pr_at p (ik x)));
  mr_buf : (i < Z.to_nat NBUF)%nat;
  mr_req : req_ok (buf_at i (ik x)) }.

Definition may_intr (x : st) : Prop :=
  (forall c, ata_phase (ata x) <> A_busy c) /\ cpu_wf (get_cpu (ik x)) /\ held (get_cpu (ik x)) = [].

Inductive ide_step : st -> ide_ev -> st -> Prop :=
| Step_rw x p i x' f : may_rw x p i -> Ide.iderw i x = Sched x' f -> ide_step x (E_rw i) x'
| Step_finish x c : ata_phase (ata x) = A_busy c -> ide_step x E_finish (upd_ata finish x)
| Step_intr x x' : may_intr x -> Ide.ideintr x = Ok tt x' -> ide_step x E_intr x'
| Step_kernel x k : ide_step x (E_kernel (bufs (k_fs k))) (upd_ik (fun _ => k) x).

Inductive ide_run : st -> list ide_ev -> st -> Prop :=
| Run_nil x : ide_run x [] x
| Run_cons x e y es z : ide_step x e y -> ide_run y es z -> ide_run x (e :: es) z.

Lemma busy_head (x : st) a q c : ide_ok x a q -> ata_phase (ata x) = A_busy c ->
  exists i q', q = i :: q' /\ c = cmd_of (st_bufs a !!! i) /\ forall n, sect (ata x) 1 n = st_disk a n.
Proof.
  intros Hok Hc. pose proof (io_disk _ _ _ Hok) as Hd. destruct q as [|i q]; [destruct Hd; congruence|].
  exists i, q. destruct Hd as [[Hp Hs]|[Hp _]]; [split_and!; congruence|].
  rewrite Hc in Hp. unfold after_cmd, cmd_of in Hp. by destruct (bit_set _ _).
Qed.

Lemma disk_finish_ok (x : st) a q c : ide_ok x a q -> ata_phase (ata x) = A_busy c ->
  ide_ok (upd_ata finish x) a q /\ ata_phase (finish (ata x)) = after_cmd c.
Proof.
  intros Hok Hc. destruct (busy_head _ _ _ _ Hok Hc) as (i & q' & -> & Ec & Hs).
  destruct Hok as [Hb Hnum Hch Hnd Hreq Hone _]. set (b := st_bufs a !!! i) in *.
  assert (Hf : ata_phase (finish (ata x)) = after_cmd c /\ forall n, sect (finish (ata x)) 1 n =
    if bit_set (bflags b) B_DIRTY && (n =? blockno b) then bdata b else st_disk a n).
  { rewrite Ec in *. unfold cmd_of in *. destruct (bit_set (bflags b) B_DIRTY).
    - destruct (ata_finish_wr _ _ _ _ Hc) as [Hp Hw]. split; [done|]. intros n. rewrite Hw, Hs. done.
    - destruct (ata_finish_rd _ _ _ Hc) as [Hp Hr]. split; [done|]. intros n. by rewrite Hr, Hs. }
  destruct Hf as [Hp Hs2]. split; [|done]. split; try done. right. split; [|done]. simpl. by rewrite Hp, Ec.
Qed.

Lemma intr_idle (x : st) a : ide_ok x a [] -> cpu_wf (get_cpu (ik x)) -> held (get_cpu (ik x)) = [] ->
  Ide.ideintr x = Ok tt (upd_ik touch x).
Proof.
  intros Hok Hwf Hheld. unfold Ide.ideintr.
  erewrite bind_ok by (apply lift_k_ok, acquire_run; [done|rewrite Hheld; set_solver]).
  erewrite bind_ok by (unfold gets; reflexivity). change (idequeue (upd_ik _ x)) with (idequeue x).
  rewrite (io_chain _ _ _ Hok). erewrite lift_k_ok by (apply (unlock_run L_ide (ik x)); [done|rewrite Hheld; set_solver|done]). done.
Qed.

Lemma intr_ok (x : st) a q : ide_ok x a q -> may_intr x ->
  exists x', Ide.ideintr x = Ok tt x' /\ let s := spec_next E_intr (a, q) in ide_ok x' s.1 s.2.
Proof.
  intros Hok (Hph & Hwf & Hheld). destruct q as [|i q].
  - exists (upd_ik touch x). split; [by apply (intr_idle _ a)|]. by apply ide_ok_ik.
  - destruct (intr_run ltac:(lia) x a q i Hok Hph Hwf Hheld) as (x' & E & Hok' & _). by exists x'.
Qed.

Lemma step_ok (x : st) s e x' :
  ide_ok x s.1 s.2 -> permitted e s -> ide_step x e x' -> let s' := spec_next e s in ide_ok x' s'.1 s'.2.
Proof.
  destruct s as [a q]. intros Hok Hperm Hstep. destruct Hstep as [x p i x' f [R1 R2 R3 R4 R5 R6] E|x c Hc|x x' Hi E|x k].
  - destruct (iderw_run ltac:(lia) x a q i p Hw2 Hok R1 R2 R3 R4 R5 Hperm R6) as (y & g & E' & _ & _ & _ & Hok' & _).
    rewrite E in E'. injection E' as -> _. exact Hok'.
  - by apply (disk_finish_ok _ _ _ c).
  - destruct (intr_ok _ _ _ Hok Hi) as (y & E' & Hok'). rewrite E in E'. by injection E' as ->.
  - destruct Hperm as [Hlen Hsame]. destruct Hok as [Hb Hnum Hch Hnd Hreq Hone Hd]. cbn [fst snd spec_next] in *.
    split; try done.
    + rewrite list.Forall_forall in *. intros i Hi. destruct (Hreq i Hi) as [Hlt Hr]. split; [done|].
      by apply (same_req_ok (st_bufs a !!! i)), Hsame.
    + destruct q as [|i q]; [done|]. apply Forall_cons_1 in Hsame as [(E1 & E2 & E3 & E4) _]. simpl.
      unfold cmd_of in *. by rewrite E1, E3, E4.
Qed.

(** The disk ends its command and its interrupt is handled. *)
Definition serve : M st unit := modify (upd_ata finish) ;; Ide.ideintr.

Fixpoint serves (n : nat) : M st unit :=
  match n with O => ret tt | S n' => serve ;; serves n' end.

Lemma serve_run (x : st) a q i c : ide_ok x a (i :: q) -> ata_phase (ata x) = A_busy c ->
  cpu_wf (get_cpu (ik x)) -> held (get_cpu (ik x)) = [] ->
  exists x', serve x = Ok tt x' /\ ide_ok x' (transfer i a) q /\ done_flags (buf_at i (ik x')) /\
    procs (k_pt (ik x')) = wake (Some (Ch_buf i)) <$> procs (k_pt (ik x)) /\ get_cpu (ik x') = refresh (get_cpu (ik x)) /\
    (q <> [] -> exists c', ata_phase (ata x') = A_busy c').
Proof.
  intros Hok Hc Hwf Hheld. destruct (disk_finish_ok _ _ _ _ Hok Hc) as [Hok' Hp].
  apply (intr_run ltac:(lia) (upd_ata finish x)); [done| |done|done]. intros c'. simpl. rewrite Hp. by destruct c.
Qed.

Lemma serves_run q : forall (x : st) a, ide_ok x a q -> (q <> [] -> exists c, ata_phase (ata x) = A_busy c) ->
  cpu_wf (get_cpu (ik x)) -> held (get_cpu (ik x)) = [] ->
  exists x', serves (length q) x = Ok tt x' /\ ide_ok x' (foldl (fun a i => transfer i a) a q) [] /\
    procs (k_pt (ik x')) = (fun p => foldl (fun p i => wake (Some (Ch_buf i)) p) p q) <$> procs (k_pt (ik x)).
Proof.
  induction q as [|i q IH]; intros x a Hok Hbusy Hwf Hheld.
  - exists x. split_and!; [done|done|]. simpl. by rewrite list_fmap_id.
  - destruct (Hbusy ltac:(done)) as [c Hc].
    destruct (serve_run x a q i c Hok Hc Hwf Hheld) as (x1 & E1 & Hok1 & _ & Hp1 & Hcpu & Hb1).
    destruct (IH x1 (transfer i a) Hok1 Hb1) as (x2 & E2 & Hok2 & Hp2).
    { rewrite Hcpu. pose proof (touch_wf (ik x) Hwf) as Ht. unfold touch in Ht. by rewrite get_set_cpu in Ht. } { by rewrite Hcpu. }
    exists x2. split_and!; [|done|].
    + simpl. by rewrite (bind_ok _ _ _ _ _ E1).
    + rewrite Hp2, Hp1, <- list_fmap_compose. done.
Qed.

Lemma run_ok (x : st) s es x' :
  ide_ok x s.1 s.2 -> all_permitted es s -> ide_run x es x' ->
  let s' := foldl (fun s e => spec_next e s) s es in ide_ok x' s'.1 s'.2.
Proof.
  intros Hok Hperm Hrun. revert s Hok Hperm. induction Hrun as [x|x e y es z Hstep Hrun IH]; intros s Hok Hperm; [done|].
  destruct Hperm as [Hp Hperm]. apply IH; [|done]. by apply (step_ok x).
Qed.

(** Before the disk ends the command it is at, its blocks are those of the
    abstract disk. *)
Lemma quiet_sect (x : st) a q : ide_ok x a q -> (q <> [] -> exists c, ata_phase (ata x) = A_busy c) ->
  forall n, sect (ata x) 1 n = st_disk a n.
Proof.
  intros Hok Hbusy. destruct q as [|i q]; [apply (io_disk _ _ _ Hok)|].
  destruct (Hbusy ltac:(done)) as [c Hc]. by destruct (busy_head _ _ _ _ Hok Hc) as (? & ? & _ & _ & ?).
Qed.

(** ** The theorems *)

(** C4. Every run of the driver, from a state that stands for an abstract disk,
    ends in a state that stands for the abstract disk after the same events,
    as long as its users leave waiting buffers alone.  The drive reports no
    errors. *)
Theorem ide_refines (x : st) s es x' :
  ide_ok x s.1 s.2 -> all_permitted es s -> ide_run x es x' ->
  let s' := foldl (fun s e => spec_next e s) s es in ide_ok x' s'.1 s'.2.
Proof. apply run_ok. Qed.

(** C20. With [q] waiting and the disk busy with the first of them, [length q]
    interrupts leave none: no handler panics, every request is carried out in
    its turn, and the processes that sleep on one of the buffers are
    runnable.  The drive reports no errors. *)
Theorem ide_serves_all (x : st) a q :
  ide_ok x a q -> (q <> [] -> exists c, ata_phase (ata x) = A_busy c) ->
  cpu_wf (get_cpu (ik x)) -> held (get_cpu (ik x)) = [] ->
  exists x', serves (length q) x = Ok tt x' /\ ide_ok x' (foldl (fun a i => transfer i a) a q) [] /\
    procs (k_pt (ik x')) = (fun p => foldl (fun p i => wake (Some (Ch_buf i)) p) p q) <$> procs (k_pt (ik x)).
Proof. apply serves_run. Qed.

(** C12. A request has the effect it has with memide.c, which carries it out
    in the call: [iderw] puts the process to sleep.  Then anything may happen
    (other requests, before and behind this one, interrupts for them, changes
    of other buffers and of reference counts) that leaves waiting requests
    alone.  The interrupt that comes for this request leaves the buffers and
    the disk that the [iderw] of memide.c leaves, called at that moment, and
    wakes the sleeper; resumed, [iderw] returns with no lock held and changes
    nothing else. *)
Theorem ide_equals_memide (x : st) a q p i :
  ide_ok x a q -> may_rw x p i -> i ∉ q ->
  exists x1 f, Ide.iderw i x = Sched x1 f /\
    k_pt (ik x1) = upd_procs (alter (asleep (Ch_buf i)) p) (k_pt (ik x)) /\
    forall es y q', ide_run x1 es y -> all_permitted es (a, q ++ [i]) ->
      let s1 := foldl (fun s e => spec_next e s) (a, q ++ [i]) es in
      s1.2 = i :: q' -> may_intr y ->
      forall s p' s', store_eq (store_of s) s1.1 -> idle s p' -> Bio.iderw i s = Ok tt s' ->
      exists y', Ide.ideintr y = Ok tt y' /\
        bufs (k_fs (ik y')) = bufs (k_fs s') /\ (forall n, sect (ata y') 1 n = disk_block s' n) /\
        procs (k_pt (ik y')) = wake (Some (Ch_buf i)) <$> procs (k_pt (ik y)) /\
        forall z, holds_only L_ptable (ik z) -> bflags (buf_at i (ik z)) = bflags (buf_at i (ik y')) ->
          exists k, f z = Ok tt (upd_ik (fun _ => k) z) /\ held (get_cpu k) = [] /\ same_data (ik z) k.
Proof.
  intros Hok [R1 R2 R3 R4 R5 R6] Hiq.
  destruct (iderw_run ltac:(lia) x a q i p Hw2 Hok R1 R2 R3 R4 R5 Hiq R6) as (x1 & f & E1 & _ & Hpt1 & _ & Hok1 & _ & Hres).
  exists x1, f. split_and!; [done|done|]. intros es y q' Hrun Hperm s1 Hq (Hph & Hwf & Hheld) s p' s' Hst Hid Em.
  pose proof (run_ok x1 (a, q ++ [i]) es y Hok1 Hperm Hrun) as Hok2. cbv zeta in Hok2. fold s1 in Hok2.
  rewrite Hq in Hok2.
  destruct (intr_run ltac:(lia) y _ q' i Hok2 Hph Hwf Hheld) as (y' & E2 & Hok3 & Hd3 & Hp3 & _ & Hbusy).
  assert (Hi : (i < length (bufs (k_fs s)))%nat) by (pose proof (io_num _ _ _ Hok2) as En; rewrite <- (proj1 Hst) in En; simpl in En; by rewrite En).
  destruct (memide_transfer s p' i s' Hid Hi Em) as [Hb Hdk].
  destruct (transfer_eq i _ _ Hst) as [Hb' Hdk']. exists y'. split_and!; [done| | |done|].
  - rewrite (io_bufs _ _ _ Hok3). rewrite <- Hb'. by rewrite <- Hb.
  - intros n. rewrite (quiet_sect _ _ _ Hok3 Hbusy), <- Hdk', <- Hdk. done.
  - intros z Hhz Hbz. apply Hres; [done|]. unfold done_flags in *. by rewrite Hbz.
Qed.
End Spec.

(** ** A disk *)

Inductive adisk_phase := P_idle | P_fill | P_busy (c : ata_cmd) | P_data (drive lba : Z).

(** The registers written last, and the sectors.  A command ends when the
    status has been read once. *)
Record adisk := Adisk { ad_phase : adisk_phase; ad_reg : Z -> Z; ad_sect : Z -> Z -> list Z }.

Definition ad_lba (r : Z -> Z) : Z :=
  r 0x1f3 + 256 * r 0x1f4 + 65536 * r 0x1f5 + 16777216 * (r 0x1f6 mod 16).
Definition ad_drive (r : Z -> Z) : Z := r 0x1f6 / 16 mod 2.

Definition ad_out (port v : Z) (d : adisk) : adisk :=
  let r := ad_reg d in
  if port =? 0x1f7 then
    Adisk (if v =? 0x20 then P_busy (Rd (ad_drive r) (ad_lba r)) else if v =? 0x30 then P_fill else ad_phase d) r (ad_sect d)
  else Adisk (ad_phase d) (fun p => if p =? port then v else r p) (ad_sect d).

Definition ad_outs (port : Z) (bytes : list Z) (d : adisk) : adisk :=
  match ad_phase d with
  | P_fill => Adisk (P_busy (Wr (ad_drive (ad_reg d)) (ad_lba (ad_reg d)) bytes)) (ad_reg d) (ad_sect d)
  | _ => d
  end.

Definition ad_ins (port n : Z) (d : adisk) : list Z * adisk :=
  match ad_phase d with
  | P_data drive lba => (ad_sect d drive lba, Adisk P_idle (ad_reg d) (ad_sect d))
  | _ => ([], d)
  end.

Definition ad_finish (d : adisk) : adisk :=
  match ad_phase d with
  | P_busy (Rd drive lba) => Adisk (P_data drive lba) (ad_reg d) (ad_sect d)
  | P_busy (Wr drive lba bytes) =>
      Adisk P_idle (ad_reg d) (fun dr l => if (dr =? drive) && (l =? lba) then bytes else ad_sect d dr l)
  | _ => d
  end.

#[export] Instance adisk_hw : Hw adisk := {|
  port_in := fun _ d => (match ad_phase d with P_busy _ => 0x80 | _ => 0x40 end, ad_finish d);
  port_out := ad_out; port_ins := ad_ins; port_outs := ad_outs;
  bus_in := fun _ d => (0, d); bus_out := fun _ _ _ d => d |}.

Lemma ad_select drive lba d : 0 <= drive <= 1 -> 0 <= lba < 268435456 ->
  let d' := select drive lba d in
  ad_phase d' = ad_phase d /\ ad_sect d' = ad_sect d /\ ad_drive (ad_reg d') = drive /\ ad_lba (ad_reg d') = lba.
Proof.
  intros Hd Hl d'. split_and!; [done|done| |]; unfold d', ad_drive, ad_lba; cbn; [zlia|].
  zlia.
Qed.

#[export, refine] Instance adisk_ata : AtaDisk adisk := {|
  sect := ad_sect;
  ata_phase d := match ad_phase d with P_idle | P_fill => A_idle | P_busy c => A_busy c | P_data dr l => A_data dr l end;
  finish := ad_finish |}.
Proof.
  - intros d Hd. exists 0x40. simpl. unfold ad_finish. destruct (ad_phase d); try (by split_and!). by destruct (Hd c).
  - done.
  - intros d drive lba Hd Hdr Hl. destruct (ad_select drive lba d Hdr Hl) as (E1 & E2 & E3 & E4).
    generalize dependent (select drive lba d). intros d0 E1 E2 E3 E4. simpl. by rewrite E2, E3, E4.
  - intros d drive lba bytes Hd Hdr Hl Hlen. destruct (ad_select drive lba d Hdr Hl) as (E1 & E2 & E3 & E4).
    generalize dependent (select drive lba d). intros d0 E1 E2 E3 E4. cbn. by rewrite E2, E3, E4.
  - intros d drive lba Hd. unfold ad_finish. destruct (ad_phase d); try done. by injection Hd as ->.
  - intros d drive lba bytes Hd. unfold ad_finish. destruct (ad_phase d); try done. by injection Hd as ->.
  - intros d drive lba Hd. simpl. unfold ad_ins. destruct (ad_phase d); try done. injection Hd as -> ->. by eexists.
Defined.

(** Buffer 0 is to be written to block 100, buffer 1 to be read from it. *)
Definition demo_ide_k : kst :=
  upd_k_fs (upd_bufs (fun l => <[0%nat := Buf 4 1 100 (Sleeplock true 3) 1 demo_data]>
    (<[1%nat := Buf 0 1 100 (Sleeplock true 3) 1 (replicate 512 0)]> l))) demo_run.

Definition demo_ide : idest adisk :=
  Idest (Adisk P_idle (fun _ => 0) (fun _ _ => replicate 512 0)) None ∅ true demo_ide_k.

Lemma demo_ide_idle : idle demo_ide_k 0.
Proof. destruct demo_run_idle. by split. Qed.

Lemma demo_ide_ok : ide_ok demo_ide (store_of demo_ide_k) [].
Proof. split; (done || apply NoDup_nil_2 || (split; [done|intros n; reflexivity])). Qed.

(** Whatever the driver is doing, with these buffers. *)
Lemma demo_may_rw (x : idest adisk) i : (i < 2)%nat -> ik x = demo_ide_k -> may_rw x 0 i.
Proof.
  intros Hi E. assert (i = 0%nat \/ i = 1%nat) as [-> | ->] by lia; split; rewrite ?E; try done; try exact demo_ide_idle;
    try (vm_compute; lia); split; try done; by vm_compute.
Qed.

Lemma demo_may_intr (x : idest adisk) : ik x = demo_ide_k -> may_intr (upd_ata finish x).
Proof.
  intros E. split_and!; [|simpl; rewrite E; apply demo_ide_idle|simpl; by rewrite E].
  intros c. simpl. unfold ad_finish. destruct (ad_phase (ata x)) as [| |[]|] eqn:Ep; simpl; by rewrite ?Ep.
Qed.

Notation two := (2%nat : Waits).
Definition demo_bs : list buf := bufs (k_fs demo_ide_k).
Definition demo_evs : list ide_ev := [E_rw 0; E_kernel demo_bs; E_rw 1; E_kernel demo_bs; E_finish; E_intr].

Lemma demo_rw (x : idest adisk) q i :
  ide_ok x (store_of demo_ide_k) q -> ik x = demo_ide_k -> i ∉ q -> (i < 2)%nat ->
  exists y, ide_step (H1 := two) x (E_rw i) y /\ started q x y /\
    ide_ok (upd_ik (fun _ => demo_ide_k) y) (store_of demo_ide_k) (q ++ [i]).
Proof.
  intros Hok Hk Hiq Hi. destruct (demo_may_rw x i Hi Hk) as [R1 R2 R3 R4 R5 R6].
  destruct (iderw_run (H1 := two) ltac:(unfold waits; lia) x _ q i 0 (le_n 2) Hok R1 R2 R3 R4 R5 Hiq R6)
    as (y & g & E' & _ & _ & _ & Hok' & Hb & _).
  exists y. split_and!; [by apply (Step_rw x 0 i y g)|done|]. apply ide_ok_ik; [done|]. symmetry. exact (io_bufs _ _ _ Hok').
Qed.

(** Both requests are made before the disk ends the first. *)
Lemma demo_ide_run : exists x', ide_run (H1 := two) demo_ide demo_evs x'.
Proof.
  destruct (demo_rw demo_ide [] 0 demo_ide_ok eq_refl ltac:(set_solver) ltac:(lia)) as (y1 & S1 & [c Hc] & Hok1).
  destruct (demo_rw _ [0%nat] 1 Hok1 eq_refl ltac:(set_solver) ltac:(lia)) as (y2 & S2 & Hst & Hok2).
  set (y3 := upd_ik (fun _ => demo_ide_k) y2) in *.
  destruct (disk_finish_ok y3 _ _ c Hok2) as [Hok3 _].
  { simpl. simpl in Hst. rewrite Hst. exact Hc. }
  destruct (intr_ok (H1 := two) (le_n 2) _ _ _ Hok3 (demo_may_intr y3 eq_refl)) as (y4 & E4 & _).
  exists y4. eapply Run_cons; [exact S1|]. eapply Run_cons; [apply (Step_kernel y1 demo_ide_k)|].
  eapply Run_cons; [exact S2|]. eapply Run_cons; [apply (Step_kernel y2 demo_ide_k)|].
  eapply Run_cons; [apply (Step_finish y3 c); simpl; simpl in Hst; rewrite Hst; exact Hc|].
  eapply Run_cons; [apply Step_intr; [by apply demo_may_intr|exact E4]|]. apply Run_nil.
Qed.

Lemma ide_refines_witness :
  exists x', ide_run (H1 := two) demo_ide demo_evs x' /\
    ide_ok x' (transfer 0 (store_of demo_ide_k)) [1%nat] /\ sect (ata x') 1 100 = demo_data.
Proof.
  destruct demo_ide_run as [x' Hrun]. exists x'.
  assert (Hok : ide_ok x' (transfer 0 (store_of demo_ide_k)) [1%nat]).
  { apply (ide_refines (H1 := two) (le_n 2) demo_ide (store_of demo_ide_k, []) demo_evs x' demo_ide_ok); [|done].
    split; [apply not_elem_of_nil|]. split; [split; [done|by repeat constructor]|]. split; [set_solver|].
    split; [split; [done|by repeat constructor]|]. done. }
  split_and!; [done|done|]. destruct (io_disk _ _ _ Hok) as [[_ Hs]|[_ Hs]]; rewrite Hs; done.
Defined.

(** The kernel while the disk reads into buffer 1: another process waits for
    the buffer, a third has filled buffer 2. *)
Definition demo_later : kst :=
  upd_buf 2 (upd_bdata (fun _ => demo_data)) (upd_buf 1 (upd_refcnt (fun n => n + 1)) demo_ide_k).

Lemma demo_later_idle : idle demo_later 0.
Proof. destruct demo_ide_idle. by split. Qed.

Lemma demo_memide : exists s', Bio.iderw 1 demo_later = Ok tt s'.
Proof. eexists. apply (iderw_read demo_later 0 demo_later_idle); (reflexivity || (simpl; lia)). Qed.

Lemma demo_later_run (x : idest adisk) c : ata_phase (ata x) = A_busy c ->
  ide_run (H1 := two) x [E_kernel (bufs (k_fs demo_later)); E_finish] (upd_ata finish (upd_ik (fun _ => demo_later) x)) /\
  may_intr (upd_ata finish (upd_ik (fun _ => demo_later) x)).
Proof.
  intros Hc. split.
  - eapply Run_cons; [apply Step_kernel|]. eapply Run_cons; [by apply (Step_finish _ c)|]. apply Run_nil.
  - split_and!; [|apply demo_later_idle|done]. intros c'. simpl in *. unfold ad_finish.
    destruct (ad_phase (ata x)) as [| |[]|] eqn:Ep; simpl; by rewrite ?Ep.
Qed.

Lemma ide_equals_memide_witness :
  exists s' x1 f, Bio.iderw 1 demo_later = Ok tt s' /\ Ide.iderw (H0 := two) 1 demo_ide = Sched x1 f /\
    exists y', Ide.ideintr (H0 := two) (upd_ata finish (upd_ik (fun _ => demo_later) x1)) = Ok tt y' /\
      bufs (k_fs (ik y')) = bufs (k_fs s').
Proof.
  destruct demo_memide as [s' Em].
  destruct (demo_rw demo_ide [] 1 demo_ide_ok eq_refl ltac:(set_solver) ltac:(lia)) as (x0 & S1 & [c Hc] & _).
  destruct (ide_equals_memide (H1 := two) (le_n 2) demo_ide (store_of demo_ide_k) [] 0 1 demo_ide_ok) as (x1 & f & E1 & _ & Hk).
  - by apply demo_may_rw; [lia|].
  - set_solver.
  - assert (x0 = x1) as -> by (by inversion S1; congruence). destruct (demo_later_run x1 c Hc) as [Hrun Hmay].
    exists s', x1, f. split; [exact Em|]. split; [exact E1|].
    destruct (Hk _ _ [] Hrun) with (s := demo_later) (p' := 0%nat) (s' := s') as (y' & E2 & Hb & _).
    + split; [|by repeat split]. split; [done|]. by repeat constructor.
    + done.
    + exact Hmay.
    + done.
    + exact demo_later_idle.
    + exact Em.
    + by exists y'.
Defined.

Lemma ide_serves_all_witness :
  exists y x', ide_step (H1 := two) demo_ide (E_rw 0) y /\
    serves (H1 := two) 1 (upd_ik (fun _ => demo_ide_k) y) = Ok tt x' /\ sect (ata x') 1 100 = demo_data.
Proof.
  destruct (demo_rw demo_ide [] 0 demo_ide_ok eq_refl ltac:(set_solver) ltac:(lia)) as (y & S1 & Hst & Hok).
  destruct (ide_serves_all (H1 := two) (le_n 2) _ _ _ Hok) as (x' & E & Hok' & _).
  - by intros _.
  - apply demo_ide_idle.
  - done.
  - exists y, x'. split_and!; [exact S1|exact E|]. destruct (io_disk _ _ _ Hok') as [_ ->]. done.
Defined.
