(* ===== verification/Screen.v ===== *)
(** * console.c and uart.c: output to the screen and the serial port

    The state is the devices, the cells of the CGA memory, the variables
    [uart], [cons.locking] and [panicked], and the CPU.  A program that runs
    into [for(;;);] never returns ([NoFuel]).  [panic] inside [cgaputc] ends
    the run as everywhere in the kernel; what [panic] prints is [panic_report]. *)

From S2P Require Import Prelude Machine Digits Hw StringC Spinlock Kalloc Vm Kernel Sleep Bio Log Inode Console Trap Apic.

Record scr (D : Type) := Scr {
  sdev : D; crt : Z -> Z; uart : bool; locking : bool; panicked : bool; scpu : cpu }.

Arguments Scr {D}.
Arguments sdev {D}.
Arguments crt {D}.
Arguments uart {D}.
Arguments locking {D}.
Arguments panicked {D}.
Arguments scpu {D}.

Module Screen.
Section Screen.
Context {D : Type} `{Hw D}.
Notation st := (scr D).

Definition upd_sdev (f : D -> D) (s : st) : st := Scr (f (sdev s)) (crt s) (uart s) (locking s) (panicked s) (scpu s).
Definition upd_crt (f : (Z -> Z) -> Z -> Z) (s : st) : st :=
  Scr (sdev s) (f (crt s)) (uart s) (locking s) (panicked s) (scpu s).
Definition upd_uart (b : bool) (s : st) : st := Scr (sdev s) (crt s) b (locking s) (panicked s) (scpu s).
Definition upd_locking (b : bool) (s : st) : st := Scr (sdev s) (crt s) (uart s) b (panicked s) (scpu s).
Definition upd_panicked (b : bool) (s : st) : st := Scr (sdev s) (crt s) (uart s) (locking s) b (scpu s).

#[export] Instance scr_HasDev : HasDev st D := {| get_dev := sdev; set_dev := fun d => upd_sdev (fun _ => d) |}.

#[export] Instance scr_HasCpu : HasCpu st.
Proof.
  refine {| get_cpu := scpu; set_cpu := fun c s => Scr (sdev s) (crt s) (uart s) (locking s) (panicked s) c |};
    [done|done|by intros []].
Defined.

Definition cli : M st unit :=
  modify (fun s => let c := get_cpu s in
    set_cpu {| c_if := false; ncli := ncli c; intena := intena c; held := held c; c_cr3 := c_cr3 c; c_esp0 := c_esp0 c |} s).

(** ** uart.c *)

Definition COM1 : Z := 0x3f8.

(** The polls of the line status, at most [n]. *)
Fixpoint uart_poll (n : nat) : M st unit :=
  match n with
  | O => ret tt
  | S n' =>
      v <- inb (COM1 + 5) ;;
      if bit_set v 0x20 then ret tt else uart_poll n'
  end.

Definition uartputc (c : Z) : M st unit :=
  u <- gets uart ;;
  if negb u then ret tt else uart_poll 128 ;; outb (COM1 + 0) c.

Definition uartinit : M st unit :=
  outb (COM1 + 2) 0 ;;
  outb (COM1 + 3) 0x80 ;;
  outb (COM1 + 0) (115200 / 9600) ;;
  outb (COM1 + 1) 0 ;;
  outb (COM1 + 3) 0x03 ;;
  outb (COM1 + 4) 0 ;;
  outb (COM1 + 1) 0x01 ;;
  v <- inb (COM1 + 5) ;;
  if v =? 0xFF then ret tt
  else
    modify (upd_uart true) ;;
    inb (COM1 + 2) ;;
    inb (COM1 + 0) ;;
    ioapicenable IRQ_COM1 0 ;;
    for_all (chars "xv6..." ++ [ch_nl]) uartputc.

Definition uartgetc : M st Z :=
  u <- gets uart ;;
  if negb u then ret (-1)
  else
    v <- inb (COM1 + 5) ;;
    if negb (bit_set v 0x01) then ret (-1) else inb (COM1 + 0).

(** What the handler gives to [consoleintr]. *)
Definition uartintr (fuel : nat) : M st (list Z) := getc_all uartgetc fuel.

(** ** The screen *)

Definition CRTPORT : Z := 0x3d4.

Definition set_cell (i v : Z) (m : Z -> Z) : Z -> Z := fun k => if k =? i then v else m k.

(** [memmove(crt, crt+80, ...)] and [memset(crt+pos, 0, ...)]. *)
Definition cells_up (m : Z -> Z) : Z -> Z := fun k => if (0 <=? k) && (k <? 23 * 80) then m (k + 80) else m k.
Definition cells_clear (pos : Z) (m : Z -> Z) : Z -> Z := fun k => if (pos <=? k) && (k <? 24 * 80) then 0 else m k.

Definition cgaputc (c : Z) : M st unit :=
  outb CRTPORT 14 ;;
  hi <- inb (CRTPORT + 1) ;;
  outb CRTPORT 15 ;;
  lo <- inb (CRTPORT + 1) ;;
  let pos := Z.lor (Z.shiftl hi 8) lo in
  pos <- (if c =? ch_nl then ret (pos + (80 - pos mod 80))
          else if c =? BACKSPACE then ret (if 0 <? pos then pos - 1 else pos)
          else modify (upd_crt (set_cell pos (Z.lor (Z.land c 0xff) 0x0700))) ;; ret (pos + 1)) ;;
  if (pos <? 0) || (25 * 80 <? pos) then Prelude.panic "pos under/overflow"
  else
    pos <- (if 24 <=? pos / 80 then
              modify (upd_crt cells_up) ;;
              modify (upd_crt (cells_clear (pos - 80))) ;;
              ret (pos - 80)
            else ret pos) ;;
    outb CRTPORT 14 ;;
    outb (CRTPORT + 1) (Z.shiftr pos 8) ;;
    outb CRTPORT 15 ;;
    outb (CRTPORT + 1) pos ;;
    modify (upd_crt (set_cell pos (Z.lor 32 0x0700))).

Definition consputc (c : Z) : M st unit :=
  p <- gets panicked ;;
  if p : bool then cli ;; fun _ => NoFuel
  else
    (if c =? BACKSPACE then uartputc 8 ;; uartputc 32 ;; uartputc 8
     else uartputc c) ;;
    cgaputc c.

(** ** Formatted output *)

Definition digits : list Z := chars "0123456789abcdef".

Definition printint (xx base : Z) (sgn : bool) : M st unit :=
  match int_chars digits (s32 xx) base sgn with
  | None => undef "printint: buf overrun"
  | Some cs => for_all cs consputc
  end.

(** The loop over the format; a missing argument is what lies on the stack. *)
Fixpoint cprintf_loop (fmt : list Z) (ap : list arg) : M st unit :=
  match fmt with
  | [] => ret tt
  | f :: fmt1 =>
      let c := Z.land f 0xff in
      if c =? 0 then ret tt
      else if negb (c =? pct) then consputc c ;; cprintf_loop fmt1 ap
      else
        match fmt1 with
        | [] => ret tt
        | f :: fmt' =>
            let c := Z.land f 0xff in
            if c =? 0 then ret tt
            else if c =? 100 then
              match ap with
              | a :: ap' =>
                  match arg_word a with
                  | Some z => printint z 10 true ;; cprintf_loop fmt' ap'
                  | None => undef "cprintf: %d of a pointer"
                  end
              | [] => undef "cprintf: no argument"
              end
            else if (c =? 120) || (c =? 112) then
              match ap with
              | a :: ap' =>
                  match arg_word a with
                  | Some z => printint z 16 false ;; cprintf_loop fmt' ap'
                  | None => undef "cprintf: %x of a pointer"
                  end
              | [] => undef "cprintf: no argument"
              end
            else if c =? 115 then
              match ap with
              | a :: ap' =>
                  match arg_str a with
                  | Some s => for_all s consputc ;; cprintf_loop fmt' ap'
                  | None => undef "cprintf: %s of a number"
                  end
              | [] => undef "cprintf: no argument"
              end
            else if c =? pct then consputc pct ;; cprintf_loop fmt' ap
            else consputc pct ;; consputc c ;; cprintf_loop fmt' ap
        end
  end.

(** [None] is the null pointer. *)
Definition cprintf (fmt : option (list Z)) (ap : list arg) : M st unit :=
  lk <- gets locking ;;
  (if lk : bool then acquire L_cons else ret tt) ;;
  match fmt with
  | None => Prelude.panic "null fmt"
  | Some fmt =>
      cprintf_loop fmt ap ;;
      if lk : bool then release L_cons else ret tt
  end.

(** spinlock.c: the return addresses along the chain of frames; [rd] reads a
    word of memory. *)
Fixpoint callerpcs (rd : Z -> Z) (n : nat) (ebp : Z) : list Z :=
  match n with
  | O => []
  | S n' =>
      if (ebp =? 0) || (ebp <? KERNBASE) || (ebp =? 0xffffffff) then replicate n 0
      else rd (ebp + 4) :: callerpcs rd n' (rd ebp)
  end.

Definition getcallerpcs (rd : Z -> Z) (v : Z) : list Z := callerpcs rd 10 (u32 (v - 8)).

(** [panic] up to its endless loop; [v] is the address of its argument. *)
Definition panic_report (lapic : Z) (s : list Z) (rd : Z -> Z) (v : Z) : M st unit :=
  cli ;;
  modify (upd_locking false) ;;
  id <- lapicid lapic ;;
  cprintf (Some (chars "lapicid %d: panic: ")) [A_num id] ;;
  cprintf (Some s) [] ;;
  cprintf (Some [ch_nl]) [] ;;
  for_all (getcallerpcs rd v) (fun pc => cprintf (Some (chars " %p")) [A_num pc]) ;;
  modify (upd_panicked true).

Definition panic (lapic : Z) (s : list Z) (rd : Z -> Z) (v : Z) : M st unit :=
  panic_report lapic s rd v ;; fun _ => NoFuel.

(** proc.c: the listing of ^P. *)
Definition state_name (x : procstate) : list Z :=
  chars match x with
        | UNUSED => "unused" | EMBRYO => "embryo" | SLEEPING => "sleep "
        | RUNNABLE => "runble" | RUNNING => "run   " | ZOMBIE => "zombie"
        end.

(** The loop ends at the first 0. *)
Fixpoint until_zero (l : list Z) : list Z :=
  match l with
  | [] => []
  | x :: l' => if x =? 0 then [] else x :: until_zero l'
  end.

(** [ebp i] is the saved [%ebp] in the context of process [i]. *)
Definition procdump (ps : list proc) (rd ebp : Z -> Z) : M st unit :=
  for_all (zip (seqZ 0 (Z.of_nat (length ps))) ps) (fun e =>
    let p := e.2 in
    if bool_decide (state p = UNUSED) then ret tt
    else
      cprintf (Some (chars "%d %s %s")) [A_num (pid p); A_str (state_name (state p)); A_str (pname p)] ;;
      (when bool_decide (state p = SLEEPING) do
         for_all (until_zero (getcallerpcs rd (ebp e.1 + 8))) (fun pc => cprintf (Some (chars " %p")) [A_num pc])) ;;
      cprintf (Some [ch_nl]) []).
End Screen.
End Screen.
