(* ===== verification/ScreenProps.v ===== *)
(** * Output on the screen

    A text on the terminal: lines of at most 80 characters, the last of them
    unfinished; the screen shows the last 24.  The driver's cells and cursor
    are that picture of the text written so far, and the serial line has
    received the text. *)

From S2P Require Import Prelude Machine Digits Hw StringC Spinlock Kalloc Vm Kernel Sleep Bio Log Inode Console Trap Apic User UserProps Screen.
Import Screen.

(** ** The devices *)

(** The cursor registers of the CRT controller (an index register and a data
    register), and a serial port that becomes ready to send in time. *)
Class Term (D : Type) `{Hw D} := {
  sel : D -> Z;
  creg : D -> Z -> Z;
  sent : D -> list Z;
  term_sel : forall d v, 0 <= v < 256 -> let d' := port_out 0x3d4 v d in
    sel d' = v /\ (forall k, creg d' k = creg d k) /\ sent d' = sent d;
  term_rd : forall d, port_in 0x3d5 d = (creg d (sel d), d);
  term_wr : forall d v, 0 <= v < 256 -> let d' := port_out 0x3d5 v d in
    sel d' = sel d /\ (forall k, creg d' k = if k =? sel d then v else creg d k) /\ sent d' = sent d;
  term_poll : forall d, let r := port_in 0x3fd d in
    0 <= r.1 < 256 /\ (forall k, creg r.2 k = creg d k) /\ sent r.2 = sent d;
  term_ready : forall d, exists n, (n < 128)%nat /\
    bit_set (port_in 0x3fd (Nat.iter n (fun d => (port_in 0x3fd d).2) d)).1 0x20 = true;
  term_bus : forall a d, (bus_in a d).2 = d;
  term_send : forall d v, 0 <= v < 256 -> bit_set (port_in 0x3fd d).1 0x20 = true ->
    let d' := port_out 0x3f8 v (port_in 0x3fd d).2 in
    sent d' = sent d ++ [v] /\ forall k, creg d' k = creg d k }.

(** ** The text on a terminal *)

Definition COLS : nat := 80.

(** The unfinished line, and the finished ones, the last one first. *)
Definition text : Type := list Z * list (list Z).

Definition put (t : text) (c : Z) : text :=
  if c =? ch_nl then ([], t.1 :: t.2)
  else if (length t.1 =? COLS - 1)%nat then ([], (t.1 ++ [c]) :: t.2)
  else (t.1 ++ [c], t.2).

(** The row of the screen with the unfinished line. *)
Definition last_row (t : text) : nat := (length t.2 `min` 23)%nat.

Definition cursor (t : text) : Z := 80 * Z.of_nat (last_row t) + Z.of_nat (length t.1).

(** The character in row [r] and column [j]: a space right of a line and
    below the last one. *)
Definition char_at (t : text) (r j : nat) : Z :=
  if (r <=? last_row t)%nat then
    match (t.1 :: t.2) !! (last_row t - r)%nat with
    | Some line => default 32 (line !! j)
    | None => 32
    end
  else 32.

(** A cell shows a character; a cleared cell looks like a space. *)
Definition shows (v c : Z) : Prop := v = Z.lor c 0x0700 \/ c = 32 /\ v = 0.

Definition on_screen (t : text) (m : Z -> Z) : Prop :=
  forall r j, (r < 24)%nat -> (j < COLS)%nat -> shows (m (80 * Z.of_nat r + Z.of_nat j)) (char_at t r j).

Record text_ok (t : text) : Prop := {
  to_cur : (length t.1 < COLS)%nat;
  to_above : Forall (fun l => (length l <= COLS)%nat) t.2 }.

(** ** What [cgaputc] computes *)

Definition cga_pos (c pos : Z) : Z :=
  let pos := if c =? ch_nl then pos + (80 - pos mod 80)
    else if c =? BACKSPACE then (if 0 <? pos then pos - 1 else pos) else pos + 1 in
  if 24 <=? pos / 80 then pos - 80 else pos.

Definition cga_cells (c pos : Z) (m : Z -> Z) : Z -> Z :=
  let m1 := if (c =? ch_nl) || (c =? BACKSPACE) then m else set_cell pos (Z.lor (Z.land c 0xff) 0x0700) m in
  let pos1 := if c =? ch_nl then pos + (80 - pos mod 80)
    else if c =? BACKSPACE then (if 0 <? pos then pos - 1 else pos) else pos + 1 in
  let m2 := if 24 <=? pos1 / 80 then cells_clear (pos1 - 80) (cells_up m1) else m1 in
  set_cell (cga_pos c pos) 0x0720 m2.

(** ** The picture of the text *)

Lemma shows_space : shows 0x0720 32.
Proof. by left. Qed.

Lemma cell_split r j r' j' : (j < 80)%nat -> (j' < 80)%nat ->
  80 * Z.of_nat r + Z.of_nat j = 80 * Z.of_nat r' + Z.of_nat j' -> r = r' /\ j = j'.
Proof. lia. Qed.

(** A character at the cursor. *)
Lemma write_char cur above c m : (length cur < 80)%nat -> on_screen (cur, above) m ->
  on_screen (cur ++ [c], above) (set_cell (cursor (cur, above)) (Z.lor c 0x0700) m).
Proof.
  intros Hl Hs r j Hr Hj. specialize (Hs r j Hr Hj). unfold set_cell, cursor, char_at, last_row, COLS in *. cbn [fst snd] in *.
  set (L := (length above `min` 23)%nat). fold L in Hs. destruct (Nat.leb_spec r L) as [HrL|HrL].
  - destruct (decide (r = L)) as [->|HrL'].
    + rewrite Nat.sub_diag in *. simpl in *. destruct (Z.eqb_spec (80 * Z.of_nat L + Z.of_nat j) (80 * Z.of_nat L + Z.of_nat (length cur))).
      * assert (j = length cur) as -> by lia. rewrite lookup_app_r, Nat.sub_diag by lia. by left.
      * destruct (decide (j < length cur)%nat).
        -- by rewrite lookup_app_l.
        -- rewrite (lookup_ge_None_2 (cur ++ [c])) by (rewrite length_app; simpl; lia). by rewrite lookup_ge_None_2 in Hs by lia.
    + destruct (L - r)%nat as [|k] eqn:Ek; [lia|]. simpl in *. destruct (Z.eqb_spec (80 * Z.of_nat r + Z.of_nat j) (80 * Z.of_nat L + Z.of_nat (length cur))); [lia|done].
  - destruct (Z.eqb_spec (80 * Z.of_nat r + Z.of_nat j) (80 * Z.of_nat L + Z.of_nat (length cur))); [lia|done].
Qed.

(** A new line above the bottom of the screen, and at the bottom. *)
Lemma new_line cur above m : (length above < 23)%nat -> on_screen (cur, above) m -> on_screen ([], cur :: above) m.
Proof.
  intros Hl Hs r j Hr Hj. specialize (Hs r j Hr Hj). unfold char_at, last_row in *. cbn [fst snd length] in *.
  rewrite Nat.min_l in * by lia. destruct (Nat.leb_spec r (S (length above))) as [Hr1|Hr1].
  - destruct (decide (r = S (length above))) as [->|].
    + rewrite Nat.sub_diag. simpl. by rewrite (proj2 (Nat.leb_gt _ _)) in Hs by lia.
    + rewrite (proj2 (Nat.leb_le _ _)) in Hs by lia. by replace (S (length above) - r)%nat with (S (length above - r)) by lia.
  - by rewrite (proj2 (Nat.leb_gt _ _)) in Hs by lia.
Qed.

Lemma scroll_line cur above m : (23 <= length above)%nat -> on_screen (cur, above) m ->
  on_screen ([], cur :: above) (cells_clear 1840 (cells_up m)).
Proof.
  intros Hl Hs r j Hr Hj. unfold char_at, last_row, COLS in *. cbn [fst snd length]. rewrite Nat.min_r by lia.
  rewrite (proj2 (Nat.leb_le _ _)) by lia. unfold cells_clear, cells_up. destruct (decide (r = 23%nat)) as [->|Hr23].
  - rewrite (proj2 (Z.leb_le _ _)), (proj2 (Z.ltb_lt _ _)) by lia. by right.
  - rewrite (proj2 (Z.leb_gt _ _)) by lia. cbn [andb]. rewrite (proj2 (Z.leb_le _ _)), (proj2 (Z.ltb_lt _ _)) by lia. cbn [andb].
    specialize (Hs (S r) j ltac:(lia) Hj). unfold char_at, last_row in Hs. cbn [fst snd] in Hs. rewrite Nat.min_r in Hs by lia.
    rewrite (proj2 (Nat.leb_le _ _)) in Hs by lia.
    replace (23 - r)%nat with (S (23 - S r)) by lia.
    by replace (80 * Z.of_nat r + Z.of_nat j + 80) with (80 * Z.of_nat (S r) + Z.of_nat j) by lia.
Qed.

(** The cursor's own cell is blank. *)
Lemma blank_cursor t m : text_ok t -> on_screen t m -> on_screen t (set_cell (cursor t) 0x0720 m).
Proof.
  intros [Hc _] Hs r j Hr Hj. unfold set_cell. destruct (Z.eqb_spec (80 * Z.of_nat r + Z.of_nat j) (cursor t)) as [E|]; [|by apply Hs].
  unfold cursor, COLS in *. apply cell_split in E as [-> ->]; [|done|done]. unfold char_at. rewrite Nat.leb_refl, Nat.sub_diag. simpl.
  rewrite lookup_ge_None_2 by lia. apply shows_space.
Qed.

Lemma cursor_range t : text_ok t -> 0 <= cursor t < 1920.
Proof. intros [Hc _]. unfold cursor, last_row, COLS in *. lia. Qed.

Lemma text_put_ok t c : text_ok t -> text_ok (put t c).
Proof.
  intros [Hc Ha]. unfold put, COLS in *. destruct (c =? ch_nl).
  - split; simpl; [unfold COLS; lia|]. constructor; [unfold COLS; lia|done].
  - destruct (Nat.eqb_spec (length t.1) (80 - 1)); split; simpl; rewrite ?length_app; unfold COLS; simpl; try lia; try done.
    constructor; [rewrite length_app; simpl; lia|done].
Qed.

(** The end of a line: a line feed, or the last column. *)
Lemma line_end cur above m pos1 : on_screen (cur, above) m -> pos1 = 80 * (Z.of_nat (last_row (cur, above)) + 1) ->
  let pos2 := if 24 <=? pos1 / 80 then pos1 - 80 else pos1 in
  let m2 := if 24 <=? pos1 / 80 then cells_clear (pos1 - 80) (cells_up m) else m in
  pos2 = cursor ([], cur :: above) /\ on_screen ([], cur :: above) m2.
Proof.
  intros Hs ->. unfold last_row. cbn [fst snd]. rewrite Z.mul_comm, Z.div_mul by lia.
  unfold cursor, last_row. cbn [fst snd length]. destruct (Z.leb_spec 24 (Z.of_nat (length above `min` 23)%nat + 1)).
  - split; [lia|]. replace ((Z.of_nat (length above `min` 23)%nat + 1) * 80 - 80) with 1840 by lia. apply scroll_line; [lia|done].
  - split; [lia|]. apply new_line; [lia|done].
Qed.

Lemma cga_text t c m : text_ok t -> on_screen t m -> 0 <= c < 256 ->
  cga_pos c (cursor t) = cursor (put t c) /\ on_screen (put t c) (cga_cells c (cursor t) m).
Proof.
  intros Hok Hs Hc. pose proof (text_put_ok t c Hok) as Hok'. destruct t as [cur above]. pose proof (to_cur _ Hok) as Hcur.
  unfold COLS in Hcur. cbn [fst] in Hcur. set (pos := cursor (cur, above)).
  assert (Hpos : pos = 80 * Z.of_nat (last_row (cur, above)) + Z.of_nat (length cur)) by done.
  assert (HL : (last_row (cur, above) <= 23)%nat) by (unfold last_row; lia).
  assert (Hnb : (c =? BACKSPACE) = false) by (apply Z.eqb_neq; unfold BACKSPACE; lia).
  assert (Hcell : forall t' m2, text_ok t' -> cga_pos c pos = cursor t' -> on_screen t' m2 ->
    cga_pos c pos = cursor t' /\ on_screen t' (set_cell (cga_pos c pos) 0x0720 m2)).
  { intros t' m2 Ht' E Hm2. split; [done|]. rewrite E. by apply blank_cursor. }
  unfold cga_cells, put in *. cbn [fst snd] in *. rewrite Hnb in *. unfold ch_nl in *. destruct (Z.eqb_spec c 10) as [->|Hn].
  - cbn [orb]. destruct (line_end cur above m (pos + (80 - pos mod 80)) Hs) as [Ep Em]; [zlia|].
    apply Hcell; [done| |exact Em]. rewrite <- Ep. unfold cga_pos. done.
  - cbn [orb]. assert (E255 : Z.land c 0xff = c) by (change 0xff with (Z.ones 8); rewrite Z.land_ones by lia; by apply u8_small).
    rewrite E255. pose proof (write_char cur above c m Hcur Hs) as Hw. fold pos in Hw. unfold COLS in *.
    assert (Ecp : cga_pos c pos = if 24 <=? (pos + 1) / 80 then pos + 1 - 80 else pos + 1).
    { unfold cga_pos, ch_nl. rewrite (proj2 (Z.eqb_neq c 10)) by done. by rewrite Hnb. }
    destruct (Nat.eqb_spec (length cur) (80 - 1)) as [E|E].
    + destruct (line_end (cur ++ [c]) above _ (pos + 1) Hw) as [Ep Em]; [unfold last_row in *; cbn [snd] in *; lia|].
      apply Hcell; [done|by rewrite Ecp|exact Em].
    + assert (Hlt : 24 <=? (pos + 1) / 80 = false) by (apply Z.leb_gt; zlia).
      rewrite Hlt in *. apply Hcell; [done| |exact Hw]. rewrite Ecp. unfold cursor, last_row in *. cbn [fst snd] in *.
      rewrite length_app. simpl. lia.
Qed.

Section Screen.
Context {D : Type} `{Term D}.
Notation st := (scr D).

Record at_cursor (d : D) (pos : Z) : Prop := {
  ac_hi : creg d 14 = pos / 256;
  ac_lo : creg d 15 = pos mod 256 }.

Lemma cga_pos_range c pos : 0 <= pos < 1920 -> 0 <= cga_pos c pos < 1920.
Proof. intros Hp. unfold cga_pos. zcases; zlia. Qed.

Lemma outb_scr (s : st) p v : outb p v s = Ok tt (upd_sdev (port_out p (u8 v)) s).
Proof. done. Qed.

Lemma inb_scr (s : st) p :
  inb p s = Ok (u8 (port_in p (sdev s)).1) (upd_sdev (fun _ => (port_in p (sdev s)).2) s).
Proof. done. Qed.

Notation dev_at d s := (upd_sdev (fun _ => d) s).

(** Reading the cursor. *)
Lemma read_cursor (s : st) pos : at_cursor (sdev s) pos -> 0 <= pos < 65536 ->
  exists d1 d2, outb CRTPORT 14 s = Ok tt (dev_at d1 s) /\ inb (CRTPORT + 1) (dev_at d1 s) = Ok (pos / 256) (dev_at d1 s) /\
    outb CRTPORT 15 (dev_at d1 s) = Ok tt (dev_at d2 s) /\ inb (CRTPORT + 1) (dev_at d2 s) = Ok (pos mod 256) (dev_at d2 s) /\
    at_cursor d2 pos /\ sent d2 = sent (sdev s).
Proof.
  intros [Hh Hl] Hp. destruct (term_sel (sdev s) 14 ltac:(lia)) as (S1 & R1 & T1).
  set (d1 := port_out 0x3d4 14 (sdev s)) in *. destruct (term_sel d1 15 ltac:(lia)) as (S2 & R2 & T2).
  set (d2 := port_out 0x3d4 15 d1) in *. exists d1, d2. rewrite !inb_scr. change (CRTPORT + 1) with 0x3d5.
  cbn [sdev upd_sdev]. rewrite !term_rd, S1, S2, R2, !R1, Hh, Hl. cbn [fst snd]. rewrite !u8_small by zlia.
  split_and!; try done; [|by rewrite T2]. split; by rewrite R2, R1.
Qed.

Lemma cursor_word pos : Z.lor (Z.shiftl (pos / 256) 8) (pos mod 256) = pos.
Proof. rewrite Z.shiftl_mul_pow2 by lia. rewrite lor_low by zlia. change (2 ^ 8) with 256. zlia. Qed.

Lemma write_cursor (s : st) pos : 0 <= pos < 65536 ->
  exists d, at_cursor d pos /\ sent d = sent (sdev s) /\ forall (m : M st unit),
  (outb CRTPORT 14 ;; outb (CRTPORT + 1) (Z.shiftr pos 8) ;; outb CRTPORT 15 ;; outb (CRTPORT + 1) pos ;; m) s =
    m (upd_sdev (fun _ => d) s).
Proof.
  intros Hp. set (d1 := port_out 0x3d4 14 (sdev s)). set (d2 := port_out 0x3d5 (pos / 256) d1).
  set (d3 := port_out 0x3d4 15 d2). set (d4 := port_out 0x3d5 (pos mod 256) d3).
  destruct (term_sel (sdev s) 14 ltac:(lia)) as (S1 & R1 & T1). destruct (term_wr d1 (pos / 256) ltac:(zlia)) as (S2 & R2 & T2).
  destruct (term_sel d2 15 ltac:(lia)) as (S3 & R3 & T3). destruct (term_wr d3 (pos mod 256) ltac:(zlia)) as (S4 & R4 & T4).
  fold d1 in S1, R1, T1. fold d2 in S2, R2, T2. fold d3 in S3, R3, T3. fold d4 in S4, R4, T4. exists d4. split_and!.
  - split; rewrite R4, S3; [|done]. change (14 =? 15) with false. cbn iota. by rewrite R3, R2, S1.
  - by rewrite T4, T3, T2, T1.
  - intros m. do 4 erewrite bind_ok by apply outb_scr.
    assert (E1 : u8 (Z.shiftr pos 8) = pos / 256) by (rewrite Z.shiftr_div_pow2 by lia; change (2 ^ 8) with 256; apply u8_small; zlia).
    unfold upd_sdev. simpl. rewrite E1. done.
Qed.

Lemma cgaputc_run (s : st) c pos : at_cursor (sdev s) pos -> 0 <= pos < 1920 ->
  exists d, cgaputc c s = Ok tt (upd_crt (cga_cells c pos) (upd_sdev (fun _ => d) s)) /\
    at_cursor d (cga_pos c pos) /\ sent d = sent (sdev s).
Proof.
  intros Hat Hp. pose proof (cga_pos_range c pos Hp) as Hr. unfold cgaputc.
  destruct (read_cursor s pos Hat) as (d0 & d1 & E1 & E2 & E3 & E4 & Hd1 & Ht1); [lia|].
  erewrite bind_ok by exact E1. erewrite bind_ok by exact E2. erewrite bind_ok by exact E3. erewrite bind_ok by exact E4.
  rewrite cursor_word. cbv zeta.
  set (s1 := upd_sdev (fun _ => d1) s).
  set (m1 := if (c =? ch_nl) || (c =? BACKSPACE) then crt s else set_cell pos (Z.lor (Z.land c 0xff) 0x0700) (crt s)).
  set (pos1 := if c =? ch_nl then pos + (80 - pos mod 80)
    else if c =? BACKSPACE then (if 0 <? pos then pos - 1 else pos) else pos + 1).
  assert (Hp1 : 0 <= pos1 <= 1920) by (unfold pos1; zcases; zlia).
  rewrite (bind_ok _ _ _ pos1 (upd_crt (fun _ => m1) s1)).
  2: { unfold m1, pos1. destruct (c =? ch_nl); [done|]. destruct (c =? BACKSPACE); done. }
  destruct (Z.ltb_spec pos1 0); [lia|]. destruct (Z.ltb_spec (25 * 80) pos1); [lia|]. cbn [orb].
  set (pos2 := cga_pos c pos) in *. set (m2 := if 24 <=? pos1 / 80 then cells_clear (pos1 - 80) (cells_up m1) else m1).
  rewrite (bind_ok _ _ _ pos2 (upd_crt (fun _ => m2) s1)).
  2: { unfold m2, pos2, cga_pos. fold pos1. destruct (24 <=? pos1 / 80); done. }
  destruct (write_cursor (upd_crt (fun _ => m2) s1) pos2) as (d & Hd & Ht & E); [lia|]. rewrite E.
  exists d. split_and!; [done|done|]. by rewrite Ht.
Qed.

(** ** The serial port *)

Lemma uart_poll_run n (s : st) : uart s = true ->
  (exists k, (k < n)%nat /\ bit_set (port_in 0x3fd (Nat.iter k (fun d => (port_in 0x3fd d).2) (sdev s))).1 0x20 = true) ->
  exists d, uart_poll n s = Ok tt (upd_sdev (fun _ => (port_in 0x3fd d).2) s) /\
    bit_set (port_in 0x3fd d).1 0x20 = true /\ sent d = sent (sdev s) /\ forall k, creg d k = creg (sdev s) k.
Proof.
  revert s. induction n as [|n IH]; intros s Hu (k & Hk & Hb); [lia|]. cbn [uart_poll].
  erewrite bind_ok by apply inb_scr. change (COM1 + 5) with 0x3fd.
  destruct (term_poll (sdev s)) as (Hv & Hc & Ht). rewrite u8_small by done.
  destruct (bit_set (port_in 0x3fd (sdev s)).1 0x20) eqn:E.
  - exists (sdev s). done.
  - destruct k as [|k]; [simpl in Hb; congruence|]. rewrite Nat.iter_succ_r in Hb.
    set (d1 := (port_in 0x3fd (sdev s)).2) in *.
    destruct (IH (upd_sdev (fun _ => d1) s) Hu) as (d & Er & Hd & Hs & Hg).
    { exists k. split; [lia|exact Hb]. }
    exists d. rewrite Er. split_and!; [done|done|by rewrite Hs|]. intros j. by rewrite Hg.
Qed.

Lemma uartputc_run (s : st) c : 0 <= c < 256 -> uart s = true ->
  exists d, uartputc c s = Ok tt (upd_sdev (fun _ => d) s) /\ sent d = sent (sdev s) ++ [c] /\
    forall k, creg d k = creg (sdev s) k.
Proof.
  intros Hc Hu. unfold uartputc. erewrite bind_ok by (unfold gets; reflexivity). rewrite Hu. cbn [negb].
  destruct (uart_poll_run 128 s Hu (term_ready (sdev s))) as (d & E & Hb & Hs & Hg).
  erewrite bind_ok by exact E. rewrite outb_scr. destruct (term_send d c Hc Hb) as [Hs' Hg'].
  exists (port_out 0x3f8 c (port_in 0x3fd d).2). split_and!.
  - unfold upd_sdev. simpl. by rewrite u8_small.
  - by rewrite Hs', Hs.
  - intros k. by rewrite Hg'.
Qed.

(** ** Characters, strings, formats *)

(** The terminal is on and shows the text [t]. *)
Record term_ok (s : st) (t : text) : Prop := {
  tk_uart : uart s = true;
  tk_live : panicked s = false;
  tk_cursor : at_cursor (sdev s) (cursor t);
  tk_text : text_ok t;
  tk_shown : on_screen t (crt s) }.

(** [out] has been written, and nothing else has changed. *)
Definition wrote (out : list Z) (s s' : st) : Prop :=
  sent (sdev s') = sent (sdev s) ++ out /\ locking s' = locking s /\ scpu s' = scpu s.

Lemma wrote_app a b s1 s2 s3 : wrote a s1 s2 -> wrote b s2 s3 -> wrote (a ++ b) s1 s3.
Proof. intros (A1 & A2 & A3) (B1 & B2 & B3). unfold wrote. rewrite B1, A1, B2, B3. by rewrite app_assoc. Qed.

Lemma consputc_run s t c : term_ok s t -> byte c ->
  exists s', consputc c s = Ok tt s' /\ term_ok s' (put t c) /\ wrote [c] s s'.
Proof.
  intros [Hu Hp Hat Ht Hs] Hc. unfold byte in Hc. unfold consputc. erewrite bind_ok by (unfold gets; reflexivity). rewrite Hp.
  rewrite (proj2 (Z.eqb_neq c BACKSPACE)) by (unfold BACKSPACE; lia).
  destruct (uartputc_run s c Hc Hu) as (d & E & Hsent & Hg). erewrite bind_ok by exact E.
  destruct (cgaputc_run (dev_at d s) c (cursor t)) as (d2 & E2 & Hat2 & Hs2).
  { destruct Hat as [A1 A2]. split; simpl; by rewrite Hg. } { by apply cursor_range. }
  destruct (cga_text t c (crt s) Ht Hs Hc) as [Ep Em]. rewrite E2. eexists. split; [done|]. split.
  - split; try done; [by rewrite <- Ep|by apply text_put_ok].
  - split; [|done]. simpl. by rewrite Hs2.
Qed.

(** What [m] does is to write [out]. *)
Definition writes (out : list Z) (m : M st unit) : Prop :=
  forall s t, term_ok s t -> exists s', m s = Ok tt s' /\ term_ok s' (foldl put t out) /\ wrote out s s'.

Lemma writes_ret : writes [] (ret tt).
Proof. intros s t Hs. exists s. split_and!; [done|done|]. split; [by rewrite app_nil_r|done]. Qed.

Lemma writes_bind a b m1 m2 : writes a m1 -> writes b m2 -> writes (a ++ b) (m1 ;; m2).
Proof.
  intros H1' H2' s t Hs. destruct (H1' s t Hs) as (s1 & E1 & Hs1 & W1). destruct (H2' s1 _ Hs1) as (s2 & E2 & Hs2 & W2).
  exists s2. split_and!; [by erewrite bind_ok|by rewrite foldl_app|by eapply wrote_app].
Qed.

Lemma writes_putc c : byte c -> writes [c] (consputc c).
Proof. intros Hc s t Hs. by apply consputc_run. Qed.

Lemma writes_puts l : Forall byte l -> writes l (for_all l consputc).
Proof.
  induction 1 as [|c l Hc _ IH]; [apply writes_ret|]. apply (writes_bind [c] l); [by apply writes_putc|done].
Qed.

Lemma kdigits_bytes : Forall byte digits /\ length digits = 16%nat.
Proof. split; [|done]. unfold digits. simpl. repeat constructor; unfold byte; lia. Qed.

(** The digits of console.c; ten is [a]. *)
Lemma kdigits_table : digit_table 97 digits.
Proof.
  intros d Hd. assert (Hin : d ∈ seqZ 0 16) by (apply elem_of_seqZ; lia).
  assert (E : Forall (fun d => digits !!! Z.to_nat d = digit_char 97 d) (seqZ 0 16)) by (by repeat constructor).
  rewrite list.Forall_forall in E. by apply E.
Qed.

Lemma writes_int z base sgn cs : base = 10 \/ base = 16 -> int_chars digits (s32 z) base sgn = Some cs ->
  writes cs (printint z base sgn).
Proof.
  intros Hb E. unfold printint. rewrite E. apply writes_puts.
  destruct kdigits_bytes as [Hd Hl]. eapply int_chars_bytes; [done| |rewrite Hl|done]; lia.
Qed.

Lemma writes_format fmt ap out :
  formats 97 false fmt ap out -> Forall arg_ok ap -> writes out (cprintf_loop fmt ap).
Proof.
  induction 1 as [|ap|c fmt ap out Hc Hn _ IH|a z cs fmt ap out Ha Hi _ IH
    |c a z cs fmt ap out Hc Ha Hi _ IH|a s fmt ap out Hs _ IH|a z fmt ap out Hcc Ha _ IH
    |fmt ap out _ IH|c fmt ap out Hc Hn _ _ IH]; intros Hap; try apply writes_ret; try done.
  - cbn [cprintf_loop]. rewrite land_byte by (unfold byte; lia). no_eqb. cbn [negb].
    apply (writes_bind [c]); [apply writes_putc; unfold byte; lia|by apply IH].
  - apply Forall_cons_1 in Hap as [_ Hap]. cbn -[printint]. rewrite Ha.
    apply (writes_bind cs); [|by apply IH].
    apply writes_int; [auto|]. by apply (printed_signed 97); [apply kdigits_table|].
  - apply Forall_cons_1 in Hap as [_ Hap]. apply (printed_hex 97 digits) in Hi; [|apply kdigits_table].
    destruct Hc as [-> | ->]; cbn -[printint]; rewrite Ha; (apply (writes_bind cs); [apply writes_int; auto|by apply IH]).
  - apply Forall_cons_1 in Hap as [Ha Hap]. apply arg_text_str in Hs. cbn -[arg_str]. rewrite Hs.
    apply (writes_bind s); [apply writes_puts; by eapply arg_str_bytes|by apply IH].
  - apply (writes_bind [pct] out (consputc pct)); [apply writes_putc; unfold byte, pct; lia|by apply IH].
  - cbn [cprintf_loop]. change (Z.land pct 0xff) with pct. cbv zeta. change (pct =? 0) with false. change (pct =? pct) with true.
    cbn [negb]. assert (c <> 100 /\ c <> 120 /\ c <> 112 /\ c <> 115 /\ c <> pct) as (?&?&?&?&?)
      by (rewrite !not_elem_of_cons in Hn; naive_solver).
    rewrite land_byte by (unfold byte; lia). no_eqb. cbn [negb orb].
    apply (writes_bind [pct] (c :: out)); [apply writes_putc; unfold byte, pct; lia|].
    apply (writes_bind [c] out); [apply writes_putc; unfold byte; lia|by apply IH].
Qed.

Lemma cprintf_run fmt ap out s t :
  formats 97 false fmt ap out -> Forall arg_ok ap -> term_ok s t ->
  (locking s = true -> cpu_wf (scpu s) /\ L_cons ∉ held (scpu s)) ->
  exists s', cprintf (Some fmt) ap s = Ok tt s' /\ term_ok s' (foldl put t out) /\
    sent (sdev s') = sent (sdev s) ++ out /\ locking s' = locking s /\
    scpu s' = if locking s then refresh (scpu s) else scpu s.
Proof.
  intros Hf Hap Ht Hlk. pose proof (writes_format fmt ap out Hf Hap) as Hw. unfold cprintf.
  erewrite bind_ok by (unfold gets; reflexivity). destruct (locking s) eqn:El.
  - destruct (Hlk eq_refl) as [Hwf Hh]. erewrite bind_ok by (by apply acquire_run).
    destruct (Hw (set_cpu (acquired L_cons (get_cpu s)) s) t) as (s1 & E1 & Ht1 & W1 & W2 & W3); [by destruct Ht|].
    erewrite bind_ok by exact E1. rewrite release_run.
    + eexists. split; [done|]. split; [by destruct Ht1|]. split; [exact W1|]. split; [simpl; rewrite W2; exact El|].
      simpl. rewrite W3. simpl. by apply released_acquired.
    + simpl. rewrite W3. by apply acquired_wf.
    + simpl. rewrite W3. unfold acquired. simpl. set_solver.
  - erewrite bind_ok by (unfold ret; reflexivity). destruct (Hw s t Ht) as (s1 & E1 & Ht1 & W1 & W2 & W3).
    erewrite bind_ok by exact E1. exists s1. split_and!; try done. by rewrite W2.
Qed.

(** Without the lock. *)
Lemma cprintf_writes fmt ap out s t :
  formats 97 false fmt ap out -> Forall arg_ok ap -> term_ok s t -> locking s = false ->
  exists s', cprintf (Some fmt) ap s = Ok tt s' /\ term_ok s' (foldl put t out) /\ wrote out s s'.
Proof.
  intros Hf Hap Ht Hl. destruct (cprintf_run fmt ap out s t Hf Hap Ht) as (s' & E & Ht' & Hs & Hl' & Hc); [by rewrite Hl|].
  exists s'. rewrite Hl in Hc. done.
Qed.

(** The number [z] in base 10 with its sign, and in base 16. *)
Definition dec_text (z : Z) : list Z := default [] (int_chars digits (s32 z) 10 true).
Definition hex_text (z : Z) : list Z := default [] (int_chars digits (s32 z) 16 false).

Lemma int_some z base sgn : base = 10 \/ base = 16 ->
  int_chars digits (s32 z) base sgn = Some (default [] (int_chars digits (s32 z) base sgn)).
Proof.
  intros Hb. destruct (int_chars_total digits (s32 z) base sgn Hb) as [cs ->]; [|done].
  pose proof (s32_range z). lia.
Qed.

(** They are the numerals. *)
Lemma dec_text_numeral z : signed_numeral 97 (s32 z) (dec_text z).
Proof. apply (int_chars_signed 97 digits); [apply kdigits_table|]. apply int_some. by left. Qed.

Lemma hex_text_numeral z : numeral 97 16 (u32 z) (hex_text z).
Proof. apply (int_chars_hex 97 digits); [apply kdigits_table|]. apply int_some. by right. Qed.

Lemma formats_plain l fmt ap out : Forall (fun c => 0 < c < 256 /\ c <> pct) l ->
  formats 97 false fmt ap out -> formats 97 false (l ++ fmt) ap (l ++ out).
Proof. induction 1 as [|c l [Hc Hn] _ IH]; intros Hf; [done|]. apply F_char; [done|done|by apply IH]. Qed.

Lemma plain_test l : forallb (fun c => (0 <? c) && (c <? 256) && negb (c =? pct)) l = true ->
  Forall (fun c => 0 < c < 256 /\ c <> pct) l.
Proof.
  intros E. rewrite forallb_forall in E. apply list.Forall_forall. intros c Hc%list_elem_of_In.
  specialize (E c Hc). apply andb_prop in E as [E1 E3]. apply andb_prop in E1 as [E1 E2].
  apply negb_true_iff, Z.eqb_neq in E3. lia.
Qed.

Lemma panic_head id :
  formats 97 false (chars "lapicid %d: panic: ") [A_num id] (chars "lapicid " ++ dec_text id ++ chars ": panic: ").
Proof.
  apply (formats_plain (chars "lapicid ") (chars "%d: panic: ")); [by apply plain_test|].
  eapply (F_d _ _ (A_num id) id); [done|apply dec_text_numeral|].
  rewrite <- (app_nil_r (chars ": panic: ")). apply (formats_plain (chars ": panic: ") []); [by apply plain_test|apply F_end].
Qed.

Lemma pc_format pc : formats 97 false (chars " %p") [A_num pc] (32 :: hex_text pc).
Proof.
  apply (formats_plain [32] (chars "%p")); [by apply plain_test|]. rewrite <- (app_nil_r (hex_text pc)).
  eapply (F_x _ _ 112 (A_num pc) pc); [auto|done|apply hex_text_numeral|apply F_end].
Qed.

Lemma panic_pcs pcs s t : term_ok s t -> locking s = false ->
  exists s', for_all pcs (fun pc => cprintf (Some (chars " %p")) [A_num pc]) s = Ok tt s' /\
    let out := concat ((fun pc => 32 :: hex_text pc) <$> pcs) in term_ok s' (foldl put t out) /\ wrote out s s'.
Proof.
  revert s t. induction pcs as [|pc pcs IH]; intros s t Ht Hl.
  - exists s. split; [done|]. split; [done|]. split; [by rewrite app_nil_r|done].
  - destruct (cprintf_writes _ _ _ s t (pc_format pc) ltac:(by repeat constructor) Ht Hl) as (s1 & E1 & Ht1 & W1).
    destruct (IH s1 _ Ht1) as (s2 & E2 & Ht2 & W2); [destruct W1 as (_ & -> & _); done|].
    exists s2. cbn [for_all]. split; [by erewrite bind_ok|]. cbn zeta. rewrite fmap_cons. cbn [concat].
    split; [by rewrite foldl_app|by eapply wrote_app].
Qed.

(** ** The theorems *)

(** C19. [cprintf] prints what its format means: exactly the formatted characters
    go to the serial port, the screen shows the last 24 lines of the text with
    them added, wrapped at 80 columns, and the console lock is taken and given
    back.  The serial port is ready before the driver stops polling it. *)
Theorem cprintf_screen fmt ap out s t :
  formats 97 false fmt ap out -> Forall arg_ok ap -> term_ok s t ->
  (locking s = true -> cpu_wf (scpu s) /\ L_cons ∉ held (scpu s)) ->
  exists s', cprintf (Some fmt) ap s = Ok tt s' /\ term_ok s' (foldl put t out) /\
    sent (sdev s') = sent (sdev s) ++ out /\ scpu s' = if locking s then refresh (scpu s) else scpu s.
Proof.
  intros Hf Hap Ht Hlk. destruct (cprintf_run fmt ap out s t Hf Hap Ht Hlk) as (s' & E & Ht' & Hs & _ & Hc). by exists s'.
Qed.

(** C33. [panic] always gets its message out, even on a CPU that holds the console
    lock: the CPU, the message and the call stack are on the terminal,
    interrupts are off, and from then on no CPU prints another character. *)
Theorem panic_reports lapic msg out rd v s t :
  term_ok s t -> formats 97 false msg [] out ->
  let id := if lapic =? 0 then 0 else Z.shiftr (u32 (bus_in (lapic + 32) (sdev s)).1) 24 in
  let all := (chars "lapicid " ++ dec_text id ++ chars ": panic: ") ++ out ++ [ch_nl] ++
             concat ((fun pc => 32 :: hex_text pc) <$> getcallerpcs rd v) in
  exists s', panic_report lapic msg rd v s = Ok tt s' /\
    on_screen (foldl put t all) (crt s') /\ sent (sdev s') = sent (sdev s) ++ all /\
    c_if (scpu s') = false /\ held (scpu s') = held (scpu s) /\ forall c, consputc c s' = NoFuel.
Proof.
  intros Ht Hf id all. unfold panic_report. erewrite bind_ok by (unfold cli, modify; reflexivity).
  erewrite bind_ok by (unfold modify; reflexivity). set (s0 := upd_locking false _).
  assert (Ht0 : term_ok s0 t) by (by destruct Ht).
  rewrite (bind_ok _ _ _ id s0).
  2: { unfold lapicid, id. destruct (lapic =? 0); [done|]. erewrite bind_ok by (unfold mread; reflexivity).
       unfold ret. f_equal. unfold upd_sdev. simpl. by rewrite term_bus. }
  destruct (cprintf_writes _ _ _ s0 t (panic_head id) ltac:(by repeat constructor) Ht0 eq_refl) as (s1 & E1 & Ht1 & W1).
  erewrite bind_ok by exact E1. assert (Hl1 : locking s1 = false) by (by destruct W1 as (_ & -> & _)).
  destruct (cprintf_writes _ _ _ s1 _ Hf ltac:(constructor) Ht1 Hl1) as (s2 & E2 & Ht2 & W2).
  erewrite bind_ok by exact E2. assert (Hl2 : locking s2 = false) by (by destruct W2 as (_ & -> & _)).
  assert (Hnl : formats 97 false [ch_nl] [] [ch_nl]) by (apply F_char; [unfold ch_nl; lia|done|apply F_end]).
  destruct (cprintf_writes _ _ _ s2 _ Hnl ltac:(constructor) Ht2 Hl2) as (s3 & E3 & Ht3 & W3).
  erewrite bind_ok by exact E3. assert (Hl3 : locking s3 = false) by (by destruct W3 as (_ & -> & _)).
  destruct (panic_pcs (getcallerpcs rd v) s3 _ Ht3 Hl3) as (s4 & E4 & Ht4 & W4). erewrite bind_ok by exact E4.
  pose proof (wrote_app _ _ _ _ _ W1 (wrote_app _ _ _ _ _ W2 (wrote_app _ _ _ _ _ W3 W4))) as (Ws & _ & Wc).
  eexists. split; [unfold modify; reflexivity|]. split_and!.
  - unfold all. rewrite !foldl_app in *. exact (tk_shown _ _ Ht4).
  - exact Ws.
  - simpl. by rewrite Wc.
  - simpl. by rewrite Wc.
  - done.
Qed.

(** ** The call stack and the process listing *)

(** The frames of a stack: [%ebp] and return address, up to an [%ebp] that is
    no kernel address. *)
Fixpoint frames (rd : Z -> Z) (ebp : Z) (l : list Z) : Prop :=
  let bad := (ebp =? 0) || (ebp <? KERNBASE) || (ebp =? 0xffffffff) in
  match l with
  | [] => bad = true
  | pc :: l' => bad = false /\ rd (ebp + 4) = pc /\ frames rd (rd ebp) l'
  end.

Lemma callerpcs_frames rd n : forall ebp l, frames rd ebp l -> callerpcs rd n ebp = take n (l ++ replicate n 0).
Proof.
  induction n as [|n IH]; intros ebp l Hf; [done|]. cbn [callerpcs]. destruct l as [|pc l]; cbn [frames] in Hf.
  - rewrite Hf. simpl. f_equal. by rewrite take_ge by (rewrite length_replicate; lia).
  - destruct Hf as (-> & <- & Hf). rewrite (IH _ _ Hf). cbn [app take]. f_equal.
    rewrite !take_app. f_equal. rewrite !take_replicate. f_equal. lia.
Qed.

(** [m] prints [out] on a console that may be locked. *)
Definition prints_out (out : list Z) (m : M st unit) : Prop :=
  forall s t, term_ok s t -> (locking s = true -> cpu_wf (scpu s) /\ L_cons ∉ held (scpu s)) ->
  exists s', m s = Ok tt s' /\ term_ok s' (foldl put t out) /\ sent (sdev s') = sent (sdev s) ++ out /\
    locking s' = locking s /\ refresh (scpu s') = refresh (scpu s) /\ (cpu_wf (scpu s) -> cpu_wf (scpu s')).

Lemma prints_nil : prints_out [] (ret tt).
Proof. intros s t Hs _. exists s. split_and!; try done. by rewrite app_nil_r. Qed.

Lemma prints_seq a b m1 m2 : prints_out a m1 -> prints_out b m2 -> prints_out (a ++ b) (m1 ;; m2).
Proof.
  intros P1 P2 s t Hs Hl. destruct (P1 s t Hs Hl) as (s1 & E1 & Ht1 & S1 & L1 & C1 & W1).
  assert (Hheld : held (scpu s1) = held (scpu s)) by exact (f_equal held C1).
  destruct (P2 s1 _ Ht1) as (s2 & E2 & Ht2 & S2 & L2 & C2 & W2).
  { rewrite L1, Hheld. intros Hlk. destruct (Hl Hlk). auto. }
  exists s2. split_and!; [by erewrite bind_ok|by rewrite foldl_app|by rewrite S2, S1, app_assoc|congruence|congruence|auto].
Qed.

Lemma prints_format fmt ap out : formats 97 false fmt ap out -> Forall arg_ok ap -> prints_out out (cprintf (Some fmt) ap).
Proof.
  intros Hf Ha s t Ht Hl. destruct (cprintf_run fmt ap out s t Hf Ha Ht Hl) as (s' & E & Ht' & Hs & Hlk & Hc).
  exists s'. split_and!; try done; destruct (locking s); rewrite Hc; try done.
  by rewrite refresh_refresh.
Qed.

Lemma prints_all {A} (f : A -> M st unit) (g : A -> list Z) l :
  (forall x, x ∈ l -> prints_out (g x) (f x)) -> prints_out (concat (g <$> l)) (for_all l f).
Proof.
  induction l as [|x l IH]; intros Hl; [apply prints_nil|]. rewrite fmap_cons. cbn [concat for_all].
  apply prints_seq; [apply Hl; set_solver|apply IH; intros y Hy; apply Hl; set_solver].
Qed.

Lemma bytes_test l : forallb (fun c => (0 <=? c) && (c <? 256)) l = true -> Forall byte l.
Proof.
  intros E. rewrite forallb_forall in E. apply list.Forall_forall. intros c Hc%list_elem_of_In. specialize (E c Hc). unfold byte. lia.
Qed.

Lemma dump_format id st nm :
  formats 97 false (chars "%d %s %s") [A_num id; A_str (state_name st); A_str nm]
    (dec_text id ++ [32] ++ state_name st ++ [32] ++ str_part nm).
Proof.
  eapply (F_d _ _ (A_num id) id); [done|apply dec_text_numeral|]. apply (formats_plain [32] (chars "%s %s")); [by apply plain_test|].
  eapply (F_s _ _ (A_str (state_name st))); [apply T_all; by destruct st; vm_compute; set_solver|]. apply (formats_plain [32] (chars "%s")); [by apply plain_test|].
  rewrite <- (app_nil_r (str_part nm)). eapply (F_s _ _ (A_str nm)); [apply str_part_text|apply F_end].
Qed.

(** The line of a process. *)
Definition dump_line (rd ebp : Z -> Z) (e : Z * proc) : list Z :=
  let p := e.2 in
  if bool_decide (state p = UNUSED) then []
  else
    (dec_text (pid p) ++ [32] ++ state_name (state p) ++ [32] ++ str_part (pname p)) ++
    (if bool_decide (state p = SLEEPING) then concat ((fun pc => 32 :: hex_text pc) <$> until_zero (getcallerpcs rd (ebp e.1 + 8))) else []) ++
    [ch_nl].

(** ^P lists the processes: one line for every used slot of the table, in
    order, with the pid, the state and the name, and for a sleeping process the
    return addresses of its kernel stack. *)
Theorem procdump_lists ps rd ebp s t :
  Forall (fun p => Forall byte (pname p)) ps -> term_ok s t ->
  (locking s = true -> cpu_wf (scpu s) /\ L_cons ∉ held (scpu s)) ->
  let out := concat (dump_line rd ebp <$> zip (seqZ 0 (Z.of_nat (length ps))) ps) in
  exists s', procdump ps rd ebp s = Ok tt s' /\ term_ok s' (foldl put t out) /\ sent (sdev s') = sent (sdev s) ++ out.
Proof.
  intros Hps Ht Hl out.
  assert (Hp : prints_out out (procdump ps rd ebp)).
  { apply prints_all. intros [i p] Hip. apply elem_of_zip_r in Hip. rewrite list.Forall_forall in Hps. specialize (Hps p Hip).
    unfold dump_line. cbn [fst snd]. destruct (bool_decide (state p = UNUSED)); [apply prints_nil|].
    apply prints_seq; [|apply prints_seq].
    - apply prints_format; [apply dump_format|]. repeat constructor; [|done]. by destruct (state p); apply bytes_test.
    - destruct (bool_decide (state p = SLEEPING)); [|apply prints_nil]. apply prints_all. intros pc _. apply prints_format; [apply pc_format|by repeat constructor].
    - apply prints_format; [|constructor]. apply F_char; [unfold ch_nl; lia|done|apply F_end]. }
  destruct (Hp s t Ht Hl) as (s' & E & Ht' & Hs & _). by exists s'.
Qed.
End Screen.

(** ** A terminal *)

(** The registers of the CRT controller and the bytes sent. *)
Record tty := Tty { ty_sel : Z; ty_reg : Z -> Z; ty_sent : list Z }.

#[export] Instance tty_hw : Hw tty := {|
  port_in p d := (if p =? 0x3d5 then ty_reg d (ty_sel d) else 0x20, d);
  port_out p v d :=
    if p =? 0x3d4 then Tty v (ty_reg d) (ty_sent d)
    else if p =? 0x3d5 then Tty (ty_sel d) (fun k => if k =? ty_sel d then v else ty_reg d k) (ty_sent d)
    else if p =? 0x3f8 then Tty (ty_sel d) (ty_reg d) (ty_sent d ++ [v]) else d;
  port_ins _ _ d := ([], d); port_outs _ _ d := d; bus_in _ d := (0, d); bus_out _ _ _ d := d |}.

#[export, refine] Instance tty_term : Term tty := {| sel := ty_sel; creg := ty_reg; sent := ty_sent |}.
Proof.
  all: try done. intros d. exists 0%nat. split; [lia|done].
Defined.

Definition demo_tty (lk : bool) : scr tty :=
  Scr (Tty 0 (fun _ => 0) []) (fun _ => 0) true lk false (Cpu true 0 true [] 0 0).

Lemma demo_tty_ok lk : term_ok (demo_tty lk) ([], []).
Proof.
  split; try done.
  - split; simpl; [unfold COLS; lia|done].
  - intros r j _ _. right. split; [|done]. unfold char_at, last_row. simpl. by destruct r.
Qed.

Lemma cprintf_screen_witness :
  exists s', cprintf (Some (chars "cpu%d: up")) [A_num 1] (demo_tty true) = Ok tt s' /\
    sent (sdev s') = chars "cpu1: up" /\ term_ok s' (chars "cpu1: up", []).
Proof.
  assert (Hf : formats 97 false (chars "cpu%d: up") [A_num 1] (chars "cpu1: up")).
  { apply (formats_plain (chars "cpu") (chars "%d: up") _ (chars "1: up")); [by apply plain_test|].
    eapply (F_d _ _ (A_num 1) 1 [49]); [done|exists [1]; by repeat constructor|].
    apply (formats_plain (chars ": up") [] _ []); [by apply plain_test|apply F_end]. }
  destruct (cprintf_screen _ _ _ (demo_tty true) ([], []) Hf) as (s' & E & Ht & Hs & _).
  - by repeat constructor.
  - apply demo_tty_ok.
  - intros _. split; [by repeat split|apply not_elem_of_nil].
  - exists s'. split; [exact E|]. split; [exact Hs|exact Ht].
Defined.

(** Two frames, the outer one in user space. *)
Definition demo_stack (a : Z) : Z :=
  if a =? 0x80100004 then 0x8010ABCD else if a =? 0x80100000 then 0x80100020
  else if a =? 0x80100024 then 0x16 else 0.

Lemma panic_reports_witness :
  exists s', panic_report 0 (chars "zombie exit") demo_stack 0x80100008 (demo_tty true) = Ok tt s' /\
    sent (sdev s') = chars "lapicid 0: panic: zombie exit" ++ [10] ++ chars " 8010abcd 16 0 0 0 0 0 0 0 0" /\
    consputc 65 s' = NoFuel.
Proof.
  assert (Hf : formats 97 false (chars "zombie exit") [] (chars "zombie exit")).
  { apply (formats_plain (chars "zombie exit") [] _ []); [by apply plain_test|apply F_end]. }
  destruct (panic_reports 0 _ _ demo_stack 0x80100008 _ _ (demo_tty_ok true) Hf) as (s' & E & _ & Hs & _ & _ & Hc).
  exists s'. split_and!; [exact E|rewrite Hs; vm_compute; reflexivity|apply Hc].
Defined.
