(* ===== verification/Kbd.v ===== *)
(** * kbd.c: the keyboard

    The tables of kbd.h, the translation of scan codes to characters, and
    the interrupt handler's loop over [kbdgetc].  The keyboard controller is
    a device behind ports 0x60 and 0x64; [shift] is the static variable. *)

From S2P Require Import Prelude Machine Digits Hw StringC Spinlock Kalloc Vm Kernel Sleep Bio Log Inode Console.

Module Kbd.

Definition SHIFT : Z := 1.
Definition CTL : Z := 2.
Definition ALT : Z := 4.
Definition CAPSLOCK : Z := 8.
Definition NUMLOCK : Z := 16.
Definition SCROLLLOCK : Z := 32.
Definition E0ESC : Z := 64.

Definition NO : Z := 0.
Definition C (x : Z) : Z := x - 64.

(** A table of 256 [uchar]s: the first entries in order, then single ones. *)
Definition table (first : list Z) (others : list (Z * Z)) : list Z :=
  foldl (fun l e => <[Z.to_nat e.1 := u8 e.2]> l) ((u8 <$> first) ++ replicate (256 - length first) 0) others.

Definition shiftcode : list Z :=
  table [] [(0x1D, CTL); (0x2A, SHIFT); (0x36, SHIFT); (0x38, ALT); (0x9D, CTL); (0xB8, ALT)].

Definition togglecode : list Z := table [] [(0x3A, CAPSLOCK); (0x45, NUMLOCK); (0x46, SCROLLLOCK)].

(** The keys of the grey block: KEY_UP and so on. *)
Definition grey : list (Z * Z) :=
  [(0xC8, 0xE2); (0xD0, 0xE3); (0xC9, 0xE6); (0xD1, 0xE7); (0xCB, 0xE4); (0xCD, 0xE5);
   (0x97, 0xE0); (0xCF, 0xE1); (0xD2, 0xE8); (0xD3, 0xE9)].

Definition keypad : list Z :=
  [NO; 32; NO; NO; NO; NO; NO; NO; NO; NO; NO; NO; NO; NO; NO] ++ chars "789-456+1230." ++ [NO; NO; NO; NO].

Definition normalmap : list Z :=
  table ([NO; 0x1B] ++ chars "1234567890-=" ++ [8; 9] ++ chars "qwertyuiop[]" ++ [10; NO] ++
         chars "asdfghjkl;'`" ++ [NO] ++ chars "\zxcvbnm,./" ++ [NO] ++ chars "*" ++ keypad)
    ([(0x9C, 10); (0xB5, 47)] ++ grey).

Definition shiftmap : list Z :=
  table ([NO; 27] ++ chars "!@#$%^&*()_+" ++ [8; 9] ++ chars "QWERTYUIOP{}" ++ [10; NO] ++
         chars "ASDFGHJKL:" ++ [34] ++ chars "~" ++ [NO] ++ chars "|ZXCVBNM<>?" ++ [NO] ++ chars "*" ++ keypad)
    ([(0x9C, 10); (0xB5, 47)] ++ grey).

Definition ctlmap : list Z :=
  table (replicate 16 NO ++ (C <$> chars "QWERTYUIOP") ++ [NO; NO; 13; NO] ++ (C <$> chars "ASDFGHJKL") ++
         [NO; NO; NO; NO] ++ (C <$> chars "\ZXCVBNM") ++ [NO; NO; C 47; NO; NO])
    ([(0x9C, 13); (0xB5, C 47)] ++ grey).

Definition charcode (i : Z) : list Z :=
  if i =? 0 then normalmap else if i =? 1 then shiftmap else ctlmap.

(** The scan code [data]: the result and the new [shift]. *)
Definition kbd_code (shift data : Z) : Z * Z :=
  if data =? 0xE0 then (0, Z.lor shift E0ESC)
  else if bit_set data 0x80 then
    let data := if bit_set shift E0ESC then data else Z.land data 0x7F in
    (0, Z.land shift (u32 (Z.lnot (Z.lor (shiftcode !!! Z.to_nat data) E0ESC))))
  else
    let data' := if bit_set shift E0ESC then Z.lor data 0x80 else data in
    let shift := if bit_set shift E0ESC then Z.land shift (u32 (Z.lnot E0ESC)) else shift in
    let shift := Z.lor shift (shiftcode !!! Z.to_nat data') in
    let shift := Z.lxor shift (togglecode !!! Z.to_nat data') in
    let c := charcode (Z.land shift (Z.lor CTL SHIFT)) !!! Z.to_nat data' in
    let c :=
      if bit_set shift CAPSLOCK then
        if (97 <=? c) && (c <=? 122) then u32 (c + (65 - 97))
        else if (65 <=? c) && (c <=? 90) then c + (97 - 65) else c
      else c in
    (c, shift).

Section Kbd.
Context {D : Type} `{Hw D}.

(** The controller and [shift]. *)
Record kbst := Kbst { kdev : D; kshift : Z }.

#[export] Instance kbst_HasDev : HasDev kbst D :=
  {| get_dev := kdev; set_dev := fun d s => Kbst d (kshift s) |}.

Definition kbdgetc : M kbst Z :=
  st <- inb 0x64 ;;
  if Z.land st 0x01 =? 0 then ret (-1)
  else
    data <- inb 0x60 ;;
    shift <- gets kshift ;;
    let r := kbd_code shift data in
    modify (fun s => Kbst (kdev s) r.2) ;;
    ret r.1.

(** What the handler gives to [consoleintr]. *)
Definition kbdintr (fuel : nat) : M kbst (list Z) := getc_all kbdgetc fuel.
End Kbd.
End Kbd.
