(* ===== verification/KbdProps.v ===== *)
(** * The keyboard: what is typed is what the console reads

    [strokes c]: the scan codes of a person who types [c] on a US keyboard,
    given by the positions of its keys.  The handler translates them back,
    for every text. *)

From Stdlib Require Import FunctionalExtensionality.
From S2P Require Import Prelude Machine Digits Hw StringC Spinlock Kalloc Vm Kernel Sleep Bio Log Inode Console.
From S2P Require Import Kbd.
Import Kbd.

(** ** Typing *)

(** The keys of a US keyboard in rows from left to right: the scan code (set
    1) of the first key of the row, the characters on the keys, and those on
    them with shift.  Then the keys for blank, escape, backspace, tab and
    enter. *)
Definition us_rows : list (Z * list Z * list Z) :=
  [(0x02, chars "1234567890-=", chars "!@#$%^&*()_+");
   (0x10, chars "qwertyuiop[]", chars "QWERTYUIOP{}");
   (0x1E, chars "asdfghjkl;'`", chars "ASDFGHJKL:" ++ [34; 126]);
   (0x2B, chars "\zxcvbnm,./", chars "|ZXCVBNM<>?");
   (0x39, [32], []); (0x01, [27], []); (0x0E, [8], []); (0x0F, [9], []); (0x1C, [10], [])].

(** The key of a row on which [c] is found. *)
Definition key_in (row : Z * list Z) (c : Z) : option Z :=
  (fun p => fst row + Z.of_nat (fst p)) <$> list_find (fun x => x = c) (snd row).

Fixpoint key_of (rows : list (Z * list Z)) (c : Z) : option Z :=
  match rows with
  | [] => None
  | row :: rows' => match key_in row c with Some k => Some k | None => key_of rows' c end
  end.

(** Press and release, with the shift key held down where it is needed. *)
Definition strokes (c : Z) : list Z :=
  match key_of ((fun r => r.1) <$> us_rows) c with
  | Some k => [k; k + 0x80]
  | None =>
      match key_of ((fun r => (r.1.1, r.2)) <$> us_rows) c with
      | Some k => [0x2A; k; k + 0x80; 0xAA]
      | None => []
      end
  end.

Definition typeable (c : Z) : bool := ((32 <=? c) && (c <=? 126)) || bool_decide (c ∈ [8; 9; 10; 27]).

(** The results for a list of scan codes, and the last [shift]. *)
Fixpoint codes (shift : Z) (l : list Z) : list Z * Z :=
  match l with
  | [] => ([], shift)
  | x :: l' => let r := kbd_code shift x in let r' := codes r.2 l' in (r.1 :: r'.1, r'.2)
  end.

Lemma codes_app shift a b : codes shift (a ++ b) =
  let r := codes shift a in let r' := codes r.2 b in (r.1 ++ r'.1, r'.2).
Proof.
  revert shift. induction a as [|x a IH]; intros shift; [simpl; by destruct (codes shift b)|]. simpl. by rewrite IH.
Qed.

(** No modifier is down and caps lock is off. *)
Definition calm (shift : Z) : Prop := shift ∈ [0; NUMLOCK; SCROLLLOCK; NUMLOCK + SCROLLLOCK].

Definition seen (cs : list Z) : list Z := filter (fun c => c <> 0) cs.

Definition stroke_test (shift c : Z) : bool :=
  negb (typeable c) || bool_decide (seen (codes shift (strokes c)).1 = [c] /\ (codes shift (strokes c)).2 = shift).

Lemma stroke_tests : forallb (fun c => forallb (fun sh => stroke_test sh c) [0; NUMLOCK; SCROLLLOCK; NUMLOCK + SCROLLLOCK]) (seqZ 0 127) = true.
Proof. vm_compute. reflexivity. Qed.

Lemma stroke_ok shift c : calm shift -> typeable c = true ->
  seen (codes shift (strokes c)).1 = [c] /\ (codes shift (strokes c)).2 = shift.
Proof.
  intros Hc Ht. assert (Hr : 0 <= c < 127).
  { unfold typeable in Ht. apply orb_prop in Ht as [Ht|Ht]; [lia|]. apply bool_decide_eq_true in Ht. set_solver by lia. }
  pose proof stroke_tests as E. rewrite forallb_forall in E. specialize (E c ltac:(apply list_elem_of_In, elem_of_seqZ; lia)).
  rewrite forallb_forall in E. specialize (E shift ltac:(by apply list_elem_of_In)). unfold stroke_test in E. rewrite Ht in E.
  by apply bool_decide_eq_true in E.
Qed.

Lemma typed_codes shift text : calm shift -> Forall (fun c => typeable c = true) text ->
  seen (codes shift (concat (strokes <$> text))).1 = text /\ (codes shift (concat (strokes <$> text))).2 = shift.
Proof.
  intros Hc. induction 1 as [|c text Ht _ [IH1 IH2]]; [done|]. rewrite fmap_cons. cbn [concat]. rewrite codes_app. cbn zeta.
  destruct (stroke_ok shift c Hc Ht) as [E1 E2]. rewrite E2. cbn [fst snd]. split; [|done].
  unfold seen in *. by rewrite list.filter_app, E1, IH1.
Qed.

Lemma key_of_range rows c k :
  Forall (fun r => 0 <= fst r /\ fst r + Z.of_nat (length (snd r)) <= 0x80) rows ->
  key_of rows c = Some k -> 0 <= k < 0x80.
Proof.
  induction 1 as [|r rows Hr _ IH]; [done|]. cbn [key_of]. unfold key_in.
  destruct (list_find _ _) as [[i x]|] eqn:E; [|exact IH]. intros [= <-]. apply list_find_Some in E as (Hl & _).
  apply lookup_lt_Some in Hl. simpl. lia.
Qed.

Lemma strokes_bytes text : Forall (fun x => 0 <= x < 256) (concat (strokes <$> text)).
Proof.
  induction text as [|c text IH]; [constructor|]. rewrite fmap_cons. cbn [concat]. apply Forall_app. split; [|done].
  unfold strokes. destruct (key_of (_ <$> us_rows) c) as [k|] eqn:E1.
  - apply key_of_range in E1; [repeat constructor; lia|]. repeat constructor; discriminate.
  - destruct (key_of ((fun r => (r.1.1, r.2)) <$> us_rows) c) as [k|] eqn:E2; [|constructor].
    apply key_of_range in E2; [repeat constructor; lia|]. repeat constructor; discriminate.
Qed.

(** Every result is a character. *)
Lemma kbd_code_range shift data : 0 <= (kbd_code shift data).1 < 256.
Proof.
  unfold kbd_code. destruct (data =? 0xE0); [simpl; lia|]. destruct (bit_set data 0x80); [simpl; lia|]. cbv zeta. cbn [fst].
  match goal with |- context [charcode ?i !!! ?j] => set (c := charcode i !!! j); assert (Hc : 0 <= c < 256) end.
  { assert (Ht : forall l j, forallb (fun x => (0 <=? x) && (x <? 256)) l = true -> 0 <= l !!! j < 256).
    { intros l j E. rewrite forallb_forall in E. rewrite list_lookup_total_alt. destruct (l !! j) as [x|] eqn:Ex; simpl; [|lia].
      specialize (E x ltac:(apply list_elem_of_In; by eapply list_elem_of_lookup_2)). lia. }
    unfold c, charcode. destruct (_ =? 0); [|destruct (_ =? 1)]; apply Ht; vm_compute; reflexivity. }
  clearbody c. destruct (bit_set _ CAPSLOCK); [|lia]. zcases; rewrite ?u32_small by lia; lia.
Qed.

(** ** The controller *)

(** The scan codes that wait in the keyboard controller. *)
Class KbdHw (D : Type) `{Hw D} := {
  waiting : D -> list Z;
  kb_none : forall d, waiting d = [] -> exists v, port_in 0x64 d = (v, d) /\ Z.land (u8 v) 1 = 0;
  kb_some : forall d x l, waiting d = x :: l ->
    (exists v, port_in 0x64 d = (v, d) /\ Z.land (u8 v) 1 <> 0) /\
    exists d', port_in 0x60 d = (x, d') /\ waiting d' = l }.

Section Handler.
Context {D : Type} `{KbdHw D}.

Lemma getc_all_run l : forall (s : kbst (D := D)), waiting (kdev s) = l -> Forall (fun x => 0 <= x < 256) l ->
  exists d, kbdintr (S (length l)) s = Ok (codes (kshift s) l).1 (Kbst d (codes (kshift s) l).2) /\ waiting d = [].
Proof.
  induction l as [|x l IH]; intros s Hw Hl; unfold kbdintr; cbn [getc_all length].
  - destruct (kb_none _ Hw) as (v & Ev & Hv). exists (kdev s). split; [|done]. unfold kbdgetc, bind, inb. cbn [bindr]. simpl.
    rewrite Ev. cbn [fst snd]. rewrite Hv. simpl. by destruct s.
  - destruct (kb_some _ _ _ Hw) as ((v & Ev & Hv) & d' & Ed & Hd). apply Forall_cons_1 in Hl as [Hx Hl].
    set (r := kbd_code (kshift s) x). destruct (IH (Kbst d' r.2) Hd Hl) as (d & E & Hd2). exists d. split; [|done].
    rewrite (bind_ok _ _ _ r.1 (Kbst d' r.2)).
    + pose proof (kbd_code_range (kshift s) x) as Hr. fold r in Hr. destruct (Z.leb_spec 0 r.1); [|lia].
      unfold kbdintr in E; cbn [getc_all length] in E. erewrite bind_ok by exact E. done.
    + unfold kbdgetc. erewrite bind_ok by (unfold inb; simpl; rewrite Ev; reflexivity). cbn [fst snd].
      rewrite (proj2 (Z.eqb_neq _ _) Hv). erewrite bind_ok by (unfold inb; simpl; rewrite Ed; reflexivity). cbn [fst snd].
      rewrite u8_small by done. done.
Qed.
End Handler.

(** The console ignores the zeros of key releases and modifiers. *)
Lemma for_all_seen cs s :
  for_all cs (fun c => consoleintr_char c ;; ret tt) s = for_all (seen cs) (fun c => consoleintr_char c ;; ret tt) s.
Proof.
  revert s. induction cs as [|c cs IH]; intros s; [done|]. unfold seen in *. cbn [for_all]. destruct (decide (c = 0)) as [->|Hc].
  - rewrite filter_cons_False by naive_solver. unfold bind at 1. simpl. apply IH.
  - rewrite filter_cons_True by done. cbn [for_all]. unfold bind. f_equal. apply functional_extensionality. intros u.
    apply functional_extensionality. intros s'. apply IH.
Qed.

Lemma consoleintr_seen cs s : consoleintr cs s = consoleintr (seen cs) s.
Proof.
  unfold consoleintr, bind. f_equal. apply functional_extensionality. intros u. apply functional_extensionality. intros s'.
  by rewrite for_all_seen.
Qed.

(** C24. Typing reaches the console: while no modifier is down and caps lock is
    off, the handler takes from the US keyboard of a person who types [text]
    characters that the console treats exactly as [text]; the controller is
    empty afterwards and [shift] is as before. *)
Theorem typed_text_reaches_console {D} `{KbdHw D} (s : kbst (D := D)) text :
  calm (kshift s) -> Forall (fun c => typeable c = true) text -> waiting (kdev s) = concat (strokes <$> text) ->
  exists cs d, kbdintr (S (length (concat (strokes <$> text)))) s = Ok cs (Kbst d (kshift s)) /\
    waiting d = [] /\ forall k, consoleintr cs k = consoleintr text k.
Proof.
  intros Hc Ht Hw. destruct (typed_codes (kshift s) text Hc Ht) as [E1 E2].
  destruct (getc_all_run _ s Hw) as (d & E & Hd); [by apply strokes_bytes|].
  exists (codes (kshift s) (concat (strokes <$> text))).1, d. split_and!; [by rewrite E, E2|done|].
  intros k. by rewrite consoleintr_seen, E1.
Qed.

(** ** A keyboard *)

#[export] Instance queue_hw : Hw (list Z) := {|
  port_in p d :=
    if p =? 0x64 then (if bool_decide (d = []) then 0 else 1, d)
    else if p =? 0x60 then match d with x :: l => (x, l) | [] => (0, []) end else (0, d);
  port_out _ _ d := d; port_ins _ _ d := ([], d); port_outs _ _ d := d; bus_in _ d := (0, d); bus_out _ _ _ d := d |}.

#[export, refine] Instance queue_kbd : KbdHw (list Z) := {| waiting d := d |}.
Proof.
  - intros d ->. by exists 0.
  - intros d x l ->. split; [by exists 1|]. by exists l.
Defined.

Lemma typed_text_reaches_console_witness :
  exists cs d, kbdintr 19 (Kbst (concat (strokes <$> chars "ls | Wc")) 0) = Ok cs (Kbst d 0) /\
    forall k, consoleintr cs k = consoleintr (chars "ls | Wc") k.
Proof.
  destruct (typed_text_reaches_console (Kbst (concat (strokes <$> chars "ls | Wc")) 0) (chars "ls | Wc")) as (cs & d & E & _ & Hk).
  - unfold calm. simpl. set_solver.
  - repeat constructor.
  - done.
  - exists cs, d. split; [exact E|exact Hk].
Defined.
