(* ===== verification/Mp.v ===== *)
(** * mp.c: the other processors

    The firmware's tables are read from memory: [m a] is the byte at the
    virtual address [a].  The results are the variables [lapic], [ioapicid]
    and the [apicid]s of [cpus[0..ncpu)]. *)

From S2P Require Import Prelude Machine Digits Hw.

Module Mp.

(** ** Reading memory *)

Definition uchar_at (m : Z -> Z) (a : Z) : Z := u8 (m (u32 a)).
Definition uchars (m : Z -> Z) (a : Z) (n : nat) : list Z := (fun k => uchar_at m (a + k)) <$> seqZ 0 (Z.of_nat n).
Definition ushort_at (m : Z -> Z) (a : Z) : Z := uchar_at m a + 256 * uchar_at m (a + 1).
Definition uint_at (m : Z -> Z) (a : Z) : Z := ushort_at m a + 65536 * ushort_at m (a + 2).

Definition sum (m : Z -> Z) (addr len : Z) : Z :=
  u8 (foldl (fun s k => s + uchar_at m (addr + k)) 0 (seqZ 0 len)).

(** ** struct mp, struct mpconf *)

Definition sizeof_mp : Z := 16.
Definition mp_physaddr (m : Z -> Z) (mp : Z) : Z := uint_at m (mp + 4).
Definition mp_imcrp (m : Z -> Z) (mp : Z) : Z := uchar_at m (mp + 12).

Definition sizeof_mpconf : Z := 44.
Definition conf_length (m : Z -> Z) (conf : Z) : Z := ushort_at m (conf + 4).
Definition conf_version (m : Z -> Z) (conf : Z) : Z := uchar_at m (conf + 6).
Definition conf_lapicaddr (m : Z -> Z) (conf : Z) : Z := uint_at m (conf + 36).

Definition mp_valid (m : Z -> Z) (p : Z) : bool :=
  bool_decide (uchars m p 4 = chars "_MP_") && (sum m p sizeof_mp =? 0).

Fixpoint mpsearch_from (m : Z -> Z) (fuel : nat) (p e : Z) : option Z :=
  match fuel with
  | O => None
  | S f =>
      if p <? e then
        if mp_valid m p then Some p else mpsearch_from m f (u32 (p + sizeof_mp)) e
      else None
  end.

(** At most [len / 16 + 1] structures start in the [len] bytes. *)
Definition mpsearch1 (m : Z -> Z) (a len : Z) : option Z :=
  let addr := u32 (P2V a) in
  mpsearch_from m (Z.to_nat (len / sizeof_mp) + 1) addr (u32 (addr + len)).

Definition mpsearch (m : Z -> Z) : option Z :=
  let bda := P2V 0x400 in
  let p := Z.shiftl (Z.lor (Z.shiftl (uchar_at m (bda + 0x0F)) 8) (uchar_at m (bda + 0x0E))) 4 in
  let found :=
    if negb (p =? 0) then mpsearch1 m p 1024
    else
      let p := Z.lor (Z.shiftl (uchar_at m (bda + 0x14)) 8) (uchar_at m (bda + 0x13)) * 1024 in
      mpsearch1 m (u32 (p - 1024)) 1024 in
  match found with
  | Some mp => Some mp
  | None => mpsearch1 m 0xF0000 0x10000
  end.

(** The floating structure and the configuration table. *)
Definition mpconfig (m : Z -> Z) : option (Z * Z) :=
  match mpsearch m with
  | None => None
  | Some mp =>
      if mp_physaddr m mp =? 0 then None
      else
        let conf := u32 (P2V (mp_physaddr m mp)) in
        if negb (bool_decide (uchars m conf 4 = chars "PCMP")) then None
        else if negb (conf_version m conf =? 1) && negb (conf_version m conf =? 4) then None
        else if negb (sum m conf (conf_length m conf) =? 0) then None
        else Some (mp, conf)
  end.

Section Mp.
Context {D : Type} `{Hw D}.

Record mpst := Mpst { mdev : D; m_lapic : Z; m_cpus : list Z; m_ioapicid : Z }.

#[export] Instance mpst_HasDev : HasDev mpst D :=
  {| get_dev := mdev; set_dev := fun d s => Mpst d (m_lapic s) (m_cpus s) (m_ioapicid s) |}.

Definition MPPROC : Z := 0.
Definition MPBUS : Z := 1.
Definition MPIOAPIC : Z := 2.
Definition MPIOINTR : Z := 3.
Definition MPLINTR : Z := 4.

(** The loop over the entries; the result is [ismp].  The [break] of the
    default case leaves the [switch] and not the loop. *)
Fixpoint mp_entries (m : Z -> Z) (fuel : nat) (p e : Z) (ismp : bool) : M mpst bool :=
  match fuel with
  | O => fun _ => NoFuel
  | S f =>
      if p <? e then
        let t := uchar_at m p in
        if t =? MPPROC then
          modify (fun s =>
            if Z.of_nat (length (m_cpus s)) <? NCPU
            then Mpst (mdev s) (m_lapic s) (m_cpus s ++ [uchar_at m (p + 1)]) (m_ioapicid s) else s) ;;
          mp_entries m f (u32 (p + 20)) e ismp
        else if t =? MPIOAPIC then
          modify (fun s => Mpst (mdev s) (m_lapic s) (m_cpus s) (uchar_at m (p + 1))) ;;
          mp_entries m f (u32 (p + 8)) e ismp
        else if (t =? MPBUS) || (t =? MPIOINTR) || (t =? MPLINTR) then mp_entries m f (u32 (p + 8)) e ismp
        else mp_entries m f p e false
      else ret ismp
  end.

Definition mpinit (m : Z -> Z) (fuel : nat) : M mpst unit :=
  match mpconfig m with
  | None => panic "Expect to run on an SMP"
  | Some (mp, conf) =>
      modify (fun s => Mpst (mdev s) (conf_lapicaddr m conf) (m_cpus s) (m_ioapicid s)) ;;
      ismp <- mp_entries m fuel (u32 (conf + sizeof_mpconf)) (u32 (conf + conf_length m conf)) true ;;
      if negb ismp then panic "Didn't find a suitable machine"
      else
        when negb (mp_imcrp m mp =? 0) do
          (outb 0x22 0x70 ;;
           v <- inb 0x23 ;;
           outb 0x23 (Z.lor v 1))
  end.
End Mp.
End Mp.
