(* ===== verification/MpProps.v ===== *)
(** * The tables of the firmware

    The search finds the first valid structure; [mpinit] finds the processors
    of a table as the specification of the tables lays it out. *)

From S2P Require Import Prelude Machine Digits Hw Mp.
Import Mp.

(** ** The search *)

Lemma mpsearch_from_find m n p e :
  0 <= p -> p + 16 * Z.of_nat n < 4294967296 -> e = p + 16 * Z.of_nat n ->
  mpsearch_from m (n + 1) p e = snd <$> list_find (fun q => mp_valid m q = true) ((fun k => p + 16 * k) <$> seqZ 0 (Z.of_nat n)).
Proof.
  revert p. induction n as [|n IH]; intros p Hp Hlt ->.
  - cbn [mpsearch_from Nat.add]. destruct (Z.ltb_spec p (p + 16 * Z.of_nat 0)); [lia|]. done.
  - cbn [mpsearch_from Nat.add]. destruct (Z.ltb_spec p (p + 16 * Z.of_nat (S n))); [|lia].
    rewrite seqZ_cons by lia. rewrite fmap_cons. cbn [list_find]. rewrite Z.mul_0_r, Z.add_0_r.
    destruct (decide (mp_valid m p = true)) as [E|E]; [by rewrite E|]. apply not_true_is_false in E. rewrite E.
    unfold sizeof_mp. rewrite u32_small by lia. rewrite IH by lia.
    replace (Z.succ 0) with 1 by lia. replace (Z.pred (Z.of_nat (S n))) with (Z.of_nat n) by lia.
    assert (El : (fun k => p + 16 + 16 * k) <$> seqZ 0 (Z.of_nat n) = (fun k => p + 16 * k) <$> seqZ 1 (Z.of_nat n)).
    { replace (seqZ 1 (Z.of_nat n)) with (Z.add 1 <$> seqZ 0 (Z.of_nat n)) by apply fmap_add_seqZ.
      rewrite <- list_fmap_compose. apply list_fmap_ext. intros i x _. simpl. lia. }
    rewrite El. destruct (list_find _ _) as [[j q]|]; done.
Qed.

(** ** The table *)

(** The entries of a configuration table. *)
Inductive mp_entry :=
| En_proc (apicid : Z) (rest : list Z)
| En_ioapic (apicno : Z) (rest : list Z)
| En_other (type : Z) (rest : list Z).

Definition entry_bytes (en : mp_entry) : list Z :=
  match en with
  | En_proc id rest => MPPROC :: id :: rest
  | En_ioapic id rest => MPIOAPIC :: id :: rest
  | En_other t rest => t :: rest
  end.

Definition entry_ok (en : mp_entry) : Prop :=
  match en with
  | En_proc id rest => 0 <= id < 256 /\ length rest = 18%nat
  | En_ioapic id rest => 0 <= id < 256 /\ length rest = 6%nat
  | En_other t rest => t ∈ [MPBUS; MPIOINTR; MPLINTR] /\ length rest = 7%nat
  end.

Definition processors (es : list mp_entry) : list Z := omap (fun en => match en with En_proc id _ => Some id | _ => None end) es.

Definition io_apic (d : Z) (es : list mp_entry) : Z :=
  foldl (fun d en => match en with En_ioapic id _ => id | _ => d end) d es.

(** Memory holds the bytes [l] from [a] on. *)
Definition holds (m : Z -> Z) (a : Z) (l : list Z) : Prop := forall k x, l !! k = Some x -> uchar_at m (a + Z.of_nat k) = x.

Lemma holds_app m a l1 l2 : holds m a (l1 ++ l2) -> holds m a l1 /\ holds m (a + Z.of_nat (length l1)) l2.
Proof.
  intros Hh. split; intros k x Hk.
  - apply Hh. by apply lookup_app_l_Some.
  - replace (a + Z.of_nat (length l1) + Z.of_nat k) with (a + Z.of_nat (length l1 + k)) by lia. apply Hh.
    rewrite lookup_app_r by lia. by replace (length l1 + k - length l1)%nat with k by lia.
Qed.

Section Mp.
Context {D : Type} `{Hw D}.
Notation st := (mpst (D := D)).

(** What an entry does to the variables. *)
Definition seen_entry (s : st) (en : mp_entry) : st :=
  match en with
  | En_proc id _ => if Z.of_nat (length (m_cpus s)) <? NCPU then Mpst (mdev s) (m_lapic s) (m_cpus s ++ [id]) (m_ioapicid s) else s
  | En_ioapic id _ => Mpst (mdev s) (m_lapic s) (m_cpus s) id
  | En_other _ _ => s
  end.

Lemma mp_entries_prefix m es : forall f p e s ismp,
  Forall entry_ok es -> holds m p (concat (entry_bytes <$> es)) -> 0 <= p ->
  p + Z.of_nat (length (concat (entry_bytes <$> es))) <= e -> e < 4294967296 ->
  mp_entries m (length es + f) p e ismp s =
  mp_entries m f (p + Z.of_nat (length (concat (entry_bytes <$> es)))) e ismp (foldl seen_entry s es).
Proof.
  induction es as [|en es IH]; intros f p e s ismp Hok Hh Hp He Hlt.
  - simpl. by rewrite Z.add_0_r.
  - apply Forall_cons_1 in Hok as [Hen Hok]. rewrite fmap_cons in *. cbn [concat] in *. rewrite length_app in *.
    apply holds_app in Hh as [Hh Hh']. cbn [length Nat.add mp_entries].
    assert (Hl : (length (entry_bytes en) = 20 \/ length (entry_bytes en) = 8)%nat) by (destruct en; simpl in *; destruct Hen; lia).
    destruct (Z.ltb_spec p e); [|lia].
    assert (Hrec : forall n s', n = Z.of_nat (length (entry_bytes en)) ->
      mp_entries m (length es + f) (u32 (p + n)) e ismp s' =
      mp_entries m f (p + Z.of_nat (length (entry_bytes en) + length (concat (entry_bytes <$> es)))) e ismp (foldl seen_entry s' es)).
    { intros n s' ->. rewrite u32_small, IH by (done || lia). f_equal. lia. }
    assert (Ht0 : forall x, entry_bytes en !! 0%nat = Some x -> uchar_at m p = x).
    { intros x Hx. rewrite <- (Hh 0%nat x Hx). f_equal. lia. }
    assert (Ht1 : forall x, entry_bytes en !! 1%nat = Some x -> uchar_at m (p + 1) = x) by apply Hh.
    destruct en as [id rest|id rest|t rest]; simpl in Hen; destruct Hen as [H1 H2].
    + rewrite (Ht0 MPPROC) by done. cbn iota. change (MPPROC =? MPPROC) with true. cbn iota.
      erewrite bind_ok by (unfold modify; reflexivity). rewrite (Ht1 id) by done. rewrite Hrec by (simpl; lia). done.
    + rewrite (Ht0 MPIOAPIC) by done. cbn iota.
      change (MPIOAPIC =? MPPROC) with false. change (MPIOAPIC =? MPIOAPIC) with true. cbn iota.
      erewrite bind_ok by (unfold modify; reflexivity). rewrite (Ht1 id) by done. rewrite Hrec by (simpl; lia). done.
    + rewrite (Ht0 t) by done.
      assert (t = 1 \/ t = 3 \/ t = 4) as Hc by (unfold MPBUS, MPIOINTR, MPLINTR in *; set_solver).
      destruct Hc as [-> | [-> | ->]]; simpl; rewrite Hrec by (simpl; lia); done.
Qed.

Lemma mp_entries_run m es fuel p e (s : st) ismp :
  Forall entry_ok es -> holds m p (concat (entry_bytes <$> es)) -> 0 <= p ->
  e = p + Z.of_nat (length (concat (entry_bytes <$> es))) -> e < 4294967296 -> (length es < fuel)%nat ->
  mp_entries m fuel p e ismp s = Ok ismp (foldl seen_entry s es).
Proof.
  intros Hok Hh Hp -> Hlt Hf. replace fuel with (length es + S (fuel - length es - 1))%nat by lia.
  rewrite mp_entries_prefix by (done || lia). cbn [mp_entries]. by rewrite Z.ltb_irrefl.
Qed.

(** At an entry of an unknown type the loop stands still. *)
Lemma mp_entries_stuck m p e : 4 < uchar_at m p -> p < e -> forall fuel ismp (s : st), mp_entries m fuel p e ismp s = NoFuel.
Proof.
  intros Ht Hp. induction fuel as [|f IH]; intros ismp s; [done|]. cbn [mp_entries]. destruct (Z.ltb_spec p e); [|lia].
  unfold MPPROC, MPIOAPIC, MPBUS, MPIOINTR, MPLINTR. zcases; try lia. apply IH.
Qed.

Lemma mp_entries_unknown m es t rest fuel p e (s : st) ismp :
  Forall entry_ok es -> 4 < t -> holds m p (concat (entry_bytes <$> es) ++ t :: rest) -> 0 <= p ->
  p + Z.of_nat (length (concat (entry_bytes <$> es))) < e -> e < 4294967296 ->
  mp_entries m fuel p e ismp s = NoFuel.
Proof.
  intros Hok Ht Hh Hp He Hlt. pose proof (holds_app _ _ _ _ Hh) as [Hh1 Hh2].
  destruct (decide (length es <= fuel)%nat).
  - replace fuel with (length es + (fuel - length es))%nat by lia. rewrite mp_entries_prefix by (done || lia).
    apply mp_entries_stuck; [|lia]. specialize (Hh2 0%nat t eq_refl). rewrite Z.add_0_r in Hh2. by rewrite Hh2.
  - rewrite <- (take_drop fuel es) in Hh1, He, Hok. rewrite fmap_app, concat_app in Hh1, He. rewrite length_app in He.
    apply holds_app in Hh1 as [Hh1 _]. apply Forall_app in Hok as [Hok _].
    replace fuel with (length (take fuel es) + 0)%nat at 1 by (rewrite length_take; lia).
    by rewrite mp_entries_prefix by (done || lia).
Qed.

Lemma seen_all es : forall s, Z.of_nat (length (m_cpus s)) <= NCPU ->
  foldl seen_entry s es = Mpst (mdev s) (m_lapic s) (take (Z.to_nat NCPU) (m_cpus s ++ processors es)) (io_apic (m_ioapicid s) es).
Proof.
  induction es as [|en es IH]; intros s Hs.
  - simpl. rewrite app_nil_r, take_ge by lia. by destruct s.
  - cbn [foldl]. destruct en as [id rest|id rest|t rest]; simpl.
    + destruct (Z.ltb_spec (Z.of_nat (length (m_cpus s))) NCPU) as [Hl|Hl].
      * rewrite IH; [|simpl; rewrite length_app; simpl; lia]. simpl. by rewrite <- app_assoc.
      * rewrite IH by lia. f_equal. rewrite !take_app_le by lia. done.
    + by rewrite IH.
    + by rewrite IH.
Qed.

(** The firmware's tables: a floating structure [mp] and a configuration
    table [conf] whose entries have the bytes [bs]. *)
Record mp_tables (m : Z -> Z) (mp conf : Z) (bs : list Z) : Prop := {
  mt_search : mpsearch m = Some mp;
  mt_addr : mp_physaddr m mp <> 0 /\ u32 (P2V (mp_physaddr m mp)) = conf;
  mt_sig : uchars m conf 4 = chars "PCMP";
  mt_version : conf_version m conf = 1 \/ conf_version m conf = 4;
  mt_sum : sum m conf (conf_length m conf) = 0;
  mt_length : conf_length m conf = sizeof_mpconf + Z.of_nat (length bs);
  mt_room : conf + conf_length m conf < 4294967296;
  mt_bytes : holds m (conf + sizeof_mpconf) bs }.

Lemma tables_config m mp conf bs : mp_tables m mp conf bs -> mpconfig m = Some (mp, conf).
Proof.
  intros [Hs [Ha Hc] Hsig Hv Hsum _ _ _]. unfold mpconfig. rewrite Hs, (proj2 (Z.eqb_neq _ _) Ha), Hc.
  rewrite bool_decide_eq_true_2 by done. cbn [negb].
  assert (Ev : negb (conf_version m conf =? 1) && negb (conf_version m conf =? 4) = false).
  { destruct Hv as [-> | ->]; done. }
  by rewrite Ev, Hsum.
Qed.

(** The search of a region finds its first valid structure. *)
Lemma mpsearch1_first m a n : 0 <= P2V a -> P2V a + 16 * Z.of_nat n < 4294967296 ->
  mpsearch1 m a (16 * Z.of_nat n) =
  snd <$> list_find (fun q => mp_valid m q = true) ((fun k => P2V a + 16 * k) <$> seqZ 0 (Z.of_nat n)).
Proof.
  intros Ha Hlt. unfold mpsearch1, sizeof_mp. rewrite (Z.mul_comm 16), Z.div_mul, Nat2Z.id by lia. rewrite (Z.mul_comm _ 16).
  rewrite (u32_small (P2V a)), (u32_small (P2V a + _)) by lia. by apply mpsearch_from_find.
Qed.

Lemma tables_entries m mp conf bs : mp_tables m mp conf bs -> 0 <= conf /\
  u32 (conf + sizeof_mpconf) = conf + sizeof_mpconf /\
  u32 (conf + conf_length m conf) = conf + sizeof_mpconf + Z.of_nat (length bs).
Proof.
  intros [_ [_ Hc] _ _ _ Hl Hr _]. assert (0 <= conf) by (rewrite <- Hc; apply u32_range).
  rewrite Hl in *. unfold sizeof_mpconf in *. rewrite !u32_small by lia. lia.
Qed.

(** C25. [mpinit] finds what the tables list: the local APIC's address, the local
    APIC ids of the first [NCPU] processors in the order of the table, the id
    of the last I/O APIC; any entry count is enough fuel, and nothing is
    written to a device unless the tables ask for it. *)
Theorem mpinit_exact m fuel (s : st) mp conf es :
  mp_tables m mp conf (concat (entry_bytes <$> es)) -> Forall entry_ok es -> (length es < fuel)%nat -> m_cpus s = [] ->
  exists d, mpinit m fuel s =
    Ok tt (Mpst d (conf_lapicaddr m conf) (take (Z.to_nat NCPU) (processors es)) (io_apic (m_ioapicid s) es)) /\
    (mp_imcrp m mp = 0 -> d = mdev s).
Proof.
  intros Ht Hes Hf Hc. unfold mpinit. rewrite (tables_config _ _ _ _ Ht). erewrite bind_ok by (unfold modify; reflexivity).
  destruct (tables_entries _ _ _ _ Ht) as (H0 & E1 & E2). rewrite E1, E2.
  assert (Hcap : conf + sizeof_mpconf + Z.of_nat (length (concat (entry_bytes <$> es))) < 4294967296).
  { rewrite <- E2. apply u32_range. }
  erewrite bind_ok by (apply (mp_entries_run m es); [done|apply (mt_bytes _ _ _ _ Ht)|unfold sizeof_mpconf; lia|done|done|done]).
  rewrite seen_all by (simpl; rewrite Hc; unfold NCPU; simpl; lia). cbn [negb mdev m_lapic m_cpus m_ioapicid]. rewrite Hc.
  destruct (Z.eqb_spec (mp_imcrp m mp) 0) as [E|E]; eexists; split; [reflexivity|done|reflexivity|done].
Qed.

(** C39. An entry of an unknown type is never passed: [break] leaves the [switch],
    [p] stays where it is, and [mpinit] does not come back, so that the panic
    meant for this case is not reached. *)
Theorem mpinit_unknown_hangs m fuel (s : st) mp conf es t rest :
  mp_tables m mp conf (concat (entry_bytes <$> es) ++ t :: rest) -> Forall entry_ok es -> 4 < t ->
  mpinit m fuel s = NoFuel.
Proof.
  intros Ht Hes Htype. unfold mpinit. rewrite (tables_config _ _ _ _ Ht). erewrite bind_ok by (unfold modify; reflexivity).
  destruct (tables_entries _ _ _ _ Ht) as (H0 & E1 & E2). pose proof (mt_bytes _ _ _ _ Ht) as Hh.
  pose proof (u32_range (conf + conf_length m conf)) as Hcap. rewrite E1. rewrite E2 in *. rewrite length_app in *. cbn [length] in *.
  unfold bind. set (p := conf + sizeof_mpconf) in *. assert (0 <= p) by (unfold p, sizeof_mpconf; lia).
  rewrite mp_entries_unknown with (es := es) (t := t) (rest := rest) by (done || lia). done.
Qed.
End Mp.

(** ** A machine with two processors *)

Lemma holds_test m a l : uchars m a (length l) = l -> holds m a l.
Proof.
  intros E k x Hk. rewrite <- E in Hk. unfold uchars in Hk. rewrite list_lookup_fmap in Hk.
  destruct (seqZ 0 (Z.of_nat (length l)) !! k) as [y|] eqn:Ey; [|done]. injection Hk as <-.
  apply lookup_seqZ in Ey as [-> _]. done.
Qed.

Definition demo_entries : list mp_entry :=
  [En_proc 0 (replicate 18 0); En_proc 5 (replicate 18 0); En_ioapic 2 (replicate 6 0)].

(** With the checksum in byte [k]. *)
Definition checked (k : nat) (l : list Z) : list Z := <[k := u8 (- foldl Z.add 0 l)]> l.

Definition demo_float : list Z := checked 10 (chars "_MP_" ++ [0; 0x10; 0; 0; 1; 4; 0; 0; 0; 0; 0; 0]).

Definition demo_conf (bs : list Z) : list Z :=
  checked 7 (chars "PCMP" ++ [Z.of_nat (44 + length bs); 0; 4; 0] ++ replicate 28 0 ++ [0; 0; 0xE0; 0xFE; 0; 0; 0; 0] ++ bs).

Definition demo_bios (bs : list Z) (a : Z) : Z :=
  if (0x800F0000 <=? a) && (a <? 0x800F0010) then demo_float !!! Z.to_nat (a - 0x800F0000)
  else if (0x80001000 <=? a) && (a <? 0x80001100) then default 0 (demo_conf bs !! Z.to_nat (a - 0x80001000))
  else 0.

#[export] Instance unit_hw : Hw unit := {|
  port_in _ d := (0, d); port_out _ _ d := d; port_ins _ _ d := ([], d); port_outs _ _ d := d;
  bus_in _ d := (0, d); bus_out _ _ _ d := d |}.

Definition demo_mpst : mpst (D := unit) := Mpst tt 0 [] 0.

Lemma mpinit_exact_witness :
  mpinit (demo_bios (concat (entry_bytes <$> demo_entries))) 4 demo_mpst = Ok tt (Mpst tt 0xFEE00000 [0; 5] 2).
Proof.
  destruct (mpinit_exact (demo_bios (concat (entry_bytes <$> demo_entries))) 4 demo_mpst 0x800F0000 0x80001000 demo_entries)
    as (d & E & _).
  - split.
    + vm_compute. reflexivity.
    + split; [by vm_compute|]. vm_compute. reflexivity.
    + vm_compute. reflexivity.
    + right. vm_compute. reflexivity.
    + vm_compute. reflexivity.
    + vm_compute. reflexivity.
    + vm_compute. reflexivity.
    + apply holds_test. vm_compute. reflexivity.
  - repeat constructor; simpl; lia.
  - simpl. lia.
  - reflexivity.
  - destruct d. exact E.
Defined.

Lemma mpinit_unknown_hangs_witness :
  mpinit (demo_bios (entry_bytes (En_proc 0 (replicate 18 0)) ++ [9])) 1000 demo_mpst = NoFuel.
Proof.
  apply (mpinit_unknown_hangs (demo_bios (entry_bytes (En_proc 0 (replicate 18 0)) ++ [9])) 1000 demo_mpst
    0x800F0000 0x80001000 [En_proc 0 (replicate 18 0)] 9 []).
  - split.
    + vm_compute. reflexivity.
    + split; [by vm_compute|]. vm_compute. reflexivity.
    + vm_compute. reflexivity.
    + right. vm_compute. reflexivity.
    + vm_compute. reflexivity.
    + vm_compute. reflexivity.
    + vm_compute. reflexivity.
    + apply holds_test. vm_compute. reflexivity.
  - repeat constructor; simpl; lia.
  - lia.
Defined.
