(* ===== verification/Boot.v ===== *)
(** * bootmain.c, and the tables of main.c and vm.c: the boot loader

    The boot sector reads the kernel's ELF image from the disk by polling and
    puts it into physical memory; paging is off.  The result is the entry
    point, [None] when [bootmain] returns to bootasm.S.  The page directory
    the kernel is entered with and the segments of [seginit] are data. *)

From S2P Require Import Prelude Machine Digits Hw StringC Spinlock Kalloc Vm Kernel Sleep Bio Log Inode Console Fs Pipe File Proc Exec.

Module Boot.

Definition SECTSIZE : Z := 512.

(** Bytes [l] at [a]. *)
Definition store_at (a : Z) (l : list Z) (m : Z -> Z) : Z -> Z :=
  fun k => if (a <=? k) && (k <? a + Z.of_nat (length l)) then l !!! Z.to_nat (k - a) else m k.

Definition u16_at (m : Z -> Z) (a : Z) : Z := u8 (m a) + 256 * u8 (m (a + 1)).
Definition u32_at (m : Z -> Z) (a : Z) : Z := u16_at m a + 65536 * u16_at m (a + 2).

(** The fields of [struct elfhdr] and [struct proghdr] that are used. *)
Definition elf_magic (m : Z -> Z) (elf : Z) : Z := u32_at m elf.
Definition elf_entry (m : Z -> Z) (elf : Z) : Z := u32_at m (elf + 24).
Definition elf_phoff (m : Z -> Z) (elf : Z) : Z := u32_at m (elf + 28).
Definition elf_phnum (m : Z -> Z) (elf : Z) : Z := u16_at m (elf + 44).
Definition sizeof_proghdr : Z := 32.
Definition ph_off (m : Z -> Z) (ph : Z) : Z := u32_at m (ph + 4).
Definition ph_paddr (m : Z -> Z) (ph : Z) : Z := u32_at m (ph + 12).
Definition ph_filesz (m : Z -> Z) (ph : Z) : Z := u32_at m (ph + 16).
Definition ph_memsz (m : Z -> Z) (ph : Z) : Z := u32_at m (ph + 20).

(** ** Tables for the start *)

Definition STA_X : Z := 0x8.
Definition STA_W : Z := 0x2.
Definition STA_R : Z := 0x2.

(** vm.c: the descriptors written into the CPU's [gdt]. *)
Definition seginit (gdt : list segdesc) : list segdesc :=
  <[Z.to_nat SEG_UDATA := SEG STA_W 0 0xffffffff DPL_USER]>
    (<[Z.to_nat SEG_UCODE := SEG (Z.lor STA_X STA_R) 0 0xffffffff DPL_USER]>
      (<[Z.to_nat SEG_KDATA := SEG STA_W 0 0xffffffff 0]>
        (<[Z.to_nat SEG_KCODE := SEG (Z.lor STA_X STA_R) 0 0xffffffff 0]> gdt))).

(** ** The loader *)

Section Boot.
Context {D : Type} `{Hw D} `{Waits}.

Record bst := Bst { bo_dev : D; phys : Z -> Z }.

Definition upd_phys (f : (Z -> Z) -> Z -> Z) (s : bst) : bst := Bst (bo_dev s) (f (phys s)).

#[export] Instance bst_HasDev : HasDev bst D := {| get_dev := bo_dev; set_dev := fun d s => Bst d (phys s) |}.

Definition waitdisk : M bst unit :=
  loop waits (fun _ =>
    v <- inb 0x1F7 ;;
    if Z.land v 0xC0 =? 0x40 then ret (inr tt) else ret (inl tt)) tt.

Definition readsect (dst offset : Z) : M bst unit :=
  waitdisk ;;
  outb 0x1F2 1 ;;
  outb 0x1F3 offset ;;
  outb 0x1F4 (Z.shiftr offset 8) ;;
  outb 0x1F5 (Z.shiftr offset 16) ;;
  outb 0x1F6 (Z.lor (Z.shiftr offset 24) 0xE0) ;;
  outb 0x1F7 0x20 ;;
  waitdisk ;;
  data <- insl 0x1F0 (SECTSIZE / 4) ;;
  modify (upd_phys (store_at dst data)).

Fixpoint readseg_loop (fuel : nat) (pa epa offset : Z) : M bst unit :=
  match fuel with
  | O => fun _ => NoFuel
  | S f =>
      if pa <? epa then
        readsect pa offset ;;
        readseg_loop f (u32 (pa + SECTSIZE)) epa (u32 (offset + 1))
      else ret tt
  end.

(** At most [(count + 1023) / 512] sectors are read. *)
Definition readseg (pa count offset : Z) : M bst unit :=
  let epa := u32 (pa + count) in
  let pa := u32 (pa - offset mod SECTSIZE) in
  let offset := u32 (offset / SECTSIZE + 1) in
  readseg_loop (Z.to_nat ((count + 1023) / SECTSIZE) + 1) pa epa offset.

(** The program headers from [ph] on. *)
Fixpoint boot_segs (fuel : nat) (ph eph : Z) : M bst unit :=
  match fuel with
  | O => fun _ => NoFuel
  | S f =>
      if ph <? eph then
        m <- gets phys ;;
        let pa := ph_paddr m ph in
        readseg pa (ph_filesz m ph) (ph_off m ph) ;;
        m <- gets phys ;;
        (when ph_filesz m ph <? ph_memsz m ph do
          modify (upd_phys (store_at (u32 (pa + ph_filesz m ph))
            (replicate (Z.to_nat (ph_memsz m ph - ph_filesz m ph)) 0)))) ;;
        boot_segs f (u32 (ph + sizeof_proghdr)) eph
      else ret tt
  end.

Definition bootmain : M bst (option Z) :=
  let elf := 0x10000 in
  readseg elf 4096 0 ;;
  m <- gets phys ;;
  if negb (elf_magic m elf =? ELF_MAGIC) then ret None
  else
    let ph := u32 (elf + elf_phoff m elf) in
    boot_segs (Z.to_nat (elf_phnum m elf) + 1) ph (u32 (ph + sizeof_proghdr * elf_phnum m elf)) ;;
    m <- gets phys ;;
    ret (Some (elf_entry m elf)).
End Boot.
End Boot.
