(* ===== verification/BootProps.v ===== *)
(** * The boot loader puts the kernel into memory

    For a disk whose sectors from 1 on hold an ELF image, and segments that
    leave each other and the scratch space alone, every byte of every segment
    is where its program header says, the rest of its memory is zero, and the
    entry point is that of the image. *)

From S2P Require Import Prelude Machine Digits Hw StringC Spinlock Kalloc Vm Kernel Sleep Bio Log Inode Console Fs Pipe File Proc Exec.
From S2P Require Import Apic Ide IdeProps IdeSpec Boot.
Import Boot.

(** A drive that is polled while it works: after fewer than [waits] reads of
    the status, all of which show it busy, it is done. *)
Class AtaPoll (D : Type) `{AtaDisk D} `{Waits} := {
  poll_ends : forall d c, ata_phase d = A_busy c ->
    exists n, (n < waits)%nat /\ Nat.iter n (fun d => (port_in 0x1f7 d).2) d = finish d /\
      forall k, (k < n)%nat -> Z.land (u8 (port_in 0x1f7 (Nat.iter k (fun d => (port_in 0x1f7 d).2) d)).1) 0xC0 <> 0x40 }.

Section Boot.
Context {D : Type} `{AtaPoll D} (Hw1 : (0 < waits)%nat).
Notation st := (bst (D := D)).

Notation poll_body := (fun _ : unit => v <- inb 0x1F7 ;; if Z.land v 0xC0 =? 0x40 then ret (inr tt) else ret (inl tt)).

Lemma poll_run n : forall w (d d' : D) (m : Z -> Z), (n < w)%nat -> Nat.iter n (fun d => (port_in 0x1f7 d).2) d = d' ->
  (forall k, (k < n)%nat -> Z.land (u8 (port_in 0x1f7 (Nat.iter k (fun d => (port_in 0x1f7 d).2) d)).1) 0xC0 <> 0x40) ->
  (forall c, ata_phase d' <> A_busy c) -> loop w poll_body tt (Bst d m) = Ok tt (Bst d' m).
Proof.
  induction n as [|n IH]; intros w d d' m Hw Hd Hb Hn; (destruct w as [|w]; [lia|]); cbn [loop].
  - simpl in Hd. subst d'. destruct (ata_status d Hn) as (v & Ev & Hv & Hr & _).
    erewrite bind_ok; [|erewrite bind_ok by (unfold inb; simpl; rewrite Ev; reflexivity); cbn [fst snd]; rewrite u8_small by done; rewrite Hr; reflexivity].
    done.
  - pose proof (Hb 0%nat ltac:(lia)) as H0'. simpl in H0'. rewrite Nat.iter_succ_r in Hd.
    erewrite bind_ok; [|erewrite bind_ok by (unfold inb; reflexivity); rewrite (proj2 (Z.eqb_neq _ _)) by exact H0'; reflexivity].
    cbv beta iota. apply IH; [lia|exact Hd| |done]. intros k Hk. specialize (Hb (S k) ltac:(lia)). by rewrite Nat.iter_succ_r in Hb.
Qed.

Lemma waitdisk_ready (s : st) : (forall c, ata_phase (bo_dev s) <> A_busy c) -> waitdisk s = Ok tt s.
Proof. intros Hn. destruct s as [d m]. apply (poll_run 0); [lia|done|lia|done]. Qed.

Lemma waitdisk_read (s : st) dr l : ata_phase (bo_dev s) = A_busy (Rd dr l) ->
  waitdisk s = Ok tt (Bst (finish (bo_dev s)) (phys s)).
Proof.
  intros Hb. destruct s as [d m]. destruct (poll_ends d _ Hb) as (n & Hn & Hd & Hk). apply (poll_run n); [done|done|done|].
  intros c. cbn [bo_dev] in *. destruct (ata_finish_rd d dr l Hb) as [-> _]. done.
Qed.

Lemma outb_boot (s : st) p v : outb p v s = Ok tt (Bst (port_out p (u8 v) (bo_dev s)) (phys s)).
Proof. done. Qed.

Lemma readsect_run (s : st) dst lba : ata_phase (bo_dev s) = A_idle -> 0 <= lba < 268435456 ->
  exists d, readsect dst lba s = Ok tt (Bst d (store_at dst (sect (bo_dev s) 0 lba) (phys s))) /\
    ata_phase d = A_idle /\ forall dr l, sect d dr l = sect (bo_dev s) dr l.
Proof.
  intros Hph Hl. destruct (ata_read (bo_dev s) 0 lba Hph ltac:(lia) Hl) as [Hb Hs].
  set (d1 := port_out 0x1f7 0x20 (select 0 lba (bo_dev s))) in *. destruct (ata_finish_rd d1 0 lba Hb) as [Hd Hs2].
  destruct (ata_data _ _ _ Hd) as (d & Ed & Hi & Hs3). exists d. split_and!; [|done|intros; by rewrite Hs3, Hs2, Hs].
  unfold readsect. erewrite bind_ok by (apply waitdisk_ready; by rewrite Hph). do 6 erewrite bind_ok by apply outb_boot.
  cbn [bo_dev phys]. rewrite !Z.shiftr_div_pow2 by lia. change (2 ^ 8) with 256. change (2 ^ 16) with 65536. change (2 ^ 24) with 16777216.
  assert (E6 : u8 (Z.lor (lba / 16777216) 0xE0) = 0xe0 + 16 * 0 + lba / 16777216).
  { rewrite Z.lor_comm. change 0xE0 with (14 * 2 ^ 4). rewrite lor_low by zlia. rewrite u8_small by zlia. lia. }
  rewrite E6. change (u8 1) with 1. change (u8 0x20) with 0x20. unfold u8. fold (select 0 lba (bo_dev s)). fold d1.
  erewrite bind_ok by (by eapply waitdisk_read). cbn [bo_dev phys].
  erewrite bind_ok by (unfold insl; change (4 * (SECTSIZE / 4)) with 512; simpl; rewrite Ed; reflexivity).
  unfold modify, upd_phys. simpl. by rewrite Hs2, Hs.
Qed.

(** ** Segments *)

(** The image [img] lies on the disk from sector 1 on. *)
Definition on_disk (d : D) (img : Z -> Z) : Prop :=
  forall n, 0 <= n -> length (sect d 0 (n + 1)) = 512%nat /\
    forall j, 0 <= j < 512 -> sect d 0 (n + 1) !!! Z.to_nat j = img (512 * n + j).

Definition ready (s : st) (img : Z -> Z) : Prop := ata_phase (bo_dev s) = A_idle /\ on_disk (bo_dev s) img.

Lemma readseg_loop_run n : forall fuel (s : st) img pa epa q,
  ready s img -> (n < fuel)%nat -> 0 <= pa -> pa + 512 * Z.of_nat n < 4294967296 -> 0 <= q -> q + Z.of_nat n + 1 < 268435456 ->
  (n = O /\ epa <= pa \/ pa + 512 * (Z.of_nat n - 1) < epa <= pa + 512 * Z.of_nat n) ->
  exists s', readseg_loop fuel pa epa (q + 1) s = Ok tt s' /\ ready s' img /\
    forall k, phys s' k = if (pa <=? k) && (k <? pa + 512 * Z.of_nat n) then img (k - pa + 512 * q) else phys s k.
Proof.
  induction n as [|n IH]; intros fuel s img pa epa q [Hph Hd] Hf Hp Hlt Hq Hql He; (destruct fuel as [|f]; [lia|]); cbn [readseg_loop].
  - destruct (Z.ltb_spec pa epa); [lia|]. exists s. split_and!; [done|done|]. intros k.
    destruct (Z.leb_spec pa k), (Z.ltb_spec k (pa + 512 * Z.of_nat 0)); simpl; lia || done.
  - destruct (Z.ltb_spec pa epa); [|lia]. destruct (readsect_run s pa (q + 1) Hph ltac:(lia)) as (d & E & Hi & Hs).
    erewrite bind_ok by exact E. unfold SECTSIZE. rewrite !u32_small by lia.
    destruct (IH f (Bst d (store_at pa (sect (bo_dev s) 0 (q + 1)) (phys s))) img (pa + 512) epa (q + 1)) as (s' & E' & Hr & Hm);
      [|lia|lia|lia|lia|lia|lia|].
    { split; [done|]. intros i Hi'. cbn [bo_dev]. rewrite Hs. by apply Hd. }
    exists s'. split_and!; [done|done|]. intros k. rewrite Hm. cbn [phys]. unfold store_at.
    destruct (Hd q Hq) as [Hlen Hb]. rewrite Hlen.
    destruct (Z.leb_spec (pa + 512) k); destruct (Z.ltb_spec k (pa + 512 + 512 * Z.of_nat n)); destruct (Z.leb_spec pa k);
      destruct (Z.ltb_spec k (pa + Z.of_nat 512)); destruct (Z.ltb_spec k (pa + 512 * Z.of_nat (S n))); cbn [andb]; try lia; try done.
    + f_equal. lia.
    + rewrite Hb by lia. f_equal. lia.
Qed.

(** The sectors of a segment. *)
Definition sectors (count offset : Z) : Z := (count + offset mod 512 + 511) / 512.

Lemma readseg_run (s : st) img pa count offset :
  ready s img -> 0 <= count -> 0 <= offset -> offset mod 512 <= pa -> pa + count + 1024 < 4294967296 ->
  offset + count < 137438952448 -> offset < 4294967296 ->
  exists s', readseg pa count offset s = Ok tt s' /\ ready s' img /\
    let a := pa - offset mod 512 in
    forall k, phys s' k = if (a <=? k) && (k <? a + 512 * sectors count offset) then img (k - pa + offset) else phys s k.
Proof.
  intros Hr Hc Ho Hpa Hlt Hdl Ho32. unfold readseg, SECTSIZE. rewrite !u32_small by zlia.
  set (n := sectors count offset). assert (Hn : 0 <= n /\ 512 * n < count + offset mod 512 + 512 /\ count + offset mod 512 <= 512 * n) by (unfold n, sectors; zlia).
  destruct (readseg_loop_run (Z.to_nat n) (Z.to_nat ((count + 1023) / 512) + 1) s img (pa - offset mod 512) (pa + count) (offset / 512) Hr)
    as (s' & E & Hr' & Hm); [|zlia|zlia|zlia|zlia|zlia|].
  { assert (n <= (count + 1023) / 512) by (unfold n, sectors; zlia). lia. }
  exists s'. split_and!; [exact E|done|]. cbn zeta. intros k. rewrite Hm. rewrite Z2Nat.id by lia.
  destruct ((pa - offset mod 512 <=? k) && (k <? pa - offset mod 512 + 512 * n)); [|done]. f_equal. zlia.
Qed.

(** ** The image *)

Section Image.
Context (img : Z -> Z).

Definition nseg : Z := elf_phnum img 0.
Definition phdr (i : Z) : Z := elf_phoff img 0 + 32 * i.
Definition seg_off (i : Z) : Z := ph_off img (phdr i).
Definition seg_pa (i : Z) : Z := ph_paddr img (phdr i).
Definition seg_filesz (i : Z) : Z := ph_filesz img (phdr i).
Definition seg_memsz (i : Z) : Z := ph_memsz img (phdr i).
(** Whole sectors are read. *)
Definition seg_from (i : Z) : Z := seg_pa i - seg_off i mod 512.

(** A header that describes nothing, as that of the stack. *)
Definition seg_empty (i : Z) : Prop := seg_memsz i = 0 /\ seg_filesz i = 0 /\ seg_off i mod 512 = 0.

(** An ELF image whose headers are in its first page and whose segments,
    unless they are empty, lie above the scratch space and in increasing
    order, sector by sector. *)
Record image_ok : Prop := {
  im_magic : elf_magic img 0 = ELF_MAGIC;
  im_hdrs : phdr nseg <= 4096;
  im_seg : forall i, 0 <= i < nseg -> ~ seg_empty i ->
    seg_filesz i <= seg_memsz i /\ 0x11000 <= seg_from i /\ seg_pa i + seg_memsz i + 1024 < 4294967296;
  im_apart : forall i j, 0 <= i < j -> j < nseg -> ~ seg_empty i -> ~ seg_empty j ->
    seg_pa i + seg_memsz i <= seg_from j }.

Definition loaded (m : Z -> Z) (i : Z) : Prop := forall k, 0 <= k < seg_memsz i ->
  m (seg_pa i + k) = if k <? seg_filesz i then img (seg_off i + k) else 0.

Definition scratch (m : Z -> Z) : Prop := forall k, 0 <= k < 4096 -> m (0x10000 + k) = img k.

Lemma u16_at_range m a : 0 <= u16_at m a < 65536.
Proof. unfold u16_at. pose proof (u8_range (m a)). pose proof (u8_range (m (a + 1))). lia. Qed.

Lemma u32_at_range m a : 0 <= u32_at m a < 4294967296.
Proof. unfold u32_at. pose proof (u16_at_range m a). pose proof (u16_at_range m (a + 2)). lia. Qed.

Lemma scratch_u16 m a : scratch m -> 0 <= a -> a + 2 <= 4096 -> u16_at m (0x10000 + a) = u16_at img a.
Proof. intros Hs Ha Hl. unfold u16_at. rewrite <- Z.add_assoc, !Hs by lia. done. Qed.

Lemma scratch_u32 m a : scratch m -> 0 <= a -> a + 4 <= 4096 -> u32_at m (0x10000 + a) = u32_at img a.
Proof. intros Hs Ha Hl. unfold u32_at. rewrite <- Z.add_assoc, !scratch_u16 by (done || lia). done. Qed.

Lemma scratch_seg m i : image_ok -> scratch m -> 0 <= i < nseg ->
  let ph := 0x10000 + phdr i in
  ph_off m ph = seg_off i /\ ph_paddr m ph = seg_pa i /\ ph_filesz m ph = seg_filesz i /\ ph_memsz m ph = seg_memsz i.
Proof.
  intros Him Hs Hi ph. pose proof (im_hdrs Him). pose proof (u32_at_range img 28).
  unfold ph, ph_off, ph_paddr, ph_filesz, ph_memsz, seg_off, seg_pa, seg_filesz, seg_memsz, phdr, elf_phoff in *.
  change (0 + 28) with 28 in *. rewrite <- !Z.add_assoc. rewrite !scratch_u32 by (done || lia).
  unfold ph_off, ph_paddr, ph_filesz, ph_memsz. rewrite <- !Z.add_assoc. done.
Qed.

(** The headers are in the scratch space. *)
Lemma phdr_range i : image_ok -> 0 <= i < nseg -> 0 <= phdr i /\ phdr i + 32 <= 4096.
Proof.
  intros Him Hi. pose proof (im_hdrs Him) as Hh. pose proof (u32_at_range img 28). unfold phdr, elf_phoff in *.
  change (0 + 28) with 28 in *. lia.
Qed.

(** An empty segment. *)
Lemma empty_seg (s : st) i f eph : image_ok -> scratch (phys s) -> 0 <= i < nseg -> 0x10000 + phdr i < eph -> seg_empty i ->
  boot_segs (S f) (0x10000 + phdr i) eph s = boot_segs f (0x10000 + phdr (i + 1)) eph s.
Proof.
  intros Him Hs Hi He (Em & Ef & Eo). destruct (scratch_seg _ _ Him Hs Hi) as (E1 & E2 & E3 & E4).
  pose proof (phdr_range i Him Hi). cbn [boot_segs]. destruct (Z.ltb_spec (0x10000 + phdr i) eph); [|lia].
  erewrite bind_ok by (unfold gets; reflexivity). rewrite E1, E2, E3, Ef.
  erewrite bind_ok.
  2:{ unfold readseg, SECTSIZE. rewrite Eo, Z.sub_0_r, Z.add_0_r. cbn [readseg_loop Nat.add].
      change (Z.to_nat ((0 + 1023) / 512) + 1)%nat with 2%nat. cbn [readseg_loop]. rewrite Z.ltb_irrefl. reflexivity. }
  erewrite bind_ok by (unfold gets; reflexivity). rewrite E3, E4, Ef, Em. change (0 <? 0) with false. cbn iota.
  erewrite bind_ok by (unfold ret; reflexivity). unfold sizeof_proghdr. rewrite u32_small by lia.
  f_equal. unfold phdr. lia.
Qed.

(** One segment. *)
Lemma one_seg (s : st) i f eph : image_ok -> ready s img -> scratch (phys s) -> 0 <= i < nseg -> 0x10000 + phdr i < eph -> ~ seg_empty i ->
  exists s', boot_segs (S f) (0x10000 + phdr i) eph s = boot_segs f (0x10000 + phdr (i + 1)) eph s' /\
    ready s' img /\ loaded (phys s') i /\ forall k, k < seg_from i -> phys s' k = phys s k.
Proof.
  intros Him Hr Hs Hi He Hne. destruct (im_seg Him i Hi Hne) as (Hfm & Hfrom & Htop). pose proof (im_hdrs Him) as Hh.
  destruct (scratch_seg _ _ Him Hs Hi) as (E1 & E2 & E3 & E4).
  pose proof (u32_at_range img (phdr i + 4)) as R1. fold (ph_off img (phdr i)) in R1. fold (seg_off i) in R1.
  pose proof (u32_at_range img (phdr i + 16)) as R2. fold (ph_filesz img (phdr i)) in R2. fold (seg_filesz i) in R2.
  pose proof (phdr_range i Him Hi) as Hhi.
  unfold seg_from in *.
  destruct (readseg_run s img (seg_pa i) (seg_filesz i) (seg_off i) Hr) as (s1 & Er & Hr1 & Hm1); [zlia..|]. cbn zeta in Hm1.
  assert (Hs1 : scratch (phys s1)).
  { intros k Hk. rewrite Hm1, (proj2 (Z.leb_gt _ _)) by lia. by apply Hs. }
  destruct (scratch_seg _ _ Him Hs1 Hi) as (F1 & F2 & F3 & F4).
  assert (Hn : seg_filesz i + seg_off i mod 512 <= 512 * sectors (seg_filesz i) (seg_off i)) by (unfold sectors; zlia).
  set (s2 := if seg_filesz i <? seg_memsz i then
    upd_phys (store_at (seg_pa i + seg_filesz i) (replicate (Z.to_nat (seg_memsz i - seg_filesz i)) 0)) s1 else s1).
  exists s2. split_and!.
  - cbn [boot_segs]. destruct (Z.ltb_spec (0x10000 + phdr i) eph); [|lia]. erewrite bind_ok by (unfold gets; reflexivity).
    rewrite E1, E2, E3. erewrite bind_ok by exact Er. erewrite bind_ok by (unfold gets; reflexivity). rewrite F3, F4.
    rewrite (bind_ok _ _ _ tt s2).
    + unfold sizeof_proghdr. rewrite u32_small by lia.
      f_equal. unfold phdr. lia.
    + unfold s2. pose proof (u32_at_range img (phdr i + 12)) as R4. fold (ph_paddr img (phdr i)) in R4. fold (seg_pa i) in R4.
      destruct (seg_filesz i <? seg_memsz i); [|done]. rewrite u32_small by lia. done.
  - unfold s2. by destruct (_ <? _).
  - intros k Hk. assert (Hin : k < seg_filesz i -> phys s1 (seg_pa i + k) = img (seg_off i + k)).
    { intros Hkf. rewrite Hm1. rewrite (proj2 (Z.leb_le _ _)), (proj2 (Z.ltb_lt _ _)) by zlia. cbn [andb]. f_equal. lia. }
    unfold s2. destruct (Z.ltb_spec (seg_filesz i) (seg_memsz i)); destruct (Z.ltb_spec k (seg_filesz i)); try lia.
    + simpl. unfold store_at. rewrite (proj2 (Z.leb_gt _ _)) by lia. by apply Hin.
    + simpl. unfold store_at. rewrite length_replicate, (proj2 (Z.leb_le _ _)), (proj2 (Z.ltb_lt _ _)) by lia. cbn [andb].
      apply lookup_total_replicate_2. lia.
  - intros k Hk. assert (Hout : phys s1 k = phys s k) by (rewrite Hm1, (proj2 (Z.leb_gt _ _)) by lia; done).
    unfold s2. destruct (_ <? _); [|done]. simpl. unfold store_at. pose proof (Z.mod_pos_bound (seg_off i) 512 ltac:(lia)).
    rewrite (proj2 (Z.leb_gt _ _)) by lia. done.
Qed.

Lemma boot_segs_run n : forall (s : st) i, image_ok -> ready s img -> scratch (phys s) -> 0 <= i -> i + Z.of_nat n = nseg ->
  (forall j, 0 <= j < i -> loaded (phys s) j) ->
  exists s', boot_segs (n + 1) (0x10000 + phdr i) (0x10000 + phdr nseg) s = Ok tt s' /\ scratch (phys s') /\
    forall j, 0 <= j < nseg -> loaded (phys s') j.
Proof.
  induction n as [|n IH]; intros s i Him Hr Hs Hi Hn Hl.
  - assert (i = nseg) as -> by lia. exists s. cbn [Nat.add boot_segs]. by rewrite Z.ltb_irrefl.
  - destruct (decide (seg_empty i)) as [He|Hne].
    { destruct (IH s (i + 1) Him Hr Hs ltac:(lia) ltac:(lia)) as (s2 & E2 & Hs2 & Hl2).
      - intros j Hj. destruct (decide (j = i)) as [->|]; [|apply Hl; lia]. intros k Hk. destruct He. lia.
      - exists s2. split; [|done]. cbn [Nat.add]. rewrite empty_seg; [done..|lia|unfold phdr; lia|done]. }
    destruct (one_seg s i (n + 1) (0x10000 + phdr nseg) Him Hr Hs ltac:(lia)) as (s1 & E & Hr1 & Hl1 & Hk1); [unfold phdr; lia|done|].
    destruct (im_seg Him i ltac:(lia) Hne) as (_ & Hfrom & _).
    destruct (IH s1 (i + 1) Him Hr1) as (s2 & E2 & Hs2 & Hl2).
    + intros k Hk. rewrite Hk1 by lia. by apply Hs.
    + lia.
    + lia.
    + intros j Hj. destruct (decide (j = i)) as [->|]; [done|]. intros k Hk.
      assert (Hj' : ~ seg_empty j) by (intros []; lia).
      rewrite Hk1; [apply Hl; lia|]. pose proof (im_apart Him j i ltac:(lia) ltac:(lia) Hj' Hne). lia.
    + exists s2. split; [|done]. cbn [Nat.add]. by rewrite E.
Qed.
End Image.

Lemma boot_scratch (s : st) img : ready s img -> exists s1, readseg 0x10000 4096 0 s = Ok tt s1 /\ ready s1 img /\ scratch img (phys s1).
Proof.
  intros Hr. destruct (readseg_run s img 0x10000 4096 0 Hr) as (s1 & E & Hr1 & Hm); [(lia || done)..|]. exists s1. split_and!; [done|done|].
  intros k Hk. rewrite Hm. change (512 * sectors 4096 0) with 4096. change (0 mod 512) with 0.
  rewrite (proj2 (Z.leb_le _ _)), (proj2 (Z.ltb_lt _ _)) by lia. cbn [andb]. f_equal. lia.
Qed.

(** C13. The boot loader loads the kernel: from an image whose segments are
    laid out as [image_ok] says, when [bootmain] jumps to the entry point,
    every segment is at its physical address, its file part as on the disk and
    the rest zero. *)
Theorem bootmain_loads (s : st) img :
  ready s img -> image_ok img ->
  exists s', bootmain s = Ok (Some (elf_entry img 0)) s' /\ forall i, 0 <= i < nseg img -> loaded img (phys s') i.
Proof.
  intros Hr Him. destruct (boot_scratch s img Hr) as (s1 & E1 & Hr1 & Hs1). unfold bootmain.
  erewrite bind_ok by exact E1. erewrite bind_ok by (unfold gets; reflexivity).
  pose proof (u32_at_range img 28) as R. pose proof (u16_at_range img 44) as R2. pose proof (im_hdrs _ Him) as Hh.
  assert (Em : elf_magic (phys s1) 0x10000 = ELF_MAGIC).
  { rewrite <- (im_magic _ Him). exact (scratch_u32 img (phys s1) 0 Hs1 ltac:(lia) ltac:(lia)). }
  rewrite Em. change (negb (ELF_MAGIC =? ELF_MAGIC)) with false. cbn iota.
  assert (Ep : elf_phoff (phys s1) 0x10000 = elf_phoff img 0) by exact (scratch_u32 img (phys s1) 28 Hs1 ltac:(lia) ltac:(lia)).
  assert (En : elf_phnum (phys s1) 0x10000 = nseg img) by exact (scratch_u16 img (phys s1) 44 Hs1 ltac:(lia) ltac:(lia)).
  rewrite Ep, En. assert (Hb : 0 <= elf_phoff img 0 /\ 0 <= nseg img) by (split; [apply R|apply R2]).
  unfold phdr, sizeof_proghdr in *. rewrite (u32_small (0x10000 + _)) by lia. rewrite u32_small by lia.
  destruct (boot_segs_run img (Z.to_nat (nseg img)) s1 0 Him Hr1 Hs1) as (s2 & E2 & Hs2 & Hl2); [lia|lia|lia|].
  unfold phdr in E2. rewrite Z.mul_0_r, Z.add_0_r, Z.add_assoc in E2. erewrite bind_ok by exact E2.
  erewrite bind_ok by (unfold gets; reflexivity). exists s2. split; [|done]. unfold ret. do 2 f_equal.
  exact (scratch_u32 img (phys s2) 24 Hs2 ltac:(lia) ltac:(lia)).
Qed.

(** Anything else than an ELF image is not entered. *)
Theorem bootmain_rejects (s : st) img :
  ready s img -> elf_magic img 0 <> ELF_MAGIC -> exists s', bootmain s = Ok None s'.
Proof.
  intros Hr Hm. destruct (boot_scratch s img Hr) as (s1 & E1 & Hr1 & Hs1). unfold bootmain.
  erewrite bind_ok by exact E1. erewrite bind_ok by (unfold gets; reflexivity). exists s1.
  assert (Em : elf_magic (phys s1) 0x10000 = elf_magic img 0) by exact (scratch_u32 img (phys s1) 0 Hs1 ltac:(lia) ltac:(lia)).
  rewrite Em, (proj2 (Z.eqb_neq _ _)) by done. done.
Qed.
End Boot.

(** ** The segments of the start *)

Definition seg_base (d : segdesc) : Z := base_15_0 d + 65536 * base_23_16 d + 16777216 * base_31_24 d.

(** The last address of the segment. *)
Definition seg_last (d : segdesc) : Z :=
  let lim := lim_15_0 d + 65536 * lim_19_16 d in if sd_g d =? 1 then 4096 * lim + 4095 else lim.

(** Segmentation is out of the way: all four segments cover the whole address
    space, two for the kernel and two for user programs. *)
Lemma seginit_flat gdt : length gdt = 6%nat ->
  forall i, 1 <= i <= 4 -> exists d, seginit gdt !! Z.to_nat i = Some d /\
    seg_base d = 0 /\ seg_last d = 4294967295 /\ sd_p d = 1 /\ sd_dpl d = if i <=? 2 then 0 else DPL_USER.
Proof.
  intros Hl i Hi. do 6 (destruct gdt as [|? gdt]; [done|]).
  assert (i = 1 \/ i = 2 \/ i = 3 \/ i = 4) as Hc by lia. destruct Hc as [-> | [-> | [-> | ->]]]; by eexists.
Qed.

(** ** A disk with a small kernel *)

Notation two := (2%nat : Waits).

#[export] Instance adisk_poll : @AtaPoll adisk adisk_hw adisk_ata two.
Proof.
  split. intros d c Hd. exists 1%nat. split; [unfold waits; lia|]. split; [done|].
  intros k Hk. assert (k = O) as -> by lia. simpl in *. by destruct (ad_phase d).
Qed.

(** One segment: 8 bytes at 0x1000 in the file, 16 bytes at 0x100000. *)
Definition demo_elf : list Z :=
  [0x7F; 0x45; 0x4C; 0x46] ++ replicate 20 0 ++ [0x0C; 0; 0x10; 0] ++ [52; 0; 0; 0] ++ replicate 12 0 ++ [1; 0] ++ replicate 6 0 ++
  [1; 0; 0; 0] ++ [0; 0x10; 0; 0] ++ [0; 0; 0; 0] ++ [0; 0; 0x10; 0] ++ [8; 0; 0; 0] ++ [16; 0; 0; 0] ++ replicate 8 0.

Definition demo_img (k : Z) : Z :=
  if k <? 0x1000 then default 0 (demo_elf !! Z.to_nat k) else if k <? 0x1008 then k - 0xFFF else 0.

Definition demo_sect (l : Z) : list Z := (fun j => demo_img (512 * (l - 1) + j)) <$> seqZ 0 512.

Definition demo_boot_st : bst (D := adisk) :=
  Bst (Adisk P_idle (fun _ => 0) (fun _ l => demo_sect l)) (fun _ => 0xCC).

Lemma demo_boot_ready : ready demo_boot_st demo_img.
Proof.
  split; [done|]. intros n Hn. change (sect (bo_dev demo_boot_st) 0 (n + 1)) with (demo_sect (n + 1)). unfold demo_sect.
  split; [by rewrite length_fmap, length_seqZ|]. intros j Hj.
  apply list_lookup_total_correct. rewrite list_lookup_fmap, lookup_seqZ_lt by lia. cbn [fmap option_fmap option_map]. do 2 f_equal. lia.
Qed.

Lemma demo_image_ok : image_ok demo_img.
Proof.
  assert (En : nseg demo_img = 1) by (vm_compute; reflexivity).
  split.
  - vm_compute. reflexivity.
  - by vm_compute.
  - rewrite En. intros i Hi. assert (i = 0) as -> by lia. by vm_compute.
  - rewrite En. lia.
Qed.

Lemma bootmain_loads_witness :
  exists s', bootmain (H0 := two) demo_boot_st = Ok (Some 0x10000C) s' /\ phys s' 0x100007 = 8 /\ phys s' 0x100008 = 0.
Proof.
  destruct (bootmain_loads (H1 := two) ltac:(unfold waits; lia) demo_boot_st demo_img demo_boot_ready demo_image_ok) as (s' & E & Hl).
  assert (Ee : elf_entry demo_img 0 = 0x10000C) by (vm_compute; reflexivity). rewrite Ee in E.
  assert (Ep : seg_pa demo_img 0 = 0x100000) by (vm_compute; reflexivity).
  assert (Em : seg_memsz demo_img 0 = 16) by (vm_compute; reflexivity).
  assert (Ef : seg_filesz demo_img 0 = 8) by (vm_compute; reflexivity).
  assert (Eo : seg_off demo_img 0 = 0x1000) by (vm_compute; reflexivity).
  assert (En : nseg demo_img = 1) by (vm_compute; reflexivity). rewrite En in Hl.
  pose proof (Hl 0 ltac:(clear; lia)) as Hl0. unfold loaded in Hl0. rewrite Ep, Em, Ef, Eo in Hl0.
  exists s'. split; [exact E|]. split.
  - change 0x100007 with (0x100000 + 7). rewrite (Hl0 7 ltac:(clear; lia)). vm_compute. reflexivity.
  - change 0x100008 with (0x100000 + 8). rewrite (Hl0 8 ltac:(clear; lia)). reflexivity.
Defined.
