(* ===== verification/ApicProps.v ===== *)
(** * Interrupt routing and the clock

    After [ioapicinit] and the calls of [ioapicenable] exactly the interrupts
    asked for are delivered, each with its own vector to its CPU; [cmostime]
    reads the date out of the clock in either of its encodings. *)

From S2P Require Import Prelude Machine Hw StringC Spinlock Kalloc Vm Kernel Sleep Trap Apic.

(** ** The I/O APIC *)

(** A window of two words, a register's index and its value. *)
Class IoApic (D : Type) `{Hw D} := {
  iosel : D -> Z;
  ioreg : D -> Z -> Z;
  io_sel : forall d r, iosel (bus_out 4 0xFEC00000 r d) = r /\ forall k, ioreg (bus_out 4 0xFEC00000 r d) k = ioreg d k;
  io_rd : forall d, bus_in 0xFEC00010 d = (ioreg d (iosel d), d);
  io_wr : forall d v, iosel (bus_out 4 0xFEC00010 v d) = iosel d /\
    forall k, ioreg (bus_out 4 0xFEC00010 v d) k = if k =? iosel d then v else ioreg d k }.

(** The vector and the CPU an interrupt is delivered with, unless masked. *)
Definition route {D} `{IoApic D} (d : D) (irq : Z) : option (Z * Z) :=
  if bit_set (ioreg d (0x10 + 2 * irq)) 0x10000 then None
  else Some (ioreg d (0x10 + 2 * irq) mod 256, ioreg d (0x10 + 2 * irq + 1) / 16777216).

(** The last of the calls for [irq]. *)
Definition asked (l : list (Z * Z)) (irq : Z) : option (Z * Z) :=
  foldl (fun r e => if e.1 =? irq then Some (T_IRQ0 + irq, e.2) else r) None l.

Section IoApic.
Context {D : Type} `{IoApic D}.

Lemma ioapicread_run (s : D) r :
  exists d, ioapicread r s = Ok (u32 (ioreg s r)) d /\ forall k, ioreg d k = ioreg s k.
Proof.
  destruct (io_sel s r) as [E1 E2]. set (d := bus_out 4 0xFEC00000 r s) in *. exists d. split; [|done].
  unfold ioapicread. erewrite bind_ok by (unfold mwrite, modify; reflexivity). unfold mread. change (IOAPIC + 16) with 0xFEC00010.
  change IOAPIC with 0xFEC00000. cbn [get_dev set_dev dev_self]. fold d. rewrite io_rd. cbn [fst snd]. by rewrite E1, E2.
Qed.

Lemma ioapicwrite_run (s : D) r v :
  exists d, ioapicwrite r v s = Ok tt d /\ forall k, ioreg d k = if k =? r then u32 v else ioreg s k.
Proof.
  destruct (io_sel s r) as [E1 E2]. set (d := bus_out 4 0xFEC00000 r s) in *.
  destruct (io_wr d (u32 v)) as [_ W]. exists (bus_out 4 0xFEC00010 (u32 v) d). split; [done|].
  intros k. rewrite W, E1, E2. done.
Qed.

(** The two words of an entry. *)
Lemma entry_run (s : D) irq lo hi :
  exists d, (ioapicwrite (0x10 + 2 * irq) lo ;; ioapicwrite (0x10 + 2 * irq + 1) hi) s = Ok tt d /\
    ioreg d (0x10 + 2 * irq) = u32 lo /\ ioreg d (0x10 + 2 * irq + 1) = u32 hi /\
    forall k, k <> 0x10 + 2 * irq -> k <> 0x10 + 2 * irq + 1 -> ioreg d k = ioreg s k.
Proof.
  destruct (ioapicwrite_run s (0x10 + 2 * irq) lo) as (d1 & E1 & R1).
  destruct (ioapicwrite_run d1 (0x10 + 2 * irq + 1) hi) as (d2 & E2 & R2).
  exists d2. split; [by erewrite bind_ok|]. split_and!.
  - rewrite R2, R1, Z.eqb_refl. by rewrite (proj2 (Z.eqb_neq _ _)) by lia.
  - by rewrite R2, Z.eqb_refl.
  - intros k Hk1 Hk2. by rewrite R2, R1, !(proj2 (Z.eqb_neq _ _)) by done.
Qed.

Lemma route_other (d s : D) irq i : i <> irq ->
  (forall k, k <> 0x10 + 2 * irq -> k <> 0x10 + 2 * irq + 1 -> ioreg d k = ioreg s k) -> route d i = route s i.
Proof. intros Hi Hk. unfold route. by rewrite !Hk by lia. Qed.

Lemma masked i : 0 <= i < 256 -> bit_set (u32 (Z.lor 0x10000 (T_IRQ0 + i))) 0x10000 = true.
Proof.
  intros Hi. assert (E : forallb (fun i => bit_set (u32 (Z.lor 0x10000 (T_IRQ0 + i))) 0x10000) (seqZ 0 256) = true) by (vm_compute; reflexivity).
  rewrite forallb_forall in E. apply E, list_elem_of_In, elem_of_seqZ. lia.
Qed.

Lemma unmasked i : 0 <= i < 224 -> bit_set (u32 (T_IRQ0 + i)) 0x10000 = false.
Proof.
  intros Hi. assert (E : forallb (fun i => negb (bit_set (u32 (T_IRQ0 + i)) 0x10000)) (seqZ 0 224) = true) by (vm_compute; reflexivity).
  rewrite forallb_forall in E. apply negb_true_iff, E, list_elem_of_In, elem_of_seqZ. lia.
Qed.

Lemma ioapicenable_run (s : D) irq cpu : 0 <= irq < 224 -> 0 <= cpu < 256 ->
  exists d, ioapicenable irq cpu s = Ok tt d /\
    forall i, route d i = if irq =? i then Some (T_IRQ0 + i, cpu) else route s i.
Proof.
  intros Hi Hc. destruct (entry_run s irq (T_IRQ0 + irq) (Z.shiftl cpu 24)) as (d & E & E1 & E2 & E3). exists d. split; [done|].
  intros i. destruct (Z.eqb_spec irq i) as [<-|Hn].
  - unfold route. rewrite E1, E2, unmasked by done. rewrite Z.shiftl_mul_pow2 by lia. change (2 ^ 24) with 16777216.
    unfold T_IRQ0. rewrite !u32_small by lia. do 2 f_equal; zlia.
  - by apply (route_other d s irq).
Qed.

Lemma mask_run l : forall s : D, Forall (fun i => 0 <= i < 256) l ->
  exists d, for_all l (fun i => ioapicwrite (0x10 + 2 * i) (Z.lor 0x10000 (T_IRQ0 + i)) ;; ioapicwrite (0x10 + 2 * i + 1) 0) s = Ok tt d /\
    (forall i, i ∈ l -> route d i = None) /\ forall i, i ∉ l -> route d i = route s i.
Proof.
  induction l as [|j l IH]; intros s Hl; [exists s; split_and!; [done|set_solver|done]|]. apply Forall_cons_1 in Hl as [Hj Hl].
  destruct (entry_run s j (Z.lor 0x10000 (T_IRQ0 + j)) 0) as (d1 & E1 & R1 & _ & R3). destruct (IH d1 Hl) as (d2 & E2 & M2 & O2).
  exists d2. split; [cbn [for_all]; by erewrite bind_ok|]. split.
  - intros i Hi. destruct (decide (i ∈ l)) as [|Hil]; [by apply M2|]. assert (i = j) as -> by set_solver.
    rewrite O2 by done. unfold route. by rewrite R1, masked.
  - intros i Hi. rewrite O2 by set_solver. apply (route_other d1 s j); [set_solver|done].
Qed.

Lemma enable_all_run n l : forall (s : D) r, Forall (fun e => 0 <= e.1 < 224 /\ 0 <= e.2 < 256) l ->
  (forall i, 0 <= i < n -> route s i = r i) ->
  exists d, for_all l (fun e => ioapicenable e.1 e.2) s = Ok tt d /\
    forall i, 0 <= i < n -> route d i = foldl (fun r e => if e.1 =? i then Some (T_IRQ0 + i, e.2) else r) (r i) l.
Proof.
  induction l as [|[irq cpu] l IH]; intros s r Hl Hr; [by exists s|]. apply Forall_cons_1 in Hl as [[H1 H2] Hl].
  destruct (ioapicenable_run s irq cpu H1 H2) as (d1 & E1 & R1).
  destruct (IH d1 (fun i => if irq =? i then Some (T_IRQ0 + i, cpu) else r i) Hl) as (d2 & E2 & R2).
  { intros i Hi. rewrite R1. destruct (irq =? i); [done|by apply Hr]. }
  exists d2. split; [cbn [for_all]; by erewrite bind_ok|]. intros i Hi. rewrite R2 by done. done.
Qed.

(** C32. Exactly the interrupts asked for are delivered: after [ioapicinit] and any
    calls of [ioapicenable], every interrupt line of the controller is masked
    or, if it was enabled, delivered with vector [T_IRQ0 + irq] to the CPU of
    the last call. *)
Theorem ioapic_routes (s : D) l :
  Forall (fun e => 0 <= e.1 < 224 /\ 0 <= e.2 < 256) l ->
  let lines := Z.land (Z.shiftr (u32 (ioreg s 1)) 16) 0xFF + 1 in
  exists d, (ioapicinit ;; for_all l (fun e => ioapicenable e.1 e.2)) s = Ok tt d /\
    forall i, 0 <= i < lines -> route d i = asked l i.
Proof.
  intros Hl lines. unfold ioapicinit. destruct (ioapicread_run s 1) as (d1 & E1 & R1). destruct (ioapicread_run d1 0) as (d2 & E2 & R2).
  assert (Hr : 0 <= lines <= 256).
  { unfold lines. change 0xFF with (Z.ones 8). rewrite Z.land_ones by lia. change (2 ^ 8) with 256. zlia. }
  destruct (mask_run (seqZ 0 lines) d2) as (d3 & E3 & M3 & _).
  { apply list.Forall_forall. intros i Hi%elem_of_seqZ. lia. }
  destruct (enable_all_run lines l d3 (fun _ => None) Hl) as (d4 & E4 & R4).
  { intros i Hi. apply M3, elem_of_seqZ. lia. }
  exists d4. split; [|exact R4]. rewrite (bind_ok _ _ _ tt d3); [exact E4|].
  erewrite bind_ok by exact E1. erewrite bind_ok by exact E2. exact E3.
Qed.
End IoApic.

(** ** The clock *)

(** The registers of the clock behind an index and a data port. *)
Class Rtc (D : Type) `{Hw D} := {
  rtcsel : D -> Z;
  rtcreg : D -> Z -> Z;
  rtc_sel : forall d r, 0 <= r < 256 -> rtcsel (port_out 0x70 r d) = r /\ forall k, rtcreg (port_out 0x70 r d) k = rtcreg d k;
  rtc_rd : forall d, port_in 0x71 d = (rtcreg d (rtcsel d), d) }.

(** The six registers hold [t], in binary or in binary-coded decimal. *)
Definition clock_holds {D} `{Rtc D} (d : D) (t : rtcdate) : Prop :=
  let code n := if Z.land (rtcreg d 0x0b) 4 =? 0 then 16 * (n / 10) + n mod 10 else n in
  rtcreg d 0x00 = code (second t) /\ rtcreg d 0x02 = code (minute t) /\ rtcreg d 0x04 = code (hour t) /\
  rtcreg d 0x07 = code (day t) /\ rtcreg d 0x08 = code (month t) /\ rtcreg d 0x09 = code (year t).

Record two_digits (t : rtcdate) : Prop := {
  td_second : 0 <= second t < 100; td_minute : 0 <= minute t < 100; td_hour : 0 <= hour t < 100;
  td_day : 0 <= day t < 100; td_month : 0 <= month t < 100; td_year : 0 <= year t < 100 }.

Section Rtc.
Context {D : Type} `{Rtc D} `{Waits} (Hw1 : (0 < waits)%nat).

Lemma cmos_read_run (s : D) r : 0 <= r < 256 -> 0 <= rtcreg s r < 256 ->
  exists d, cmos_read r s = Ok (rtcreg s r) d /\ forall k, rtcreg d k = rtcreg s k.
Proof.
  intros Hr Hv. destruct (rtc_sel s r Hr) as [E1 E2]. exists (port_out 0x70 r s). split; [|done]. unfold cmos_read.
  erewrite bind_ok by (unfold outb, modify; reflexivity). unfold inb. cbn [get_dev set_dev dev_self]. rewrite (u8_small r) by done.
  rewrite rtc_rd. cbn [fst snd]. by rewrite E1, E2, u8_small.
Qed.

Lemma fill_run (s : D) : (forall k, 0 <= rtcreg s k < 256) ->
  exists d, fill_rtcdate s = Ok (Rtcdate (rtcreg s 0) (rtcreg s 2) (rtcreg s 4) (rtcreg s 7) (rtcreg s 8) (rtcreg s 9)) d /\
    forall k, rtcreg d k = rtcreg s k.
Proof.
  intros Hb. unfold fill_rtcdate.
  destruct (cmos_read_run s 0 ltac:(lia) (Hb _)) as (d1 & E1 & R1). erewrite bind_ok by exact E1.
  destruct (cmos_read_run d1 2 ltac:(lia) ltac:(by rewrite R1)) as (d2 & E2 & R2). erewrite bind_ok by exact E2.
  destruct (cmos_read_run d2 4 ltac:(lia) ltac:(by rewrite R2, R1)) as (d3 & E3 & R3). erewrite bind_ok by exact E3.
  destruct (cmos_read_run d3 7 ltac:(lia) ltac:(by rewrite R3, R2, R1)) as (d4 & E4 & R4). erewrite bind_ok by exact E4.
  destruct (cmos_read_run d4 8 ltac:(lia) ltac:(by rewrite R4, R3, R2, R1)) as (d5 & E5 & R5). erewrite bind_ok by exact E5.
  destruct (cmos_read_run d5 9 ltac:(lia) ltac:(by rewrite R5, R4, R3, R2, R1)) as (d6 & E6 & R6). erewrite bind_ok by exact E6.
  exists d6. split; [|intros k; by rewrite R6, R5, R4, R3, R2, R1].
  unfold ret. f_equal. by rewrite !R5, !R4, !R3, !R2, !R1.
Qed.

Lemma CONV_bcd n : 0 <= n < 100 -> CONV (16 * (n / 10) + n mod 10) = n.
Proof.
  intros Hn. unfold CONV. rewrite Z.shiftr_div_pow2 by lia. change 0xf with (Z.ones 4). rewrite Z.land_ones by lia.
  change (2 ^ 4) with 16. rewrite u32_small by zlia. zlia.
Qed.

(** C40. [cmostime] is right: when the clock is not being updated, whichever of
    its two encodings it uses, the result is the date it holds, in the
    century of 2000. *)
Theorem cmostime_exact (s : D) t :
  clock_holds s t -> two_digits t -> (forall k, 0 <= rtcreg s k < 256) -> bit_set (rtcreg s 0x0a) 0x80 = false ->
  exists d, cmostime s = Ok (Rtcdate (second t) (minute t) (hour t) (day t) (month t) (2000 + year t)) d.
Proof.
  intros (C1 & C2 & C3 & C4 & C5 & C6) [T1 T2 T3 T4 T5 T6] Hb Hup. unfold cmostime.
  destruct (cmos_read_run s 0x0b ltac:(lia) (Hb _)) as (d0 & E0 & R0). erewrite bind_ok by exact E0.
  assert (Hb0 : forall k, 0 <= rtcreg d0 k < 256) by (intros k; by rewrite R0).
  destruct (fill_run d0 Hb0) as (d1 & E1 & R1).
  destruct (cmos_read_run d1 0x0a ltac:(lia) ltac:(by rewrite R1)) as (d2 & E2 & R2).
  destruct (fill_run d2 ltac:(intros k; by rewrite R2, R1)) as (d3 & E3 & R3).
  assert (exists w, waits = S w) as [w Ew] by (exists (waits - 1)%nat; lia). rewrite Ew. cbn [loop].
  erewrite bind_ok.
  2: { erewrite bind_ok by (erewrite bind_ok by exact E1; erewrite bind_ok by exact E2; rewrite R1, R0, Hup;
         erewrite bind_ok by exact E3; rewrite !R2, !R1; unfold rtc_eqb; cbn [second minute hour day month year];
         rewrite !Z.eqb_refl; reflexivity).
       reflexivity. }
  exists d3. unfold ret. f_equal. rewrite !R0, C1, C2, C3, C4, C5, C6. cbn [second minute hour day month year].
  destruct (Z.land (rtcreg s 0x0b) 4 =? 0); cbn [second minute hour day month year]; rewrite ?CONV_bcd by done;
    rewrite u32_small by lia; by rewrite Z.add_comm.
Qed.
End Rtc.

(** ** Devices *)

(** An I/O APIC and a clock: an index and registers. *)
Record regs := Regs { rg_sel : Z; rg_val : Z -> Z }.

#[export] Instance regs_hw : Hw regs := {|
  port_in p d := (rg_val d (rg_sel d), d);
  port_out p v d := if p =? 0x70 then Regs v (rg_val d) else d;
  port_ins _ _ d := ([], d); port_outs _ _ d := d;
  bus_in a d := (rg_val d (rg_sel d), d);
  bus_out w a v d :=
    if a =? 0xFEC00000 then Regs v (rg_val d) else Regs (rg_sel d) (fun k => if k =? rg_sel d then v else rg_val d k) |}.

#[export, refine] Instance regs_ioapic : IoApic regs := {| iosel := rg_sel; ioreg := rg_val |}.
Proof. all: done. Defined.

#[export, refine] Instance regs_rtc : Rtc regs := {| rtcsel := rg_sel; rtcreg := rg_val |}.
Proof. all: done. Defined.

Lemma ioapic_routes_witness :
  exists d, (ioapicinit ;; for_all [(1, 0); (14, 1)] (fun e => ioapicenable e.1 e.2)) (Regs 0 (fun k => if k =? 1 then 0x170011 else 0)) = Ok tt d /\
    route d 14 = Some (46, 1) /\ route d 4 = None.
Proof.
  destruct (ioapic_routes (Regs 0 (fun k => if k =? 1 then 0x170011 else 0)) [(1, 0); (14, 1)]) as (d & E & R).
  - repeat constructor; simpl; lia.
  - exists d. split; [exact E|]. split; rewrite R by (vm_compute; split; congruence); reflexivity.
Defined.

(** 31 December 2023, 23:59:58, in BCD. *)
Lemma cmostime_exact_witness :
  exists d, cmostime (H1 := (1%nat : Waits))
    (Regs 0 (fun k => if k =? 0 then 0x58 else if k =? 2 then 0x59 else if k =? 4 then 0x23 else
                      if k =? 7 then 0x31 else if k =? 8 then 0x12 else if k =? 9 then 0x23 else 0)) =
    Ok (Rtcdate 58 59 23 31 12 2023) d.
Proof.
  apply (cmostime_exact (H1 := (1%nat : Waits)) (le_n 1) _ (Rtcdate 58 59 23 31 12 23)).
  - by repeat split.
  - split; simpl; lia.
  - intros k. simpl. repeat destruct (_ =? _); lia.
  - reflexivity.
Defined.
